(* ===== verification/_CoqProject ===== *)
-Q . S2P
Prelude.v
Prog.v
CLib.v
Sdk.v
ToolBase.v
ToolWallet.v
ToolCert.v
Tool.v
PidLock.v
Signals.v
NodeCli.v
NodeManager.v
Daemon.v
NodeInstances.v
ConfStr.v
ConfBase.v
ConfSubst.v
ConfTemplate.v
ConfFile.v
ConfService.v
ConfCmd.v
ConfNet.v
ConfSet.v
ConfIdem.v
ConfScript.v
ConfInv.v
ConfRun.v
ConfSim.v
ConfSafe.v
ConfFill.v
ConfInstall.v
ConfRepeat.v
ConfAgain.v
Jni.v
JniThreads.v
