(* ===== verification/Prelude.v ===== *)
(** * Verification of the Cellframe node

    The repository builds the programs around the DAP and Cellframe SDKs: the
    daemon [cellframe-node] ([sources/cellframe-node.c]), the console client
    [cellframe-node-cli] ([sources/main_node_cli.c]), the key and wallet utility
    [cellframe-node-tool] ([sources/main_node_tool.c]), the handlers of signals,
    console events and exceptions ([sources/sig_unix_handler.c],
    [sources/sig_win32_handler.c], [sources/exh_win32.c]), an UDP node manager
    ([sources/node_manager.c]), the configuration tool
    [cellframe-node-config] ([conftool/], C++) that installers run to write the
    node's configuration, and the native side of the Android service
    ([sources/android/node_jni.cpp]), which runs the node, the tool's scripts and
    the console client inside one process.  This development models these
    programs completely and proves what makes them correct.

    ** How the code is modelled

    The programs are glue: nearly every line calls the SDKs, which are git
    submodules and not part of the repository, or libc.  A C function is
    therefore translated to a program tree ([Prog.prog]): a call with its
    arguments and, for each answer, the rest of the function.  A function
    returns, calls [exit], or runs into undefined behaviour (a NULL dereference,
    an index out of range, signed overflow).  Early returns are the sum monad
    [Sdk.eprog].  [exec p tr o] says that some environment makes [p] perform the
    calls [tr] with the recorded answers and end with [o]; a theorem about all
    [exec]utions holds for every behaviour of the SDKs, of the file system and
    of the configuration.  [run] executes a program in one given environment, so
    that every theorem is also tried on concrete inputs.  Pure functions and
    constants of the SDK are the class [Sdk.Dap]; what the code relies on about
    them (comparison, duplication and formatting behave like their libc
    counterparts) is [Sdk.DapLaws], instantiated by [Sdk.demo_dap].

    Preprocessor symbols are the record [Sdk.build], so that one definition
    covers every platform.  Integers are [Z] with the conversions of the source
    written out ([size_t], [uint32_t], [exit_status], [strtoul], [int_range]);
    strings are [string], a [const char *] is [option string] with [None] for
    NULL, [argv[argc]] is NULL and anything behind it undefined ([CLib.argv_get]).

    The configuration tool computes on files and text itself, so its C++ is
    translated to functions of a state monad ([ConfBase.M]) over the record
    [ConfBase.st]: the variable storage, the files by path, what was printed and
    the commands that were spawned.  A computation ends in a value, a C++
    exception, undefined behaviour ([Ub]: an index out of range, [pop_back] of an
    empty vector, an uninitialised variable) or [Beyond], where it would leave
    what is modelled.  What the tool asks the host (operating system, host name,
    results of spawned commands, permissions, order of a directory, registry) is
    the class [ConfBase.Host], instantiated by [ConfBase.demo_host]; theorems hold
    for every host.  The Android service is a state monad over [Jni.jst] whose
    calls into the Java virtual machine are recorded.

    ** The files

    - [Prelude]: notation, hint databases and lemmas on strings.
    - [Prog]: program trees, executions, the predicates [all], [uniform], [safe],
      observational equivalence with its [Proper] instances, the tactic [psteps].
    - [CLib]: the libc functions the sources use, with the round trip of
      printing and scanning a number.
    - [Sdk]: the environment: every SDK and I/O function that is called, the
      types of their answers, data of the SDK, builds, concrete environments.
    - [ToolBase], [ToolWallet], [ToolCert], [Tool]: [main_node_tool.c].  [s_init],
      [s_help] and helpers; every wallet handler; every certificate handler; the
      table [s_opts], the search of [main] and [-B].
    - [PidLock]: [s_proc_running_check] of [cellframe-node.c], the part of POSIX it
      relies on (one file, buffered streams, [lockf] regions from the current
      offset) and a step relation of processes that start, run the check and stop
      in any interleaving.
    - [Signals]: the Unix and Windows handlers, with signal dispositions read off
      a trace.
    - [NodeCli]: [main_node_cli.c].
    - [NodeManager]: [node_manager.c].
    - [Daemon]: [main] of [cellframe-node.c] in the order of the source: [setup],
      [open_config], [check_instance], [configure_log], [start_transport],
      [start_chain], [start_services], [start_plugins], [start_networks],
      [start_server], [start_vpn], [go_online], [loop], [shutdown].
    - [NodeInstances]: the processes of [PidLock] running the whole [main] of
      [Daemon], and executable schedules of them.
    - [ConfStr]: the text functions of [conftool/commands/AbstractCommand] and what
      the tool uses of [std::string], [std::regex] and [std::filesystem::path].
    - [ConfBase]: the state, the monad, files and output, and the rules to reason
      about them ([only_prints], [pres], [wp]).
    - [ConfSubst]: the placeholders of [conftool/config/CellframeConfigFile.cpp]
      and [substitute_variables].
    - [ConfTemplate]: texts with references to variables, and their simultaneous
      substitution as the reference for [substitute_variables].
    - [ConfFile]: paths and the class [CellframeConfigurationFile] ([open_cfg],
      [exists_], [set_], [save], [replace_placeholders]), with the abstract view
      of a file as the kinds of its lines.
    - [ConfService]: [conftool/service] for Linux, macOS and Windows (one Module
      each) and the [service] command.
    - [ConfCmd]: constructor and execution of the commands [network], [config],
      [var], [if], [endif], [fromtemplate], [net_list], and the registry with
      [build].
    - [ConfNet], [ConfSet]: what the [network] and [net_list], and the [config] and
      [fromtemplate] commands do to the files.
    - [ConfIdem]: repeating a [config] command.
    - [ConfScript]: [conftool/main.cpp]: parsing a setup script, [run_commands] with
      its stack of conditions, [init_configs], [main].
    - [ConfInv], [ConfRun]: properties of whole scripts and of the command line.
    - [ConfSim]: states up to what was printed ([≈]) and a simulation of code that
      differs in what it prints.
    - [ConfSafe]: the tree and the variables the commands need ([orderly]), the
      predicate [safe], and a lemma for each command.
    - [ConfFill]: what [fromtemplate] writes, and [network ensure] against its
      documentation in [dist/share/default.setup].
    - [ConfInstall]: the shipped [dist/share/default.setup] and the templates of
      [dist/share/configs], run by the model.
    - [ConfRepeat], [ConfAgain]: what each command leaves behind, that later commands
      keep it, and that a command that finds it changes nothing; runs of the
      interpreter as a relation ([ran]), what a set-up establishes, and running it
      twice.
    - [Jni]: every native method of [NodeService], with the reachable states of the
      listener registry.
    - [JniThreads]: the methods that share the listeners as threads that interleave
      at every access to the vector, and executable schedules.

    ** What the theorems show

    - Refinement: wallet and certificate creation do what the usage text
      documents, as functions of the command line: the test for an existing file
      comes first and is part of the specification.  The multi-signature types of
      [wallet create], where code and usage text disagree, are excepted and
      proved as coded.  The tool's [main] equals a specification by the table;
      the daemon's [main] stops at the first failing critical step with exactly
      its code or runs the loop once and shuts down in order; the console client
      tests the directory of [-B] and calls the SDK once with the right words.
    - Safety: exporting a certificate never writes a private key, renaming never
      removes the original before the copy is saved and answers 0 exactly when
      the copy was saved and the original removed, no handler and no part of
      the daemon has undefined behaviour under stated conditions, which are shown
      to be necessary where the code does not meet them.
    - Concurrency: an invariant of the interleaved processes gives the exact
      mutual exclusion the pid file provides; it is proved with a small
      weakest-precondition calculus ([PidLock.wp]) over what one process knows.
      It is stated for whole daemons: at most one is in its event loop, unless
      the lengths of the pids are far apart.
    - Errors: exit statuses of failures are never 0; the codes of each module.
    - Bounds: path buffers, the array of signature types, metadata fields.
    - Configuration files: the line-by-line lookup equals a reference semantics on
      well-formed files; a parameter that was set is found again with its value as
      the reader cuts it (at a second equals sign, at a comment, at trailing
      blanks), no other parameter changes, and the file stays well-formed.
    - Networks: [network ensure] refines the state machine its documentation
      describes when the network already has a configuration or its template has
      nothing to fill in (a template with variables is copied as it is, which the
      documentation does not say), reaches the requested state and is idempotent;
      no script makes a network enabled and disabled at once ([fromtemplate]
      apart, which can).
    - Scripts: on properly nested scripts the interpreter computes a structured
      semantics; a script keeps every value the user chose that it does not
      itself force, the promise at the head of [main.cpp]; a set-up that succeeds
      establishes what each command it executed asks for; a dry run writes no file
      of its own, and spawns nothing unless a [service] command is given, which
      ignores the option; commands are well-typed when built; scripts with an unknown command are rejected
      before anything happens; a [config] command that is repeated changes no
      file, and neither does a whole set-up; a whole set-up has no undefined behaviour and leaves a tree that can be
      set up again; commands on the command line do what the same script does, and
      the verbose option only prints.
    - Templates: replacing the variables one after the other equals replacing them
      at once, and [fromtemplate] leaves the lines of the template trimmed, without
      their trailing comments and filled.
    - Installation: the shipped script, run on the shipped templates on any Linux
      host that may write, succeeds and makes the settings listed in
      [ConfInstall], and a second installation changes no file, whatever the tree
      it started from.
    - Android: in every interleaving in which no thread uses the listeners while
      another one changes them, no iterator is stale and no weak reference is used
      after it was deleted; methods run one after the other are such interleavings;
      nothing in the code keeps threads apart, and the schedules that go wrong are
      given.  A notification reaches every listener once.  Both hold where the
      virtual machine serves the native code: the thread is or can be attached,
      the listeners have the methods that are looked up, none was collected and
      none throws; what happens otherwise is shown on its own.

    Behaviour that is not what the code means to do is proved as it is, with
    the conditions under which it happens.

    ** Bounds and fuel

    Only the two argument loops of the wallet commands ([seed_loop],
    [types_loop]) need fuel; [length argv] is enough because every round
    advances the index, and the reference semantics they are proved equal to
    have no fuel.  In the configuration tool only [removeSubstring] needs fuel,
    the length of the string plus one, which is proved to be enough: every turn
    makes the string shorter.  Everything else is structural.

    ** What is not modelled

    The SDKs (parameters, as above).  Allocations the code does not test
    ([dap_strdup], [dap_strdup_printf], [DAP_NEW_Z_SIZE] without a test) are taken
    to succeed.  Colours of the Windows console in the usage text, and the
    directory [g_sys_dir_path] as the SDK reads it.  In [PidLock] the processes open
    only the pid file and a number lies in the first block read; in
    [NodeInstances] the SDK leaves the pid file alone and the configurations name
    the same one.  [dap_cert_add_meta] is taken to read exactly the length it is
    given, and [dap_cert_add_meta_scalar] to read it from a scalar of eight bytes.

    In the configuration tool files are keyed by the text of their path, with the
    separator of POSIX, no symbolic links and no dot components; what spawned
    programs do to files is not modelled, they are recorded in the state; line numbers stay in the range of [int].  The patterns given
    to [std::regex] are literal unless a variable's name has a byte that is
    special there, which ends in [Beyond]; formats follow libstdc++.
    [JniThreads] interleaves at the accesses to the listeners; the variable storage
    of the configuration tool, which [initConfigs] and [configure] share, is used by
    one thread at a time.  Whether an exception is pending in the virtual
    machine is a function of all calls made so far ([Jni.exception_after]), not of
    each thread's own.  [callSec] of [macos_auth.m], the declarations
    without a body, and the disabled option parser at the end of
    [cellframe-node.c] are called by nothing and left out, as are the Java side of
    the Android application and the packaging (Java, Python, shell and data). *)
From Stdlib Require Export ZArith Ascii.
From stdpp Require Export base list strings pretty numbers option.

(** A [const char *]: [None] is NULL. *)
Abbreviation cstr := (option string).

(** ** Notation of the development *)
Declare Scope node_scope.
Delimit Scope node_scope with node.
Infix "=s?" := String.eqb (at level 70, no associativity) : node_scope.
Infix "=z?" := Z.eqb (at level 70, no associativity) : node_scope.
#[global] Open Scope node_scope.

(** Characters that string literals do not show. *)
Definition NL : string := String "010" "".
Definition TAB : string := String "009" "".
Definition DQ : string := String "034" "".

(** [quoted s] is [s] between double quotes. *)
Definition quoted (s : string) : string := DQ +:+ s +:+ DQ.

(** The lemmas that automate the common cases. *)
Create HintDb node.
Create Rewrite HintDb node_str.

(** ** Lemmas on lists *)
(** Facts about every element, computed. *)
Lemma forallb_Forall {A} (f : A → bool) l : forallb f l = true → Forall (λ x, f x = true) l.
Proof. induction l as [|x l IH]; simpl; [done|]. intros [Hx Hl]%andb_prop. auto. Qed.

(** ** Lemmas on strings *)
Lemma string_app_cons c (s t : string) : String c s +:+ t = String c (s +:+ t).
Proof. done. Qed.

Lemma string_app_nil_r (s : string) : s +:+ "" = s.
Proof. induction s as [|c s IH]; [done|]. by rewrite string_app_cons, IH. Qed.

Lemma string_app_assoc (s t u : string) : s +:+ (t +:+ u) = (s +:+ t) +:+ u.
Proof. induction s as [|c s IH]; [done|]. by rewrite !string_app_cons, IH. Qed.

Lemma string_length_app (s t : string) :
  String.length (s +:+ t) = (String.length s + String.length t)%nat.
Proof. induction s as [|c s IH]; [done|]. rewrite string_app_cons. simpl. by rewrite IH. Qed.

Lemma substring_all (s : string) n : (String.length s ≤ n)%nat → String.substring 0 n s = s.
Proof.
  revert n; induction s as [|c s IH]; intros [|n] Hn; simpl in *; try done; try lia.
  f_equal. apply IH. lia.
Qed.

Lemma substring_length (s : string) n :
  String.length (String.substring 0 n s) = Nat.min n (String.length s).
Proof. revert n; induction s as [|c s IH]; intros [|n]; simpl; auto. Qed.

#[export] Hint Rewrite string_app_nil_r string_length_app substring_length : node_str.

(** ** Automation: replay the tests recorded in the context

    [use_tests] rewrites the goal with the outcomes of tests (hypotheses whose
    right-hand side is a constructor) and computes. *)
Ltac use_tests :=
  simpl in *;
  repeat (match goal with
          | H : ?t = true |- context [?t] => rewrite H
          | H : ?t = false |- context [?t] => rewrite H
          | H : ?t = Some _ |- context [?t] => rewrite H
          | H : ?t = None |- context [?t] => rewrite H
          end; simpl);
  simplify_eq/=; try done.

(** Turns boolean facts into propositions. *)
Ltac split_bools :=
  repeat match goal with
         | H : _ && _ = true |- _ => apply andb_prop in H as [? ?]
         | H : _ || _ = false |- _ => apply orb_false_elim in H as [? ?]
         | H : negb _ = true |- _ => apply negb_true_iff in H
         | H : negb _ = false |- _ => apply negb_false_iff in H
         | H : (_ =z? _) = true |- _ => apply Z.eqb_eq in H
         | H : (_ =z? _) = false |- _ => apply Z.eqb_neq in H
         end; simplify_eq.
