(* ===== verification/Prog.v ===== *)
(** * Effectful programs as trees of calls to their environment

    The C code of the node is almost entirely glue around functions that are
    not part of the repository: the DAP and Cellframe SDKs (git submodules)
    and libc I/O.  A program is therefore modelled as a tree of calls: [Vis c k]
    calls [c] and goes on with [k r] for the answer [r].  A leaf is a normal
    return, a call of [exit] or undefined behaviour.  This file defines the
    trees, their monad, the relation [exec] between a program, the trace of its
    calls and its outcome (for every possible environment), the executable
    [run] in one given environment, and the predicate [all] with which
    properties of all executions are proved. *)
From S2P Require Import Prelude.

Set Default Proof Using "Type".

Section Syntax.
  Context {call : Type} {ret : call → Type}.

Inductive prog (A : Type) : Type :=
  | Ret (a : A)
  | Exit (code : Z)
  | Undef
  | Vis (c : call) (k : ret c → prog A).

Fixpoint prog_bind_ {A B : Type} (f : A → prog B) (p : prog A) : prog B :=
  match p with
  | Ret _ a => f a
  | Exit _ z => Exit B z
  | Undef _ => Undef B
  | Vis _ c k => Vis B c (λ r, prog_bind_ f (k r))
  end.

(** How a program ends. *)
Inductive outcome (A : Type) : Type :=
  | Returned (a : A)
  | Exited (code : Z)
  | Undefined.

(** One call with the answer it got. *)
Record event : Type := Ev { ev_call : call; ev_ans : ret ev_call }.

(** An environment with state [W]. *)
Definition handler (W : Type) : Type := ∀ c : call, W → ret c * W.
End Syntax.

Arguments prog {call} ret A.
Arguments Ret {call ret A} a.
Arguments Exit {call ret A} code.
Arguments Undef {call ret A}.
Arguments Vis {call ret A} c k.
Arguments outcome A : clear implicits.
Arguments Returned {A} a.
Arguments Exited {A} code.
Arguments Undefined {A}.
Arguments event {call} ret.
Arguments Ev {call ret} ev_call ev_ans.
Arguments ev_call {call ret} e : rename.
Arguments ev_ans {call ret} e : rename.
Arguments handler {call} ret W.

Notation trace ret := (list (event ret)).

#[export] Instance prog_ret {call} {ret : call → Type} : MRet (prog ret) := λ A a, Ret a.
#[export] Instance prog_bind {call} {ret : call → Type} : MBind (prog ret) := λ A B f p, prog_bind_ f p.

(** A single call. *)
Definition perform {call} {ret : call → Type} (c : call) : prog ret (ret c) := Vis c Ret.

#[global] Arguments perform _ _ _ /.
#[global] Arguments prog_bind _ _ _ _ _ / _.
#[global] Arguments prog_ret _ _ _ / _.

Section Semantics.
  Context {call : Type} {ret : call → Type}.
  Implicit Types (tr : trace ret) (c : call).

(** [exec p tr o]: some environment makes [p] perform exactly the calls of
    [tr], with those answers, and end with [o]. *)
Fixpoint exec {A} (p : prog ret A) (tr : trace ret) (o : outcome A) : Prop :=
  match p with
  | Ret a => tr = [] ∧ o = Returned a
  | Exit z => tr = [] ∧ o = Exited z
  | Undef => tr = [] ∧ o = Undefined
  | Vis c k => ∃ r tr', tr = Ev c r :: tr' ∧ exec (k r) tr' o
  end.

(** [all P p]: every execution of [p] satisfies [P]. *)
Fixpoint all {A} (P : trace ret → outcome A → Prop) (p : prog ret A) : Prop :=
  match p with
  | Ret a => P [] (Returned a)
  | Exit z => P [] (Exited z)
  | Undef => P [] Undefined
  | Vis c k => ∀ r, all (λ tr o, P (Ev c r :: tr) o) (k r)
  end.

(** The execution in the environment [h] from its state [w]. *)
Fixpoint run {A W} (h : handler ret W) (p : prog ret A) (w : W) : trace ret * outcome A * W :=
  match p with
  | Ret a => ([], Returned a, w)
  | Exit z => ([], Exited z, w)
  | Undef => ([], Undefined, w)
  | Vis c k =>
      let '(r, w1) := h c w in
      let '(tr, o, w2) := run h (k r) w1 in
      (Ev c r :: tr, o, w2)
  end.

Lemma all_exec {A} (P : trace ret → outcome A → Prop) p :
  all P p ↔ ∀ tr o, exec p tr o → P tr o.
Proof.
  revert P; induction p as [a|z| |c k IH]; intros P; simpl; [split; [by intros HP tr o [-> ->]|intros HP; by apply HP]..|].
  split.
  - intros HP tr o (r & tr' & -> & He). exact (proj1 (IH r _) (HP r) tr' o He).
  - intros HP r. apply IH. intros tr o He. apply HP. eauto.
Qed.

Lemma exec_run {A W} (h : handler ret W) (p : prog ret A) w tr o w' :
  run h p w = (tr, o, w') → exec p tr o.
Proof.
  revert w tr o w'; induction p as [a|z| |c k IH]; intros w tr o w' Hr; simpl in Hr.
  - by simplify_eq.
  - by simplify_eq.
  - by simplify_eq.
  - destruct (h c w) as [r w1] eqn:Hh.
    destruct (run h (k r) w1) as [[tr1 o1] w2] eqn:Hk. simplify_eq.
    exists r, tr1. split; [done|]. by eapply IH.
Qed.

Lemma all_mono {A} (P Q : trace ret → outcome A → Prop) p :
  (∀ tr o, P tr o → Q tr o) → all P p → all Q p.
Proof. intros HPQ. rewrite !all_exec. eauto. Qed.

Lemma all_and {A} (P Q : trace ret → outcome A → Prop) p :
  all P p → all Q p → all (λ tr o, P tr o ∧ Q tr o) p.
Proof. rewrite !all_exec. eauto. Qed.

Lemma all_bind {A B} (P : trace ret → outcome B → Prop) (p : prog ret A) (f : A → prog ret B) :
  all (λ tr o, match o with
               | Returned a => all (λ tr' o', P (tr ++ tr') o') (f a)
               | Exited z => P tr (Exited z)
               | Undefined => P tr Undefined
               end) p →
  all P (p ≫= f).
Proof.
  revert P; induction p as [a|z| |c k IH]; intros P; simpl; try done.
  intros HP r. apply IH. eapply all_mono; [|apply HP].
  by intros tr [].
Qed.

Lemma run_bind {A B W} (h : handler ret W) (p : prog ret A) (f : A → prog ret B) w :
  run h (p ≫= f) w =
    (let '(tr, o, w1) := run h p w in
     match o with
     | Returned a => let '(tr', o', w2) := run h (f a) w1 in (tr ++ tr', o', w2)
     | Exited z => (tr, Exited z, w1)
     | Undefined => (tr, Undefined, w1)
     end).
Proof.
  revert w; induction p as [a|z| |c k IH]; intros w; simpl; try done.
  - by destruct (run h (f a) w) as [[??]?].
  - destruct (h c w) as [r w1]. unfold mbind, prog_bind in IH. rewrite IH.
    destruct (run h (k r) w1) as [[? []]?]; try done.
    by destruct (run h (f a) w0) as [[??]?].
Qed.

(** ** Observational equivalence: same run in every environment *)
Definition obs_eq {A} (p q : prog ret A) : Prop :=
  ∀ W (h : handler ret W) w, run h p w = run h q w.

#[global] Instance obs_eq_equivalence {A} : Equivalence (@obs_eq A).
Proof.
  split.
  - by intros p W h w.
  - intros p q Hpq W h w. by rewrite Hpq.
  - intros p q s Hpq Hqs W h w. by rewrite Hpq, Hqs.
Qed.

#[global] Instance bind_proper {A B} :
  Proper (pointwise_relation A obs_eq ==> obs_eq ==> obs_eq) (@mbind (prog ret) _ A B).
Proof.
  intros f g Hfg p q Hpq W h w. rewrite !run_bind, (Hpq W h w).
  destruct (run h q w) as [[tr []] w1]; try done. by rewrite (Hfg a W h w1).
Qed.

Lemma bind_assoc {A B C} (p : prog ret A) (f : A → prog ret B) (g : B → prog ret C) :
  obs_eq ((p ≫= f) ≫= g) (p ≫= λ a, f a ≫= g).
Proof.
  intros W h w. rewrite !run_bind.
  destruct (run h p w) as [[tr []] w1]; try done. rewrite run_bind.
  destruct (run h (f a) w1) as [[tr1 []] w2]; try done.
  destruct (run h (g a0) w2) as [[tr2 ?] w3]. by rewrite app_assoc.
Qed.

Lemma obs_eq_vis {A} c (k k' : ret c → prog ret A) : (∀ r, obs_eq (k r) (k' r)) → obs_eq (Vis c k) (Vis c k').
Proof. intros Hk W h w. simpl. destruct (h c w) as [r w1]. by rewrite (Hk r W h w1). Qed.

Lemma bind_ret_r {A} (p : prog ret A) : obs_eq (p ≫= Ret) p.
Proof.
  intros W h w. rewrite run_bind. destruct (run h p w) as [[tr []] w1]; try done.
  simpl. by rewrite app_nil_r.
Qed.
End Semantics.

(** ** Reading traces *)
Section Traces.
  Context {call : Type} {ret : call → Type}.
  Implicit Types (tr : trace ret) (e : event ret).

(** Number of events of [tr] satisfying [f]. *)
Definition count_ev (f : event ret → bool) tr : nat := length (List.filter f tr).

(** No event of [tr] satisfies [f]. *)
Definition no_ev (f : event ret → bool) tr : bool := forallb (λ e, negb (f e)) tr.

(** Some event of [tr] satisfies [f]. *)
Definition some_ev (f : event ret → bool) tr : bool := existsb f tr.

(** Every event satisfying [g] comes after one satisfying [f]. *)
Fixpoint before_ev (f g : event ret → bool) tr : bool :=
  match tr with
  | [] => true
  | e :: tr' => if f e then true else negb (g e) && before_ev f g tr'
  end.

(** Every event satisfying [f] also satisfies [g]. *)
Definition each_ev (f g : event ret → bool) tr : bool :=
  forallb (λ e, implb (f e) (g e)) tr.

Lemma some_ev_app f tr1 tr2 : some_ev f (tr1 ++ tr2) = some_ev f tr1 || some_ev f tr2.
Proof. apply existsb_app. Qed.

Lemma count_ev_app f tr1 tr2 : count_ev f (tr1 ++ tr2) = (count_ev f tr1 + count_ev f tr2)%nat.
Proof. unfold count_ev. by rewrite List.filter_app, length_app. Qed.
End Traces.

(** ** Proof automation

    [psteps] runs a goal [all P p] forward: it computes, introduces the answer
    of each call and splits on each test of the program. *)
Ltac split_test p :=
  lazymatch p with
  | prog_bind_ _ ?q => split_test q
  | mbind _ ?q => split_test q
  | if ?b then _ else _ => destruct b eqn:?
  | match ?x with _ => _ end => destruct x eqn:?
  end.
Ltac pstep :=
  lazymatch goal with
  | |- ∀ _, _ => intros ?
  | |- all _ ?p => split_test p
  end.
Ltac psteps := repeat (simpl; pstep); simpl.

(** Properties of the form "every event satisfies [Q], the outcome [R]". *)
Section Uniform.
  Context {call : Type} {ret : call → Type}.

Definition uniform {A} (Q : event ret → Prop) (R : outcome A → Prop) (p : prog ret A) : Prop :=
  all (λ tr o, Forall Q tr ∧ R o) p.

Lemma uniform_ret {A} Q (R : outcome A → Prop) a : R (Returned a) → uniform Q R (Ret a).
Proof. by repeat split. Qed.

Lemma uniform_exit {A} Q (R : outcome A → Prop) z : R (Exited z) → uniform Q R (Exit z).
Proof. by repeat split. Qed.

Lemma uniform_vis {A} Q (R : outcome A → Prop) c k :
  (∀ r, Q (Ev c r) ∧ uniform Q R (k r)) → uniform Q R (Vis c k).
Proof.
  intros HQ r. destruct (HQ r) as [He Hk]. eapply all_mono; [|exact Hk].
  intros tr o [Htr Ho]. split; [by constructor|done].
Qed.

Lemma uniform_bind {A B} Q (R : outcome B → Prop) (p : prog ret A) (f : A → prog ret B) :
  uniform Q (λ o, match o with
                  | Returned a => uniform Q R (f a)
                  | Exited z => R (Exited z)
                  | Undefined => R Undefined
                  end) p →
  uniform Q R (p ≫= f).
Proof.
  intros Hp. apply all_bind. eapply all_mono; [|exact Hp].
  intros tr [a|z|] [Htr Ho]; [|done|done].
  eapply all_mono; [|exact Ho]. intros tr' o' [Htr' Ho'].
  split; [by apply Forall_app|done].
Qed.

Lemma uniform_mono {A} (Q1 Q2 : event ret → Prop) (R1 R2 : outcome A → Prop) p :
  (∀ e, Q1 e → Q2 e) → (∀ o, R1 o → R2 o) → uniform Q1 R1 p → uniform Q2 R2 p.
Proof.
  intros HQ HR. apply all_mono. intros tr o [Htr Ho]. split; [|auto].
  eapply Forall_impl; eauto.
Qed.
End Uniform.

(** ** Absence of undefined behaviour

    [safe wf p]: [p] has no undefined behaviour in any environment all of whose
    answers satisfy [wf]. *)
Section Safe.
  Context {call : Type} {ret : call → Type} (wf : event ret → bool).

Definition safe {A} (p : prog ret A) : Prop :=
  all (λ tr o, Forall (λ e, wf e = true) tr → o ≠ Undefined) p.

Lemma safe_ret {A} (a : A) : safe (Ret a).
Proof. by intros _. Qed.

Lemma safe_exit {A} z : safe (@Exit _ _ A z).
Proof. by intros _. Qed.

Lemma safe_bind {A B} (p : prog ret A) (f : A → prog ret B) : safe p → (∀ a, safe (f a)) → safe (p ≫= f).
Proof.
  intros Hp Hf. apply all_bind. eapply all_mono; [|exact Hp]. intros tr [a|z|] Ho; [|done|intros Htr; by destruct (Ho Htr)].
  eapply all_mono; [|apply (Hf a)]. intros tr' o' Ho' [_ Htr']%Forall_app. auto.
Qed.

(** With what is known of the value of [p]. *)
Lemma safe_bind_val {A B} (p : prog ret A) (f : A → prog ret B) :
  all (λ _ o, match o with Returned a => safe (f a) | Exited _ => True | Undefined => False end) p → safe (p ≫= f).
Proof.
  intros Hp. apply all_bind. eapply all_mono; [|exact Hp]. intros tr [a|z|] Ho; [|done|done].
  eapply all_mono; [|exact Ho]. intros tr' o' Ho' [_ Htr']%Forall_app. auto.
Qed.

Lemma safe_perform {A} c (f : ret c → prog ret A) :
  (∀ r, wf (Ev c r) = true → safe (f r)) → safe (perform c ≫= f).
Proof.
  intros Hf r. destruct (wf (Ev c r)) eqn:Hw.
  - eapply all_mono; [|apply (Hf r Hw)]. intros tr o Ho Htr. apply Ho. by eapply Forall_inv_tail.
  - apply all_exec. intros tr o _ Htr. apply Forall_inv in Htr. congruence.
Qed.

Lemma safe_perform_last c : safe (perform c).
Proof. by intros r _. Qed.
End Safe.
#[export] Hint Resolve safe_ret safe_exit safe_perform_last uniform_ret uniform_exit forallb_Forall : node.
