(* ===== verification/CLib.v ===== *)
(** * The fragments of the C language and library the node uses

    Strings of type [string] are C strings without their terminating NUL;
    reading a [char *] that is NULL, an array outside its bounds or converting
    a number that does not fit is undefined behaviour, which the definitions
    report with [None] (or the [Undef] leaf of a program). *)
From S2P Require Import Prelude Prog.

Set Default Proof Using "Type".
Open Scope Z_scope.

Definition INT_MIN : Z := - 2 ^ 31.
Definition INT_MAX : Z := 2 ^ 31 - 1.

(** A 32-bit signed [int]. *)
Definition int_range (z : Z) : bool := (INT_MIN <=? z) && (z <=? INT_MAX).

Definition char_code (c : ascii) : Z := Z.of_N (Ascii.N_of_ascii c).
Arguments char_code : simpl never.

(** ** Arrays of strings *)

(** [argv[i]] of an array of [length argv] strings that NULL terminates:
    [None] is a read outside the array. *)
Definition argv_get (argv : list string) (i : nat) : option cstr :=
  if decide (i < length argv)%nat then Some (argv !! i)
  else if decide (i = length argv) then Some None
  else None.

(** ** Strings *)
Definition strlen (s : string) : nat := String.length s.

Fixpoint strncmp (a b : string) (n : nat) : Z :=
  match n with
  | O => 0
  | S n' =>
      match a, b with
      | EmptyString, EmptyString => 0
      | EmptyString, String d _ => - char_code d
      | String c _, EmptyString => char_code c
      | String c a', String d b' =>
          if Ascii.eqb c d then strncmp a' b' n' else char_code c - char_code d
      end
  end.

Definition strcmp (a b : string) : Z := strncmp a b (S (Nat.max (strlen a) (strlen b))).

(** A string of the model that stands for a C string holds no NUL. *)
Fixpoint nul_free (s : string) : bool :=
  match s with
  | EmptyString => true
  | String c s' => negb (char_code c =z? 0) && nul_free s'
  end.

(** [snprintf(buf, n, ...)] for the formatted text [s]: the length it returns
    and the string left in [buf] ([None]: [buf] is not written, [n = 0]). *)
Definition snprintf (n : nat) (s : string) : Z * cstr :=
  (Z.of_nat (strlen s),
   match n with O => None | S n' => Some (String.substring 0 n' s) end).

(** ** Numbers *)
Definition is_space (c : ascii) : bool :=
  let z := char_code c in (z =z? 32) || ((9 <=? z) && (z <=? 13)).

Definition is_digit (c : ascii) : bool :=
  let z := char_code c in (48 <=? z) && (z <=? 57).

Fixpoint skip_space (s : string) : string :=
  match s with
  | String c s' => if is_space c then skip_space s' else s
  | EmptyString => s
  end.

(** Optional sign: [true] for a minus. *)
Definition read_sign (s : string) : bool * string :=
  match s with
  | String c s' =>
      if Ascii.eqb c "-" then (true, s')
      else if Ascii.eqb c "+" then (false, s') else (false, s)
  | EmptyString => (false, s)
  end.

Fixpoint read_digits (acc : Z) (s : string) : Z :=
  match s with
  | String c s' => if is_digit c then read_digits (acc * 10 + (char_code c - 48)) s' else acc
  | EmptyString => acc
  end.

Definition starts_with_digit (s : string) : bool :=
  match s with String c _ => is_digit c | EmptyString => false end.

(** Sign and magnitude of the decimal number at the head of [s]. *)
Definition read_number (s : string) : bool * Z :=
  let '(neg, s') := read_sign (skip_space s) in (neg, read_digits 0 s').

Definition signed (nz : bool * Z) : Z := if nz.1 then - nz.2 else nz.2.

(** [atoi]: undefined when the value is not an [int] (C11 7.22.1). *)
Definition atoi (s : string) : option Z :=
  let z := signed (read_number s) in if int_range z then Some z else None.

(** [strtoul(s, NULL, 10)] and [strtoull] for a [w]-bit result: saturating,
    a minus sign negates modulo [2 ^ w]. *)
Definition strtoul (w : Z) (s : string) : Z :=
  let '(neg, z) := read_number s in
  if 2 ^ w <=? z then 2 ^ w - 1 else if neg then (- z) mod 2 ^ w else z.

(** [fscanf(f, "%d", &x)] on a file that holds [s]: the number of items read
    ([EOF = -1] when the input ends first) and the value stored. *)
Definition EOF : Z := -1.

Definition scanf_d (s : string) : Z * option Z :=
  match skip_space s with
  | EmptyString => (EOF, None)
  | s1 =>
      let '(neg, s2) := read_sign s1 in
      if starts_with_digit s2 then (1, Some (signed (neg, read_digits 0 s2)))
      else (0, None)
  end.

(** The exit status a parent sees for [exit(z)] or a [main] that returns [z]. *)
Definition exit_status (z : Z) : Z := z mod 256.

(** ** Lemmas *)
Lemma argv_get_Some argv i s : argv !! i = Some s → argv_get argv i = Some (Some s).
Proof.
  intros Hi. unfold argv_get. rewrite decide_True by by eapply lookup_lt_Some. by rewrite Hi.
Qed.

Lemma argv_get_None argv i : argv_get argv i = None ↔ (length argv < i)%nat.
Proof. unfold argv_get. repeat case_decide; split; intros; try done; lia. Qed.

Lemma char_code_inj c d : char_code c = char_code d → c = d.
Proof.
  unfold char_code. intros H. apply N2Z.inj in H.
  by rewrite <-(Ascii.ascii_N_embedding c), H, Ascii.ascii_N_embedding.
Qed.

Lemma strncmp_refl s n : strncmp s s n = 0.
Proof.
  revert s; induction n as [|n IH]; intros [|c s]; simpl; try done.
  by rewrite Ascii.eqb_refl.
Qed.

Lemma strncmp_eq a b n :
  nul_free a = true → nul_free b = true →
  (strlen a ≤ n ∨ strlen b < n)%nat → (strlen a < n ∨ strlen b ≤ n)%nat →
  strncmp a b n = 0 → a = b.
Proof.
  revert a b; induction n as [|n IH]; intros [|c a] [|d b] Ha Hb Hn1 Hn2; simpl in *; try done; try lia.
  apply andb_prop in Ha as [_ Ha]; apply andb_prop in Hb as [_ Hb].
  destruct (Ascii.eqb_spec c d) as [->|Hcd].
  - intros Hs. f_equal. apply IH; auto; lia.
  - intros Hs. exfalso. apply Hcd, char_code_inj. lia.
Qed.

(** The comparison [!strncmp(a, b, strlen(b) + 1)] of the dispatcher is an
    equality test. *)
Lemma strncmp_full a b :
  nul_free a = true → nul_free b = true → strncmp a b (strlen b + 1) = 0 ↔ a = b.
Proof.
  intros Ha Hb. split; [|intros ->; apply strncmp_refl].
  apply strncmp_eq; auto; lia.
Qed.

Lemma strcmp_eq a b : nul_free a = true → nul_free b = true → strcmp a b = 0 ↔ a = b.
Proof.
  intros Ha Hb. unfold strcmp. split; [|intros ->; apply strncmp_refl].
  apply strncmp_eq; auto; lia.
Qed.

Lemma snprintf_fits n s : (strlen s < n)%nat → snprintf n s = (Z.of_nat (strlen s), Some s).
Proof.
  intros Hn. unfold snprintf. destruct n as [|n]; [lia|]. rewrite substring_all; [done|].
  unfold strlen in Hn. lia.
Qed.

Lemma snprintf_bound n s t : (snprintf n s).2 = Some t → (strlen t < n)%nat.
Proof.
  destruct n as [|n]; simpl; [done|]. intros [= <-]. unfold strlen. rewrite substring_length. lia.
Qed.

(** ** Numbers printed with [%d] and read back with [%d] *)
Lemma is_digit_pretty x : (x < 10)%N →
  is_digit (pretty_N_char x) = true ∧ char_code (pretty_N_char x) - 48 = Z.of_N x.
Proof.
  intros Hx. assert (x = 0 ∨ x = 1 ∨ x = 2 ∨ x = 3 ∨ x = 4 ∨ x = 5 ∨ x = 6 ∨ x = 7 ∨ x = 8 ∨ x = 9)%N as Hc by lia.
  by destruct_or! Hc; subst.
Qed.

Lemma read_digits_pretty x s : read_digits 0 (pretty_N_go x s) = read_digits (Z.of_N x) s.
Proof.
  revert s. induction (N.lt_wf_0 x) as [x _ IH]; intros s.
  destruct (decide (0 < x)%N) as [Hx|Hx]; [|by replace x with 0%N by lia].
  rewrite pretty_N_go_step by done. rewrite IH by (apply N.div_lt; lia). simpl.
  destruct (is_digit_pretty (x mod 10) ltac:(apply N.mod_lt; lia)) as [-> ->].
  f_equal. rewrite N2Z.inj_div, N2Z.inj_mod. pose proof (Z.div_mod (Z.of_N x) 10). lia.
Qed.

Lemma starts_with_digit_pretty x s :
  starts_with_digit s = true ∨ (0 < x)%N → starts_with_digit (pretty_N_go x s) = true.
Proof.
  revert s. induction (N.lt_wf_0 x) as [x _ IH]; intros s Hs.
  destruct (decide (0 < x)%N) as [Hx|Hx].
  - rewrite pretty_N_go_step by done. apply IH; [apply N.div_lt; lia|].
    left. simpl. by apply is_digit_pretty, N.mod_lt.
  - replace x with 0%N by lia. rewrite pretty_N_go_0. destruct Hs; [done|lia].
Qed.

(** Digits are neither blanks nor signs. *)
Lemma digit_no_blank s : starts_with_digit s = true → skip_space s = s ∧ read_sign s = (false, s).
Proof.
  destruct s as [|c s]; [done|]. simpl. intros Hc.
  assert (is_space c = false ∧ c ≠ "-"%char ∧ c ≠ "+"%char) as (-> & H1 & H2).
  { unfold is_digit, is_space in *. split_and!.
    - destruct (Z.leb_spec 48 (char_code c)), (Z.leb_spec (char_code c) 57); try done.
      destruct (Z.eqb_spec (char_code c) 32), (Z.leb_spec (char_code c) 13); try lia; simpl; by rewrite ?andb_false_r.
    - by intros ->.
    - by intros ->. }
  destruct (Ascii.eqb_spec c "-"), (Ascii.eqb_spec c "+"); done.
Qed.

Lemma scanf_pretty_pos p : scanf_d (pretty (Z.pos p)) = (1, Some (Z.pos p)).
Proof.
  change (pretty (Z.pos p)) with (pretty (N.pos p)). unfold scanf_d, pretty, pretty_N.
  rewrite decide_False by done.
  assert (starts_with_digit (pretty_N_go (N.pos p) "") = true) as Hd by (apply starts_with_digit_pretty; right; lia).
  destruct (digit_no_blank _ Hd) as [-> Hs]. pose proof (read_digits_pretty (N.pos p) "") as Hr.
  destruct (pretty_N_go (N.pos p) "") as [|c s]; [done|]. rewrite Hs, Hd. by rewrite Hr.
Qed.
