(* ===== verification/Sdk.v ===== *)
(** * The environment of the node: SDK and libc functions it calls

    The DAP and Cellframe SDKs are git submodules, so nothing of them can be
    read.  Their pure functions and constants are the fields of [Dap], what the
    node relies on about them is [DapLaws]; their effectful functions, and the
    I/O functions of libc, are the constructors of [call], each with the type
    of its answer in [ret].  Constructors carry the C function's name and its
    arguments. *)
From S2P Require Import Prelude Prog CLib.
From Stdlib Require Import Strings.Byte.

Set Default Proof Using "Type".
Open Scope Z_scope.

Abbreviation bytes := (list Byte.byte).

(** ** Pure functions and constants *)
Class Dap := {
  MAX_PATH : nat;
  MAX_ENC_KEYS_IN_MULTYSIGN : nat;
  DAP_CHAIN_HASH_FAST_SIZE : nat;
  ULONG_WIDTH : Z;
  SIZE_WIDTH : Z;
  sizeof_dap_sign_hdr_t : Z;
  SIG_TYPE_NULL : Z;
  SIG_TYPE_MULTI_CHAINED : Z;
  DAP_ENC_KEY_TYPE_INVALID : Z;
  DAP_CERT_META_STRING : Z;
  DAP_CERT_META_SIGN : Z;
  DAP_CERT_META_CUSTOM : Z;
  DAP_CLI_ERROR_FORMAT : Z;
  DAP_CLI_ERROR_SOCKET : Z;
  DAP_CLI_ERROR_TIMEOUT : Z;
  DAP_CLI_ERROR_INCOMPLETE : Z;
  DAP_VERSION : string;
  DAP_UPLINK_PATH_ENC_INIT : string;
  DAP_UPLINK_PATH_STREAM : string;
  DAP_UPLINK_PATH_STREAM_CTL : string;
  DAP_UPLINK_PATH_NODE_LIST : string;
  DAP_UPLINK_PATH_BALANCER : string;
  DAP_BALANCER_MAX_REPLY_SIZE : Z;
  c_error_memory_alloc : string;
  dap_strcmp : cstr → cstr → Z;
  dap_strdup : cstr → cstr;
  dap_strdup_printf : string → cstr;   (* of the formatted text *)
  dap_strlen : cstr → nat;
  dap_isstralnum : cstr → Z;
  dap_check_valid_password : cstr → nat → bool;
  dap_sign_type_from_str : cstr → Z;
  dap_sign_type_is_deprecated : Z → bool;
  dap_sign_type_to_key_type : Z → Z;
  dap_sign_get_str_recommended_types : string;
  dap_cert_get_str_recommended_sign : string;
  dap_strsplit : string → string → nat → list string
}.

(** What the node relies on: the comparison, duplication and formatting
    helpers behave as their libc counterparts. *)
Class DapLaws (D : Dap) : Prop := {
  dap_strcmp_eq a b : dap_strcmp (Some a) (Some b) = 0 ↔ a = b;
  dap_strdup_eq s : dap_strdup s = s;
  dap_strdup_printf_eq s : dap_strdup_printf s = Some s;
  dap_strlen_eq s : dap_strlen (Some s) = strlen s
}.

(** ** Data of the SDK the node reads or builds *)

(** [dap_enc_key_t]: NULL key buffers are [None]. *)
Record enc_key := {
  ek_type : Z;
  pub_key_data : option bytes;
  pub_key_data_size : Z;
  priv_key_data : option bytes;
  priv_key_data_size : Z
}.

(** [dap_cert_t] with the handle that identifies it. *)
Record cert := { cert_id : nat; cert_name : string; cert_enc_key : option enc_key }.

(** [dap_pkey_t]: header and [header.size] bytes of data. *)
Record pkey := { pkey_header : bytes; pkey_size : Z; pkey_data : bytes }.

Definition wallet := nat.
Definition config := nat.
Definition file := nat.
Definition server := nat.
Definition hash := bytes.

Inductive log_level := L_DEBUG | L_INFO | L_NOTICE | L_ATT | L_DAP | L_WARNING | L_ERROR | L_CRITICAL.
Inductive logger_output := LOGGER_OUTPUT_NONE | LOGGER_OUTPUT_STDOUT | LOGGER_OUTPUT_ALOG.
Inductive lockf_op := F_TEST | F_TLOCK.

(** Heap blocks the code frees with [DAP_DELETE] and its variants. *)
Inductive block :=
  | B_sys_dir_path | B_file_name | B_cert_path | B_cert_new_path | B_pub_key | B_priv_key
  | B_pkey_str | B_ca_path | B_wal_path | B_tool_appname | B_strv | B_pid_file_path
  | B_plugins_path_default | B_plugins_path_override | B_pid_path
  | B_sign_ser | B_sign_pub_key | B_sign.

Inductive signo := SIGINT | SIGHUP | SIGTERM | SIGQUIT | SIGTSTP.
Inductive disposition := SIG_DFL | SIG_EXIT_HANDLER.

(** Handlers of HTTP requests the node registers. *)
Inductive http_proc := dap_chain_net_node_check_http_issue_link | dap_chain_net_balancer_http_issue_link.

(** Callbacks of the UDP server. *)
Inductive callback := CB_client_read | CB_client_write | CB_client_new | CB_client_delete.

(** Module initialisers without arguments that return an [int]. *)
Inductive init_fn :=
  | dap_enc_init | dap_server_init | dap_http_init | dap_http_folder_init
  | dap_http_simple_module_init | enc_http_init | dap_stream_init | dap_stream_ctl_init
  | dap_notify_server_init | dap_global_db_init | dap_datum_mempool_init | dap_chain_init
  | dap_chain_net_srv_stake_pos_delegate_init | dap_chain_cs_dag_init | dap_chain_cs_dag_poa_init
  | dap_chain_cs_blocks_init | dap_chain_cs_esbocs_init | dap_nonconsensus_init
  | dap_chain_net_init | dap_chain_policy_init | dap_chain_wallet_init | dap_chain_net_srv_init
  | dap_chain_net_srv_xchange_init | dap_chain_net_srv_dex_init | dap_chain_net_srv_voting_init
  | dap_chain_net_srv_bridge_init | dap_chain_net_srv_stake_ext_init
  | dap_chain_net_srv_stake_lock_init | dap_chain_net_srv_vpn_pre_init
  | dap_chain_node_cli_init | dap_chain_wallet_cache_init | dap_chain_plugins_init
  | dap_chain_wallet_shared_notify_init | dap_chain_net_srv_order_init
  | dap_chain_node_list_clean_init | dap_global_db_clean_init
  | dap_chain_net_srv_vpn_init | dap_chain_net_vpn_client_init | chain_net_geoip_init
  | dap_enc_key_init.

(** Functions without arguments whose result is not used. *)
Inductive void_fn :=
  | dap_events_start | dap_client_init | dap_plugin_load_all | dap_plugin_preinit_all
  | dap_chain_net_load_all | dap_plugin_start_all | dap_chain_plugins_save_thread
  | dap_chain_net_try_online_all
  | dap_plugin_stop_all | dap_plugin_deinit | dap_dns_server_stop | dap_stream_deinit
  | dap_stream_ctl_deinit | dap_http_folder_deinit | dap_http_deinit | dap_server_deinit
  | dap_enc_ks_deinit | dap_chain_node_mempool_autoproc_deinit
  | dap_chain_net_srv_xchange_deinit | dap_chain_net_srv_stake_pos_delegate_deinit
  | dap_chain_net_srv_stake_lock_deinit | dap_chain_net_srv_bridge_deinit
  | dap_chain_net_srv_voting_deinit | dap_chain_net_deinit | dap_global_db_deinit
  | dap_chain_deinit | dap_interval_timer_deinit | dap_common_deinit
  | dap_chain_node_cli_parser_init
  | stream_init | stream_session_init | stream_session_deinit | dap_server_client_deinit
  | dap_enc_key_deinit | dap_enc_deinit | dap_config_deinit.

#[export] Instance init_fn_eq_dec : EqDecision init_fn.
Proof. solve_decision. Defined.
#[export] Instance void_fn_eq_dec : EqDecision void_fn.
Proof. solve_decision. Defined.
#[export] Instance block_eq_dec : EqDecision block.
Proof. solve_decision. Defined.
#[export] Instance signo_eq_dec : EqDecision signo.
Proof. solve_decision. Defined.

(** ** Calls *)
Inductive call :=
  (* output and process *)
  | printf (text : string)
  | log_it (lvl : log_level) (text : string)
  | errno
  | dap_strerror (e : Z)
  | getpid
  | getenv (name : string)
  | signal (s : signo) (d : disposition)
  | DAP_DELETE (b : block)
  (* files *)
  | access (path : string)
  | dap_dir_test (path : cstr)
  | dap_file_test (path : cstr)
  | dap_mkdir_with_parents (path : string)
  | fopen (path : cstr) (mode : string)
  | freopen (path : cstr) (mode : string) (f : file)
  | fclose (f : file)
  | fwrite_pkey (k : pkey) (size : Z) (f : file)
  | fscanf_d (f : file)
  | fprintf_d (f : file) (z : Z)
  | fflush (f : file)
  | fflush_stdout
  | lockf (f : file) (op : lockf_op) (size : Z)
  (* common module, configuration *)
  | dap_set_appname (name : string)
  | dap_get_appname
  | regGetUsrPath
  | dap_common_init (name : string) (log_path : cstr)
  | dap_log_set_external_output (o : logger_output) (tag : cstr)
  | dap_log_level_set (lvl : log_level)
  | dap_common_enable_cleaner_log (timeout_ms max_size : Z)
  | dap_config_init (dir : string)
  | dap_config_open (name : string)
  | dap_config_close (c : config)
  | dap_config_get_item_str (section key : string)
  | dap_config_get_item_str_default (section key : string) (dflt : cstr)
  | dap_config_get_item_str_path_default (section key dflt : string)
  | dap_config_get_item_bool_default (section key : string) (dflt : bool)
  | dap_config_get_item_int32_default (section key : string) (dflt : Z)
  | dap_config_get_item_int64 (section key : string)
  | dap_strncpy (src : cstr) (size : nat)
  | dap_cli_server_cmd_find_option_val (argv : list string) (first last : Z) (opt : string)
  | dap_app_cli_main (name : string) (argv : list string)
  (* modules *)
  | Init (f : init_fn)
  | Void (f : void_fn)
  | dap_events_init (threads : Z) (timeout : Z)
  | dap_events_wait
  | dap_plugin_init (path : cstr)
  | dap_plugins_python_app_content_init (s : option server)
  | dap_chain_node_mempool_autoproc_init
  | dap_http_server_new (section appname : string)
  | enc_http_add_proc (s : server) (url : string)
  | dap_stream_add_proc_http (s : server) (url : string)
  | dap_stream_ctl_add_proc (s : server) (url : string)
  | dap_chain_mempool_add_proc (s : server) (url : string)
  | dap_json_rpc_init (s : server)
  | dap_http_folder_add (s : server) (url : string) (root : cstr)
  | dap_server_set_default (s : server)
  | dap_http_simple_proc_add (s : server) (path : string) (reply_max : Z) (proc : http_proc)
  | dap_dns_server_start (section : string)
  (* wallets *)
  | dap_chain_wallet_get_path
  | dap_chain_wallet_create (name dir : string) (sig_type : Z) (pass : cstr)
  | dap_chain_wallet_create_with_seed (name dir : string) (sig_type : Z) (seed : string) (size : Z) (pass : cstr)
  | dap_chain_wallet_create_with_seed_multi (name dir : string) (types : list Z) (count : Z) (seed : cstr) (size : Z) (pass : cstr)
  | dap_chain_wallet_open (name dir : string) (pass : cstr)
  | dap_chain_wallet_open_file (path : string) (pass : cstr)
  | dap_chain_wallet_get_certs_number (w : wallet)
  | dap_chain_wallet_get_pkey_hash (w : wallet)
  | dap_chain_wallet_get_pkey_str (w : wallet) (fmt : string)
  | dap_chain_hash_fast_to_str_static (h : hash)
  (* certificates and keys *)
  | dap_cert_generate_mem (name : string) (key_type : Z)
  | dap_cert_generate_mem_with_seed (name : string) (key_type : Z) (seed : string) (size : Z)
  | dap_cert_new (name : string)
  | dap_cert_add (c : cert)
  | dap_cert_save_to_folder (c : cert) (dir : string)
  | dap_cert_delete (c : cert)
  | dap_cert_delete_by_name (name : string)
  | dap_cert_delete_file (name dir : string)
  | dap_cert_add_file (name dir : string)
  | dap_cert_find_by_name (name : string)
  | dap_cert_dump (c : cert)
  | dap_cert_get_pkey_hash (c : cert)
  | dap_cert_get_pkey_str (c : cert) (fmt : string)
  | dap_cert_add_meta (c : cert) (key : cstr) (type : Z) (value : cstr) (size : Z)
  | dap_cert_add_meta_scalar (c : cert) (key : cstr) (type : Z) (value : Z) (size : Z)
  | dap_enc_key_new (type : Z)
  | dap_enc_ser_pub_key_size (k : enc_key)
  | dap_pkey_from_enc_key (k : enc_key)
  | DAP_DUP_SIZE (data : bytes) (size : Z)
  | dap_stream_node_addr_from_cert (c : cert)
  | dap_stream_node_addr_to_str_static (addr : Z)
  | dap_sign_create_output_unserialized_calc_size (k : enc_key)
  | dap_enc_key_serialize_pub_key (k : enc_key)
  | dap_enc_key_serialize_sign (type size : Z)
  | dap_enc_key_signature_delete (type : Z)
  | DAP_NEW_Z_SIZE (size : Z)
  | dap_hash_fast (data : bytes)
  (* Windows *)
  | CreateEvent (name : string)
  | GetLastError
  | SetErrorMode (flags : list string)
  | AddVectoredExceptionHandler
  | SetUnhandledExceptionFilter
  | Beep (freq duration : Z)
  | SetConsoleTextAttribute (attr : Z)
  | SetConsoleCtrlHandler (add : bool)
  | SetConsoleCP (page : Z)
  | SetConsoleOutputCP (page : Z)
  | WSAStartup
  | WSACleanup
  (* the UDP server and the streams of the node manager *)
  | malloc (size : Z)
  | free
  | dap_common_init_log (path : string)
  | dap_config_get_item_str_of (c : config) (section key : string)
  | dap_udp_server_listen (port : Z)
  | set_callback (s : server) (cb : callback)
  | dap_udp_server_loop (s : server)
  | dap_udp_server_delete (s : server)
  | dap_server_listen (addr : string) (port : Z)
  | dap_http_new (s : option server) (name : string)
  | enc_http_add_proc_opt (s : option server) (url : string)
  | dap_server_loop (s : option server)
  | dap_client_read (size : Z)
  | dap_client_write (text : string) (size : Z)
  | dap_udp_client_ready_to_write (ready : bool)
  | itoa (z : Z)
  | stream_ch_set_ready_to_write (ready : bool)
  | stream_ch_pkt_write_f (type : Z) (text : string).

(** The answer of each call.  [fscanf_d] answers the number of items and the
    value stored; [dap_strncpy] the contents of the destination and the offset
    of the returned pointer in it; a call with an output argument answers the
    result and the output. *)
Definition ret (c : call) : Type :=
  match c with
  | getpid => Z
  | getenv _ => cstr
  | access _ => Z
  | dap_dir_test _ => bool
  | dap_file_test _ => bool
  | dap_mkdir_with_parents _ => Z
  | fopen _ _ => option file
  | freopen _ _ _ => option file
  | fscanf_d _ => Z * Z
  | lockf _ _ _ => Z
  | dap_get_appname => string
  | regGetUsrPath => string
  | dap_common_init _ _ => Z
  | dap_config_init _ => Z
  | dap_config_open _ => option config
  | dap_config_get_item_str _ _ => cstr
  | dap_config_get_item_str_default _ _ _ => cstr
  | dap_config_get_item_str_path_default _ _ _ => cstr
  | dap_config_get_item_bool_default _ _ _ => bool
  | dap_config_get_item_int32_default _ _ _ => Z
  | dap_config_get_item_int64 _ _ => Z
  | dap_strncpy _ _ => string * nat
  | dap_cli_server_cmd_find_option_val _ _ _ _ => Z * cstr
  | dap_app_cli_main _ _ => Z
  | Init _ => Z
  | dap_events_wait => Z
  | dap_plugin_init _ => Z
  | dap_chain_node_mempool_autoproc_init => bool
  | dap_http_server_new _ _ => option server
  | dap_json_rpc_init _ => Z
  | dap_chain_wallet_get_path => string
  | dap_chain_wallet_create _ _ _ _ => option wallet
  | dap_chain_wallet_create_with_seed _ _ _ _ _ _ => option wallet
  | dap_chain_wallet_create_with_seed_multi _ _ _ _ _ _ _ => option wallet
  | dap_chain_wallet_open _ _ _ => option wallet
  | dap_chain_wallet_open_file _ _ => option wallet
  | dap_chain_wallet_get_certs_number _ => Z
  | dap_chain_wallet_get_pkey_hash _ => Z * hash
  | dap_chain_wallet_get_pkey_str _ _ => cstr
  | dap_chain_hash_fast_to_str_static _ => string
  | dap_cert_generate_mem _ _ => option cert
  | dap_cert_generate_mem_with_seed _ _ _ _ => option cert
  | dap_cert_new _ => option cert
  | dap_cert_add _ => Z
  | dap_cert_save_to_folder _ _ => Z
  | dap_cert_delete_file _ _ => Z
  | dap_cert_add_file _ _ => option cert
  | dap_cert_find_by_name _ => option cert
  | dap_cert_dump _ => cstr
  | dap_cert_get_pkey_hash _ => Z * hash
  | dap_cert_get_pkey_str _ _ => cstr
  | dap_enc_key_new _ => option enc_key
  | dap_enc_ser_pub_key_size _ => Z
  | dap_pkey_from_enc_key _ => option pkey
  | DAP_DUP_SIZE _ _ => option bytes
  | dap_stream_node_addr_from_cert _ => Z
  | dap_stream_node_addr_to_str_static _ => string
  | dap_sign_create_output_unserialized_calc_size _ => Z
  | dap_enc_key_serialize_pub_key _ => option bytes
  | dap_enc_key_serialize_sign _ _ => option bytes
  | DAP_NEW_Z_SIZE _ => bool
  | dap_hash_fast _ => hash
  | errno => Z
  | dap_strerror _ => string
  | GetLastError => Z
  | Beep _ _ => Z
  | SetConsoleCtrlHandler _ => bool
  | malloc _ => option (list Z)
  | dap_common_init_log _ => Z
  | dap_config_get_item_str_of _ _ _ => cstr
  | dap_udp_server_listen _ => option server
  | dap_server_listen _ _ => option server
  | dap_client_read _ => list Z
  | itoa _ => string
  | _ => unit
  end.

(** ** The monad of the node's programs *)
Abbreviation nprog := (prog ret).
Abbreviation nevent := (event ret).
Abbreviation ntrace := (list (event ret)).

(** An array read or a dereference that the C code does unchecked. *)
Definition deref {A} (o : option A) : nprog A :=
  match o with Some a => mret a | None => Undef end.

(** [argv[i]] passed on as a pointer. *)
Definition arg (argv : list string) (i : nat) : nprog cstr := deref (argv_get argv i).

(** [argv[i]] read as a string. *)
Definition arg_str (argv : list string) (i : nat) : nprog string :=
  s ← arg argv i; deref s.

Definition argc_lt (argv : list string) (n : nat) : bool := bool_decide (length argv < n)%nat.

Definition print (text : string) : nprog unit := perform (printf text).
Definition delete (b : block) : nprog unit := perform (DAP_DELETE b).

#[global] Arguments print _ /.
#[global] Arguments delete _ /.

Lemma arg_str_lookup (argv : list string) i s : argv !! i = Some s → arg_str argv i = Ret s.
Proof. intros Hi. unfold arg_str, arg. by rewrite (argv_get_Some _ _ _ Hi). Qed.

Lemma arg_lookup (argv : list string) i s : argv !! i = Some s → arg argv i = Ret (Some s).
Proof. intros Hi. unfold arg. by rewrite (argv_get_Some _ _ _ Hi). Qed.

(** An index in range. *)
Lemma arg_in_range (argv : list string) i : (i < length argv)%nat → ∃ s, argv !! i = Some s.
Proof. apply lookup_lt_is_Some_2. Qed.

(** ** Programs with early returns

    [inl z] is a [return z;] in the middle of a function, [inr a] the value the
    function goes on with. *)
Abbreviation eprog A := (nprog (Z + A)).

Definition ebind {A B} (p : eprog A) (f : A → eprog B) : eprog B :=
  r ← p; match r with inl z => mret (inl z) | inr a => f a end.

Definition ret_now {A} (z : Z) : eprog A := mret (inl z).
Definition go_on {A} (a : A) : eprog A := mret (inr a).
Definition lift {A} (p : nprog A) : eprog A := a ← p; mret (inr a).

Notation "x ←? p ; q" := (ebind p (λ x, q)) (at level 20, p at level 100, q at level 200, right associativity) : node_scope.
Notation "p ;? q" := (ebind p (λ _, q)) (at level 100, q at level 200, right associativity) : node_scope.

(** [if (f() != 0) { log_it(lvl, msg); return code; }] *)
Definition must (lvl : log_level) (f : init_fn) (msg : string) (code : Z) : eprog unit :=
  rc ← perform (Init f);
  if negb (rc =z? 0) then perform (log_it lvl msg) ;; ret_now code else go_on tt.

(** [if (f()) log_it(L_ERROR, msg);] *)
Definition may (f : init_fn) (msg : string) : eprog unit :=
  rc ← perform (Init f);
  if negb (rc =z? 0) then lift (perform (log_it L_ERROR msg)) else go_on tt.

(** The value of a function with early returns. *)
Definition returned (p : eprog Z) : nprog Z :=
  r ← p; match r with inl z | inr z => mret z end.

(** ** Unchecked reads and undefined behaviour *)
Lemma safe_call {A} (wf : nevent → bool) c (f : ret c → nprog A) :
  (∀ r, wf (Ev c r) = true → safe wf (f r)) → safe wf (perform c ≫= f).
Proof. apply safe_perform. Qed.

Lemma safe_call_last (wf : nevent → bool) c : safe wf (perform c).
Proof. apply safe_perform_last. Qed.

Lemma safe_arg_str {A} (wf : nevent → bool) (argv : list string) i (f : string → nprog A) :
  (i < length argv)%nat → (∀ s, argv !! i = Some s → safe wf (f s)) → safe wf (arg_str argv i ≫= f).
Proof.
  intros Hi Hf. destruct (arg_in_range _ _ Hi) as [s Hs]. rewrite (arg_str_lookup _ _ _ Hs). apply (Hf s Hs).
Qed.

Lemma safe_arg {A} (wf : nevent → bool) (argv : list string) i (f : cstr → nprog A) :
  (i ≤ length argv)%nat → (∀ s, safe wf (f s)) → safe wf (arg argv i ≫= f).
Proof.
  intros Hi Hf. unfold arg. destruct (argv_get argv i) as [s|] eqn:Hg; [apply (Hf s)|].
  apply argv_get_None in Hg. lia.
Qed.

Lemma safe_deref {A B} (wf : nevent → bool) (x : option A) (f : A → nprog B) :
  is_Some x → (∀ a, x = Some a → safe wf (f a)) → safe wf (deref x ≫= f).
Proof. intros [a ->] Hf. by apply Hf. Qed.

(** Output that has no effect but on the terminal. *)
Definition quiet (e : nevent) : bool :=
  match ev_call e with
  | printf _ | log_it _ _ | dap_get_appname | DAP_DELETE _ => true
  | _ => false
  end.

(** ** Compile-time configuration *)
Inductive os := OS_WINDOWS | OS_MAC | OS_UNIX.

(** The preprocessor symbols the sources test. *)
Record build := {
  target : os;
  _WIN32 : bool;
  NDEBUG : bool;
  DAP_DEBUG : bool;
  DAP_OS_ANDROID : bool;
  DAP_OS_LINUX : bool;
  DAP_OS_DARWIN : bool;
  DAP_SUPPORT_PYTHON_PLUGINS : bool;
  WIN64 : bool;
  BUILD_TS : string;
  BUILD_HASH : string
}.

Definition DAP_OS_WINDOWS (b : build) : bool :=
  match target b with OS_WINDOWS => true | _ => false end.

(** A Linux build without Python plugins. *)
Definition linux_build : build := {|
  target := OS_UNIX; _WIN32 := false; NDEBUG := true; DAP_DEBUG := false;
  DAP_OS_ANDROID := false; DAP_OS_LINUX := true; DAP_OS_DARWIN := false;
  DAP_SUPPORT_PYTHON_PLUGINS := false; WIN64 := false;
  BUILD_TS := "undefined"; BUILD_HASH := "0000000" |}.

(** ** Executions in a given environment *)

(** An environment without memory: [ans c] answers [c]. *)
Definition pure_env (ans : ∀ c, ret c) : handler ret unit := λ c w, (ans c, w).

(** The answer of an environment in which everything succeeds and every
    optional object is absent; the concrete environments override it. *)
Definition default_ans (c : call) : ret c :=
  match c return ret c with
  | getpid => 1000
  | getenv _ => None
  | access _ => -1
  | dap_dir_test _ => true
  | dap_file_test _ => false
  | dap_mkdir_with_parents _ => 0
  | fopen _ _ => Some 3%nat
  | freopen _ _ f => Some f
  | fscanf_d _ => (EOF, 0)
  | lockf _ _ _ => 0
  | dap_get_appname => "cellframe-node"
  | regGetUsrPath => ""
  | dap_common_init _ _ => 0
  | dap_config_init _ => 0
  | dap_config_open _ => Some 1%nat
  | dap_config_get_item_str _ _ => None
  | dap_config_get_item_str_default _ _ d => d
  | dap_config_get_item_str_path_default _ _ d => Some d
  | dap_config_get_item_bool_default _ _ d => d
  | dap_config_get_item_int32_default _ _ d => d
  | dap_config_get_item_int64 _ _ => 0
  | dap_strncpy s _ => (default "" s, strlen (default "" s))
  | dap_cli_server_cmd_find_option_val _ _ _ _ => (0, None)
  | dap_app_cli_main _ _ => 0
  | Init _ => 0
  | dap_events_wait => 0
  | dap_plugin_init _ => 0
  | dap_chain_node_mempool_autoproc_init => false
  | dap_http_server_new _ _ => Some 1%nat
  | dap_json_rpc_init _ => 0
  | dap_chain_wallet_get_path => "/w"
  | dap_chain_wallet_create _ _ _ _ => Some 1%nat
  | dap_chain_wallet_create_with_seed _ _ _ _ _ _ => Some 1%nat
  | dap_chain_wallet_create_with_seed_multi _ _ _ _ _ _ _ => Some 1%nat
  | dap_chain_wallet_open _ _ _ => Some 1%nat
  | dap_chain_wallet_open_file _ _ => Some 1%nat
  | dap_chain_wallet_get_certs_number _ => 1
  | dap_chain_wallet_get_pkey_hash _ => (0, [])
  | dap_chain_wallet_get_pkey_str _ _ => Some "key"
  | dap_chain_hash_fast_to_str_static _ => "0xAB"
  | dap_cert_generate_mem n _ => Some {| cert_id := 1; cert_name := n; cert_enc_key := None |}
  | dap_cert_generate_mem_with_seed n _ _ _ => Some {| cert_id := 1; cert_name := n; cert_enc_key := None |}
  | dap_cert_new n => Some {| cert_id := 2; cert_name := n; cert_enc_key := None |}
  | dap_cert_add _ => 0
  | dap_cert_save_to_folder _ _ => 0
  | dap_cert_delete_file _ _ => 0
  | dap_cert_add_file n _ =>
      Some {| cert_id := 1; cert_name := n;
              cert_enc_key := Some {| ek_type := 1; pub_key_data := Some [x01; x02]; pub_key_data_size := 2;
                                      priv_key_data := Some [x07]; priv_key_data_size := 1 |} |}
  | dap_cert_find_by_name n => Some {| cert_id := 1; cert_name := n; cert_enc_key := None |}
  | dap_cert_dump _ => Some "dump"
  | dap_cert_get_pkey_hash _ => (0, [])
  | dap_cert_get_pkey_str _ _ => Some "key"
  | dap_enc_key_new t =>
      Some {| ek_type := t; pub_key_data := None; pub_key_data_size := 0;
              priv_key_data := None; priv_key_data_size := 0 |}
  | dap_enc_ser_pub_key_size k => pub_key_data_size k
  | dap_pkey_from_enc_key k =>
      Some {| pkey_header := []; pkey_size := pub_key_data_size k; pkey_data := default [] (pub_key_data k) |}
  | DAP_DUP_SIZE d n => Some (take (Z.to_nat n) d)
  | dap_stream_node_addr_from_cert _ => 7
  | dap_stream_node_addr_to_str_static _ => "0007::0007"
  | dap_sign_create_output_unserialized_calc_size _ => 2
  | dap_enc_key_serialize_pub_key k => pub_key_data k
  | dap_enc_key_serialize_sign _ _ => Some [x09; x0a]
  | DAP_NEW_Z_SIZE _ => true
  | dap_hash_fast d => repeat (default x00 (head d)) 32
  | errno => 0
  | dap_strerror _ => "Success"
  | GetLastError => 0
  | Beep _ _ => 1
  | SetConsoleCtrlHandler _ => true
  | malloc n => Some (repeat 0 (Z.to_nat n))
  | dap_common_init_log _ => 0
  | dap_config_get_item_str_of _ _ _ => Some "8079"
  | dap_udp_server_listen _ => Some 1%nat
  | dap_server_listen _ _ => Some 1%nat
  | dap_client_read _ => []
  | itoa _ => "0"
  | _ => tt
  end.

(** The trace and the outcome of a run. *)
Definition run_trace {A} (ans : ∀ c, ret c) (p : nprog A) : ntrace := (run (pure_env ans) p tt).1.1.
Definition run_outcome {A} (ans : ∀ c, ret c) (p : nprog A) : outcome A := (run (pure_env ans) p tt).1.2.

Lemma exec_run_pure {A} ans (p : nprog A) : exec p (run_trace ans p) (run_outcome ans p).
Proof.
  unfold run_trace, run_outcome.
  destruct (run (pure_env ans) p tt) as [[tr o] w] eqn:Hr. by eapply exec_run.
Qed.

(** A concrete instance of the SDK's constants and pure functions. *)
Definition all_alnum (s : string) : bool :=
  forallb (λ c, is_digit c || ((65 <=? char_code c) && (char_code c <=? 90))
                           || ((97 <=? char_code c) && (char_code c <=? 122)))
    (String.list_ascii_of_string s).

Fixpoint split_on (d : ascii) (cur : string) (max : nat) (s : string) : list string :=
  match s with
  | EmptyString => [cur]
  | String c s' =>
      if Ascii.eqb c d && (1 <? max)%nat then cur :: split_on d "" (max - 1) s'
      else split_on d (cur +:+ String c "") max s'
  end.

Definition demo_sign_type (s : string) : Z :=
  if s =s? "sig_dil" then 1 else if s =s? "sig_falcon" then 2
  else if s =s? "sig_multi_chained" then 5 else if s =s? "sig_tesla" then 9 else 0.

Definition demo_dap : Dap := {|
  MAX_PATH := 256;
  MAX_ENC_KEYS_IN_MULTYSIGN := 2;
  DAP_CHAIN_HASH_FAST_SIZE := 32;
  ULONG_WIDTH := 64;
  SIZE_WIDTH := 64;
  sizeof_dap_sign_hdr_t := 16;
  SIG_TYPE_NULL := 0;
  SIG_TYPE_MULTI_CHAINED := 5;
  DAP_ENC_KEY_TYPE_INVALID := 0;
  DAP_CERT_META_STRING := 0;
  DAP_CERT_META_SIGN := 4;
  DAP_CERT_META_CUSTOM := 5;
  DAP_CLI_ERROR_FORMAT := -5;
  DAP_CLI_ERROR_SOCKET := -4;
  DAP_CLI_ERROR_TIMEOUT := -3;
  DAP_CLI_ERROR_INCOMPLETE := -2;
  DAP_VERSION := "5.4-0";
  DAP_UPLINK_PATH_ENC_INIT := "enc_init";
  DAP_UPLINK_PATH_STREAM := "stream";
  DAP_UPLINK_PATH_STREAM_CTL := "stream_ctl";
  DAP_UPLINK_PATH_NODE_LIST := "node_list";
  DAP_UPLINK_PATH_BALANCER := "balancer";
  DAP_BALANCER_MAX_REPLY_SIZE := 4096;
  c_error_memory_alloc := "Memory allocation error";
  dap_strcmp a b := match a, b with
                    | Some a, Some b => if a =s? b then 0 else 1
                    | None, None => 0
                    | _, _ => 1
                    end;
  dap_strdup s := s;
  dap_strdup_printf s := Some s;
  dap_strlen s := strlen (default "" s);
  dap_isstralnum s := match s with Some s => if all_alnum s then 1 else 0 | None => 0 end;
  dap_check_valid_password s n := match s with Some s => all_alnum s | None => false end;
  dap_sign_type_from_str s := demo_sign_type (default "" s);
  dap_sign_type_is_deprecated t := t =z? 9;
  dap_sign_type_to_key_type t := t;
  dap_sign_get_str_recommended_types := "sig_dil\nsig_falcon\n";
  dap_cert_get_str_recommended_sign := "sig_dil\nsig_falcon\n";
  dap_strsplit s d n := match d with String c _ => split_on c "" n s | EmptyString => [s] end
|}.

#[global] Instance demo_laws : DapLaws demo_dap.
Proof.
  split; simpl; try done. intros a b. destruct (String.eqb_spec a b); by split.
Qed.
