(* ===== verification/ToolBase.v ===== *)
(** * cellframe-node-tool: globals, usage text and initialisation

    Models [s_help] and [s_init] of [sources/main_node_tool.c] and the static
    variables [s_init] fills. *)
From S2P Require Import Prelude Prog CLib Sdk.
From Stdlib Require Import Strings.Byte.

Set Default Proof Using "Type".
Open Scope Z_scope.

Definition NODE_NAME : string := "cellframe-node".

(** The variables of the tool set by [s_init]. *)
Record tool_globals := {
  s_system_ca_dir : string;
  s_system_wallet_dir : string;
  g_config : config
}.

Section ToolBase.
  Context {D : Dap}.

(** [argc > 2 && !dap_strcmp("-B", argv[1])], the test every entry point begins
    with. *)
Definition has_B (argv : list string) : nprog bool :=
  if argc_lt argv 3 then mret false
  else a1 ← arg argv 1; mret (dap_strcmp (Some "-B") a1 =z? 0).

(** The lines [s_help] prints, without [#if 0] parts; [a] is the tool's name. *)
Definition help_lines (a : string) : list string := [
  NL;
  a +:+ " usage:" +:+ NL +:+ NL;
  " * Create new key wallet and generate signatures with same names plus index " +:+ NL;
  TAB +:+ a +:+ " wallet create <wallet name> <signature type> [-seed " +:+ quoted "ascii value here"
    +:+ "] [<signature type 2>[...<signature type N>]]" +:+ NL +:+ NL;
  " * Create a new key wallet and generate signatures with the same names plus index. The wallet will be password protected. " +:+ NL;
  TAB +:+ a +:+ " wallet create_wp <wallet name> <password> <signature type> [-seed " +:+ quoted "ascii value here"
    +:+ "] [<signature type 2>[...<signature type N>]]" +:+ NL +:+ NL;
  " * Print hash of public key for wallet <wallet name>" +:+ NL;
  TAB +:+ a +:+ " wallet pkey show <wallet name> {<password>}" +:+ NL +:+ NL;
  " * Create new key file with randomly produced key stored in" +:+ NL;
  TAB +:+ a +:+ " cert create <cert name> <sign type> [-seed " +:+ quoted "ascii value here"
    +:+ "] [<key length>]" +:+ NL +:+ NL;
  " * Dump cert data stored in <file path>" +:+ NL;
  TAB +:+ a +:+ " cert dump <cert name>" +:+ NL +:+ NL;
  " * Sign some data with cert " +:+ NL;
  TAB +:+ a +:+ " cert sign <cert name> <data file path> <sign file output> [<sign data length>] [<sign data offset>]" +:+ NL +:+ NL;
  " * Create pkey from <cert name> and store it on <pkey path>" +:+ NL;
  TAB +:+ a +:+ " cert create_pkey <cert name> <pkey path>" +:+ NL +:+ NL;
  " * Export only public key from <cert name> and stores it " +:+ NL;
  TAB +:+ a +:+ " cert create_cert_pkey <cert name> <new cert name>" +:+ NL +:+ NL;
  " * Print hash of public key for cert <cert name>" +:+ NL;
  TAB +:+ a +:+ " cert pkey show <cert name>" +:+ NL +:+ NL;
  " * Print addr of cert <cert name>" +:+ NL;
  TAB +:+ a +:+ " cert addr show <cert name>" +:+ NL +:+ NL;
  " * Add metadata item to <cert name>" +:+ NL;
  TAB +:+ a +:+ " cert add_metadata <cert name> <key:type:length:value>" +:+ NL +:+ NL ].

Fixpoint print_all (ls : list string) : nprog unit :=
  match ls with
  | [] => mret tt
  | l :: ls' => print l ;; print_all ls'
  end.

Definition s_help : nprog unit :=
  name ← perform dap_get_appname;
  a ← deref (dap_strdup_printf (name +:+ "-tool"));
  print_all (help_lines a) ;;
  delete B_tool_appname.

(** [*--l_pos == '/'] at the offset [pos] a copy of [buf] ended at, and the
    buffer after the slash was cut; [None]: [l_pos] left the buffer. *)
Definition cut_last_slash (buf : string) (pos : nat) : option string :=
  match pos with
  | O => None
  | S i =>
      if (i <? MAX_PATH)%nat then
        Some (if bool_decide (String.get i buf = Some "/"%char) then String.substring 0 i buf else buf)
      else None
  end.

(** The result code and, when it is 0, the variables it set. *)
Definition s_init (b : build) (g_sys_dir_path : cstr) : nprog (Z * option tool_globals) :=
  name ← perform dap_get_appname;
  rc ← perform (dap_common_init name None);
  if negb (rc =z? 0) then
    print "Fatal Error: Can't init common functions module" ;; mret (-2, None)
  else
    perform (dap_log_set_external_output
      (if DAP_DEBUG b || negb (DAP_OS_WINDOWS b) then LOGGER_OUTPUT_STDOUT else LOGGER_OUTPUT_NONE) None) ;;
    perform (dap_log_level_set L_ERROR) ;;
    sys ← deref g_sys_dir_path;
    l_config_dir ← deref (snprintf MAX_PATH (sys +:+ "/etc")).2;
    rc ← perform (dap_config_init l_config_dir);
    g_config ← (if negb (rc =z? 0) then mret None
                else name ← perform dap_get_appname; perform (dap_config_open name));
    match g_config with
    | None =>
        name ← perform dap_get_appname;
        print ("Can't init general config " +:+ quoted (l_config_dir +:+ "/" +:+ name +:+ ".cfg") +:+ NL) ;;
        mret (-3, None)
    | Some cfg =>
        l_ca_path ← perform (dap_config_get_item_str_path_default "resources" "ca_folders" ".");
        l_wal_path ← perform (dap_config_get_item_str_path_default "resources" "wallets_path" ".");
        r ← perform (dap_strncpy l_ca_path MAX_PATH);
        ca_dir ← deref (cut_last_slash r.1 r.2);
        w ← perform (dap_strncpy l_wal_path MAX_PATH);
        delete B_ca_path ;;
        delete B_wal_path ;;
        mret (0, Some {| s_system_ca_dir := ca_dir; s_system_wallet_dir := w.1; g_config := cfg |})
    end.

(** 0 when the file exists, else -1; formatting a NULL [ext] is undefined. *)
Definition s_is_file_available (l_path name : string) (ext : cstr) : nprog Z :=
  ext ← deref ext;
  l_buf_path ← deref (snprintf MAX_PATH (l_path +:+ "/" +:+ name +:+ ext)).2;
  r ← perform (access l_buf_path);
  mret (if r =z? 0 then 0 else -1).

(** [for (i ..< i + n) s[i] = raw[i]]; both accesses unchecked. *)
Fixpoint copy_raw (n i : nat) (raw s : bytes) : nprog bytes :=
  match n with
  | O => mret s
  | S n' =>
      v ← deref (raw !! i);
      if (i <? length s)%nat then copy_raw n' (S i) raw (<[i := v]> s) else Undef
  end.

(** The buffer at [l_data] after the call. *)
Definition s_fill_hash_key_for_data (l_key : enc_key) (l_data : bytes) : nprog bytes :=
  l_sign_unserialized_size ← perform (dap_sign_create_output_unserialized_calc_size l_key);
  if 0 <? l_sign_unserialized_size then
    l_pub_key ← perform (dap_enc_key_serialize_pub_key l_key);
    match l_pub_key with
    | None => mret l_data
    | Some l_pub_key =>
        l_sign_ser ← perform (dap_enc_key_serialize_sign (ek_type l_key) l_sign_unserialized_size);
        match l_sign_ser with
        | None => mret l_data
        | Some l_sign_ser =>
            let l_pub_key_size := Z.of_nat (length l_pub_key) in
            let l_sign_ser_size := Z.of_nat (length l_sign_ser) in
            ok ← perform (DAP_NEW_Z_SIZE (sizeof_dap_sign_hdr_t + l_sign_ser_size + l_pub_key_size));
            if negb ok then mret l_data
            else
              let pkey_n_sign := l_pub_key ++ l_sign_ser in
              let sign_pkey_size := l_pub_key_size mod 2 ^ 32 in
              delete B_sign_ser ;;
              perform (dap_enc_key_signature_delete (ek_type l_key)) ;;
              delete B_sign_pub_key ;;
              fast_hash ← perform (dap_hash_fast (take (Z.to_nat sign_pkey_size) pkey_n_sign));
              l_data ← copy_raw DAP_CHAIN_HASH_FAST_SIZE 0 fast_hash l_data;
              delete B_sign ;;
              mret l_data
        end
    end
  else mret l_data.

Lemma print_all_quiet ls : uniform (λ e, quiet e = true) (λ o, o = Returned tt) (print_all ls).
Proof.
  induction ls as [|l ls IH]; [by apply uniform_ret|].
  apply uniform_vis. intros []. by split.
Qed.

(** [s_help] only writes to the terminal and returns. *)
Lemma s_help_quiet {L : DapLaws D} : uniform (λ e, quiet e = true) (λ o, o = Returned tt) s_help.
Proof.
  apply uniform_vis. intros name. split; [done|].
  rewrite dap_strdup_printf_eq.
  apply (uniform_bind _ _ (print_all (help_lines (name +:+ "-tool")))).
  refine (uniform_mono _ _ _ _ _ _ _ (print_all_quiet _)); [done|].
  intros o ->. apply uniform_vis. intros []. split; [done|]. by apply uniform_ret.
Qed.

(** Without the laws it may fail to format the tool's name. *)
Lemma s_help_shape :
  uniform (λ e, quiet e = true) (λ o, o = Returned tt ∨ o = Undefined) s_help.
Proof.
  apply uniform_vis. intros name. split; [done|].
  destruct (dap_strdup_printf (name +:+ "-tool")) as [a|]; [|by split; [constructor|right]].
  apply (uniform_bind _ _ (print_all (help_lines a))).
  refine (uniform_mono _ _ _ _ _ _ _ (print_all_quiet _)); [done|].
  intros o ->. apply uniform_vis. intros []. split; [done|]. apply uniform_ret. by left.
Qed.

(** [copy_raw] overwrites the bytes from [i] on. *)
Lemma copy_raw_ref n i (raw s : bytes) :
  (i + n ≤ length raw)%nat → (i + n ≤ length s)%nat →
  copy_raw n i raw s = Ret (take i s ++ take n (drop i raw) ++ drop (i + n) s).
Proof.
  revert i s. induction n as [|n IH]; intros i s Hr Hs; simpl.
  { by rewrite Nat.add_0_r, take_drop. }
  destruct (lookup_lt_is_Some_2 raw i) as [v Hv]; [lia|]. rewrite Hv. simpl.
  destruct (Nat.ltb_spec i (length s)); [|lia].
  rewrite IH by (rewrite ?length_insert; lia). f_equal.
  rewrite (drop_S _ _ _ Hv), Nat.add_succ_r. simpl.
  rewrite (take_S_r _ _ v) by (by apply list_lookup_insert_eq).
  rewrite take_insert_ge, drop_insert_lt by lia. by rewrite <-app_assoc.
Qed.

(** The public keys hashed into a buffer. *)
Definition hashed (tr : ntrace) : list (bytes * hash) :=
  omap (λ e : nevent, match e return option (bytes * hash) with Ev (dap_hash_fast d) h => Some (d, h) | _ => None end) tr.

Definition pub_keys (tr : ntrace) : list (option bytes) :=
  omap (λ e : nevent, match e return option (option bytes) with Ev (dap_enc_key_serialize_pub_key _) r => Some r | _ => None end) tr.

Lemma fill_hash_spec k l_data :
  (DAP_CHAIN_HASH_FAST_SIZE ≤ length l_data)%nat →
  all (λ tr o,
         Forall (λ x, length x.2 = DAP_CHAIN_HASH_FAST_SIZE) (hashed tr) →
         Forall (λ x, match x with Some d => Z.of_nat (length d) < 2 ^ 32 | None => True end) (pub_keys tr) →
         match hashed tr with
         | [] => o = Returned l_data
         | (d, h) :: _ => pub_keys tr = [Some d] ∧ o = Returned (h ++ drop DAP_CHAIN_HASH_FAST_SIZE l_data)
         end) (s_fill_hash_key_for_data k l_data).
Proof.
  intros Hl. unfold s_fill_hash_key_for_data. intros n. simpl. destruct (0 <? n); [|done].
  intros [pub|]; [|done]. intros [ser|]; [|done]. intros ok. simpl. destruct ok; [|done].
  intros [] [] [] h. simpl. apply all_exec. intros tr o He Hh Hp.
  apply Forall_inv in Hh, Hp. simpl in Hh, Hp. revert He.
  rewrite copy_raw_ref by lia. simpl. intros ([] & tr' & -> & -> & ->). simpl.
  rewrite Z.mod_small by lia. rewrite Nat2Z.id, take_app_length. rewrite (take_ge h) by lia. done.
Qed.

(** ** The certificate directory [s_init] computes *)

Lemma string_get_last q c : String.get (String.length q) (q +:+ String c "") = Some c.
Proof. by induction q as [|d q IH]. Qed.

Lemma string_take_last q c : String.substring 0 (String.length q) (q +:+ String c "") = q.
Proof. induction q as [|d q IH]; [done|]. simpl. by f_equal. Qed.

Lemma string_split_last s i c :
  String.length s = S i → String.get i s = Some c → s = String.substring 0 i s +:+ String c "".
Proof.
  revert i. induction s as [|d s IH]; intros i Hl Hg; [done|]. simpl in Hl. injection Hl as Hl.
  destruct i as [|i]; simpl in *; [destruct s; by simplify_eq|].
  rewrite string_app_cons. f_equal. by apply IH.
Qed.

(** The path without a final slash. *)
Definition without_slash (p d : string) : Prop :=
  (∀ q, p = q +:+ "/" → d = q) ∧ ((∀ q, p ≠ q +:+ "/") → d = p).

Lemma cut_last_slash_ref p d : cut_last_slash p (strlen p) = Some d → without_slash p d.
Proof.
  unfold cut_last_slash, strlen. destruct (String.length p) as [|i] eqn:Hl; [done|].
  destruct (i <? MAX_PATH)%nat; [|done]. intros [= <-]. split.
  - intros q ->. rewrite string_length_app in Hl. simpl in Hl. replace i with (String.length q) by lia.
    rewrite string_get_last, bool_decide_true by done. apply string_take_last.
  - intros Hne. case_bool_decide as Hg; [|done]. destruct (Hne (String.substring 0 i p)).
    by apply string_split_last.
Qed.

Lemma cut_last_slash_None p : (strlen p < MAX_PATH)%nat → cut_last_slash p (strlen p) = None → p = "".
Proof.
  unfold cut_last_slash, strlen. intros Hp. destruct p as [|c p]; [done|]. simpl in *.
  destruct (Nat.ltb_spec (String.length p) MAX_PATH); [done|lia].
Qed.

(** [dap_strncpy] copies a string that fits and returns the address of its end. *)
Definition strncpy_ok (e : nevent) : Prop :=
  match e with
  | Ev (dap_strncpy (Some s) n) r => (strlen s < n)%nat → r = (s, strlen s)
  | _ => True
  end.

(** The value of an item of the configuration. *)
Definition item (key : string) (tr : ntrace) : list cstr :=
  omap (λ e : nevent, match e return option cstr with
                      | Ev (dap_config_get_item_str_path_default _ k _) r => if k =s? key then Some r else None
                      | _ => None
                      end) tr.

#[local] Opaque cut_last_slash.
Lemma s_init_ca_dir b sys p :
  (strlen p < MAX_PATH)%nat →
  all (λ tr o, Forall strncpy_ok tr → item "ca_folders" tr = [Some p] →
               match o with
               | Returned (z, Some g) => z = 0 ∧ p ≠ "" ∧ without_slash p (s_system_ca_dir g)
               | Returned (_, None) | Exited _ => False
               | Undefined => p = ""
               end) (s_init b (Some sys)).
Proof.
  intros Hp. unfold s_init, deref. psteps; try done; simplify_eq;
    (assert (r8 = (p, strlen p)) as ->
       by (do 9 match goal with H : Forall _ _ |- _ => apply Forall_inv_tail in H end;
           match goal with H : Forall _ _ |- _ => apply Forall_inv in H; by apply H end)).
  - split_and!; [done| |by apply cut_last_slash_ref]. intros ->. done.
  - by apply (cut_last_slash_None p).
Qed.
#[local] Transparent cut_last_slash.
End ToolBase.

(** * Properties *)

(** Once the configuration is open, [s_init] takes the
    certificate directory from [ca_folders] without its final slash, and returns
    0; an empty [ca_folders] makes it read the byte before the buffer. *)
Theorem tool_init_ca_dir {D : Dap} b sys p tr o :
  (strlen p < MAX_PATH)%nat → exec (s_init b (Some sys)) tr o →
  Forall strncpy_ok tr → item "ca_folders" tr = [Some p] →
  match o with
  | Returned (z, Some g) => z = 0 ∧ p ≠ "" ∧ without_slash p (s_system_ca_dir g)
  | Returned (_, None) | Exited _ => False
  | Undefined => p = ""
  end.
Proof. intros Hp He. exact (proj1 (all_exec _ _) (s_init_ca_dir b sys p Hp) tr o He). Qed.

Lemma tool_init_ca_dir_witness :
  let ans c := match c return ret c with
               | dap_config_get_item_str_path_default _ _ _ => Some "/var/ca/"
               | c => default_ans c
               end in
  let p := s_init (D := demo_dap) linux_build (Some "/opt/n") in
  run_outcome ans p = Returned (0, Some {| s_system_ca_dir := "/var/ca"; s_system_wallet_dir := "/var/ca/"; g_config := 1%nat |})
  ∧ without_slash "/var/ca/" "/var/ca".
Proof.
  intros ans p.
  assert (run_outcome ans p = Returned (0, Some {| s_system_ca_dir := "/var/ca"; s_system_wallet_dir := "/var/ca/"; g_config := 1%nat |}))
    as Hr by (vm_compute; reflexivity).
  split; [exact Hr|].
  pose proof (tool_init_ca_dir (D := demo_dap) linux_build "/opt/n" "/var/ca/" (run_trace ans p) (run_outcome ans p)) as H.
  rewrite Hr in H. apply H.
  - vm_compute. lia.
  - rewrite <-Hr. apply exec_run_pure.
  - vm_compute. repeat constructor.
  - vm_compute. reflexivity.
Defined.

(** [s_fill_hash_key_for_data] stores in the buffer
    exactly the hash of the serialised public key and leaves the bytes behind it
    as they were; when a step before fails the buffer is unchanged. *)
Theorem fill_hash_correct {D : Dap} k l_data tr o :
  (DAP_CHAIN_HASH_FAST_SIZE ≤ length l_data)%nat →
  exec (s_fill_hash_key_for_data k l_data) tr o →
  Forall (λ x, length x.2 = DAP_CHAIN_HASH_FAST_SIZE) (hashed tr) →
  Forall (λ x, match x with Some d => Z.of_nat (length d) < 2 ^ 32 | None => True end) (pub_keys tr) →
  match hashed tr with
  | [] => o = Returned l_data
  | (d, h) :: _ => pub_keys tr = [Some d] ∧ o = Returned (h ++ drop DAP_CHAIN_HASH_FAST_SIZE l_data)
  end.
Proof. intros Hl He. exact (proj1 (all_exec _ _) (fill_hash_spec k l_data Hl) tr o He). Qed.

Lemma fill_hash_correct_witness :
  let k := {| ek_type := 1; pub_key_data := Some [x01; x02]; pub_key_data_size := 2;
              priv_key_data := None; priv_key_data_size := 0 |} in
  let p := s_fill_hash_key_for_data (D := demo_dap) k (repeat x00 33) in
  hashed (run_trace default_ans p) = [([x01; x02], repeat x01 32)] ∧
  match hashed (run_trace default_ans p) with
  | [] => run_outcome default_ans p = Returned (repeat x00 33)
  | (d, h) :: _ => pub_keys (run_trace default_ans p) = [Some d] ∧
                   run_outcome default_ans p = Returned (h ++ drop 32 (repeat x00 33))
  end.
Proof.
  intros k p. split; [vm_compute; reflexivity|].
  refine (fill_hash_correct (D := demo_dap) k (repeat x00 33) (run_trace default_ans p) (run_outcome default_ans p) _ _ _ _).
  - vm_compute. lia.
  - apply exec_run_pure.
  - assert (hashed (run_trace default_ans p) = [([x01; x02], repeat x01 32)]) as -> by (vm_compute; reflexivity).
    repeat constructor.
  - assert (pub_keys (run_trace default_ans p) = [Some [x01; x02]]) as -> by (vm_compute; reflexivity).
    repeat constructor.
Defined.

#[global] Opaque s_help.
