(* ===== verification/ToolWallet.v ===== *)
(** * cellframe-node-tool: the wallet commands

    [sources/main_node_tool.c]: creating wallets (plain and password
    protected, single and multi signature), the unimplemented [create_from],
    [sign_file] and the public key commands. *)
From S2P Require Import Prelude Prog CLib Sdk ToolBase.

Set Default Proof Using "Type".
Open Scope Z_scope.

Section ToolWallet.
  Context {D : Dap}.
  Implicit Types (g : tool_globals) (argv : list string).

(** [log_it(L_ERROR, ...); exit(code)]. *)
Definition fail_with {A} (msg : string) (code : Z) : nprog A := print msg ;; Exit code.

(** The same with the usage text in between. *)
Definition fail_help {A} (msg : string) (code : Z) : nprog A := print msg ;; s_help ;; Exit code.

(** [for (int i = ...; i < argc; i++) if (!strcmp(argv[i], "-seed")) ...]: the
    last seed given; [missing] is what happens for a [-seed] without a value. *)
Fixpoint seed_loop (fuel : nat) argv (missing : nprog cstr) (i : nat) (l_seed_str : cstr) : nprog cstr :=
  if (i <? length argv)%nat then
    match fuel with
    | O => Undef
    | S fuel' =>
        a ← arg_str argv i;
        if strcmp a "-seed" =z? 0 then
          if (i + 1 <? length argv)%nat then
            v ← arg argv (i + 1);
            seed_loop fuel' argv missing (i + 2) v
          else missing
        else seed_loop fuel' argv missing (i + 1) l_seed_str
    end
  else mret l_seed_str.

Definition parse_seed argv (from : nat) (missing : nprog cstr) : nprog cstr :=
  seed_loop (length argv) argv missing from None.

(** The loop that reads the signature types of a multi signature from
    [argv[i]] on into [l_types], skipping [-seed] and its value. *)
Fixpoint types_loop (fuel : nat) argv (i : nat) (l_types : list Z) : nprog (list Z) :=
  if (i <? length argv)%nat then
    match fuel with
    | O => Undef
    | S fuel' =>
        a ← arg_str argv i;
        if strcmp a "-seed" =z? 0 then types_loop fuel' argv (i + 2) l_types
        else if (length l_types <? MAX_ENC_KEYS_IN_MULTYSIGN)%nat then
          let t := dap_sign_type_from_str (Some a) in
          if t =z? SIG_TYPE_NULL then
            fail_with ("Invalid signature type '" +:+ a +:+ "', you can use the following:" +:+ NL
                       +:+ dap_sign_get_str_recommended_types) (-2007)
          else if dap_sign_type_is_deprecated t then
            fail_with ("Tesla, picnic, bliss algorithms is not supported, please, use another variant:" +:+ NL
                       +:+ dap_sign_get_str_recommended_types) (-2008)
          else types_loop fuel' argv (i + 1) (l_types ++ [t])
        else Undef
    end
  else mret l_types.

Definition parse_types argv (from : nat) : nprog (list Z) :=
  types_loop (length argv) argv from [].

(** [l_seed_str ? strlen(l_seed_str) : 0]. *)
Definition seed_size (l_seed_str : cstr) : Z :=
  match l_seed_str with Some s => Z.of_nat (strlen s) | None => 0 end.

(** [l_seed_str && *l_seed_str ? ..._with_seed : ...create]. *)
Definition create_single g (name : string) (sig_type : Z) (l_seed_str pass : cstr) : nprog (option wallet) :=
  match l_seed_str with
  | Some (String c s) =>
      perform (dap_chain_wallet_create_with_seed name (s_system_wallet_dir g) sig_type (String c s)
                 (seed_size l_seed_str) pass)
  | _ => perform (dap_chain_wallet_create name (s_system_wallet_dir g) sig_type pass)
  end.

(** [exit(-2007)] when the wallet file exists. *)
Definition check_wallet_absent (name : string) : nprog unit :=
  dir ← perform dap_chain_wallet_get_path;
  exists_ ← perform (dap_file_test (dap_strdup_printf (dir +:+ "/" +:+ name +:+ ".dwallet")));
  if exists_ : bool then fail_with ("The '" +:+ name +:+ "' wallet already exists." +:+ NL) (-2007)
  else delete B_file_name.

Definition report_wallet (name : string) (l_wallet : option wallet) : nprog Z :=
  match l_wallet with
  | Some _ => print ("Wallet " +:+ name +:+ " has been created." +:+ NL) ;; mret 0
  | None => print "Failed to create a wallet." ;; mret (-1)
  end.

Definition s_wallet_create g argv : nprog Z :=
  if argc_lt argv 5 then fail_help "Wrong 'wallet create' command params" (-2003)
  else
    l_wallet_name ← arg_str argv 3;
    a4 ← arg_str argv 4;
    let l_sig_type := dap_sign_type_from_str (Some a4) in
    if dap_isstralnum (Some l_wallet_name) =z? 0 then
      fail_with "Wallet name must contain digits and alphabet symbols" (-2004)
    else if l_sig_type =z? SIG_TYPE_NULL then
      fail_help ("Invalid signature type '" +:+ a4 +:+ "', you can use the following:" +:+ NL
                 +:+ dap_sign_get_str_recommended_types) (-2004)
    else if dap_sign_type_is_deprecated l_sig_type then
      fail_with ("Tesla, picnic, bliss algorithms is not supported, please, use another variant:" +:+ NL
                 +:+ dap_sign_get_str_recommended_types) (-2004)
    else
      l_seed_str ← parse_seed argv 5 (fail_with ("Option -seed requires a value" +:+ NL) (-2009));
      check_wallet_absent l_wallet_name ;;
      l_wallet ←
        (if l_sig_type =z? SIG_TYPE_MULTI_CHAINED then
           if argc_lt argv 7 then
             fail_with "For a signature with type sig_multi_chained, two more signature type parameters must be set." (-2006)
           else
             l_types ← parse_types argv 6;
             perform (dap_chain_wallet_create_with_seed_multi l_wallet_name (s_system_wallet_dir g)
                        l_types (Z.of_nat (length l_types)) l_seed_str (seed_size l_seed_str) None)
         else create_single g l_wallet_name l_sig_type l_seed_str None);
      report_wallet l_wallet_name l_wallet.

Definition s_wallet_create_wp g argv : nprog Z :=
  if argc_lt argv 5 then fail_help "Wrong 'wallet create' command params" (-2003)
  else
    l_wallet_name ← arg_str argv 3;
    l_pass_str ← arg_str argv 4;
    a5 ← arg argv 5;
    let l_sig_type := dap_sign_type_from_str a5 in
    if dap_isstralnum (Some l_wallet_name) =z? 0 then
      fail_with "Wallet name must contain digits and alphabet symbols" (-2004)
    else if l_sig_type =z? SIG_TYPE_NULL then
      a4 ← arg_str argv 4;
      fail_help ("Invalid signature type '" +:+ a4 +:+ "', you can use the following:" +:+ NL
                 +:+ dap_sign_get_str_recommended_types) (-2004)
    else if dap_sign_type_is_deprecated l_sig_type then
      fail_with ("Tesla, picnic, bliss algorithms is not supported, please, use another variant:" +:+ NL
                 +:+ dap_sign_get_str_recommended_types) (-2004)
    else
      l_seed_str ← parse_seed argv 6 (fail_with ("Option -seed requires a value" +:+ NL) (-2009));
      check_wallet_absent l_wallet_name ;;
      if negb (dap_check_valid_password (Some l_pass_str) (dap_strlen (Some l_pass_str))) then
        fail_with ("Invalid characters used for password." +:+ NL) (-2008)
      else
        l_wallet ←
          (if l_sig_type =z? SIG_TYPE_MULTI_CHAINED then
             if argc_lt argv 8 then
               fail_with ("For a signature with type sig_multi_chained, two more signature type parameters must be set." +:+ NL) (-2006)
             else
               l_types ← parse_types argv 6;
               perform (dap_chain_wallet_create_with_seed_multi l_wallet_name (s_system_wallet_dir g)
                          l_types (Z.of_nat (length l_types)) l_seed_str (seed_size l_seed_str) (Some l_pass_str))
           else create_single g l_wallet_name l_sig_type l_seed_str (Some l_pass_str));
        report_wallet l_wallet_name l_wallet.

Definition s_wallet_create_from g argv : nprog Z :=
  print "The wallet create_from command is not implemented." ;; mret (-1).

Definition s_wallet_sign_file g argv : nprog Z :=
  if argc_lt argv 8 then fail_help "Wrong 'wallet sign_file' command params" (-3000)
  else
    a3 ← arg_str argv 3;
    l_wallet ← perform (dap_chain_wallet_open a3 (s_system_wallet_dir g) None);
    match l_wallet with
    | None => fail_help ("Can't open wallet " +:+ quoted a3) (-3001)
    | Some w =>
        a4 ← arg_str argv 4;
        l_cert_index ← deref (atoi a4);
        l_wallet_certs_number ← perform (dap_chain_wallet_get_certs_number w);
        if (0 <? l_cert_index) && (l_cert_index <? l_wallet_certs_number) then
          a5 ← arg_str argv 5;
          l_data_file ← perform (fopen (Some a5) "rb");
          match l_data_file with
          | Some f =>
              perform (fclose f) ;;
              print ("Certificate " +:+ a5 +:+ " was successfully created from wallet " +:+ a3 +:+ "." +:+ NL) ;;
              Exit 0
          | None => mret 0
          end
        else
          fail_help ("Cert index " +:+ pretty l_cert_index +:+ " can't be found in wallet with "
                     +:+ pretty l_wallet_certs_number +:+ " certs inside") (-3002)
    end.

(** The file of a wallet, in a buffer of [MAX_PATH + 10] characters. *)
Definition wallet_path g (name : string) : cstr :=
  (snprintf (MAX_PATH + 10) (s_system_wallet_dir g +:+ "/" +:+ name +:+ ".dwallet")).2.

(** Opens the wallet [argv[4]], asking for the password [argv[5]] when needed. *)
Definition open_wallet_pkey g argv : nprog wallet :=
  a4 ← arg_str argv 4;
  l_wallet ← perform (dap_chain_wallet_open a4 (s_system_wallet_dir g) None);
  match l_wallet with
  | Some w => mret w
  | None =>
      l_wallet_path ← deref (wallet_path g a4);
      found ← perform (access l_wallet_path);
      if found =z? 0 then
        l_pass_str ← arg argv 5;
        match l_pass_str with
        | None => fail_with ("Password required for wallet " +:+ a4 +:+ NL) (-134)
        | Some _ =>
            perform (dap_log_level_set L_CRITICAL) ;;
            l_wallet ← perform (dap_chain_wallet_open_file l_wallet_path l_pass_str);
            match l_wallet with
            | None => fail_with ("Wrong password for wallet " +:+ a4 +:+ NL) (-134)
            | Some w => mret w
            end
        end
      else
        fail_with ("Wallet " +:+ a4 +:+ " not found in the directory " +:+ s_system_wallet_dir g +:+ NL) (-136)
  end.

Definition s_wallet_pkey_show g argv : nprog Z :=
  if negb (bool_decide (length argv = 5%nat)) && negb (bool_decide (length argv = 6%nat)) then
    fail_with ("Wrong 'wallet pkey show' command params" +:+ NL) (-800)
  else
    w ← open_wallet_pkey g argv;
    r ← perform (dap_chain_wallet_get_pkey_hash w);
    if negb (r.1 =z? 0) then
      a4 ← arg_str argv 4;
      fail_with ("Can't serialize wallet " +:+ a4) (-135)
    else
      s ← perform (dap_chain_hash_fast_to_str_static r.2);
      print (s +:+ NL) ;;
      mret 0.

Definition s_wallet_pkey_show_full g argv : nprog Z :=
  if negb (bool_decide (length argv = 5%nat)) then
    fail_with ("Wrong 'wallet pkey show' command params" +:+ NL) (-800)
  else
    a4 ← arg_str argv 4;
    l_wallet ← perform (dap_chain_wallet_open a4 (s_system_wallet_dir g) None);
    match l_wallet with
    | None => fail_with ("Not found wallet " +:+ a4 +:+ NL) (-134)
    | Some w =>
        r ← perform (dap_chain_wallet_get_pkey_hash w);
        if negb (r.1 =z? 0) then fail_with ("Can't serialize wallet " +:+ a4) (-135)
        else
          l_pkey_str ← perform (dap_chain_wallet_get_pkey_str w "hex");
          h ← perform (dap_chain_hash_fast_to_str_static r.2);
          k ← deref l_pkey_str;
          print ("hash: " +:+ h +:+ NL +:+ "pkey: " +:+ k +:+ NL) ;;
          delete B_pkey_str ;;
          mret 0
    end.

(** ** What a command line asks for

    Both functions below read the argument list by pattern matching instead of
    by index.  [create_coded] and [create_wp_coded] are what the two commands
    do, multi signatures included; [create_spec] and [create_wp_spec] are what
    their usage text promises. *)

(** [a] is the option [-seed]. *)
Definition is_seed (a : string) : bool := strcmp a "-seed" =z? 0.

(** The last seed of [args]; [None] when a [-seed] has no value. *)
Fixpoint last_seed (args : list string) (acc : cstr) : option cstr :=
  match args with
  | [] => Some acc
  | a :: rest =>
      if is_seed a then
        match rest with
        | [] => None
        | v :: rest' => last_seed rest' (Some v)
        end
      else last_seed rest acc
  end.

(** What becomes of a creation request once no file of the wallet is there. *)
Inductive verdict :=
  | Reject (code : Z)          (* the tool exits with [code] *)
  | Request (c : call)         (* it asks the SDK for the wallet *)
  | Overflow.                  (* it writes past the end of [l_types] *)

(** What a command line asks for: it is refused outright, or the wallet [name]
    is to be dealt with as [v] says, if it has no file yet. *)
Inductive plan :=
  | Refuse (code : Z)
  | IfAbsent (name : string) (v : verdict).

Inductive types_verdict :=
  | TypesOk (l_types : list Z)
  | TypesReject (code : Z)
  | TypesOverflow.

(** The signature types the loop stores for [args], the array included. *)
Fixpoint multi_types (args : list string) (l_types : list Z) : types_verdict :=
  match args with
  | [] => TypesOk l_types
  | a :: rest =>
      if is_seed a then
        match rest with
        | [] => TypesOk l_types
        | _ :: rest' => multi_types rest' l_types
        end
      else if (length l_types <? MAX_ENC_KEYS_IN_MULTYSIGN)%nat then
        let t := dap_sign_type_from_str (Some a) in
        if t =z? SIG_TYPE_NULL then TypesReject (-2007)
        else if dap_sign_type_is_deprecated t then TypesReject (-2008)
        else multi_types rest (l_types ++ [t])
      else TypesOverflow
  end.

Definition single_call g (name : string) (t : Z) (seed pass : cstr) : call :=
  match seed with
  | Some (String c s) =>
      dap_chain_wallet_create_with_seed name (s_system_wallet_dir g) t (String c s) (seed_size seed) pass
  | _ => dap_chain_wallet_create name (s_system_wallet_dir g) t pass
  end.

Definition multi_request_of g (name : string) (ts : list Z) (seed pass : cstr) : verdict :=
  Request (dap_chain_wallet_create_with_seed_multi name (s_system_wallet_dir g) ts
             (Z.of_nat (length ts)) seed (seed_size seed) pass).

Definition multi_call g (name : string) (seed pass : cstr) (v : types_verdict) : verdict :=
  match v with
  | TypesOk ts => multi_request_of g name ts seed pass
  | TypesReject z => Reject z
  | TypesOverflow => Overflow
  end.

(** As coded: [wallet create <name> <type> <rest>] reads the types of a multi
    signature from the second word of [rest] on. *)
Definition create_coded g argv : plan :=
  match argv with
  | _ :: _ :: _ :: name :: ty :: rest =>
      let t := dap_sign_type_from_str (Some ty) in
      if dap_isstralnum (Some name) =z? 0 then Refuse (-2004)
      else if t =z? SIG_TYPE_NULL then Refuse (-2004)
      else if dap_sign_type_is_deprecated t then Refuse (-2004)
      else
        match last_seed rest None with
        | None => Refuse (-2009)
        | Some seed =>
            IfAbsent name
              (if t =z? SIG_TYPE_MULTI_CHAINED then
                 match rest with
                 | _ :: _ :: _ => multi_call g name seed None (multi_types (tail rest) [])
                 | _ => Reject (-2006)
                 end
               else Request (single_call g name t seed None))
        end
  | _ => Refuse (-2003)
  end.

(** As coded: [wallet create_wp <name> <password> <type> <rest>]; the type is
    missing when there are only five arguments. *)
Definition create_wp_coded g argv : plan :=
  match argv with
  | _ :: _ :: _ :: name :: pass :: more =>
      let t := dap_sign_type_from_str (head more) in
      let rest := tail more in
      if dap_isstralnum (Some name) =z? 0 then Refuse (-2004)
      else if t =z? SIG_TYPE_NULL then Refuse (-2004)
      else if dap_sign_type_is_deprecated t then Refuse (-2004)
      else
        match last_seed rest None with
        | None => Refuse (-2009)
        | Some seed =>
            IfAbsent name
              (if negb (dap_check_valid_password (Some pass) (dap_strlen (Some pass))) then Reject (-2008)
               else if t =z? SIG_TYPE_MULTI_CHAINED then
                 match rest with
                 | _ :: _ :: _ => multi_call g name seed (Some pass) (multi_types rest [])
                 | _ => Reject (-2006)
                 end
               else Request (single_call g name t seed (Some pass)))
        end
  | _ => Refuse (-2003)
  end.

(** ** The documented behaviour

    [wallet create <name> <type> [-seed <value>] [<type 2> ... <type N>]], and
    the same with a password: the types of a multi signature are the words that
    are neither [-seed] nor its value, all of them, at least two. *)
Fixpoint type_words (args : list string) : list string :=
  match args with
  | [] => []
  | a :: rest =>
      if is_seed a then match rest with [] => [] | _ :: rest' => type_words rest' end
      else a :: type_words rest
  end.

(** The types named by [words], or the code of the first bad one. *)
Fixpoint types_of (words : list string) : Z + list Z :=
  match words with
  | [] => inr []
  | a :: rest =>
      let t := dap_sign_type_from_str (Some a) in
      if t =z? SIG_TYPE_NULL then inl (-2007)
      else if dap_sign_type_is_deprecated t then inl (-2008)
      else match types_of rest with inl z => inl z | inr ts => inr (t :: ts) end
  end.

Definition multi_spec g (name : string) (seed pass : cstr) (words : list string) : verdict :=
  if (length words <? 2)%nat then Reject (-2006)
  else
    match types_of words with
    | inl z => Reject z
    | inr ts => multi_request_of g name ts seed pass
    end.

(** The password given, if any, is acceptable. *)
Definition pass_ok (pass : cstr) : bool :=
  match pass with Some p => dap_check_valid_password (Some p) (dap_strlen (Some p)) | None => true end.

Definition wallet_spec g (name : string) (pass ty : cstr) (rest : list string) : plan :=
  let t := dap_sign_type_from_str ty in
  if (dap_isstralnum (Some name) =z? 0) || (t =z? SIG_TYPE_NULL) || dap_sign_type_is_deprecated t
  then Refuse (-2004)
  else
    match last_seed rest None with
    | None => Refuse (-2009)
    | Some seed =>
        IfAbsent name
          (if negb (pass_ok pass) then Reject (-2008)
           else if t =z? SIG_TYPE_MULTI_CHAINED then multi_spec g name seed pass (type_words rest)
           else Request (single_call g name t seed pass))
    end.

Definition create_spec g argv : plan :=
  match argv with
  | _ :: _ :: _ :: name :: ty :: rest => wallet_spec g name None (Some ty) rest
  | _ => Refuse (-2003)
  end.

Definition create_wp_spec g argv : plan :=
  match argv with
  | _ :: _ :: _ :: name :: pass :: more => wallet_spec g name (Some pass) (head more) (tail more)
  | _ => Refuse (-2003)
  end.

(** The command line asks for a single signature. *)
Definition single_signature (ty : cstr) : bool :=
  negb (dap_sign_type_from_str ty =z? SIG_TYPE_MULTI_CHAINED).

(** The arguments after the type are too few for two types even with the words
    of [-seed] counted, or name at least two types and no more than [l_types]
    holds. *)
Definition types_fit (rest : list string) : bool :=
  (length rest <? 2)%nat
  || ((2 <=? length (type_words rest)) && (length (type_words rest) <=? MAX_ENC_KEYS_IN_MULTYSIGN))%nat.

(** ** Reading the trace of a creation command *)

(** The calls that ask the SDK for a wallet, with their answers. *)
Definition creation_of (e : nevent) : option (call * option wallet) :=
  match e with
  | Ev (dap_chain_wallet_create n d t p) r => Some (dap_chain_wallet_create n d t p, r)
  | Ev (dap_chain_wallet_create_with_seed n d t s k p) r =>
      Some (dap_chain_wallet_create_with_seed n d t s k p, r)
  | Ev (dap_chain_wallet_create_with_seed_multi n d ts k s z p) r =>
      Some (dap_chain_wallet_create_with_seed_multi n d ts k s z p, r)
  | _ => None
  end.

Definition creations (tr : ntrace) : list (call * option wallet) := omap creation_of tr.

(** The answers about the existence of a file, in order. *)
Definition file_test_of (e : nevent) : option (cstr * bool) :=
  match e with Ev (dap_file_test p) r => Some (p, r) | _ => None end.

Definition file_tests (tr : ntrace) : list (cstr * bool) := omap file_test_of tr.

(** A test that was made found its file. *)
Definition file_exists (tr : ntrace) : bool := existsb snd (file_tests tr).

(** What follows the existence test. *)
Definition carried (v : verdict) (tr : ntrace) (o : outcome Z) : Prop :=
  match v with
  | Reject z => o = Exited z ∧ creations tr = []
  | Request c => ∃ r, creations tr = [(c, r)] ∧
                 o = Returned (match r with Some _ => 0 | None => -1 end)
  | Overflow => o = Undefined ∧ creations tr = []
  end.

(** [tr] begins with the test for the file of the wallet [name] in the
    directory the SDK gives; [rest] is what follows, by the answer. *)
Definition tested (name : string) (tr : ntrace) (rest : bool → ntrace → Prop) : Prop :=
  ∃ dir ex tr',
    tr = Ev dap_chain_wallet_get_path dir
         :: Ev (dap_file_test (Some (dir +:+ "/" +:+ name +:+ ".dwallet"))) ex :: tr' ∧
    file_tests tr' = [] ∧ rest ex tr'.

(** The behaviour a plan asks for: a refusal comes before anything is tested or
    made; otherwise the wallet's file is tested first, and a wallet that has one
    is refused with -2007. *)
Definition obeys (p : plan) (tr : ntrace) (o : outcome Z) : Prop :=
  match p with
  | Refuse z => o = Exited z ∧ creations tr = [] ∧ file_tests tr = []
  | IfAbsent name v =>
      tested name tr (λ ex tr', carried (if ex then Reject (-2007) else v) tr' o)
  end.

(** ** The loops compute the reference functions *)
Lemma seed_loop_ref argv missing fuel i seed :
  (length argv - i ≤ fuel)%nat →
  seed_loop fuel argv missing i seed =
    match last_seed (drop i argv) seed with Some s => Ret s | None => missing end.
Proof.
  revert i seed. induction fuel as [fuel IH] using lt_wf_ind; intros i seed Hf.
  destruct fuel as [|fuel]; simpl.
  { destruct (Nat.ltb_spec i (length argv)); [lia|]. by rewrite drop_ge. }
  destruct (Nat.ltb_spec i (length argv)) as [Hi|Hi]; [|by rewrite drop_ge].
  destruct (arg_in_range _ _ Hi) as [a Ha]. rewrite (arg_str_lookup _ _ _ Ha). simpl.
  rewrite (drop_S _ _ _ Ha). simpl. unfold is_seed.
  destruct (strcmp a "-seed" =z? 0); [|rewrite (IH fuel) by lia; by rewrite Nat.add_1_r].
  rewrite Nat.add_1_r.
  destruct (Nat.ltb_spec (S i) (length argv)) as [Hi2|Hi2]; [|by rewrite drop_ge].
  destruct (arg_in_range _ _ Hi2) as [v Hv]. rewrite (arg_lookup _ _ _ Hv). simpl.
  rewrite (drop_S _ _ _ Hv), (IH fuel) by lia. by replace (i + 2)%nat with (S (S i)) by lia.
Qed.

Lemma parse_seed_ref argv from missing :
  parse_seed argv from missing =
    match last_seed (drop from argv) None with Some s => Ret s | None => missing end.
Proof. apply seed_loop_ref. lia. Qed.

(** What [types_loop] does for a verdict on the types. *)
Definition types_prog (v : types_verdict) (p : nprog (list Z)) : Prop :=
  match v with
  | TypesOk ts => p = Ret ts
  | TypesReject z => ∃ msg, p = fail_with msg z
  | TypesOverflow => p = Undef
  end.

Lemma types_loop_ref argv fuel i ts :
  (length argv - i ≤ fuel)%nat → types_prog (multi_types (drop i argv) ts) (types_loop fuel argv i ts).
Proof.
  revert i ts. induction fuel as [fuel IH] using lt_wf_ind; intros i ts Hf.
  destruct fuel as [|fuel]; simpl.
  { destruct (Nat.ltb_spec i (length argv)); [lia|]. by rewrite drop_ge. }
  destruct (Nat.ltb_spec i (length argv)) as [Hi|Hi]; [|by rewrite drop_ge].
  destruct (arg_in_range _ _ Hi) as [a Ha]. rewrite (arg_str_lookup _ _ _ Ha). simpl.
  rewrite (drop_S _ _ _ Ha). simpl. unfold is_seed.
  destruct (strcmp a "-seed" =z? 0).
  - replace (i + 2)%nat with (S (S i)) by lia.
    destruct (drop (S i) argv) as [|v rest] eqn:Hd.
    + assert (length argv ≤ S i)%nat by (apply (f_equal length) in Hd; rewrite length_drop in Hd; simpl in Hd; lia).
      destruct fuel; simpl; destruct (Nat.ltb_spec (S (S i)) (length argv)); try done; lia.
    + assert (rest = drop (S (S i)) argv) as ->.
      { replace (S (S i)) with (S i + 1)%nat by lia. by rewrite <-drop_drop, Hd. }
      apply IH; lia.
  - destruct (_ <? _)%nat; [|done].
    destruct (_ =z? _); [by eexists|]. destruct (dap_sign_type_is_deprecated _); [by eexists|].
    rewrite Nat.add_1_r. apply IH; lia.
Qed.

(** ** The commands do what they are coded to do *)
Lemma argc_lt_true argv n : (length argv < n)%nat → argc_lt argv n = true.
Proof. apply bool_decide_eq_true_2. Qed.

Lemma argc_lt_false argv n : (n ≤ length argv)%nat → argc_lt argv n = false.
Proof. intros. apply bool_decide_eq_false_2. lia. Qed.

Lemma quiet_creations tr : Forall (λ e, quiet e = true) tr → creations tr = [].
Proof. induction 1 as [|[c r] tr Hq _ IH]; [done|]. by destruct c. Qed.

Lemma quiet_file_tests tr : Forall (λ e, quiet e = true) tr → file_tests tr = [].
Proof. induction 1 as [|[c r] tr Hq _ IH]; [done|]. by destruct c. Qed.

Lemma obeys_refuse p z tr :
  Forall (λ e, quiet e = true) tr → p = Refuse z → obeys p tr (Exited z).
Proof.
  intros Hq ->. split_and!; [done|by apply quiet_creations|by apply quiet_file_tests].
Qed.

Lemma all_fail_help {L : DapLaws D} {A} (P : ntrace → outcome A → Prop) msg z :
  (∀ tr, Forall (λ e, quiet e = true) tr → P tr (Exited z)) → all P (fail_help msg z).
Proof.
  intros HP. unfold fail_help. simpl. intros []. apply all_bind.
  eapply all_mono; [|apply s_help_quiet]. intros tr o [Htr ->]. simpl.
  rewrite app_nil_r. apply HP. by constructor.
Qed.

#[local] Arguments fail_with {_} _ _ /.
#[local] Arguments fail_help : simpl never.

(** The existence test, and what follows it. *)
Lemma all_check_absent {L : DapLaws D} name v (k : nprog Z) :
  all (λ tr o, file_tests tr = [] ∧ carried v tr o) k →
  all (obeys (IfAbsent name v)) (check_wallet_absent name ;; k).
Proof.
  intros Hk. unfold check_wallet_absent. simpl. intros dir. rewrite dap_strdup_printf_eq. intros [|]; simpl.
  { intros []. by do 3 eexists. }
  intros []. eapply all_mono; [|exact Hk]. intros tr o [Hf Hc].
  eexists dir, false, _. split_and!; [done|exact Hf|]. simpl. by destruct v.
Qed.

(** A single signature is asked for and answered. *)
Lemma all_create_single g name t seed pass :
  all (λ tr o, file_tests tr = [] ∧ carried (Request (single_call g name t seed pass)) tr o)
    (create_single g name t seed pass ≫= report_wallet name).
Proof.
  destruct seed as [[|c s]|]; simpl; intros [w|]; simpl; intros []; (split; [done|by eexists]).
Qed.

Lemma all_create_multi g argv from name seed pass :
  all (λ tr o, file_tests tr = [] ∧ carried (multi_call g name seed pass (multi_types (drop from argv) [])) tr o)
    ((l_types ← parse_types argv from;
      perform (dap_chain_wallet_create_with_seed_multi name (s_system_wallet_dir g)
                 l_types (Z.of_nat (length l_types)) seed (seed_size seed) pass))
     ≫= report_wallet name).
Proof.
  pose proof (types_loop_ref argv (length argv) from [] ltac:(lia)) as Ht. unfold parse_types.
  destruct (multi_types (drop from argv) []) as [ts|z|]; simpl in *.
  - rewrite Ht. simpl. intros [w|]; simpl; intros []; (split; [done|by eexists]).
  - destruct Ht as [msg ->]. by intros [].
  - by rewrite Ht.
Qed.

#[local] Arguments check_wallet_absent : simpl never.
Lemma create_refines {L : DapLaws D} g argv : all (obeys (create_coded g argv)) (s_wallet_create g argv).
Proof.
  unfold s_wallet_create.
  destruct argv as [|a0 [|a1 [|a2 [|name [|ty rest]]]]];
    [rewrite argc_lt_true by (simpl; lia); apply all_fail_help; intros; by apply obeys_refuse..|].
  set (argv := a0 :: a1 :: a2 :: name :: ty :: rest).
  rewrite argc_lt_false by (simpl; lia).
  rewrite (arg_str_lookup argv 3 name eq_refl), (arg_str_lookup argv 4 ty eq_refl), parse_seed_ref.
  change (drop 5 argv) with rest. unfold create_coded, argv at 1. cbn [mbind prog_bind prog_bind_].
  destruct (dap_isstralnum (Some name) =z? 0).
  { intros []. apply obeys_refuse; [by repeat constructor|done]. }
  destruct (dap_sign_type_from_str (Some ty) =z? SIG_TYPE_NULL).
  { apply all_fail_help. intros tr Htr. by apply obeys_refuse. }
  destruct (dap_sign_type_is_deprecated _).
  { intros []. apply obeys_refuse; [by repeat constructor|done]. }
  destruct (last_seed rest None) as [seed|].
  2: { intros []. apply obeys_refuse; [by repeat constructor|done]. }
  apply all_check_absent.
  destruct (dap_sign_type_from_str (Some ty) =z? SIG_TYPE_MULTI_CHAINED); [|apply all_create_single].
  destruct rest as [|t1 [|t2 rest]];
    [rewrite argc_lt_true by (simpl; lia); by intros []..|].
  rewrite argc_lt_false by (simpl; lia). apply (all_create_multi g argv 6).
Qed.

Lemma create_wp_refines {L : DapLaws D} g argv :
  all (obeys (create_wp_coded g argv)) (s_wallet_create_wp g argv).
Proof.
  unfold s_wallet_create_wp.
  destruct argv as [|a0 [|a1 [|a2 [|name [|pass more]]]]];
    [rewrite argc_lt_true by (simpl; lia); apply all_fail_help; intros; by apply obeys_refuse..|].
  set (argv := a0 :: a1 :: a2 :: name :: pass :: more).
  rewrite argc_lt_false by (simpl; lia).
  rewrite !(arg_str_lookup argv 3 name eq_refl), !(arg_str_lookup argv 4 pass eq_refl), parse_seed_ref.
  assert (arg argv 5 = Ret (head more)) as ->.
  { destruct more as [|ty more]; [done|]. by apply arg_lookup. }
  assert (drop 6 argv = tail more) as -> by by destruct more.
  unfold create_wp_coded, argv at 1. cbn [mbind prog_bind prog_bind_].
  destruct (dap_isstralnum (Some name) =z? 0).
  { intros []. apply obeys_refuse; [by repeat constructor|done]. }
  destruct (dap_sign_type_from_str (head more) =z? SIG_TYPE_NULL).
  { apply all_fail_help. intros tr Htr. by apply obeys_refuse. }
  destruct (dap_sign_type_is_deprecated _).
  { intros []. apply obeys_refuse; [by repeat constructor|done]. }
  destruct (last_seed (tail more) None) as [seed|].
  2: { intros []. apply obeys_refuse; [by repeat constructor|done]. }
  apply all_check_absent.
  destruct (dap_check_valid_password _ _); simpl negb; cbv iota; [|by intros []].
  destruct (dap_sign_type_from_str (head more) =z? SIG_TYPE_MULTI_CHAINED); [|apply all_create_single].
  destruct more as [|ty [|t1 [|t2 rest]]];
    [rewrite argc_lt_true by (simpl; lia); by intros []..|].
  rewrite argc_lt_false by (simpl; lia). apply (all_create_multi g argv 6).
Qed.

Lemma create_exec {L : DapLaws D} g argv tr o :
  exec (s_wallet_create g argv) tr o → obeys (create_coded g argv) tr o.
Proof. apply all_exec, create_refines. Qed.

Lemma create_wp_exec {L : DapLaws D} g argv tr o :
  exec (s_wallet_create_wp g argv) tr o → obeys (create_wp_coded g argv) tr o.
Proof. apply all_exec, create_wp_refines. Qed.

(** A plan for a wallet whose file was not found. *)
Lemma obeys_absent name v tr o :
  file_exists tr = false → obeys (IfAbsent name v) tr o → carried v (drop 2 tr) o ∧ creations tr = creations (drop 2 tr).
Proof.
  intros Hf (dir & ex & tr' & -> & _ & Hc). destruct ex; [done|]. by split.
Qed.

(** ** ... which is what is documented, where the arguments fit *)
Lemma multi_types_spec args ts :
  (length ts + length (type_words args) ≤ MAX_ENC_KEYS_IN_MULTYSIGN)%nat →
  multi_types args ts =
    match types_of (type_words args) with inl z => TypesReject z | inr l => TypesOk (ts ++ l) end.
Proof.
  remember (length args) as n eqn:Hn. revert args ts Hn.
  induction n as [n IH] using lt_wf_ind; intros [|a rest] ts -> Hb; simpl in *; [by rewrite app_nil_r|].
  destruct (is_seed a).
  { destruct rest as [|v rest']; simpl in *; [by rewrite app_nil_r|]. apply (IH (length rest')); [lia|done..]. }
  simpl in Hb. destruct (Nat.ltb_spec (length ts) MAX_ENC_KEYS_IN_MULTYSIGN) as [_|?]; [|lia].
  simpl. destruct (_ =z? _); [done|]. destruct (dap_sign_type_is_deprecated _); [done|].
  rewrite (IH (length rest)) by (rewrite ?length_app; simpl; lia).
  destruct (types_of (type_words rest)); [done|]. by rewrite <-app_assoc.
Qed.

Lemma type_words_le args : (length (type_words args) ≤ length args)%nat.
Proof.
  remember (length args) as n eqn:Hn. revert args Hn.
  induction n as [n IH] using lt_wf_ind; intros [|a rest] ->; simpl; [lia|].
  destruct (is_seed a).
  - destruct rest as [|v rest']; simpl; [lia|]. pose proof (IH (length rest') ltac:(simpl; lia) rest' eq_refl). lia.
  - simpl. pose proof (IH (length rest) ltac:(simpl; lia) rest eq_refl). lia.
Qed.

Lemma multi_coded_spec g name seed pass rest :
  types_fit rest = true →
  match rest with
  | _ :: _ :: _ => multi_call g name seed pass (multi_types rest [])
  | _ => Reject (-2006)
  end = multi_spec g name seed pass (type_words rest).
Proof.
  intros Hf. pose proof (type_words_le rest). unfold types_fit, multi_spec in *.
  destruct rest as [|a [|b rest]];
    [destruct (Nat.ltb_spec (length (type_words [])) 2); simpl in *; [done|lia]
    |destruct (Nat.ltb_spec (length (type_words [a])) 2); simpl in *; [done|lia]|].
  apply orb_prop in Hf as [Hf|[Hf1 Hf2]%andb_prop]; [by apply Nat.ltb_lt in Hf; simpl in Hf; lia|].
  apply Nat.leb_le in Hf1, Hf2. rewrite (proj2 (Nat.ltb_ge _ _) Hf1), multi_types_spec by done.
  by destruct (types_of _).
Qed.

Lemma create_coded_spec g argv :
  (∀ ty, argv !! 4%nat = Some ty → single_signature (Some ty) = true) → create_coded g argv = create_spec g argv.
Proof.
  intros Hs. destruct argv as [|a0 [|a1 [|a2 [|name [|ty rest]]]]]; try done.
  specialize (Hs ty eq_refl). unfold single_signature in Hs. apply negb_true_iff in Hs.
  unfold create_coded, create_spec, wallet_spec. rewrite Hs. simpl.
  destruct (dap_isstralnum _ =z? 0); [done|]. destruct (_ =z? SIG_TYPE_NULL); [done|]. simpl.
  by destruct (dap_sign_type_is_deprecated _).
Qed.

Lemma create_wp_coded_spec g argv :
  (∀ ty, argv !! 5%nat = Some ty → single_signature (Some ty) = true ∨ types_fit (drop 6 argv) = true) →
  create_wp_coded g argv = create_wp_spec g argv.
Proof.
  intros Hs. destruct argv as [|a0 [|a1 [|a2 [|name [|pass more]]]]]; try done.
  assert (single_signature (head more) = true ∨ types_fit (tail more) = true) as Hm.
  { destruct more as [|ty rest]; [by right|]. by apply (Hs ty). }
  clear Hs. unfold create_wp_coded, create_wp_spec, wallet_spec, pass_ok.
  destruct (dap_isstralnum _ =z? 0), (_ =z? SIG_TYPE_NULL), (dap_sign_type_is_deprecated _); try done. simpl.
  destruct (last_seed _ _) as [seed|]; [|done]. f_equal. destruct (dap_check_valid_password _ _); [|done]. simpl.
  destruct Hm as [Hm|Hm]; [unfold single_signature in Hm; by apply negb_true_iff in Hm as ->|].
  destruct (_ =z? _); [|done]. by apply multi_coded_spec.
Qed.

(** ** Bounds of [l_types] *)
Lemma multi_types_bound args ts :
  (length ts + length args ≤ MAX_ENC_KEYS_IN_MULTYSIGN)%nat → multi_types args ts ≠ TypesOverflow.
Proof.
  remember (length args) as n eqn:Hn. revert args ts Hn.
  induction n as [n IH] using lt_wf_ind; intros [|a rest] ts -> Hb; simpl in *; [done|].
  destruct (is_seed a); [destruct rest as [|v rest']; [done|]; apply (IH (length rest')); simpl in *; lia|].
  destruct (Nat.ltb_spec (length ts) MAX_ENC_KEYS_IN_MULTYSIGN) as [_|?]; [|lia].
  destruct (_ =z? _); [done|]. destruct (dap_sign_type_is_deprecated _); [done|].
  apply (IH (length rest)); [simpl; lia|done|]. rewrite length_app. simpl. lia.
Qed.

(** [a] is an accepted signature type argument. *)
Definition valid_type (a : string) : bool :=
  negb (is_seed a) && negb (dap_sign_type_from_str (Some a) =z? SIG_TYPE_NULL)
  && negb (dap_sign_type_is_deprecated (dap_sign_type_from_str (Some a))).

Lemma valid_type_inv a : valid_type a = true →
  is_seed a = false ∧ (dap_sign_type_from_str (Some a) =z? SIG_TYPE_NULL) = false ∧
  dap_sign_type_is_deprecated (dap_sign_type_from_str (Some a)) = false.
Proof.
  unfold valid_type. intros [[H1 H2]%andb_prop H3]%andb_prop.
  by rewrite negb_true_iff in H1, H2, H3.
Qed.

Lemma multi_types_valid args ts :
  Forall (λ a, valid_type a = true) args →
  multi_types args ts =
    if bool_decide (args = [] ∨ (length ts + length args ≤ MAX_ENC_KEYS_IN_MULTYSIGN)%nat)
    then TypesOk (ts ++ ((λ a, dap_sign_type_from_str (Some a)) <$> args)) else TypesOverflow.
Proof.
  intros Hall. revert ts. induction Hall as [|a rest Ha Hall IH]; intros ts; simpl.
  { by rewrite app_nil_r. }
  destruct (valid_type_inv a Ha) as (-> & -> & ->).
  destruct (Nat.ltb_spec (length ts) MAX_ENC_KEYS_IN_MULTYSIGN) as [Hlt|Hge].
  - rewrite IH, length_app, <-app_assoc.
    case_bool_decide as H1; case_bool_decide as H2; try done.
    + exfalso. apply H2. right. simpl in *. destruct H1 as [->|?]; simpl; lia.
    + exfalso. apply H1. simpl in *. destruct H2 as [?|?]; [done|right; lia].
  - rewrite bool_decide_false; [done|]. intros [?|?]; [done|lia].
Qed.

Lemma multi_types_fit args :
  Forall (λ a, valid_type a = true) args → (length args ≤ MAX_ENC_KEYS_IN_MULTYSIGN)%nat →
  multi_types args [] = TypesOk ((λ a, dap_sign_type_from_str (Some a)) <$> args).
Proof. intros Hv Hl. rewrite multi_types_valid by done. by rewrite bool_decide_true by by right. Qed.

Lemma multi_types_many args :
  Forall (λ a, valid_type a = true) args → (MAX_ENC_KEYS_IN_MULTYSIGN < length args)%nat →
  multi_types args [] = TypesOverflow.
Proof.
  intros Hv Hl. rewrite multi_types_valid by done. rewrite bool_decide_false; [done|].
  intros [->|?]; simpl in *; lia.
Qed.

Lemma no_seed_valid args acc : Forall (λ a, valid_type a = true) args → last_seed args acc = Some acc.
Proof.
  induction 1 as [|a rest Ha _ IH]; simpl; [done|]. by destruct (valid_type_inv a Ha) as (-> & _).
Qed.

(** The signature types a creation call asks for. *)
Definition requested_types (c : call) : list Z :=
  match c with
  | dap_chain_wallet_create _ _ t _ => [t]
  | dap_chain_wallet_create_with_seed _ _ t _ _ _ => [t]
  | dap_chain_wallet_create_with_seed_multi _ _ ts _ _ _ _ => ts
  | _ => []
  end.

(** [name] and [ty] pass the first checks and [ty] asks for a multi signature. *)
Definition multi_request (name ty : string) : bool :=
  negb (dap_isstralnum (Some name) =z? 0)
  && negb (dap_sign_type_from_str (Some ty) =z? SIG_TYPE_NULL)
  && negb (dap_sign_type_is_deprecated (dap_sign_type_from_str (Some ty)))
  && (dap_sign_type_from_str (Some ty) =z? SIG_TYPE_MULTI_CHAINED).

Lemma multi_request_inv name ty : multi_request name ty = true →
  (dap_isstralnum (Some name) =z? 0) = false ∧
  (dap_sign_type_from_str (Some ty) =z? SIG_TYPE_NULL) = false ∧
  dap_sign_type_is_deprecated (dap_sign_type_from_str (Some ty)) = false ∧
  (dap_sign_type_from_str (Some ty) =z? SIG_TYPE_MULTI_CHAINED) = true.
Proof.
  unfold multi_request. intros [[[H1 H2]%andb_prop H3]%andb_prop H4]%andb_prop.
  by rewrite negb_true_iff in H1, H2, H3.
Qed.

Lemma create_coded_multi g t0 t1 t2 name ty a types :
  multi_request name ty = true → Forall (λ a, valid_type a = true) (a :: types) → types ≠ [] →
  create_coded g (t0 :: t1 :: t2 :: name :: ty :: a :: types) =
    IfAbsent name (multi_call g name None None (multi_types types [])).
Proof.
  intros (H1 & H2 & H3 & H4)%multi_request_inv Hv Hn. simpl.
  rewrite H1, H2, H3, H4. change (if is_seed a then _ else _) with (last_seed (a :: types) None).
  rewrite no_seed_valid by done. by destruct types.
Qed.

Lemma create_wp_coded_multi g t0 t1 t2 name pass ty types :
  multi_request name ty = true → Forall (λ a, valid_type a = true) types → (2 ≤ length types)%nat →
  dap_check_valid_password (Some pass) (dap_strlen (Some pass)) = true →
  create_wp_coded g (t0 :: t1 :: t2 :: name :: pass :: ty :: types) =
    IfAbsent name (multi_call g name None (Some pass) (multi_types types [])).
Proof.
  intros (H1 & H2 & H3 & H4)%multi_request_inv Hv Hn Hp. simpl.
  rewrite H1, H2, H3, H4, Hp, no_seed_valid by done. simpl.
  destruct types as [|? [|]]; simpl in Hn; try lia; done.
Qed.

(** No overflow is planned. *)
Definition fits (p : plan) : Prop := match p with IfAbsent _ Overflow => False | _ => True end.

Lemma multi_call_safe g name seed pass args :
  (length args ≤ MAX_ENC_KEYS_IN_MULTYSIGN)%nat →
  fits (IfAbsent name (multi_call g name seed pass (multi_types args []))).
Proof.
  intros Hl. pose proof (multi_types_bound args [] Hl) as Hb. by destruct (multi_types args []).
Qed.

Lemma create_coded_safe g argv :
  (length argv ≤ 6 + MAX_ENC_KEYS_IN_MULTYSIGN)%nat → fits (create_coded g argv).
Proof.
  intros Hl. destruct argv as [|? [|? [|? [|name [|ty rest]]]]]; try done.
  unfold create_coded. destruct (dap_isstralnum _ =z? 0); [done|]. destruct (_ =z? SIG_TYPE_NULL); [done|].
  destruct (dap_sign_type_is_deprecated _); [done|].
  destruct (last_seed _ _); [|done]. destruct (_ =z? SIG_TYPE_MULTI_CHAINED); [|done].
  destruct rest as [|? [|]]; [done..|]. apply multi_call_safe. simpl in *. lia.
Qed.

Lemma create_wp_coded_safe g argv :
  (length argv ≤ 6 + MAX_ENC_KEYS_IN_MULTYSIGN)%nat → fits (create_wp_coded g argv).
Proof.
  intros Hl. destruct argv as [|? [|? [|? [|name [|pass more]]]]]; try done.
  unfold create_wp_coded. destruct (dap_isstralnum _ =z? 0); [done|]. destruct (_ =z? SIG_TYPE_NULL); [done|].
  destruct (dap_sign_type_is_deprecated _); [done|].
  destruct (last_seed _ _); [|done]. destruct (dap_check_valid_password _ _); [|done]. simpl.
  destruct (_ =z? SIG_TYPE_MULTI_CHAINED); [|done].
  destruct more as [|? [|? [|]]]; [done..|]. apply multi_call_safe. simpl in *. lia.
Qed.

Lemma obeys_defined p tr o : fits p → obeys p tr o → o ≠ Undefined.
Proof.
  intros Hp. destruct p as [z|name v]; [by intros [-> _]|].
  intros (dir & ex & tr' & _ & _ & Hc). destruct ex; [by destruct Hc as [-> _]|].
  destruct v; [by destruct Hc as [-> _]| |done]. destruct Hc as ([w|] & _ & ->); done.
Qed.
End ToolWallet.

(** * Properties *)

(** Concrete globals and environments for the witnesses. *)
Definition demo_globals : tool_globals :=
  {| s_system_ca_dir := "/ca"; s_system_wallet_dir := "/w"; g_config := 1%nat |}.

(** C5 (wallet_create_correct): For every signature type but
    [sig_multi_chained], [wallet create] does what its usage promises, in every
    environment.  A command line with too few words, a bad name, an unknown or
    deprecated type or a [-seed] without a value is refused with its code before
    anything is tested or made; otherwise the file of the wallet is tested
    first: a wallet that has one is refused with -2007 and never made again,
    and for any other exactly one wallet is asked for, with the name, type and
    (last, non-empty) seed of the command line in the wallets' directory, and
    the result is 0 or -1 by the SDK's answer.  Words after the type that are
    not a seed are ignored.  (For [sig_multi_chained] the first type is dropped:
    [wallet_create_drops_first_type].) *)
Theorem wallet_create_correct {D : Dap} {L : DapLaws D} g argv tr o :
  (∀ ty, argv !! 4%nat = Some ty → single_signature (Some ty) = true) →
  exec (s_wallet_create g argv) tr o → obeys (create_spec g argv) tr o.
Proof. intros Hs He. rewrite <-create_coded_spec by done. by apply create_exec. Qed.

Lemma wallet_create_correct_witness :
  let argv := ["tool"; "wallet"; "create"; "alice"; "sig_dil"; "-seed"; "abc"] in
  let p := s_wallet_create (D := demo_dap) demo_globals argv in
  create_spec (D := demo_dap) demo_globals argv =
    IfAbsent "alice" (Request (dap_chain_wallet_create_with_seed "alice" "/w" 1 "abc" 3 None)) ∧
  obeys (create_spec (D := demo_dap) demo_globals argv) (run_trace default_ans p) (run_outcome default_ans p).
Proof.
  split; [vm_compute; reflexivity|].
  apply (wallet_create_correct (D := demo_dap)); [|apply exec_run_pure].
  intros ty [= <-]. vm_compute. reflexivity.
Defined.

(** C30 (wallet_create_wp_correct): The same for [wallet create_wp], multi
    signatures included: in addition the password must pass the SDK's check
    (-2008) after the existence test and before anything is created, and it is
    this password the wallet is created with; a multi signature has at least two
    types (-2006), each valid (-2007, -2008), and gets all of them in order.
    For a multi signature the theorem needs that the words after the type name
    at least two types, or are fewer than two at all, and that there are no more
    types than [l_types] holds ([wallet_create_wp_seed_counts] and
    [wallet_create_wp_overflow] show what happens otherwise). *)
Theorem wallet_create_wp_correct {D : Dap} {L : DapLaws D} g argv tr o :
  (∀ ty, argv !! 5%nat = Some ty → single_signature (Some ty) = true ∨ types_fit (drop 6 argv) = true) →
  exec (s_wallet_create_wp g argv) tr o → obeys (create_wp_spec g argv) tr o.
Proof. intros Hs He. rewrite <-create_wp_coded_spec by done. by apply create_wp_exec. Qed.

Lemma wallet_create_wp_correct_witness :
  let argv := ["tool"; "wallet"; "create_wp"; "alice"; "secret"; "sig_multi_chained"; "sig_dil"; "-seed"; "x"; "sig_falcon"] in
  let p := s_wallet_create_wp (D := demo_dap) demo_globals argv in
  create_wp_spec (D := demo_dap) demo_globals argv =
    IfAbsent "alice"
      (Request (dap_chain_wallet_create_with_seed_multi "alice" "/w" [1; 2] 2 (Some "x") 1 (Some "secret"))) ∧
  obeys (create_wp_spec (D := demo_dap) demo_globals argv) (run_trace default_ans p) (run_outcome default_ans p).
Proof.
  split; [vm_compute; reflexivity|].
  apply (wallet_create_wp_correct (D := demo_dap)); [|apply exec_run_pure].
  intros ty [= <-]. right. vm_compute. reflexivity.
Defined.

(** C34 (wallet_create_memory_safe): Both creation commands are free of undefined
    behaviour (no read outside [argv], no write past [l_types]) as long as at
    most [MAX_ENC_KEYS_IN_MULTYSIGN] arguments follow the sixth. *)
Theorem wallet_create_memory_safe {D : Dap} {L : DapLaws D} g argv tr o :
  (length argv ≤ 6 + MAX_ENC_KEYS_IN_MULTYSIGN)%nat →
  exec (s_wallet_create g argv) tr o ∨ exec (s_wallet_create_wp g argv) tr o →
  o ≠ Undefined.
Proof.
  intros Hl [He|He].
  - apply (obeys_defined (create_coded g argv) tr); [by apply create_coded_safe|by apply create_exec].
  - apply (obeys_defined (create_wp_coded g argv) tr); [by apply create_wp_coded_safe|by apply create_wp_exec].
Qed.

Lemma wallet_create_memory_safe_witness :
  let p := s_wallet_create_wp (D := demo_dap) demo_globals ["tool"; "wallet"; "create_wp"; "alice"; "pw"] in
  run_outcome default_ans p ≠ Undefined.
Proof.
  eapply (wallet_create_memory_safe (D := demo_dap)); [|right; apply exec_run_pure]. simpl. lia.
Defined.

(** The bound is needed: with more than
    [MAX_ENC_KEYS_IN_MULTYSIGN] valid signature types after the sixth argument,
    [wallet create] writes past the end of [l_types] (nothing checks
    [l_count_signs]). *)
Theorem wallet_create_overflow {D : Dap} {L : DapLaws D} g t0 t1 t2 name ty a types tr o :
  multi_request name ty = true →
  Forall (λ a, valid_type a = true) (a :: types) →
  (MAX_ENC_KEYS_IN_MULTYSIGN < length types)%nat →
  exec (s_wallet_create g (t0 :: t1 :: t2 :: name :: ty :: a :: types)) tr o →
  file_exists tr = false → o = Undefined.
Proof.
  intros Hm Hv Hl He Hf. apply create_exec in He.
  assert (types ≠ []) as Hn by (intros ->; simpl in Hl; lia).
  rewrite create_coded_multi in He by done. apply obeys_absent in He as [He _]; [|done].
  apply Forall_inv_tail in Hv. rewrite multi_types_many in He by done. by destruct He.
Qed.

Lemma wallet_create_overflow_witness :
  let argv := ["tool"; "wallet"; "create"; "alice"; "sig_multi_chained"; "sig_dil"; "sig_dil"; "sig_dil"; "sig_dil"] in
  run_outcome default_ans (s_wallet_create (D := demo_dap) demo_globals argv) = Undefined.
Proof.
  eapply (wallet_create_overflow (D := demo_dap) demo_globals "tool" "wallet" "create" "alice" "sig_multi_chained"
            "sig_dil" ["sig_dil"; "sig_dil"; "sig_dil"] _ _);
    [vm_compute; reflexivity|repeat (constructor; [vm_compute; reflexivity|]); constructor
    |simpl; lia|apply exec_run_pure|vm_compute; reflexivity].
Defined.

(** For a multi signature with the two types
    [a b], [wallet create] asks only for [b]: its loop starts at [argv[6]], one
    past the first type.  [wallet create_wp] with the same types asks for both. *)
Theorem wallet_create_drops_first_type {D : Dap} {L : DapLaws D} g t0 t1 t2 name pass ty a b tr o tr' o' :
  (2 ≤ MAX_ENC_KEYS_IN_MULTYSIGN)%nat → multi_request name ty = true →
  valid_type a = true → valid_type b = true →
  dap_check_valid_password (Some pass) (dap_strlen (Some pass)) = true →
  exec (s_wallet_create g [t0; t1; t2; name; ty; a; b]) tr o → file_exists tr = false →
  exec (s_wallet_create_wp g [t0; t1; t2; name; pass; ty; a; b]) tr' o' → file_exists tr' = false →
  (λ cr, requested_types cr.1) <$> creations tr = [[dap_sign_type_from_str (Some b)]] ∧
  (λ cr, requested_types cr.1) <$> creations tr' =
    [[dap_sign_type_from_str (Some a); dap_sign_type_from_str (Some b)]].
Proof.
  intros HM Hm Ha Hb Hp He Hf He' Hf'.
  apply create_exec in He. apply create_wp_exec in He'.
  rewrite create_coded_multi in He by auto. rewrite create_wp_coded_multi in He' by auto.
  rewrite multi_types_fit in He by (simpl; auto; lia).
  rewrite multi_types_fit in He' by (simpl; auto).
  apply obeys_absent in He as [(r & Hr & _) ->]; [|done].
  apply obeys_absent in He' as [(r' & Hr' & _) ->]; [|done]. by rewrite Hr, Hr'.
Qed.

Lemma wallet_create_drops_first_type_witness :
  let tr := run_trace default_ans (s_wallet_create (D := demo_dap) demo_globals
              ["tool"; "wallet"; "create"; "alice"; "sig_multi_chained"; "sig_dil"; "sig_falcon"]) in
  let tr' := run_trace default_ans (s_wallet_create_wp (D := demo_dap) demo_globals
              ["tool"; "wallet"; "create"; "alice"; "pw"; "sig_multi_chained"; "sig_dil"; "sig_falcon"]) in
  (λ cr, requested_types cr.1) <$> creations tr = [[2]] ∧
  (λ cr, requested_types cr.1) <$> creations tr' = [[1; 2]].
Proof.
  apply (wallet_create_drops_first_type (D := demo_dap) demo_globals "tool" "wallet" "create" "alice" "pw"
           "sig_multi_chained" "sig_dil" "sig_falcon" _
           (run_outcome default_ans (s_wallet_create (D := demo_dap) demo_globals
              ["tool"; "wallet"; "create"; "alice"; "sig_multi_chained"; "sig_dil"; "sig_falcon"])) _
           (run_outcome default_ans (s_wallet_create_wp (D := demo_dap) demo_globals
              ["tool"; "wallet"; "create"; "alice"; "pw"; "sig_multi_chained"; "sig_dil"; "sig_falcon"])));
    first [apply exec_run_pure|vm_compute; reflexivity|simpl; lia].
Defined.

(** [wallet create_wp] overflows in the same way. *)
Theorem wallet_create_wp_overflow {D : Dap} {L : DapLaws D} g t0 t1 t2 name pass ty types tr o :
  multi_request name ty = true → Forall (λ a, valid_type a = true) types →
  (2 ≤ length types)%nat → (MAX_ENC_KEYS_IN_MULTYSIGN < length types)%nat →
  dap_check_valid_password (Some pass) (dap_strlen (Some pass)) = true →
  exec (s_wallet_create_wp g (t0 :: t1 :: t2 :: name :: pass :: ty :: types)) tr o →
  file_exists tr = false → o = Undefined.
Proof.
  intros Hm Hv H2 Hl Hp He Hf. apply create_wp_exec in He.
  rewrite create_wp_coded_multi, multi_types_many in He by done.
  by apply obeys_absent in He as [[-> _] _].
Qed.

(** The two words of [-seed] pass for the two signature types [wallet create_wp]
    demands: a wallet with no signature at all is asked for. *)
Theorem wallet_create_wp_seed_counts {D : Dap} {L : DapLaws D} g t0 t1 t2 name pass ty seed tr o :
  multi_request name ty = true →
  dap_check_valid_password (Some pass) (dap_strlen (Some pass)) = true →
  exec (s_wallet_create_wp g [t0; t1; t2; name; pass; ty; "-seed"; seed]) tr o → file_exists tr = false →
  (λ cr, requested_types cr.1) <$> creations tr = [[]].
Proof.
  intros (H1 & H2 & H3 & H4)%multi_request_inv Hp He Hf. apply create_wp_exec in He.
  cbn [create_wp_coded hd_error tl] in He. rewrite H1, H2, H3, H4, Hp in He.
  apply (obeys_absent name (multi_request_of g name [] (Some seed) (Some pass))) in He as [(r & Hr & _) ->]; [|done].
  by rewrite Hr.
Qed.

(** With an unknown signature type
    [wallet create_wp] names [argv[4]], the password, instead of the type in
    the message it prints. *)
Theorem wallet_create_wp_prints_password {D : Dap} {L : DapLaws D} g t0 t1 t2 name pass ty rest tr o :
  dap_isstralnum (Some name) ≠ 0 → dap_sign_type_from_str (Some ty) = SIG_TYPE_NULL →
  exec (s_wallet_create_wp g (t0 :: t1 :: t2 :: name :: pass :: ty :: rest)) tr o →
  o = Exited (-2004) ∧
  ∃ tr', tr = Ev (printf ("Invalid signature type '" +:+ pass +:+ "', you can use the following:" +:+ NL
                          +:+ dap_sign_get_str_recommended_types)) tt :: tr'.
Proof.
  intros Hn Ht. revert tr o. apply all_exec. unfold s_wallet_create_wp.
  rewrite argc_lt_false by (simpl; lia).
  rewrite !(arg_str_lookup (t0 :: t1 :: t2 :: name :: pass :: ty :: rest) 3 name eq_refl),
    !(arg_str_lookup (t0 :: t1 :: t2 :: name :: pass :: ty :: rest) 4 pass eq_refl),
    (arg_lookup (t0 :: t1 :: t2 :: name :: pass :: ty :: rest) 5 ty eq_refl).
  simpl. rewrite (proj2 (Z.eqb_neq _ _) Hn), Ht, Z.eqb_refl. intros []. apply all_bind.
  eapply all_mono; [|apply s_help_quiet]. intros tr1 o1 [_ ->]. simpl. split; [done|]. by eexists.
Qed.

Lemma wallet_create_wp_prints_password_witness :
  let p := s_wallet_create_wp (D := demo_dap) demo_globals
             ["tool"; "wallet"; "create_wp"; "alice"; "S3cret"; "sig_dill"] in
  run_outcome default_ans p = Exited (-2004) ∧
  ∃ tr', run_trace default_ans p =
    Ev (printf ("Invalid signature type 'S3cret', you can use the following:" +:+ NL
                +:+ dap_sign_get_str_recommended_types (Dap := demo_dap))) tt :: tr'.
Proof.
  apply (wallet_create_wp_prints_password (D := demo_dap) demo_globals "tool" "wallet" "create_wp" "alice" "S3cret"
           "sig_dill" []); [done|reflexivity|apply exec_run_pure].
Defined.
