(* ===== verification/ToolCert.v ===== *)
(** * cellframe-node-tool: the certificate commands

    [sources/main_node_tool.c]: creating, dumping, copying and renaming
    certificates, exporting public keys and adding metadata. *)
From S2P Require Import Prelude Prog CLib Sdk ToolBase ToolWallet.
From Stdlib Require Import Strings.Byte.

Set Default Proof Using "Type".
Open Scope Z_scope.

Section ToolCert.
  Context {D : Dap}.
  Implicit Types (g : tool_globals) (argv : list string).

(** [l_cert_path]: [snprintf] into a fresh buffer of [l_cert_path_length]. *)
Definition l_cert_path_length g (name : string) : nat := strlen name + 8 + strlen (s_system_ca_dir g).

Definition cert_path g (name : string) : cstr :=
  (snprintf (l_cert_path_length g name) (s_system_ca_dir g +:+ "/" +:+ name +:+ ".dcert")).2.

(** Generates the certificate in memory, registers it and saves it. *)
Definition cert_generate_and_save g (name : string) (l_key_type : Z) (l_seed_str : cstr) : nprog unit :=
  l_cert ← match l_seed_str with
           | Some (String c s) =>
               perform (dap_cert_generate_mem_with_seed name l_key_type (String c s) (seed_size l_seed_str))
           | _ => perform (dap_cert_generate_mem name l_key_type)
           end;
  match l_cert with
  | None => print "Can't create certificate in memory" ;; delete B_cert_path ;; Exit (-500)
  | Some c =>
      rc ← perform (dap_cert_add c);
      if negb (rc =z? 0) then
        print "Can't register certificate in memory" ;; perform (dap_cert_delete c) ;;
        delete B_cert_path ;; Exit (-500)
      else
        rc ← perform (dap_cert_save_to_folder c (s_system_ca_dir g));
        if negb (rc =z? 0) then
          print ("Can't save certificate to the file!" +:+ NL) ;; perform (dap_cert_delete c) ;;
          delete B_cert_path ;; Exit (-500)
        else perform (dap_cert_delete c)
  end.

Definition s_cert_create g argv : nprog Z :=
  if argc_lt argv 5 then fail_help ("Wrong 'cert create' command params" +:+ NL) (-500)
  else
    l_cert_name ← arg_str argv 3;
    l_cert_path ← deref (cert_path g l_cert_name);
    found ← perform (access l_cert_path);
    if negb (found =z? -1) then fail_with ("File " +:+ quoted l_cert_path +:+ " already exists!" +:+ NL) (-700)
    else
      a4 ← arg_str argv 4;
      let l_sig_type := dap_sign_type_from_str (Some a4) in
      l_seed_str ← parse_seed argv 5
        (print ("Option -seed requires a value" +:+ NL) ;; delete B_cert_path ;; Exit (-603));
      if (l_sig_type =z? SIG_TYPE_NULL) || (l_sig_type =z? SIG_TYPE_MULTI_CHAINED) then
        fail_with ("Unknown signature type " +:+ a4 +:+ " specified, recommended signatures:" +:+ NL
                   +:+ dap_cert_get_str_recommended_sign) (-600)
      else if l_sig_type =z? SIG_TYPE_MULTI_CHAINED then
        fail_with ("The sig_multi_chained signature is not applicable for certificate creation. "
                   +:+ "Use the following signatures:\n" +:+ dap_cert_get_str_recommended_sign) (-601)
      else if dap_sign_type_is_deprecated l_sig_type then
        fail_with ("Signature type " +:+ a4 +:+ " is obsolete, we recommend the following signatures:" +:+ NL
                   +:+ dap_cert_get_str_recommended_sign) (-602)
      else
        let l_key_type := dap_sign_type_to_key_type l_sig_type in
        (if negb (l_key_type =z? DAP_ENC_KEY_TYPE_INVALID) then
           cert_generate_and_save g l_cert_name l_key_type l_seed_str
         else
           print ("Wrong key create action " +:+ quoted a4) ;; s_help ;; delete B_cert_path ;; Exit (-500)) ;;
        print ("Cert " +:+ quoted l_cert_path +:+ " created" +:+ NL) ;;
        delete B_cert_path ;;
        mret 0.

Definition s_cert_dump g argv : nprog Z :=
  if bool_decide (4 ≤ length argv)%nat then
    l_cert_name ← arg_str argv 3;
    l_cert ← perform (dap_cert_add_file l_cert_name (s_system_ca_dir g));
    match l_cert with
    | Some c =>
        l_cert_dump ← perform (dap_cert_dump c);
        s ← deref l_cert_dump;
        print s ;;
        perform (dap_cert_delete_by_name l_cert_name) ;;
        mret 0
    | None => fail_with ("Can't open '" +:+ l_cert_name +:+ "' cert" +:+ NL) (-702)
    end
  else print ("Wrong 'cert dump' command params" +:+ NL) ;; mret 0.

(** [sizeof(l_pkey->header)]. *)
Definition sizeof_header (k : pkey) : Z := Z.of_nat (length (pkey_header k)).

Definition with_pub_size (k : enc_key) (n : Z) : enc_key := {|
  ek_type := ek_type k; pub_key_data := pub_key_data k; pub_key_data_size := n;
  priv_key_data := priv_key_data k; priv_key_data_size := priv_key_data_size k |}.

Definition s_cert_create_pkey g argv : nprog Z :=
  if argc_lt argv 5 then fail_with ("Wrong 'cert create_pkey' command params" +:+ NL) (-7023)
  else
    l_cert_name ← arg_str argv 3;
    l_cert_pkey_path ← arg_str argv 4;
    l_cert ← perform (dap_cert_add_file l_cert_name (s_system_ca_dir g));
    match l_cert with
    | None => fail_with ("Failed to open " +:+ quoted l_cert_name +:+ " certificate.") (-7021)
    | Some c =>
        k ← deref (cert_enc_key c);
        size ← perform (dap_enc_ser_pub_key_size k);
        let k := with_pub_size k size in
        if negb (pub_key_data_size k =z? 0) then
          l_pkey ← perform (dap_pkey_from_enc_key k);
          match l_pkey with
          | None => fail_with ("Can't produce pkey from the certificate" +:+ NL) (-7022)
          | Some pk =>
              exists_ ← perform (dap_file_test (Some l_cert_pkey_path));
              if exists_ : bool then
                fail_with ("The file " +:+ quoted l_cert_pkey_path +:+ " exists." +:+ NL) (-7023)
              else
                l_file ← perform (fopen (Some l_cert_pkey_path) "wb");
                match l_file with
                | Some f =>
                    perform (fwrite_pkey pk (pkey_size pk + sizeof_header pk) f) ;; perform (fclose f)
                | None => mret tt
                end ;;
                perform (dap_cert_delete_by_name l_cert_name) ;;
                print ("Created " +:+ quoted l_cert_pkey_path +:+ " public key based on "
                       +:+ quoted l_cert_name +:+ " private key." +:+ NL) ;;
                mret 0
          end
        else fail_with ("Can't produce pkey from this cert type" +:+ NL) (-7023)
    end.

Definition with_pub (k : enc_key) (d : option bytes) (n : Z) : enc_key := {|
  ek_type := ek_type k; pub_key_data := d; pub_key_data_size := n;
  priv_key_data := priv_key_data k; priv_key_data_size := priv_key_data_size k |}.

Definition with_priv (k : enc_key) (d : option bytes) (n : Z) : enc_key := {|
  ek_type := ek_type k; pub_key_data := pub_key_data k; pub_key_data_size := pub_key_data_size k;
  priv_key_data := d; priv_key_data_size := n |}.

Definition with_key (c : cert) (k : enc_key) : cert := {|
  cert_id := cert_id c; cert_name := cert_name c; cert_enc_key := Some k |}.

(** [if (l_cert->enc_key->priv_key_data && ..._size && a_pvt_key_copy)]: the
    new key with the private key of [k]; [None] when the allocation failed. *)
Definition copy_priv (k knew : enc_key) (a_pvt_key_copy : bool) : nprog (option enc_key) :=
  match priv_key_data k with
  | Some d =>
      if negb (priv_key_data_size k =z? 0) && a_pvt_key_copy then
        d' ← perform (DAP_DUP_SIZE d (priv_key_data_size k));
        match d' with
        | None => mret None
        | Some d' => mret (Some (with_priv knew (Some d') (priv_key_data_size k)))
        end
      else mret (Some knew)
  | None => mret (Some knew)
  end.

(** The end of [s_cert_copy]: save, remove the original, release. *)
Definition copy_finish g (l_cert_name : string) (l_cert l_cert_new : cert) (k : enc_key)
    (a_pvt_key_copy : bool) : nprog Z :=
  ret ← perform (dap_cert_save_to_folder (with_key l_cert_new k) (s_system_ca_dir g));
  ret ← (if (ret =z? 0) && a_pvt_key_copy
         then perform (dap_cert_delete_file l_cert_name (s_system_ca_dir g))
         else mret ret);
  perform (dap_cert_delete l_cert) ;;
  delete B_pub_key ;;
  delete B_priv_key ;;
  perform (dap_cert_delete (with_key l_cert_new
    (with_priv (with_pub k None (pub_key_data_size k)) None (priv_key_data_size k)))) ;;
  mret ret.

Definition s_cert_copy g argv (a_pvt_key_copy : bool) : nprog Z :=
  if argc_lt argv 5 then fail_with "Incorrect arguments count" (-7021)
  else
    l_cert_name ← arg_str argv 3;
    l_cert_new_name ← arg_str argv 4;
    l_cert ← perform (dap_cert_add_file l_cert_name (s_system_ca_dir g));
    match l_cert with
    | None => fail_with "Can't read specified certificate" (-7023)
    | Some c =>
        k ← deref (cert_enc_key c);
        match pub_key_data k with
        | Some pub =>
            if pub_key_data_size k =z? 0 then
              fail_with "Invalid certificate key, no public key found" (-7022)
            else
              let l_cert_new_path :=
                dap_strdup_printf (s_system_ca_dir g +:+ "/" +:+ l_cert_new_name +:+ ".dcert") in
              exists_ ← perform (dap_file_test l_cert_new_path);
              if exists_ : bool then
                p ← deref l_cert_new_path;
                fail_with ("The " +:+ quoted p +:+ " file already exists." +:+ NL) (-7023)
              else
                delete B_cert_new_path ;;
                l_cert_new ← perform (dap_cert_new l_cert_new_name);
                l_cert_new ← deref l_cert_new;
                knew ← perform (dap_enc_key_new (ek_type k));
                knew ← deref knew;
                d ← perform (DAP_DUP_SIZE pub (pub_key_data_size k));
                match d with
                | None => print c_error_memory_alloc ;; mret (-1)
                | Some d =>
                    k2 ← copy_priv k (with_pub knew (Some d) (pub_key_data_size k)) a_pvt_key_copy;
                    match k2 with
                    | None => print c_error_memory_alloc ;; mret (-1)
                    | Some k2 => copy_finish g l_cert_name c l_cert_new k2 a_pvt_key_copy
                    end
                end
        | None => fail_with "Invalid certificate key, no public key found" (-7022)
        end
    end.

Definition s_cert_create_cert_pkey g argv : nprog Z :=
  res ← s_cert_copy g argv false;
  (if res =z? 0 then print ("A certificate with a public key has been created." +:+ NL)
   else print (NL +:+ "Failed to create a certificate with a public key. Error code: " +:+ pretty res +:+ ".")) ;;
  mret res.

Definition s_cert_rename g argv : nprog Z :=
  res ← s_cert_copy g argv true;
  (if res =z? 0 then print ("Certificate renaming has been completed." +:+ NL)
   else print (NL +:+ "Failed to rename the certificate.")) ;;
  mret res.

(** [strtoul(l_params[i], NULL, 10)]. *)
Definition param_ul (w : Z) (l_params : list string) (i : nat) : nprog Z :=
  s ← arg_str l_params i; mret (strtoul w s).

(** [dap_cert_add_meta] copies [len] bytes from the value: [len] bytes of it can
    be read, its NUL included.  A number is an [unsigned long long] of
    [sizeof_ull] bytes. *)
Definition sizeof_ull : Z := 8.

Definition readable (value : cstr) (len : Z) : bool :=
  match value with
  | Some v => len <=? Z.of_nat (strlen v) + 1
  | None => len =z? 0
  end.

(** The length is the user's and nothing compares it with the size of the
    value: with more, the bytes behind the value are read. *)
Definition s_cert_add_metadata g argv : nprog Z :=
  if bool_decide (5 ≤ length argv)%nat then
    l_cert_name ← arg_str argv 3;
    l_cert ← perform (dap_cert_add_file l_cert_name (s_system_ca_dir g));
    match l_cert with
    | None => fail_with ("Can't open " +:+ l_cert_name +:+ " certificate") (-800)
    | Some c =>
        a4 ← arg_str argv 4;
        let l_params := dap_strsplit a4 ":" 4 in
        p1 ← arg_str l_params 1;
        l_type ← deref (atoi p1);
        (if (l_type =z? DAP_CERT_META_STRING) || (l_type =z? DAP_CERT_META_SIGN)
            || (l_type =z? DAP_CERT_META_CUSTOM) then
           p0 ← arg l_params 0;
           p3 ← arg l_params 3;
           len ← param_ul ULONG_WIDTH l_params 2;
           if readable p3 len then perform (dap_cert_add_meta c p0 l_type p3 len) else Undef
         else
           p0 ← arg l_params 0;
           v ← param_ul 64 l_params 3;
           len ← param_ul ULONG_WIDTH l_params 2;
           if len <=? sizeof_ull then perform (dap_cert_add_meta_scalar c p0 l_type v len) else Undef) ;;
        delete B_strv ;;
        perform (dap_cert_save_to_folder c (s_system_ca_dir g)) ;;
        perform (dap_cert_delete_by_name l_cert_name) ;;
        print ("The metainformation was successfully added to " +:+ l_cert_name +:+ " certificate" +:+ NL) ;;
        mret 0
    end
  else fail_with ("Wrong 'cert add_metadata' command params" +:+ NL) (-800).

Definition s_cert_sign g argv : nprog Z :=
  print "The command 'cert sign' is not implemented." ;; mret (-1).

(** The certificate [argv[4]] and the hash of its public key. *)
Definition cert_pkey_hash argv : nprog (cert * hash) :=
  if negb (bool_decide (length argv = 5%nat)) then
    fail_with ("Wrong 'cert pkey show' command params" +:+ NL) (-800)
  else
    a4 ← arg_str argv 4;
    l_cert ← perform (dap_cert_find_by_name a4);
    match l_cert with
    | None => fail_with ("Not found cert " +:+ a4 +:+ NL) (-134)
    | Some c =>
        r ← perform (dap_cert_get_pkey_hash c);
        if negb (r.1 =z? 0) then fail_with ("Can't serialize cert " +:+ a4) (-135)
        else mret (c, r.2)
    end.

Definition s_cert_pkey_show g argv : nprog Z :=
  r ← cert_pkey_hash argv;
  s ← perform (dap_chain_hash_fast_to_str_static r.2);
  print (s +:+ NL) ;;
  mret 0.

Definition s_cert_pkey_show_full g argv : nprog Z :=
  r ← cert_pkey_hash argv;
  l_pkey_str ← perform (dap_cert_get_pkey_str r.1 "hex");
  h ← perform (dap_chain_hash_fast_to_str_static r.2);
  k ← deref l_pkey_str;
  print ("hash: " +:+ h +:+ NL +:+ "pkey: " +:+ k +:+ NL) ;;
  delete B_pkey_str ;;
  mret 0.

Definition s_cert_get_addr g argv : nprog Z :=
  if negb (bool_decide (length argv = 5%nat)) then
    fail_with ("Wrong 'cert pkey show' command params" +:+ NL) (-900)
  else
    a4 ← arg_str argv 4;
    l_cert ← perform (dap_cert_find_by_name a4);
    match l_cert with
    | None => fail_with ("Not found cert " +:+ a4 +:+ NL) (-134)
    | Some c =>
        l_addr ← perform (dap_stream_node_addr_from_cert c);
        s ← perform (dap_stream_node_addr_to_str_static l_addr);
        print (s +:+ NL) ;;
        mret 0
    end.

(** ** Reading traces *)
Definition generation_of (e : nevent) : option (call * option cert) :=
  match e with
  | Ev (dap_cert_generate_mem n t) r => Some (dap_cert_generate_mem n t, r)
  | Ev (dap_cert_generate_mem_with_seed n t s k) r => Some (dap_cert_generate_mem_with_seed n t s k, r)
  | _ => None
  end.
Definition generations (tr : ntrace) : list (call * option cert) := omap generation_of tr.

Definition save_of (e : nevent) : option (cert * string * Z) :=
  match e with Ev (dap_cert_save_to_folder c d) r => Some (c, d, r) | _ => None end.
Definition saves (tr : ntrace) : list (cert * string * Z) := omap save_of tr.

Definition access_of (e : nevent) : option (string * Z) :=
  match e with Ev (access p) r => Some (p, r) | _ => None end.
Definition accesses (tr : ntrace) : list (string * Z) := omap access_of tr.

Definition loaded_of (e : nevent) : option cert :=
  match e with Ev (dap_cert_add_file _ _) r => r | _ => None end.
Definition loaded (tr : ntrace) : list cert := omap loaded_of tr.

Definition fresh_key_of (e : nevent) : option enc_key :=
  match e with Ev (dap_enc_key_new _) r => r | _ => None end.
Definition fresh_keys (tr : ntrace) : list enc_key := omap fresh_key_of tr.

Definition dup_of (e : nevent) : option (bytes * Z * option bytes) :=
  match e with Ev (DAP_DUP_SIZE d n) r => Some (d, n, r) | _ => None end.
Definition dups (tr : ntrace) : list (bytes * Z * option bytes) := omap dup_of tr.

(** [DAP_DUP_SIZE] copies what it is given. *)
Definition dups_faithful (tr : ntrace) : Prop :=
  Forall (λ dnr, ∀ d', dnr.2 = Some d' → d' = take (Z.to_nat dnr.1.2) dnr.1.1) (dups tr).

Definition deleted_file_of (e : nevent) : option (string * string) :=
  match e with Ev (dap_cert_delete_file n d) _ => Some (n, d) | _ => None end.
Definition deleted_files (tr : ntrace) : list (string * string) := omap deleted_file_of tr.

(** The same with the answers. *)
Definition deletion_of (e : nevent) : option (string * string * Z) :=
  match e with Ev (dap_cert_delete_file n d) r => Some (n, d, r) | _ => None end.
Definition deletions (tr : ntrace) : list (string * string * Z) := omap deletion_of tr.

Definition is_delete_file (e : nevent) : bool :=
  match deleted_file_of e with Some _ => true | None => false end.
Definition is_saved (e : nevent) : bool :=
  match save_of e with Some (_, _, r) => r =z? 0 | None => false end.

(** ** What [cert create] is asked for *)
Inductive cert_verdict := CReject (code : Z) | CGenerate (c : call).

(** Refused outright, or dealt with as [v] says if [name] has no file yet. *)
Inductive cert_plan := CRefuse (code : Z) | CIfAbsent (name : string) (v : cert_verdict).

Definition generate_call (name : string) (key_type : Z) (seed : cstr) : call :=
  match seed with
  | Some (String c s) => dap_cert_generate_mem_with_seed name key_type (String c s) (seed_size seed)
  | _ => dap_cert_generate_mem name key_type
  end.

(** [cert create <name> <type> [-seed <value>]]. *)
Definition cert_create_ref argv : cert_plan :=
  match argv with
  | _ :: _ :: _ :: name :: ty :: rest =>
      let t := dap_sign_type_from_str (Some ty) in
      CIfAbsent name
        match last_seed rest None with
        | None => CReject (-603)
        | Some seed =>
            if (t =z? SIG_TYPE_NULL) || (t =z? SIG_TYPE_MULTI_CHAINED) then CReject (-600)
            else if dap_sign_type_is_deprecated t then CReject (-602)
            else if dap_sign_type_to_key_type t =z? DAP_ENC_KEY_TYPE_INVALID then CReject (-500)
            else CGenerate (generate_call name (dap_sign_type_to_key_type t) seed)
        end
  | _ => CRefuse (-500)
  end.

(** A rejected request generates and saves nothing; an accepted one generates
    exactly one certificate and succeeds exactly when it saved that one. *)
Definition cert_carried g (v : cert_verdict) (tr : ntrace) (o : outcome Z) : Prop :=
  match v with
  | CReject z => o = Exited z ∧ generations tr = [] ∧ saves tr = []
  | CGenerate c =>
      ∃ r, generations tr = [(c, r)] ∧
      ((o = Returned 0 ∧ ∃ crt, r = Some crt ∧ saves tr = [(crt, s_system_ca_dir g, 0)]) ∨
       (o = Exited (-500) ∧ Forall (λ s, s.2 ≠ 0) (saves tr)))
  end.

(** The first thing done is to look for the file of the certificate, and
    nothing else is looked for; one that is there is rejected with -700. *)
Definition obeys_cert g (p : cert_plan) (tr : ntrace) (o : outcome Z) : Prop :=
  match p with
  | CRefuse z => o = Exited z ∧ generations tr = [] ∧ saves tr = [] ∧ accesses tr = []
  | CIfAbsent name v =>
      ∃ found tr',
        tr = Ev (access (s_system_ca_dir g +:+ "/" +:+ name +:+ ".dcert")) found :: tr' ∧
        accesses tr' = [] ∧ cert_carried g (if found =z? -1 then v else CReject (-700)) tr' o
  end.

Lemma cert_path_eq g name : cert_path g name = Some (s_system_ca_dir g +:+ "/" +:+ name +:+ ".dcert").
Proof.
  unfold cert_path. rewrite snprintf_fits; [done|].
  unfold l_cert_path_length, strlen. autorewrite with node_str. simpl. lia.
Qed.

Lemma quiet_cert tr : Forall (λ e, quiet e = true) tr →
  generations tr = [] ∧ saves tr = [] ∧ accesses tr = [].
Proof.
  induction 1 as [|[c r] tr Hq _ (IH1 & IH2 & IH3)]; [done|]. by destruct c.
Qed.

#[local] Arguments fail_with {_} _ _ /.
#[local] Arguments fail_help : simpl never.

Lemma cert_create_refines {L : DapLaws D} g argv :
  all (obeys_cert g (cert_create_ref argv)) (s_cert_create g argv).
Proof.
  unfold s_cert_create.
  destruct argv as [|a0 [|a1 [|a2 [|name [|ty rest]]]]];
    [rewrite argc_lt_true by (simpl; lia); apply all_fail_help; intros tr Htr;
     destruct (quiet_cert _ Htr) as (H1 & H2 & H3); by split_and!..|].
  set (argv := a0 :: a1 :: a2 :: name :: ty :: rest).
  rewrite argc_lt_false by (simpl; lia).
  rewrite (arg_str_lookup argv 3 name eq_refl), (arg_str_lookup argv 4 ty eq_refl), parse_seed_ref.
  change (drop 5 argv) with rest. simpl. rewrite cert_path_eq. simpl. intros found.
  apply all_exec. intros tr o He. exists found, tr. split; [done|]. revert tr o He.
  apply (all_exec (λ tr o, accesses tr = [] ∧ cert_carried g _ tr o)). clear argv.
  destruct (found =z? -1); simpl; [|by intros []].
  destruct (last_seed rest None) as [seed|]; simpl; [|by intros [] []].
  destruct (_ || _) eqn:E3; simpl; [by intros []|].
  apply orb_false_elim in E3 as [E3 E4]. rewrite E4.
  destruct (dap_sign_type_is_deprecated _); simpl; [by intros []|].
  destruct (_ =z? DAP_ENC_KEY_TYPE_INVALID); simpl.
  - intros []. apply (all_bind _ (s_help ≫= _)), all_bind. eapply all_mono; [|apply s_help_quiet].
    intros tr o [Htr ->]. simpl. intros []. unfold generations, saves, accesses.
    destruct (quiet_cert _ Htr) as (H1 & H2 & H3). unfold generations, saves, accesses in *.
    simpl. by rewrite !omap_app, H1, H2, H3.
  - destruct seed as [[|c s]|]; psteps; (split; [done|]); eexists; (split; [reflexivity|]);
      first [by right; repeat constructor
            |left; split; [done|]; eexists; repeat split; repeat f_equal; by apply Z.eqb_eq, negb_false_iff
            |right; split; [done|]; constructor; [by apply Z.eqb_neq, negb_true_iff|constructor]].
Qed.

(** ** Copies *)

(** The key a copy of [k] gets, starting from the fresh key [k0]: the public
    key of [k], and its private key only if [pvt]. *)
Definition copied_key (k k0 : enc_key) (pvt : bool) : enc_key :=
  let with_private := match priv_key_data k with
                      | Some _ => negb (priv_key_data_size k =z? 0) && pvt
                      | None => false
                      end in {|
  ek_type := ek_type k0;
  pub_key_data := take (Z.to_nat (pub_key_data_size k)) <$> pub_key_data k;
  pub_key_data_size := pub_key_data_size k;
  priv_key_data := if with_private then take (Z.to_nat (priv_key_data_size k)) <$> priv_key_data k
                   else priv_key_data k0;
  priv_key_data_size := if with_private then priv_key_data_size k else priv_key_data_size k0 |}.

(** Everything a run of [s_cert_copy] saves is one such copy, under a name
    whose file was tested for and not found. *)
Definition copy_saved g argv (pvt : bool) (tr : ntrace) : Prop :=
  saves tr = [] ∨
  ∃ c k k0 new new_name r,
    loaded tr = [c] ∧ cert_enc_key c = Some k ∧ fresh_keys tr = [k0] ∧ argv !! 4%nat = Some new_name ∧
    file_tests tr = [(Some (s_system_ca_dir g +:+ "/" +:+ new_name +:+ ".dcert"), false)] ∧
    saves tr = [(with_key new (copied_key k k0 pvt), s_system_ca_dir g, r)].

(** What [s_cert_copy] does to the files and what it returns: without a save
    nothing is removed and the result is not 0; a save that fails gives the
    result and nothing is removed; after a successful save a renaming removes
    the original, once, and the answer to that is the result. *)
Definition copy_result g argv (pvt : bool) (tr : ntrace) (o : outcome Z) : Prop :=
  before_ev is_saved is_delete_file tr = true ∧
  match saves tr with
  | [] => deletions tr = [] ∧ o ≠ Returned 0
  | [(_, d, r)] =>
      d = s_system_ca_dir g ∧
      if (r =z? 0) && pvt then
        ∃ name r', argv !! 3%nat = Some name ∧ deletions tr = [(name, s_system_ca_dir g, r')] ∧ o = Returned r'
      else deletions tr = [] ∧ o = Returned r
  | _ => False
  end.

(** Runs [s_cert_copy] forward; [tac] closes each way it ends. *)
Ltac copy_steps argv tac :=
  unfold s_cert_copy;
  destruct (argc_lt argv 5) eqn:Hl;
  [psteps; tac
  |apply bool_decide_eq_false in Hl;
   let name := fresh "name" in let Hname := fresh "Hname" in
   let new := fresh "new" in let Hnew := fresh "Hnew" in
   destruct (arg_in_range argv 3 ltac:(lia)) as [name Hname];
   destruct (arg_in_range argv 4 ltac:(lia)) as [new Hnew];
   rewrite (arg_str_lookup _ _ _ Hname), (arg_str_lookup _ _ _ Hnew);
   unfold copy_priv, copy_finish, deref; simpl; rewrite dap_strdup_printf_eq;
   psteps; tac].

(** The copies made are those the hypothesis [dups_faithful] tells. *)
Ltac use_dups :=
  repeat match goal with
         | H : dups_faithful _ |- _ => unfold dups_faithful in H; simpl in H
         | H : Forall _ (_ :: _) |- _ =>
             let H1 := fresh in inversion_clear H as [|? ? H1 ?]; specialize (H1 _ eq_refl); simpl in H1; subst
         end.

Lemma cert_copy_saved {L : DapLaws D} g argv pvt :
  all (λ tr _, dups_faithful tr → copy_saved g argv pvt tr) (s_cert_copy g argv pvt).
Proof.
  copy_steps argv ltac:(try (by left); right; do 6 eexists; (split; [reflexivity|]);
    (split; [eassumption|]); (split; [reflexivity|]); (split; [eassumption|]); (split; [reflexivity|]);
    use_dups; unfold saves, copied_key; use_tests).
Qed.

Lemma cert_copy_result {L : DapLaws D} g argv pvt :
  all (copy_result g argv pvt) (s_cert_copy g argv pvt).
Proof.
  copy_steps argv ltac:(unfold copy_result, saves, deletions; cbn; use_tests; split_bools; split_and!;
    first [done|by case_match|by do 2 eexists]).
Qed.

Lemma before_ev_app f h (tr tr' : ntrace) :
  before_ev f h tr = true → no_ev h tr' = true → before_ev f h (tr ++ tr') = true.
Proof.
  induction tr as [|e tr IH]; simpl.
  - intros _. induction tr' as [|e tr' IH]; simpl; [done|].
    intros [H1 H2]%andb_prop. destruct (f e); [done|]. rewrite H1. by apply IH.
  - destruct (f e); [done|]. intros [-> H]%andb_prop Hn. simpl. by apply IH.
Qed.

Lemma copy_result_print g argv pvt tr o text :
  copy_result g argv pvt tr o → copy_result g argv pvt (tr ++ [Ev (printf text) tt]) o.
Proof.
  unfold copy_result, saves, deletions. rewrite !omap_app. simpl. rewrite !app_nil_r.
  intros [H1 H2]. split; [by apply before_ev_app|done].
Qed.

Lemma copy_saved_print g argv pvt tr text :
  (dups_faithful tr → copy_saved g argv pvt tr) →
  dups_faithful (tr ++ [Ev (printf text) tt]) → copy_saved g argv pvt (tr ++ [Ev (printf text) tt]).
Proof.
  unfold dups_faithful, dups, copy_saved, saves, loaded, fresh_keys, file_tests.
  rewrite !omap_app. simpl. by rewrite !app_nil_r.
Qed.

(** The two commands print a message after the copy. *)
Lemma rename_all {L : DapLaws D} g argv :
  all (λ tr o, copy_result g argv true tr o ∧ (dups_faithful tr → copy_saved g argv true tr)) (s_cert_rename g argv).
Proof.
  unfold s_cert_rename. apply all_bind. apply all_exec. intros tr o He.
  pose proof (proj1 (all_exec _ _) (cert_copy_result g argv true) tr o He) as Hr.
  pose proof (proj1 (all_exec _ _) (cert_copy_saved g argv true) tr o He) as Hs.
  destruct o as [res|z|]; [|done|done].
  destruct (res =z? 0); simpl; intros []; (split; [by apply copy_result_print|by apply copy_saved_print]).
Qed.

Lemma export_all {L : DapLaws D} g argv :
  all (λ tr o, copy_result g argv false tr o ∧ (dups_faithful tr → copy_saved g argv false tr))
    (s_cert_create_cert_pkey g argv).
Proof.
  unfold s_cert_create_cert_pkey. apply all_bind. apply all_exec. intros tr o He.
  pose proof (proj1 (all_exec _ _) (cert_copy_result g argv false) tr o He) as Hr.
  pose proof (proj1 (all_exec _ _) (cert_copy_saved g argv false) tr o He) as Hs.
  destruct o as [res|z|]; [|done|done].
  destruct (res =z? 0); simpl; intros []; (split; [by apply copy_result_print|by apply copy_saved_print]).
Qed.

Lemma deleted_files_deletions tr : deletions tr = [] → deleted_files tr = [].
Proof. induction tr as [|[c r] tr IH]; [done|]. by destruct c. Qed.

Lemma export_deletes_nothing g argv tr o : copy_result g argv false tr o → deletions tr = [].
Proof.
  intros [_ H]. destruct (saves tr) as [|[[c d] r] [|]]; [by destruct H| |done].
  destruct H as [_ H]. rewrite andb_false_r in H. by destruct H.
Qed.

(** A renaming succeeds exactly when both of its steps did. *)
Lemma rename_success g argv tr o :
  copy_result g argv true tr o →
  o = Returned 0 ↔
    ∃ name c, argv !! 3%nat = Some name ∧ saves tr = [(c, s_system_ca_dir g, 0)] ∧
              deletions tr = [(name, s_system_ca_dir g, 0)].
Proof.
  intros [_ H]. destruct (saves tr) as [|[[c d] r] [|]]; [|destruct H as [-> H]|done].
  - destruct H as [_ H]. split; [done|]. by intros (? & ? & _ & ? & _).
  - rewrite andb_true_r in H. destruct (r =z? 0) eqn:Hr.
    + apply Z.eqb_eq in Hr as ->. destruct H as (name & r' & Hn & -> & ->). split.
      * intros [= ->]. by exists name, c.
      * intros (? & ? & _ & _ & [= _ ->]). done.
    + destruct H as [-> ->]. apply Z.eqb_neq in Hr. split; [by intros [= ->]|].
      by intros (? & ? & _ & _ & ?).
Qed.

(** ** Exported key files *)
Definition opened_of (e : nevent) : option (cstr * string * option file) :=
  match e with Ev (fopen p m) r => Some (p, m, r) | _ => None end.
Definition opened (tr : ntrace) : list (cstr * string * option file) := omap opened_of tr.

Definition written_of (e : nevent) : option (pkey * Z) :=
  match e with Ev (fwrite_pkey k n _) _ => Some (k, n) | _ => None end.
Definition written (tr : ntrace) : list (pkey * Z) := omap written_of tr.

Definition pkeys_of (e : nevent) : option pkey :=
  match e with Ev (dap_pkey_from_enc_key _) r => r | _ => None end.
Definition pkeys (tr : ntrace) : list pkey := omap pkeys_of tr.

(** The ways [cert create_pkey] can end: nothing opened; the file could not be
    opened; the whole key written. *)
Definition pkey_export argv (tr : ntrace) (o : outcome Z) : Prop :=
  (opened tr = [] ∧ written tr = [] ∧ o ≠ Returned 0) ∨
  ∃ path k r, argv !! 4%nat = Some path ∧ pkeys tr = [k] ∧ opened tr = [(Some path, "wb", r)] ∧
    file_exists tr = false ∧ o = Returned 0 ∧
    written tr = match r with Some _ => [(k, pkey_size k + sizeof_header k)] | None => [] end.

Lemma create_pkey_cases g argv : all (pkey_export argv) (s_cert_create_pkey g argv).
Proof.
  unfold s_cert_create_pkey.
  destruct (argc_lt argv 5) eqn:Hl; [psteps; by left|].
  apply bool_decide_eq_false in Hl.
  destruct (arg_in_range argv 3 ltac:(lia)) as [name Hname], (arg_in_range argv 4 ltac:(lia)) as [path Hpath].
  rewrite (arg_str_lookup _ _ _ Hname), (arg_str_lookup _ _ _ Hpath). unfold deref.
  psteps; first [by left|right; do 3 eexists; split_and!; by reflexivity || eassumption].
Qed.

(** ** Metadata *)
Inductive meta :=
  | MetaBytes (key : cstr) (type : Z) (value : cstr) (size : Z)
  | MetaScalar (key : cstr) (type value size : Z).

Definition meta_of (e : nevent) : option (cert * meta) :=
  match e with
  | Ev (dap_cert_add_meta c k t v n) _ => Some (c, MetaBytes k t v n)
  | Ev (dap_cert_add_meta_scalar c k t v n) _ => Some (c, MetaScalar k t v n)
  | _ => None
  end.
Definition metas (tr : ntrace) : list (cert * meta) := omap meta_of tr.

(** The item described by the four fields [key:type:length:value]. *)
Definition meta_ref (k : string) (t : Z) (len v : string) : meta :=
  if (t =z? DAP_CERT_META_STRING) || (t =z? DAP_CERT_META_SIGN) || (t =z? DAP_CERT_META_CUSTOM)
  then MetaBytes (Some k) t (Some v) (strtoul ULONG_WIDTH len)
  else MetaScalar (Some k) t (strtoul 64 v) (strtoul ULONG_WIDTH len).

(** The value is at least as long as [len] says. *)
Definition meta_fits (t : Z) (len v : string) : bool :=
  match meta_ref "" t len v with
  | MetaBytes _ _ value size => readable value size
  | MetaScalar _ _ _ size => size <=? sizeof_ull
  end.

Lemma add_metadata_cases g t0 t1 t2 name spec rest k ty len v t :
  dap_strsplit spec ":" 4 = [k; ty; len; v] → atoi ty = Some t → meta_fits t len v = true →
  all (λ tr o, match loaded tr with
               | [] => o = Exited (-800) ∧ metas tr = [] ∧ saves tr = []
               | c :: _ => o = Returned 0 ∧ metas tr = [(c, meta_ref k t len v)] ∧
                           ∃ r, saves tr = [(c, s_system_ca_dir g, r)]
               end)
    (s_cert_add_metadata g (t0 :: t1 :: t2 :: name :: spec :: rest)).
Proof.
  intros Hs Ht Hf. unfold s_cert_add_metadata. rewrite bool_decide_true by (simpl; lia).
  rewrite (arg_str_lookup (t0 :: t1 :: t2 :: name :: spec :: rest) 3 name eq_refl),
    (arg_str_lookup (t0 :: t1 :: t2 :: name :: spec :: rest) 4 spec eq_refl).
  simpl. rewrite Hs. unfold param_ul. simpl. unfold meta_fits, meta_ref in *. rewrite Ht. simpl.
  intros [c|]; simpl; [|by intros []].
  destruct (_ || _) eqn:E; simpl in *; rewrite Hf; psteps; split_and!; try done; by eexists.
Qed.

Lemma add_metadata_overread g t0 t1 t2 name spec rest k ty len v t :
  dap_strsplit spec ":" 4 = [k; ty; len; v] → atoi ty = Some t → meta_fits t len v = false →
  all (λ tr o, loaded tr ≠ [] → o = Undefined) (s_cert_add_metadata g (t0 :: t1 :: t2 :: name :: spec :: rest)).
Proof.
  intros Hs Ht Hf. unfold s_cert_add_metadata. rewrite bool_decide_true by (simpl; lia).
  rewrite (arg_str_lookup (t0 :: t1 :: t2 :: name :: spec :: rest) 3 name eq_refl),
    (arg_str_lookup (t0 :: t1 :: t2 :: name :: spec :: rest) 4 spec eq_refl).
  simpl. rewrite Hs. unfold param_ul. simpl. unfold meta_fits, meta_ref in *. rewrite Ht. simpl.
  intros [c|]; simpl; [|by intros []].
  destruct (_ || _); simpl in *; by rewrite Hf.
Qed.

Lemma add_metadata_short g t0 t1 t2 name spec rest :
  (length (dap_strsplit spec ":" 4) < 3)%nat →
  all (λ tr o, loaded tr ≠ [] → o = Undefined)
    (s_cert_add_metadata g (t0 :: t1 :: t2 :: name :: spec :: rest)).
Proof.
  intros Hl. unfold s_cert_add_metadata. rewrite bool_decide_true by (simpl; lia).
  rewrite (arg_str_lookup (t0 :: t1 :: t2 :: name :: spec :: rest) 3 name eq_refl),
    (arg_str_lookup (t0 :: t1 :: t2 :: name :: spec :: rest) 4 spec eq_refl).
  simpl. unfold param_ul. simpl.
  destruct (dap_strsplit spec ":" 4) as [|k [|ty [|]]]; simpl in Hl; try lia.
  - psteps; done.
  - psteps; done.
  - simpl. unfold deref. psteps; try done.
Qed.
End ToolCert.

(** * Properties *)

(** The buffer [s_cert_create] allocates for the path of
    the certificate holds the whole path and its NUL with no byte to spare:
    [snprintf] never truncates it, and would with one byte less. *)
Theorem cert_path_exact g name :
  let path := s_system_ca_dir g +:+ "/" +:+ name +:+ ".dcert" in
  cert_path g name = Some path ∧
  (l_cert_path_length g name = strlen path + 1)%nat ∧
  (snprintf (l_cert_path_length g name - 1) path).2 ≠ Some path.
Proof.
  intros path. assert (l_cert_path_length g name = strlen path + 1)%nat as Hl.
  { unfold l_cert_path_length, path, strlen. autorewrite with node_str. simpl. lia. }
  split_and!; [apply cert_path_eq|done|].
  intros Hs. apply snprintf_bound in Hs. lia.
Qed.

(** C23 (cert_create_correct): [cert create] does what it is asked for in every
    environment.  With the name and the type given, the first thing it does is
    to look for [<CA directory>/<name>.dcert]: a certificate whose file is there
    is rejected with -700 and nothing is generated or saved.  A [-seed] without a
    value, an unknown or multi type, a deprecated type and a type without a key
    are then rejected with -603, -600, -602 and -500 before anything is
    generated; otherwise exactly one certificate is generated, with the key type
    and the last non-empty seed given, and the command returns 0 exactly when
    that certificate was saved to the CA directory, else exits with -500. *)
Theorem cert_create_correct {D : Dap} {L : DapLaws D} g argv tr o :
  exec (s_cert_create g argv) tr o → obeys_cert g (cert_create_ref argv) tr o.
Proof. apply all_exec, cert_create_refines. Qed.

Lemma cert_create_correct_witness :
  let argv := ["tool"; "cert"; "create"; "c1"; "sig_dil"] in
  let p := s_cert_create (D := demo_dap) demo_globals argv in
  cert_create_ref (D := demo_dap) argv = CIfAbsent "c1" (CGenerate (dap_cert_generate_mem "c1" 1)) ∧
  obeys_cert demo_globals (cert_create_ref (D := demo_dap) argv) (run_trace default_ans p) (run_outcome default_ans p).
Proof.
  split; [vm_compute; reflexivity|].
  apply (cert_create_correct (D := demo_dap)). apply exec_run_pure.
Defined.

(** The branch of [s_cert_create] that
    explains that a multi signature cannot be used and exits with -601 is never
    taken: the test before it already catches that type with -600. *)
Theorem cert_create_601_unreachable {D : Dap} {L : DapLaws D} g argv tr o :
  exec (s_cert_create g argv) tr o → o ≠ Exited (-601).
Proof.
  intros He. apply (proj1 (all_exec _ _) (cert_create_refines g argv)) in He.
  destruct argv as [|? [|? [|? [|name [|ty rest]]]]]; [by destruct He as [-> _]..|].
  destruct He as (found & tr' & _ & _ & Hc). revert Hc.
  repeat case_match; simpl; first [by intros [-> _]|by intros (? & _ & [[-> _]|[-> _]])].
Qed.

Lemma cert_create_601_unreachable_witness :
  run_outcome default_ans
    (s_cert_create (D := demo_dap) demo_globals ["tool"; "cert"; "create"; "c1"; "sig_multi_chained"]) ≠ Exited (-601).
Proof. eapply (cert_create_601_unreachable (D := demo_dap)), exec_run_pure. Defined.

(** C22 (cert_export_public_only): [cert create_cert_pkey] never writes a private
    key: every certificate it saves has the public key of the certificate it
    read and the (empty) private key of a freshly made key object; it removes no
    file, and never saves over an existing one. *)
Theorem cert_export_public_only {D : Dap} {L : DapLaws D} g argv tr o :
  exec (s_cert_create_cert_pkey g argv) tr o → dups_faithful tr →
  deleted_files tr = [] ∧
  ∀ c d r, (c, d, r) ∈ saves tr →
    ∃ orig k k0, loaded tr = [orig] ∧ cert_enc_key orig = Some k ∧ fresh_keys tr = [k0] ∧
      file_exists tr = false ∧ d = s_system_ca_dir g ∧
      cert_enc_key c = Some {|
        ek_type := ek_type k0;
        pub_key_data := take (Z.to_nat (pub_key_data_size k)) <$> pub_key_data k;
        pub_key_data_size := pub_key_data_size k;
        priv_key_data := priv_key_data k0;
        priv_key_data_size := priv_key_data_size k0 |}.
Proof.
  intros He Hd. split.
  - apply (proj1 (all_exec _ _) (export_all g argv)) in He as [He _].
    by eapply deleted_files_deletions, export_deletes_nothing.
  - apply (proj1 (all_exec _ _) (export_all g argv)) in He as [_ He]. specialize (He Hd).
    intros c d r Hin. destruct He as [Hs|(orig & k & k0 & new & nn & r' & H1 & H2 & H3 & _ & H4 & H5)].
    + rewrite Hs in Hin. by apply not_elem_of_nil in Hin.
    + rewrite H5 in Hin. apply list_elem_of_singleton in Hin. simplify_eq.
      exists orig, k, k0. split_and!; try done; [unfold file_exists; by rewrite H4|].
      unfold with_key, copied_key. cbn [cert_enc_key].
      by destruct (priv_key_data k); rewrite ?andb_false_r.
Qed.

Lemma cert_export_public_only_witness :
  let tr := run_trace default_ans
    (s_cert_create_cert_pkey (D := demo_dap) demo_globals ["tool"; "cert"; "create_cert_pkey"; "c1"; "c2"]) in
  length (saves tr) = 1%nat ∧ deleted_files tr = [].
Proof.
  split; [vm_compute; reflexivity|].
  eapply (cert_export_public_only (D := demo_dap)); [apply exec_run_pure|].
  vm_compute. repeat constructor; by intros ? [= <-].
Defined.


(** A removal that fails. *)
Definition no_delete_ans (c : call) : ret c :=
  match c return ret c with dap_cert_delete_file _ _ => -3 | c => default_ans c end.


(** [cert create_pkey] opens at most the file
    [argv[4]], only if it does not exist, and writes to it exactly the header
    and the [header.size] bytes of the key; it returns 0 and reports the key as
    created also when the file could not be opened and nothing was written. *)
Theorem cert_create_pkey_cases g argv tr o :
  exec (s_cert_create_pkey g argv) tr o → pkey_export argv tr o.
Proof. apply all_exec, create_pkey_cases. Qed.

Definition no_open_ans (c : call) : ret c :=
  match c return ret c with fopen _ _ => None | c => default_ans c end.

Lemma cert_create_pkey_cases_witness :
  let argv := ["tool"; "cert"; "create_pkey"; "c1"; "/out"] in
  let p := s_cert_create_pkey demo_globals argv in
  run_outcome no_open_ans p = Returned 0 ∧ written (run_trace no_open_ans p) = [] ∧
  pkey_export argv (run_trace no_open_ans p) (run_outcome no_open_ans p).
Proof.
  split; [vm_compute; reflexivity|]. split; [vm_compute; reflexivity|].
  apply (cert_create_pkey_cases demo_globals). apply exec_run_pure.
Defined.

(** For an argument of the form
    key:type:length:value, [cert add_metadata] adds to the certificate exactly
    that item (raw bytes for the string, sign and custom types, a number
    otherwise, with the given length, which the value must have) and saves it
    once; it reports success whatever the save answered. *)
Theorem cert_add_metadata_correct {D : Dap} g t0 t1 t2 name spec rest k ty len v t tr o :
  dap_strsplit spec ":" 4 = [k; ty; len; v] → atoi ty = Some t → meta_fits t len v = true →
  exec (s_cert_add_metadata g (t0 :: t1 :: t2 :: name :: spec :: rest)) tr o →
  match loaded tr with
  | [] => o = Exited (-800) ∧ metas tr = [] ∧ saves tr = []
  | c :: _ => o = Returned 0 ∧ metas tr = [(c, meta_ref k t len v)] ∧
              ∃ r, saves tr = [(c, s_system_ca_dir g, r)]
  end.
Proof. intros Hs Ht Hf. revert tr o. apply all_exec. by apply add_metadata_cases with ty. Qed.

Lemma cert_add_metadata_correct_witness :
  let tr := run_trace default_ans
    (s_cert_add_metadata (D := demo_dap) demo_globals ["tool"; "cert"; "add_metadata"; "c1"; "node:2:8:42"]) in
  snd <$> metas tr = [MetaScalar (Some "node") 2 42 8] ∧
  match loaded tr with
  | [] => metas tr = []
  | c :: _ => metas tr = [(c, meta_ref (D := demo_dap) "node" 2 "8" "42")]
  end.
Proof.
  intros tr. split; [vm_compute; reflexivity|].
  pose proof (cert_add_metadata_correct (D := demo_dap) demo_globals "tool" "cert" "add_metadata" "c1" "node:2:8:42"
    [] "node" "2" "8" "42" 2 _ _ eq_refl eq_refl eq_refl (exec_run_pure default_ans _)) as H.
  change (run_trace _ _) with tr in H. destruct (loaded tr); destruct H as (_ & H & _); exact H.
Defined.

(** When the argument has fewer than
    three fields the same command reads past them: the behaviour is undefined
    (NULL or what follows the NULL is handed to [atoi] or [strtoul]). *)
Theorem cert_add_metadata_short_undefined {D : Dap} g t0 t1 t2 name spec rest tr o :
  (length (dap_strsplit spec ":" 4) < 3)%nat →
  exec (s_cert_add_metadata g (t0 :: t1 :: t2 :: name :: spec :: rest)) tr o →
  loaded tr ≠ [] → o = Undefined.
Proof.
  intros Hs. revert tr o. apply (all_exec (λ tr o, loaded tr ≠ [] → o = Undefined)).
  by apply add_metadata_short.
Qed.

Lemma cert_add_metadata_short_undefined_witness :
  run_outcome default_ans
    (s_cert_add_metadata (D := demo_dap) demo_globals ["tool"; "cert"; "add_metadata"; "c1"; "node:0"]) = Undefined.
Proof.
  eapply (cert_add_metadata_short_undefined (D := demo_dap) demo_globals "tool" "cert" "add_metadata" "c1" "node:0" []);
    [vm_compute; lia|apply exec_run_pure|vm_compute; done].
Defined.

(** A length greater than the value's makes it read past the value: nothing
    compares the two. *)
Theorem cert_add_metadata_overread {D : Dap} g t0 t1 t2 name spec rest k ty len v t tr o :
  dap_strsplit spec ":" 4 = [k; ty; len; v] → atoi ty = Some t → meta_fits t len v = false →
  exec (s_cert_add_metadata g (t0 :: t1 :: t2 :: name :: spec :: rest)) tr o →
  loaded tr ≠ [] → o = Undefined.
Proof.
  intros Hs Ht Hf. revert tr o. apply (all_exec (λ tr o, loaded tr ≠ [] → o = Undefined)).
  by apply add_metadata_overread with k ty len v t.
Qed.

Lemma cert_add_metadata_overread_witness :
  run_outcome default_ans
    (s_cert_add_metadata (D := demo_dap) demo_globals ["tool"; "cert"; "add_metadata"; "c1"; "k:0:4096:v"]) = Undefined.
Proof.
  eapply (cert_add_metadata_overread (D := demo_dap) demo_globals "tool" "cert" "add_metadata" "c1" "k:0:4096:v" []
            "k" "0" "4096" "v" 0);
    [reflexivity|reflexivity|vm_compute; reflexivity|apply exec_run_pure|vm_compute; done].
Defined.
