(* ===== verification/Tool.v ===== *)
(** * cellframe-node-tool: the command table and [main]

    [sources/main_node_tool.c]: the table [s_opts], the search loop of [main]
    and the treatment of [-B]. *)
From S2P Require Import Prelude Prog CLib Sdk ToolBase ToolWallet ToolCert.

Set Default Proof Using "Type".
Open Scope Z_scope.

(** The handlers the table names. *)
Inductive tool_handler :=
  | H_wallet_create | H_wallet_create_from | H_wallet_create_wp
  | H_wallet_pkey_show | H_wallet_pkey_show_full
  | H_cert_create | H_cert_dump | H_cert_create_pkey | H_cert_create_cert_pkey | H_cert_rename
  | H_cert_add_metadata | H_cert_sign | H_cert_pkey_show | H_cert_pkey_show_full | H_cert_get_addr.

#[export] Instance tool_handler_eq_dec : EqDecision tool_handler.
Proof. solve_decision. Defined.

(** [struct options]. *)
Record options := { cmd : string; subcmd : list string; handler_of : tool_handler }.

Definition count_of_subcommands (o : options) : nat := length (subcmd o).

Definition s_opts : list options := [
  {| cmd := "wallet"; subcmd := ["create"]; handler_of := H_wallet_create |};
  {| cmd := "wallet"; subcmd := ["create_from"]; handler_of := H_wallet_create_from |};
  {| cmd := "wallet"; subcmd := ["create_wp"]; handler_of := H_wallet_create_wp |};
  {| cmd := "wallet"; subcmd := ["pkey"; "show"]; handler_of := H_wallet_pkey_show |};
  {| cmd := "wallet"; subcmd := ["pkey"; "show_full"]; handler_of := H_wallet_pkey_show_full |};
  {| cmd := "cert"; subcmd := ["create"]; handler_of := H_cert_create |};
  {| cmd := "cert"; subcmd := ["dump"]; handler_of := H_cert_dump |};
  {| cmd := "cert"; subcmd := ["create_pkey"]; handler_of := H_cert_create_pkey |};
  {| cmd := "cert"; subcmd := ["create_cert_pkey"]; handler_of := H_cert_create_cert_pkey |};
  {| cmd := "cert"; subcmd := ["rename"]; handler_of := H_cert_rename |};
  {| cmd := "cert"; subcmd := ["add_metadata"]; handler_of := H_cert_add_metadata |};
  {| cmd := "cert"; subcmd := ["sign"]; handler_of := H_cert_sign |};
  {| cmd := "cert"; subcmd := ["pkey"; "show"]; handler_of := H_cert_pkey_show |};
  {| cmd := "cert"; subcmd := ["pkey"; "show_full"]; handler_of := H_cert_pkey_show_full |};
  {| cmd := "cert"; subcmd := ["addr"; "show"]; handler_of := H_cert_get_addr |} ].

Section Tool.
  Context {D : Dap}.
  Implicit Types (g : tool_globals) (argv : list string).

Definition run_handler (h : tool_handler) g argv : nprog Z :=
  match h with
  | H_wallet_create => s_wallet_create g argv
  | H_wallet_create_from => s_wallet_create_from g argv
  | H_wallet_create_wp => s_wallet_create_wp g argv
  | H_wallet_pkey_show => s_wallet_pkey_show g argv
  | H_wallet_pkey_show_full => s_wallet_pkey_show_full g argv
  | H_cert_create => s_cert_create g argv
  | H_cert_dump => s_cert_dump g argv
  | H_cert_create_pkey => s_cert_create_pkey g argv
  | H_cert_create_cert_pkey => s_cert_create_cert_pkey g argv
  | H_cert_rename => s_cert_rename g argv
  | H_cert_add_metadata => s_cert_add_metadata g argv
  | H_cert_sign => s_cert_sign g argv
  | H_cert_pkey_show => s_cert_pkey_show g argv
  | H_cert_pkey_show_full => s_cert_pkey_show_full g argv
  | H_cert_get_addr => s_cert_get_addr g argv
  end.

(** The inner loop: 0 when [argv] continues with the subcommands [subs] after
    [argv[l_argvi]], else -1. *)
Fixpoint sub_loop (subs : list string) argv (l_argvi : nat) : nprog Z :=
  match subs with
  | [] => mret 0
  | s :: subs' =>
      if Z.of_nat (length argv) - 1 <? Z.of_nat (S l_argvi) then mret (-1)
      else
        a ← arg_str argv (S l_argvi);
        if negb (strncmp s a (strlen a + 1) =z? 0) then mret (-1)
        else sub_loop subs' argv (S l_argvi)
  end.

(** The outer loop: [l_err] and [l_ret_cmd] after it; [call_handler] runs the
    handler found. *)
Fixpoint opts_loop (call_handler : tool_handler → nprog Z) (opts : list options) argv
    (l_argv_start : nat) (l_err : Z) : nprog (Z * Z) :=
  match opts with
  | [] => mret (l_err, -1)
  | o :: opts' =>
      if (l_argv_start <=? length argv)%nat then
        a ← arg_str argv l_argv_start;
        if strncmp (cmd o) a (strlen a + 1) =z? 0 then
          l_err ← sub_loop (subcmd o) argv l_argv_start;
          if l_err =z? 0 then
            l_ret_cmd ← call_handler (handler_of o);
            mret (l_err, l_ret_cmd)
          else opts_loop call_handler opts' argv l_argv_start l_err
        else opts_loop call_handler opts' argv l_argv_start l_err
      else opts_loop call_handler opts' argv l_argv_start l_err
  end.

(** [main] from [if ( argc < 2 )] on. *)
Definition tool_main_run (b : build) (g_sys_dir_path : cstr) argv (l_argv_start : nat) : nprog Z :=
  if argc_lt argv 2 then s_help ;; delete B_sys_dir_path ;; mret (-2)
  else
    r ← s_init b g_sys_dir_path;
    match r with
    | (0, Some g) =>
        res ← opts_loop (λ h, run_handler h g argv) s_opts argv l_argv_start (-2);
        let '(l_err, l_ret_cmd) := res in
        (if l_err =z? -2 then
           a1 ← arg_str argv 1;
           print ("Command " +:+ quoted a1 +:+ " not found." +:+ NL) ;; s_help
         else if l_err =z? -1 then
           a1 ← arg_str argv 1;
           print ("No subcommand was found for command " +:+ quoted a1 +:+ "." +:+ NL) ;; s_help
         else mret tt) ;;
        perform (dap_config_close (g_config g)) ;;
        delete B_sys_dir_path ;;
        mret (if negb (l_err =z? 0) then l_err else l_ret_cmd)
    | _ => print "Can't init modules" ;; delete B_sys_dir_path ;; mret (-3)
    end.

(** The installation directory when [-B] is not given. *)
Definition default_sys_dir (b : build) : nprog cstr :=
  match target b with
  | OS_WINDOWS =>
      u ← perform regGetUsrPath;
      name ← perform dap_get_appname;
      mret (dap_strdup_printf (u +:+ "/" +:+ name))
  | OS_MAC => mret (dap_strdup_printf "/Library/Application Support/CellframeNode/")
  | OS_UNIX =>
      name ← perform dap_get_appname;
      mret (dap_strdup_printf ("/opt/" +:+ name))
  end.

Definition main (b : build) argv : nprog Z :=
  perform (dap_set_appname NODE_NAME) ;;
  has ← has_B argv;
  if has : bool then
    a2 ← arg argv 2;
    let g_sys_dir_path := dap_strdup a2 in
    ok ← perform (dap_dir_test g_sys_dir_path);
    if negb ok then
      p ← deref g_sys_dir_path;
      print ("Invalid path " +:+ quoted p) ;; delete B_sys_dir_path ;; mret (-1)
    else tool_main_run b g_sys_dir_path (drop 2 argv) 3
  else
    g_sys_dir_path ← default_sys_dir b;
    tool_main_run b g_sys_dir_path argv 1.

(** ** Reference semantics of the command search *)

(** [args] begins with the words [ws]. *)
Fixpoint starts_with (ws args : list string) : bool :=
  match ws, args with
  | [], _ => true
  | w :: ws', a :: args' => bool_decide (w = a) && starts_with ws' args'
  | _ :: _, [] => false
  end.

Inductive dispatch := Found (h : tool_handler) | NoSubcommand | NoCommand.

Definition same_cmd (args : list string) (o : options) : bool :=
  match args with c :: _ => bool_decide (cmd o = c) | [] => false end.

Definition match_opt (args : list string) (o : options) : bool :=
  same_cmd args o && starts_with (subcmd o) (tail args).

(** The first table entry all of whose words [args] begins with. *)
Definition dispatch_ref (args : list string) : dispatch :=
  match List.find (match_opt args) s_opts with
  | Some o => Found (handler_of o)
  | None => if existsb (same_cmd args) s_opts then NoSubcommand else NoCommand
  end.

(** What the search loop does for a result of the reference. *)
Definition dispatch_prog (ch : tool_handler → nprog Z) (d : dispatch) : nprog (Z * Z) :=
  match d with
  | Found h => l_ret_cmd ← ch h; mret (0, l_ret_cmd)
  | NoSubcommand => mret (-1, -1)
  | NoCommand => mret (-2, -1)
  end.

Definition c_strings (argv : list string) : Prop := Forall (λ s, nul_free s = true) argv.

Definition table_ok (opts : list options) : Prop :=
  Forall (λ o, nul_free (cmd o) = true ∧ c_strings (subcmd o)) opts.

Lemma s_opts_ok : table_ok s_opts.
Proof. repeat constructor. Qed.

Lemma c_strings_lookup (argv : list string) i a : c_strings argv → argv !! i = Some a → nul_free a = true.
Proof. intros Ha Hi. exact (Forall_lookup_1 _ _ _ _ Ha Hi). Qed.

Lemma strncmp_full_eqb w a :
  nul_free w = true → nul_free a = true → (strncmp w a (strlen a + 1) =z? 0) = bool_decide (w = a).
Proof.
  intros Hw Ha. apply eq_iff_eq_true. rewrite Z.eqb_eq, bool_decide_eq_true. by apply strncmp_full.
Qed.

Lemma sub_loop_ref subs argv i :
  c_strings subs → c_strings argv →
  sub_loop subs argv i = Ret (if starts_with subs (drop (S i) argv) then 0 else -1).
Proof.
  intros Hs Ha. revert i. induction Hs as [|w subs Hw Hs IH]; intros i; simpl; [done|].
  destruct (Z.ltb_spec (Z.of_nat (length argv) - 1) (Z.of_nat (S i))) as [Hi|Hi].
  { by rewrite drop_ge by lia. }
  destruct (arg_in_range argv (S i) ltac:(lia)) as [a Hla]. rewrite (arg_str_lookup _ _ _ Hla). simpl.
  rewrite strncmp_full_eqb by eauto using c_strings_lookup. rewrite (drop_S _ _ _ Hla).
  case_bool_decide; simpl; [apply IH|done].
Qed.

Lemma opts_loop_ref ch opts argv start l_err :
  table_ok opts → c_strings argv → (start < length argv)%nat → l_err ≠ 0 →
  opts_loop ch opts argv start l_err =
    match List.find (match_opt (drop start argv)) opts with
    | Some o => l_ret_cmd ← ch (handler_of o); mret (0, l_ret_cmd)
    | None => mret (if existsb (same_cmd (drop start argv)) opts then -1 else l_err, -1)
    end.
Proof.
  intros Ho Ha Hs. revert l_err.
  destruct (arg_in_range argv start Hs) as [a Hla]. rewrite (drop_S _ _ _ Hla).
  induction Ho as [|o opts [Hc Hsub] Ho IH]; intros l_err He; cbn [opts_loop List.find existsb]; [done|].
  destruct (Nat.leb_spec start (length argv)); [|lia].
  rewrite (arg_str_lookup _ _ _ Hla). simpl.
  rewrite strncmp_full_eqb by eauto using c_strings_lookup.
  change (match_opt (a :: drop (S start) argv) o)
    with (bool_decide (cmd o = a) && starts_with (subcmd o) (drop (S start) argv)).
  change (same_cmd (a :: drop (S start) argv) o) with (bool_decide (cmd o = a)).
  case_bool_decide; simpl; [|by rewrite IH].
  rewrite sub_loop_ref by done. simpl. destruct (starts_with _ _); simpl; [done|].
  rewrite IH by lia. destruct (List.find _ opts); [done|]. by destruct (existsb _ opts).
Qed.

Lemma dispatch_correct ch argv start :
  c_strings argv → (start < length argv)%nat →
  opts_loop ch s_opts argv start (-2) = dispatch_prog ch (dispatch_ref (drop start argv)).
Proof.
  intros Ha Hs. rewrite opts_loop_ref by (done || apply s_opts_ok). unfold dispatch_ref.
  destruct (List.find _ _); [done|]. by destruct (existsb _ _).
Qed.

(** ** Exit codes *)
Definition exits_nonzero {A} (p : nprog A) : Prop :=
  uniform (λ _, True) (λ o, match o with Exited z => exit_status z ≠ 0 | _ => True end) p.

Lemma nz_ret {A} (a : A) : exits_nonzero (Ret a).
Proof. by apply uniform_ret. Qed.
Lemma nz_undef {A} : exits_nonzero (@Undef _ _ A).
Proof. by split. Qed.
Lemma nz_exit {A} z : exit_status z ≠ 0 → exits_nonzero (@Exit _ _ A z).
Proof. intros H. by apply uniform_exit. Qed.
Lemma nz_vis {A} c (k : ret c → nprog A) : (∀ r, exits_nonzero (k r)) → exits_nonzero (Vis c k).
Proof. intros H. apply uniform_vis. intros r. split; [done|apply H]. Qed.
Lemma nz_bind {A B} (p : nprog A) (f : A → nprog B) :
  exits_nonzero p → (∀ a, exits_nonzero (f a)) → exits_nonzero (p ≫= f).
Proof.
  intros Hp Hf. apply uniform_bind. eapply uniform_mono; [done| |exact Hp].
  intros [a|z|]; [intros _; apply Hf|done|done].
Qed.
Lemma nz_perform c : exits_nonzero (perform c).
Proof. apply nz_vis. intros. apply nz_ret. Qed.
Lemma nz_deref {A} (x : option A) : exits_nonzero (deref x).
Proof. destruct x; [apply nz_ret|apply nz_undef]. Qed.
Lemma nz_arg argv i : exits_nonzero (arg argv i).
Proof. apply nz_deref. Qed.
Lemma nz_arg_str argv i : exits_nonzero (arg_str argv i).
Proof. apply nz_bind; [apply nz_arg|intros; apply nz_deref]. Qed.
Lemma nz_help : exits_nonzero s_help.
Proof. eapply uniform_mono; [| |apply s_help_shape]; [done|]. by intros o [->| ->]. Qed.

(** One step of the walk over a program that [exits_nonzero] follows. *)
Ltac nz_step :=
  lazymatch goal with
  | |- exits_nonzero (Ret _) => apply nz_ret
  | |- exits_nonzero (mret _) => apply nz_ret
  | |- exits_nonzero Undef => apply nz_undef
  | |- exits_nonzero (Exit _) => apply nz_exit; done
  | |- exits_nonzero (print _) => apply nz_perform
  | |- exits_nonzero (delete _) => apply nz_perform
  | |- exits_nonzero (perform _) => apply nz_perform
  | |- exits_nonzero (deref _) => apply nz_deref
  | |- exits_nonzero (arg _ _) => apply nz_arg
  | |- exits_nonzero (arg_str _ _) => apply nz_arg_str
  | |- exits_nonzero s_help => apply nz_help
  | |- exits_nonzero (fail_with _ _) => unfold fail_with
  | |- exits_nonzero (fail_help _ _) => unfold fail_help
  | |- exits_nonzero (mbind _ _) => apply nz_bind; [|intros ?]
  | |- exits_nonzero (if ?b then _ else _) => destruct b
  | |- exits_nonzero (match ?x with _ => _ end) => destruct x
  | |- exits_nonzero (let _ := _ in _) => cbv zeta
  end.
Ltac nz := repeat nz_step.

Lemma nz_seed_loop fuel argv missing i seed :
  exits_nonzero missing → exits_nonzero (seed_loop fuel argv missing i seed).
Proof.
  intros Hm. revert i seed. induction fuel as [|fuel IH]; intros i seed; simpl; nz; eauto.
Qed.

Lemma nz_types_loop fuel argv i ts : exits_nonzero (types_loop fuel argv i ts).
Proof. revert i ts. induction fuel as [|fuel IH]; intros i ts; simpl; nz; eauto. Qed.

Lemma nz_handler h g argv : exits_nonzero (run_handler h g argv).
Proof.
  destruct h; simpl;
    unfold s_wallet_create, s_wallet_create_from, s_wallet_create_wp, s_wallet_pkey_show, s_wallet_pkey_show_full,
      s_cert_create, s_cert_dump, s_cert_create_pkey, s_cert_create_cert_pkey, s_cert_rename, s_cert_add_metadata,
      s_cert_sign, s_cert_pkey_show, s_cert_pkey_show_full, s_cert_get_addr, s_cert_copy, copy_finish, copy_priv,
      cert_generate_and_save, cert_pkey_hash, open_wallet_pkey, check_wallet_absent, create_single, report_wallet,
      param_ul, parse_types, parse_seed; nz;
    first [apply nz_types_loop|apply nz_seed_loop; nz].
Qed.

Lemma nz_init b sys : exits_nonzero (s_init b sys).
Proof. unfold s_init. nz. Qed.

Lemma nz_sub_loop subs argv i : exits_nonzero (sub_loop subs argv i).
Proof. revert i. induction subs as [|w subs IH]; intros i; simpl; nz; eauto. Qed.

Lemma nz_opts_loop ch opts argv start e :
  (∀ h, exits_nonzero (ch h)) → exits_nonzero (opts_loop ch opts argv start e).
Proof.
  intros Hch. revert e. induction opts as [|o opts IH]; intros e; simpl; nz; eauto. apply nz_sub_loop.
Qed.

Lemma nz_main b argv : exits_nonzero (main b argv).
Proof.
  unfold main, has_B, default_sys_dir, tool_main_run. nz;
    first [apply nz_init|apply nz_opts_loop; intros; apply nz_handler].
Qed.

(** ** Memory safety of the handlers *)

(** The SDK's answers the tool uses without a check are not NULL. *)
Definition wf_answer (e : nevent) : bool :=
  match e with
  | Ev (dap_cert_add_file _ _) (Some c) => bool_decide (is_Some (cert_enc_key c))
  | Ev (dap_cert_new _) r => bool_decide (is_Some r)
  | Ev (dap_enc_key_new _) r => bool_decide (is_Some r)
  | Ev (dap_cert_dump _) r => bool_decide (is_Some r)
  | Ev (dap_cert_get_pkey_str _ _) r => bool_decide (is_Some r)
  | Ev (dap_chain_wallet_get_pkey_str _ _) r => bool_decide (is_Some r)
  | _ => true
  end.

(** The arguments a handler relies on without checking them. *)
Definition args_ok (h : tool_handler) argv : bool :=
  match h with
  | H_wallet_create | H_wallet_create_wp => (length argv <=? 6 + MAX_ENC_KEYS_IN_MULTYSIGN)%nat
  | H_cert_add_metadata =>
      match argv !! 4%nat with
      | Some spec =>
          match dap_strsplit spec ":" 4 with
          | [_; ty; len; v] => match atoi ty with Some t => meta_fits t len v | None => false end
          | _ => false
          end
      | None => true
      end
  | _ => true
  end.

Lemma safe_help {L : DapLaws D} : safe wf_answer s_help.
Proof. eapply all_mono; [|apply s_help_quiet]. by intros tr o [_ ->]. Qed.
Lemma safe_seed argv from missing : safe wf_answer missing → safe wf_answer (parse_seed argv from missing).
Proof. intros. rewrite parse_seed_ref. by destruct (last_seed _ _); [apply safe_ret|]. Qed.
Lemma safe_wallet_create {L : DapLaws D} g argv :
  (length argv ≤ 6 + MAX_ENC_KEYS_IN_MULTYSIGN)%nat → safe wf_answer (s_wallet_create g argv) ∧ safe wf_answer (s_wallet_create_wp g argv).
Proof.
  intros Hl. split; apply all_exec; intros tr o He _.
  - apply (obeys_defined (create_coded g argv) tr); [by apply create_coded_safe|by apply create_exec].
  - apply (obeys_defined (create_wp_coded g argv) tr); [by apply create_wp_coded_safe|by apply create_wp_exec].
Qed.

(** Facts about the number of arguments, from the tests passed. *)
Ltac argc_facts :=
  repeat match goal with
         | H : argc_lt _ _ = false |- _ => apply bool_decide_eq_false in H
         | H : bool_decide _ = true |- _ => apply bool_decide_eq_true in H
         | H : bool_decide _ = false |- _ => apply bool_decide_eq_false in H
         | H : negb _ = false |- _ => apply negb_false_iff in H
         | H : negb _ && negb _ = false |- _ =>
             rewrite <-negb_orb in H; apply negb_false_iff, orb_prop in H as [H|H]
         end.

Ltac safe_step :=
  lazymatch goal with
  | |- safe _ (Ret _) => apply safe_ret
  | |- safe _ (mret _) => apply safe_ret
  | |- safe _ (Exit _) => apply safe_exit
  | |- safe _ s_help => apply safe_help
  | |- safe _ (print _ ;; _) => apply safe_call; intros ? ?
  | |- safe _ (delete _ ;; _) => apply safe_call; intros ? ?
  | |- safe _ (perform _ ≫= _) => apply safe_call; intros ? ?
  | |- safe _ (perform _) => apply safe_call_last
  | |- safe _ (print _) => apply safe_call_last
  | |- safe _ (delete _) => apply safe_call_last
  | |- safe _ (arg_str _ _ ≫= _) => apply safe_arg_str; [argc_facts; simpl; lia|intros ? ?]
  | |- safe _ (arg _ _ ≫= _) => apply safe_arg; [argc_facts; simpl; lia|intros ?]
  | |- safe _ (deref _ ≫= _) => apply safe_deref; [|intros ? ?]
  | |- safe _ (parse_seed _ _ _) => apply safe_seed
  | |- safe _ (fail_with _ _) => unfold fail_with
  | |- safe _ (fail_help _ _) => unfold fail_help
  | |- safe _ (mbind _ _) => apply safe_bind; [|intros ?]
  | |- safe _ (if ?b then _ else _) => destruct b eqn:?
  | |- safe _ (match ?x with _ => _ end) => destruct x eqn:?
  | |- safe _ (let _ := _ in _) => cbv zeta
  end.
Ltac safe_steps := repeat safe_step.

Lemma safe_add_metadata g argv :
  args_ok H_cert_add_metadata argv = true → safe wf_answer (s_cert_add_metadata g argv).
Proof.
  unfold s_cert_add_metadata. intros Hok. simpl in Hok.
  destruct (bool_decide _) eqn:Hlen; [|unfold fail_with; safe_steps].
  apply bool_decide_eq_true in Hlen. safe_step. apply safe_call. intros [c|] _; [|unfold fail_with; safe_steps].
  apply safe_arg_str; [lia|]. intros spec Hspec. rewrite Hspec in Hok.
  destruct (dap_strsplit spec ":" 4) as [|p0 [|p1 [|p2 [|p3 []]]]]; try done.
  destruct (atoi p1) as [t|] eqn:Hty; [|done].
  apply safe_arg_str; [simpl; lia|]. intros ? [= <-]. rewrite Hty. change (deref (Some t)) with (mret (M := nprog) t).
  cbn [mbind prog_bind prog_bind_ mret prog_ret]. unfold meta_fits, meta_ref in Hok. unfold param_ul.
  destruct (_ || _);
    rewrite (arg_lookup [p0; p1; p2; p3] 0 p0 eq_refl), (arg_str_lookup [p0; p1; p2; p3] 2 p2 eq_refl),
      ?(arg_lookup [p0; p1; p2; p3] 3 p3 eq_refl), ?(arg_str_lookup [p0; p1; p2; p3] 3 p3 eq_refl);
    cbn [mbind prog_bind prog_bind_ mret prog_ret]; rewrite Hok; safe_steps.
Qed.

Lemma wallet_path_some g name : is_Some (wallet_path g name).
Proof. unfold wallet_path. rewrite Nat.add_comm. eauto. Qed.

Lemma wf_is_Some c r : wf_answer (Ev c r) = true →
  match c return ret c → Prop with
  | dap_cert_add_file _ _ => λ r, match r with Some c => is_Some (cert_enc_key c) | None => True end
  | dap_cert_new _ => is_Some
  | dap_enc_key_new _ => is_Some
  | dap_cert_dump _ => is_Some
  | dap_cert_get_pkey_str _ _ => is_Some
  | dap_chain_wallet_get_pkey_str _ _ => is_Some
  | _ => λ _, True
  end r.
Proof.
  destruct c; simpl; try done; try (intros H; by apply bool_decide_eq_true in H).
  destruct r; [|done]. intros H. by apply bool_decide_eq_true in H.
Qed.

Lemma safe_handler {L : DapLaws D} h g argv : args_ok h argv = true → safe wf_answer (run_handler h g argv).
Proof.
  intros Hok. destruct h; simpl in Hok |- *;
  try (by apply Nat.leb_le in Hok; apply (safe_wallet_create g argv));
  try (by apply safe_add_metadata);
    unfold s_wallet_create_from, s_wallet_pkey_show, s_wallet_pkey_show_full,
      s_cert_create, s_cert_dump, s_cert_create_pkey, s_cert_create_cert_pkey, s_cert_rename,
      s_cert_sign, s_cert_pkey_show, s_cert_pkey_show_full, s_cert_get_addr, s_cert_copy, copy_finish, copy_priv,
      cert_generate_and_save, cert_pkey_hash, open_wallet_pkey.
  all: safe_steps.
  all: rewrite ?cert_path_eq, ?dap_strdup_printf_eq; simplify_eq; eauto using wallet_path_some.
  all: match goal with H : wf_answer _ = true |- _ => by apply wf_is_Some in H end.
Qed.
(** No entry is shadowed by an earlier one. *)
Lemma s_opts_unshadowed rest :
  Forall (λ o, dispatch_ref (cmd o :: subcmd o ++ rest) = Found (handler_of o)) s_opts.
Proof. repeat constructor. Qed.

(** ** [main] as a function of the reference search *)

Definition tool_main_spec (b : build) (sys : cstr) argv : nprog Z :=
  match argv with
  | _ :: (c :: _) as args =>
      r ← s_init b sys;
      match r with
      | (0, Some g) =>
          code ← match dispatch_ref args with
                 | Found h => run_handler h g argv
                 | NoSubcommand =>
                     print ("No subcommand was found for command " +:+ quoted c +:+ "." +:+ NL) ;; s_help ;; mret (-1)
                 | NoCommand => print ("Command " +:+ quoted c +:+ " not found." +:+ NL) ;; s_help ;; mret (-2)
                 end;
          perform (dap_config_close (g_config g)) ;; delete B_sys_dir_path ;; mret code
      | _ => print "Can't init modules" ;; delete B_sys_dir_path ;; mret (-3)
      end
  | _ => s_help ;; delete B_sys_dir_path ;; mret (-2)
  end.

(** The end of [main]. *)
Definition tool_close g (code : Z) : nprog Z :=
  perform (dap_config_close (g_config g)) ;; delete B_sys_dir_path ;; mret code.

Lemma main_run_spec b sys argv :
  c_strings argv → obs_eq (tool_main_run b sys argv 1) (tool_main_spec b sys argv).
Proof.
  intros Ha. unfold tool_main_run, tool_main_spec, argc_lt.
  destruct argv as [|a0 [|c args]]; [reflexivity..|].
  rewrite bool_decide_false by (simpl; lia). apply bind_proper; [|reflexivity].
  intros [[] [g|]]; try reflexivity.
  rewrite dispatch_correct by (done || simpl; lia). change (drop 1 (a0 :: c :: args)) with (c :: args).
  rewrite (arg_str_lookup (a0 :: c :: args) 1 c eq_refl).
  destruct (dispatch_ref (c :: args)); simpl.
  - rewrite bind_assoc. reflexivity.
  - apply obs_eq_vis. intros []. symmetry. exact (bind_assoc s_help (λ _, mret (-1)) (tool_close g)).
  - apply obs_eq_vis. intros []. symmetry. exact (bind_assoc s_help (λ _, mret (-2)) (tool_close g)).
Qed.

(** ** The search after [-B]

    [argv] was advanced by 2 and [l_argv_start] increased by 2 as well. *)
Lemma opts_loop_B ch dir args :
  c_strings (dir :: args) →
  opts_loop ch s_opts (dir :: args) 3 (-2) =
    match args with
    | [] | [_] => Ret (-2, -1)
    | [_; _] => Undef
    | _ :: _ :: args' => dispatch_prog ch (dispatch_ref args')
    end.
Proof.
  intros Ha. destruct args as [|c [|sc [|x args]]]; [done..|].
  by rewrite dispatch_correct by (done || simpl; lia).
Qed.

Definition no_exit {A} (p : nprog A) : Prop :=
  uniform (λ _, True) (λ o, match o with Exited _ => False | _ => True end) p.

Lemma no_exit_init b sys : no_exit (s_init b sys).
Proof.
  unfold no_exit, uniform, s_init, deref, cut_last_slash. psteps; repeat constructor.
Qed.

Lemma run_B_two_words b sys dir c sc :
  all (λ _ o, o = Undefined ∨ o = Returned (-1) ∨ o = Returned (-3)) (tool_main_run b sys [dir; c; sc] 3).
Proof.
  apply (all_bind _ (s_init b sys)). eapply all_mono; [|apply (no_exit_init b sys)].
  intros tr [[[] [g|]]|z|] [_ Ho]; simpl; auto; done.
Qed.

Lemma B_two_words {L : DapLaws D} b a0 dir c sc :
  all (λ _ o, o = Undefined ∨ o = Returned (-1) ∨ o = Returned (-3)) (main b [a0; "-B"; dir; c; sc]).
Proof.
  intros []. unfold has_B. simpl. rewrite (proj2 (dap_strcmp_eq "-B" "-B") eq_refl), dap_strdup_eq.
  intros ok. destruct ok; [exact (run_B_two_words b (Some dir) dir c sc)|intros [] []; by right; left].
Qed.
End Tool.

(** * Properties *)

(** C12 (tool_dispatch_correct): Without [-B], [main] of the tool behaves, in
    every environment, as the specification: too few words print the usage; after
    a successful initialisation the first table entry all of whose words the
    command line begins with is run on the whole command line and its result
    returned; an unknown command returns -2 and a known command with an unknown
    subcommand -1, each after a message and the usage; the configuration is
    closed in every case. *)
Theorem tool_dispatch_correct {D : Dap} b sys argv :
  c_strings argv → obs_eq (tool_main_run b sys argv 1) (tool_main_spec b sys argv).
Proof. apply main_run_spec. Qed.

Lemma tool_dispatch_correct_witness :
  let argv := ["tool"; "cert"; "rename"; "a"; "b"] in
  c_strings argv ∧
  run_outcome default_ans (tool_main_run (D := demo_dap) linux_build (Some "/opt/n") argv 1) = Returned 0 ∧
  obs_eq (tool_main_run (D := demo_dap) linux_build (Some "/opt/n") argv 1)
    (tool_main_spec (D := demo_dap) linux_build (Some "/opt/n") argv).
Proof.
  assert (c_strings ["tool"; "cert"; "rename"; "a"; "b"]) as Hc by (repeat constructor).
  split_and!; [exact Hc|vm_compute; reflexivity|].
  apply (tool_dispatch_correct (D := demo_dap)), Hc.
Defined.

(** No entry of the command table is shadowed by an
    earlier one: a command line that begins with the words of an entry runs the
    handler of that entry, whatever follows. *)
Theorem s_opts_complete ch a0 o rest :
  o ∈ s_opts → c_strings (a0 :: rest) →
  opts_loop ch s_opts (a0 :: cmd o :: subcmd o ++ rest) 1 (-2) = (r ← ch (handler_of o); mret (0, r)).
Proof.
  intros Ho Hc. inversion Hc; subst.
  assert (nul_free (cmd o) = true ∧ c_strings (subcmd o)) as [Hn Hs] by exact (proj1 (list.Forall_forall _ _) s_opts_ok o Ho).
  rewrite dispatch_correct; [|constructor; [done|constructor; [done|by apply Forall_app]]|simpl; lia].
  change (drop 1 ?l) with (tail l). simpl tail.
  cut (dispatch_ref (cmd o :: subcmd o ++ rest) = Found (handler_of o)); [by intros ->|].
  exact (proj1 (list.Forall_forall _ _) (s_opts_unshadowed rest) o Ho).
Qed.

Lemma s_opts_complete_witness :
  opts_loop (λ _, mret 0) s_opts ["tool"; "cert"; "addr"; "show"; "x"] 1 (-2) = (r ← mret 0; mret (0, r)).
Proof.
  refine (s_opts_complete (λ _, mret 0) "tool"
           {| cmd := "cert"; subcmd := ["addr"; "show"]; handler_of := H_cert_get_addr |} ["x"] _ _).
  - do 14 right. left.
  - repeat constructor.
Defined.

(** C36 (tool_exit_status_nonzero): Whenever the tool ends by a call of [exit],
    the status its parent sees (the low byte of the code) is not 0, although the
    codes used go down to -7023: no error is reported as success. *)
Theorem tool_exit_status_nonzero {D : Dap} b argv tr z :
  exec (main b argv) tr (Exited z) → exit_status z ≠ 0.
Proof. intros He. exact (proj2 (proj1 (all_exec _ _) (nz_main b argv) _ _ He)). Qed.

Lemma tool_exit_status_nonzero_witness :
  let p := main (D := demo_dap) linux_build ["tool"; "cert"; "create_pkey"; "x"] in
  run_outcome default_ans p = Exited (-7023) ∧ exit_status (-7023) ≠ 0.
Proof.
  assert (run_outcome default_ans (main (D := demo_dap) linux_build ["tool"; "cert"; "create_pkey"; "x"])
          = Exited (-7023)) as Hr by (vm_compute; reflexivity).
  split; [exact Hr|].
  eapply (tool_exit_status_nonzero (D := demo_dap)). rewrite <-Hr. apply exec_run_pure.
Defined.

(** C25 (tool_handlers_safe): No handler of the table reads or writes outside its
    arguments or dereferences NULL, in any environment whose constructors do not
    return NULL where the code does not test for it, provided the arguments meet
    [args_ok]: at most [6 + MAX_ENC_KEYS_IN_MULTYSIGN] words for wallet
    creation, and for [cert add_metadata] a specification of four fields whose
    type is a readable number and whose length is not greater than the size of
    the value ([cert_add_metadata_overread] shows what happens otherwise).
    Every other handler is safe for all arguments.  What the SDK does inside its
    own calls is not part of the statement. *)
Theorem tool_handlers_safe {D : Dap} {L : DapLaws D} h g argv tr o :
  args_ok h argv = true → exec (run_handler h g argv) tr o →
  Forall (λ e, wf_answer e = true) tr → o ≠ Undefined.
Proof. intros Hok He. exact (proj1 (all_exec _ _) (safe_handler h g argv Hok) tr o He). Qed.

Lemma tool_handlers_safe_witness :
  run_outcome default_ans
    (run_handler (D := demo_dap) H_cert_add_metadata demo_globals ["tool"; "cert"; "add_metadata"; "c"; "k:0:2:v"]) ≠ Undefined.
Proof.
  eapply (tool_handlers_safe (D := demo_dap) H_cert_add_metadata); [|apply exec_run_pure|];
    vm_compute; [reflexivity|repeat constructor].
Defined.

(** After [-B dir] no command of two words can be run:
    [main] skips the option by advancing [argv] and adds 2 to the index the
    search starts at as well, so that it reads [argv[argc]], a null pointer,
    unless the directory or the initialisation already failed. *)
Theorem tool_B_two_words {D : Dap} {L : DapLaws D} b a0 dir c sc tr o :
  exec (main b [a0; "-B"; dir; c; sc]) tr o → o = Undefined ∨ o = Returned (-1) ∨ o = Returned (-3).
Proof. apply (proj1 (all_exec _ _) (B_two_words b a0 dir c sc)). Qed.

Lemma tool_B_two_words_witness :
  let p := main (D := demo_dap) linux_build ["tool"; "-B"; "/opt/n"; "cert"; "sign"] in
  run_outcome default_ans p = Undefined ∧
  (run_outcome default_ans p = Undefined ∨ run_outcome default_ans p = Returned (-1)
   ∨ run_outcome default_ans p = Returned (-3)).
Proof.
  split; [vm_compute; reflexivity|].
  eapply (tool_B_two_words (D := demo_dap)), exec_run_pure.
Defined.

(** After [-B dir] the search matches the table
    against the words from the third one after the directory on, so the command
    and the subcommand the user gave are skipped. *)
Theorem tool_B_skips_words ch dir w1 w2 w3 args :
  c_strings (dir :: w1 :: w2 :: w3 :: args) →
  opts_loop ch s_opts (dir :: w1 :: w2 :: w3 :: args) 3 (-2) = dispatch_prog ch (dispatch_ref (w3 :: args)).
Proof. apply opts_loop_B. Qed.

Lemma tool_B_skips_words_witness :
  opts_loop (λ _, mret 0) s_opts ["/opt/n"; "cert"; "dump"; "c1"] 3 (-2) = mret (-2, -1).
Proof. apply (tool_B_skips_words (λ _, mret 0) "/opt/n" "cert" "dump" "c1" []). repeat constructor. Defined.
