(* ===== verification/PidLock.v ===== *)
(** * The single-instance guard of the node

    [s_proc_running_check] of [sources/cellframe-node.c] keeps a second node
    from starting: it reads the pid file, tests for a lock on it, rewrites it and
    locks it.  This file models the function, the part of POSIX it relies on
    (one file, buffered streams, [lockf] regions that start at the current
    offset) and processes that run the function interleaved. *)
From stdpp Require Import gmap.
From S2P Require Import Prelude Prog CLib Sdk.

Set Default Proof Using "Type".
Open Scope Z_scope.

Definition sizeof_pid_t : Z := 4.
Definition ERROR_ALREADY_EXISTS : Z := 183.

(** From [fprintf] on: the pid is written and locked. *)
Definition write_pid (f : file) : nprog Z :=
  pid ← perform getpid;
  perform (fprintf_d f pid) ;;
  perform (fflush f) ;;
  perform (lockf f F_TLOCK sizeof_pid_t).

(** [fscanf( l_pidfile, "%d", &f_pid ) && lockf(fileno(l_pidfile), F_TEST, 0) == -1],
    with the value read. *)
Definition held_by_other (f : file) : nprog (bool * Z) :=
  r ← perform (fscanf_d f);
  if negb (r.1 =z? 0) then
    t ← perform (lockf f F_TEST 0); mret (t =z? -1, r.2)
  else mret (false, r.2).

Definition s_proc_running_check (b : build) (a_path : cstr) : nprog Z :=
  if DAP_OS_WINDOWS b then
    name ← deref a_path;
    perform (CreateEvent name) ;;
    err ← perform GetLastError;
    if err =z? ERROR_ALREADY_EXISTS then
      perform (log_it L_ERROR "dap_server is already running") ;; mret 1
    else mret 0
  else
    l_pidfile ← perform (fopen a_path "r");
    opened ← match l_pidfile with
             | Some f =>
                 t ← held_by_other f;
                 if t.1 : bool then
                   e ← perform errno;
                   s ← perform (dap_strerror e);
                   perform (log_it L_ERROR ("Error " +:+ pretty e +:+ ": " +:+ quoted s
                     +:+ ", dap_server is already running with PID " +:+ pretty t.2)) ;;
                   mret (inl 1)
                 else f' ← perform (freopen a_path "w" f); mret (inr f')
             | None => f' ← perform (fopen a_path "w"); mret (inr f')
             end;
    match opened with
    | inl z => mret z
    | inr None =>
        e ← perform errno;
        s ← perform (dap_strerror e);
        perform (log_it L_ERROR ("Can't open file " +:+ default "(null)" a_path
          +:+ " for writing, error " +:+ pretty e +:+ ": " +:+ s)) ;;
        mret 2
    | inr (Some f) => write_pid f
    end.

(** ** The operating system

    The pid file is the only file these processes open, each through one
    stream. *)

(** A stream: the offset of its descriptor and the output not yet flushed. *)
Record fd := { off : nat; pending : string }.

(** A lock: the process that holds it and the bytes [fst ..< snd]. *)
Abbreviation flock := (Z * (nat * nat))%type.

Record world := {
  present : bool;
  writable : bool;
  content : string;
  locks : list flock;
  fds : gmap Z fd
}.

(** [s] written at offset [n] over [old]; a gap is filled with NUL. *)
Definition write_at (n : nat) (s old : string) : string :=
  String.substring 0 n old
  +:+ String.string_of_list_ascii (repeat "000"%char (n - String.length old))
  +:+ s
  +:+ String.substring (n + String.length s) (String.length old) old.

(** [l] belongs to another process than [me] and meets the bytes from [lo] to
    [hi] ([None]: without end). *)
Definition clash (me : Z) (lo : nat) (hi : option nat) (l : flock) : bool :=
  negb (l.1 =z? me) && match hi with Some h => (l.2.1 <? h)%nat | None => true end && (lo <? l.2.2)%nat.

Definition region_end (lo : nat) (size : Z) : option nat :=
  if size =z? 0 then None else Some (lo + Z.to_nat size)%nat.

(** The block size of stdio: a read advances the descriptor by at most this. *)
Definition BUFSIZE : nat := 4096.

(** What closing the file does to the locks of [me]. *)
Definition drop_locks (me : Z) (ls : list flock) : list flock := List.filter (λ l, negb (l.1 =z? me)) ls.

Definition set_fd (w : world) (me : Z) (d : option fd) : world := {|
  present := present w; writable := writable w; content := content w; locks := locks w;
  fds := partial_alter (λ _, d) me (fds w) |}.

(** [fopen] in mode "w". *)
Definition open_w (w : world) (me : Z) : option file * world :=
  if writable w then
    (Some 3%nat, {| present := true; writable := true; content := ""; locks := locks w;
                    fds := <[me := {| off := 0; pending := "" |}]> (fds w) |})
  else (None, w).

(** Closing the descriptor of [me]. *)
Definition close_fd (w : world) (me : Z) : world := {|
  present := present w; writable := writable w; content := content w;
  locks := drop_locks me (locks w); fds := base.delete me (fds w) |}.

Definition flush (w : world) (me : Z) : world :=
  match fds w !! me with
  | Some d => {|
      present := present w; writable := writable w;
      content := write_at (off d) (pending d) (content w); locks := locks w;
      fds := <[me := {| off := off d + String.length (pending d); pending := "" |}]> (fds w) |}
  | None => w
  end.

Definition do_lockf (w : world) (me : Z) (op : lockf_op) (size : Z) : Z * world :=
  match fds w !! me with
  | None => (-1, w)
  | Some d =>
      if existsb (clash me (off d) (region_end (off d) size)) (locks w) then (-1, w)
      else
        (0, match op with
            | F_TEST => w
            | F_TLOCK => {|
                present := present w; writable := writable w; content := content w;
                locks := (me, (off d, (off d + Z.to_nat size)%nat)) :: locks w; fds := fds w |}
            end)
  end.

(** The system calls of process [me]. *)
Definition os (me : Z) : handler ret world := λ c w,
  match c return ret c * world with
  | getpid => (me, w)
  | fopen _ mode =>
      if mode =s? "r" then
        if present w then (Some 3%nat, set_fd w me (Some {| off := 0; pending := "" |})) else (None, w)
      else open_w w me
  | freopen _ _ _ => open_w (close_fd w me) me
  | fscanf_d _ =>
      let '(n, v) := scanf_d (content w) in
      ((n, default 0 v),
       set_fd w me ((λ d, {| off := Nat.min BUFSIZE (String.length (content w)); pending := pending d |}) <$> fds w !! me))
  | fprintf_d _ z =>
      (tt, set_fd w me ((λ d, {| off := off d; pending := pending d +:+ pretty z |}) <$> fds w !! me))
  | fflush _ => (tt, flush w me)
  | lockf _ op size => do_lockf w me op size
  | c => (default_ans c, w)
  end.

(** ** Interleaved processes

    Processes run programs of a set [progs].  What they do to the pid file is the
    system's; every other call leaves the file alone and gets any answer the
    environment [env] allows. *)
Definition elsewhere (c : call) : bool :=
  match c with
  | getpid | fopen _ _ | freopen _ _ _ | fclose _ | fwrite_pkey _ _ _ | fscanf_d _ | fprintf_d _ _
  | fflush _ | lockf _ _ _ => false
  | _ => true
  end.

Record sys := { osw : world; procs : gmap Z (nprog Z) }.

Inductive step_of (progs : nprog Z → Prop) (env : ∀ c, ret c → Prop) : sys → sys → Prop :=
  | step_start s pid p :
      procs s !! pid = None → progs p →
      step_of progs env s {| osw := osw s; procs := <[pid := p]> (procs s) |}
  | step_file s pid c k r w' :
      procs s !! pid = Some (Vis c k) → elsewhere c = false → os pid c (osw s) = (r, w') →
      step_of progs env s {| osw := w'; procs := <[pid := k r]> (procs s) |}
  | step_other s pid c k r :
      procs s !! pid = Some (Vis c k) → elsewhere c = true → env c r →
      step_of progs env s {| osw := osw s; procs := <[pid := k r]> (procs s) |}
  | step_stop s pid p :
      procs s !! pid = Some p →
      step_of progs env s {| osw := close_fd (osw s) pid; procs := base.delete pid (procs s) |}.

(** Processes that run the check. *)
Definition step (b : build) (path : cstr) : sys → sys → Prop :=
  step_of (eq (s_proc_running_check b path)) (λ _ _, True).

(** No process is running and nothing is locked. *)
Definition idle (s : sys) : Prop := procs s = ∅ ∧ locks (osw s) = [] ∧ fds (osw s) = ∅.

(** The check of [pid] passed and the process has not ended. *)
Definition passed (s : sys) (pid : Z) : Prop := procs s !! pid = Some (Ret 0).

(** Executable schedules: [Go pid] lets [pid] do its next call. *)
Inductive act := Start (pid : Z) | Go (pid : Z) | Stop (pid : Z).

Definition act_step (b : build) (path : cstr) (a : act) (s : sys) : option sys :=
  match a with
  | Start pid =>
      match procs s !! pid with
      | None => Some {| osw := osw s; procs := <[pid := s_proc_running_check b path]> (procs s) |}
      | Some _ => None
      end
  | Go pid =>
      match procs s !! pid with
      | Some (Vis c k) =>
          let '(r, w') := os pid c (osw s) in Some {| osw := w'; procs := <[pid := k r]> (procs s) |}
      | _ => None
      end
  | Stop pid =>
      match procs s !! pid with
      | Some _ => Some {| osw := close_fd (osw s) pid; procs := base.delete pid (procs s) |}
      | None => None
      end
  end.

Fixpoint schedule (b : build) (path : cstr) (acts : list act) (s : sys) : option sys :=
  match acts with
  | [] => Some s
  | a :: acts' => s' ← act_step b path a s; schedule b path acts' s'
  end.

Lemma os_elsewhere me c w : elsewhere c = true → os me c w = (default_ans c, w).
Proof. by destruct c. Qed.

Lemma act_step_sound b path a s s' : act_step b path a s = Some s' → step b path s s'.
Proof.
  destruct a as [pid|pid|pid]; simpl; destruct (procs s !! pid) as [[]|] eqn:Hp; intros; simplify_eq;
    try (by eapply step_stop); try (by eapply step_start).
  destruct (os pid c (osw s)) as [r w'] eqn:Ho. simplify_eq. destruct (elsewhere c) eqn:He.
  - rewrite os_elsewhere in Ho by done. simplify_eq. by eapply step_other.
  - by eapply step_file.
Qed.

Lemma schedule_sound b path acts s s' : schedule b path acts s = Some s' → rtc (step b path) s s'.
Proof.
  revert s. induction acts as [|a acts IH]; simpl; intros s Hs; [by simplify_eq|].
  destruct (act_step b path a s) as [s1|] eqn:Ha; [|done]. simpl in Hs.
  eapply rtc_l; [by eapply act_step_sound|]. by apply IH.
Qed.

(** ** What a process knows of the system

    The descriptor and the locks of one process; no other process changes
    them, so its program can be verified against them alone. *)
Record local := { l_fd : option fd; l_locks : list (nat * nat) }.

Definition project (me : Z) (w : world) : local := {|
  l_fd := fds w !! me;
  l_locks := snd <$> List.filter (λ l, l.1 =z? me) (locks w) |}.

(** The effect of a call on the local state, whatever the others did. *)
Definition local_step (me : Z) (l : local) (c : call) : ret c → local → Prop :=
  match c return ret c → local → Prop with
  | getpid => λ r l', r = me ∧ l' = l
  | fopen _ _ => λ r l',
      l_locks l' = l_locks l ∧ (is_Some r → l_fd l' = Some {| off := 0; pending := "" |})
  | freopen _ _ _ => λ r l',
      l_locks l' = [] ∧ (is_Some r → l_fd l' = Some {| off := 0; pending := "" |})
  | fscanf_d _ => λ _ l', l_locks l' = l_locks l
  | fprintf_d _ z => λ _ l',
      l' = {| l_fd := (λ d, {| off := off d; pending := pending d +:+ pretty z |}) <$> l_fd l; l_locks := l_locks l |}
  | fflush _ => λ _ l',
      l' = {| l_fd := (λ d, {| off := off d + String.length (pending d); pending := "" |}) <$> l_fd l; l_locks := l_locks l |}
  | lockf _ F_TEST _ => λ _ l', l' = l
  | lockf _ F_TLOCK size => λ r l',
      r = 0 → ∃ d, l_fd l = Some d ∧ l_locks l' = (off d, (off d + Z.to_nat size)%nat) :: l_locks l
  | _ => λ _ l', l' = l
  end.

(** Every run of [p] from [l] ends in a state that satisfies [Q]. *)
Fixpoint wp {A} (me : Z) (p : nprog A) (Q : A → local → Prop) (l : local) : Prop :=
  match p with
  | Ret a => Q a l
  | Exit _ | Undef => True
  | Vis c k => ∀ r l', local_step me l c r l' → wp me (k r) Q l'
  end.

Lemma filter_drop_same me ls : List.filter (λ l : flock, l.1 =z? me) (drop_locks me ls) = [].
Proof.
  induction ls as [|l ls IH]; simpl; [done|]. destruct (l.1 =z? me) eqn:He; simpl; [done|]. by rewrite He.
Qed.

Lemma filter_drop_other me other ls :
  other ≠ me → List.filter (λ l : flock, l.1 =z? other) (drop_locks me ls) = List.filter (λ l, l.1 =z? other) ls.
Proof.
  intros Hne. induction ls as [|l ls IH]; simpl; [done|].
  destruct (Z.eqb_spec l.1 me) as [He|He]; simpl; destruct (Z.eqb_spec l.1 other); simpl; rewrite ?IH; congruence.
Qed.

Lemma set_fd_project me w d :
  project me (set_fd w me d) = {| l_fd := d; l_locks := l_locks (project me w) |}.
Proof. unfold project, set_fd. simpl. by rewrite lookup_partial_alter_eq. Qed.

Lemma open_w_project me w r w' :
  open_w w me = (r, w') →
  l_locks (project me w') = l_locks (project me w) ∧
  (is_Some r → l_fd (project me w') = Some {| off := 0; pending := "" |}).
Proof.
  unfold open_w. destruct (writable w); intros; simplify_eq; simpl.
  - by rewrite lookup_insert_eq.
  - split; [done|]. by intros [].
Qed.

Lemma os_local me c w r w' : os me c w = (r, w') → local_step me (project me w) c r (project me w').
Proof.
  destruct c; cbn [os]; intros H; try (by simplify_eq).
  - simpl. destruct (mode =s? "r"); [|by apply open_w_project].
    destruct (present w); simplify_eq; rewrite ?set_fd_project; simpl; split; try done. by rewrite lookup_partial_alter_eq.
  - apply open_w_project in H as [H1 H2]. split; [|done]. rewrite H1. simpl. by rewrite filter_drop_same.
  - destruct (scanf_d (content w)) as [n v]. by simplify_eq.
  - simplify_eq. simpl. by rewrite set_fd_project.
  - simplify_eq. unfold flush, project. simpl.
    destruct (fds w !! me) as [d|] eqn:Hd; simpl; rewrite ?lookup_insert_eq, ?Hd; done.
  - unfold do_lockf in H. destruct op; simpl.
    + destruct (fds w !! me); [destruct (existsb _ _)|]; by simplify_eq.
    + destruct (fds w !! me) as [d|] eqn:Hd; [destruct (existsb _ _)|]; simplify_eq; try done.
      intros _. exists d. split; [done|]. unfold project. simpl. by rewrite Z.eqb_refl.
Qed.

(** A call of [me] does not change what another process knows. *)
Lemma os_frame me other c w r w' : other ≠ me → os me c w = (r, w') → project other w' = project other w.
Proof.
  intros Hne H. destruct c; cbn [os] in H; try (by simplify_eq).
  all: unfold open_w, close_fd, set_fd, flush, do_lockf in H; repeat case_match; simplify_eq; try done;
    unfold project; simpl;
    rewrite ?lookup_insert_ne, ?lookup_partial_alter_ne, ?lookup_delete_ne, ?filter_drop_other by done; try done.
  destruct (Z.eqb_spec me other); [done|]. reflexivity.
Qed.

Lemma close_frame me other w : other ≠ me → project other (close_fd w me) = project other w.
Proof. intros Hne. unfold project. simpl. by rewrite lookup_delete_ne, filter_drop_other by done. Qed.

Lemma close_project me w : project me (close_fd w me) = {| l_fd := None; l_locks := [] |}.
Proof. unfold project. simpl. by rewrite lookup_delete_eq, filter_drop_same. Qed.

(** ** The invariant of the interleaved system *)

(** Where the lock of [pid] starts: behind the digits of its pid. *)
Definition digits (pid : Z) : nat := String.length (pretty pid).

Definition lock_of (pid : Z) : nat * nat := (digits pid, (digits pid + 4)%nat).

(** What a process whose check returned [z] holds. *)
Definition post (pid : Z) (z : Z) (l : local) : Prop := z = 0 → lock_of pid ∈ l_locks l.

Definition fresh : local := {| l_fd := None; l_locks := [] |}.

Lemma wp_write_pid me f l :
  l_fd l = Some {| off := 0; pending := "" |} → wp me (write_pid f) (post me) l.
Proof.
  intros Hfd. simpl. intros pid l1 [-> ->] [] l2 -> [] l3 -> r l4 Hl ->.
  destruct (Hl eq_refl) as (d & Hd & ->). simpl in Hd. rewrite Hfd in Hd. simpl in Hd. simplify_eq.
  simpl. left.
Qed.

(** The check, verified against the local state only. *)
Lemma wp_check b path me : DAP_OS_WINDOWS b = false → wp me (s_proc_running_check b path) (post me) fresh.
Proof.
  intros Hb. unfold s_proc_running_check. rewrite Hb. simpl. intros [f|] l1 [_ _]; simpl.
  - intros r l2 _. destruct (r.1 =z? 0); simpl.
    + intros [f'|] l3 [_ H3]; simpl; [refine (wp_write_pid me f' l3 _); apply H3; by eexists|by repeat intros ?].
    + intros t l3 ->. destruct (t =z? -1); simpl; [by repeat intros ?|].
      intros [f'|] l4 [_ H4]; simpl; [refine (wp_write_pid me f' l4 _); apply H4; by eexists|by repeat intros ?].
  - intros [f'|] l2 [_ H2]; simpl; [refine (wp_write_pid me f' l2 _); apply H2; by eexists|by repeat intros ?].
Qed.

(** Two regions that share no byte. *)
Definition apart (x y : nat * nat) : Prop := (x.2 ≤ y.1 ∨ y.2 ≤ x.1)%nat.

(** [ok pid p l]: [p] may be what is left of process [pid] when it knows [l]. *)
Record sys_inv (ok : Z → nprog Z → local → Prop) (s : sys) : Prop := {
  inv_ok pid p : procs s !! pid = Some p → ok pid p (project pid (osw s));
  inv_fresh pid : procs s !! pid = None → project pid (osw s) = fresh;
  inv_apart l1 l2 : l1 ∈ locks (osw s) → l2 ∈ locks (osw s) → l1.1 ≠ l2.1 → apart l1.2 l2.2
}.

Lemma clash_apart me lo n l :
  clash me lo (region_end lo n) l = false → l.1 ≠ me → apart l.2 (lo, (lo + Z.to_nat n)%nat).
Proof.
  unfold clash, region_end, apart. destruct (Z.eqb_spec l.1 me); [done|].
  destruct (Z.eqb_spec n 0); simpl; [destruct (Nat.ltb_spec lo l.2.2); simpl; intros; try done; lia|].
  destruct (Nat.ltb_spec l.2.1 (lo + Z.to_nat n)), (Nat.ltb_spec lo l.2.2); simpl; intros; try done; lia.
Qed.

Lemma drop_locks_sub me ls l : l ∈ drop_locks me ls → l ∈ ls.
Proof. unfold drop_locks. rewrite !list_elem_of_In, filter_In. tauto. Qed.

#[export] Hint Resolve drop_locks_sub : node.

(** A call leaves the locks, drops some, or adds one that clashes with none. *)
Lemma os_locks me c w r w' :
  os me c w = (r, w') →
  (∀ l, l ∈ locks w' → l ∈ locks w) ∨
  ∃ lo n, locks w' = (me, (lo, (lo + Z.to_nat n)%nat)) :: locks w
          ∧ existsb (clash me lo (region_end lo n)) (locks w) = false.
Proof.
  intros H. destruct c; cbn [os] in H;
    unfold open_w, close_fd, set_fd, flush, do_lockf in H; repeat case_match; simplify_eq/=;
    eauto with node.
Qed.

Lemma apart_sym x y : apart x y → apart y x.
Proof. unfold apart. tauto. Qed.

#[export] Hint Resolve apart_sym : node.

Lemma elsewhere_local me c l r : elsewhere c = true → local_step me l c r l.
Proof. by destruct c. Qed.

Section Invariant.
Context (ok : Z → nprog Z → local → Prop) (progs : nprog Z → Prop) (env : ∀ c, ret c → Prop).
Hypothesis ok_start : ∀ me p, progs p → ok me p fresh.
Hypothesis ok_call : ∀ me c k l r l', ok me (Vis c k) l → local_step me l c r l' → ok me (k r) l'.

Lemma step_inv s s' : step_of progs env s s' → sys_inv ok s → sys_inv ok s'.
Proof using ok_start ok_call.
  intros Hs [Hwp Hfr Hap].
  destruct Hs as [s pid p Hp Hpr|s pid c k r w' Hp He Ho|s pid c k r Hp He _|s pid p Hp]; split; simpl.
  - intros pid' p'. rewrite lookup_insert_Some. intros [[<- <-]|[_ Hp']]; [|auto].
    rewrite (Hfr _ Hp). by apply ok_start.
  - intros pid'. rewrite lookup_insert_None. intros [Hn _]. auto.
  - exact Hap.
  - intros pid' p'. rewrite lookup_insert_Some. intros [[<- <-]|[Hne Hp']].
    + eapply ok_call; [exact (Hwp _ _ Hp)|]. by apply os_local.
    + rewrite (os_frame pid pid' c (osw s) r w') by done. auto.
  - intros pid'. rewrite lookup_insert_None. intros [Hn Hne].
    rewrite (os_frame pid pid' c (osw s) r w') by done. auto.
  - intros l1 l2 H1 H2 Hne. destruct (os_locks _ _ _ _ _ Ho) as [Hsub|(lo & n & Hl & Hc)]; [auto|].
    rewrite Hl in H1, H2. rewrite !elem_of_cons in H1, H2.
    assert (∀ l, l ∈ locks (osw s) → l.1 ≠ pid → apart l.2 (lo, (lo + Z.to_nat n)%nat)) as Hnew.
    { intros l Hin. apply clash_apart. apply not_true_iff_false. intros Ht.
      apply not_true_iff_false in Hc. apply Hc, existsb_exists. exists l. by rewrite <-list_elem_of_In. }
    destruct H1 as [->|H1], H2 as [->|H2]; simpl in *; auto with node. done.
  - intros pid' p'. rewrite lookup_insert_Some. intros [[<- <-]|[Hne Hp']]; [|auto].
    eapply ok_call; [exact (Hwp _ _ Hp)|]. by apply elsewhere_local.
  - intros pid'. rewrite lookup_insert_None. intros [Hn Hne]. auto.
  - exact Hap.
  - intros pid' p'. rewrite lookup_delete_Some. intros [Hne Hp']. rewrite close_frame by done. auto.
  - intros pid'. rewrite lookup_delete_None. intros [<-|Hn]; [apply close_project|].
    destruct (decide (pid' = pid)) as [->|]; [apply close_project|]. rewrite close_frame by done. auto.
  - eauto with node.
Qed.

Lemma idle_inv s : idle s → sys_inv ok s.
Proof.
  intros (Hp & Hl & Hf). split.
  - intros pid p. by rewrite Hp, lookup_empty.
  - intros pid _. unfold project. by rewrite Hl, Hf, lookup_empty.
  - intros l1 l2. rewrite Hl. by intros ?%elem_of_nil.
Qed.

Lemma reachable_inv s s' : idle s → rtc (step_of progs env) s s' → sys_inv ok s'.
Proof using ok_start ok_call.
  intros Hi%idle_inv Hr. induction Hr as [|s1 s2 s3 Hs Hr IH]; [done|]. apply IH. by eapply step_inv.
Qed.

(** Two processes that hold their locks. *)
Lemma locks_apart s p q :
  sys_inv ok s → (p, lock_of p) ∈ locks (osw s) → (q, lock_of q) ∈ locks (osw s) → p ≠ q →
  (digits p + 4 ≤ digits q ∨ digits q + 4 ≤ digits p)%nat.
Proof. intros [_ _ Hap] Hp Hq Hne. exact (Hap _ _ Hp Hq Hne). Qed.
End Invariant.

(** What a process knows to hold is held. *)
Lemma project_lock w pid r : r ∈ l_locks (project pid w) → (pid, r) ∈ locks w.
Proof.
  intros ([p r'] & -> & Hin)%list_elem_of_fmap. rewrite list_elem_of_In, filter_In in Hin.
  destruct Hin as [Hin He]. simpl in He. apply Z.eqb_eq in He as ->. by apply list_elem_of_In.
Qed.

(** ** One process running alone *)

Lemma substring_empty n m : String.substring n m "" = "".
Proof. by destruct n, m. Qed.

Lemma write_at_start s : write_at 0 s "" = s.
Proof. unfold write_at. rewrite !substring_empty. simpl. apply string_app_nil_r. Qed.

Lemma write_pid_run me w f :
  content w = "" → fds w !! me = Some {| off := 0; pending := "" |} → locks w = [] →
  ∃ tr w', run (os me) (write_pid f) w = (tr, Returned 0, w')
           ∧ content w' = pretty me ∧ locks w' = [(me, lock_of me)] ∧ present w' = present w.
Proof.
  intros Hc Hf Hl. do 2 eexists. split.
  - simpl. unfold set_fd, flush, do_lockf. simpl. rewrite Hf. simpl. rewrite lookup_partial_alter_eq. simpl.
    rewrite lookup_insert_eq. simpl. rewrite Hl. simpl. reflexivity.
  - simpl. by rewrite Hc, write_at_start.
Qed.

#[local] Opaque write_pid.

(** Runs [write_pid] in the goal. *)
Ltac run_write_pid :=
  match goal with
  | Hl : locks ?w = [] |- context [run (os ?me) (write_pid ?f) ?w0] =>
      destruct (write_pid_run me w0 f) as (? & ? & -> & ?); [done|apply lookup_insert_eq|by simpl; rewrite ?Hl|eauto]
  end.

(** Without locks on the file the check passes, whatever the file held. *)
Lemma first_start b path me w :
  DAP_OS_WINDOWS b = false → writable w = true → locks w = [] →
  ∃ tr w', run (os me) (s_proc_running_check b path) w = (tr, Returned 0, w')
           ∧ content w' = pretty me ∧ locks w' = [(me, lock_of me)] ∧ present w' = true.
Proof.
  intros Hb Hw Hl. unfold s_proc_running_check. rewrite Hb. simpl.
  destruct (present w) eqn:Hp; simpl.
  - destruct (scanf_d (content w)) as [n v]. simpl. destruct (n =z? 0); simpl.
    + unfold open_w. simpl. rewrite Hw. simpl. run_write_pid.
    + unfold do_lockf. simpl. rewrite Hl, !lookup_partial_alter_eq. simpl.
      unfold open_w. simpl. rewrite Hw. simpl. run_write_pid.
  - unfold open_w. rewrite Hw. simpl. run_write_pid.
Qed.

(** A lock of another process behind the end of the file's digits stops it. *)
Lemma second_start b path me w other lo hi n v :
  DAP_OS_WINDOWS b = false → present w = true → scanf_d (content w) = (n, v) → n ≠ 0 →
  (other, (lo, hi)) ∈ locks w → other ≠ me → (String.length (content w) < hi)%nat →
  ∃ tr w', run (os me) (s_proc_running_check b path) w = (tr, Returned 1, w')
           ∧ content w' = content w ∧ locks w' = locks w.
Proof.
  intros Hb Hp Hs Hn Hin Hne Hlt. unfold s_proc_running_check. rewrite Hb. simpl. rewrite Hp. simpl. rewrite Hs.
  simpl. destruct (Z.eqb_spec n 0); [done|]. simpl. unfold do_lockf. simpl. rewrite !lookup_partial_alter_eq.
  cbn [fmap option_fmap option_map off].
  rewrite (proj2 (existsb_exists _ (locks w))); [simpl; eauto|].
  exists (other, (lo, hi)). split; [by apply list_elem_of_In|]. unfold clash, region_end. simpl.
  destruct (Z.eqb_spec other me); [done|]. simpl. apply Nat.ltb_lt.
  change (Nat.min BUFSIZE (String.length (content w)) < hi)%nat. lia.
Qed.
#[local] Transparent write_pid.

(** * Properties *)

(** However the checks of any number of starting
    processes interleave, and whatever processes stop or are killed on the way,
    two live processes can both have passed [s_proc_running_check] only when
    the decimal lengths of their pids differ by at least [sizeof(pid_t)]; in
    particular at most one node runs when all pids have, say, 4 to 7 digits. *)
Theorem pid_mutual_exclusion b path s s' p q :
  DAP_OS_WINDOWS b = false → idle s → rtc (step b path) s s' →
  passed s' p → passed s' q → p ≠ q →
  (digits p + 4 ≤ digits q ∨ digits q + 4 ≤ digits p)%nat.
Proof.
  intros Hb Hi Hr Hp Hq Hne.
  assert (Hinv : sys_inv (λ pid p, wp pid p (post pid)) s').
  { eapply reachable_inv; [| |exact Hi|exact Hr]; [|by auto]. intros me _ <-. by apply wp_check. }
  assert (Hlock : ∀ pid, passed s' pid → (pid, lock_of pid) ∈ locks (osw s')).
  { intros pid Hpid. apply project_lock. by apply (inv_ok _ _ Hinv _ _ Hpid). }
  by eapply locks_apart; auto.
Qed.

(** The initial system and the schedules of the examples. *)
Definition idle_sys : sys := {|
  osw := {| present := true; writable := true; content := "4242"; locks := []; fds := ∅ |}; procs := ∅ |}.

Definition race (p q : Z) : list act :=
  [Start p; Start q; Go p; Go p; Go p; Go q; Go q; Go q]      (* both read the stale file and test *)
  ++ [Go p; Go p; Go p; Go p; Go p]                           (* p truncates, writes, locks *)
  ++ [Go q; Go q; Go q; Go q; Go q].                          (* so does q *)

(** The two processes and the file after the schedule. *)
Lemma race_result p q r1 r2 c :
  option_map (λ s, (procs s !! p, procs s !! q, content (osw s)))
    (schedule linux_build (Some "/pid") (race p q) idle_sys) = Some (Some r1, Some r2, c) →
  ∃ s', rtc (step linux_build (Some "/pid")) idle_sys s'
        ∧ procs s' !! p = Some r1 ∧ procs s' !! q = Some r2 ∧ content (osw s') = c.
Proof.
  destruct (schedule _ _ _ _) as [s'|] eqn:Hs; [|done]. simpl. intros H. simplify_eq.
  exists s'. split_and!; [by eapply schedule_sound|done..].
Qed.

Lemma race_both_pass :
  ∃ s', rtc (step linux_build (Some "/pid")) idle_sys s' ∧ passed s' 7 ∧ passed s' 12345.
Proof.
  destruct (race_result 7 12345 (Ret 0) (Ret 0) "12345") as (s' & Hr & H7 & H1 & _);
    [vm_compute; reflexivity|by exists s'].
Qed.

Lemma pid_mutual_exclusion_witness :
  ∃ s', rtc (step linux_build (Some "/pid")) idle_sys s' ∧ passed s' 7 ∧ passed s' 12345 ∧
        (digits 7 + 4 ≤ digits 12345 ∨ digits 12345 + 4 ≤ digits 7)%nat.
Proof.
  destruct race_both_pass as (s' & Hr & H7 & H1). exists s'. split_and!; [exact Hr|exact H7|exact H1|].
  apply (pid_mutual_exclusion linux_build (Some "/pid") idle_sys s' 7 12345 eq_refl
           (conj eq_refl (conj eq_refl eq_refl)) Hr H7 H1). lia.
Defined.

(** The exception of the mutual exclusion is real:
    the lock starts behind the digits of the pid, so processes 7 and 12345 that
    start at the same time lock different bytes and both pass the check. *)
Theorem pid_race_two_instances :
  ∃ s s', idle s ∧ rtc (step linux_build (Some "/pid")) s s' ∧ passed s' 7 ∧ passed s' 12345.
Proof.
  destruct race_both_pass as (s' & Hr). by exists idle_sys, s'.
Qed.

(** A process that loses the race has already
    truncated and rewritten the pid file when its lock is refused: the node that
    runs is process 1000, the pid file names process 1001. *)
Theorem pid_loser_overwrites_file :
  ∃ s s', idle s ∧ rtc (step linux_build (Some "/pid")) s s' ∧
          passed s' 1000 ∧ procs s' !! 1001 = Some (Ret (-1)) ∧ content (osw s') = pretty 1001.
Proof.
  assert (pretty 1001 = "1001") as -> by (vm_compute; reflexivity).
  destruct (race_result 1000 1001 (Ret 0) (Ret (-1)) "1001") as (s' & Hr); [vm_compute; reflexivity|].
  by exists idle_sys, s'.
Qed.

(** A node that starts while the file is not locked
    passes the check whatever the file held, and leaves it holding exactly its
    pid, which [fscanf] reads back, and locked behind the digits. *)
Theorem pid_first_start b path pid w :
  DAP_OS_WINDOWS b = false → writable w = true → locks w = [] →
  ∃ tr w', run (os (Z.pos pid)) (s_proc_running_check b path) w = (tr, Returned 0, w')
           ∧ scanf_d (content w') = (1, Some (Z.pos pid)) ∧ content w' = pretty (Z.pos pid)
           ∧ locks w' = [(Z.pos pid, lock_of (Z.pos pid))].
Proof.
  intros Hb Hw Hl. destruct (first_start b path (Z.pos pid) w Hb Hw Hl) as (tr & w' & Hr & Hc & Hl' & _).
  exists tr, w'. split_and!; [done| |done|done]. rewrite Hc. apply scanf_pretty_pos.
Qed.

Lemma pid_first_start_witness :
  ∃ tr w', run (os 1000) (s_proc_running_check linux_build (Some "/pid")) (osw idle_sys) = (tr, Returned 0, w')
           ∧ scanf_d (content w') = (1, Some 1000) ∧ content w' = pretty 1000 ∧ locks w' = [(1000, lock_of 1000)].
Proof. exact (pid_first_start linux_build (Some "/pid") 1000 (osw idle_sys) eq_refl eq_refl eq_refl). Defined.

(** C35 (pid_second_start_refused): While a node runs (its pid in the file, its
    lock held), the check of another process returns 1 and changes neither the
    file nor the locks. *)
Theorem pid_second_start_refused b path me other w :
  DAP_OS_WINDOWS b = false → present w = true → Z.pos other ≠ me →
  content w = pretty (Z.pos other) → (Z.pos other, lock_of (Z.pos other)) ∈ locks w →
  ∃ tr w', run (os me) (s_proc_running_check b path) w = (tr, Returned 1, w')
           ∧ content w' = content w ∧ locks w' = locks w.
Proof.
  intros Hb Hp Hne Hc Hl.
  apply (second_start b path me w (Z.pos other) (digits (Z.pos other)) (digits (Z.pos other) + 4) 1
           (Some (Z.pos other)) Hb Hp); try done.
  - rewrite Hc. apply scanf_pretty_pos.
  - rewrite Hc. unfold digits. lia.
Qed.

Lemma pid_second_start_refused_witness :
  ∃ w tr w', content w = "1000" ∧
    run (os 20) (s_proc_running_check linux_build (Some "/pid")) w = (tr, Returned 1, w')
    ∧ content w' = content w ∧ locks w' = locks w.
Proof.
  pose (w := {| present := true; writable := true; content := "1000"; locks := [(1000, (4, 8)%nat)]; fds := ∅ |}).
  destruct (pid_second_start_refused linux_build (Some "/pid") 20 1000 w) as (tr & w' & Hr);
    [reflexivity|reflexivity|lia|reflexivity|left|].
  exists w, tr, w'. split; [reflexivity|exact Hr].
Defined.
