(* ===== verification/Signals.v ===== *)
(** * Signal, console-event and exception handlers of the node

    [sources/sig_unix_handler.c], [sources/sig_win32_handler.c] and
    [sources/exh_win32.c].  The static [s_pid_path] of the Unix handler is passed
    explicitly; the handle [GetStdHandle(STD_OUTPUT_HANDLE)] is implicit in
    [SetConsoleTextAttribute]. *)
From S2P Require Import Prelude Prog CLib Sdk.

Set Default Proof Using "Type".
Open Scope Z_scope.

(** ** Unix *)
Module Unix.

Definition signal_number (s : signo) : Z :=
  match s with SIGHUP => 1 | SIGINT => 2 | SIGQUIT => 3 | SIGTERM => 15 | SIGTSTP => 20 end.

Definition clear_pid_file (s_pid_path : cstr) : nprog unit :=
  f ← perform (fopen s_pid_path "w");
  match f return nprog unit with
  | None => perform (log_it L_WARNING "Pid file not cleared")
  | Some f => perform (fclose f)
  end.

Definition sig_exit_handler (sig_code : signo) : nprog unit :=
  perform (log_it L_DEBUG ("Got exit code: " +:+ pretty (signal_number sig_code))) ;;
  perform fflush_stdout ;;
  Exit 0.

(** The result and the new value of [s_pid_path]; [strdup] of NULL is
    undefined. *)
Definition sig_unix_handler_init (a_pid_path : cstr) : nprog (Z * cstr) :=
  s_pid_path ← deref a_pid_path;
  perform (signal SIGINT SIG_EXIT_HANDLER) ;;
  perform (signal SIGHUP SIG_EXIT_HANDLER) ;;
  perform (signal SIGTERM SIG_EXIT_HANDLER) ;;
  perform (signal SIGQUIT SIG_EXIT_HANDLER) ;;
  perform (signal SIGTSTP SIG_EXIT_HANDLER) ;;
  mret (0, Some s_pid_path).

(** The result and [s_pid_path], which keeps the pointer it freed. *)
Definition sig_unix_handler_deinit (s_pid_path : cstr) : nprog (Z * cstr) :=
  match s_pid_path with Some _ => delete B_pid_path | None => mret tt end ;;
  perform (signal SIGTERM SIG_DFL) ;;
  perform (signal SIGINT SIG_DFL) ;;
  perform (signal SIGHUP SIG_DFL) ;;
  perform (signal SIGQUIT SIG_DFL) ;;
  perform (signal SIGTSTP SIG_DFL) ;;
  mret (0, s_pid_path).
End Unix.

(** ** Windows *)
Module Win32.

Inductive ctrl_event :=
  | CTRL_C_EVENT | CTRL_CLOSE_EVENT | CTRL_BREAK_EVENT | CTRL_LOGOFF_EVENT | CTRL_SHUTDOWN_EVENT
  | CTRL_OTHER (code : Z).

Definition sig_exit_handler (fdwCtrlType : ctrl_event) : nprog unit :=
  perform (SetConsoleTextAttribute 12) ;;
  match fdwCtrlType with
  | CTRL_C_EVENT => print ("Ctrl-C event" +:+ NL +:+ NL) ;; perform (Beep 750 300) ;; mret tt
  | CTRL_CLOSE_EVENT => perform (Beep 600 200) ;; print ("Ctrl-Close event" +:+ NL +:+ NL)
  | CTRL_BREAK_EVENT => perform (Beep 900 200) ;; print ("Ctrl-Break event" +:+ NL +:+ NL)
  | CTRL_LOGOFF_EVENT => perform (Beep 1000 200) ;; print ("Ctrl-Logoff event" +:+ NL +:+ NL)
  | CTRL_SHUTDOWN_EVENT => perform (Beep 750 500) ;; print ("Ctrl-Shutdown event" +:+ NL +:+ NL)
  | CTRL_OTHER _ => mret tt
  end ;;
  perform (SetConsoleTextAttribute 7) ;;
  Exit 2.

Definition sig_win32_handler_init (pid_path : cstr) : nprog Z :=
  ok ← perform (SetConsoleCtrlHandler true);
  if negb ok then mret 1 else mret 0.

Definition sig_win32_handler_deinit : nprog Z :=
  perform (SetConsoleCtrlHandler false) ;; mret 0.

Definition S_SetExceptionFilter (b : build) : nprog unit :=
  perform (SetErrorMode ["SEM_FAILCRITICALERRORS"; "SEM_NOGPFAULTERRORBOX"; "SEM_NOOPENFILEERRORBOX"]) ;;
  if WIN64 b return nprog unit then perform AddVectoredExceptionHandler else perform SetUnhandledExceptionFilter.

Definition ExceptionFilter : nprog Z := perform (Beep 1000 200).
End Win32.

(** ** Signal dispositions over a trace *)

(** The disposition of [s] after the calls of [tr], if it was [d] before. *)
Fixpoint disposition_after (s : signo) (d : disposition) (tr : ntrace) : disposition :=
  match tr with
  | [] => d
  | e :: tr' =>
      disposition_after s
        match ev_call e with
        | signal s' d' => if decide (s = s') then d' else d
        | _ => d
        end tr'
  end.

Definition frees_pid_path (e : nevent) : bool :=
  match ev_call e with DAP_DELETE b => bool_decide (b = B_pid_path) | _ => false end.

(** Calls that only report. *)
Definition reports (e : nevent) : bool :=
  match ev_call e with log_it _ _ | fflush_stdout => true | _ => false end.

Lemma init_installs path :
  all (λ tr o, o = Returned (0, Some path) ∧ ∀ s d, disposition_after s d tr = SIG_EXIT_HANDLER)
    (Unix.sig_unix_handler_init (Some path)).
Proof. intros [] [] [] [] []. split; [reflexivity|]. intros [] d; reflexivity. Qed.

Lemma deinit_restores path :
  all (λ tr o, o = Returned (0, path) ∧ (∀ s d, disposition_after s d tr = SIG_DFL)
               ∧ count_ev frees_pid_path tr = match path with Some _ => 1%nat | None => 0%nat end)
    (Unix.sig_unix_handler_deinit path).
Proof.
  destruct path; cbn [all]; repeat intros []; repeat split; try reflexivity; intros [] d; reflexivity.
Qed.

Lemma exit_handler_reports s :
  all (λ tr o, o = Exited 0 ∧ forallb reports tr = true) (Unix.sig_exit_handler s).
Proof. by intros [] []. Qed.

Lemma disposition_after_app s d tr1 tr2 :
  disposition_after s d (tr1 ++ tr2) = disposition_after s (disposition_after s d tr1) tr2.
Proof. revert d. induction tr1 as [|e tr1 IH]; intros d; simpl; auto. Qed.

Lemma deinit_twice path :
  all (λ tr o, o = Returned (0, Some path) ∧ count_ev frees_pid_path tr = 2%nat)
    (r ← Unix.sig_unix_handler_init (Some path);
     r ← Unix.sig_unix_handler_deinit r.2; Unix.sig_unix_handler_deinit r.2).
Proof. psteps. done. Qed.

(** * Properties *)

(** C39 (sig_init_deinit_roundtrip): [sig_unix_handler_init] returns 0 with
    [sig_exit_handler] installed for INT, HUP, TERM, QUIT and TSTP whatever was
    installed before, and [sig_unix_handler_deinit] after it resets all five to
    the default action and frees the path it had copied once. *)
Theorem sig_init_deinit_roundtrip path tr1 tr2 o1 o2 :
  exec (Unix.sig_unix_handler_init (Some path)) tr1 o1 →
  exec (Unix.sig_unix_handler_deinit (Some path)) tr2 o2 →
  o1 = Returned (0, Some path) ∧ (∀ s d, disposition_after s d tr1 = SIG_EXIT_HANDLER) ∧
  o2 = Returned (0, Some path) ∧ (∀ s d, disposition_after s d (tr1 ++ tr2) = SIG_DFL) ∧
  count_ev frees_pid_path (tr1 ++ tr2) = (count_ev frees_pid_path tr1 + 1)%nat.
Proof.
  intros H1 H2. destruct (proj1 (all_exec _ _) (init_installs path) _ _ H1) as [-> Hi].
  destruct (proj1 (all_exec _ _) (deinit_restores (Some path)) _ _ H2) as (-> & Hd & Hc).
  split_and!; try done; [|by rewrite count_ev_app, Hc].
  intros s d. by rewrite disposition_after_app.
Qed.

Lemma sig_init_deinit_roundtrip_witness :
  let tr1 := run_trace default_ans (Unix.sig_unix_handler_init (Some "/tmp")) in
  let tr2 := run_trace default_ans (Unix.sig_unix_handler_deinit (Some "/tmp")) in
  disposition_after SIGQUIT SIG_EXIT_HANDLER (tr1 ++ tr2) = SIG_DFL.
Proof.
  intros tr1 tr2.
  apply (sig_init_deinit_roundtrip "/tmp" tr1 tr2
           (run_outcome default_ans (Unix.sig_unix_handler_init (Some "/tmp")))
           (run_outcome default_ans (Unix.sig_unix_handler_deinit (Some "/tmp")))); apply exec_run_pure.
Defined.

(** [sig_unix_handler_deinit] does not reset
    [s_pid_path], so a second call frees the same block again. *)
Theorem sig_deinit_twice_double_free path tr o :
  exec (r ← Unix.sig_unix_handler_init (Some path);
        r ← Unix.sig_unix_handler_deinit r.2; Unix.sig_unix_handler_deinit r.2) tr o →
  count_ev frees_pid_path tr = 2%nat.
Proof. intros He. exact (proj2 (proj1 (all_exec _ _) (deinit_twice path) _ _ He)). Qed.

Lemma sig_deinit_twice_double_free_witness :
  count_ev frees_pid_path
    (run_trace default_ans
       (r ← Unix.sig_unix_handler_init (Some "/tmp");
        r ← Unix.sig_unix_handler_deinit r.2; Unix.sig_unix_handler_deinit r.2)) = 2%nat.
Proof. eapply (sig_deinit_twice_double_free "/tmp"), exec_run_pure. Defined.

(** Each handled signal ends the process with
    status 0 after a log line and a flush: nothing is shut down, in particular
    the pid file is not cleared and no module is deinitialised. *)
Theorem sig_exit_skips_shutdown s tr o :
  exec (Unix.sig_exit_handler s) tr o → o = Exited 0 ∧ forallb reports tr = true.
Proof. apply (proj1 (all_exec _ _) (exit_handler_reports s)). Qed.

Lemma sig_exit_skips_shutdown_witness :
  run_outcome default_ans (Unix.sig_exit_handler SIGTSTP) = Exited 0 ∧
  forallb reports (run_trace default_ans (Unix.sig_exit_handler SIGTSTP)) = true.
Proof. apply (sig_exit_skips_shutdown SIGTSTP), exec_run_pure. Defined.

(** Every console event, known or not, ends the process
    with status 2 after the text colour was reset, and with a beep exactly for
    the known events. *)
Theorem win32_exit_status ev tr o :
  exec (Win32.sig_exit_handler ev) tr o →
  o = Exited 2 ∧ list.last (ev_call <$> tr) = Some (SetConsoleTextAttribute 7) ∧
  some_ev (λ e, match ev_call e with Beep _ _ => true | _ => false end) tr
    = match ev with Win32.CTRL_OTHER _ => false | _ => true end.
Proof. revert tr o. apply all_exec. destruct ev; psteps; done. Qed.

Lemma win32_exit_status_witness :
  run_outcome default_ans (Win32.sig_exit_handler Win32.CTRL_C_EVENT) = Exited 2.
Proof. eapply (win32_exit_status Win32.CTRL_C_EVENT), exec_run_pure. Defined.
