(* ===== verification/NodeCli.v ===== *)
(** * cellframe-node-cli

    [main] of [sources/main_node_cli.c]: the option [-B], the call of the SDK's
    command line client and the report of its error codes. *)
From S2P Require Import Prelude Prog CLib Sdk ToolBase.

Set Default Proof Using "Type".
Open Scope Z_scope.

Module Cli.
Section Cli.
  Context {D : Dap}.
  Implicit Types (argv : list string).

(** The message of the [switch] on the result. *)
Definition cli_message (res : Z) : cstr :=
  if res =z? DAP_CLI_ERROR_FORMAT then Some ("Response format error!" +:+ NL)
  else if res =z? DAP_CLI_ERROR_SOCKET then Some ("Socket read error!" +:+ NL)
  else if res =z? DAP_CLI_ERROR_TIMEOUT then Some ("No response recieved" +:+ NL)
  else if res =z? DAP_CLI_ERROR_INCOMPLETE then Some ("Connection closed by peer" +:+ NL)
  else None.

(** [main] from the Windows console set-up on. *)
Definition cli_run (b : build) argv : nprog Z :=
  (if DAP_OS_WINDOWS b then
     perform (SetConsoleCP 1252) ;; perform (SetConsoleOutputCP 1252) ;; perform WSAStartup ;; mret tt
   else mret tt) ;;
  perform (dap_log_level_set L_CRITICAL) ;;
  res ← perform (dap_app_cli_main NODE_NAME argv);
  match cli_message res with Some m => print m | None => mret tt end ;;
  delete B_sys_dir_path ;;
  (if DAP_OS_WINDOWS b then perform WSACleanup ;; mret tt else mret tt) ;;
  mret res.

(** The calls that compute the default installation directory; the path is
    stored in [g_sys_dir_path], which only the SDK reads. *)
Definition cli_default_dir (b : build) : nprog cstr :=
  match target b with
  | OS_WINDOWS => u ← perform regGetUsrPath; mret (dap_strdup_printf (u +:+ "/" +:+ NODE_NAME))
  | OS_MAC => mret (dap_strdup_printf "/Library/Application Support/CellframeNode/")
  | OS_UNIX => mret (dap_strdup_printf ("/opt/" +:+ NODE_NAME))
  end.

Definition main (b : build) argv : nprog Z :=
  perform (Void dap_chain_node_cli_parser_init) ;;
  perform (dap_set_appname (NODE_NAME +:+ "-cli")) ;;
  has ← has_B argv;
  if has : bool then
    a2 ← arg argv 2;
    let g_sys_dir_path := dap_strdup a2 in
    ok ← perform (dap_dir_test g_sys_dir_path);
    if negb ok then
      p ← deref g_sys_dir_path;
      print ("Invalid path " +:+ quoted p) ;; delete B_sys_dir_path ;; mret (-1)
    else cli_run b (drop 2 argv)
  else cli_default_dir b ;; cli_run b argv.

(** ** Specification *)

(** What is printed for each of the four errors. *)
Definition cli_reports : list (Z * string) := [
  (DAP_CLI_ERROR_FORMAT, "Response format error!" +:+ NL);
  (DAP_CLI_ERROR_SOCKET, "Socket read error!" +:+ NL);
  (DAP_CLI_ERROR_TIMEOUT, "No response recieved" +:+ NL);
  (DAP_CLI_ERROR_INCOMPLETE, "Connection closed by peer" +:+ NL) ].

Definition reported (res : Z) (out : list string) : Prop :=
  (∀ m, (res, m) ∈ cli_reports → out = [m]) ∧ (res ∉ cli_reports.*1 → out = []).

Definition cli_calls (tr : ntrace) : list (string * list string * Z) :=
  omap (λ e : nevent, match e return option (string * list string * Z) with
                      | Ev (dap_app_cli_main n a) r => Some (n, a, r)
                      | _ => None
                      end) tr.

Definition printed (tr : ntrace) : list string :=
  omap (λ e : nevent, match e with Ev (printf s) _ => Some s | _ => None end) tr.

Definition dir_tests (tr : ntrace) : list (cstr * bool) :=
  omap (λ e : nevent, match e return option (cstr * bool) with
                      | Ev (dap_dir_test d) r => Some (d, r)
                      | _ => None
                      end) tr.

Definition is_dir_test (e : nevent) : bool := match e with Ev (dap_dir_test _) _ => true | _ => false end.
Definition is_cli_call (e : nevent) : bool := match e with Ev (dap_app_cli_main _ _) _ => true | _ => false end.

(** The client is called once with [args]; its result is returned and, for an
    error, reported. *)
Definition called (args : list string) (tr : ntrace) (o : outcome Z) : Prop :=
  ∃ res, o = Returned res ∧ cli_calls tr = [(NODE_NAME, args, res)] ∧ reported res (printed tr).

(** With [-B <dir>] the directory is tested first and the client gets [dir] in
    the place of the program's name, followed by the rest ([argv += 2]);
    without it the client gets the whole command line. *)
Definition cli_spec argv (tr : ntrace) (o : outcome Z) : Prop :=
  let plain := dir_tests tr = [] ∧ called argv tr o in
  match argv with
  | _ :: opt :: dir :: rest =>
      if bool_decide (opt = "-B") then
        ∃ ok, dir_tests tr = [(Some dir, ok)] ∧ before_ev is_dir_test is_cli_call tr = true ∧
              if ok : bool then called (dir :: rest) tr o
              else o = Returned (-1) ∧ cli_calls tr = [] ∧ printed tr = ["Invalid path " +:+ quoted dir]
      else plain
  | _ => plain
  end.

(** The labels of the [switch] differ, as C demands. *)
Definition cli_labels_distinct : Prop := NoDup cli_reports.*1.

Lemma cli_message_reported res :
  cli_labels_distinct → reported res (option_list (cli_message res)).
Proof.
  unfold cli_labels_distinct, reported, cli_reports, cli_message. simpl. intros Hd. split.
  - intros m Hm. rewrite !elem_of_cons in Hm.
    apply list.NoDup_cons in Hd as [H1 Hd]. apply list.NoDup_cons in Hd as [H2 Hd]. apply list.NoDup_cons in Hd as [H3 _].
    repeat match goal with H : _ ∉ _ :: _ |- _ => apply list.not_elem_of_cons in H as [? H] end.
    destruct Hm as [[= -> ->]|[[= -> ->]|[[= -> ->]|[[= -> ->]|Hm]]]]; [..|by apply elem_of_nil in Hm];
      repeat (match goal with |- context [?x =z? ?y] => destruct (Z.eqb_spec x y) end; [first [done|congruence]|]);
      congruence.
  - intros Hn. rewrite !elem_of_cons in Hn.
    by repeat (match goal with |- context [?x =z? ?y] => destruct (Z.eqb_spec x y) end; [naive_solver|]).
Qed.

Lemma cli_run_called b argv :
  cli_labels_distinct → all (λ tr o, dir_tests tr = [] ∧ called argv tr o) (cli_run b argv).
Proof.
  intros Hd. unfold cli_run, called.
  assert (∀ res, reported res (option_list (cli_message res))) as Hm by (intros; by apply cli_message_reported).
  destruct (DAP_OS_WINDOWS b); psteps; split; try done; eexists; split_and!; try done;
    by match goal with H : cli_message ?r = _ |- _ => specialize (Hm r); rewrite H in Hm end.
Qed.

(** Calls in front that are none of those the specification reads. *)
Definition unread (e : nevent) : Prop :=
  match e with
  | Ev (dap_dir_test _) _ | Ev (dap_app_cli_main _ _) _ | Ev (printf _) _ => False
  | _ => True
  end.

Lemma cli_spec_unread argv e tr o : unread e → cli_spec argv tr o → cli_spec argv (e :: tr) o.
Proof. destruct e as [c r]. by destruct c. Qed.

Lemma cli_spec_silent {A} argv (p : nprog A) (f : A → nprog Z) :
  uniform unread (λ o, match o with Returned a => all (cli_spec argv) (f a) | _ => False end) p →
  all (cli_spec argv) (p ≫= f).
Proof.
  intros Hp. apply all_bind. eapply all_mono; [|exact Hp]. intros tr [a|z|] [Htr Ho]; [|done..].
  eapply all_mono; [|exact Ho]. intros tr' o'. clear Hp Ho. induction Htr as [|e tr He Htr IH]; [done|].
  intros Hs. by apply cli_spec_unread, IH.
Qed.

Lemma main_spec {L : DapLaws D} b argv : cli_labels_distinct → all (cli_spec argv) (main b argv).
Proof.
  intros Hd. unfold main. do 2 (apply cli_spec_silent; intros []; split; [by repeat constructor|]).
  assert (all (λ tr o, dir_tests tr = [] ∧ called argv tr o) (cli_run b argv)) as Hrun by by apply cli_run_called.
  assert ((∀ tr o, dir_tests tr = [] ∧ called argv tr o → cli_spec argv tr o) →
          all (cli_spec argv) (cli_default_dir b ;; cli_run b argv)) as Hdef.
  { intros Hp. apply cli_spec_silent. apply (all_mono _ _ _ Hp) in Hrun. unfold cli_default_dir.
    destruct (target b); repeat intros ?; by repeat constructor. }
  destruct argv as [|a0 [|o [|dir rest]]]; [by apply Hdef..|].
  unfold has_B. rewrite (arg_lookup (a0 :: o :: dir :: rest) 1 o eq_refl), (arg_lookup (a0 :: o :: dir :: rest) 2 dir eq_refl).
  unfold argc_lt. rewrite bool_decide_false by (simpl; lia). simpl. rewrite dap_strdup_eq. unfold cli_spec in *.
  destruct (Z.eqb_spec (dap_strcmp (Some "-B") (Some o)) 0) as [He|He]; rewrite dap_strcmp_eq in He.
  - subst o. simpl in *. intros ok. destruct ok; simpl; [|intros [] []; by exists false].
    eapply all_mono; [|by apply cli_run_called]. intros tr o [Ht Hc]. exists true. simpl.
    split_and!; [|done|exact Hc]. by rewrite Ht.
  - rewrite bool_decide_false in * by congruence. by apply Hdef.
Qed.
End Cli.
End Cli.

(** * Properties *)

(** C31 (cli_main_correct): In every environment, when the four error codes of
    the client differ (the labels of one [switch]): without [-B] the client is
    called exactly once, under the node's name and with the whole command line,
    and no directory is tested.  With [-B <dir>] that directory, and no other,
    is tested before the client is called; if it is there the client gets
    [<dir>] as its first word, in the place of the program's name, followed by
    the words after it; if not, the client is not called, the path is reported
    as invalid and the result is -1.  The client's result is returned unchanged,
    and exactly one message, its own, is printed for each of the four errors and
    none for any other result. *)
Theorem cli_main_correct {D : Dap} {L : DapLaws D} b argv tr o :
  Cli.cli_labels_distinct → exec (Cli.main b argv) tr o → Cli.cli_spec argv tr o.
Proof. intros Hd. apply (proj1 (all_exec _ _) (Cli.main_spec b argv Hd)). Qed.

Lemma cli_main_correct_witness :
  let p := Cli.main (D := demo_dap) linux_build ["cli"; "-B"; "/opt/n"; "net"; "list"] in
  Cli.cli_calls (run_trace default_ans p) = [("cellframe-node", ["/opt/n"; "net"; "list"], 0)] ∧
  Cli.cli_spec (D := demo_dap) ["cli"; "-B"; "/opt/n"; "net"; "list"] (run_trace default_ans p) (run_outcome default_ans p).
Proof.
  split; [vm_compute; reflexivity|].
  apply (cli_main_correct (D := demo_dap) linux_build); [|apply exec_run_pure].
  apply (bool_decide_eq_true_1 _). vm_compute. reflexivity.
Defined.
