(* ===== verification/NodeManager.v ===== *)
(** * The node manager

    [sources/node_manager.c] and [sources/node_manager.h]: an UDP echo node with
    its callbacks, its start-up and its shut-down.  Buffers are lists of bytes
    (as [Z]); an access outside of one is undefined. *)
From S2P Require Import Prelude Prog CLib Sdk.

Set Default Proof Using "Type".
Open Scope Z_scope.

Module NodeManager.

(** The fields of [dap_server_client_t] the callbacks read. *)
Record client := { buf_in_size : Z; _ready_to_read : bool }.

(** [stream_ch_pkt_t]: [hdr.size] and the data received; the channel's
    [stream->conn_udp->host_key]. *)
Record packet := { hdr_size : Z; data : list Z; host_key : Z }.

(** [node_manager_t]; [sh] is never read. *)
Record manager := { l_config : option config }.

(** [buf[i] = v]. *)
Definition buf_write (buf : list Z) (i : Z) (v : Z) : nprog (list Z) :=
  if bool_decide (0 ≤ i < Z.of_nat (length buf)) then mret (<[Z.to_nat i := v]> buf) else Undef.

(** [memcpy] of [n] bytes to the start of [dst]. *)
Definition memcpy (dst src : list Z) (n : Z) : nprog (list Z) :=
  if bool_decide (n ≤ Z.of_nat (length dst) ∧ n ≤ Z.of_nat (length src))
  then mret (take (Z.to_nat n) src ++ drop (Z.to_nat n) dst) else Undef.

(** [%s] of a buffer: its bytes up to the NUL, which must be in it. *)
Fixpoint c_string (buf : list Z) : option string :=
  match buf with
  | [] => None
  | z :: buf' => if z =z? 0 then Some "" else String (Ascii.ascii_of_N (Z.to_N z)) <$> c_string buf'
  end.

Definition channel_new : nprog unit := perform (log_it L_INFO "Channel new").
Definition channel_delete : nprog unit := perform (log_it L_INFO "Channel delete").

Definition channel_packet_in (ch_pkt : packet) : nprog unit :=
  buf ← perform (malloc (hdr_size ch_pkt));
  buf ← deref buf;
  buf ← memcpy buf (data ch_pkt) (hdr_size ch_pkt);
  text ← deref (c_string buf);
  from ← perform (itoa (host_key ch_pkt));
  perform (log_it L_DEBUG ("Income data: " +:+ text +:+ " from " +:+ from +:+ " " +:+ NL)) ;;
  perform (stream_ch_set_ready_to_write false) ;;
  perform (stream_ch_pkt_write_f 1 "ping") ;;
  perform (stream_ch_set_ready_to_write true).

Definition channel_packet_out : nprog unit := perform (stream_ch_set_ready_to_write false).

Definition client_new : nprog unit := perform (log_it L_INFO "Client connected").

Definition client_read (c : client) : nprog unit :=
  perform (log_it L_INFO ("Client read " +:+ pretty (buf_in_size c))) ;;
  buf ← perform (malloc (buf_in_size c));
  buf ← deref buf;
  buf ← buf_write buf (buf_in_size c) 0;
  (if _ready_to_read c then perform (dap_client_read (buf_in_size c)) ;; mret tt else mret tt) ;;
  perform (dap_client_write "ping" 4) ;;
  perform (dap_udp_client_ready_to_write true) ;;
  perform free.

Definition client_write : nprog unit := perform (log_it L_DEBUG "Client write").
Definition client_disconnect : nprog unit := perform (log_it L_DEBUG "Client disconnect").

Definition node_manager_init (b : build) : nprog Z :=
  rc ← perform (dap_common_init_log "build/log.txt");
  if negb (rc =z? 0) then print "Can't init common functions module" ;; mret (-2)
  else
    perform (dap_log_set_external_output
      (if DAP_DEBUG b || negb (DAP_OS_WINDOWS b) then LOGGER_OUTPUT_STDOUT else LOGGER_OUTPUT_NONE) None) ;;
    rc ← perform (dap_config_init "build/config");
    if negb (rc =z? 0) then perform (log_it L_CRITICAL "Can't init configurations module") ;; mret (-1)
    else
      returned (
        must L_CRITICAL dap_enc_init "Can't init encryption module" (-56) ;?
        must L_CRITICAL dap_enc_key_init "Can't init encryption key module" (-57) ;?
        must L_CRITICAL dap_server_init "Can't init udp server module" (-4) ;?
        lift (
          perform (Void stream_init) ;;
          perform (Void stream_session_init) ;;
          perform (Init dap_http_init) ;;
          perform (Init dap_http_simple_module_init) ;;
          mret 0)).

Definition node_manager_deinit : nprog unit :=
  perform (Void stream_session_deinit) ;;
  perform (Void dap_server_deinit) ;;
  perform (Void dap_server_client_deinit) ;;
  perform (Void dap_enc_key_deinit) ;;
  perform (Void dap_enc_deinit) ;;
  perform (Void dap_common_deinit) ;;
  perform (Void dap_config_deinit).

Definition new_node_manager (config_file : string) : nprog manager :=
  c ← perform (dap_config_open config_file); mret {| l_config := c |}.

Definition node_manager_start (m : manager) : nprog unit :=
  match l_config m with
  | Some cfg =>
      s ← perform (dap_config_get_item_str_of cfg "general" "port");
      s ← deref s;
      port ← deref (atoi s);
      if port =z? 0 then perform (log_it L_CRITICAL "Unable to read port value")
      else
        sh ← perform (dap_udp_server_listen port);
        sh ← deref sh;
        perform (set_callback sh CB_client_read) ;;
        perform (set_callback sh CB_client_write) ;;
        perform (set_callback sh CB_client_new) ;;
        perform (set_callback sh CB_client_delete) ;;
        perform (dap_udp_server_loop sh) ;;
        perform (dap_udp_server_delete sh)
  | None => perform (log_it L_CRITICAL "Unable to find config file")
  end.

Definition node_manager_start_stream : nprog unit :=
  server ← perform (dap_server_listen "localhost" 56001);
  perform (dap_http_new server "KelvinNode") ;;
  perform (enc_http_add_proc_opt server "/handshake") ;;
  perform (dap_server_loop server) ;; mret tt.

(** ** Specifications *)

(** The code of a failed step of [node_manager_init]. *)
Definition failure (e : nevent) : option Z :=
  match e with
  | Ev (dap_common_init_log _) r => if r =z? 0 then None else Some (-2)
  | Ev (dap_config_init _) r => if r =z? 0 then None else Some (-1)
  | Ev (Init dap_enc_init) r => if r =z? 0 then None else Some (-56)
  | Ev (Init dap_enc_key_init) r => if r =z? 0 then None else Some (-57)
  | Ev (Init dap_server_init) r => if r =z? 0 then None else Some (-4)
  | _ => None
  end.

(** The UDP server was made to listen. *)
Definition listens (e : nevent) : bool :=
  match ev_call e with dap_udp_server_listen _ => true | _ => false end.

Definition callbacks (tr : ntrace) : list callback :=
  omap (λ e : nevent, match ev_call e with set_callback _ cb => Some cb | _ => None end) tr.

(** The ports listened on. *)
Definition ports (tr : ntrace) : list Z :=
  omap (λ e : nevent, match ev_call e with dap_udp_server_listen p => Some p | _ => None end) tr.

Definition mallocs (e : nevent) : bool := match ev_call e with malloc _ => true | _ => false end.
Definition frees (e : nevent) : bool := match ev_call e with free => true | _ => false end.

(** [malloc] gives no more bytes than asked for. *)
Definition malloc_exact (e : nevent) : bool :=
  match e with
  | Ev (malloc n) (Some buf) => bool_decide (Z.of_nat (length buf) = n)
  | _ => true
  end.

(** The modules stopped, in order. *)
Definition stopped (tr : ntrace) : list void_fn :=
  omap (λ e : nevent, match ev_call e with Void f => Some f | _ => None end) tr.

(** The value of [general.port] as [atoi] reads it, from a trace. *)
Definition port_read (tr : ntrace) : option Z :=
  head (omap (λ e : nevent, match e with
                            | Ev (dap_config_get_item_str_of _ _ _) (Some s) => atoi s
                            | _ => None
                            end) tr).

Lemma init_spec b :
  all (λ tr o, o = Returned (default 0 (head (omap failure tr))) ∧ (length (omap failure tr) ≤ 1)%nat)
    (node_manager_init b).
Proof.
  unfold node_manager_init, returned, must, lift, ebind, ret_now, go_on.
  psteps; use_tests; repeat match goal with H : negb ?b = _ |- _ => destruct b eqn:?; simpl in H; try done end;
    use_tests; split; (done || lia).
Qed.

Lemma client_read_spec c :
  all (λ tr o, forallb malloc_exact tr = true → o = Undefined) (client_read c).
Proof.
  intros [] buf. destruct buf as [buf|]; simpl; [|done].
  unfold buf_write. destruct (bool_decide (0 ≤ _ < _)) eqn:Hi; [|by intros _].
  apply bool_decide_eq_true in Hi. apply all_exec. intros tr o _. simpl.
  case_bool_decide; simpl; [lia|done].
Qed.

Lemma packet_in_spec pk :
  all (λ tr o, o = Returned tt → count_ev mallocs tr = 1%nat ∧ count_ev frees tr = 0%nat) (channel_packet_in pk).
Proof. unfold channel_packet_in, memcpy, deref. psteps; done. Qed.

Lemma start_spec m :
  all (λ tr o, match l_config m, port_read tr with
               | Some _, Some p =>
                   if p =z? 0 then ports tr = [] ∧ o = Returned tt
                   else ports tr = [p] ∧ (o = Returned tt → callbacks tr =
                          [CB_client_read; CB_client_write; CB_client_new; CB_client_delete])
               | Some _, None => ports tr = [] ∧ o = Undefined
               | None, _ => ports tr = [] ∧ o = Returned tt
               end) (node_manager_start m).
Proof.
  unfold node_manager_start, port_read, deref. destruct (l_config m) as [cfg|]; [|by intros []].
  psteps; use_tests. by destruct r0.
Qed.
End NodeManager.

(** * Properties *)

(** [node_manager_init] returns the code of the
    first of its five checked steps that failed, at which it stops, and 0 when
    none did. *)
Theorem manager_init_first_failure b tr o :
  exec (NodeManager.node_manager_init b) tr o →
  o = Returned (default 0 (head (omap NodeManager.failure tr))) ∧ (length (omap NodeManager.failure tr) ≤ 1)%nat.
Proof. apply (proj1 (all_exec _ _) (NodeManager.init_spec b)). Qed.

Lemma manager_init_first_failure_witness :
  let ans c := match c return ret c with Init dap_enc_key_init => 5 | c => default_ans c end in
  run_outcome ans (NodeManager.node_manager_init linux_build) = Returned (-57).
Proof.
  intros ans. rewrite (proj1 (manager_init_first_failure linux_build _ _ (exec_run_pure ans _))).
  vm_compute. reflexivity.
Defined.

(** [client_read] stores its NUL at index
    [buf_in_size] of a block of [buf_in_size] bytes: every call writes one byte
    past the end of the block, whatever the client sent. *)
Theorem client_read_overflow c tr o :
  exec (NodeManager.client_read c) tr o → forallb NodeManager.malloc_exact tr = true → o = Undefined.
Proof. intros He. exact (proj1 (all_exec _ _) (NodeManager.client_read_spec c) tr o He). Qed.

Lemma client_read_overflow_witness :
  run_outcome default_ans
    (NodeManager.client_read {| NodeManager.buf_in_size := 3; NodeManager._ready_to_read := true |}) = Undefined.
Proof. eapply client_read_overflow; [apply exec_run_pure|vm_compute; reflexivity]. Defined.

(** [channel_packet_in] allocates a copy of each packet it
    handles and never frees it. *)
Theorem packet_in_leaks pk tr :
  exec (NodeManager.channel_packet_in pk) tr (Returned tt) →
  count_ev NodeManager.mallocs tr = 1%nat ∧ count_ev NodeManager.frees tr = 0%nat.
Proof. intros He. exact (proj1 (all_exec _ _) (NodeManager.packet_in_spec pk) tr _ He eq_refl). Qed.

Lemma packet_in_leaks_witness :
  let p := NodeManager.channel_packet_in
             {| NodeManager.hdr_size := 2; NodeManager.data := [65; 0]; NodeManager.host_key := 1 |} in
  run_outcome default_ans p = Returned tt ∧ count_ev NodeManager.frees (run_trace default_ans p) = 0%nat.
Proof.
  intros p. assert (run_outcome default_ans p = Returned tt) as Hr by (vm_compute; reflexivity).
  split; [exact Hr|]. eapply packet_in_leaks. rewrite <-Hr. apply exec_run_pure.
Defined.

(** [node_manager_start] listens exactly on the
    configured port, and only when the configuration was opened and the port is a
    non-zero number; it then installs all four callbacks before the loop.  A
    configuration without the port is read through a null pointer. *)
Theorem manager_start_listens m tr o :
  exec (NodeManager.node_manager_start m) tr o →
  match NodeManager.l_config m, NodeManager.port_read tr with
  | Some _, Some p =>
      if p =z? 0 then NodeManager.ports tr = [] ∧ o = Returned tt
      else NodeManager.ports tr = [p] ∧ (o = Returned tt → NodeManager.callbacks tr =
             [CB_client_read; CB_client_write; CB_client_new; CB_client_delete])
  | Some _, None => NodeManager.ports tr = [] ∧ o = Undefined
  | None, _ => NodeManager.ports tr = [] ∧ o = Returned tt
  end.
Proof. apply (proj1 (all_exec _ _) (NodeManager.start_spec m)). Qed.

Lemma manager_start_listens_witness :
  NodeManager.ports (run_trace default_ans
    (NodeManager.node_manager_start {| NodeManager.l_config := Some 1%nat |})) = [8079].
Proof.
  exact (proj1 (manager_start_listens {| NodeManager.l_config := Some 1%nat |} _ _ (exec_run_pure default_ans _))).
Defined.
