(* ===== verification/Daemon.v ===== *)
(** * The node daemon

    [main] of [sources/cellframe-node.c] from the command line to the value it
    returns: paths and logging, the single-instance guard, the initialisation of
    every module with its error code, the server, the event loop and the
    shut-down.  [g_sys_dir_path] on entry is an argument (the Android service
    sets it before), [g_config] is implicit in the configuration calls. *)
From S2P Require Import Prelude Prog CLib Sdk ToolBase PidLock Signals.

Set Default Proof Using "Type".
Open Scope Z_scope.

Definition MEMPOOL_URL : string := "/mempool".

(** [snprintf(buf + pos, size - pos, ...)] for the formatted text [s] and a
    buffer of [size] bytes that holds [buf]; [None]: [buf + pos] is outside. *)
Definition snprintf_at (buf : string) (size pos : nat) (s : string) : cstr :=
  if (size <? pos)%nat then None
  else match (size - pos)%nat with
       | O => Some buf
       | S n => Some (String.substring 0 pos buf +:+ String.substring 0 n s)
       end.

Module Node.
Section Node.
  Context {D : Dap}.
  Implicit Types (b : build) (argv : list string) (sys : cstr).

Definition dap_node_version b : string :=
  "CellframeNode, " +:+ DAP_VERSION +:+ ", " +:+ BUILD_TS b +:+ ", " +:+ BUILD_HASH b.

(** The new value of [g_sys_dir_path]. *)
Definition set_global_sys_dir (dir : cstr) : cstr := dap_strdup dir.

(** [l_plugins_path_arg]: the value of the variable after the searches. *)
Definition plugins_path_arg b argv : nprog cstr :=
  if DAP_OS_ANDROID b then mret None
  else
    r ← perform (dap_cli_server_cmd_find_option_val argv 1 (Z.of_nat (length argv)) "--plugins-path");
    if r.1 =z? 0 then
      r ← perform (dap_cli_server_cmd_find_option_val argv 1 (Z.of_nat (length argv)) "-P"); mret r.2
    else mret r.2.

(** [p[0] == '~' && (p[1] == '/' || p[1] == '\0')]. *)
Definition is_home_path (p : string) : bool :=
  match p with
  | String c p' =>
      Ascii.eqb c "~" && match p' with String d _ => Ascii.eqb d "/" | EmptyString => true end
  | EmptyString => false
  end.

(** [l_plugins_path_override]. *)
Definition plugins_path_override (l_plugins_path_arg : cstr) : nprog cstr :=
  match l_plugins_path_arg with
  | None => mret None
  | Some p =>
      if is_home_path p then
        l_home ← perform (getenv "HOME");
        mret match l_home with
             | Some h => dap_strdup_printf (h +:+ String.substring 1 (String.length p) p)
             | None => dap_strdup (Some p)
             end
      else mret (dap_strdup (Some p))
  end.

Definition node_default_sys_dir b : nprog cstr :=
  match target b with
  | OS_WINDOWS =>
      u ← perform regGetUsrPath;
      name ← perform dap_get_appname;
      mret (dap_strdup_printf (u +:+ "/" +:+ name))
  | OS_MAC => mret (dap_strdup_printf "/Library/Application Support/CellframeNode/")
  | OS_UNIX =>
      name ← perform dap_get_appname;
      mret (dap_strdup_printf ("/opt/" +:+ name))
  end.

(** The nested conditionals that set [rc]: directories, logging, [etc/]. *)
Definition setup b sys : nprog Z :=
  ok ← perform (dap_dir_test sys);
  s ← deref sys;
  if negb ok then print ("Invalid path " +:+ quoted s) ;; mret (-1)
  else
    let '(pos, l_path) := snprintf (MAX_PATH + 1) (s +:+ "/var/log") in
    l_path ← deref l_path;
    rc ← perform (dap_mkdir_with_parents l_path);
    if negb (rc =z? 0) then
      e ← perform errno;
      print ("Can't create directory " +:+ l_path +:+ ", error " +:+ pretty e) ;; mret (-2)
    else
      name ← perform dap_get_appname;
      l_path ← deref (snprintf_at l_path (MAX_PATH + 1) (Z.to_nat pos) ("/" +:+ name +:+ ".log"));
      name ← perform dap_get_appname;
      rc ← perform (dap_common_init name (Some l_path));
      if negb (rc =z? 0) then print "Fatal Error: Can't init common functions module" ;; mret (-3)
      else
        perform (dap_log_set_external_output
          (if DAP_DEBUG b || negb (DAP_OS_WINDOWS b) then LOGGER_OUTPUT_STDOUT else LOGGER_OUTPUT_NONE) None) ;;
        (if DAP_OS_ANDROID b then
           perform (dap_log_set_external_output LOGGER_OUTPUT_ALOG (Some "NativeCellframeNode")) ;; mret tt
         else mret tt) ;;
        perform (log_it L_DEBUG ("Use main path: " +:+ s)) ;;
        l_path ← deref (snprintf (MAX_PATH + 1) (s +:+ "/etc")).2;
        rc ← perform (dap_config_init l_path);
        if negb (rc =z? 0) then
          perform (log_it L_CRITICAL
            ("Can't init general config " +:+ quoted (l_path +:+ "/" +:+ NODE_NAME +:+ ".cfg") +:+ NL)) ;;
          mret (-4)
        else mret 0.

(** [if ( rc ) return ...] and the opening of the configuration: [g_config]. *)
Definition open_config b sys : eprog config :=
  rc ← setup b sys;
  if negb (rc =z? 0) then delete B_sys_dir_path ;; ret_now rc
  else
    name ← perform dap_get_appname;
    g_config ← perform (dap_config_open name);
    match g_config with
    | Some cfg => go_on cfg
    | None =>
        name ← perform dap_get_appname;
        perform (log_it L_CRITICAL ("Can't open general config " +:+ name +:+ ".cfg")) ;;
        delete B_sys_dir_path ;;
        ret_now (-5)
    end.

(** The name of the event that marks a running node on Windows. *)
Definition instance_event : string :=
  "DAP_CELLFRAME_NODE_74E9201D33F7F7F684D2FEF1982799A79B6BF94" +:+
  "B568446A8D1DE947B00E3C75060F3FD5BF277592D02F77D7E50935E56".

Definition check_instance b sys : eprog unit :=
  if DAP_OS_WINDOWS b then
    r ← s_proc_running_check b (Some instance_event);
    if negb (r =z? 0) then delete B_sys_dir_path ;; ret_now 2 else go_on tt
  else
    s ← deref sys;
    l_default_dir ← deref (snprintf (MAX_PATH + 1) (s +:+ "/tmp")).2;
    l_pid_file_path ← perform (dap_config_get_item_str_path_default "resources" "pid_path" l_default_dir);
    l_pid_check ← s_proc_running_check b l_pid_file_path;
    delete B_pid_file_path ;;
    if negb (l_pid_check =z? 0) then ret_now 2 else go_on tt.

(** A [size_t] from a wider or signed value. *)
Definition size_t (z : Z) : Z := z mod 2 ^ SIZE_WIDTH.

(** Log level and log rotation. *)
Definition configure_log (l_plugins_path_override : cstr) : nprog unit :=
  perform (log_it L_DEBUG "Parsing command line args") ;;
  match l_plugins_path_override with
  | Some p => perform (log_it L_NOTICE ("Plugins path overridden from command line: " +:+ p)) ;; mret tt
  | None => mret tt
  end ;;
  l_debug_mode ← perform (dap_config_get_item_bool_default "general" "debug_mode" false);
  perform (log_it L_ATT (if l_debug_mode : bool then "*** DEBUG MODE ***" else "*** NORMAL MODE ***")) ;;
  perform (dap_log_level_set (if l_debug_mode : bool then L_DEBUG else L_NOTICE)) ;;
  perform (log_it L_DAP ("*** CellFrame Node version: " +:+ DAP_VERSION +:+ " ***")) ;;
  rotate ← perform (dap_config_get_item_bool_default "log" "rotate_enabled" false);
  if rotate : bool then
    t ← perform (dap_config_get_item_int64 "log" "rotate_timeout");
    m ← perform (dap_config_get_item_int64 "log" "rotate_size");
    let l_timeout_minutes := size_t t in
    let l_max_file_size := size_t m in
    perform (log_it L_NOTICE ("Log rotation every " +:+ pretty l_timeout_minutes
      +:+ " min enabled, max log file size " +:+ pretty l_max_file_size +:+ " MB")) ;;
    perform (dap_common_enable_cleaner_log (size_t (l_timeout_minutes * 60000)) l_max_file_size) ;;
    mret tt
  else mret tt.

(** Encryption, event loop, HTTP and streams; the value of [bServerEnabled]. *)
Definition start_transport b : eprog bool :=
  must L_CRITICAL dap_enc_init "Can't init encryption module" (-56) ;?
  l_thread_cnt ←? lift (perform (dap_config_get_item_int32_default "resources" "threads_cnt" 0));
  lift (perform (dap_events_init (l_thread_cnt mod 2 ^ 32) 0)) ;?
  lift (perform (Void dap_events_start)) ;?
  bServerEnabled ←? lift (perform (dap_config_get_item_bool_default "server" "enabled" false));
  (if bServerEnabled : bool then must L_CRITICAL dap_server_init "Can't init socket server module" (-4)
   else go_on tt) ;?
  must L_CRITICAL dap_http_init "Can't init http server module" (-5) ;?
  (if negb (DAP_OS_ANDROID b) then must L_CRITICAL dap_http_folder_init "Can't init http server module" (-55)
   else go_on tt) ;?
  must L_CRITICAL dap_http_simple_module_init "Can't init http simple module" (-9) ;?
  must L_CRITICAL enc_http_init "Can't init encryption http session storage module" (-81) ;?
  must L_CRITICAL dap_stream_init "Can't init stream server module" (-82) ;?
  must L_CRITICAL dap_stream_ctl_init "Can't init stream control module" (-83) ;?
  lift (perform (Void dap_client_init)) ;?
  may dap_notify_server_init "Can't init notify server module" ;?
  go_on bServerEnabled.

(** Database, chains, consensuses, networks and wallets. *)
Definition start_chain : eprog unit :=
  must L_CRITICAL dap_global_db_init "Can't init global db module" (-58) ;?
  must L_CRITICAL dap_datum_mempool_init "Can't init mempool module" (-59) ;?
  must L_CRITICAL dap_chain_init "Can't init dap chain modules" (-60) ;?
  may dap_chain_net_srv_stake_pos_delegate_init "Can't start delegated PoS stake service" ;?
  must L_CRITICAL dap_chain_cs_dag_init "Can't init dap chain dag consensus module" (-62) ;?
  must L_CRITICAL dap_chain_cs_dag_poa_init "Can't init dap chain dag consensus PoA module" (-63) ;?
  must L_CRITICAL dap_chain_cs_blocks_init "Can't init dap chain blocks consensus module" (-62) ;?
  must L_CRITICAL dap_chain_cs_esbocs_init
    "Can't init enhanced stake-based blocks operating consensus module" (-69) ;?
  must L_CRITICAL dap_nonconsensus_init "Can't init nonconsensus chain module" (-71) ;?
  must L_CRITICAL dap_chain_net_init "Can't init dap chain network module" (-65) ;?
  must L_CRITICAL dap_chain_policy_init "Can't init dap chain policy module" (-66) ;?
  must L_CRITICAL dap_chain_wallet_init "Can't init dap chain wallet module" (-61) ;?
  must L_CRITICAL dap_chain_net_srv_init "Can't init dap chain network service module" (-66).

(** The VPN's preparation and the signal handlers. *)
Definition start_signals b : eprog unit :=
  if negb (_WIN32 b) then
    (if negb (DAP_OS_ANDROID b) then may dap_chain_net_srv_vpn_pre_init "Can't pre-init vpn service"
     else go_on tt) ;?
    p ←? lift (perform (dap_config_get_item_str_default "resources" "pid_path" (Some "/tmp")));
    r ←? lift (Unix.sig_unix_handler_init p);
    if negb (r.1 =z? 0) then
      perform (log_it L_CRITICAL "Can't init sig unix handler module") ;; ret_now (-12)
    else go_on tt
  else
    r ← Win32.sig_win32_handler_init None;
    if negb (r =z? 0) then
      perform (log_it L_CRITICAL "Can't init sig win32 handler module") ;; ret_now (-12)
    else go_on tt.

(** Services, signal handlers and the console. *)
Definition start_services b : eprog unit :=
  may dap_chain_net_srv_xchange_init "Can't provide exchange capability" ;?
  may dap_chain_net_srv_dex_init "Can't provide DEX v2 capability" ;?
  may dap_chain_net_srv_voting_init "Can't provide voting capability" ;?
  may dap_chain_net_srv_bridge_init "Can't provide bridge capability" ;?
  may dap_chain_net_srv_stake_ext_init "Can't provide stake-ext capability" ;?
  may dap_chain_net_srv_stake_lock_init "Can't start stake lock service" ;?
  start_signals b ;?
  must L_CRITICAL dap_chain_node_cli_init "Can't init server for console" (-11) ;?
  must L_CRITICAL dap_chain_wallet_cache_init "Can't init dap chain wallet module" (-61).

(** Plugins; the value of [l_plugins_enabled] after it. *)
Definition start_plugins b sys (l_plugins_path_override : cstr) : nprog bool :=
  l_plugins_enabled ← perform (dap_config_get_item_bool_default "plugins" "enabled" false);
  if l_plugins_enabled : bool then
    s ← deref sys;
    let l_plugins_path_default :=
      dap_strdup_printf (if DAP_OS_WINDOWS b then s +:+ "/var/lib/plugins/" else s +:+ "/var/lib/plugins") in
    path ← match l_plugins_path_override with
           | Some p => mret (Some p)
           | None => perform (dap_config_get_item_str_default "plugins" "path" l_plugins_path_default)
           end;
    rc_plugin_init ← perform (dap_plugin_init path);
    enabled ← (if negb (rc_plugin_init =z? 0) then
                 perform (log_it L_ERROR
                   ("The initial initialization for working with manifests and binary plugins failed. Error code "
                    +:+ pretty rc_plugin_init)) ;;
                 mret false
               else
                 (if DAP_SUPPORT_PYTHON_PLUGINS b then
                    perform (log_it L_NOTICE "Registering python plugin type") ;;
                    perform (Init dap_chain_plugins_init) ;; mret tt
                  else mret tt) ;;
                 perform (Void dap_plugin_load_all) ;;
                 perform (Void dap_plugin_preinit_all) ;;
                 mret true);
    delete B_plugins_path_default ;;
    mret enabled
  else mret false.

(** Networks, orders, cleaners and the automatic mempool processing. *)
Definition start_networks : eprog unit :=
  lift (perform (Void dap_chain_net_load_all)) ;?
  must L_CRITICAL dap_chain_wallet_shared_notify_init "Can't init dap chain wallet module" (-61) ;?
  (rc ← perform (Init dap_chain_net_srv_order_init);
   if negb (rc =z? 0) then ret_now (-67) else go_on tt) ;?
  must L_CRITICAL dap_chain_node_list_clean_init "Can't init node list clean" (-131) ;?
  must L_CRITICAL dap_global_db_clean_init "Can't init gdb clean and pin" (-133) ;?
  l_mempool_autoproc ←? lift (perform dap_chain_node_mempool_autoproc_init);
  lift (perform (log_it L_NOTICE ("Automatic mempool processing "
    +:+ (if l_mempool_autoproc : bool then "enabled" else "disabled")))).

(** The handlers of a listening server. *)
Definition setup_server b (l_server : server) : eprog unit :=
  lift (perform (enc_http_add_proc l_server ("/" +:+ DAP_UPLINK_PATH_ENC_INIT))) ;?
  lift (perform (dap_stream_add_proc_http l_server ("/" +:+ DAP_UPLINK_PATH_STREAM))) ;?
  lift (perform (dap_stream_ctl_add_proc l_server ("/" +:+ DAP_UPLINK_PATH_STREAM_CTL))) ;?
  str_start_mempool ←? lift (perform (dap_config_get_item_str "mempool" "accept"));
  (if match str_start_mempool with Some s => strcmp s "true" =z? 0 | None => false end
   then lift (perform (dap_chain_mempool_add_proc l_server MEMPOOL_URL)) else go_on tt) ;?
  (rc ← perform (dap_json_rpc_init l_server);
   if negb (rc =z? 0) then perform (log_it L_CRITICAL "Can't init json-rpc") ;; ret_now (-12) else go_on tt) ;?
  (if negb (DAP_OS_ANDROID b) then
     www ←? lift (perform (dap_config_get_item_bool_default "www" "enabled" false));
     if www : bool then
       root ←? lift (perform (dap_config_get_item_str "resources" "www_root"));
       lift (perform (dap_http_folder_add l_server "/" root))
     else go_on tt
   else go_on tt) ;?
  lift (perform (dap_server_set_default l_server)) ;?
  lift (perform (dap_http_simple_proc_add l_server ("/" +:+ DAP_UPLINK_PATH_NODE_LIST) 2048
                   dap_chain_net_node_check_http_issue_link)) ;?
  balancer ←? lift (perform (dap_config_get_item_bool_default "bootstrap_balancer" "http_server" false));
  (if balancer : bool then
     lift (perform (log_it L_DEBUG "HTTP balancer enabled")) ;?
     lift (perform (dap_http_simple_proc_add l_server ("/" +:+ DAP_UPLINK_PATH_BALANCER)
                      DAP_BALANCER_MAX_REPLY_SIZE dap_chain_net_balancer_http_issue_link))
   else go_on tt) ;?
  dns ←? lift (perform (dap_config_get_item_bool_default "bootstrap_balancer" "dns_server" false));
  if dns : bool then
    lift (perform (log_it L_DEBUG "DNS balancer enabled")) ;?
    lift (perform (dap_dns_server_start "bootstrap_balancer"))
  else go_on tt.

(** [l_server], with its handlers when it was created. *)
Definition start_server b (bServerEnabled : bool) : eprog (option server) :=
  l_server ←? (if bServerEnabled then
                 lift (name ← perform dap_get_appname; perform (dap_http_server_new "server" name))
               else go_on None);
  match l_server with
  | Some s => setup_server b s ;? go_on (Some s)
  | None => lift (perform (log_it L_INFO "No enabled server, working in client mode only")) ;? go_on None
  end.

(** [#if defined(DAP_OS_DARWIN) || ( defined(DAP_OS_LINUX) && ! defined (DAP_OS_ANDROID))]. *)
Definition has_vpn b : bool := DAP_OS_DARWIN b || (DAP_OS_LINUX b && negb (DAP_OS_ANDROID b)).

Definition start_vpn b : eprog unit :=
  if has_vpn b then
    vpn ←? lift (perform (dap_config_get_item_bool_default "srv_vpn" "enabled" false));
    (if vpn : bool then
       must L_ERROR dap_chain_net_srv_vpn_init "Can't init dap chain network service vpn module" (-70)
     else go_on tt) ;?
    must L_ERROR dap_chain_net_vpn_client_init "Can't init dap chain network service vpn client" (-72) ;?
    geoip ←? lift (perform (dap_config_get_item_bool_default "srv_vpn" "geoip_enabled" false));
    if geoip : bool then must L_CRITICAL chain_net_geoip_init "Can't init geoip module" (-73) else go_on tt
  else go_on tt.

(** The variables that are live when the event loop starts. *)
Record running := {
  g_config : config;
  bServerEnabled : bool;
  l_plugins_enabled : bool;
  l_server : option server
}.

(** Everything from the set-up to the event loop. *)
Definition start b sys (l_plugins_path_override : cstr) : eprog running :=
  cfg ←? open_config b sys;
  check_instance b sys ;?
  lift (configure_log l_plugins_path_override) ;?
  server_enabled ←? start_transport b;
  start_chain ;?
  start_services b ;?
  plugins_enabled ←? lift (start_plugins b sys l_plugins_path_override);
  start_networks ;?
  srv ←? start_server b server_enabled;
  start_vpn b ;?
  go_on {| g_config := cfg; bServerEnabled := server_enabled; l_plugins_enabled := plugins_enabled; l_server := srv |}.

(** The last steps before the event loop. *)
Definition go_online b (r : running) : nprog unit :=
  (if l_plugins_enabled r then
     (if DAP_SUPPORT_PYTHON_PLUGINS b then
        perform (dap_plugins_python_app_content_init (l_server r)) ;; mret tt
      else mret tt) ;;
     perform (Void dap_plugin_start_all) ;;
     (if DAP_SUPPORT_PYTHON_PLUGINS b then perform (Void dap_chain_plugins_save_thread) ;; mret tt else mret tt)
   else mret tt) ;;
  perform (Void dap_chain_net_try_online_all).

Fixpoint void_all (fs : list void_fn) : nprog unit :=
  match fs with
  | [] => mret tt
  | f :: fs' => perform (Void f) ;; void_all fs'
  end.

(** The shut-down after the event loop. *)
Definition shutdown b (r : running) : nprog unit :=
  (if l_plugins_enabled r then void_all [dap_plugin_stop_all; dap_plugin_deinit] else mret tt) ;;
  void_all [dap_dns_server_stop; dap_stream_deinit; dap_stream_ctl_deinit] ;;
  (if negb (DAP_OS_ANDROID b) then void_all [dap_http_folder_deinit] else mret tt) ;;
  void_all [dap_http_deinit] ;;
  (if bServerEnabled r then void_all [dap_server_deinit] else mret tt) ;;
  void_all [dap_enc_ks_deinit; dap_chain_node_mempool_autoproc_deinit; dap_chain_net_srv_xchange_deinit;
            dap_chain_net_srv_stake_pos_delegate_deinit; dap_chain_net_srv_stake_lock_deinit;
            dap_chain_net_srv_bridge_deinit; dap_chain_net_srv_voting_deinit; dap_chain_net_deinit;
            dap_global_db_deinit; dap_chain_deinit] ;;
  perform (dap_config_close (g_config r)) ;;
  void_all [dap_interval_timer_deinit; dap_common_deinit] ;;
  delete B_plugins_path_override.

(** From the event loop to the value returned; [int] overflow is undefined. *)
Definition loop b (r : running) : nprog Z :=
  rc ← perform dap_events_wait;
  perform (log_it L_INFO ("Server loop stopped with return code " +:+ pretty rc)) ;;
  shutdown b r ;;
  if int_range (rc * 10) then mret (rc * 10) else Undef.

(** [main] once [g_sys_dir_path] is known. *)
Definition node_run b sys (l_plugins_path_override : cstr) : nprog Z :=
  res ← start b sys l_plugins_path_override;
  match res with
  | inl z => mret z
  | inr r => go_online b r ;; loop b r
  end.

(** [main] after the test for [-version]. *)
Definition node_main b (g_sys_dir_path : cstr) argv : nprog Z :=
  perform (dap_set_appname NODE_NAME) ;;
  (if _WIN32 b && NDEBUG b then Win32.S_SetExceptionFilter b else mret tt) ;;
  g_sys_dir_path ← (if DAP_OS_ANDROID b then mret g_sys_dir_path
                    else has ← has_B argv;
                         if has : bool then a2 ← arg argv 2; mret (dap_strdup a2) else mret g_sys_dir_path);
  l_plugins_path_arg ← plugins_path_arg b argv;
  l_plugins_path_override ← plugins_path_override l_plugins_path_arg;
  g_sys_dir_path ← match g_sys_dir_path with
                   | Some s => mret (Some s)
                   | None => node_default_sys_dir b
                   end;
  node_run b g_sys_dir_path l_plugins_path_override.

(** [argv[1] && !dap_strcmp("-version", argv[1])]. *)
Definition asks_version argv : nprog bool :=
  a1 ← arg argv 1;
  mret match a1 with Some _ => dap_strcmp (Some "-version") a1 =z? 0 | None => false end.

Definition main b (g_sys_dir_path : cstr) argv : nprog Z :=
  version ← asks_version argv;
  if version : bool then print (dap_node_version b +:+ NL) ;; mret 0
  else node_main b g_sys_dir_path argv.

(** ** Failures and the event loop in a trace *)

(** The code [main] returns when this initialiser fails; [None]: it goes on. *)
Definition init_code (f : init_fn) : option Z :=
  match f with
  | dap_enc_init => Some (-56) | dap_server_init => Some (-4) | dap_http_init => Some (-5)
  | dap_http_folder_init => Some (-55) | dap_http_simple_module_init => Some (-9) | enc_http_init => Some (-81)
  | dap_stream_init => Some (-82) | dap_stream_ctl_init => Some (-83) | dap_global_db_init => Some (-58)
  | dap_datum_mempool_init => Some (-59) | dap_chain_init => Some (-60) | dap_chain_cs_dag_init => Some (-62)
  | dap_chain_cs_dag_poa_init => Some (-63) | dap_chain_cs_blocks_init => Some (-62)
  | dap_chain_cs_esbocs_init => Some (-69) | dap_nonconsensus_init => Some (-71) | dap_chain_net_init => Some (-65)
  | dap_chain_policy_init => Some (-66) | dap_chain_wallet_init => Some (-61) | dap_chain_net_srv_init => Some (-66)
  | dap_chain_node_cli_init => Some (-11) | dap_chain_wallet_cache_init => Some (-61)
  | dap_chain_wallet_shared_notify_init => Some (-61) | dap_chain_net_srv_order_init => Some (-67)
  | dap_chain_node_list_clean_init => Some (-131) | dap_global_db_clean_init => Some (-133)
  | dap_chain_net_srv_vpn_init => Some (-70) | dap_chain_net_vpn_client_init => Some (-72)
  | chain_net_geoip_init => Some (-73)
  | _ => None
  end.

(** The code of an answer that stops the start-up. *)
Definition node_failure (e : nevent) : option Z :=
  match e with
  | Ev (Init f) r => if r =z? 0 then None else init_code f
  | Ev (dap_dir_test _) ok => if ok then None else Some (-1)
  | Ev (dap_mkdir_with_parents _) r => if r =z? 0 then None else Some (-2)
  | Ev (dap_common_init _ _) r => if r =z? 0 then None else Some (-3)
  | Ev (dap_config_init _) r => if r =z? 0 then None else Some (-4)
  | Ev (dap_config_open _) None => Some (-5)
  | Ev (fopen _ mode) None => if mode =s? "w" then Some 2 else None
  | Ev (freopen _ _ _) None => Some 2
  | Ev (lockf _ F_TEST _) r => if r =z? -1 then Some 2 else None
  | Ev (lockf _ F_TLOCK _) r => if r =z? 0 then None else Some 2
  | Ev GetLastError r => if r =z? ERROR_ALREADY_EXISTS then Some 2 else None
  | Ev (SetConsoleCtrlHandler _) ok => if ok then None else Some (-12)
  | Ev (dap_json_rpc_init _) r => if r =z? 0 then None else Some (-12)
  | _ => None
  end.

Definition failures (tr : ntrace) : list Z := omap node_failure tr.

(** The results of the event loop. *)
Definition waits (tr : ntrace) : list Z :=
  omap (λ e : nevent, match e return option Z with Ev dap_events_wait r => Some r | _ => None end) tr.

(** The parts of the node that are shut down only if they were started. *)
Inductive part := Server | Plugins.

Definition part_started (e : nevent) : option part :=
  match e with
  | Ev (Init dap_server_init) r => if r =z? 0 then Some Server else None
  | Ev (dap_plugin_init _) r => if r =z? 0 then Some Plugins else None
  | _ => None
  end.

(** The parts successfully started, in order. *)
Definition parts (tr : ntrace) : list part := omap part_started tr.

(** A trace that starts neither. *)
Definition plain (tr : ntrace) : Prop := parts tr = [].

(** [steps Q p]: in every execution of [p] the event loop is not entered; an
    early return happens at the first failure and returns its code; otherwise
    nothing failed and the value and the trace satisfy [Q]. *)
Definition steps {A} (Q : A → ntrace → Prop) (p : eprog A) : Prop :=
  all (λ tr o, match o with
               | Returned (inl z) => waits tr = [] ∧ failures tr = [z]
               | Returned (inr a) => waits tr = [] ∧ failures tr = [] ∧ Q a tr
               | Exited _ => False
               | Undefined => True
               end) p.

(** The same for a part without early returns. *)
Definition calm {A} (Q : A → ntrace → Prop) (p : nprog A) : Prop :=
  all (λ tr o, match o with
               | Returned a => waits tr = [] ∧ failures tr = [] ∧ Q a tr
               | Exited _ => False
               | Undefined => True
               end) p.

Lemma failures_app tr1 tr2 : failures (tr1 ++ tr2) = failures tr1 ++ failures tr2.
Proof. apply omap_app. Qed.

Lemma parts_app tr1 tr2 : parts (tr1 ++ tr2) = parts tr1 ++ parts tr2.
Proof. apply omap_app. Qed.

Lemma waits_app tr1 tr2 : waits (tr1 ++ tr2) = waits tr1 ++ waits tr2.
Proof. apply omap_app. Qed.

Lemma steps_mono {A} (Q R : A → ntrace → Prop) p : (∀ a tr, Q a tr → R a tr) → steps Q p → steps R p.
Proof. intros HQR. apply all_mono. intros tr [[z|a]|z|]; try done. intros (? & ? & ?). auto. Qed.

Lemma steps_bind {A B} (R : A → ntrace → Prop) (Q : B → ntrace → Prop) (p : eprog A) (f : A → eprog B) :
  steps R p → (∀ a tr, R a tr → steps (λ x tr', Q x (tr ++ tr')) (f a)) → steps Q (ebind p f).
Proof.
  intros Hp Hf. apply all_bind. eapply all_mono; [|exact Hp].
  intros tr [[z|a]|z|]; try done.
  - intros [Hw Hz]. simpl. by rewrite app_nil_r.
  - intros (Hw & Hz & HR). eapply all_mono; [|exact (Hf a tr HR)].
    intros tr' [[z|x]|z|]; try done; rewrite waits_app, failures_app, Hw, Hz; done.
Qed.

(** Sequencing of phases that start neither part. *)
Lemma steps_seq {A B} (p : eprog A) (f : A → eprog B) :
  steps (λ _, plain) p → (∀ a, steps (λ _, plain) (f a)) → steps (λ _, plain) (ebind p f).
Proof.
  intros Hp Hf. eapply steps_bind; [exact Hp|]. intros a tr Htr. eapply steps_mono; [|apply Hf].
  intros x tr' Htr'. unfold plain in *. by rewrite parts_app, Htr, Htr'.
Qed.

(** [grows ps P p]: with the parts [ps] started before, [P] gives those
    started when [p] goes on. *)
Definition grows {A} (ps : list part) (P : A → list part) (p : eprog A) : Prop :=
  steps (λ x tr, ps ++ parts tr = P x) p.

Lemma grows_bind {A B} ps (R : A → list part) (P : B → list part) (p : eprog A) (f : A → eprog B) :
  steps (λ x tr, parts tr = R x) p → (∀ a, grows (ps ++ R a) P (f a)) → grows ps P (ebind p f).
Proof.
  intros Hp Hf. eapply steps_bind; [exact Hp|]. intros a tr Htr. eapply steps_mono; [|apply Hf].
  intros x tr' <-. by rewrite parts_app, Htr, app_assoc.
Qed.

(** A phase that starts neither. *)
Lemma grows_plain {A B} ps (P : B → list part) (p : eprog A) (f : A → eprog B) :
  steps (λ _, plain) p → (∀ a, grows ps P (f a)) → grows ps P (ebind p f).
Proof. intros Hp Hf. apply (grows_bind ps (λ _, [])); [exact Hp|]. intros a. rewrite app_nil_r. apply Hf. Qed.

Lemma steps_lift {A} (Q : A → ntrace → Prop) (p : nprog A) : calm Q p → steps Q (lift p).
Proof.
  intros Hp. apply all_bind. eapply all_mono; [|exact Hp].
  intros tr [a|z|]; try done. simpl. by rewrite app_nil_r.
Qed.

Lemma steps_go_on {A} (Q : A → ntrace → Prop) a : Q a [] → steps Q (go_on a).
Proof. by intros HQ. Qed.

Lemma grows_go_on {A} ps (P : A → list part) a : ps = P a → grows ps P (go_on a).
Proof. intros Hps. apply steps_go_on. by rewrite app_nil_r. Qed.

Lemma steps_must (Q : unit → ntrace → Prop) lvl f msg code :
  init_code f = Some code → Q tt [Ev (Init f) 0] → steps Q (must lvl f msg code).
Proof.
  intros Hf HQ rc. destruct (Z.eqb_spec rc 0) as [->|Hrc]; simpl; [by auto|].
  apply Z.eqb_neq in Hrc. rewrite Hrc. intros []. by rewrite Hf.
Qed.

Lemma steps_may f msg : init_code f = None → steps (λ _, plain) (may f msg).
Proof.
  intros Hf. assert (f ≠ dap_server_init) as Hne by (by intros ->).
  intros rc. destruct (rc =z? 0) eqn:Hrc; simpl; rewrite Hrc; [by destruct f|]. intros []. simpl. rewrite Hf. by destruct f.
Qed.

Lemma steps_perform c (Q : ret c → ntrace → Prop) :
  (∀ r, node_failure (Ev c r) = None ∧ waits [Ev c r] = []) → (∀ r, Q r [Ev c r]) → steps Q (lift (perform c)).
Proof. intros Hc HQ r. destruct (Hc r) as [H1 H2]. simpl in *. rewrite H1. auto. Qed.

(** A part whose result is 0 or tells that something failed. *)
Definition coded (code : Z → Z) (p : nprog Z) : Prop :=
  all (λ tr o, match o with
               | Returned z => waits tr = [] ∧ plain tr ∧ failures tr = if z =z? 0 then [] else [code z]
               | Exited _ => False
               | Undefined => True
               end) p.

Lemma steps_coded {A} code p (f : Z → eprog A) :
  coded code p → steps (λ _, plain) (f 0) →
  (∀ z, z ≠ 0 → all (λ tr o, waits tr = [] ∧ failures tr = [] ∧ o = Returned (inl (code z))) (f z)) →
  steps (λ _, plain) (p ≫= f).
Proof.
  intros Hp H0 Hz. apply all_bind. eapply all_mono; [|exact Hp].
  intros tr [z|z|]; try done. destruct (Z.eqb_spec z 0) as [->|Hne]; intros (Hw & Hpl & Hf).
  - eapply all_mono; [|exact H0]. unfold plain in *.
    intros tr' [[z|x]|z|]; try done; rewrite waits_app, failures_app, ?parts_app, Hw, Hf, ?Hpl; done.
  - eapply all_mono; [|exact (Hz z Hne)]. intros tr' o' (Hw' & Hf' & ->).
    by rewrite waits_app, failures_app, Hw, Hf, Hw', Hf'.
Qed.

(** Runs a program and replays its tests in the predicate. *)
Ltac run_tests :=
  psteps;
  repeat match goal with
         | H : negb _ = true |- _ => apply negb_true_iff in H
         | H : negb _ = false |- _ => apply negb_false_iff in H
         end;
  use_tests.

Lemma setup_coded b sys : coded id (setup b sys).
Proof.
  unfold setup, deref, snprintf, snprintf_at, coded.
  run_tests.
Qed.

Lemma check_coded b path : coded (λ _, 2) (s_proc_running_check b path).
Proof.
  unfold s_proc_running_check, held_by_other, write_pid, deref, coded.
  run_tests; match goal with |- context [?r =z? 0] => by destruct (r =z? 0) end.
Qed.

(** One step of the walk along a start-up phase. *)
Ltac seq_step :=
  lazymatch goal with
  | |- steps _ (ebind _ _) => apply steps_seq; [|intros ?]
  | |- steps _ (must _ _ _ _) => by apply steps_must
  | |- steps _ (may _ _) => by apply steps_may
  | |- steps _ (lift (perform _)) => apply steps_perform; [by repeat split|done]
  | |- steps _ (go_on _) => by apply steps_go_on
  | |- steps _ (if ?b then _ else _) => destruct b eqn:?
  end.
Ltac seq := repeat seq_step.

Lemma open_config_steps b sys : steps (λ _, plain) (open_config b sys).
Proof.
  eapply steps_coded; [apply setup_coded| |]; simpl.
  - intros name r. destruct r; simpl; [done|]. by intros name' [] [].
  - intros z Hz. apply Z.eqb_neq in Hz. by rewrite Hz; intros [].
Qed.

Lemma check_instance_steps b sys : steps (λ _, plain) (check_instance b sys).
Proof.
  assert (∀ path, steps (λ _, plain)
    (r ← s_proc_running_check b path; delete B_pid_file_path ;; if negb (r =z? 0) then ret_now 2 else go_on tt)) as Hu.
  { intros path. eapply steps_coded; [apply check_coded| |]; simpl; [by intros []|].
    intros z Hz []. apply Z.eqb_neq in Hz. by rewrite Hz. }
  unfold check_instance. destruct (DAP_OS_WINDOWS b).
  - eapply steps_coded; [apply check_coded| |]; simpl; [done|].
    intros z Hz. apply Z.eqb_neq in Hz. by rewrite Hz; intros [].
  - destruct sys as [s|]; [|done].
    change (deref (Some s)) with (@Ret call ret string s). cbn [mbind prog_bind prog_bind_].
    destruct (snprintf (MAX_PATH + 1) (s +:+ "/tmp")).2 as [dir|]; [|done]. intros path. eapply all_mono; [|apply (Hu path)]. by intros tr [[]|?|].
Qed.

Lemma configure_log_calm p : calm (λ _, plain) (configure_log p).
Proof. unfold configure_log, calm. psteps; done. Qed.

(** The parts a flag stands for. *)
Definition part_if (b : bool) (p : part) : list part := if b then [p] else [].

Lemma start_transport_steps b : grows [] (λ srv, part_if srv Server) (start_transport b).
Proof.
  unfold start_transport. do 5 (apply grows_plain; [seq|intros ?]).
  apply (grows_bind _ (λ _, part_if a3 Server)).
  - destruct a3; [by apply steps_must|by apply steps_go_on].
  - intros []. do 8 (apply grows_plain; [seq|intros ?]). by apply grows_go_on.
Qed.

Lemma start_chain_steps : steps (λ _, plain) start_chain.
Proof. unfold start_chain. seq. Qed.

Lemma start_signals_steps b : steps (λ _, plain) (start_signals b).
Proof.
  unfold start_signals. destruct (_WIN32 b); simpl negb; cbv iota.
  - apply (steps_coded (λ _, -12) (Win32.sig_win32_handler_init None)).
    + intros ok. by destruct ok.
    + done.
    + intros z Hz. apply Z.eqb_neq in Hz. rewrite Hz. by intros [].
  - seq_step; [seq|]. seq_step; [seq|]. apply (steps_bind (λ r tr, r.1 = 0 ∧ plain tr)).
    + apply steps_lift. unfold Unix.sig_unix_handler_init, deref, calm. psteps; done.
    + intros [z p] tr' [Hz Hp]. simpl in Hz. subst z. apply steps_go_on. by rewrite app_nil_r.
Qed.

Lemma start_services_steps b : steps (λ _, plain) (start_services b).
Proof. unfold start_services. seq; apply start_signals_steps. Qed.

Lemma start_plugins_calm b sys p :
  calm (λ en tr, parts tr = part_if en Plugins) (start_plugins b sys p).
Proof.
  unfold start_plugins, deref, calm, part_if.
  run_tests; match goal with |- context [?r =z? 0] => by destruct (r =z? 0) end.
Qed.

Lemma start_networks_steps : steps (λ _, plain) start_networks.
Proof.
  unfold start_networks. seq. intros rc. destruct (rc =z? 0) eqn:Hrc; simpl; by rewrite Hrc.
Qed.

Lemma setup_server_steps b srv : steps (λ _, plain) (setup_server b srv).
Proof.
  unfold setup_server. seq.
  intros rc. destruct (rc =z? 0) eqn:Hrc; simpl; rewrite Hrc; [done|]. by intros [].
Qed.

Lemma start_server_steps b en : steps (λ _, plain) (start_server b en).
Proof.
  unfold start_server. seq_step.
  - destruct en; [|by apply steps_go_on]. apply steps_lift. by intros name srv.
  - destruct a as [srv|]; seq. apply setup_server_steps.
Qed.

Lemma start_vpn_steps b : steps (λ _, plain) (start_vpn b).
Proof. unfold start_vpn. seq. Qed.

(** The parts the shut-down will stop. *)
Definition live_parts (r : running) : list part :=
  part_if (bServerEnabled r) Server ++ part_if (l_plugins_enabled r) Plugins.

(** The start-up as a whole. *)
Lemma start_steps b sys p : grows [] live_parts (start b sys p).
Proof.
  unfold start. apply grows_plain; [apply open_config_steps|intros cfg].
  apply grows_plain; [apply check_instance_steps|intros []].
  apply grows_plain; [apply steps_lift, configure_log_calm|intros []].
  eapply grows_bind; [apply start_transport_steps|intros srv].
  apply grows_plain; [apply start_chain_steps|intros []].
  apply grows_plain; [apply start_services_steps|intros []].
  eapply grows_bind; [apply steps_lift, start_plugins_calm|intros pl].
  apply grows_plain; [apply start_networks_steps|intros []].
  apply grows_plain; [apply start_server_steps|intros s].
  apply grows_plain; [apply start_vpn_steps|intros []].
  by apply grows_go_on.
Qed.

(** ** The shut-down *)
Definition shutdown_calls b (r : running) : list call :=
  (if l_plugins_enabled r then Void <$> [dap_plugin_stop_all; dap_plugin_deinit] else [])
  ++ (Void <$> [dap_dns_server_stop; dap_stream_deinit; dap_stream_ctl_deinit])
  ++ (if DAP_OS_ANDROID b then [] else [Void dap_http_folder_deinit])
  ++ [Void dap_http_deinit]
  ++ (if bServerEnabled r then [Void dap_server_deinit] else [])
  ++ (Void <$> [dap_enc_ks_deinit; dap_chain_node_mempool_autoproc_deinit; dap_chain_net_srv_xchange_deinit;
                dap_chain_net_srv_stake_pos_delegate_deinit; dap_chain_net_srv_stake_lock_deinit;
                dap_chain_net_srv_bridge_deinit; dap_chain_net_srv_voting_deinit; dap_chain_net_deinit;
                dap_global_db_deinit; dap_chain_deinit])
  ++ [dap_config_close (g_config r); Void dap_interval_timer_deinit; Void dap_common_deinit;
      DAP_DELETE B_plugins_path_override].

Lemma shutdown_spec b r :
  all (λ tr o, o = Returned tt ∧ ev_call <$> tr = shutdown_calls b r ∧ waits tr = [] ∧ failures tr = []) (shutdown b r).
Proof.
  unfold shutdown, shutdown_calls.
  destruct (l_plugins_enabled r), (DAP_OS_ANDROID b), (bServerEnabled r); simpl; repeat intros []; done.
Qed.

Lemma loop_spec b r :
  all (λ tr o, ∃ rc msg tr', tr = Ev dap_events_wait rc :: msg :: tr' ∧ waits (msg :: tr') = [] ∧ failures (msg :: tr') = []
                         ∧ ev_call <$> tr' = shutdown_calls b r
                         ∧ o = if int_range (rc * 10) then Returned (rc * 10) else Undefined) (loop b r).
Proof.
  intros rc []. apply (all_bind _ (shutdown b r)). eapply all_mono; [|apply shutdown_spec].
  intros tr o (-> & Hc & Hw & Hf). destruct (int_range (rc * 10)) eqn:Hi; simpl; rewrite app_nil_r;
    eexists rc, _, tr; rewrite Hi; split_and!; done.
Qed.

Lemma go_online_calm b r : calm (λ _, plain) (go_online b r).
Proof. unfold go_online, calm. psteps; done. Qed.

(** The two ways [main] ends. *)
Definition node_spec b (tr : ntrace) (o : outcome Z) : Prop :=
  o = Undefined ∨
  (∃ z, o = Returned z ∧ failures tr = [z] ∧ waits tr = []) ∨
  (∃ rc r tr1 msg tr2,
     o = Returned (rc * 10) ∧ failures tr = [] ∧ waits tr = [rc] ∧
     tr = tr1 ++ Ev dap_events_wait rc :: msg :: tr2 ∧ ev_call <$> tr2 = shutdown_calls b r ∧
     parts tr1 = live_parts r).

Lemma node_run_spec b sys p : all (node_spec b) (node_run b sys p).
Proof.
  apply (all_bind _ (start b sys p)). eapply all_mono; [|apply start_steps].
  intros tr [[z|r]|z|]; simpl; try done; [|intros (Hw & Hf & Hp)|by left].
  { intros [Hw Hf]. right; left. exists z. by rewrite app_nil_r. }
  apply (all_bind _ (go_online b r)). eapply all_mono; [|apply go_online_calm].
  intros tr1 [[]|z|]; try done; [|by left]. intros (Hw1 & Hf1 & Hp1).
  eapply all_mono; [|apply loop_spec]. intros tr2 o (rc & msg & tr3 & -> & Hw2 & Hf2 & Hc & ->).
  destruct (int_range (rc * 10)); [|by left]. right; right. exists rc, r, (tr ++ tr1), msg, tr3.
  unfold plain in Hp1. rewrite app_assoc, !failures_app, !waits_app, Hf, Hf1, Hw, Hw1.
  simpl in *. rewrite Hw2. split_and!; try done. by rewrite parts_app, Hp, Hp1, app_nil_r.
Qed.

(** Calls in front that neither fail nor wait nor start a part. *)
Lemma node_spec_calm {A} b (p : nprog A) (f : A → nprog Z) :
  calm (λ _, plain) p → (∀ a, all (node_spec b) (f a)) → all (node_spec b) (p ≫= f).
Proof.
  intros Hp Hf. apply all_bind. eapply all_mono; [|exact Hp].
  intros tr [a|z|]; try done; [|by left]. intros (Hw & Hfl & Hpl). eapply all_mono; [|exact (Hf a)].
  intros tr' o [Ho|[(z & Ho & Hz & Hw')|(rc & r & tr1 & msg & tr2 & Ho & Hz & Hw' & -> & Hc & Hs)]];
    [by left|right; left; exists z; by rewrite failures_app, waits_app, Hw, Hfl|].
  right; right. exists rc, r, (tr ++ tr1), msg, tr2.
  unfold plain in Hpl. by rewrite <-app_assoc, failures_app, waits_app, parts_app, Hw, Hfl, Hpl.
Qed.

Lemma node_main_spec b g argv : all (node_spec b) (node_main b g argv).
Proof.
  unfold node_main. apply node_spec_calm; [by intros []|]. intros [].
  apply node_spec_calm; [unfold Win32.S_SetExceptionFilter, calm; by psteps|]. intros [].
  apply node_spec_calm.
  { unfold has_B, arg, deref, calm. psteps; done. }
  intros g'. apply node_spec_calm; [unfold plugins_path_arg, calm; by psteps|].
  intros parg. apply node_spec_calm; [unfold plugins_path_override, calm; by psteps|].
  intros p. apply node_spec_calm; [unfold node_default_sys_dir, calm; by psteps|].
  intros sys. apply node_run_spec.
Qed.

(** [main] on each shape of the command line. *)
Lemma asks_version_ref {L : DapLaws D} argv :
  asks_version argv =
    match argv with
    | [] => Undef
    | [_] => Ret false
    | _ :: a1 :: _ => Ret (bool_decide (a1 = "-version"))
    end.
Proof.
  destruct argv as [|a0 [|a1 argv]]; [done..|]. unfold asks_version.
  rewrite (arg_lookup (a0 :: a1 :: argv) 1 a1 eq_refl). simpl. unfold mret, prog_ret. f_equal.
  apply eq_iff_eq_true. rewrite Z.eqb_eq, bool_decide_eq_true, dap_strcmp_eq. naive_solver.
Qed.

Lemma main_node_spec {L : DapLaws D} b g argv :
  all (λ tr o, node_spec b tr o ∨
               argv !! 1%nat = Some "-version" ∧ o = Returned 0
               ∧ tr = [Ev (printf (dap_node_version b +:+ NL)) tt]) (main b g argv).
Proof.
  assert (∀ l : list string, all (λ tr o, node_spec b tr o ∨ l !! 1%nat = Some "-version" ∧ o = Returned 0
               ∧ tr = [Ev (printf (dap_node_version b +:+ NL)) tt]) (node_main b g argv)) as Hl.
  { intros l. eapply all_mono; [|apply node_main_spec]. by left. }
  unfold main. rewrite asks_version_ref. destruct argv as [|a0 [|a1 argv]].
  - by left; left.
  - apply (Hl [a0]).
  - cbn [mbind prog_bind prog_bind_]. case_bool_decide as Ha; [|apply (Hl (a0 :: a1 :: argv))].
    intros []. right. by rewrite Ha.
Qed.

(** ** Paths *)

(** Appending to a buffer that already holds [a] is formatting the whole. *)
Lemma snprintf_at_append a t size :
  (strlen a < size)%nat → snprintf_at a size (strlen a) t = (snprintf size (a +:+ t)).2.
Proof.
  unfold snprintf_at, strlen. intros Hs. destruct (Nat.ltb_spec size (String.length a)); [lia|].
  destruct size as [|n]; [lia|]. simpl. destruct (S n - String.length a)%nat as [|m] eqn:Hm; [lia|].
  f_equal. rewrite (substring_all a) by lia.
  assert (n = String.length a + m)%nat as -> by lia. clear Hs Hm H.
  induction a as [|c a IH]; simpl; [done|]. by rewrite string_app_cons, IH.
Qed.

(** The log files [dap_common_init] was given. *)
Definition log_paths (tr : ntrace) : list cstr :=
  omap (λ e : nevent, match ev_call e with dap_common_init _ p => Some p | _ => None end) tr.

Definition appname_is (n : string) (e : nevent) : Prop :=
  match e with Ev dap_get_appname r => r = n | _ => True end.

Lemma setup_path_safe b s :
  (strlen s + 8 ≤ MAX_PATH + 1)%nat → all (λ _ o, o ≠ Undefined) (setup b (Some s)).
Proof.
  intros Hs. unfold setup. simpl. rewrite Nat.add_comm in *. simpl in *. unfold snprintf_at, deref.
  assert (strlen (s +:+ "/var/log") = strlen s + 8)%nat as Hl by (unfold strlen; by rewrite string_length_app).
  rewrite Hl, Nat2Z.id. destruct (Nat.ltb_spec (S MAX_PATH) (strlen s + 8)); [lia|].
  psteps; try done. by destruct (S MAX_PATH - _)%nat.
Qed.

Lemma setup_path_overflow b s :
  (MAX_PATH + 1 < strlen s + 8)%nat → all (λ tr o, failures tr = [] → o = Undefined) (setup b (Some s)).
Proof.
  intros Hs. unfold setup. simpl. rewrite Nat.add_comm in *. simpl in *. unfold snprintf_at, deref.
  assert (strlen (s +:+ "/var/log") = strlen s + 8)%nat as Hl by (unfold strlen; by rewrite string_length_app).
  rewrite Hl, Nat2Z.id. destruct (Nat.ltb_spec (S MAX_PATH) (strlen s + 8)); [|lia].
  run_tests; intros; try done; repeat case_match; done.
Qed.

#[local] Opaque snprintf.
Lemma setup_log_path b s n :
  (strlen s + 8 ≤ MAX_PATH)%nat →
  all (λ tr o, Forall (appname_is n) tr →
               Forall (λ p, p = (snprintf (MAX_PATH + 1) (s +:+ "/var/log" +:+ "/" +:+ n +:+ ".log")).2) (log_paths tr))
    (setup b (Some s)).
Proof.
  intros Hs. unfold setup. cbn [deref mbind prog_bind prog_bind_].
  assert (strlen (s +:+ "/var/log") < MAX_PATH + 1)%nat as Hl by (unfold strlen in *; rewrite string_length_app; simpl; lia).
  intros ok. destruct ok; simpl; [|intros [] _; constructor]. rewrite (snprintf_fits _ _ Hl). intros rc. simpl. destruct (negb (rc =z? 0)); [intros e [] _; constructor|]. intros name.
  rewrite Nat2Z.id, (snprintf_at_append _ _ _ Hl), <-string_app_assoc.
  destruct (decide (name = n)) as [->|Hne].
  - unfold deref. psteps; repeat constructor; by match goal with H : _.2 = Some _ |- _ => rewrite H end.
  - apply all_exec. intros tr o _ Htr. do 2 apply Forall_inv_tail in Htr. by apply Forall_inv in Htr.
Qed.
#[local] Transparent snprintf.

(** ** Plugins, log rotation, server *)

(** The directories the plugin system was started on. *)
Definition plugin_paths (tr : ntrace) : list cstr :=
  omap (λ e : nevent, match ev_call e with dap_plugin_init p => Some p | _ => None end) tr.

Definition config_str (section key : string) (tr : ntrace) : list cstr :=
  omap (λ e : nevent, match e return option cstr with
                      | Ev (dap_config_get_item_str_default s k _) r => if (s =s? section) && (k =s? key) then Some r else None
                      | Ev (dap_config_get_item_str s k) r => if (s =s? section) && (k =s? key) then Some r else None
                      | _ => None
                      end) tr.

Lemma plugins_paths b sys ov :
  all (λ tr o, Forall (λ p, match ov with Some _ => p = ov | None => config_str "plugins" "path" tr = [p] end)
                 (plugin_paths tr)) (start_plugins b sys ov).
Proof. unfold start_plugins, deref. psteps; repeat constructor. Qed.

(** What the option gives, as a function of [$HOME]. *)
Definition override_ref (home : cstr) (opt : string) : string :=
  match home with
  | Some h => if is_home_path opt then h +:+ String.substring 1 (String.length opt) opt else opt
  | None => opt
  end.

Lemma override_spec {L : DapLaws D} opt :
  all (λ tr o, ∀ home, Forall (λ e : nevent, match e with Ev (getenv "HOME") r => r = home | _ => True end) tr →
                       o = Returned (Some (override_ref home opt))) (plugins_path_override (Some opt)).
Proof.
  unfold plugins_path_override, override_ref. destruct (is_home_path opt).
  - intros h home Hh. apply Forall_inv in Hh. simpl in Hh. subst home.
    destruct h; by rewrite ?dap_strdup_printf_eq, ?dap_strdup_eq.
  - intros home _. rewrite dap_strdup_eq. by destruct home.
Qed.

(** The rotation settings used. *)
Definition rotations (tr : ntrace) : list (Z * Z) :=
  omap (λ e : nevent, match ev_call e with dap_common_enable_cleaner_log t m => Some (t, m) | _ => None end) tr.

Definition rotation_config (tr : ntrace) : list Z :=
  omap (λ e : nevent, match e return option Z with Ev (dap_config_get_item_int64 _ _) r => Some r | _ => None end) tr.

Lemma rotation_spec p :
  all (λ tr o, rotations tr = match rotation_config tr with
                              | [t; m] => [(size_t (size_t t * 60000), size_t m)]
                              | _ => []
                              end) (configure_log p).
Proof. unfold configure_log. psteps; done. Qed.

Lemma size_t_small z : 0 ≤ z < 2 ^ SIZE_WIDTH → size_t z = z.
Proof. apply Z.mod_small. Qed.

(** The mempool handler was registered. *)
Definition mempool_open (tr : ntrace) : bool :=
  some_ev (λ e : nevent, match ev_call e with dap_chain_mempool_add_proc _ _ => true | _ => false end) tr.

(** The test of [mempool.accept]. *)
Definition accepts (v : cstr) : bool := match v with Some s => strcmp s "true" =z? 0 | None => false end.

Lemma accepts_true v :
  match v with Some t => nul_free t = true | None => True end → accepts v = bool_decide (v = Some "true").
Proof.
  destruct v as [t|]; [|done]. simpl. intros Ht.
  apply eq_iff_eq_true. rewrite Z.eqb_eq, bool_decide_eq_true, strcmp_eq by done. naive_solver.
Qed.

Lemma setup_server_gate b s :
  all (λ tr o, ∃ v, config_str "mempool" "accept" tr = [v] ∧ mempool_open tr = accepts v) (setup_server b s).
Proof.
  unfold setup_server, lift, ebind, ret_now, go_on. intros [] [] [] acc.
  change (match acc with Some s => strcmp s "true" =z? 0 | None => false end) with (accepts acc).
  destruct (accepts acc) eqn:Ha; psteps; by exists acc.
Qed.

(** ** Exit statuses *)
Lemma failure_status e z : node_failure e = Some z → exit_status z ≠ 0.
Proof. destruct e as [c r]. destruct c; simpl; unfold init_code; repeat case_match; intros; by simplify_eq. Qed.

Lemma failures_status tr z : failures tr = [z] → exit_status z ≠ 0.
Proof.
  intros Hf. assert (z ∈ failures tr) as Hz by (rewrite Hf; left).
  apply list_elem_of_omap in Hz as (e & _ & He). by eapply failure_status.
Qed.

(** ** Absence of undefined behaviour *)

(** Answers under which the daemon is safe: the installation directory fits the
    path buffer, a configuration item with a default is not NULL, and ten times
    the result of the event loop is an [int]. *)
Definition node_wf (e : nevent) : bool :=
  match e with
  | Ev (dap_dir_test (Some s)) _ => (strlen s + 8 <=? MAX_PATH + 1)%nat
  | Ev (dap_config_get_item_str_default _ _ (Some _)) r => bool_decide (is_Some r)
  | Ev dap_events_wait rc => int_range (rc * 10)
  | _ => true
  end.

Lemma safe_ebind {A B} (p : eprog A) (f : A → eprog B) :
  safe node_wf p → (∀ a, safe node_wf (f a)) → safe node_wf (ebind p f).
Proof. intros Hp Hf. apply safe_bind; [done|]. intros [z|a]; [apply safe_ret|apply Hf]. Qed.

Lemma safe_lift {A} (p : nprog A) : safe node_wf p → safe node_wf (lift p).
Proof. intros Hp. apply safe_bind; [done|]. intros a. apply safe_ret. Qed.

Lemma safe_ecall {A} c (f : ret c → eprog A) :
  (∀ r, node_wf (Ev c r) = true → safe node_wf (f r)) → safe node_wf (ebind (lift (perform c)) f).
Proof. apply (safe_call node_wf c f). Qed.

(** One step of the walk; [must], [may] and the rest unfold to it. *)
Ltac node_safe_step :=
  lazymatch goal with
  | |- safe _ (Ret _) => apply safe_ret
  | |- safe _ (mret _) => apply safe_ret
  | |- safe _ (ret_now _) => apply safe_ret
  | |- safe _ (go_on _) => apply safe_ret
  | |- safe _ (ebind (lift (perform _)) _) => apply safe_ecall; intros ? ?
  | |- safe _ (ebind _ _) => apply safe_ebind; [|intros ?]
  | |- safe _ (lift _) => apply safe_lift
  | |- safe _ (must _ _ _ _) => unfold must
  | |- safe _ (may _ _) => unfold may
  | |- safe _ (print _ ;; _) => apply safe_call; intros ? ?
  | |- safe _ (delete _ ;; _) => apply safe_call; intros ? ?
  | |- safe _ (perform _ ≫= _) => apply safe_call; intros ? ?
  | |- safe _ (perform _) => apply safe_call_last
  | |- safe _ (print _) => apply safe_call_last
  | |- safe _ (delete _) => apply safe_call_last
  | |- safe _ (deref _ ≫= _) => apply safe_deref; [|intros ? ?]
  | |- safe _ (mbind _ _) => apply safe_bind; [|intros ?]
  | |- safe _ (if ?b then _ else _) => destruct b eqn:?
  | |- safe _ (match ?x with _ => _ end) => destruct x eqn:?
  | |- safe _ (let _ := _ in _) => cbv zeta
  end.
Ltac node_safe := repeat node_safe_step.

Lemma setup_safe b s : safe node_wf (setup b (Some s)).
Proof.
  destruct (decide (strlen s + 8 ≤ MAX_PATH + 1)%nat) as [Hs|Hs].
  - eapply all_mono; [|apply setup_path_safe, Hs]. by intros tr o Ho _.
  - intros ok. apply all_exec. intros tr o _ Htr. apply Forall_inv in Htr. simpl in Htr.
    apply Nat.leb_le in Htr. lia.
Qed.

Lemma check_safe b path : is_Some path → safe node_wf (s_proc_running_check b path).
Proof. intros Hp. unfold s_proc_running_check, held_by_other, write_pid. node_safe; done. Qed.

Lemma check_safe_unix b path : DAP_OS_WINDOWS b = false → safe node_wf (s_proc_running_check b path).
Proof. intros Hb. unfold s_proc_running_check, held_by_other, write_pid. rewrite Hb. node_safe. Qed.

Lemma snprintf_some t : is_Some (snprintf (MAX_PATH + 1) t).2.
Proof. rewrite Nat.add_comm. by eexists. Qed.

#[local] Hint Resolve setup_safe check_safe check_safe_unix snprintf_some : node.

Lemma start_safe {L : DapLaws D} b s p : safe node_wf (start b (Some s) p).
Proof.
  unfold start, open_config, check_instance, configure_log, start_transport, start_chain, start_services,
    start_signals, start_plugins, start_networks, start_server, setup_server, start_vpn,
    Unix.sig_unix_handler_init, Win32.sig_win32_handler_init.
  node_safe; eauto with node.
  match goal with H : node_wf _ = true |- _ => by apply bool_decide_eq_true in H end.
Qed.

Lemma loop_safe b r : safe node_wf (go_online b r ;; loop b r).
Proof.
  unfold go_online, loop. apply safe_bind; [node_safe|]. intros []. apply safe_call. intros rc Hrc.
  change (int_range (rc * 10) = true) in Hrc. rewrite Hrc. apply safe_call. intros [] _. apply safe_bind.
  - eapply all_mono; [|apply shutdown_spec]. by intros tr o [-> _].
  - intros []. apply safe_ret.
Qed.

Lemma node_run_safe {L : DapLaws D} b s p : safe node_wf (node_run b (Some s) p).
Proof. apply safe_bind; [apply start_safe|]. intros [z|r]; [apply safe_ret|apply loop_safe]. Qed.

Lemma node_main_safe {L : DapLaws D} b g argv : safe node_wf (node_main b g argv).
Proof.
  unfold node_main, Win32.S_SetExceptionFilter, plugins_path_arg, plugins_path_override.
  apply safe_call. intros [] _. apply safe_bind; [node_safe|]. intros [].
  apply safe_bind; [|intros g'; apply safe_bind; [node_safe|]; intros parg; apply safe_bind; [node_safe|]; intros p].
  { unfold has_B, argc_lt. destruct (DAP_OS_ANDROID b); [node_safe|]. case_bool_decide as Hl; [exact (safe_ret node_wf g)|].
    apply safe_bind; [apply safe_arg; [lia|intros ?; node_safe]|]. intros has. destruct has; [|node_safe].
    apply safe_arg; [lia|]. intros ?. node_safe. }
  apply safe_bind_val. pose proof (λ s, node_run_safe b s p) as Hrun. unfold node_default_sys_dir.
  destruct g' as [s|]; [apply Hrun|]. destruct (target b); repeat intros ?; simpl; rewrite dap_strdup_printf_eq; apply Hrun.
Qed.
End Node.
End Node.

(** * Properties *)

(** An environment in which everything works, with the plugins and the server
    enabled. *)
Definition all_on (c : call) : ret c :=
  match c return ret c with
  | dap_config_get_item_bool_default _ _ _ => true
  | dap_config_get_item_str "mempool" "accept" => Some "true"
  | c => default_ans c
  end.

(** C1 (node_main_correct): In every environment [main] of the daemon ends in
    one of three ways, undefined behaviour apart: it prints the version; the
    start-up stops at the first failing critical step and returns exactly the
    code of that step, without entering the event loop; or no critical step
    fails, the event loop is entered once, the modules are shut down in the fixed
    order and ten times the loop's result is returned.  [dap_server_deinit] and
    the plugins' shut-down are among the last calls exactly if the server module
    and the plugins were successfully initialised, once each, before. *)
Theorem node_main_correct {D : Dap} {L : DapLaws D} b g argv tr o :
  exec (Node.main b g argv) tr o →
  Node.node_spec b tr o ∨
  (argv !! 1%nat = Some "-version" ∧ o = Returned 0 ∧ tr = [Ev (printf (Node.dap_node_version b +:+ NL)) tt]).
Proof. apply (proj1 (all_exec _ _) (Node.main_node_spec b g argv)). Qed.

Lemma node_main_correct_witness :
  let p := Node.main (D := demo_dap) linux_build None ["node"] in
  run_outcome all_on p = Returned 0 ∧ Node.waits (run_trace all_on p) = [0] ∧
  (Node.node_spec linux_build (run_trace all_on p) (run_outcome all_on p) ∨
   (["node"] !! 1%nat = Some "-version" ∧ run_outcome all_on p = Returned 0
    ∧ run_trace all_on p = [Ev (printf (Node.dap_node_version (D := demo_dap) linux_build +:+ NL)) tt])).
Proof.
  split_and!; [vm_compute; reflexivity|vm_compute; reflexivity|].
  eapply (node_main_correct (D := demo_dap)), exec_run_pure.
Defined.

(** C24 (node_main_no_undefined): With at least its own name on the command line
    the daemon has no undefined behaviour of its own from entry to exit, in any
    environment where the installation directory fits the path buffer, items
    with a default are never NULL and ten times the loop's result is an [int]. *)
Theorem node_main_no_undefined {D : Dap} {L : DapLaws D} b g a0 argv tr o :
  exec (Node.main b g (a0 :: argv)) tr o → Forall (λ e, Node.node_wf e = true) tr → o ≠ Undefined.
Proof.
  unfold Node.main. rewrite Node.asks_version_ref. intros He Hwf.
  destruct argv as [|a1 argv].
  - exact (proj1 (all_exec _ _) (Node.node_main_safe b g [a0]) tr o He Hwf).
  - destruct (bool_decide (a1 = "-version")) eqn:Hv; unfold mbind, prog_bind, prog_bind_ in He.
    + by destruct He as ([] & tr' & -> & -> & ->).
    + exact (proj1 (all_exec _ _) (Node.node_main_safe b g (a0 :: a1 :: argv)) tr o He Hwf).
Qed.

Lemma node_main_no_undefined_witness :
  let p := Node.main (D := demo_dap) linux_build None ["node"; "-B"; "/opt/n"] in
  run_outcome all_on p ≠ Undefined.
Proof.
  intros p. eapply (node_main_no_undefined (D := demo_dap) linux_build None "node" ["-B"; "/opt/n"] (run_trace all_on p));
    [apply exec_run_pure|].
  apply forallb_Forall. vm_compute. reflexivity.
Defined.

(** A start-up that fails is never reported as success
    to the parent process: the low byte of every failure code is not 0. *)
Theorem node_failure_status {D : Dap} {L : DapLaws D} b g argv tr z :
  exec (Node.main b g argv) tr (Returned z) →
  Node.waits tr = [] → argv !! 1%nat ≠ Some "-version" → exit_status z ≠ 0.
Proof.
  intros He Hw Hv. destruct (proj1 (all_exec _ _) (Node.main_node_spec b g argv) _ _ He) as [Hs|[? _]]; [|done].
  destruct Hs as [?|[(z' & [= <-] & Hf & _)|(rc & r & tr1 & msg & tr2 & _ & _ & Hw' & _)]]; [done| |congruence].
  by eapply Node.failures_status.
Qed.

Lemma node_failure_status_witness :
  let ans c := match c return ret c with Init dap_chain_net_srv_order_init => 1 | c => default_ans c end in
  run_outcome ans (Node.main (D := demo_dap) linux_build None ["node"]) = Returned (-67) ∧ exit_status (-67) ≠ 0.
Proof.
  intros ans. assert (run_outcome ans (Node.main (D := demo_dap) linux_build None ["node"]) = Returned (-67)) as Hr
    by (vm_compute; reflexivity).
  split; [exact Hr|]. eapply (node_failure_status (D := demo_dap) linux_build None ["node"]).
  - rewrite <-Hr. apply exec_run_pure.
  - vm_compute. reflexivity.
  - done.
Defined.

(** [main] reads [argv[1]] before it looks at
    [argc], so called without arguments, as the Android service does with
    [main(0, 0)], it has undefined behaviour before its first call. *)
Theorem node_argc0_undefined {D : Dap} {L : DapLaws D} b g tr o :
  exec (Node.main b g []) tr o → tr = [] ∧ o = Undefined.
Proof. unfold Node.main. by rewrite Node.asks_version_ref. Qed.

Lemma node_argc0_undefined_witness :
  let g := Node.set_global_sys_dir (D := demo_dap) (Some "/data") in
  run_outcome default_ans (Node.main (D := demo_dap) linux_build g []) = Undefined.
Proof. intros g. eapply (node_argc0_undefined (D := demo_dap) linux_build g), exec_run_pure. Defined.

(** C40 (log_path_bound): The log path is built in a buffer of [MAX_PATH + 1]
    bytes.  An installation directory of at most [MAX_PATH - 7] characters is
    always handled without undefined behaviour; with a longer one the second
    [snprintf] starts outside of the buffer as soon as the directory exists and
    [var/log] could be made. *)
Theorem log_path_bound {D : Dap} b s tr o :
  exec (Node.setup b (Some s)) tr o →
  ((strlen s + 8 ≤ MAX_PATH + 1)%nat → o ≠ Undefined) ∧
  ((MAX_PATH + 1 < strlen s + 8)%nat → Node.failures tr = [] → o = Undefined).
Proof.
  intros He. split; intros Hs.
  - exact (proj1 (all_exec _ _) (Node.setup_path_safe b s Hs) tr o He).
  - exact (proj1 (all_exec _ _) (Node.setup_path_overflow b s Hs) tr o He).
Qed.

Lemma log_path_bound_witness :
  run_outcome default_ans (Node.setup (D := demo_dap) linux_build (Some "/opt/cellframe-node")) ≠ Undefined.
Proof. eapply (log_path_bound (D := demo_dap)); [apply exec_run_pure|vm_compute; lia]. Defined.

(** When the directory fits, the log file handed to the
    common module is [<dir>/var/log/<application>.log], cut to [MAX_PATH]
    characters: the two-step formatting equals formatting the whole. *)
Theorem log_path_exact {D : Dap} b s n tr o :
  (strlen s + 8 ≤ MAX_PATH)%nat → exec (Node.setup b (Some s)) tr o → Forall (Node.appname_is n) tr →
  Forall (λ p, p = (snprintf (MAX_PATH + 1) (s +:+ "/var/log" +:+ "/" +:+ n +:+ ".log")).2) (Node.log_paths tr).
Proof. intros Hs He. exact (proj1 (all_exec _ _) (Node.setup_log_path b s n Hs) tr o He). Qed.

Lemma log_path_exact_witness :
  let tr := run_trace default_ans (Node.setup (D := demo_dap) linux_build (Some "/opt/n")) in
  Node.log_paths tr = [Some "/opt/n/var/log/cellframe-node.log"] ∧
  Forall (λ p, p = (snprintf 257 ("/opt/n" +:+ "/var/log" +:+ "/" +:+ "cellframe-node" +:+ ".log")).2) (Node.log_paths tr).
Proof.
  intros tr. split; [vm_compute; reflexivity|].
  eapply (log_path_exact (D := demo_dap) linux_build "/opt/n" "cellframe-node"); [vm_compute; lia|apply exec_run_pure|].
  vm_compute. repeat constructor.
Defined.

(** The plugin system is started on the directory of
    the command line when one was given, where a leading [~] alone or before a
    slash stands for [$HOME] if that is set, and otherwise on the one the
    configuration gives. *)
Theorem plugins_path_choice {D : Dap} {L : DapLaws D} b sys opt home tr1 o1 ov tr2 o2 :
  exec (Node.plugins_path_override (Some opt)) tr1 o1 →
  Forall (λ e : nevent, match e with Ev (getenv "HOME") r => r = home | _ => True end) tr1 →
  exec (Node.start_plugins b sys ov) tr2 o2 →
  o1 = Returned (Some (Node.override_ref home opt)) ∧
  Forall (λ p, match ov with Some _ => p = ov | None => Node.config_str "plugins" "path" tr2 = [p] end)
    (Node.plugin_paths tr2).
Proof.
  intros H1 Hh H2. split.
  - exact (proj1 (all_exec _ _) (Node.override_spec opt) tr1 o1 H1 home Hh).
  - exact (proj1 (all_exec _ _) (Node.plugins_paths b sys ov) tr2 o2 H2).
Qed.

Lemma plugins_path_choice_witness :
  let ans c := match c return ret c with getenv _ => Some "/home/u" | c => all_on c end in
  let p1 := Node.plugins_path_override (D := demo_dap) (Some "~/p") in
  let p2 := Node.start_plugins (D := demo_dap) linux_build (Some "/opt/n") (Some "/home/u/p") in
  run_outcome ans p1 = Returned (Some "/home/u/p") ∧ Node.plugin_paths (run_trace ans p2) = [Some "/home/u/p"].
Proof.
  intros ans p1 p2. split; [|vm_compute; reflexivity].
  apply (plugins_path_choice (D := demo_dap) linux_build (Some "/opt/n") "~/p" (Some "/home/u")
    (run_trace ans p1) (run_outcome ans p1) (Some "/home/u/p") (run_trace ans p2) (run_outcome ans p2));
    [apply exec_run_pure|vm_compute; repeat constructor|apply exec_run_pure].
Defined.

(** Log rotation is enabled at most once, with the
    configured minutes converted to milliseconds and the configured size; the
    conversion is exact whenever it fits a [size_t], and a negative number of
    minutes becomes a huge timeout instead of an error. *)
Theorem log_rotation_units {D : Dap} p tr o t m :
  exec (Node.configure_log p) tr o → Node.rotation_config tr = [t; m] → 0 ≤ SIZE_WIDTH →
  (0 ≤ t → t * 60000 < 2 ^ SIZE_WIDTH → 0 ≤ m < 2 ^ SIZE_WIDTH → Node.rotations tr = [(t * 60000, m)]) ∧
  (t < 0 → Forall (λ x, 0 ≤ x.1) (Node.rotations tr)).
Proof.
  intros He Hc Hw. rewrite (proj1 (all_exec _ _) (Node.rotation_spec p) tr o He), Hc. split.
  - intros Ht Htb Hm. by rewrite (Node.size_t_small t), !Node.size_t_small by lia.
  - intros _. repeat constructor. simpl. apply Z.mod_pos_bound. lia.
Qed.

Lemma log_rotation_units_witness :
  let ans c := match c return ret c with dap_config_get_item_int64 _ _ => 120 | c => all_on c end in
  Node.rotations (run_trace ans (Node.configure_log (D := demo_dap) None)) = [(7200000, 120)].
Proof.
  intros ans. eapply (log_rotation_units (D := demo_dap) None _ _ 120 120 (exec_run_pure ans _));
    [vm_compute; reflexivity|simpl; lia..].
Defined.

(** The mempool is served over HTTP exactly when the
    configuration item [mempool.accept], which is read once, is the text
    [true]. *)
Theorem server_mempool_gate {D : Dap} b s tr o :
  exec (Node.setup_server b s) tr o →
  Forall (λ v : cstr, match v with Some t => nul_free t = true | None => True end)
    (Node.config_str "mempool" "accept" tr) →
  ∃ v, Node.config_str "mempool" "accept" tr = [v] ∧ Node.mempool_open tr = bool_decide (v = Some "true").
Proof.
  intros He Hn. destruct (proj1 (all_exec _ _) (Node.setup_server_gate b s) tr o He) as (v & Hv & Hm).
  exists v. rewrite Hm, Hv in *. apply Forall_inv in Hn. by rewrite Node.accepts_true.
Qed.

Lemma server_mempool_gate_witness :
  let p := Node.setup_server (D := demo_dap) linux_build 1%nat in
  Node.mempool_open (run_trace all_on p) = true ∧
  ∃ v, Node.config_str "mempool" "accept" (run_trace all_on p) = [v]
       ∧ Node.mempool_open (run_trace all_on p) = bool_decide (v = Some "true").
Proof.
  intros p. split; [vm_compute; reflexivity|].
  eapply (server_mempool_gate (D := demo_dap)); [apply exec_run_pure|vm_compute; repeat constructor].
Defined.
