(* ===== verification/NodeInstances.v ===== *)
(** * Nodes that run at the same time

    [PidLock] lets processes run the single-instance check; here they run the
    whole [main] of the daemon ([Daemon]) on one pid file, interleaved call by
    call, with any answers of the SDKs, and may stop or be killed at any moment.
    A node is in its event loop only while it holds the lock its check took. *)
From stdpp Require Import gmap.
From S2P Require Import Prelude Prog CLib Sdk ToolBase PidLock Signals Daemon.

Set Default Proof Using "Type".
Open Scope Z_scope.

(** ** Programs by their calls

    [only P p]: every call [p] can make satisfies [P]. *)
Fixpoint only {A} (P : call → bool) (p : nprog A) : Prop :=
  match p with
  | Vis c k => P c = true ∧ ∀ r, only P (k r)
  | _ => True
  end.

Lemma only_mono {A} (P Q : call → bool) (p : nprog A) :
  (∀ c, P c = true → Q c = true) → only P p → only Q p.
Proof. intros HPQ. induction p as [a|z| |c k IH]; simpl; try done. intros [Hc Hk]. auto. Qed.

Lemma only_bind {A B} P (p : nprog A) (f : A → nprog B) :
  only P p → (∀ a, only P (f a)) → only P (p ≫= f).
Proof.
  intros Hp Hf. induction p as [a|z| |c k IH]; simpl in *; [apply Hf|done..|].
  destruct Hp as [Hc Hk]. split; [done|]. intros r. by apply IH.
Qed.

Lemma only_ret {A} P (a : A) : only P (mret a).
Proof. done. Qed.

Lemma only_ebind {A B} P (p : eprog A) (f : A → eprog B) :
  only P p → (∀ a, only P (f a)) → only P (ebind p f).
Proof. intros Hp Hf. apply only_bind; [done|]. intros [z|a]; [done|apply Hf]. Qed.

Lemma only_deref {A} P (x : option A) : only P (deref x).
Proof. by destruct x. Qed.

(** The event loop, and calls that neither enter it nor touch the pid file. *)
Definition is_wait (c : call) : bool := match c with dap_events_wait => true | _ => false end.

Definition before_loop (c : call) : bool := elsewhere c && negb (is_wait c).

Ltac only_steps :=
  repeat (cbv beta zeta;
    match goal with
    | |- only _ (ebind _ _) => apply only_ebind; [|intros ?]
    | |- only _ (lift _) => apply only_bind; [|intros ?]
    | |- only _ (_ ≫= _) => apply only_bind; [|intros ?]
    | |- only _ (deref _) => apply only_deref
    | |- only _ (mret _) => apply only_ret
    | |- only _ (perform _) => by split
    | |- only _ (if ?b then _ else _) => destruct b
    | |- only _ (match ?x with _ => _ end) => destruct x
    | |- only _ _ => done
    end).

(** ** What a node knows

    [guarded me p Q l]: in every run of [p] from [l] the event loop is entered
    only with the lock, and the run ends with [Q]. *)
Definition holds (me : Z) (l : local) : Prop := lock_of me ∈ l_locks l.

Fixpoint guarded {A} (me : Z) (p : nprog A) (Q : A → local → Prop) (l : local) : Prop :=
  match p with
  | Ret a => Q a l
  | Exit _ | Undef => True
  | Vis c k =>
      (is_wait c = true → holds me l) ∧ ∀ r l', local_step me l c r l' → guarded me (k r) Q l'
  end.

Section Guarded.
Context (me : Z).

Lemma guarded_mono {A} (p : nprog A) (Q R : A → local → Prop) l :
  (∀ a l, Q a l → R a l) → guarded me p Q l → guarded me p R l.
Proof.
  intros HQR. revert l; induction p as [a|z| |c k IH]; intros l; simpl; try by auto.
  intros [Hc Hk]. split; auto.
Qed.

Lemma guarded_bind {A B} (p : nprog A) (f : A → nprog B) (Q : B → local → Prop) l :
  guarded me p (λ a, guarded me (f a) Q) l → guarded me (p ≫= f) Q l.
Proof.
  revert l; induction p as [a|z| |c k IH]; intros l; simpl; try done.
  intros [Hc Hk]. split; [done|]. intros r l' Hr. by apply (IH r l'), Hk.
Qed.

Lemma elsewhere_same c l r l' : elsewhere c = true → local_step me l c r l' → l' = l.
Proof. by destruct c. Qed.

(** Before the loop nothing happens to the lock. *)
Lemma guarded_before {A} (p : nprog A) (Q : A → local → Prop) l :
  only before_loop p → (∀ a, Q a l) → guarded me p Q l.
Proof.
  intros Hp HQ. induction p as [a|z| |c k IH]; simpl in *; try done.
  destruct Hp as [[He Hw]%andb_prop Hk]. apply negb_true_iff in Hw. split; [congruence|].
  intros r l' ->%elsewhere_same; auto.
Qed.

(** With the lock held the loop may be entered, and the lock stays. *)
Lemma guarded_locked {A} (p : nprog A) (Q : A → local → Prop) l :
  only elsewhere p → holds me l → (∀ a, Q a l) → guarded me p Q l.
Proof.
  intros Hp Hl HQ. induction p as [a|z| |c k IH]; simpl in *; try done.
  destruct Hp as [He Hk]. split; [done|]. intros r l' ->%elsewhere_same; auto.
Qed.

Lemma guarded_wp {A} (p : nprog A) (Q : A → local → Prop) l :
  only (λ c, negb (is_wait c)) p → wp me p Q l → guarded me p Q l.
Proof.
  revert l; induction p as [a|z| |c k IH]; intros l; simpl; try done.
  intros [Hw Hk] Hp. apply negb_true_iff in Hw. split; [congruence|]. auto.
Qed.
End Guarded.

(** ** The phases of the daemon *)
Section Phases.
Context {D : Dap}.
Implicit Types (b : build) (argv : list string).

Lemma open_config_before b sys : only before_loop (Node.open_config b sys).
Proof. unfold Node.open_config, Node.setup. only_steps. Qed.

Lemma check_no_wait b path : only (λ c, negb (is_wait c)) (s_proc_running_check b path).
Proof. unfold s_proc_running_check, held_by_other, write_pid. only_steps. Qed.

Lemma must_only P lvl f msg code :
  P (Init f) = true → P (log_it lvl msg) = true → only P (must lvl f msg code).
Proof. intros Hf Hl. unfold must. split; [done|]. intros r. simpl in r. simpl. by destruct (r =z? 0); simpl. Qed.

Lemma may_only P f msg : P (Init f) = true → P (log_it L_ERROR msg) = true → only P (may f msg).
Proof. intros Hf Hl. unfold may. split; [done|]. intros r. simpl in r. simpl. by destruct (r =z? 0); simpl. Qed.

Ltac phase :=
  only_steps; first [by apply must_only|by apply may_only|idtac].

Lemma rest_elsewhere b sys p cfg :
  only elsewhere
    (lift (Node.configure_log p) ;?
     server_enabled ←? Node.start_transport b;
     Node.start_chain ;?
     Node.start_services b ;?
     plugins_enabled ←? lift (Node.start_plugins b sys p);
     Node.start_networks ;?
     srv ←? Node.start_server b server_enabled;
     Node.start_vpn b ;?
     go_on {| Node.g_config := cfg; Node.bServerEnabled := server_enabled;
              Node.l_plugins_enabled := plugins_enabled; Node.l_server := srv |}).
Proof.
  unfold Node.configure_log, Node.start_transport, Node.start_chain, Node.start_services,
    Node.start_signals, Node.start_plugins, Node.start_networks, Node.start_server, Node.setup_server,
    Node.start_vpn, Unix.sig_unix_handler_init, Win32.sig_win32_handler_init.
  phase.
Qed.
(** Who gets past the check holds the lock. *)
Definition past_check (me : Z) (r : Z + unit) (l : local) : Prop :=
  match r with inl _ => True | inr _ => holds me l end.

Lemma check_instance_guarded b sys me :
  DAP_OS_WINDOWS b = false → guarded me (Node.check_instance b sys) (past_check me) fresh.
Proof.
  intros Hb. unfold Node.check_instance. rewrite Hb.
  apply guarded_bind, guarded_before; [apply only_deref|]. intros s.
  apply guarded_bind, guarded_before; [apply only_deref|]. intros dir.
  apply guarded_bind, guarded_before; [by split|]. intros path.
  apply guarded_bind. eapply guarded_mono; [|apply guarded_wp; [apply check_no_wait|by apply wp_check]].
  intros z l Hz. split; [done|]. intros [] l' ->. destruct (Z.eqb_spec z 0) as [->|]; simpl; [|done].
  by apply Hz.
Qed.

Lemma node_run_guarded b sys p me :
  DAP_OS_WINDOWS b = false → guarded me (Node.node_run b sys p) (λ _ _, True) fresh.
Proof.
  intros Hb. unfold Node.node_run, Node.start. apply guarded_bind.
  eapply (guarded_mono _ _ (λ r l, match r with inl _ => True | inr _ => holds me l end)).
  { intros [z|r] l Hl; [done|]. apply guarded_locked; [|done|done].
    unfold Node.go_online, Node.loop, Node.shutdown, Node.void_all. only_steps. }
  apply guarded_bind, guarded_before; [apply open_config_before|]. intros [z|cfg]; [done|].
  apply guarded_bind. eapply guarded_mono; [|by apply check_instance_guarded].
  intros [z|[]] l Hl; [done|]. simpl in Hl. apply guarded_locked; [apply rest_elsewhere|done|].
  by intros [z|r].
Qed.

Lemma main_guarded b sys argv me :
  DAP_OS_WINDOWS b = false → guarded me (Node.main b sys argv) (λ _ _, True) fresh.
Proof.
  intros Hb. unfold Node.main, Node.asks_version, arg.
  apply guarded_bind, guarded_before; [only_steps|]. intros version.
  destruct version; [apply guarded_before; [only_steps|done]|]. unfold Node.node_main.
  apply guarded_bind, guarded_before; [by split|]. intros [].
  apply guarded_bind, guarded_before; [unfold Win32.S_SetExceptionFilter; only_steps|]. intros [].
  apply guarded_bind, guarded_before; [unfold has_B, arg; only_steps|]. intros dir.
  apply guarded_bind, guarded_before; [unfold Node.plugins_path_arg; only_steps|]. intros parg.
  apply guarded_bind, guarded_before; [unfold Node.plugins_path_override; only_steps|]. intros override.
  apply guarded_bind, guarded_before; [unfold Node.node_default_sys_dir; only_steps|]. intros dir'.
  by apply node_run_guarded.
Qed.

(** ** Nodes on one machine

    Nodes are started with any command line and any installation directory; the
    configurations they read name the same pid file. *)
Definition nodes (b : build) (p : nprog Z) : Prop := ∃ sys argv, p = Node.main b sys argv.

Definition same_pid_file (path : cstr) (c : call) : ret c → Prop :=
  match c return ret c → Prop with
  | dap_config_get_item_str_path_default section key _ =>
      λ r, section = "resources" → key = "pid_path" → r = path
  | _ => λ _, True
  end.

Definition node_step (b : build) (path : cstr) : sys → sys → Prop := step_of (nodes b) (same_pid_file path).

(** [pid] is in its event loop. *)
Definition in_loop (s : sys) (pid : Z) : Prop := ∃ k, procs s !! pid = Some (Vis dap_events_wait k).

(** C3 (node_mutual_exclusion): however many nodes are started on one pid file,
    however their start-ups interleave, whatever the SDK answers and whichever
    nodes end or are killed on the way, two nodes are in their event loops at the
    same time only when the decimal lengths of their pids differ by at least
    [sizeof(pid_t)]; with pids of 4 to 7 digits at most one node is running. *)
Theorem node_mutual_exclusion b path s s' p q :
  DAP_OS_WINDOWS b = false → idle s → rtc (node_step b path) s s' →
  in_loop s' p → in_loop s' q → p ≠ q →
  (digits p + 4 ≤ digits q ∨ digits q + 4 ≤ digits p)%nat.
Proof.
  intros Hb Hi Hr Hp Hq Hne.
  assert (Hinv : sys_inv (λ pid p, guarded pid p (λ _ _, True)) s').
  { eapply reachable_inv; [| |exact Hi|exact Hr].
    - intros me _ (dir & argv & ->). by apply main_guarded.
    - intros me c k l r l' [_ Hk]. apply Hk. }
  assert (Hlock : ∀ pid, in_loop s' pid → (pid, lock_of pid) ∈ locks (osw s')).
  { intros pid [k Hpid]. apply project_lock. destruct (inv_ok _ _ Hinv _ _ Hpid) as [Hh _]. by apply Hh. }
  by eapply locks_apart; auto.
Qed.

End Phases.

(** ** Schedules

    Process [pid] runs up to the next call that [stop] names; calls that do not
    concern the pid file are answered by [ans]. *)
Section Schedule.
Context (ans : ∀ c, ret c).

Definition turn (pid : Z) (s : sys) : option sys :=
  match procs s !! pid with
  | Some (Vis c k) =>
      let '(r, w') := if elsewhere c then (ans c, osw s) else os pid c (osw s) in
      Some {| osw := w'; procs := <[pid := k r]> (procs s) |}
  | _ => None
  end.

Fixpoint advance (stop : call → bool) (fuel : nat) (pid : Z) (s : sys) : option sys :=
  match procs s !! pid with
  | Some (Vis c _) =>
      if stop c then Some s
      else match fuel with O => None | S n => s' ← turn pid s; advance stop n pid s' end
  | _ => None
  end.

Fixpoint play (fuel : nat) (acts : list (Z * (call → bool))) (s : sys) : option sys :=
  match acts with
  | [] => Some s
  | (pid, stop) :: acts' => s' ← advance stop fuel pid s; play fuel acts' s'
  end.

Context (progs : nprog Z → Prop) (env : ∀ c, ret c → Prop).
Hypothesis ans_env : ∀ c, env c (ans c).

Lemma turn_step pid s s' : turn pid s = Some s' → step_of progs env s s'.
Proof using ans_env.
  unfold turn. destruct (procs s !! pid) as [[]|] eqn:Hp; try done. destruct (elsewhere c) eqn:He.
  - intros [= <-]. by eapply step_other.
  - destruct (os pid c (osw s)) as [r w'] eqn:Ho. intros [= <-]. by eapply step_file.
Qed.

Lemma advance_steps stop fuel pid s s' : advance stop fuel pid s = Some s' → rtc (step_of progs env) s s'.
Proof using ans_env.
  revert s; induction fuel as [|n IH]; intros s; simpl;
    destruct (procs s !! pid) as [[]|]; try done; destruct (stop c); try done; try (by intros [= <-]).
  destruct (turn pid s) as [s1|] eqn:Ht; [|done]. simpl. intros Hs.
  eapply rtc_l; [by eapply turn_step|by apply IH].
Qed.

Lemma node_play_steps fuel acts s s' : play fuel acts s = Some s' → rtc (step_of progs env) s s'.
Proof using ans_env.
  revert s; induction acts as [|[pid stop] acts IH]; intros s; simpl; [by intros [= <-]|].
  destruct (advance stop fuel pid s) as [s1|] eqn:Ha; [|done]. simpl. intros Hs.
  etransitivity; [by eapply advance_steps|by apply IH].
Qed.
End Schedule.

(** ** Witness: two nodes that start at the same time, with pids of 1 and 5 digits *)
Definition shared_pid (c : call) : ret c :=
  match c return ret c with
  | dap_config_get_item_str_path_default _ _ _ => Some "/pid"
  | c => default_ans c
  end.

Definition is_freopen (c : call) : bool := match c with freopen _ _ _ => true | _ => false end.

Definition a_node : nprog Z := Node.main (D := demo_dap) linux_build None ["cellframe-node"].

Definition two_started : sys := {| osw := osw idle_sys; procs := <[12345 := a_node]> {[7 := a_node]} |}.

Definition race_schedule : list (Z * (call → bool)) :=
  [(7, is_freopen); (12345, is_freopen); (7, is_wait); (12345, is_wait)].

Definition two_looping : sys := default idle_sys (play shared_pid 200 race_schedule two_started).

Lemma shared_pid_same c : same_pid_file (Some "/pid") c (shared_pid c).
Proof. by destruct c. Qed.

Lemma two_looping_reached : rtc (node_step (D := demo_dap) linux_build (Some "/pid")) idle_sys two_looping.
Proof.
  eapply rtc_l.
  { eapply (step_start _ _ idle_sys 7 a_node); [done|]. by exists None, ["cellframe-node"]. }
  eapply rtc_l.
  { eapply (step_start _ _ _ 12345 a_node); [done|]. by exists None, ["cellframe-node"]. }
  assert (Hplay : play shared_pid 200 race_schedule two_started = Some two_looping).
  { assert (Hs : bool_decide (is_Some (play shared_pid 200 race_schedule two_started)) = true)
      by (vm_compute; reflexivity).
    apply bool_decide_eq_true_1 in Hs as [s Hs]. unfold two_looping. by rewrite Hs. }
  exact (node_play_steps shared_pid _ _ shared_pid_same 200 race_schedule _ _ Hplay).
Qed.

(** The process that would wait. *)
Definition waits_next (s : sys) (pid : Z) : bool :=
  match procs s !! pid with Some (Vis c _) => is_wait c | _ => false end.

Lemma waits_next_in_loop s pid : waits_next s pid = true → in_loop s pid.
Proof.
  unfold waits_next, in_loop. destruct (procs s !! pid) as [[]|]; try done.
  destruct c; try done. eauto.
Qed.

Lemma node_mutual_exclusion_witness :
  in_loop two_looping 7 ∧ in_loop two_looping 12345 ∧
  (digits 7 + 4 ≤ digits 12345 ∨ digits 12345 + 4 ≤ digits 7)%nat.
Proof.
  assert (H7 : in_loop two_looping 7) by (apply waits_next_in_loop; vm_compute; reflexivity).
  assert (H1 : in_loop two_looping 12345) by (apply waits_next_in_loop; vm_compute; reflexivity).
  split; [exact H7|]. split; [exact H1|].
  apply (node_mutual_exclusion (D := demo_dap) linux_build (Some "/pid") idle_sys two_looping 7 12345 eq_refl
           (conj eq_refl (conj eq_refl eq_refl)) two_looping_reached H7 H1). lia.
Defined.
