(* ===== verification/ConfStr.v ===== *)
(** * Strings of cellframe-node-config

    The text functions of the configuration tool: trimming, tokenizing and
    joining ([conftool/commands/AbstractCommand.h] and [.cpp]), and what the tool
    uses of [std::string], [std::regex], [std::filesystem::path], [std::map] and
    [std::getline].  A [std::string] is a [string] of bytes.  The lemmas are the
    ones the parser of configuration files and the script interpreter share. *)
From S2P Require Export Prelude.
From S2P Require Import CLib.
From stdpp Require Export gmap sorting.

(** ** std::string *)

(** [str_all f s]: every byte of [s] satisfies [f]. *)
Fixpoint str_all (f : ascii → bool) (s : string) : bool :=
  match s with
  | "" => true
  | String c s' => f c && str_all f s'
  end.

(** [s] does not contain the byte [c]. *)
Definition lacks (c : ascii) : string → bool := str_all (λ x, negb (x =? c)%char).

Fixpoint str_drop (n : nat) (s : string) : string :=
  match n, s with
  | S n', String _ s' => str_drop n' s'
  | _, _ => s
  end.

(** [std::string::find]: the first position of [needle] in [s]; [None] is
    [npos]. *)
Fixpoint strfind (needle s : string) : option nat :=
  if String.prefix needle s then Some O
  else match s with
       | "" => None
       | String _ s' => S <$> strfind needle s'
       end.

(** [find (needle, pos)]. *)
Definition strfind_from (pos : nat) (needle s : string) : option nat :=
  (λ i, (pos + i)%nat) <$> strfind needle (str_drop pos s).

(** [s.substr (0, s.find (needle))]: all of [s] when [needle] is absent. *)
Definition before (needle s : string) : string :=
  match strfind needle s with
  | Some n => String.substring 0 n s
  | None => s
  end.

Definition is_empty (s : string) : bool := s =s? "".

Definition contains (needle s : string) : bool :=
  match strfind needle s with Some _ => true | None => false end.

(** ** Trimming: AbstractCommand.h *)
Fixpoint ltrim (s : string) : string :=
  match s with
  | "" => ""
  | String c s' => if is_space c then ltrim s' else s
  end.

Fixpoint rtrim (s : string) : string :=
  match s with
  | "" => ""
  | String c s' =>
      let r := rtrim s' in
      if is_empty r && is_space c then "" else String c r
  end.

Definition trim (s : string) : string := ltrim (rtrim s).

(** ** Tokens: AbstractCommand.cpp

    A regular expression is given by the length of its match at the start of a
    text (0: no match); the tool splits by ["="], ["\s+"] and ["==|!="]. *)
Definition matcher := string → nat.

Definition re_eq : matcher := λ s, if String.prefix "=" s then 1%nat else 0%nat.

Fixpoint re_blanks (s : string) : nat :=
  match s with
  | "" => 0%nat
  | String c s' => if is_space c then S (re_blanks s') else 0%nat
  end.

Definition re_eq_neq : matcher := λ s,
  if String.prefix "==" s || String.prefix "!=" s then 2%nat else 0%nat.

Definition push (c : ascii) (ps : list string) : list string :=
  match ps with
  | [] => [String c ""]
  | p :: ps' => String c p :: ps'
  end.

(** The pieces between the matches, from left to right ([regex_token_iterator]
    with submatch -1); [skip] bytes still belong to the last match. *)
Fixpoint pieces (re : matcher) (skip : nat) (s : string) : list string :=
  match s with
  | "" => [""]
  | String c s' =>
      match skip with
      | S k => pieces re k s'
      | O => match re s with
             | O => push c (pieces re O s')
             | S k => "" :: pieces re k s'
             end
      end
  end.

Definition tokenize (s : string) (re : matcher) : list string :=
  filter (λ t, t ≠ "") (pieces re O s).

(** [string_join] writes [delim] after every element. *)
Definition string_join (vec : list string) (delim : string) : string :=
  foldr (λ t acc, t +:+ delim +:+ acc) "" vec.

(** ** Paths: std::filesystem on a POSIX host *)
Definition is_absolute (p : string) : bool := String.prefix "/" p.

Fixpoint ends_in_slash (p : string) : bool :=
  match p with
  | "" => false
  | String c "" => (c =? "/")%char
  | String _ p' => ends_in_slash p'
  end.

(** [operator/]: an absolute right-hand side replaces the path. *)
Definition path_append (d n : string) : string :=
  if is_absolute n then n
  else if is_empty d || ends_in_slash d then d +:+ n
  else d +:+ "/" +:+ n.

Infix "//" := path_append (at level 40, left associativity) : node_scope.

(** A path written to a stream is quoted ([std::quoted]). *)
Fixpoint quote_chars (s : string) : string :=
  match s with
  | "" => ""
  | String c s' =>
      if (c =? "034")%char || (c =? "\")%char
      then String "\" (String c (quote_chars s'))
      else String c (quote_chars s')
  end.

Definition show_path (p : string) : string := quoted (quote_chars p).

(** ** Text files: std::getline and operator<< with std::endl *)

(** The lines of the text: a last line without terminator counts, an empty rest
    does not. *)
Fixpoint getlines (s : string) : list string :=
  match s with
  | "" => []
  | String c s' =>
      if (c =? "010")%char then "" :: getlines s'
      else push c (getlines s')
  end.

Definition putlines (ls : list string) : string :=
  foldr (λ l acc, l +:+ NL +:+ acc) "" ls.

(** ** std::map, iterated in the order of its keys *)
Definition key_le {A} (x y : string * A) : Prop := String.leb x.1 y.1 = true.

#[export] Instance key_le_dec {A} (x y : string * A) : Decision (key_le x y) :=
  bool_eq_dec _ _.

Definition map_items {A} (m : gmap string A) : list (string * A) :=
  merge_sort key_le (map_to_list m).

(** ** Lemmas *)
Lemma str_all_app f s t : str_all f (s +:+ t) = str_all f s && str_all f t.
Proof.
  induction s as [|c s IH]; [done|]. rewrite string_app_cons. simpl.
  by rewrite IH, andb_assoc.
Qed.

Lemma str_all_impl f g s :
  (∀ c, f c = true → g c = true) → str_all f s = true → str_all g s = true.
Proof.
  intros Hfg. induction s as [|c s IH]; [done|]. simpl.
  intros [Hc Hs]%andb_prop. by rewrite (Hfg c Hc), IH.
Qed.

#[export] Hint Rewrite str_all_app : node_str.

Lemma lacks_cons x c s : lacks x (String c s) = negb (c =? x)%char && lacks x s.
Proof. done. Qed.

(** A one-byte pattern is a prefix when it is the first byte. *)
Lemma prefix_byte x c s : String.prefix (String x "") (String c s) = (c =? x)%char.
Proof.
  cbn [String.prefix]. destruct (ascii_dec x c) as [->|Hne].
  - by rewrite Ascii.eqb_refl; destruct s.
  - symmetry. apply Ascii.eqb_neq. congruence.
Qed.

(** *** Trimming *)
Lemma ltrim_nospace c s t :
  is_space c = false → ltrim (String c s +:+ t) = String c s +:+ t.
Proof. intros Hc. rewrite string_app_cons. simpl. by rewrite Hc. Qed.

Lemma rtrim_all s : str_all is_space s = true → rtrim s = "".
Proof.
  induction s as [|c s IH]; [done|]. simpl. intros [Hc Hs]%andb_prop.
  by rewrite (IH Hs), Hc.
Qed.

(** Trimming at the end stops at a byte that is not a space. *)
Lemma rtrim_app_nospace s c t :
  is_space c = false → rtrim (s +:+ String c t) = s +:+ String c (rtrim t).
Proof.
  intros Hc. induction s as [|d s IH].
  - simpl. rewrite Hc. by rewrite andb_false_r.
  - rewrite !string_app_cons. simpl. rewrite IH.
    destruct s; by rewrite ?string_app_cons.
Qed.

Lemma rtrim_nospaces s : str_all (λ c, negb (is_space c)) s = true → rtrim s = s.
Proof.
  induction s as [|c s IH]; [done|]. simpl. intros [Hc Hs]%andb_prop.
  rewrite (IH Hs). apply negb_true_iff in Hc. by rewrite Hc, andb_false_r.
Qed.

Lemma ltrim_nospaces s : str_all (λ c, negb (is_space c)) s = true → ltrim s = s.
Proof.
  destruct s as [|c s]; [done|]. simpl. intros [Hc _]%andb_prop.
  apply negb_true_iff in Hc. by rewrite Hc.
Qed.

Lemma trim_nospaces s : str_all (λ c, negb (is_space c)) s = true → trim s = s.
Proof. intros Hs. unfold trim. by rewrite rtrim_nospaces, ltrim_nospaces. Qed.

(** A trimmed text has no space at either end. *)
Lemma ltrim_head s : match ltrim s with "" => True | String c _ => is_space c = false end.
Proof.
  induction s as [|c s IH]; [done|]. simpl. destruct (is_space c) eqn:Hc; [done|]. by rewrite ?Hc.
Qed.

Lemma rtrim_idem s : rtrim (rtrim s) = rtrim s.
Proof.
  induction s as [|c s IH]; [done|]. simpl.
  destruct (is_empty (rtrim s) && is_space c) eqn:He; [done|]. simpl. by rewrite IH, He.
Qed.

(** *** Cutting *)
Lemma before_nil c : before (String c "") "" = "".
Proof. done. Qed.

Lemma before_cons x c s :
  before (String x "") (String c s) =
    if (c =? x)%char then "" else String c (before (String x "") s).
Proof.
  unfold before. cbn [strfind]. rewrite prefix_byte. destruct (c =? x)%char.
  - by destruct s.
  - by destruct (strfind _ s).
Qed.

Lemma before_app x s t :
  lacks x s = true → before (String x "") (s +:+ t) = s +:+ before (String x "") t.
Proof.
  induction s as [|c s IH]; [done|]. rewrite lacks_cons. intros [Hc Hs]%andb_prop.
  rewrite !string_app_cons, before_cons. apply negb_true_iff in Hc. by rewrite Hc, IH.
Qed.

Lemma before_lacks x s : lacks x s = true → before (String x "") s = s.
Proof. intros H. rewrite <- (string_app_nil_r s) at 1. by rewrite before_app, before_nil, string_app_nil_r. Qed.

(** *** Tokens *)
Lemma re_eq_cons c s : re_eq (String c s) = if (c =? "=")%char then 1%nat else 0%nat.
Proof. unfold re_eq. by rewrite prefix_byte. Qed.

Lemma push_ne c ps : push c ps ≠ [].
Proof. by destruct ps. Qed.

Lemma pieces_ne re k s : pieces re k s ≠ [].
Proof.
  revert k; induction s as [|c s IH]; intros [|k]; simpl; try done.
  destruct (re (String c s)); [apply push_ne|done].
Qed.

Lemma pieces_re_eq_lacks s : lacks "=" s = true → pieces re_eq 0 s = [s].
Proof.
  induction s as [|c s IH]; [done|]. rewrite lacks_cons. intros [Hc Hs]%andb_prop.
  apply negb_true_iff in Hc. cbn [pieces]. by rewrite re_eq_cons, Hc, IH.
Qed.

Lemma pieces_re_eq_app s t :
  lacks "=" s = true → pieces re_eq 0 (s +:+ "=" +:+ t) = s :: pieces re_eq 0 t.
Proof.
  induction s as [|c s IH].
  - intros _. change ("" +:+ "=" +:+ t) with (String "=" t). cbn [pieces]. by rewrite re_eq_cons.
  - rewrite lacks_cons. intros [Hc Hs]%andb_prop. apply negb_true_iff in Hc.
    rewrite string_app_cons. cbn [pieces]. by rewrite re_eq_cons, Hc, IH.
Qed.

Lemma tokenize_re_eq_lacks s :
  lacks "=" s = true → tokenize s re_eq = if decide (s ≠ "") then [s] else [].
Proof. intros H. unfold tokenize. by rewrite pieces_re_eq_lacks. Qed.

Lemma tokenize_re_eq_app s t :
  lacks "=" s = true → s ≠ "" →
  tokenize (s +:+ "=" +:+ t) re_eq = s :: tokenize t re_eq.
Proof.
  intros H Hne. unfold tokenize. rewrite pieces_re_eq_app by done.
  by rewrite filter_cons_True.
Qed.

(** The tokens are not empty. *)
Lemma tokenize_ne re s t : t ∈ tokenize s re → t ≠ "".
Proof. unfold tokenize. rewrite list_elem_of_filter. tauto. Qed.

Lemma tokenize_head re s t ts : tokenize s re = t :: ts → t ≠ "".
Proof. intros H. apply (tokenize_ne re s). rewrite H. left. Qed.

(** Splitting at blanks leaves no blank in a token: a suffix of the text is read
    with [skip] equal to the blanks it starts with. *)
Lemma pieces_blanks_nospace s k :
  (k = 0 ∨ k = re_blanks s)%nat →
  Forall (λ t, str_all (λ c, negb (is_space c)) t = true) (pieces re_blanks k s).
Proof.
  revert k; induction s as [|c s IH]; intros k Hk.
  - destruct k; repeat constructor.
  - cbn [pieces]. destruct k as [|k].
    + cbn [re_blanks]. destruct (is_space c) eqn:Hc.
      * constructor; [done|]. apply IH. by right.
      * specialize (IH 0%nat (or_introl eq_refl)).
        destruct (pieces re_blanks 0 s); simpl; inversion IH; subst;
          constructor; simpl; rewrite ?Hc; simpl; auto.
    + destruct Hk as [Hk|Hk]; [done|]. simpl in Hk.
      destruct (is_space c) eqn:Hc; [|done]. apply IH. injection Hk as ->. by right.
Qed.

Lemma tokenize_blanks_nospace s t :
  t ∈ tokenize s re_blanks → str_all (λ c, negb (is_space c)) t = true.
Proof.
  unfold tokenize. rewrite list_elem_of_filter. intros [_ Ht].
  pose proof (pieces_blanks_nospace s 0 (or_introl eq_refl)) as H.
  rewrite Forall_forall in H. by apply H.
Qed.

(** *** Text files *)
Lemma getlines_ne s : getlines (s +:+ NL) ≠ [].
Proof.
  destruct s as [|c s]; [done|]. rewrite string_app_cons. simpl.
  destruct (c =? "010")%char; [done|apply push_ne].
Qed.

Lemma push_app c ps qs : ps ≠ [] → push c (ps ++ qs) = push c ps ++ qs.
Proof. by destruct ps. Qed.

Lemma getlines_app_NL s t : getlines (s +:+ NL +:+ t) = getlines (s +:+ NL) ++ getlines t.
Proof.
  induction s as [|c s IH]; [done|].
  replace (String c s +:+ NL +:+ t) with (String c (s +:+ NL +:+ t)) by done.
  rewrite string_app_cons. cbn [getlines]. rewrite IH.
  destruct (c =? "010")%char; [done|]. apply push_app, getlines_ne.
Qed.

Lemma getlines_line s : lacks "010" s = true → getlines (s +:+ NL) = [s].
Proof.
  induction s as [|c s IH]; [done|]. rewrite lacks_cons. intros [Hc Hs]%andb_prop.
  apply negb_true_iff in Hc. rewrite string_app_cons. cbn [getlines]. by rewrite Hc, IH.
Qed.

(** What is read back of a written file: the lines of each element written. *)
Lemma getlines_putlines ls :
  getlines (putlines ls) = concat ((λ l, getlines (l +:+ NL)) <$> ls).
Proof.
  induction ls as [|l ls IH]; [done|].
  change (putlines (l :: ls)) with (l +:+ NL +:+ putlines ls).
  by rewrite getlines_app_NL, IH.
Qed.

Lemma getlines_putlines_id ls :
  Forall (λ l, lacks "010" l = true) ls → getlines (putlines ls) = ls.
Proof.
  rewrite getlines_putlines. induction 1 as [|l ls Hl _ IH]; [done|].
  csimpl. by rewrite getlines_line, IH.
Qed.

(** Lines that were read hold no line feed. *)
Lemma getlines_lack_NL s : Forall (λ l, lacks "010" l = true) (getlines s).
Proof.
  induction s as [|c s IH]; [constructor|]. cbn [getlines].
  destruct (c =? "010")%char eqn:Hc; [by constructor|].
  destruct (getlines s); inversion IH; subst; repeat constructor; auto;
    rewrite lacks_cons, Hc; done.
Qed.

(** *** Paths *)
Lemma path_append_app d n sfx :
  is_absolute sfx = false → d // (n +:+ sfx) = (d // n) +:+ sfx.
Proof.
  intros Hs. unfold path_append.
  replace (is_absolute (n +:+ sfx)) with (is_absolute n).
  - destruct (is_absolute n); [done|].
    destruct (is_empty d || ends_in_slash d); by rewrite !string_app_assoc.
  - destruct n as [|c n]; [done|]. unfold is_absolute.
    by rewrite string_app_cons, !prefix_byte.
Qed.

(** *** Ordered maps *)
Lemma map_items_perm {A} (m : gmap string A) : map_items m ≡ₚ map_to_list m.
Proof. apply merge_sort_Permutation. Qed.

Lemma elem_of_map_items {A} (m : gmap string A) k x :
  (k, x) ∈ map_items m ↔ m !! k = Some x.
Proof. by rewrite map_items_perm, elem_of_map_to_list. Qed.
