(* ===== verification/ConfBase.v ===== *)
(** * The run-time of cellframe-node-config

    The state the configuration tool works on (the variable storage, the files,
    what it printed and the commands it spawned), the monad its code is written
    in (a state monad with C++ exceptions and undefined behaviour), what the tool
    uses of [std::filesystem] and [std::cout], and the rules to reason about such
    code: [only_prints] for code that computes a value and at most prints, and
    [pres R] for code all of whose final states are [R]-related to the initial
    one. *)
From S2P Require Export ConfStr.

(** ** The host

    The platform the tool is compiled for and what it asks its host: the results
    of [gethostname], of [std::system] and of [ShellExecuteEx] (from the commands
    spawned so far and the command), whether the process may create, replace or
    remove the file of a path, the order in which a directory lists its entries,
    the keys of the Windows registry that open and their string values, and the names of the
    running processes. *)
Inductive platform := LINUX | ANDROID | APPLE | WINDOWS.

Inductive shell_result :=
  | ShellStarted
  | ShellCancelled
  | ShellFailed (error : Z).

Class Host := {
  os : platform;
  gethostname : option string;
  system : list string → string → Z;
  shell_execute : list string → string → shell_result;
  may_write : string → bool;
  dir_order : list string → list string;
  registry_opens : string → bool;
  registry_string : string → string → option string;
  processes : list string
}.

(** ** State *)
Inductive fnode :=
  | FDir
  | FFile (content : string).

#[export] Instance fnode_eq_dec : EqDecision fnode.
Proof. solve_decision. Defined.

Record st := St {
  variable_storage : gmap string string;
  files : gmap string fnode;
  console : list string;
  spawned : list string
}.

Definition set_console (c : list string) (s : st) : st :=
  St (variable_storage s) (files s) c (spawned s).

Definition set_vars (v : gmap string string) (s : st) : st :=
  St v (files s) (console s) (spawned s).

Definition set_files (f : gmap string fnode) (s : st) : st :=
  St (variable_storage s) f (console s) (spawned s).

Definition add_spawned (cmd : string) (s : st) : st :=
  St (variable_storage s) (files s) (console s) (spawned s ++ [cmd]).

(** ** The monad

    [Beyond] marks what the model does not describe (a regular expression that is
    not a literal, a copy of a directory). *)
Inductive exn :=
  | invalid_argument (what : string)
  | filesystem_error
  | bad_function_call.

Inductive outcome (A : Type) :=
  | Value (a : A) (s : st)
  | Thrown (e : exn) (s : st)
  | Ub
  | Beyond.

Arguments Value {A} a s.
Arguments Thrown {A} e s.
Arguments Ub {A}.
Arguments Beyond {A}.

Definition M (A : Type) := st → outcome A.

#[export] Instance M_ret : MRet M := λ A a s, Value a s.

#[export] Instance M_bind : MBind M := λ A B k m s,
  match m s with
  | Value a s' => k a s'
  | Thrown e s' => Thrown e s'
  | Ub => Ub
  | Beyond => Beyond
  end.

#[export] Instance M_fmap : FMap M := λ A B f m, m ≫= (λ a, mret (f a)).

Definition throw {A} (e : exn) : M A := λ s, Thrown e s.
Definition undef {A} : M A := λ _, Ub.
Definition beyond {A} : M A := λ _, Beyond.

Definition when (b : bool) (m : M unit) : M unit := if b then m else mret tt.

(** [v[i]] of a [std::vector] is not checked. *)
Definition at_ {A} (v : list A) (i : nat) : M A :=
  match v !! i with
  | Some a => mret a
  | None => undef
  end.

(** ** Flags: AbstractCommand.h *)
Definition F_VERBOSE : Z := 1.
Definition F_FORCE : Z := 2.
Definition F_DRYRUN : Z := 4.

Definition flag (flags f : Z) : bool := negb (Z.land flags f =z? 0).

(** ** Console *)
Definition say (text : string) : M unit :=
  λ s, Value tt (set_console (console s ++ [text]) s).

Definition verbose (flags : Z) (text : string) : M unit :=
  when (flag flags F_VERBOSE) (say text).

(** ** variable_storage: AbstractCommand.cpp

    [operator[]] of [std::map] inserts an empty string under a missing key. *)
Definition storage (k : string) : M string := λ s,
  let v := default "" (variable_storage s !! k) in
  Value v (match variable_storage s !! k with
           | Some _ => s
           | None => set_vars (<[k := ""]> (variable_storage s)) s
           end).

(** The variables in the order of an iteration over the map. *)
Definition storage_items : M (list (string * string)) := λ s,
  Value (map_items (variable_storage s)) s.

Definition storage_set (k v : string) : M unit := λ s,
  Value tt (set_vars (<[k := v]> (variable_storage s)) s).

(** ** std::filesystem

    A file is named by the text of its path; a path that ends in a slash names a
    directory. *)
Fixpoint chop_slash (p : string) : string :=
  match p with
  | "" => ""
  | String c "" => if (c =? "/")%char then "" else p
  | String c p' => String c (chop_slash p')
  end.

Definition node_at (f : gmap string fnode) (p : string) : option fnode :=
  if ends_in_slash p
  then match f !! chop_slash p with Some FDir => Some FDir | _ => None end
  else f !! p.

Definition present (f : gmap string fnode) (p : string) : bool :=
  match node_at f p with Some _ => true | None => false end.

Definition fs_exists (p : string) : M bool := λ s, Value (present (files s) p) s.

(** The lines an [std::ifstream] of the path delivers (none when it cannot be
    opened or is a directory). *)
Definition read_lines (p : string) : M (list string) := λ s,
  Value (match node_at (files s) p with
         | Some (FFile t) => getlines t
         | _ => []
         end) s.

Section Files.
Context {H : Host}.

Definition put_file (p text : string) : M unit := λ s,
  Value tt (set_files (<[p := FFile text]> (files s)) s).

(** [std::ofstream file (path); file << ...]: a stream that cannot be opened
    drops the text silently. *)
Definition write_file (p text : string) : M unit := λ s,
  match node_at (files s) p with
  | Some FDir => Value tt s
  | _ => if may_write p && negb (ends_in_slash p) then put_file p text s else Value tt s
  end.

(** [fs::copy_file (from, to)], with or without [overwrite_existing]. *)
Definition fs_copy_file (overwrite : bool) (from to : string) : M unit := λ s,
  match node_at (files s) from, node_at (files s) to with
  | Some (FFile t), None => if may_write to && negb (ends_in_slash to) then put_file to t s
                            else Thrown filesystem_error s
  | Some (FFile t), Some (FFile _) =>
      if overwrite && negb (from =s? to) && may_write to then put_file to t s
      else Thrown filesystem_error s
  | _, _ => Thrown filesystem_error s
  end.

(** [fs::copy (from, to)]. *)
Definition fs_copy (from to : string) : M unit := λ s,
  match node_at (files s) from, node_at (files s) to with
  | Some FDir, _ => Beyond
  | Some (FFile _), Some FDir => Beyond
  | _, _ => fs_copy_file false from to s
  end.

(** [fs::rename (from, to)]: replaces a file. *)
Definition fs_rename (from to : string) : M unit := λ s,
  match node_at (files s) from, node_at (files s) to with
  | None, _ => Thrown filesystem_error s
  | Some FDir, _ => Beyond
  | Some (FFile _), Some FDir => Thrown filesystem_error s
  | Some (FFile t), _ =>
      if from =s? to then Value tt s
      else if may_write from && may_write to && negb (ends_in_slash to)
      then Value tt (set_files (<[to := FFile t]> (base.delete from (files s))) s)
      else Thrown filesystem_error s
  end.

(** [std::system (cmd)]: its answer is the host's and the command is recorded in
    [spawned]; what the spawned program does to files is not modelled, so that a
    statement that nothing is changed also has to say that nothing was spawned. *)
Definition run_system (cmd : string) : M Z := λ s,
  Value (system (spawned s) cmd) (add_spawned cmd s).

End Files.

(** ** Rules: code that only prints

    [only_prints m r]: [m] ends in the result [r], whatever the state, and
    changes nothing but the console. *)
Inductive result (A : Type) :=
  | Ok (a : A)
  | Err (e : exn)
  | Wild
  | Unmodelled.

Arguments Ok {A} a.
Arguments Err {A} e.
Arguments Wild {A}.
Arguments Unmodelled {A}.

Definition emit {A} (r : result A) (s : st) : outcome A :=
  match r with
  | Ok a => Value a s
  | Err e => Thrown e s
  | Wild => Ub
  | Unmodelled => Beyond
  end.

Definition only_prints {A} (m : M A) (r : result A) : Prop :=
  ∀ s, ∃ c, m s = emit r (set_console c s).

Lemma set_console_id s : set_console (console s) s = s.
Proof. by destruct s. Qed.

Section OnlyPrints.
Context {A B : Type}.
Implicit Types (m : M A) (k : A → M B).

Lemma only_prints_ret (a : A) : only_prints (mret a) (Ok a).
Proof. intros s. exists (console s). simpl. by rewrite set_console_id. Qed.

Lemma only_prints_throw e : only_prints (throw (A:=A) e) (Err e).
Proof. intros s. exists (console s). simpl. by rewrite set_console_id. Qed.

Lemma only_prints_undef : only_prints (undef (A:=A)) Wild.
Proof. intros s. by exists []. Qed.

Lemma only_prints_bind m k r :
  ∀ a, only_prints m (Ok a) → only_prints (k a) r → only_prints (m ≫= k) r.
Proof.
  intros a Hm Hk s. destruct (Hm s) as [c Hc]. destruct (Hk (set_console c s)) as [c' Hc'].
  exists c'. unfold mbind, M_bind. rewrite Hc. simpl. by rewrite Hc'.
Qed.

Lemma only_prints_bind_err m k e : only_prints m (Err e) → only_prints (m ≫= k) (Err e).
Proof.
  intros Hm s. destruct (Hm s) as [c Hc]. exists c. unfold mbind, M_bind. by rewrite Hc.
Qed.

Lemma only_prints_bind_wild m k : only_prints m Wild → only_prints (m ≫= k) Wild.
Proof. intros Hm s. destruct (Hm s) as [c Hc]. exists c. unfold mbind, M_bind. by rewrite Hc. Qed.

Lemma only_prints_at (v : list A) i a : v !! i = Some a → only_prints (at_ v i) (Ok a).
Proof. intros Hi. unfold at_. rewrite Hi. apply only_prints_ret. Qed.

End OnlyPrints.

Lemma only_prints_say t : only_prints (say t) (Ok tt).
Proof. intros s. by exists (console s ++ [t]). Qed.

Lemma only_prints_verbose flags t : only_prints (verbose flags t) (Ok tt).
Proof.
  unfold verbose, when. destruct (flag _ _); [apply only_prints_say|apply only_prints_ret].
Qed.

#[export] Hint Resolve only_prints_ret only_prints_throw only_prints_undef
  only_prints_say only_prints_verbose : node.

(** ** Rules: all final states are related to the initial one

    Undefined behaviour and unmodelled steps have no final state. *)
Definition pres (R : st → st → Prop) {A} (m : M A) : Prop :=
  ∀ s, match m s with
       | Value _ s' | Thrown _ s' => R s s'
       | Ub | Beyond => True
       end.

(** A relation that ignores the console. *)
Class Silent (R : st → st → Prop) : Prop := silent s c : R s (set_console c s).

Section Pres.
Context (R : st → st → Prop) `{HR : !PreOrder R}.

Lemma pres_ret {A} (a : A) : pres R (mret a).
Proof. intros s. simpl. reflexivity. Qed.

Lemma pres_throw {A} e : pres R (throw (A:=A) e).
Proof. intros s. simpl. reflexivity. Qed.

Lemma pres_undef {A} : pres R (undef (A:=A)).
Proof. done. Qed.

Lemma pres_bind {A B} (m : M A) (k : A → M B) :
  pres R m → (∀ a, pres R (k a)) → pres R (m ≫= k).
Proof.
  intros Hm Hk s. unfold mbind, M_bind. specialize (Hm s).
  destruct (m s) as [a s'|e s'| |]; try done.
  specialize (Hk a s'). destruct (k a s'); try done; by etrans.
Qed.

Lemma pres_when b (m : M unit) : pres R m → pres R (when b m).
Proof. destruct b; [done|]. intros _. apply pres_ret. Qed.

Lemma pres_if {A} (b : bool) (m1 m2 : M A) : pres R m1 → pres R m2 → pres R (if b then m1 else m2).
Proof. by destruct b. Qed.

Lemma pres_at {A} (v : list A) i : pres R (at_ v i).
Proof. unfold at_. destruct (v !! i); [apply pres_ret|apply pres_undef]. Qed.

Lemma pres_fs_exists p : pres R (fs_exists p).
Proof. intros s. simpl. reflexivity. Qed.

Lemma pres_read_lines p : pres R (read_lines p).
Proof. intros s. simpl. reflexivity. Qed.

Context `{HS : !Silent R}.

Lemma pres_say t : pres R (say t).
Proof. intros s. apply HS. Qed.

Lemma pres_verbose flags t : pres R (verbose flags t).
Proof. apply pres_when, pres_say. Qed.

Lemma pres_only_prints {A} (m : M A) r : only_prints m r → pres R m.
Proof. intros Hm s. destruct (Hm s) as [c Hc]. rewrite Hc. by destruct r; try apply HS. Qed.

End Pres.

#[export] Hint Resolve pres_ret pres_throw pres_undef pres_bind pres_when pres_if pres_at
  pres_fs_exists pres_read_lines pres_say pres_verbose : node.

(** ** Rules: forward execution

    [wp m Q X s]: run from [s], [m] ends in a value and a state that satisfy [Q],
    or throws in a state that satisfies [X], or has no final state. *)
Definition wp {A} (m : M A) (Q : A → st → Prop) (X : exn → st → Prop) (s : st) : Prop :=
  match m s with
  | Value a s' => Q a s'
  | Thrown e s' => X e s'
  | Ub | Beyond => True
  end.

Lemma wp_bind {A B} (m : M A) (k : A → M B) Q X s :
  wp m (λ a s', wp (k a) Q X s') X s → wp (m ≫= k) Q X s.
Proof. unfold wp, mbind, M_bind. by destruct (m s). Qed.

Lemma wp_mono {A} (m : M A) (Q Q' : A → st → Prop) (X X' : exn → st → Prop) s :
  wp m Q X s → (∀ a s', Q a s' → Q' a s') → (∀ e s', X e s' → X' e s') → wp m Q' X' s.
Proof. unfold wp. destruct (m s); auto. Qed.

Lemma wp_pres {A} R (m : M A) s : wp m (λ _, R s) (λ _, R s) s → match m s with
  | Value _ s' | Thrown _ s' => R s s' | Ub | Beyond => True end.
Proof. done. Qed.

Lemma wp_Value {A} (m : M A) Q X s a s' : wp m Q X s → m s = Value a s' → Q a s'.
Proof. unfold wp. intros Hm Heq. by rewrite Heq in Hm. Qed.

Section Wp.
Context {A : Type} (Q : A → st → Prop) (X : exn → st → Prop).

Lemma wp_ret a s : Q a s → wp (mret a) Q X s.
Proof. done. Qed.

Lemma wp_throw e s : X e s → wp (throw e) Q X s.
Proof. done. Qed.

Lemma wp_only_prints (m : M A) r s :
  only_prints m r →
  (∀ c, match r with
        | Ok a => Q a (set_console c s)
        | Err e => X e (set_console c s)
        | _ => True
        end) → wp m Q X s.
Proof. intros Hm HQ. unfold wp. destruct (Hm s) as [c ->]. by destruct r; simpl. Qed.

Lemma wp_at (v : list A) i s : (∀ a, v !! i = Some a → Q a s) → wp (at_ v i) Q X s.
Proof. intros HQ. unfold wp, at_. by destruct (v !! i); [apply HQ|]. Qed.

End Wp.

Section WpUnit.
Context (X : exn → st → Prop).
Implicit Types (Q : unit → st → Prop).

Lemma wp_say Q t s : (∀ c, Q tt (set_console c s)) → wp (say t) Q X s.
Proof. intros HQ. apply HQ. Qed.

Lemma wp_verbose Q flags t s : (∀ c, Q tt (set_console c s)) → wp (verbose flags t) Q X s.
Proof. intros HQ. eapply wp_only_prints; [apply only_prints_verbose|done]. Qed.

Lemma wp_when Q b m s : (b = true → wp m Q X s) → (b = false → Q tt s) → wp (when b m) Q X s.
Proof. destruct b; intros Ht Hf; [by apply Ht|by apply Hf]. Qed.

Lemma wp_fs_exists (Q : bool → st → Prop) p s :
  Q (present (files s) p) s → wp (fs_exists p) Q X s.
Proof. done. Qed.

End WpUnit.

(** One step of a command; values of tests stay in the context. *)
Ltac wp_step :=
  lazymatch goal with
  | |- wp (_ ≫= _) _ _ _ => apply wp_bind
  | |- wp (mret _) _ _ _ => apply wp_ret
  | |- wp (throw _) _ _ _ => apply wp_throw
  | |- wp (say _) _ _ _ => apply wp_say; intros ?
  | |- wp (verbose _ _) _ _ _ => apply wp_verbose; intros ?
  | |- wp (fs_exists _) _ _ _ => apply wp_fs_exists
  | |- wp (at_ _ _) _ _ _ => apply wp_at; intros ? ?
  | |- wp undef _ _ _ => exact I
  | |- wp (if ?b then _ else _) _ _ _ => let E := fresh "E" in destruct b eqn:E
  end; cbv beta.
Ltac wp_steps := repeat wp_step.

(** ** CONFIGS_PATH

    Reading a variable may insert it; reading it again does not. *)
Definition touch (k : string) (s : st) : st :=
  match variable_storage s !! k with
  | Some _ => s
  | None => set_vars (<[k := ""]> (variable_storage s)) s
  end.

Lemma storage_touch k s : storage k s = Value (default "" (variable_storage s !! k)) (touch k s).
Proof. done. Qed.

Lemma touch_lookup k s : default "" (variable_storage (touch k s) !! k) = default "" (variable_storage s !! k).
Proof.
  unfold touch. destruct (variable_storage s !! k) eqn:Hk; simpl; [by rewrite Hk|].
  by rewrite lookup_insert_eq.
Qed.

Lemma touch_touch k s : touch k (touch k s) = touch k s.
Proof.
  unfold touch at 2 3. destruct (variable_storage s !! k) eqn:Hk; unfold touch.
  - by rewrite Hk.
  - simpl. by rewrite lookup_insert_eq.
Qed.

Lemma touch_console k c s : touch k (set_console c s) = set_console c (touch k s).
Proof. unfold touch. simpl. by destruct (variable_storage s !! k). Qed.

Lemma touch_files k s : files (touch k s) = files s.
Proof. unfold touch. by destruct (variable_storage s !! k). Qed.

Lemma touch_spawned k s : spawned (touch k s) = spawned s.
Proof. unfold touch. by destruct (variable_storage s !! k). Qed.

(** ** Runs that return *)
Definition returns {A} (o : outcome A) : bool :=
  match o with Value _ _ => true | _ => false end.

Lemma returns_inv {A} (o : outcome A) : returns o = true → ∃ a s, o = Value a s.
Proof. destruct o; try done. eauto. Qed.

Lemma returns_bind {A B} (m : M A) (k : A → M B) s :
  returns ((m ≫= k) s) = true → ∃ a s1 b s2, m s = Value a s1 ∧ k a s1 = Value b s2.
Proof.
  unfold mbind, M_bind. destruct (m s) as [a s1| | |]; try done.
  intros (b & s2 & Hk)%returns_inv. eauto 10.
Qed.

(** ** A concrete host, for the examples *)
Definition demo_host : Host := {|
  os := LINUX;
  gethostname := Some "box";
  system := λ _ _, 0%Z;
  shell_execute := λ _ _, ShellStarted;
  may_write := λ _, true;
  dir_order := λ names, names;
  registry_opens := λ _, false;
  registry_string := λ _ _, None;
  processes := []
|}.

(** One network with a template, enabled and configured by its user. *)
Definition demo_state : st :=
  St {["CONFIGS_PATH" := "/opt"]}
     (<["/opt/share/configs/network/Net.cfg" := FFile ("[general]" +:+ NL +:+ "node-role=" +:+ NL)]>
      (<["/opt/etc/network/Net.cfg" := FFile ("[general]" +:+ NL +:+ "node-role=light" +:+ NL)]>
       {["/opt/etc/network" := FDir]}))
     [] [].
