(* ===== verification/ConfSubst.v ===== *)
(** * Placeholders: conftool/config/CellframeConfigFile.cpp (namespace utils)

    [substitute_variables] replaces every [${NAME}] of a text by the value of the
    variable [NAME]: it builds one placeholder per variable, keyed by the pattern
    [\${NAME}], and for each one, in the order of the patterns, runs
    [std::regex_replace] with the value as the format. *)
From S2P Require Import CLib.
From S2P Require Export ConfBase.

(** ** std::regex, for the patterns and formats the tool builds

    [regex_literal re] is the text a pattern matches when the pattern is made of
    ordinary bytes and escaped punctuation; [None] for any other pattern. *)
Definition is_alnum (c : ascii) : bool :=
  let z := char_code c in
  is_digit c || ((65 <=? z) && (z <=? 90))%Z || ((97 <=? z) && (z <=? 122))%Z || (z =z? 95).

Definition is_meta (c : ascii) : bool :=
  contains (String c "") "^$\.*+?()[]{}|" || (c =? "000")%char.

Fixpoint regex_literal (re : string) : option string :=
  match re with
  | "" => Some ""
  | String "\" (String c re') =>
      if is_alnum c || (c =? "000")%char then None else String c <$> regex_literal re'
  | String c re' => if is_meta c then None else String c <$> regex_literal re'
  end.

(** The format of [std::regex_replace]: [$$], [$&], the text before and after
    the match, and [$n]; a pattern without groups only has [$0] and [$00].
    [pre] is the text since the last match, [suf] the text after this one. *)
Fixpoint expand (fmt mat pre suf : string) : string :=
  match fmt with
  | "" => ""
  | String "$" (String c rest as fmt') =>
      if (c =? "$")%char then String "$" (expand rest mat pre suf)
      else if (c =? "&")%char then mat +:+ expand rest mat pre suf
      else if (c =? "`")%char then pre +:+ expand rest mat pre suf
      else if (c =? "'")%char then suf +:+ expand rest mat pre suf
      else if is_digit c then
        match rest with
        | String d rest' =>
            if is_digit d
            then (if (c =? "0")%char && (d =? "0")%char then mat else "") +:+ expand rest' mat pre suf
            else (if (c =? "0")%char then mat else "") +:+ expand rest mat pre suf
        | "" => if (c =? "0")%char then mat else ""
        end
      else String "$" (expand fmt' mat pre suf)
  | String c fmt' => String c (expand fmt' mat pre suf)
  end.

(** [std::regex_replace] of the literal [mat]: [skip] bytes still belong to the
    last match, [pre] is the text since it. *)
Fixpoint replace_all (mat fmt : string) (skip : nat) (pre s : string) : string :=
  match s with
  | "" => ""
  | String c s' =>
      match skip with
      | S k => replace_all mat fmt k "" s'
      | O =>
          if String.prefix mat s
          then expand fmt mat pre (str_drop (String.length mat) s)
                 +:+ replace_all mat fmt (pred (String.length mat)) "" s'
          else String c (replace_all mat fmt O (pre +:+ String c "") s')
      end
  end.

Definition regex_replace (s re fmt : string) : M string :=
  match regex_literal re with
  | Some (String _ _ as mat) => mret (replace_all mat fmt O "" s)
  | _ => beyond
  end.

(** ** utils::escape *)
Definition escape (str : string) : M string :=
  res ← regex_replace str "\{" "\{";
  regex_replace res "\}" "\}".

(** ** Placeholder, PlaceholderManager

    A [Placeholder<>] resolves to its value when it is given no arguments, and
    throws [ArgCountError] otherwise ([None]). *)
Record Placeholder := { pattern_ : string; resolver_ : string }.

Definition resolve (ph : Placeholder) (args : list string) : option string :=
  if (Nat.eqb (length args) 0) then Some (resolver_ ph) else None.

Definition addPlaceholder (ph : Placeholder) (phs : gmap string Placeholder) :
    gmap string Placeholder := <[pattern_ ph := ph]> phs.

Definition replaceEachPh (input : string) (args : gmap string (list string)) (ph : Placeholder) :
    M string :=
  let phStr := pattern_ ph in
  regex ← escape phStr;
  let vArgs := default [] (args !! phStr) in
  match resolve ph vArgs with
  | Some fmt => regex_replace input regex fmt
  | None => mret input
  end.

Fixpoint replace_each (input : string) (args : gmap string (list string))
    (phs : list (string * Placeholder)) : M string :=
  match phs with
  | [] => mret input
  | (_, ph) :: phs' => input' ← replaceEachPh input args ph; replace_each input' args phs'
  end.

Definition replacePlaceholders (phs : gmap string Placeholder) (input : string)
    (args : gmap string (list string)) : M string := replace_each input args (map_items phs).

(** ** substitute_variables *)
Definition placeholders_of (vars : gmap string string) : gmap string Placeholder :=
  foldl (λ phs var, addPlaceholder {| pattern_ := "\${" +:+ var.1 +:+ "}"; resolver_ := var.2 |} phs)
        ∅ (map_items vars).

Definition substitute_variables (s : string) : M string := λ σ,
  replacePlaceholders (placeholders_of (variable_storage σ)) s ∅ σ.

(** ** Replacing a literal *)
Lemma replace_byte x fmt pre c s :
  replace_all (String x "") fmt 0 pre (String c s) =
    if (c =? x)%char
    then expand fmt (String x "") pre s +:+ replace_all (String x "") fmt 0 "" s
    else String c (replace_all (String x "") fmt 0 (pre +:+ String c "") s).
Proof. cbn [replace_all]. rewrite prefix_byte. by destruct (c =? x)%char. Qed.

Lemma expand_lacks fmt mat pre suf : lacks "$" fmt = true → expand fmt mat pre suf = fmt.
Proof.
  induction fmt as [|c fmt IH]; [done|]. rewrite lacks_cons. intros [Hc Hf]%andb_prop.
  specialize (IH Hf). revert Hc IH.
  destruct c as [[] [] [] [] [] [] [] []]; cbn; intros ? IH; try (by rewrite IH); done.
Qed.

Lemma replace_all_absent mat fmt pre s :
  strfind mat s = None → replace_all mat fmt 0 pre s = s.
Proof.
  revert pre; induction s as [|c s IH]; intros pre; [done|].
  cbn [strfind replace_all]. destruct (String.prefix mat (String c s)); [done|].
  intros Hn. rewrite IH; [done|]. by destruct (strfind mat s).
Qed.

Lemma strfind_lacks x m s : lacks x s = true → strfind (String x m) s = None.
Proof.
  induction s as [|c s IH]; [done|]. rewrite lacks_cons. intros [Hc Hs]%andb_prop.
  apply negb_true_iff, Ascii.eqb_neq in Hc. cbn [strfind String.prefix].
  destruct (ascii_dec x c); [congruence|]. by rewrite IH.
Qed.

Lemma strfind_app_lacks x m s t :
  lacks x s = true →
  strfind (String x m) (s +:+ t) = Nat.add (String.length s) <$> strfind (String x m) t.
Proof.
  induction s as [|c s IH]; [intros _; change ("" +:+ t) with t; by destruct (strfind _ t)|].
  rewrite lacks_cons. intros [Hc Hs]%andb_prop. rewrite string_app_cons.
  apply negb_true_iff, Ascii.eqb_neq in Hc. cbn [strfind String.prefix].
  destruct (ascii_dec x c); [congruence|]. rewrite (IH Hs). by destruct (strfind _ t).
Qed.

Lemma str_drop_app s t : str_drop (String.length s) (s +:+ t) = t.
Proof. by induction s. Qed.

Lemma str_prefix_app s t : String.prefix s (s +:+ t) = true.
Proof.
  induction s as [|c s IH]; [by destruct t|]. rewrite string_app_cons. cbn [String.prefix].
  destruct (ascii_dec c c); [|done]. apply IH.
Qed.

Lemma replace_all_skip mat fmt pre s t :
  replace_all mat fmt (String.length s) pre (s +:+ t) =
    replace_all mat fmt 0 (if s =s? "" then pre else "") t.
Proof.
  revert pre; induction s as [|c s IH]; intros pre; [done|].
  rewrite string_app_cons. cbn [replace_all String.length]. rewrite IH. by destruct (s =s? "").
Qed.

(** The one occurrence of a literal in a text is replaced by the value. *)
Lemma replace_all_once x m fmt pre a b :
  lacks x a = true → lacks "$" fmt = true →
  replace_all (String x m) fmt 0 pre (a +:+ String x m +:+ b) =
    a +:+ fmt +:+ replace_all (String x m) fmt 0 "" b.
Proof.
  intros Ha Hf. revert pre; induction a as [|c a IH]; intros pre.
  - change ("" +:+ String x m +:+ b) with (String x (m +:+ b)). cbn [replace_all].
    change (String x (m +:+ b)) with (String x m +:+ b) at 1. rewrite str_prefix_app.
    cbn [String.length pred]. rewrite replace_all_skip, expand_lacks by done.
    by destruct (m =s? "").
  - rewrite lacks_cons in Ha. apply andb_prop in Ha as [Hc Ha].
    apply negb_true_iff, Ascii.eqb_neq in Hc. rewrite !string_app_cons.
    cbn [replace_all String.prefix]. destruct (ascii_dec x c); [congruence|]. by rewrite IH.
Qed.

(** ** Names of variables

    A plain name has no byte that is special in a regular expression. *)
Definition plain_name (n : string) : bool := str_all (λ c, negb (is_meta c)) n.

Lemma plain_lacks c n : is_meta c = true → plain_name n = true → lacks c n = true.
Proof.
  intros Hc. apply str_all_impl. intros d Hd. apply negb_true_iff in Hd.
  apply negb_true_iff, Ascii.eqb_neq. congruence.
Qed.

Lemma regex_literal_plain n t :
  plain_name n = true → regex_literal (n +:+ t) = String.append n <$> regex_literal t.
Proof.
  induction n as [|c n IH]; [intros _; change ("" +:+ t) with t; by destruct (regex_literal t)|].
  unfold plain_name. cbn [str_all]. intros [Hc Hn]%andb_prop. rewrite string_app_cons.
  apply negb_true_iff in Hc.
  assert (Hb : c ≠ "\"%char) by (by intros ->).
  assert (Heq : regex_literal (String c (n +:+ t)) = String c <$> regex_literal (n +:+ t)).
  { cbn [regex_literal]. rewrite Hc.
    destruct c as [[] [] [] [] [] [] [] []]; try done. }
  rewrite Heq, IH by done. by destruct (regex_literal t).
Qed.

Lemma replace_byte_lacks x fmt pre s t :
  lacks x s = true → lacks "$" fmt = true →
  replace_all (String x "") fmt 0 pre (s +:+ String x t) =
    s +:+ fmt +:+ replace_all (String x "") fmt 0 "" t.
Proof. apply (replace_all_once x ""). Qed.

Definition pattern_of (n : string) : string := "\${" +:+ n +:+ "}".
Definition mark (n : string) : string := "${" +:+ n +:+ "}".

(** The pattern of a plain name is escaped to one that matches [${NAME}]. *)
Lemma escape_plain n σ :
  plain_name n = true → escape (pattern_of n) σ = Value ("\$\{" +:+ n +:+ "\}") σ.
Proof.
  intros Hn. unfold escape, mbind, M_bind, regex_replace.
  change (regex_literal "\{") with (Some "{"). change (regex_literal "\}") with (Some "}").
  cbv beta iota. unfold mret, M_ret. f_equal. unfold pattern_of.
  change ("\${" +:+ n +:+ "}") with ("\$" +:+ String "{" (n +:+ "}")).
  rewrite replace_byte_lacks by done.
  rewrite (replace_all_absent "{" _ _ (n +:+ "}")).
  2: { apply strfind_lacks. unfold lacks. rewrite str_all_app.
       by rewrite (plain_lacks "{" n eq_refl Hn : str_all _ n = true). }
  replace ("\$" +:+ "\{" +:+ n +:+ "}") with (("\$\{" +:+ n) +:+ String "}" "")
    by (rewrite <- string_app_assoc; done).
  rewrite replace_byte_lacks; [|unfold lacks; rewrite str_all_app|done].
  - simpl. by rewrite !string_app_nil_r, <- string_app_assoc.
  - by rewrite (plain_lacks "}" n eq_refl Hn : str_all _ n = true).
Qed.

Lemma regex_literal_mark n :
  plain_name n = true → regex_literal ("\$\{" +:+ n +:+ "\}") = Some (mark n).
Proof.
  intros Hn. change ("\$\{" +:+ n +:+ "\}") with (String "\" (String "$" (String "\" (String "{" (n +:+ "\}"))))).
  cbn [regex_literal]. change (is_alnum "$" || ("$" =? "000")%char) with false.
  change (is_alnum "{" || ("{" =? "000")%char) with false. cbv beta iota.
  by rewrite regex_literal_plain.
Qed.

(** ** The placeholders of the variable storage *)
Lemma string_app_byte_inj c (s t : string) :
  s +:+ String c "" = t +:+ String c "" → s = t.
Proof.
  revert t; induction s as [|d s IH]; intros [|e t]; rewrite ?string_app_cons; simpl; intros Heq;
    try done.
  - injection Heq as -> Ht. by destruct t.
  - injection Heq as -> Hs. by destruct s.
  - injection Heq as -> Hst. by rewrite (IH _ Hst).
Qed.

#[export] Instance pattern_of_inj : Inj (=) (=) pattern_of.
Proof.
  intros n n' Hn. unfold pattern_of in Hn. simpl in Hn. injection Hn as Hn.
  by apply string_app_byte_inj in Hn.
Qed.

Definition var_placeholder (n v : string) : Placeholder :=
  {| pattern_ := pattern_of n; resolver_ := v |}.

Lemma placeholders_fold (l : list (string * string)) phs pat ph :
  NoDup l.*1 →
  foldl (λ phs var, addPlaceholder (var_placeholder var.1 var.2) phs) phs l !! pat = Some ph →
  (∃ n v, (n, v) ∈ l ∧ pat = pattern_of n ∧ ph = var_placeholder n v) ∨ phs !! pat = Some ph.
Proof.
  revert phs; induction l as [|[n v] l IH]; intros phs; [by right|]. csimpl.
  intros [Hn Hd]%NoDup_cons Hl. destruct (IH _ Hd Hl) as [(n' & v' & ? & ? & ?)|Hp].
  - left. exists n', v'. split; [by right|done].
  - unfold addPlaceholder in Hp. apply lookup_insert_Some in Hp as [[<- <-]|[_ Hp]]; [|by right].
    left. exists n, v. split; [left|done].
Qed.

Lemma placeholders_fold_in (l : list (string * string)) phs n v :
  NoDup l.*1 → ((n, v) ∈ l ∨ ((n ∉ l.*1) ∧ (phs !! pattern_of n) = Some (var_placeholder n v))) →
  foldl (λ phs var, addPlaceholder (var_placeholder var.1 var.2) phs) phs l !! pattern_of n
    = Some (var_placeholder n v).
Proof.
  revert phs; induction l as [|[m w] l IH]; intros phs Hd Hin; csimpl.
  - destruct Hin as [Hin|[_ Hin]]; [by apply not_elem_of_nil in Hin|done].
  - apply NoDup_cons in Hd as [Hm Hd]. apply IH; [done|].
    destruct Hin as [[Heq|Hin]%elem_of_cons|[Hn Hp]].
    + injection Heq as -> ->. right. split; [done|]. apply lookup_insert_eq.
    + by left.
    + right. csimpl in Hn. apply not_elem_of_cons in Hn as [Hne Hn]. split; [done|].
      unfold addPlaceholder. simpl. rewrite lookup_insert_ne; [done|].
      intros Heq%(inj pattern_of). congruence.
Qed.

Lemma map_items_NoDup {A} (m : gmap string A) : NoDup (map_items m).*1.
Proof. rewrite map_items_perm. apply NoDup_fst_map_to_list. Qed.

Lemma placeholders_of_lookup vars pat ph :
  placeholders_of vars !! pat = Some ph ↔
    ∃ n v, vars !! n = Some v ∧ pat = pattern_of n ∧ ph = var_placeholder n v.
Proof.
  split.
  - intros Hp. destruct (placeholders_fold (map_items vars) ∅ pat ph (map_items_NoDup _) Hp)
      as [(n & v & Hin & ? & ?)|Hp'].
    + exists n, v. by rewrite elem_of_map_items in Hin.
    + by rewrite lookup_empty in Hp'.
  - intros (n & v & Hv & -> & ->).
    apply (placeholders_fold_in (map_items vars) ∅); [apply map_items_NoDup|].
    left. by apply elem_of_map_items.
Qed.

(** ** substitute_variables on plain names *)
Definition plain_vars (vars : gmap string string) : Prop :=
  ∀ n v, vars !! n = Some v → plain_name n = true.

Lemma replaceEachPh_plain n v input σ :
  plain_name n = true →
  replaceEachPh input ∅ (var_placeholder n v) σ = Value (replace_all (mark n) v 0 "" input) σ.
Proof.
  intros Hn. unfold replaceEachPh, mbind, M_bind. cbn [pattern_ var_placeholder].
  rewrite escape_plain by done. cbv beta iota. rewrite lookup_empty. unfold resolve. simpl.
  unfold regex_replace. rewrite regex_literal_mark by done. done.
Qed.

(** The placeholders in the order they are replaced. *)
Definition from_vars (vars : gmap string string) (l : list (string * Placeholder)) : Prop :=
  Forall (λ x, ∃ n v, vars !! n = Some v ∧ x.2 = var_placeholder n v) l.

Lemma items_from_vars vars : from_vars vars (map_items (placeholders_of vars)).
Proof.
  unfold from_vars. apply Forall_forall. intros [pat ph] Hin.
  apply elem_of_map_items, placeholders_of_lookup in Hin as (n & v & ? & _ & ?).
  by exists n, v.
Qed.

(** An invariant of the text is kept by the whole substitution when each
    replacement keeps it. *)
Lemma replace_each_inv (P : string → Prop) vars l input σ :
  plain_vars vars → from_vars vars l →
  (∀ n v s, vars !! n = Some v → P s → P (replace_all (mark n) v 0 "" s)) →
  P input → ∃ r, replace_each input ∅ l σ = Value r σ ∧ P r.
Proof.
  intros Hpl Hl HP. revert input; induction Hl as [|[pat ph] l (n & v & Hv & Hph) _ IH];
    intros input Hi; [by exists input|].
  simpl in Hph. subst ph. cbn [replace_each]. unfold mbind, M_bind.
  rewrite (replaceEachPh_plain n v input σ) by eauto. apply IH. eauto.
Qed.

(** Substitution of plain names returns a text. *)
Lemma substitute_inv (P : string → Prop) s σ :
  plain_vars (variable_storage σ) →
  (∀ n v t, variable_storage σ !! n = Some v → P t → P (replace_all (mark n) v 0 "" t)) →
  P s → ∃ r, substitute_variables s σ = Value r σ ∧ P r.
Proof. intros Hpl HP Hs. eapply replace_each_inv; eauto using items_from_vars. Qed.

(** A text without [$] is not changed. *)
Lemma substitute_no_dollar s σ :
  plain_vars (variable_storage σ) → lacks "$" s = true →
  substitute_variables s σ = Value s σ.
Proof.
  intros Hpl Hs. destruct (substitute_inv (λ t, t = s) s σ) as (r & Hr & ->); try done.
  intros n v t _ ->. apply replace_all_absent. by apply strfind_lacks.
Qed.

(** The bytes of the result come from the text and the values. *)
Lemma expand_all f fmt mat pre suf :
  str_all f fmt = true → str_all f mat = true → str_all f pre = true → str_all f suf = true →
  str_all f (expand fmt mat pre suf) = true.
Proof.
  intros Hf Hm Hp Hs. remember (String.length fmt) as k eqn:Hk.
  assert (Hle : (String.length fmt ≤ k)%nat) by lia. clear Hk. revert fmt Hf Hle.
  induction k as [|k IH]; intros [|c fmt] Hf Hle; simpl in Hle; try done; try lia.
  cbn [str_all] in Hf. apply andb_prop in Hf as [Hc Hf].
  assert (Hkeep : str_all f (String c (expand fmt mat pre suf)) = true).
  { cbn [str_all]. rewrite Hc. apply IH; [done|lia]. }
  destruct (decide (c = "$"%char)) as [->|Hne].
  2: { destruct c as [[] [] [] [] [] [] [] []]; try done. }
  destruct fmt as [|d fmt]; [done|]. cbn [str_all] in Hf. apply andb_prop in Hf as [Hd Hf].
  simpl in Hle. cbn [expand] in Hkeep |- *.
  assert (Hr : str_all f (expand fmt mat pre suf) = true) by (apply IH; [done|lia]).
  repeat (match goal with |- context [if ?b then _ else _] => destruct b end;
          try (cbn [str_all]; rewrite ?str_all_app, ?Hm, ?Hp, ?Hs, ?Hr, ?Hc; done)).
  all: destruct fmt as [|e fmt]; try done.
  all: cbn [str_all] in Hf; apply andb_prop in Hf as [_ Hf]; simpl in Hle;
    assert (Hr' : str_all f (expand fmt mat pre suf) = true) by (apply IH; [done|lia]);
    repeat (match goal with |- context [if ?b then _ else _] => destruct b end);
    rewrite ?str_all_app, ?Hm, ?Hr, ?Hr'; done.
Qed.

Lemma str_prefix_split m s : String.prefix m s = true → ∃ t, s = m +:+ t.
Proof.
  revert s; induction m as [|c m IH]; intros s; [by exists s|].
  destruct s as [|d s]; [done|]. cbn [String.prefix]. destruct (ascii_dec c d) as [->|]; [|done].
  intros (t & ->)%IH. by exists t.
Qed.

Lemma replace_all_all f mat fmt k pre s :
  str_all f fmt = true → str_all f pre = true → str_all f s = true →
  str_all f (replace_all mat fmt k pre s) = true.
Proof.
  intros Hf. revert k pre; induction s as [|c s IH]; intros k pre Hp Hs; [done|].
  pose proof Hs as Hcs. cbn [str_all] in Hs. apply andb_prop in Hs as [Hc Hs].
  cbn [replace_all]. destruct k as [|k]; [|by apply IH].
  destruct (String.prefix mat (String c s)) eqn:Hm.
  - apply str_prefix_split in Hm as (t & Ht). rewrite Ht in Hcs. rewrite str_all_app in Hcs.
    apply andb_prop in Hcs as [Hmat Hsuf]. rewrite Ht, str_drop_app, str_all_app.
    rewrite expand_all by done. by apply IH.
  - cbn [str_all]. rewrite Hc. apply IH; [|done]. rewrite str_all_app, Hp. simpl. by rewrite Hc.
Qed.

Lemma substitute_all f s σ :
  plain_vars (variable_storage σ) →
  map_Forall (λ _ v, str_all f v = true) (variable_storage σ) → str_all f s = true →
  ∃ r, substitute_variables s σ = Value r σ ∧ str_all f r = true.
Proof.
  intros Hpl Hv Hs. apply (substitute_inv (λ t, str_all f t = true)); try done.
  intros n v t Hn Ht. apply replace_all_all; [|done|done]. by apply (Hv n).
Qed.

(** The mark of one name is not found where another one's stands. *)
Lemma prefix_mark_ne n m b :
  plain_name n = true → plain_name m = true → n ≠ m →
  String.prefix (mark m) (mark n +:+ b) = false.
Proof.
  intros Hn Hm Hne. destruct (String.prefix _ _) eqn:Hp; [exfalso|done].
  apply str_prefix_split in Hp as (t & Ht). unfold mark in Ht. simpl in Ht. injection Ht as Ht.
  apply (plain_lacks "}") in Hn; [|done]. apply (plain_lacks "}") in Hm; [|done].
  revert m t Hm Ht Hne; induction n as [|c n IH]; intros [|d m] t Hm Ht Hne; try done;
    rewrite ?lacks_cons in *; simpl in Ht; injection Ht; intros; subst; split_bools; try done.
  apply (IH ltac:(done) m t); [done|done|congruence].
Qed.
