(* ===== verification/ConfTemplate.v ===== *)
(** * Templates: what substitute_variables computes

    The tool substitutes variables one after the other, each by a search through
    the whole text.  A template is a text of literal parts and references
    [${NAME}]; on templates the sequence of searches computes the simultaneous
    substitution [fill], in which every reference to a stored variable is replaced
    by its value and every other one stays. *)
From S2P Require Import CLib.
From S2P Require Export ConfSubst.

(** ** Templates *)
Inductive chunk :=
  | Lit (s : string)
  | Ref (n : string).

Definition chunk_text (c : chunk) : string :=
  match c with
  | Lit s => s
  | Ref n => mark n
  end.

Definition template_text (cs : list chunk) : string := foldr (λ c acc, chunk_text c +:+ acc) "" cs.

(** Literal parts hold no dollar sign, names no byte that is special in regular
    expressions. *)
Definition chunk_ok (c : chunk) : bool :=
  match c with
  | Lit s => lacks "$" s
  | Ref n => plain_name n
  end.

(** The reference semantics. *)
Definition fill_chunk (vars : gmap string string) (c : chunk) : string :=
  match c with
  | Lit s => s
  | Ref n => default (mark n) (vars !! n)
  end.

Definition fill (vars : gmap string string) (cs : list chunk) : string :=
  foldr (λ c acc, fill_chunk vars c +:+ acc) "" cs.

(** ** One variable *)
Definition bind_var (n v : string) (c : chunk) : chunk :=
  match c with
  | Lit s => Lit s
  | Ref m => if m =s? n then Lit v else Ref m
  end.

Lemma replace_all_literal x m fmt s t pre :
  lacks x s = true →
  replace_all (String x m) fmt 0 pre (s +:+ t) = s +:+ replace_all (String x m) fmt 0 (pre +:+ s) t.
Proof.
  revert pre; induction s as [|c s IH]; intros pre.
  { intros _. rewrite string_app_nil_r. done. }
  rewrite lacks_cons. intros [Hc Hs]%andb_prop. apply negb_true_iff, Ascii.eqb_neq in Hc.
  rewrite !string_app_cons. cbn [replace_all String.prefix].
  destruct (ascii_dec x c); [congruence|]. rewrite IH by done.
  by rewrite <- string_app_assoc.
Qed.

Lemma lacks_mark_tail n : plain_name n = true → lacks "$" ("{" +:+ n +:+ "}") = true.
Proof.
  intros Hn. unfold lacks. rewrite !str_all_app.
  by rewrite (plain_lacks "$" n eq_refl Hn : str_all _ n = true).
Qed.

(** The search for one variable binds its references and nothing else. *)
Lemma replace_template n v cs pre :
  plain_name n = true → lacks "$" v = true → forallb chunk_ok cs = true →
  replace_all (mark n) v 0 pre (template_text cs) = template_text (bind_var n v <$> cs).
Proof.
  intros Hn Hv. revert pre; induction cs as [|c cs IH]; intros pre; [done|].
  cbn [forallb]. intros [Hc Hcs]%andb_prop. csimpl. destruct c as [s|m]; cbn [chunk_text bind_var].
  - change (mark n) with (String "$" ("{" +:+ n +:+ "}")).
    rewrite replace_all_literal by done. f_equal. by apply IH.
  - destruct (m =s? n) eqn:Hm.
    + apply String.eqb_eq in Hm as ->. cbn [chunk_text].
      etransitivity;
        [exact (replace_all_once "$" ("{" +:+ n +:+ "}") v pre "" (template_text cs) eq_refl Hv)|].
      change (String "$" ("{" +:+ n +:+ "}")) with (mark n). by rewrite IH.
    + apply String.eqb_neq in Hm. cbn [chunk_text].
      pose proof (prefix_mark_ne m n (template_text cs) Hc Hn Hm) as Hp.
      change (mark m +:+ template_text cs)
        with (String "$" (("{" +:+ m +:+ "}") +:+ template_text cs)) in *.
      cbn [replace_all]. rewrite Hp.
      change (mark n) with (String "$" ("{" +:+ n +:+ "}")).
      rewrite replace_all_literal by (by apply lacks_mark_tail).
      change (String "$" ("{" +:+ n +:+ "}")) with (mark n). rewrite IH by done.
      done.
Qed.

Lemma bind_var_ok n v cs :
  lacks "$" v = true → forallb chunk_ok cs = true → forallb chunk_ok (bind_var n v <$> cs) = true.
Proof.
  intros Hv. induction cs as [|c cs IH]; [done|]. csimpl. intros [Hc Hcs]%andb_prop.
  rewrite IH by done. destruct c as [s|m]; simpl; [by rewrite andb_true_r|].
  destruct (m =s? n); simpl; by rewrite andb_true_r.
Qed.

(** ** All variables *)
Definition bind_all (l : list (string * Placeholder)) (vars : gmap string string) (c : chunk) : chunk :=
  match c with
  | Lit s => Lit s
  | Ref n => if existsb (λ x, x.2.(pattern_) =s? pattern_of n) l
             then Lit (default (mark n) (vars !! n)) else Ref n
  end.

Lemma bind_all_cons vars n v pat l c :
  vars !! n = Some v →
  bind_all l vars (bind_var n v c) = bind_all ((pat, var_placeholder n v) :: l) vars c.
Proof.
  intros Hv. destruct c as [s|m]; [done|]. cbn [bind_var].
  destruct (m =s? n) eqn:Hm; cbn [bind_all existsb snd pattern_ var_placeholder].
  - apply String.eqb_eq in Hm as ->. by rewrite String.eqb_refl, Hv.
  - replace (pattern_of n =s? pattern_of m) with false; [done|]. symmetry.
    apply String.eqb_neq. intros Heq%(inj pattern_of). by rewrite Heq, String.eqb_refl in Hm.
Qed.

Lemma replace_each_template vars l cs σ :
  plain_vars vars → map_Forall (λ _ v, lacks "$" v = true) vars → from_vars vars l →
  forallb chunk_ok cs = true →
  replace_each (template_text cs) ∅ l σ = Value (template_text (bind_all l vars <$> cs)) σ.
Proof.
  intros Hpl Hvs Hl. revert cs; induction Hl as [|[pat ph] l (n & v & Hv & Hph) _ IH]; intros cs Hcs.
  { cbn [replace_each]. do 2 f_equal. clear. induction cs as [|[s|n] cs IH]; csimpl; by rewrite <- ?IH. }
  simpl in Hph. subst ph. cbn [replace_each]. unfold mbind, M_bind.
  assert (Hd : lacks "$" v = true) by exact (Hvs n v Hv).
  rewrite (replaceEachPh_plain n v _ σ), replace_template by eauto.
  rewrite IH by (by apply bind_var_ok). do 2 f_equal.
  rewrite <- list_fmap_compose. apply list_fmap_ext. intros _ c _. by apply bind_all_cons.
Qed.

Lemma bind_all_fill vars cs :
  template_text (bind_all (map_items (placeholders_of vars)) vars <$> cs) = fill vars cs.
Proof.
  induction cs as [|c cs IH]; [done|]. csimpl. rewrite IH. f_equal.
  destruct c as [s|n]; [done|]. cbn [bind_all fill_chunk].
  destruct (existsb _ _) eqn:He; [done|]. cbn [chunk_text].
  destruct (vars !! n) as [v|] eqn:Hv; [|done]. exfalso. apply not_true_iff_false in He. apply He.
  apply existsb_exists. exists (pattern_of n, var_placeholder n v).
  split; [|by rewrite String.eqb_refl].
  apply list_elem_of_In, elem_of_map_items, placeholders_of_lookup. eauto.
Qed.

Section Substitute.
Context (σ : st).
Hypothesis Hplain : plain_vars (variable_storage σ).
Hypothesis Hvalues : map_Forall (λ _ v, lacks "$" v = true) (variable_storage σ).

Lemma substitute_template cs :
  forallb chunk_ok cs = true →
  substitute_variables (template_text cs) σ = Value (fill (variable_storage σ) cs) σ.
Proof.
  intros Hcs. unfold substitute_variables, replacePlaceholders.
  rewrite (replace_each_template (variable_storage σ)) by auto using items_from_vars.
  by rewrite bind_all_fill.
Qed.

(** The frequent case: one reference in a text. *)
Lemma substitute_variables_one n v a b :
  variable_storage σ !! n = Some v → lacks "$" a = true → lacks "$" b = true →
  substitute_variables (a +:+ "${" +:+ n +:+ "}" +:+ b) σ = Value (a +:+ v +:+ b) σ.
Proof.
  intros Hn Ha Hb.
  assert (Hcs : forallb chunk_ok [Lit a; Ref n; Lit b] = true).
  { simpl. by rewrite Ha, Hb, (Hplain n v Hn). }
  pose proof (substitute_template _ Hcs) as Hs. simpl in Hs.
  rewrite Hn, !string_app_nil_r in Hs. simpl in Hs. rewrite <- Hs. f_equal.
  unfold mark. by rewrite <- !string_app_assoc.
Qed.
End Substitute.

(** C33 (substitute_variables_template): on a template [substitute_variables] is the
    simultaneous substitution of all stored variables: every reference [${NAME}]
    to a stored variable becomes its value, every other reference and all literal
    text stay as they are, and the state does not change.  (Names have no byte
    special in regular expressions, values no dollar sign.) *)
Theorem substitute_variables_template σ cs :
  plain_vars (variable_storage σ) →
  map_Forall (λ _ v, lacks "$" v = true) (variable_storage σ) →
  forallb chunk_ok cs = true →
  substitute_variables (template_text cs) σ = Value (fill (variable_storage σ) cs) σ.
Proof.
  intros Hpl Hv. by apply substitute_template.
Qed.

Definition demo_template : list chunk :=
  [Lit "db="; Ref "DB_DRIVER"; Lit ":"; Ref "HOST_OS"; Ref "UNSET"; Lit "/"; Ref "HOST_OS"].

Lemma substitute_variables_template_witness : ∃ σ,
  substitute_variables "db=${DB_DRIVER}:${HOST_OS}${UNSET}/${HOST_OS}" σ
    = Value "db=mdbx:Linux${UNSET}/Linux" σ.
Proof.
  set (σ := set_vars (<["HOST_OS" := "Linux"]> {["DB_DRIVER" := "mdbx"]}) demo_state). exists σ.
  assert (Hf : fill (variable_storage σ) demo_template = "db=mdbx:Linux${UNSET}/Linux")
    by (vm_compute; reflexivity).
  rewrite <- Hf. refine (substitute_variables_template σ demo_template _ _ eq_refl).
  - intros m w Hm. cbn [variable_storage set_vars σ] in Hm.
    apply lookup_insert_Some in Hm as [[<- _]|[_ [<- _]%lookup_singleton_Some]]; reflexivity.
  - intros m w Hm. cbn [variable_storage set_vars σ] in Hm.
    apply lookup_insert_Some in Hm as [[_ <-]|[_ [_ <-]%lookup_singleton_Some]]; reflexivity.
Defined.
