(* ===== verification/ConfFile.v ===== *)
(** * Configuration files: conftool/config/CellframeConfigFile.h and .cpp

    The paths of the configuration files and the class
    [CellframeConfigurationFile]: reading a file into lines, looking a parameter
    of a group up, setting one, saving, and replacing placeholders.

    The abstract view of a file is the list of the kinds of its lines ([kinds]);
    [section] and [lookup] are the reference semantics of [exists_], and the
    theorems relate [set_] and [save] to it. *)
From S2P Require Import CLib.
From S2P Require Export ConfSubst.

(** ** Paths *)
Inductive ENetworkConfigType := CFG_GENERAL | CFG_MAINCHAIN | CFG_ZEROCHAIN.
Inductive ENetworkConfigState := CFG_ON | CFG_OFF | CFG_TEMPLATE.
Inductive EPathConfigType := CFG_NODE | CFG_NODE_TEMPLATE | CFG_NETWORK | CFG_NETWORK_TEMPLATE.

Definition get_config_path (pathType : EPathConfigType) : M string :=
  root ← storage "CONFIGS_PATH";
  mret match pathType with
       | CFG_NODE => root // "share" // "configs"
       | CFG_NODE_TEMPLATE => root // "etc"
       | CFG_NETWORK => root // "etc" // "network/"
       | CFG_NETWORK_TEMPLATE => root // "share" // "configs" // "network/"
       end.

(** The three states of [CFG_GENERAL] are all there are, so that the final
    [throw] of the source is not reached. *)
Definition config_file (root name : string) (type : ENetworkConfigType)
    (state : ENetworkConfigState) : string :=
  if name =s? "cellframe-node" then
    match state with
    | CFG_TEMPLATE => root // "share" // "configs" // "cellframe-node.cfg"
    | _ => root // "etc" // "cellframe-node.cfg"
    end
  else
    match type with
    | CFG_GENERAL =>
        match state with
        | CFG_ON => root // "etc" // "network/" // (name +:+ ".cfg")
        | CFG_OFF => root // "etc" // "network/" // (name +:+ ".cfg.dis")
        | CFG_TEMPLATE => root // "share" // "configs" // "network/" // (name +:+ ".cfg")
        end
    | CFG_MAINCHAIN => root // "etc" // "network/" // name // "main.cfg"
    | CFG_ZEROCHAIN => root // "etc" // "network/" // name // "zerochain.cfg"
    end.

Definition config_path (name : string) (type : ENetworkConfigType)
    (state : ENetworkConfigState) : M string :=
  root ← storage "CONFIGS_PATH";
  mret (config_file root name type state).

(** ** CellframeConfigurationFile *)
Record CellframeConfigurationFile := Cfg {
  path : string;
  lines : list string;
  cfg_flags : Z
}.

Definition open_cfg (filepath : string) (flags : Z) : M CellframeConfigurationFile :=
  there ← fs_exists filepath;
  if negb there
  then throw (invalid_argument ("Config path [" +:+ filepath +:+ "] not exitsts"))
  else
    ls ← read_lines filepath;
    verbose flags ("[VC] Loaded " +:+ pretty (length ls) +:+ " lines form "
                   +:+ show_path filepath +:+ NL);;
    mret (Cfg filepath ls flags).

(** [Some g]: the line declares the group [g]. *)
Definition is_group_decl (line : string) : M (option string) :=
  let tokens := tokenize line re_eq in
  if bool_decide (1 < length tokens)%nat then mret None
  else
    t0 ← at_ tokens 0;
    if negb (String.prefix "[" t0) then mret None
    else
      let pos := S (default O (strfind "[" t0)) in
      let len := match strfind "]" t0 with
                 | Some j => (j - 1)%nat
                 | None => String.length t0
                 end in
      let group_name := trim (String.substring pos len t0) in
      mret (if is_empty group_name then None else Some group_name).

Record cfg_pair := { param : string; val : string }.

Definition parse_param_value (line : string) : M cfg_pair :=
  if negb (contains "=" line)
  then throw (invalid_argument "config line expected to be key=value")
  else
    let tokens := tokenize line re_eq in
    t0 ← at_ tokens 0;
    mret {| param := trim t0; val := default "" (tokens !! 1%nat) |}.

(** What [exists] returns and writes to its out-parameters; [value] is not
    written when the parameter is not found. *)
Record found_at := Found {
  param_exists : bool;
  value : option string;
  line_no : nat;
  group_exists : bool
}.

Definition strip (line : string) : string := before "#" (trim line).

Fixpoint exists_loop (flags : Z) (group param_ : string) (ls : list string)
    (current_line : nat) (group_found : bool) (group_name : string) : M found_at :=
  match ls with
  | [] => mret (Found false None current_line group_found)
  | l :: ls' =>
      let line := strip l in
      if is_empty line
      then exists_loop flags group param_ ls' (S current_line) group_found group_name
      else
        decl ← is_group_decl line;
        match decl with
        | Some g =>
            if negb group_found then
              verbose flags ("[VC] Found group [" +:+ g +:+ "] " +:+ NL);;
              exists_loop flags group param_ ls' (S current_line) (g =s? group) g
            else
              verbose flags ("[VC] No param in group [" +:+ g +:+ "], group ends at  "
                             +:+ pretty current_line +:+ NL);;
              mret (Found false None current_line true)
        | None =>
            if negb group_found
            then exists_loop flags group param_ ls' (S current_line) group_found group_name
            else
              res ← parse_param_value line;
              if param res =s? param_ then
                verbose flags ("[VC] in group [" +:+ group_name +:+ "] found " +:+ param res
                               +:+ ":" +:+ val res +:+ " at line " +:+ pretty current_line +:+ NL);;
                mret (Found true (Some (val res)) current_line true)
              else exists_loop flags group param_ ls' (S current_line) group_found group_name
        end
  end.

Definition exists_ (cfg : CellframeConfigurationFile) (group param_ : string) : M found_at :=
  verbose (cfg_flags cfg) ("[VC] Check for existanse [" +:+ group +:+ "] " +:+ param_ +:+ " in "
                           +:+ show_path (path cfg) +:+ NL);;
  exists_loop (cfg_flags cfg) group param_ (lines cfg) 0 false "".

(** [vec.emplace (vec.begin () + n, x)]; [n] is never past the end, since it is a
    line the scan reached, or the one after a line just inserted. *)
Definition insert_at {A} (n : nat) (x : A) (l : list A) : list A := take n l ++ x :: drop n l.

Definition with_lines (cfg : CellframeConfigurationFile) (ls : list string) :
    CellframeConfigurationFile := Cfg (path cfg) ls (cfg_flags cfg).

(** [set]: the line set and the changed object. *)
Definition set_ (cfg : CellframeConfigurationFile) (group param_ value_ : string) :
    M (string * CellframeConfigurationFile) :=
  verbose (cfg_flags cfg) ("[VC] set [" +:+ group +:+ "] " +:+ param_ +:+ "=" +:+ value_ +:+ NL);;
  r ← exists_ cfg group param_;
  let line_set_to := line_no r in
  let '(ls, line_set_to) :=
    if param_exists r
    then (<[line_set_to := param_ +:+ "=" +:+ value_]> (lines cfg), line_set_to)
    else
      let '(ls, line_set_to) :=
        if group_exists r then (lines cfg, line_set_to)
        else (insert_at line_set_to ("[" +:+ group +:+ "]") (lines cfg), S line_set_to) in
      (insert_at (S line_set_to) NL (insert_at line_set_to (param_ +:+ "=" +:+ value_) ls),
       line_set_to) in
  l ← at_ ls line_set_to;
  mret (l, with_lines cfg ls).

Definition save {H : Host} (cfg : CellframeConfigurationFile) : M bool :=
  verbose (cfg_flags cfg) ("[VC] saving " +:+ pretty (length (lines cfg)) +:+ " lines to "
                           +:+ show_path (path cfg) +:+ NL);;
  if flag (cfg_flags cfg) F_DRYRUN
  then say (putlines (lines cfg));; mret true
  else write_file (path cfg) (putlines (lines cfg));; mret true.

Fixpoint replace_lines (ls : list string) : M (list string) :=
  match ls with
  | [] => mret []
  | l :: ls' =>
      let line := strip l in
      l' ← (if is_empty line then mret l else substitute_variables line);
      rest ← replace_lines ls';
      mret (l' :: rest)
  end.

Definition replace_placeholders (cfg : CellframeConfigurationFile) :
    M CellframeConfigurationFile :=
  verbose (cfg_flags cfg) ("[VC] replacing placeholders in" +:+ show_path (path cfg) +:+ NL);;
  ls ← replace_lines (lines cfg);
  mret (with_lines cfg ls).

(** ** Reference semantics

    The kind of a line: nothing, the declaration of a group, a parameter with its
    value, neither, or a line of equal signs only (on which the source indexes an
    empty vector). *)
Inductive kind :=
  | KSkip
  | KGroup (g : string)
  | KPair (p v : string)
  | KText
  | KWild.

Definition group_text (t0 : string) : string :=
  trim (String.substring 1 (match strfind "]" t0 with Some j => (j - 1)%nat
                            | None => String.length t0 end) t0).

Definition kind_of (l : string) : kind :=
  let line := strip l in
  if is_empty line then KSkip
  else
    match tokenize line re_eq with
    | [] => KWild
    | [t0] =>
        if String.prefix "[" t0 && negb (is_empty (group_text t0)) then KGroup (group_text t0)
        else if contains "=" line then KPair (trim t0) "" else KText
    | t0 :: t1 :: _ => KPair (trim t0) t1
    end.

Definition not_decl (k : kind) : bool := match k with KGroup _ => false | _ => true end.

Definition not_key_value : exn := invalid_argument "config line expected to be key=value".

(** The outcome of a lookup, line by line. *)
Fixpoint scan (g p : string) (found : bool) (i : nat) (ks : list kind) : result found_at :=
  match ks with
  | [] => Ok (Found false None i found)
  | KSkip :: ks' => scan g p found (S i) ks'
  | KWild :: _ => Wild
  | KGroup g' :: ks' =>
      if found then Ok (Found false None i true) else scan g p (g' =s? g) (S i) ks'
  | KPair p' v :: ks' =>
      if found && (p' =s? p) then Ok (Found true (Some v) i true) else scan g p found (S i) ks'
  | KText :: ks' => if found then Err not_key_value else scan g p found (S i) ks'
  end.

(** The value alone. *)
Fixpoint read (g p : string) (found : bool) (ks : list kind) : result (option string) :=
  match ks with
  | [] => Ok None
  | KSkip :: ks' => read g p found ks'
  | KWild :: _ => Wild
  | KGroup g' :: ks' => if found then Ok None else read g p (g' =s? g) ks'
  | KPair p' v :: ks' =>
      if found && (p' =s? p) then Ok (Some v) else read g p found ks'
  | KText :: ks' => if found then Err not_key_value else read g p found ks'
  end.

Abbreviation kinds ls := (kind_of <$> ls).

(** ** exists_ computes scan *)
Lemma contains_byte c s : contains (String c "") s = negb (lacks c s).
Proof.
  unfold contains. induction s as [|d s IH]; [done|]. cbn [strfind].
  rewrite prefix_byte, lacks_cons. destruct (d =? c)%char; [done|]. simpl.
  rewrite <- IH. by destruct (strfind _ s).
Qed.

Lemma strip_kind l :
  if is_empty (strip l) then kind_of l = KSkip else kind_of l ≠ KSkip.
Proof.
  unfold kind_of. destruct (is_empty (strip l)) eqn:He; [done|].
  destruct (tokenize _ _) as [|t0 [|t1 ts]]; try done.
  destruct (String.prefix "[" t0 && negb (is_empty (group_text t0))); [done|].
  by destruct (contains _ _).
Qed.

Lemma is_group_decl_kind l :
  is_empty (strip l) = false →
  only_prints (is_group_decl (strip l))
    (match kind_of l with KWild => Wild | KGroup g => Ok (Some g) | _ => Ok None end).
Proof.
  intros He. unfold kind_of, is_group_decl. rewrite He.
  destruct (tokenize (strip l) re_eq) as [|t0 [|t1 ts]]; simpl.
  - apply only_prints_bind_wild, only_prints_undef.
  - eapply only_prints_bind; [by apply only_prints_at|].
    destruct (String.prefix "[" t0) eqn:Hp; simpl; [|destruct (contains _ _); auto with node].
    replace (strfind "[" t0) with (Some 0%nat) by (destruct t0; [done|cbn [strfind]; by rewrite Hp]).
    change (trim (String.substring _ _ t0)) with (group_text t0).
    destruct (is_empty (group_text t0)); simpl; auto with node.
    destruct (contains _ _); auto with node.
  - auto with node.
Qed.

Lemma parse_kind l :
  is_empty (strip l) = false →
  match kind_of l with
  | KPair p v => only_prints (parse_param_value (strip l)) (Ok {| param := p; val := v |})
  | KText => only_prints (parse_param_value (strip l)) (Err not_key_value)
  | _ => True
  end.
Proof.
  intros He. unfold kind_of, parse_param_value. rewrite He.
  destruct (tokenize (strip l) re_eq) as [|t0 [|t1 ts]] eqn:Ht; try done.
  - destruct (String.prefix "[" t0 && negb (is_empty (group_text t0))); [done|].
    destruct (contains "=" (strip l)); simpl; [|apply only_prints_throw].
    eapply only_prints_bind; [by apply only_prints_at|]. apply only_prints_ret.
  - destruct (contains "=" (strip l)) eqn:Hc; simpl.
    + eapply only_prints_bind; [by apply only_prints_at|]. apply only_prints_ret.
    + rewrite contains_byte in Hc. apply negb_false_iff in Hc.
      rewrite tokenize_re_eq_lacks in Ht by done. by destruct (decide _).
Qed.

Lemma exists_loop_scan flags g p ls i found gname :
  only_prints (exists_loop flags g p ls i found gname) (scan g p found i (kinds ls)).
Proof.
  revert i found gname; induction ls as [|l ls IH]; intros i found gname; [apply only_prints_ret|].
  csimpl. pose proof (strip_kind l) as Hs. destruct (is_empty (strip l)) eqn:He.
  { rewrite Hs. apply IH. }
  pose proof (is_group_decl_kind l He) as Hd. pose proof (parse_kind l He) as Hp.
  destruct (kind_of l) as [|g'|p' v| |] eqn:Hk; try done.
  - eapply only_prints_bind; [done|]. cbv beta iota. destruct found; simpl.
    + eapply only_prints_bind; [apply only_prints_verbose|apply only_prints_ret].
    + eapply only_prints_bind; [apply only_prints_verbose|apply IH].
  - eapply only_prints_bind; [done|]. cbv beta iota. destruct found; simpl; [|apply IH].
    eapply only_prints_bind; [done|]. simpl. destruct (p' =s? p); [|apply IH].
    eapply only_prints_bind; [apply only_prints_verbose|apply only_prints_ret].
  - eapply only_prints_bind; [done|]. cbv beta iota. destruct found; simpl; [|apply IH].
    by apply only_prints_bind_err.
  - by apply only_prints_bind_wild.
Qed.

Lemma exists_scan cfg g p :
  only_prints (exists_ cfg g p) (scan g p false 0 (kinds (lines cfg))).
Proof.
  unfold exists_. eapply only_prints_bind; [apply only_prints_verbose|apply exists_loop_scan].
Qed.

Definition result_map {A B} (f : A → B) (r : result A) : result B :=
  match r with
  | Ok a => Ok (f a)
  | Err e => Err e
  | Wild => Wild
  | Unmodelled => Unmodelled
  end.

Lemma scan_read g p found i ks : result_map value (scan g p found i ks) = read g p found ks.
Proof.
  revert found i; induction ks as [|k ks IH]; intros found i; [done|].
  destruct k as [|g'|p' v| |]; simpl; auto; destruct found; simpl; auto.
  by destruct (p' =s? p); simpl.
Qed.

Lemma scan_found g p found i ks f :
  scan g p found i ks = Ok f → param_exists f = match value f with Some _ => true | None => false end.
Proof.
  revert found i; induction ks as [|k ks IH]; intros found i; simpl; [by intros [= <-]|].
  destruct k as [|g'|p' v| |]; simpl; eauto; try done.
  - destruct found; [by intros [= <-]|eauto].
  - destruct (found && _); [by intros [= <-]|eauto].
  - destruct found; [done|eauto].
Qed.

(** Blank lines and comments do not matter to a lookup. *)
Definition skipless (ks : list kind) : list kind :=
  List.filter (λ k, match k with KSkip => false | _ => true end) ks.

Lemma read_skipless g p found ks : read g p found (skipless ks) = read g p found ks.
Proof.
  revert found; induction ks as [|k ks IH]; intros found; [done|].
  unfold skipless in *. destruct k; simpl; rewrite ?IH; try done.
Qed.

(** ** The kinds of the lines that [set] writes

    A clean name of a group or a parameter has no blank, no [=] and no [#], is
    not empty, and does not start with [[] (a parameter) or hold [\]] (a
    group). *)
Definition nospaces (s : string) : bool := str_all (λ c, negb (is_space c)) s.

Definition clean (s : string) : bool :=
  nospaces s && lacks "=" s && lacks "#" s && negb (is_empty s).

Definition clean_param (p : string) : bool := clean p && negb (String.prefix "[" p).
Definition clean_group (g : string) : bool := clean g && lacks "]" g.

(** What is read back of a value: trailing blanks, a comment and everything from
    the second equal sign on are dropped. *)
Definition read_back (v : string) : string :=
  default "" (head (tokenize (before "#" (rtrim v)) re_eq)).

Lemma read_back_id v :
  lacks "=" v = true → lacks "#" v = true → rtrim v = v → read_back v = v.
Proof.
  intros He Hh Ht. unfold read_back. rewrite Ht, before_lacks, tokenize_re_eq_lacks by done.
  destruct (decide _) as [|Hn]; [done|]. simpl. apply dec_stable in Hn. by subst.
Qed.

Lemma clean_spec s :
  clean s = true → nospaces s = true ∧ lacks "=" s = true ∧ lacks "#" s = true ∧ s ≠ "".
Proof. unfold clean. intros H. split_bools. repeat split; try done. by intros ->. Qed.

Lemma clean_cons p : clean p = true → ∃ c p', p = String c p' ∧ is_space c = false.
Proof.
  unfold clean, nospaces. destruct p as [|c p]; [done|]. intros H. exists c, p. split; [done|].
  simpl in H. by destruct (is_space c).
Qed.

Lemma strip_param p v :
  clean p = true → strip (p +:+ "=" +:+ v) = p +:+ "=" +:+ before "#" (rtrim v).
Proof.
  intros Hp. destruct (clean_cons p Hp) as (c & p' & Heq & Hc).
  unfold strip, trim. change (p +:+ "=" +:+ v) with (p +:+ String "=" v).
  rewrite rtrim_app_nospace by done.
  rewrite Heq, ltrim_nospace by done. rewrite <- Heq.
  destruct (clean_spec p Hp) as (_ & _ & Hh & _). rewrite before_app by done. by rewrite before_cons.
Qed.

Lemma app_not_empty p s : p ≠ "" → is_empty (p +:+ s) = false.
Proof. by destruct p. Qed.

Lemma kind_param p v : clean_param p = true → kind_of (p +:+ "=" +:+ v) = KPair p (read_back v).
Proof.
  unfold clean_param. intros [Hp Hb]%andb_prop. unfold kind_of. rewrite strip_param by done.
  destruct (clean_spec p Hp) as (Hn & He & _ & Hne).
  rewrite app_not_empty, tokenize_re_eq_app by done. unfold read_back.
  destruct (tokenize _ _) as [|t1 ts] eqn:Ht.
  - apply negb_true_iff in Hb. rewrite Hb. simpl. rewrite contains_byte. unfold lacks. rewrite str_all_app. simpl.
    rewrite andb_false_r. simpl. by rewrite trim_nospaces.
  - simpl. by rewrite trim_nospaces.
Qed.

Lemma strfind_byte_app c s t :
  lacks c s = true → strfind (String c "") (s +:+ String c t) = Some (String.length s).
Proof.
  intros Hs. rewrite strfind_app_lacks by done. cbn [strfind]. rewrite prefix_byte, Ascii.eqb_refl.
  simpl. by rewrite Nat.add_0_r.
Qed.

Lemma substring_app s t : String.substring 0 (String.length s) (s +:+ t) = s.
Proof. induction s as [|c s IH]; simpl; [by destruct t|]. by rewrite IH. Qed.

Lemma kind_group g : clean_group g = true → kind_of ("[" +:+ g +:+ "]") = KGroup g.
Proof.
  unfold clean_group. intros [Hg Hb]%andb_prop. destruct (clean_spec g Hg) as (Hn & He & Hh & Hne).
  assert (Hs : strip ("[" +:+ g +:+ "]") = "[" +:+ g +:+ "]").
  { unfold strip. rewrite trim_nospaces.
    - apply before_lacks. unfold lacks. rewrite !str_all_app. by rewrite (Hh : str_all _ g = true).
    - rewrite !str_all_app. by rewrite (Hn : str_all _ g = true). }
  unfold kind_of. rewrite Hs. change (is_empty ("[" +:+ g +:+ "]")) with false. cbv beta iota.
  rewrite tokenize_re_eq_lacks.
  2: { unfold lacks. rewrite !str_all_app. by rewrite (He : str_all _ g = true). }
  destruct (decide _) as [_|Hd]; [|by destruct Hd].
  assert (Ht : group_text ("[" +:+ g +:+ "]") = g).
  { unfold group_text. change ("[" +:+ g +:+ "]") with (("[" +:+ g) +:+ String "]" "") at 1.
    rewrite strfind_byte_app by (unfold lacks; by rewrite str_all_app, (Hb : str_all _ g = true)).
    change (String.length ("[" +:+ g)) with (S (String.length g)).
    rewrite Nat.sub_1_r, Nat.pred_succ.
    change (String.substring 1 (String.length g) ("[" +:+ g +:+ "]"))
      with (String.substring 0 (String.length g) (g +:+ "]")).
    rewrite substring_app. by apply trim_nospaces. }
  rewrite Ht. change (String.prefix "[" ("[" +:+ g +:+ "]")) with (String.prefix "" (g +:+ "]")).
  destruct (clean_cons g Hg) as (c & g' & -> & _). done.
Qed.

Lemma kind_NL : kind_of NL = KSkip.
Proof. done. Qed.

(** ** set_ as a function on kinds

    [upd] inserts the new line where the lookup ends; [None] where it fails. *)
Fixpoint upd (g p : string) (new : kind) (found : bool) (ks : list kind) : option (list kind) :=
  match ks with
  | [] => Some (if found then [new; KSkip] else [KGroup g; new; KSkip])
  | KSkip :: ks' => cons KSkip <$> upd g p new found ks'
  | KWild :: _ => None
  | KGroup g' :: ks' =>
      if found then Some (new :: KSkip :: KGroup g' :: ks')
      else cons (KGroup g') <$> upd g p new (g' =s? g) ks'
  | KPair p' v :: ks' =>
      if found && (p' =s? p) then Some (new :: ks') else cons (KPair p' v) <$> upd g p new found ks'
  | KText :: ks' => if found then None else cons KText <$> upd g p new found ks'
  end.

(** The lines [set_] leaves when the lookup ends in [r]. *)
Definition set_lines (r : found_at) (n : nat) (group param_ value_ : string) (ls : list string) :
    list string :=
  if param_exists r then <[n := param_ +:+ "=" +:+ value_]> ls
  else if group_exists r
  then insert_at (S n) NL (insert_at n (param_ +:+ "=" +:+ value_) ls)
  else insert_at (S (S n)) NL
         (insert_at (S n) (param_ +:+ "=" +:+ value_) (insert_at n ("[" +:+ group +:+ "]") ls)).

Lemma set_lines_cons r n g p v l ls :
  set_lines r (S n) g p v (l :: ls) = l :: set_lines r n g p v ls.
Proof. unfold set_lines. by destruct (param_exists r), (group_exists r). Qed.

Lemma scan_line_no g p found i ks r : scan g p found i ks = Ok r → (i ≤ line_no r)%nat.
Proof.
  revert found i; induction ks as [|k ks IH]; intros found i; simpl; [by intros [= <-]|].
  assert (IH' : ∀ found, scan g p found (S i) ks = Ok r → (i ≤ line_no r)%nat).
  { intros b Hb%IH. lia. }
  destruct k as [|g'|p' v| |]; eauto; try done.
  - destruct found; [by intros [= <-]|eauto].
  - destruct (found && _); [by intros [= <-]|eauto].
  - destruct found; [done|eauto].
Qed.

Lemma set_lines_upd g p v ls found i r :
  clean_group g = true → clean_param p = true → scan g p found i (kinds ls) = Ok r →
  upd g p (KPair p (read_back v)) found (kinds ls) =
    Some (kinds (set_lines r (line_no r - i) g p v ls)).
Proof.
  intros Hg Hp. pose proof (kind_group g Hg) as Kg. pose proof (kind_param p v Hp) as Kp.
  revert found i; induction ls as [|l ls IH]; intros found i Hr; csimpl in *.
  { injection Hr as <-. simpl. rewrite Nat.sub_diag. unfold set_lines. simpl.
    destruct found; csimpl; by rewrite ?Kg, ?Kp, ?kind_NL. }
  assert (IH' : ∀ b, scan g p b (S i) (kinds ls) = Ok r →
    cons (kind_of l) <$> upd g p (KPair p (read_back v)) b (kinds ls) =
      Some (kinds (set_lines r (line_no r - i) g p v (l :: ls)))).
  { intros b Hb. rewrite (IH b (S i) Hb). apply scan_line_no in Hb.
    replace (line_no r - i)%nat with (S (line_no r - S i))%nat by lia.
    by rewrite set_lines_cons. }
  destruct (kind_of l) as [|g'|p' w| |] eqn:Hk; auto; try done.
  - destruct found; [|by apply IH']. injection Hr as <-. simpl. rewrite Nat.sub_diag.
    unfold set_lines. simpl. csimpl. by rewrite Kp, Hk.
  - destruct (found && _); [|by apply IH']. injection Hr as <-. simpl. rewrite Nat.sub_diag.
    unfold set_lines. simpl. csimpl. by rewrite Kp.
  - destruct found; [done|]. by apply IH'.
Qed.

Lemma scan_bound g p found i ks r :
  scan g p found i ks = Ok r →
  (line_no r ≤ i + length ks)%nat ∧ (param_exists r = true → line_no r < i + length ks)%nat.
Proof.
  revert found i; induction ks as [|k ks IH]; intros found i; simpl.
  { intros [= <-]. simpl. split; [lia|done]. }
  assert (IH' : ∀ b, scan g p b (S i) ks = Ok r →
    (line_no r ≤ i + S (length ks))%nat ∧ (param_exists r = true → line_no r < i + S (length ks))%nat).
  { intros b [Hle Hlt]%IH. split; [lia|]. intros Hp. specialize (Hlt Hp). lia. }
  destruct k as [|g'|p' v| |]; eauto; try done.
  - destruct found; [|eauto]. intros [= <-]. simpl. split; [lia|done].
  - destruct (found && _); [|eauto]. intros [= <-]. simpl. split; lia.
  - destruct found; [done|eauto].
Qed.

Definition set_at (r : found_at) (n : nat) : nat :=
  if param_exists r || group_exists r then n else S n.

Lemma set_lines_at r n g p v ls :
  (n ≤ length ls)%nat → (param_exists r = true → n < length ls)%nat →
  set_lines r n g p v ls !! set_at r n = Some (p +:+ "=" +:+ v).
Proof.
  revert ls; induction n as [|n IH]; intros ls Hle Hlt.
  - unfold set_lines, set_at. destruct (param_exists r); simpl.
    + destruct ls; [specialize (Hlt eq_refl); simpl in Hlt; lia|done].
    + by destruct (group_exists r).
  - destruct ls as [|l ls]; simpl in *; [lia|]. rewrite set_lines_cons.
    replace (set_at r (S n)) with (S (set_at r n)) by (unfold set_at; by destruct (_ || _)).
    apply IH; [lia|]. intros Hp. specialize (Hlt Hp). lia.
Qed.

(** [set_] on a file whose lookup returns. *)
Lemma set_only_prints cfg g p v r :
  scan g p false 0 (kinds (lines cfg)) = Ok r →
  only_prints (set_ cfg g p v)
    (Ok (p +:+ "=" +:+ v, with_lines cfg (set_lines r (line_no r) g p v (lines cfg)))).
Proof.
  intros Hr. pose proof (scan_bound _ _ _ _ _ _ Hr) as [Hle Hlt]. rewrite length_fmap in *.
  unfold set_. eapply only_prints_bind; [apply only_prints_verbose|].
  eapply only_prints_bind; [rewrite <- Hr; apply exists_scan|]. cbv beta.
  pose proof (set_lines_at r (line_no r) g p v (lines cfg) Hle Hlt) as Hat.
  unfold set_lines, set_at in *.
  destruct (param_exists r), (group_exists r); simpl in Hat |- *;
    (eapply only_prints_bind; [apply only_prints_at, Hat|apply only_prints_ret]).
Qed.

(** [set_] throws what the lookup throws. *)
Lemma set_err cfg g p v :
  match scan g p false 0 (kinds (lines cfg)) with
  | Ok _ => True
  | Err e => only_prints (set_ cfg g p v) (Err e)
  | Wild => only_prints (set_ cfg g p v) Wild
  | Unmodelled => True
  end.
Proof.
  pose proof (exists_scan cfg g p) as He. unfold set_.
  destruct (scan _ _ _ _ _); try done.
  - eapply only_prints_bind; [apply only_prints_verbose|]. by apply only_prints_bind_err.
  - eapply only_prints_bind; [apply only_prints_verbose|]. by apply only_prints_bind_wild.
Qed.

(** ** Laws of upd and read *)
Lemma upd_scan g p new found i ks :
  match scan g p found i ks with Ok _ => is_Some (upd g p new found ks) | _ => True end.
Proof.
  revert found i; induction ks as [|k ks IH]; intros found i; [by unfold is_Some; eexists|].
  assert (IH' : ∀ b k', match scan g p b (S i) ks with
                     | Ok _ => is_Some (cons (A:=kind) k' <$> upd g p new b ks) | _ => True end).
  { intros b k'. specialize (IH b (S i)). destruct (scan _ _ _ _ _); [by apply fmap_is_Some|done..]. }
  destruct k as [|g'|p' v| |]; simpl; try done.
  - apply IH'.
  - destruct found; [by unfold is_Some; eexists|apply IH'].
  - destruct (found && _); [by unfold is_Some; eexists|apply IH'].
  - destruct found; [done|apply IH'].
Qed.

(** The parameter set is read back. *)
Lemma upd_read g p v found ks ks' :
  upd g p (KPair p v) found ks = Some ks' → read g p found ks' = Ok (Some v).
Proof.
  revert found ks'; induction ks as [|k ks IH]; intros found ks'; simpl.
  { intros [= <-]. destruct found; simpl; by rewrite ?String.eqb_refl. }
  destruct k as [|g'|p' w| |]; try done.
  - intros (ks'' & Hu & ->)%fmap_Some. simpl. eauto.
  - destruct found; [intros [= <-]; simpl; by rewrite String.eqb_refl|].
    intros (ks'' & Hu & ->)%fmap_Some. simpl. eauto.
  - destruct (found && (p' =s? p)) eqn:Hf.
    + apply andb_prop in Hf as [-> _]. intros [= <-]. simpl. by rewrite String.eqb_refl.
    + intros (ks'' & Hu & ->)%fmap_Some. simpl. rewrite Hf. eauto.
  - destruct found; [done|]. intros (ks'' & Hu & ->)%fmap_Some. simpl. eauto.
Qed.

(** No other parameter is touched: [b] and [b'] say that the group of the update
    and the group of the lookup are open. *)
Lemma upd_frame g p v g' p' b b' ks ks' :
  (g', p') ≠ (g, p) → (b = true → b' = true → g' = g) →
  upd g p (KPair p v) b ks = Some ks' → read g' p' b' ks' = read g' p' b' ks.
Proof.
  intros Hne. revert b b' ks'; induction ks as [|k ks IH]; intros b b' ks' Hb; simpl.
  { intros [= <-]. destruct b, b'; simpl; try done.
    - rewrite (Hb eq_refl eq_refl) in Hne. destruct (p =s? p') eqn:Hp; [|done].
      apply String.eqb_eq in Hp. congruence.
    - destruct (g =s? g') eqn:Hg; [|done]. simpl. destruct (p =s? p') eqn:Hp; [|done].
      apply String.eqb_eq in Hp, Hg. congruence. }
  assert (Hskip : b' && (p =s? p') = true → b = true → False).
  { intros [Hb' Hp]%andb_prop Hbt. apply String.eqb_eq in Hp. rewrite (Hb Hbt Hb') in Hne. congruence. }
  destruct k as [|h|q w| |]; try done.
  - intros (ks'' & Hu & ->)%fmap_Some. simpl. eauto.
  - destruct b.
    + intros [= <-]. simpl. destruct (b' && (p =s? p')) eqn:Hq; [by destruct Hskip|]. done.
    + intros (ks'' & Hu & ->)%fmap_Some. simpl. destruct b'; [done|]. eapply IH; [|done].
      intros Hg Hg'. apply String.eqb_eq in Hg, Hg'. congruence.
  - destruct (b && (q =s? p)) eqn:Hq.
    + apply andb_prop in Hq as [-> Hq]. apply String.eqb_eq in Hq as ->. intros [= <-]. simpl.
      destruct (b' && (p =s? p')) eqn:Hq; [by destruct Hskip|done].
    + intros (ks'' & Hu & ->)%fmap_Some. simpl. destruct (b' && (q =s? p')); [done|]. eauto.
  - destruct b; [done|]. intros (ks'' & Hu & ->)%fmap_Some. simpl. destruct b'; [done|]. eauto.
Qed.

(** ** Abstract view: sections

    The section of a group is what follows its first declaration up to the next
    declaration; a parameter has the value of its first line there. *)
Fixpoint section_of (g : string) (ks : list kind) : option (list kind) :=
  match ks with
  | [] => None
  | KGroup g' :: ks' => if g' =s? g then Some ks' else section_of g ks'
  | _ :: ks' => section_of g ks'
  end.

Fixpoint until_decl (ks : list kind) : list kind :=
  match ks with
  | [] => []
  | k :: ks' => if not_decl k then k :: until_decl ks' else []
  end.

Definition pair_value (p : string) (k : kind) : option string :=
  match k with
  | KPair p' v => if p' =s? p then Some v else None
  | _ => None
  end.

Definition lookup_param (g p : string) (ks : list kind) : option string :=
  body ← section_of g ks; head (omap (pair_value p) (until_decl body)).

(** Every line is blank, a comment, a declaration or a [key=value]. *)
Definition good_kind (k : kind) : bool :=
  match k with KText | KWild => false | _ => true end.

Definition well_formed (ls : list string) : Prop := Forall (λ l, good_kind (kind_of l) = true) ls.

Lemma read_in_section p ks g :
  Forall (λ k, good_kind k = true) ks →
  read g p true ks = Ok (head (omap (pair_value p) (until_decl ks))).
Proof.
  induction 1 as [|k ks Hk _ IH]; [done|].
  destruct k as [|g'|p' v| |]; simpl in *; try done. by destruct (p' =s? p).
Qed.

Lemma read_lookup g p ks :
  Forall (λ k, good_kind k = true) ks → read g p false ks = Ok (lookup_param g p ks).
Proof.
  induction 1 as [|k ks Hk Hks IH]; [done|].
  destruct k as [|g'|p' v| |]; simpl in *; try done. unfold lookup_param in *. simpl.
  destruct (g' =s? g); [|done]. by rewrite read_in_section.
Qed.

Lemma scan_group g p found i ks r :
  Forall (λ k, good_kind k = true) ks → scan g p found i ks = Ok r →
  group_exists r = found || match section_of g ks with Some _ => true | None => false end.
Proof.
  intros Hk. revert found i; induction Hk as [|k ks Hk _ IH]; intros found i; simpl.
  { intros [= <-]. simpl. by rewrite orb_false_r. }
  destruct k as [|g'|p' v| |]; simpl in *; try done; eauto.
  - destruct found; [by intros [= <-]|]. intros ->%IH. by destruct (g' =s? g).
  - destruct found; simpl; [|eauto]. destruct (p' =s? p); [by intros [= <-]|]. by intros ->%IH.
Qed.

Lemma scan_total g p found i ks :
  Forall (λ k, good_kind k = true) ks → ∃ r, scan g p found i ks = Ok r.
Proof.
  intros Hk. revert found i; induction Hk as [|k ks Hk _ IH]; intros found i; simpl; eauto.
  destruct k as [|g'|p' v| |]; simpl in *; try done; eauto.
  - destruct found; eauto.
  - destruct (found && _); eauto.
Qed.

Lemma well_formed_kinds ls : well_formed ls → Forall (λ k, good_kind k = true) (kinds ls).
Proof. intros H. by apply Forall_fmap. Qed.

(** ** The claims on configuration files *)
Definition outcome_of {A} (o : outcome A) : result A :=
  match o with
  | Value a _ => Ok a
  | Thrown e _ => Err e
  | Ub => Wild
  | Beyond => Unmodelled
  end.

Lemma only_prints_outcome {A} (m : M A) r s : only_prints m r → outcome_of (m s) = r.
Proof. intros H. destruct (H s) as [c ->]. by destruct r. Qed.

(** C6 (exists_reference): on a well-formed file the line-by-line lookup always
    returns, and what it returns is the abstract view: the parameter is found with
    the value of its first line in the first section of the group, and the group
    is reported exactly when the file declares it. *)
Theorem exists_reference cfg g p s :
  well_formed (lines cfg) →
  ∃ r c, exists_ cfg g p s = Value r (set_console c s) ∧
    value r = lookup_param g p (kinds (lines cfg)) ∧
    param_exists r = bool_decide (is_Some (lookup_param g p (kinds (lines cfg)))) ∧
    group_exists r = bool_decide (is_Some (section_of g (kinds (lines cfg)))).
Proof.
  intros Hw%well_formed_kinds. destruct (scan_total g p false 0 _ Hw) as [r Hr].
  destruct (exists_scan cfg g p s) as [c Hc]. rewrite Hr in Hc. exists r, c. split; [done|].
  pose proof (scan_read g p false 0 (kinds (lines cfg))) as Hv.
  rewrite Hr, (read_lookup _ _ _ Hw) in Hv. injection Hv as Hv.
  rewrite (scan_found _ _ _ _ _ _ Hr), (scan_group _ _ _ _ _ _ Hw Hr), Hv.
  by destruct (lookup_param _ _ _), (section_of _ _).
Qed.

Definition demo_cfg : CellframeConfigurationFile :=
  Cfg "node.cfg" ["# node"; "[general]"; "auto_online=true"; ""; "[server]"; " enabled = false # off"] 0.

Lemma exists_reference_witness :
  well_formed (lines demo_cfg) ∧
  ∃ r c, exists_ demo_cfg "server" "enabled" (St ∅ ∅ [] []) = Value r (set_console c (St ∅ ∅ [] [])) ∧
    value r = lookup_param "server" "enabled" (kinds (lines demo_cfg)) ∧
    param_exists r = bool_decide (is_Some (lookup_param "server" "enabled" (kinds (lines demo_cfg)))) ∧
    group_exists r = bool_decide (is_Some (section_of "server" (kinds (lines demo_cfg)))).
Proof.
  assert (Hw : well_formed (lines demo_cfg)) by (repeat constructor).
  split; [exact Hw|]. exact (exists_reference demo_cfg "server" "enabled" (St ∅ ∅ [] []) Hw).
Defined.

Lemma set_inv cfg g p v s l cfg' s' :
  set_ cfg g p v s = Value (l, cfg') s' →
  ∃ r, scan g p false 0 (kinds (lines cfg)) = Ok r ∧ l = p +:+ "=" +:+ v ∧
       cfg' = with_lines cfg (set_lines r (line_no r) g p v (lines cfg)).
Proof.
  intros Hs. pose proof (set_err cfg g p v) as He.
  destruct (scan g p false 0 (kinds (lines cfg))) as [r|e| |] eqn:Hr.
  - exists r. split; [done|]. pose proof (set_only_prints cfg g p v r Hr) as Hp.
    apply (only_prints_outcome _ _ s) in Hp. rewrite Hs in Hp. by injection Hp.
  - apply (only_prints_outcome _ _ s) in He. by rewrite Hs in He.
  - apply (only_prints_outcome _ _ s) in He. by rewrite Hs in He.
  - pose proof (scan_read g p false 0 (kinds (lines cfg))) as Hv. rewrite Hr in Hv. simpl in Hv.
    exfalso. clear -Hv. revert Hv. generalize false. induction (kinds (lines cfg)) as [|k ks IH];
      intros b; simpl; [done|]. destruct k; simpl; eauto; destruct b; simpl; eauto; try done.
    destruct (_ =s? _); eauto; done.
Qed.

(** The lines after [set_], through the update of kinds. *)
Lemma set_upd cfg g p v s l cfg' s' :
  clean_group g = true → clean_param p = true → set_ cfg g p v s = Value (l, cfg') s' →
  upd g p (KPair p (read_back v)) false (kinds (lines cfg)) = Some (kinds (lines cfg')).
Proof.
  intros Hg Hp (r & Hr & _ & ->)%set_inv. rewrite (set_lines_upd g p v _ false 0 r) by done.
  by rewrite Nat.sub_0_r.
Qed.

Lemma exists_value cfg g p s :
  result_map value (outcome_of (exists_ cfg g p s)) = read g p false (kinds (lines cfg)).
Proof. rewrite (only_prints_outcome _ _ s (exists_scan cfg g p)). apply scan_read. Qed.

(** C7 (set_get): for a group and a parameter whose names can be written in a file
    (not empty, no blanks, equal signs or comment signs, no closing bracket in the
    group, no opening bracket in front of the parameter), a parameter that [set] wrote is found, with the part of the value that is read
    back: up to a second equal sign or a comment, without trailing blanks.  For a
    value that has none of these it is the value that was set. *)
Theorem set_get cfg g p v s l cfg' s' t :
  clean_group g = true → clean_param p = true → set_ cfg g p v s = Value (l, cfg') s' →
  result_map value (outcome_of (exists_ cfg' g p t)) = Ok (Some (read_back v)) ∧
  (lacks "=" v = true → lacks "#" v = true → rtrim v = v → read_back v = v).
Proof.
  intros Hg Hp Hs. split; [|apply read_back_id]. rewrite exists_value.
  by eapply upd_read, set_upd.
Qed.

(** C4 (set_frame): setting a parameter changes the value, or the absence, of no
    other parameter of the file, and makes no lookup fail that did not fail. *)
Theorem set_frame cfg g p v s l cfg' s' g' p' t :
  clean_group g = true → clean_param p = true → set_ cfg g p v s = Value (l, cfg') s' →
  (g', p') ≠ (g, p) →
  result_map value (outcome_of (exists_ cfg' g' p' t)) =
    result_map value (outcome_of (exists_ cfg g' p' t)).
Proof.
  intros Hg Hp Hs Hne. rewrite !exists_value.
  eapply upd_frame; [done| |by eapply set_upd]. done.
Qed.

Definition demo_set : outcome (string * CellframeConfigurationFile) :=
  set_ demo_cfg "general" "debug_mode" "on" (St ∅ ∅ [] []).

Lemma set_get_witness :
  ∃ l cfg' s', demo_set = Value (l, cfg') s' ∧
  result_map value (outcome_of (exists_ cfg' "general" "debug_mode" (St ∅ ∅ [] []))) =
    Ok (Some (read_back "on")).
Proof.
  destruct (returns_inv demo_set) as ([l cfg'] & s' & Hs); [vm_compute; reflexivity|].
  exists l, cfg', s'. split; [done|].
  exact (proj1 (set_get demo_cfg "general" "debug_mode" "on" _ l cfg' s' _ eq_refl eq_refl Hs)).
Defined.

Lemma set_frame_witness :
  ∃ l cfg' s', demo_set = Value (l, cfg') s' ∧
  result_map value (outcome_of (exists_ cfg' "server" "enabled" (St ∅ ∅ [] []))) =
    result_map value (outcome_of (exists_ demo_cfg "server" "enabled" (St ∅ ∅ [] []))).
Proof.
  destruct (returns_inv demo_set) as ([l cfg'] & s' & Hs); [vm_compute; reflexivity|].
  exists l, cfg', s'. split; [done|].
  refine (set_frame demo_cfg "general" "debug_mode" "on" _ l cfg' s' _ _ _ eq_refl eq_refl Hs _).
  discriminate.
Defined.

Lemma upd_good g p v b ks ks' :
  Forall (λ k, good_kind k = true) ks → upd g p (KPair p v) b ks = Some ks' →
  Forall (λ k, good_kind k = true) ks'.
Proof.
  intros Hk. revert b ks'; induction Hk as [|k ks Hk Hks IH]; intros b ks'; simpl.
  { intros [= <-]. destruct b; repeat constructor. }
  destruct k as [|h|q w| |]; simpl in Hk; try done.
  - intros (ks'' & Hu & ->)%fmap_Some. constructor; eauto.
  - destruct b; [intros [= <-]; by repeat constructor|].
    intros (ks'' & Hu & ->)%fmap_Some. constructor; eauto.
  - destruct (b && _); [intros [= <-]; by repeat constructor|].
    intros (ks'' & Hu & ->)%fmap_Some. constructor; eauto.
Qed.

(** C28 (set_well_formed): on a well-formed file [set_] never throws and never has
    undefined behaviour, it reports the line it wrote, and the file stays
    well-formed. *)
Theorem set_well_formed cfg g p v s :
  well_formed (lines cfg) → clean_group g = true → clean_param p = true →
  ∃ cfg' c, set_ cfg g p v s = Value (p +:+ "=" +:+ v, cfg') (set_console c s) ∧
            path cfg' = path cfg ∧ well_formed (lines cfg').
Proof.
  intros Hw Hg Hp. destruct (scan_total g p false 0 _ (well_formed_kinds _ Hw)) as [r Hr].
  destruct (set_only_prints cfg g p v r Hr s) as [c Hc]. simpl in Hc.
  eexists _, c. split; [exact Hc|]. split; [done|]. 
  apply (Forall_fmap kind_of (λ k, good_kind k = true)).
  eapply upd_good; [by apply well_formed_kinds|]. by eapply set_upd.
Qed.

Lemma set_well_formed_witness :
  well_formed (lines demo_cfg) ∧
  ∃ cfg' c, set_ demo_cfg "logs" "level" "3" (St ∅ ∅ [] []) =
              Value ("level=3", cfg') (set_console c (St ∅ ∅ [] [])) ∧
            path cfg' = path demo_cfg ∧ well_formed (lines cfg').
Proof.
  assert (Hw : well_formed (lines demo_cfg)) by (repeat constructor).
  split; [exact Hw|].
  exact (set_well_formed demo_cfg "logs" "level" "3" (St ∅ ∅ [] []) Hw eq_refl eq_refl).
Defined.

(** ** Files on disk

    The lines of an opened file, and what [set_] adds, are single lines or the
    lone line feed that [set_] puts after a new parameter. *)
Definition line_ok (l : string) : Prop := lacks "010" l = true ∨ l = NL.

Lemma skipless_app ks ks' : skipless (ks ++ ks') = skipless ks ++ skipless ks'.
Proof. apply List.filter_app. Qed.

Lemma skipless_written ls :
  Forall line_ok ls → skipless (kinds (getlines (putlines ls))) = skipless (kinds ls).
Proof.
  rewrite getlines_putlines. induction 1 as [|l ls Hl _ IH]; [done|].
  rewrite fmap_cons, fmap_cons. cbn [concat].
  rewrite fmap_app, skipless_app, IH.
  rewrite (skipless_app [kind_of l] (kinds ls) : skipless (kind_of l :: kinds ls) = _). f_equal. destruct Hl as [Hl| ->]; [by rewrite getlines_line|done].
Qed.

Lemma read_written g p ls :
  Forall line_ok ls →
  read g p false (kinds (getlines (putlines ls))) = read g p false (kinds ls).
Proof. intros Hl. by rewrite <- read_skipless, skipless_written, read_skipless. Qed.

(** What a text holds for a parameter. *)
Definition text_value (g p t : string) : result (option string) :=
  read g p false (kinds (getlines t)).

Lemma insert_at_ok {A} (P : A → Prop) n x l : P x → Forall P l → Forall P (insert_at n x l).
Proof.
  intros Hx Hl. unfold insert_at. apply Forall_app. split; [by apply Forall_take|].
  constructor; [done|]. by apply Forall_drop.
Qed.

Lemma set_lines_ok r n g p v ls :
  lacks "010" g = true → lacks "010" p = true → lacks "010" v = true →
  Forall line_ok ls → Forall line_ok (set_lines r n g p v ls).
Proof.
  intros Hg Hp Hv Hls.
  assert (Hnew : line_ok (p +:+ "=" +:+ v)).
  { left. unfold lacks in *. by rewrite !str_all_app, Hp, Hv. }
  assert (Hgrp : line_ok ("[" +:+ g +:+ "]")).
  { left. unfold lacks in *. by rewrite !str_all_app, Hg. }
  assert (Hnl : line_ok NL) by (by right).
  unfold set_lines. destruct (param_exists r); [by apply Forall_insert|].
  destruct (group_exists r); auto using insert_at_ok.
Qed.

Lemma nospaces_NL s : nospaces s = true → lacks "010" s = true.
Proof. apply str_all_impl. intros c Hc. destruct (c =? "010")%char eqn:He; [|done].
  apply Ascii.eqb_eq in He. by subst. Qed.

(** A value set in an opened file is the value of the saved text, and the other
    values of the saved text are those of the opened one. *)
Lemma set_saved_text cfg g p v s l cfg' s' t g' p' :
  clean_group g = true → clean_param p = true → lacks "010" v = true →
  lines cfg = getlines t → set_ cfg g p v s = Value (l, cfg') s' →
  text_value g' p' (putlines (lines cfg')) =
    if bool_decide ((g', p') = (g, p)) then Ok (Some (read_back v)) else text_value g' p' t.
Proof.
  intros Hg Hp Hv Ht Hs. unfold text_value.
  assert (Hok : Forall line_ok (lines cfg')).
  { destruct (set_inv _ _ _ _ _ _ _ _ Hs) as (r & _ & _ & ->). simpl.
    unfold clean_group in Hg. unfold clean_param in Hp. split_bools.
    apply set_lines_ok; try done.
    - apply nospaces_NL. by apply (clean_spec g).
    - apply nospaces_NL. by apply (clean_spec p).
    - rewrite Ht. eapply Forall_impl; [apply getlines_lack_NL|]. by left. }
  rewrite read_written by done. pose proof (set_upd _ _ _ _ _ _ _ _ Hg Hp Hs) as Hu.
  case_bool_decide as Heq.
  - injection Heq as -> ->. by eapply upd_read.
  - rewrite <- Ht. eapply upd_frame; [done| |done]. done.
Qed.
