(* ===== verification/ConfService.v ===== *)
(** * Control of the system service: conftool/service and ServiceCommand.cpp

    [CServiceControl] for its three platforms (systemd, launchd, the Windows task
    scheduler) and the [service] command of the configuration tool, which prints
    what they report. *)
From S2P Require Import CLib.
From S2P Require Export ConfBase.

(** ** service.h *)
Definition SERVICE_ENABLED : Z := 1.
Definition PROCESS_RUNNING : Z := 4.

(** [if (b) status |= bit]. *)
Definition or_if (b : bool) (status bit : Z) : Z := if b then Z.lor status bit else status.

(** [std::system (cmd) == 0]. *)
Definition system_ok {H : Host} (cmd : string) : M bool :=
  res ← run_system cmd;
  mret (res =z? 0).

(** ** service_linux.cpp *)
Module Linux.
Section Control.
Context {H : Host}.

Definition enable : M bool :=
  root ← storage "CONFIGS_PATH";
  system_ok ("systemctl enable "
             +:+ (root // "share" // "cellframe-node.service > /dev/null")).

Definition disable : M bool :=
  system_ok "systemctl disable cellframe-node.service > /dev/null".

Definition serviceStatus : M Z :=
  enabled ← system_ok "systemctl is-enabled cellframe-node.service > /dev/null";
  let status := or_if enabled 0 SERVICE_ENABLED in
  running ← system_ok "pgrep -x cellframe-node > /dev/null";
  mret (or_if running status PROCESS_RUNNING).

Definition start : M bool :=
  system_ok "systemctl start cellframe-node.service > /dev/null".

Definition stop : M bool :=
  system_ok "systemctl stop cellframe-node.service > /dev/null".

Definition restart : M bool :=
  system_ok "systemctl restart cellframe-node.service > /dev/null".

End Control.
End Linux.

(** ** service_macos.cpp, and callSecScript of macos_auth.m *)
Module Macos.
Section Control.
Context {H : Host}.

(** The AppleScript's result and error are dropped. *)
Definition callSecScript (script : string) : M Z := λ s,
  Value 0%Z (add_spawned ("do shell script " +:+ quoted script
                          +:+ " with administrator privileges") s).

Definition enable : M bool :=
  res ← callSecScript "launchctl load -w /Library/LaunchDaemons/com.demlabs.cellframe-node.plist";
  mret (res =z? 0).

Definition disable : M bool :=
  res ← callSecScript "launchctl unload -w /Library/LaunchDaemons/com.demlabs.cellframe-node.plist";
  mret (res =z? 0).

Definition serviceStatus : M Z :=
  enabled ← system_ok "launchctl print system/com.demlabs.cellframe-node > /dev/null";
  let status := or_if enabled 0 SERVICE_ENABLED in
  running ← system_ok "pgrep -x cellframe-node > /dev/null";
  mret (or_if running status PROCESS_RUNNING).

Definition start : M bool := enable.
Definition stop : M bool := disable.

Definition restart : M bool := stop;; start;; mret true.

End Control.
End Macos.

(** ** service_win.cpp *)
Module Win.
Section Control.
Context {H : Host}.

Definition lower (c : ascii) : ascii :=
  let z := char_code c in
  if ((65 <=? z) && (z <=? 90))%Z then ascii_of_N (Z.to_N (z + 32)%Z) else c.

Fixpoint tcsicmp_eq (a b : string) : bool :=
  match a, b with
  | "", "" => true
  | String c a', String d b' => (lower c =? lower d)%char && tcsicmp_eq a' b'
  | _, _ => false
  end.

(** [Process32First] fails on an empty snapshot. *)
Definition isProcessRunning (executableName : string) : bool :=
  match processes with
  | [] => false
  | entries => existsb (λ e, tcsicmp_eq e executableName) entries
  end.

(** [sei.fMask] is 0, so that [sei.hProcess] stays NULL also when the program
    starts; [GetExitCodeProcess] fails on it and [rc] is returned uninitialised. *)
Definition ShellExecuteEx (file parameters : string) : M (shell_result * option Z) := λ s,
  let cmd := file +:+ " " +:+ parameters in
  Value (shell_execute (spawned s) cmd, None) (add_spawned cmd s).

Definition GetExitCodeProcess (hProcess : option Z) (rc : option Z) : M (option Z) :=
  mret match hProcess with Some code => Some code | None => rc end.

Definition runShellAdmin (app cmd : string) : M Z :=
  '(res, hProcess) ← ShellExecuteEx app cmd;
  match res with
  | ShellCancelled => say ("End user did not allow elevation" +:+ NL);; mret (-1)%Z
  | _ =>
      (match res with
       | ShellFailed dwError => say ("Exec failed" +:+ pretty dwError +:+ NL)
       | _ => mret tt
       end);;
      rc ← GetExitCodeProcess hProcess None;
      match rc with
      | Some code => mret code
      | None => undef
      end
  end.

Definition admin_ok (app cmd : string) : M bool :=
  res ← runShellAdmin app cmd;
  mret (res =z? 0).

Definition enable : M bool :=
  bin ← storage "NODE_BINARY_PATH";
  admin_ok "schtasks.exe" ("/Create /F /RL highest /SC onlogon /TR " +:+ DQ +:+ "'"
                           +:+ (bin // "cellframe-node.exe") +:+ "'" +:+ DQ
                           +:+ " /TN CellframeNode").

Definition disable : M bool := admin_ok "schtasks.exe" "/Delete  /TN CellframeNode /f".

Definition serviceStatus : M Z :=
  enabled ← system_ok "schtasks /query  /TN CellframeNode";
  let status := or_if enabled 0 SERVICE_ENABLED in
  if isProcessRunning "cellframe-node.exe"
  then say ("proc running" +:+ NL);; mret (Z.lor status PROCESS_RUNNING)
  else mret status.

Definition start : M bool := admin_ok "schtasks.exe" "/run  /TN CellframeNode".
Definition stop : M bool := admin_ok "taskkill.exe" "/IM cellframe-node.exe  /F".

Definition restart : M bool := stop;; start;; mret true.

End Control.
End Win.

(** ** CServiceControl of the platform *)
Section Service.
Context {H : Host}.

Definition choose {A} (linux macos win : M A) : M A :=
  match os with
  | LINUX | ANDROID => linux
  | APPLE => macos
  | WINDOWS => win
  end.

Definition service_enable : M bool := choose Linux.enable Macos.enable Win.enable.
Definition service_disable : M bool := choose Linux.disable Macos.disable Win.disable.
Definition service_status : M Z := choose Linux.serviceStatus Macos.serviceStatus Win.serviceStatus.
Definition service_start : M bool := choose Linux.start Macos.start Win.start.
Definition service_stop : M bool := choose Linux.stop Macos.stop Win.stop.
Definition service_restart : M bool := choose Linux.restart Macos.restart Win.restart.

(** ** ServiceCommand.cpp *)
Record CServiceCommand := { service_action : string }.

Definition new_service (cmd_tokens : list string) : M CServiceCommand :=
  if bool_decide (length cmd_tokens < 2)%nat
  then throw (invalid_argument "service command require action argument")
  else action ← at_ cmd_tokens 1; mret {| service_action := action |}.

Definition report (done : bool) (text : string) : M unit :=
  say ((if done then text else "error") +:+ NL).

Definition execute_service (cmd : CServiceCommand) (flags : Z) : M bool :=
  let action := service_action cmd in
  when (action =s? "enable") (res ← service_enable; report res "enabled");;
  when (action =s? "disable") (res ← service_disable; report res "disabled");;
  when (action =s? "status")
    (status ← service_status;
     say ((if negb (Z.land status SERVICE_ENABLED =z? 0) then "service: enabled"
           else "service: disabled") +:+ NL);;
     say ((if negb (Z.land status PROCESS_RUNNING =z? 0) then "process: running"
           else "process: notfound") +:+ NL));;
  when (action =s? "start") (res ← service_start; report res "started");;
  when (action =s? "stop") (res ← service_stop; report res "stoped");;
  when (action =s? "restart") (res ← service_restart; report res "restarted");;
  mret true.

End Service.

(** ** The claims on the service *)

(** The status word on Linux has the enabled bit exactly
    when [systemctl is-enabled] succeeded and the running bit exactly when [pgrep]
    found the process, independently, and asking changes nothing but the record of
    spawned commands. *)
Theorem linux_status_bits {H : Host} s :
  ∃ z s', Linux.serviceStatus s = Value z s' ∧
    (Z.testbit z 0 = true ↔
       system (spawned s) "systemctl is-enabled cellframe-node.service > /dev/null" = 0%Z) ∧
    (Z.testbit z 2 = true ↔
       system (spawned s ++ ["systemctl is-enabled cellframe-node.service > /dev/null"])
         "pgrep -x cellframe-node > /dev/null" = 0%Z) ∧
    files s' = files s ∧ variable_storage s' = variable_storage s.
Proof.
  unfold Linux.serviceStatus, system_ok, run_system, mbind, M_bind, mret, M_ret. simpl.
  eexists _, _. split; [reflexivity|]. simpl. rewrite <- !Z.eqb_eq.
  destruct (_ =z? 0), (_ =z? 0); simpl; by repeat split.
Qed.

(** On Windows the exit code of a task that ran is read uninitialised, and only a
    refused elevation gives an answer. *)
Lemma win_enable_undefined {H : Host} s :
  match Win.enable s with
  | Value b _ => b = false
  | Thrown _ _ | Beyond => False
  | Ub => True
  end.
Proof.
  unfold Win.enable, Win.admin_ok, Win.runShellAdmin, Win.ShellExecuteEx, Win.GetExitCodeProcess.
  unfold mbind, M_bind, mret, M_ret. simpl. by destruct (shell_execute _ _).
Qed.
