(* ===== verification/ConfCmd.v ===== *)
(** * The script commands: conftool/commands

    One record per command class, built by its constructor from the tokens of a
    line ([new_...]) and run by [execute_...].  [build] is
    [CAbstractScriptCommand::build], with the registry of the command classes. *)
From S2P Require Import CLib.
From S2P Require Export ConfFile ConfService.

(** ** NetworkCommand.cpp *)
Definition allowed_states : list string := ["on"; "off"].

Record CNetworkCommand := { net_name : string; net_action : string; default_val : string }.

Definition new_network (cmd_tokens : list string) : M CNetworkCommand :=
  if bool_decide (length cmd_tokens ≤ 2)%nat
  then throw (invalid_argument "network command has no command arguments")
  else
    name ← at_ cmd_tokens 1;
    net_cfg_template_path ← config_path name CFG_GENERAL CFG_TEMPLATE;
    there ← fs_exists net_cfg_template_path;
    if negb there
    then throw (invalid_argument "network_cmd: template not found in share config path")
    else
      action ← at_ cmd_tokens 2;
      let state := cmd_tokens !! 3%nat in
      let allowed := match state with
                     | Some t => existsb (String.eqb t) allowed_states
                     | None => false
                     end in
      if action =s? "default" then
        if negb allowed
        then throw (invalid_argument "network_cmd: [default] require 'on or off' state for net")
        else mret {| net_name := name; net_action := action; default_val := default "" state |}
      else if action =s? "ensure" then
        if negb allowed
        then throw (invalid_argument "network_cmd: [ensure] require 'on or off' state for net")
        else mret {| net_name := name; net_action := action; default_val := default "" state |}
      else if action =s? "check" then
        mret {| net_name := name; net_action := action; default_val := "" |}
      else throw (invalid_argument "network_cmd: unknown action for network_cmd").

Section Network.
Context {H : Host}.

Definition network_default (cmd : CNetworkCommand) (flags : Z) : M bool :=
  let name := net_name cmd in
  let val := default_val cmd in
  template_path ← config_path name CFG_GENERAL CFG_TEMPLATE;
  off_path ← config_path name CFG_GENERAL CFG_OFF;
  on_path ← config_path name CFG_GENERAL CFG_ON;
  off_there ← fs_exists off_path;
  on_there ← fs_exists on_path;
  if (off_there : bool) && (on_there : bool) then
    say ("[C][network default] you have both enabled and disabled files for network ["
         +:+ name +:+ "], skip this step" +:+ NL);;
    mret false
  else if negb ((val =s? "on") || (val =s? "off")) then say ("wtf" +:+ NL);; mret false
  else
    let '(check_exist_path, template_copy_dest) :=
      if val =s? "on" then (off_path, on_path) else (on_path, off_path) in
    dest_there ← fs_exists template_copy_dest;
    if (dest_there : bool) then
      say ("[C][network default " +:+ val +:+ "] Network [" +:+ name +:+ "] already "
           +:+ val +:+ ", skip this step" +:+ NL);;
      mret true
    else
      check_there ← fs_exists check_exist_path;
      if (check_there : bool) then
        verbose flags ("[VE][network default] File " +:+ show_path check_exist_path
                       +:+ " exists, but default state requested [" +:+ val +:+ "]");;
        say ("[C][network default] Skip altering state for network [" +:+ name
             +:+ "] due to it was user-configured" +:+ NL);;
        mret false
      else
        let alt_state_path := if val =s? "on" then off_path else on_path in
        alt_there ← fs_exists alt_state_path;
        if (alt_there : bool) then
          verbose flags ("[VE][network default] Network [" +:+ name
                         +:+ "] already configured in opposite state: " +:+ show_path alt_state_path);;
          say ("[C][network default] Skip creating default config for network [" +:+ name
               +:+ "] - user has it configured in opposite state" +:+ NL);;
          mret false
        else
          say ("[C][network default] Set-up net [" +:+ name +:+ "] as ["
               +:+ (if val =s? "on" then "ENABLED" else "DISABLED") +:+ "] from template "
               +:+ show_path template_path +:+ NL);;
          verbose flags ("[VE][network default] copy file from " +:+ show_path template_path
                         +:+ " to " +:+ show_path template_copy_dest +:+ NL);;
          when (negb (flag flags F_DRYRUN)) (fs_copy template_path template_copy_dest);;
          mret true.

Definition network_ensure (cmd : CNetworkCommand) (flags : Z) : M bool :=
  let name := net_name cmd in
  let val := default_val cmd in
  on_path ← config_path name CFG_GENERAL CFG_ON;
  net_enabled ← fs_exists on_path;
  if (val =s? "on") && (net_enabled : bool) then
    say ("[C][network ensure on]: Network [" +:+ name +:+ "] already enabled" +:+ NL);;
    mret false
  else
    off_path ← config_path name CFG_GENERAL CFG_OFF;
    off_there ← fs_exists off_path;
    if (val =s? "off") && negb net_enabled && (off_there : bool) then
      say ("[C][network ensure off]: Network [" +:+ name +:+ "] already disabled" +:+ NL);;
      mret false
    else if negb ((val =s? "on") || (val =s? "off")) then undef
    else
      let '(requested_path, oposite_path) :=
        if val =s? "on" then (on_path, off_path) else (off_path, on_path) in
      oposite_there ← fs_exists oposite_path;
      (if (oposite_there : bool) then
        say ("[C][network ensure " +:+ val +:+ "] move file from " +:+ show_path oposite_path
             +:+ " to " +:+ show_path requested_path +:+ NL);;
        when (negb (flag flags F_DRYRUN)) (fs_rename oposite_path requested_path)
      else
        template_path ← config_path name CFG_GENERAL CFG_TEMPLATE;
        say ("[C][network ensure " +:+ val +:+ "] copy file from " +:+ show_path template_path
             +:+ " to " +:+ show_path requested_path +:+ NL);;
        when (negb (flag flags F_DRYRUN)) (fs_copy template_path requested_path));;
      mret true.

Definition network_check (cmd : CNetworkCommand) : M bool :=
  on_path ← config_path (net_name cmd) CFG_GENERAL CFG_ON;
  net_enabled ← fs_exists on_path;
  say ("[C][network check]: Network [" +:+ net_name cmd +:+ "] "
       +:+ (if (net_enabled : bool) then "on" else "off") +:+ NL);;
  mret true.

(** An action that is not in the map is an empty function; the constructor admits
    none. *)
Definition execute_network (cmd : CNetworkCommand) (flags : Z) : M bool :=
  if net_action cmd =s? "default" then network_default cmd flags
  else if net_action cmd =s? "ensure" then network_ensure cmd flags
  else if net_action cmd =s? "check" then network_check cmd
  else throw bad_function_call.

End Network.

(** ** ConfigCommand.cpp *)
Definition allowed_actions : list string := ["default"; "ensure"; "get"].

Record CConfigCommand := {
  cfg_name : string;
  cfg_group : string;
  cfg_param : string;
  cfg_value : string;
  cfg_action : string
}.

Definition new_config (cmd_tokens : list string) : M CConfigCommand :=
  if bool_decide (length cmd_tokens ≤ 4)%nat
  then throw (invalid_argument "config command invalid numbers of arguments")
  else
    name ← at_ cmd_tokens 1;
    net_cfg_template_path ← config_path name CFG_GENERAL CFG_TEMPLATE;
    there ← fs_exists net_cfg_template_path;
    if negb (name =s? "cellframe-node") && negb there
    then throw (invalid_argument ("config_cmd: config for [" +:+ name +:+ "] not exitst"))
    else
      group ← at_ cmd_tokens 2;
      param_ ← at_ cmd_tokens 3;
      action ← at_ cmd_tokens 4;
      if negb (existsb (String.eqb action) allowed_actions)
      then throw (invalid_argument ("config_cmd: allowed actions are get|ensure|default, not "
                                    +:+ action))
      else mret {| cfg_name := name; cfg_group := group; cfg_param := param_;
                   cfg_value := default "" (cmd_tokens !! 5%nat); cfg_action := action |}.

Definition last_char (s : string) : string :=
  String.substring (String.length s - 1) 1 s.

Definition is_placeholder (val : string) : bool :=
  if is_empty val then true
  else String.prefix "$" val && (last_char val =s? "}").

Section Config.
Context {H : Host}.

(** The file the command works on: the enabled one when both exist. *)
Definition config_target (name : string) : M string :=
  cfg_on_path ← config_path name CFG_GENERAL CFG_ON;
  cfg_off_path ← config_path name CFG_GENERAL CFG_OFF;
  off_there ← fs_exists cfg_off_path;
  on_there ← fs_exists cfg_on_path;
  if negb (name =s? "cellframe-node") then
    let cfg_path := if (off_there : bool) then cfg_off_path else cfg_on_path in
    let cfg_path := if (on_there : bool) then cfg_on_path else cfg_path in
    when (on_there && off_there)
      (say ("[C][config] cfg " +:+ name
            +:+ " is in both on&off states, use enabled cfg for modifications" +:+ NL));;
    mret cfg_path
  else mret cfg_on_path.

(** The actions: whether the file was altered, and the file. *)
Definition config_default (cmd : CConfigCommand) (val : string) (cfg : CellframeConfigurationFile) :
    M (bool * CellframeConfigurationFile) :=
  r ← exists_ cfg (cfg_group cmd) (cfg_param cmd);
  let cfg_val := default "" (value r) in
  if param_exists r && negb (is_placeholder cfg_val) then
    say ("[C][config default] [" +:+ cfg_name cmd +:+ "] [" +:+ cfg_group cmd +:+ "] "
         +:+ cfg_param cmd +:+ "==" +:+ cfg_val +:+ ", skip altering" +:+ NL);;
    mret (false, cfg)
  else
    say ("[C][config default] [" +:+ cfg_name cmd +:+ "] [" +:+ cfg_group cmd +:+ "] set "
         +:+ cfg_param cmd +:+ "=" +:+ val +:+ NL);;
    '(_, cfg') ← set_ cfg (cfg_group cmd) (cfg_param cmd) val;
    mret (true, cfg').

Definition config_ensure (cmd : CConfigCommand) (val : string) (cfg : CellframeConfigurationFile) :
    M (bool * CellframeConfigurationFile) :=
  say ("[C][config ensure] [" +:+ cfg_name cmd +:+ "] [" +:+ cfg_group cmd +:+ "] set "
       +:+ cfg_param cmd +:+ "=" +:+ val +:+ NL);;
  '(_, cfg') ← set_ cfg (cfg_group cmd) (cfg_param cmd) val;
  mret (true, cfg').

Definition config_get (cmd : CConfigCommand) (cfg : CellframeConfigurationFile) :
    M (bool * CellframeConfigurationFile) :=
  r ← exists_ cfg (cfg_group cmd) (cfg_param cmd);
  say (cfg_name cmd +:+ ": [" +:+ cfg_group cmd +:+ "] " +:+ cfg_param cmd +:+ "="
       +:+ default "" (value r) +:+ NL);;
  mret (false, cfg).

Definition execute_config (cmd : CConfigCommand) (flags : Z) : M bool :=
  val ← substitute_variables (cfg_value cmd);
  cfg_path ← config_target (cfg_name cmd);
  cfg ← open_cfg cfg_path flags;
  res ← (if cfg_action cmd =s? "default" then config_default cmd val cfg
         else if cfg_action cmd =s? "ensure" then config_ensure cmd val cfg
         else if cfg_action cmd =s? "get" then config_get cmd cfg
         else throw bad_function_call);
  when res.1 (save res.2;; mret tt);;
  mret true.

End Config.

(** ** StorageCommand.cpp *)
Record CVariableCommand := { var_name : string; var_val : string }.

Definition new_var (cmd_tokens : list string) : M CVariableCommand :=
  let joined_condition := string_join (tail cmd_tokens) "" in
  match tokenize joined_condition re_eq with
  | [t0; t1] => mret {| var_name := t0; var_val := t1 |}
  | _ => throw (invalid_argument "var command uses exactly VAR=VAL syntax")
  end.

Definition show_storage (items : list (string * string)) : string :=
  foldr (λ a acc, a.1 +:+ " : " +:+ a.2 +:+ ", " +:+ acc) "" items.

Definition execute_var (cmd : CVariableCommand) (flags : Z) : M bool :=
  real_val ← substitute_variables (var_val cmd);
  storage_set (var_name cmd) real_val;;
  stor ← storage_items;
  verbose flags ("[VC] Set " +:+ real_val +:+ " as " +:+ var_name cmd +:+ ", current stor = {"
                 +:+ show_storage stor +:+ "}" +:+ NL);;
  mret true.

(** ** ConditionCommand.cpp *)
Inductive E_COND_OPS := COND_EQUAL | COND_NOT_EQUAL | COND_IS_SET.

Record CConditionOpenCommand := { cond_op : E_COND_OPS; arg1 : string; arg2 : string }.

Definition new_if (cmd_tokens : list string) : M CConditionOpenCommand :=
  let joined_condition := string_join (tail cmd_tokens) "" in
  let op := if contains "!=" joined_condition then COND_NOT_EQUAL
            else if contains "==" joined_condition then COND_EQUAL
            else COND_IS_SET in
  match op, tokenize joined_condition re_eq_neq with
  | COND_IS_SET, [t0] => mret {| cond_op := COND_IS_SET; arg1 := t0; arg2 := "" |}
  | COND_IS_SET, _ =>
      throw (invalid_argument "IS_SET condition requre only one variable for check")
  | op, [t0; t1] => mret {| cond_op := op; arg1 := t0; arg2 := t1 |}
  | _, _ => throw (invalid_argument "CONDITION EQ | NEQ requre only two tokens")
  end.

Definition cond_op_code (op : E_COND_OPS) : string :=
  match op with COND_EQUAL => "0" | COND_NOT_EQUAL => "1" | COND_IS_SET => "2" end.

Definition execute_if (cmd : CConditionOpenCommand) (flags : Z) : M bool :=
  verbose flags ("[VE] Condition exec: " +:+ arg1 cmd +:+ " " +:+ cond_op_code (cond_op cmd)
                 +:+ " " +:+ arg2 cmd +:+ " -> ");;
  a1val ← substitute_variables (arg1 cmd);
  a2val ← substitute_variables (arg2 cmd);
  let '(opsym, res) :=
    match cond_op cmd with
    | COND_EQUAL => ("==", a1val =s? a2val)
    | COND_NOT_EQUAL => ("!=", negb (a1val =s? a2val))
    | COND_IS_SET => ("exists", is_empty a1val)
    end in
  verbose flags (a1val +:+ " " +:+ opsym +:+ " " +:+ a2val +:+ " -> "
                 +:+ (if res : bool then "1" else "0") +:+ NL);;
  mret res.

(** ** FromTemplateCommand.cpp *)
Record CFromTemplateCommand := { tmpl_name : string; tmpl_action : string }.

Definition new_fromtemplate (cmd_tokens : list string) : M CFromTemplateCommand :=
  if bool_decide (length cmd_tokens ≤ 2)%nat
  then throw (invalid_argument "config command invalid numbers of arguments")
  else
    name ← at_ cmd_tokens 1;
    net_cfg_template_path ← config_path name CFG_GENERAL CFG_TEMPLATE;
    there ← fs_exists net_cfg_template_path;
    if negb (name =s? "cellframe-node") && negb there
    then throw (invalid_argument "config_cmd: config  not exitst")
    else action ← at_ cmd_tokens 2; mret {| tmpl_name := name; tmpl_action := action |}.

Section FromTemplate.
Context {H : Host}.

Definition populate (path_to : string) (flags : Z) : M bool :=
  cfg ← open_cfg path_to flags;
  cfg' ← replace_placeholders cfg;
  save cfg';;
  mret true.

Definition execute_fromtemplate (cmd : CFromTemplateCommand) (flags : Z) : M bool :=
  path_from ← config_path (tmpl_name cmd) CFG_GENERAL CFG_TEMPLATE;
  path_to ← config_path (tmpl_name cmd) CFG_GENERAL CFG_ON;
  there ← fs_exists path_to;
  if (tmpl_action cmd =s? "default") && (there : bool) then
    say ("[C][fromtemplate default]  [" +:+ tmpl_name cmd +:+ "] exists, skip altering" +:+ NL);;
    mret true
  else
    when (tmpl_action cmd =s? "default")
      (say ("[C] [fromtemplate default] copy " +:+ show_path path_from +:+ " to "
            +:+ show_path path_to +:+ NL);;
       when (negb (flag flags F_DRYRUN)) (fs_copy_file false path_from path_to));;
    when (tmpl_action cmd =s? "ensure")
      (say ("[C] [fromtemplate ensure] copy " +:+ show_path path_from +:+ " to "
            +:+ show_path path_to +:+ NL);;
       when (negb (flag flags F_DRYRUN)) (fs_copy_file true path_from path_to));;
    populate path_to flags.

End FromTemplate.

(** ** NetworkListCommand.cpp *)
Inductive NetworState := ALL | ON | OFF.

Record CNetworkListCommand := { m_state : NetworState }.

Definition new_net_list (cmd_tokens : list string) : M CNetworkListCommand :=
  mret {| m_state := match cmd_tokens !! 1%nat with
                     | Some t => if t =s? "on" then ON else if t =s? "off" then OFF else ALL
                     | None => ALL
                     end |}.

(** [while ((pos = str.find (tuRemove, pos)) != npos) str.erase (pos, ...)], with
    fuel for the number of turns. *)
Definition erase (pos len : nat) (s : string) : string :=
  String.substring 0 pos s +:+ str_drop (pos + len) s.

Fixpoint removeSubstring (fuel pos : nat) (str tuRemove : string) : option string :=
  match fuel with
  | O => None
  | S n =>
      match strfind_from pos tuRemove str with
      | None => Some str
      | Some pos' => removeSubstring n pos' (erase pos' (String.length tuRemove) str) tuRemove
      end
  end.

(** One turn per removed occurrence and the last, failing search. *)
Definition without (tuRemove str : string) : string :=
  default str (removeSubstring (S (String.length str)) 0 str tuRemove).

Record NetworkInfo := { networkName : string; state : string }.

Definition network_info (st_ : NetworState) (name : string) : option NetworkInfo :=
  let isDis := contains ".dis" name in
  let isCfg := contains ".cfg" name in
  let wants_off := match st_ with ALL | OFF => true | ON => false end in
  let wants_on := match st_ with ALL | ON => true | OFF => false end in
  let wants_all := match st_ with ALL => true | _ => false end in
  if (isDis && isCfg) && wants_off
  then Some {| networkName := without (".cfg" +:+ ".dis") name; state := "off" |}
  else if (negb isDis && isCfg) && wants_on
  then Some {| networkName := without ".cfg" name; state := "on" |}
  else if (negb isDis && negb isCfg) && wants_all
  then Some {| networkName := name; state := "unknown" |}
  else None.

Section NetList.
Context {H : Host}.

(** The regular files a [directory_iterator] of the directory delivers. *)
Definition child_name (dir k : string) : option string :=
  let d := chop_slash dir +:+ "/" in
  let rest := str_drop (String.length d) k in
  if String.prefix d k && negb (is_empty rest) && lacks "/" rest then Some rest else None.

Definition regular_children (f : gmap string fnode) (dir : string) : list string :=
  omap (λ x, match x.2 with FFile _ => child_name dir x.1 | FDir => None end) (map_items f).

Definition list_files (dir : string) : M (list string) := λ s,
  Value (dir_order (regular_children (files s) dir)) s.

Definition is_directory (p : string) : M bool := λ s,
  Value (match node_at (files s) p with Some FDir => true | _ => false end) s.

Definition show_networks (configs : list NetworkInfo) : string :=
  foldr (λ i acc, "name: " +:+ networkName i +:+ TAB +:+ " state:" +:+ state i +:+ NL +:+ acc) ""
        configs.

Definition execute_net_list (cmd : CNetworkListCommand) (flags : Z) : M bool :=
  directoryPath ← get_config_path CFG_NETWORK;
  there ← fs_exists directoryPath;
  if negb there then say ("The catalog was not found." +:+ NL);; mret false
  else
    dir ← is_directory directoryPath;
    if negb dir then say ("The specified path is not a directory." +:+ NL);; mret false
    else
      names ← list_files directoryPath;
      let configs := omap (network_info (m_state cmd)) names in
      match configs with
      | [] => say "No networks were found."
      | _ => say (show_networks configs)
      end;;
      mret true.

End NetList.

(** ** AbstractCommand.cpp: the registry and the virtual members *)
Inductive command_class :=
  | Network (c : CNetworkCommand)
  | Config (c : CConfigCommand)
  | Variable_ (c : CVariableCommand)
  | ConditionOpen (c : CConditionOpenCommand)
  | ConditionClose
  | FromTemplate (c : CFromTemplateCommand)
  | NetworkList (c : CNetworkListCommand)
  | Service (c : CServiceCommand).

Record command := { cmd_tokens : list string; class : command_class }.

(** [registry]: the class registered under a name. *)
Definition registry (name : string) : option (list string → M command_class) :=
  if name =s? "network" then Some (λ t, Network <$> new_network t)
  else if name =s? "config" then Some (λ t, Config <$> new_config t)
  else if name =s? "var" then Some (λ t, Variable_ <$> new_var t)
  else if name =s? "if" then Some (λ t, ConditionOpen <$> new_if t)
  else if name =s? "endif" then Some (λ t, mret ConditionClose)
  else if name =s? "fromtemplate" then Some (λ t, FromTemplate <$> new_fromtemplate t)
  else if name =s? "net_list" then Some (λ t, NetworkList <$> new_net_list t)
  else if name =s? "service" then Some (λ t, Service <$> new_service t)
  else None.

(** [build]: [None] is NULL, for an unknown command. *)
Definition build (line : string) : M (option command) :=
  let tokens := tokenize line re_blanks in
  cmd ← at_ tokens 0;
  match registry cmd with
  | None => mret None
  | Some create => c ← create tokens; mret (Some {| cmd_tokens := tokens; class := c |})
  end.

Definition represent (c : command) : string := string_join (cmd_tokens c) " ".

Definition is_condition_open (c : command) : bool :=
  match class c with ConditionOpen _ => true | _ => false end.

Definition is_condition_close (c : command) : bool :=
  match class c with ConditionClose => true | _ => false end.

Definition execute {H : Host} (c : command) (flags : Z) : M bool :=
  match class c with
  | Network n => execute_network n flags
  | Config n => execute_config n flags
  | Variable_ n => execute_var n flags
  | ConditionOpen n => execute_if n flags
  | ConditionClose => mret true
  | FromTemplate n => execute_fromtemplate n flags
  | NetworkList n => execute_net_list n flags
  | Service n => execute_service n flags
  end.
