(* ===== verification/ConfNet.v ===== *)
(** * The states of a network: what the network and net_list commands do

    A network is enabled by [<name>.cfg] and disabled by [<name>.cfg.dis]; the
    [network] command moves it between the two, from a template when there is
    neither.  This file proves what each action leaves on disk, and that the two
    files never come to exist together. *)
From S2P Require Export ConfCmd.

(** ** Paths *)
Abbreviation CONFIGS := "CONFIGS_PATH".

Definition root_of (s : st) : string := default "" (variable_storage s !! CONFIGS).

Lemma root_of_touch s : root_of (touch CONFIGS s) = root_of s.
Proof. apply touch_lookup. Qed.

Lemma root_of_console c s : root_of (set_console c s) = root_of s.
Proof. done. Qed.

Lemma files_console c s : files (set_console c s) = files s.
Proof. done. Qed.

Lemma root_of_files f s : root_of (set_files f s) = root_of s.
Proof. done. Qed.

Create Rewrite HintDb conf.
#[export] Hint Rewrite root_of_touch root_of_console root_of_files touch_console touch_touch touch_files
  files_console : conf.

Lemma wp_config_path n t k (Q : string → st → Prop) X s :
  Q (config_file (root_of s) n t k) (touch CONFIGS s) → wp (config_path n t k) Q X s.
Proof. done. Qed.

Lemma wp_get_config_path k (Q : string → st → Prop) X s :
  (∀ p, Q p (touch CONFIGS s)) → wp (get_config_path k) Q X s.
Proof. intros HQ. apply HQ. Qed.

Lemma wp_storage_set k v (Q : unit → st → Prop) X s :
  Q tt (set_vars (<[k := v]> (variable_storage s)) s) → wp (storage_set k v) Q X s.
Proof. done. Qed.

Lemma wp_storage_items (Q : list (string * string) → st → Prop) X s :
  Q (map_items (variable_storage s)) s → wp storage_items Q X s.
Proof. done. Qed.

Ltac conf_step :=
  lazymatch goal with
  | |- wp (config_path _ _ _) _ _ _ => apply wp_config_path
  | |- wp (storage_set _ _) _ _ _ => apply wp_storage_set
  | |- wp storage_items _ _ _ => apply wp_storage_items
  | |- wp (when _ _) _ _ _ => apply wp_when; intros ?
  | _ => wp_step
  end; cbv beta; autorewrite with conf.
Ltac conf_steps := repeat conf_step.

Section Paths.
Implicit Types (root n : string).

(** The common part of the two files of a network. *)
Definition net_base root n : string := root // "etc" // "network/" // n.

Lemma config_file_on root n :
  n ≠ "cellframe-node" → config_file root n CFG_GENERAL CFG_ON = net_base root n +:+ ".cfg".
Proof.
  intros Hn%String.eqb_neq. unfold config_file, net_base. rewrite Hn. by apply path_append_app.
Qed.

Lemma config_file_off root n :
  n ≠ "cellframe-node" → config_file root n CFG_GENERAL CFG_OFF = net_base root n +:+ ".cfg.dis".
Proof.
  intros Hn%String.eqb_neq. unfold config_file, net_base. rewrite Hn. by apply path_append_app.
Qed.

Lemma ends_in_slash_app p c q : ends_in_slash (p +:+ String c q) = ends_in_slash (String c q).
Proof.
  induction p as [|d p IH]; [done|]. rewrite string_app_cons, <- IH.
  by destruct p.
Qed.

Lemma config_file_no_slash root n k : ends_in_slash (config_file root n CFG_GENERAL k) = false.
Proof.
  assert (Hp : ∀ d m c q, is_absolute (String c q) = false →
             ends_in_slash (d // (m +:+ String c q)) = ends_in_slash (String c q)).
  { intros d m c q Hc. rewrite path_append_app by done. apply ends_in_slash_app. }
  unfold config_file. destruct (n =s? "cellframe-node"), k;
    first [by apply (Hp _ n) | by apply (Hp _ "")].
Qed.

Lemma node_at_config f root n k :
  node_at f (config_file root n CFG_GENERAL k) = f !! config_file root n CFG_GENERAL k.
Proof. unfold node_at. by rewrite config_file_no_slash. Qed.

Lemma app_suffix_ne (x : string) : x +:+ ".cfg" ≠ x +:+ ".cfg.dis".
Proof. intros Heq. apply (f_equal String.length) in Heq. rewrite !string_length_app in Heq. simpl in Heq. lia. Qed.

Lemma config_on_off_ne root n :
  n ≠ "cellframe-node" →
  config_file root n CFG_GENERAL CFG_ON ≠ config_file root n CFG_GENERAL CFG_OFF.
Proof. intros Hn. rewrite config_file_on, config_file_off by done. apply app_suffix_ne. Qed.

End Paths.

Lemma present_config f root n k :
  present f (config_file root n CFG_GENERAL k) =
    match f !! config_file root n CFG_GENERAL k with Some _ => true | None => false end.
Proof. unfold present. by rewrite node_at_config. Qed.

Section Files.
Context {H : Host}.
Implicit Types (f : gmap string fnode).

(** ** Copying and moving *)
Lemma wp_fs_copy from to Q X s :
  ends_in_slash to = false →
  X filesystem_error s →
  (∀ t, node_at (files s) from = Some (FFile t) → files s !! to = None →
        Q tt (set_files (<[to := FFile t]> (files s)) s)) →
  wp (fs_copy from to) Q X s.
Proof.
  intros Hto HX HQ. unfold wp, fs_copy, fs_copy_file.
  destruct (node_at (files s) from) as [[|t]|] eqn:Hf; [done| |by destruct (node_at (files s) to)].
  assert (Hn : node_at (files s) to = files s !! to) by (unfold node_at; by rewrite Hto).
  rewrite Hn. destruct (files s !! to) as [[|u]|] eqn:Ht; [done|done|].
  rewrite Hto, andb_true_r. destruct (may_write to); [|done]. by apply HQ.
Qed.

Lemma wp_fs_copy_file over from to Q X s :
  ends_in_slash to = false →
  X filesystem_error s →
  (∀ t, node_at (files s) from = Some (FFile t) →
        Q tt (set_files (<[to := FFile t]> (files s)) s)) →
  wp (fs_copy_file over from to) Q X s.
Proof.
  intros Hto HX HQ. unfold wp, fs_copy_file.
  destruct (node_at (files s) from) as [[|t]|] eqn:Hf; [done| |by destruct (node_at (files s) to)].
  destruct (node_at (files s) to) as [[|u]|] eqn:Ht; [done| |].
  - destruct (over && _ && _); [by apply HQ|done].
  - rewrite Hto, andb_true_r. destruct (may_write to); [by apply HQ|done].
Qed.

Lemma wp_fs_rename from to Q X s :
  ends_in_slash to = false → ends_in_slash from = false → from ≠ to →
  X filesystem_error s →
  (∀ t, files s !! from = Some (FFile t) →
        Q tt (set_files (<[to := FFile t]> (base.delete from (files s))) s)) →
  wp (fs_rename from to) Q X s.
Proof.
  intros Hto Hfr Hne HX HQ. unfold wp, fs_rename.
  assert (Hn : node_at (files s) from = files s !! from) by (unfold node_at; by rewrite Hfr).
  rewrite Hn. destruct (files s !! from) as [[|t]|] eqn:Hf; [done| |done].
  rewrite (proj2 (String.eqb_neq from to) Hne), Hto, andb_true_r.
  destruct (node_at (files s) to) as [[|u]|]; [done| |];
    (destruct (may_write from && may_write to); [by apply HQ|done]).
Qed.

End Files.

(** ** The state machine of a network, as coded

    [req] is the file of the requested state and [opp] the one of the other
    state; [strict] is set when the request is to disable, for then the enabling
    file must go even if both exist.  The boolean is what the command returns. *)
Inductive ensure_step (req opp tmpl : string) (strict dry : bool) (f : gmap string fnode) :
    bool → gmap string fnode → Prop :=
  | ensure_already :
      is_Some (f !! req) → (strict = true → f !! opp = None) →
      ensure_step req opp tmpl strict dry f false f
  | ensure_dry :
      dry = true → (f !! req = None ∨ strict = true ∧ is_Some (f !! opp)) →
      ensure_step req opp tmpl strict dry f true f
  | ensure_move t :
      dry = false → f !! opp = Some (FFile t) → (strict = true ∨ f !! req = None) →
      ensure_step req opp tmpl strict dry f true (<[req := FFile t]> (base.delete opp f))
  | ensure_copy t :
      dry = false → f !! opp = None → f !! req = None → f !! tmpl = Some (FFile t) →
      ensure_step req opp tmpl strict dry f true (<[req := FFile t]> f).

Inductive default_step (req opp tmpl : string) (dry : bool) (f : gmap string fnode) :
    gmap string fnode → Prop :=
  | default_skip : is_Some (f !! req) ∨ is_Some (f !! opp) → default_step req opp tmpl dry f f
  | default_dry : dry = true → default_step req opp tmpl dry f f
  | default_copy t :
      dry = false → f !! req = None → f !! opp = None → f !! tmpl = Some (FFile t) →
      default_step req opp tmpl dry f (<[req := FFile t]> f).

Definition req_file (s : st) (n v : string) : string :=
  config_file (root_of s) n CFG_GENERAL (if v =s? "on" then CFG_ON else CFG_OFF).
Definition opp_file (s : st) (n v : string) : string :=
  config_file (root_of s) n CFG_GENERAL (if v =s? "on" then CFG_OFF else CFG_ON).
Definition tmpl_file (s : st) (n : string) : string :=
  config_file (root_of s) n CFG_GENERAL CFG_TEMPLATE.

Lemma req_opp_ne s n v : n ≠ "cellframe-node" → req_file s n v ≠ opp_file s n v.
Proof.
  intros Hn. unfold req_file, opp_file. pose proof (config_on_off_ne (root_of s) n Hn).
  destruct (v =s? "on"); congruence.
Qed.

Lemma present_Some f root n k :
  present f (config_file root n CFG_GENERAL k) = true →
  is_Some (f !! config_file root n CFG_GENERAL k).
Proof. rewrite present_config. by destruct (f !! _). Qed.

Lemma present_None f root n k :
  present f (config_file root n CFG_GENERAL k) = false →
  f !! config_file root n CFG_GENERAL k = None.
Proof. rewrite present_config. by destruct (f !! _). Qed.

(** Presence tests as facts on the map of files. *)
Ltac file_facts :=
  simpl in *; autorewrite with conf in *;
  repeat match goal with
         | E : _ && _ = false |- _ => apply andb_false_iff in E as [E|E]
         | E : _ && _ = true |- _ => apply andb_prop in E as [? ?]
         | E : negb _ = true |- _ => apply negb_true_iff in E
         | E : negb _ = false |- _ => apply negb_false_iff in E
         | E : present _ _ = true |- _ => apply present_Some in E
         | E : present _ _ = false |- _ => apply present_None in E
         end; try discriminate.

Section Network.
Context {H : Host}.

Lemma wp_net_move root n k k' Q (X : exn → st → Prop) s :
  config_file root n CFG_GENERAL k ≠ config_file root n CFG_GENERAL k' →
  X filesystem_error s →
  (∀ t, files s !! config_file root n CFG_GENERAL k = Some (FFile t) →
        Q tt (set_files (<[config_file root n CFG_GENERAL k' := FFile t]>
                          (base.delete (config_file root n CFG_GENERAL k) (files s))) s)) →
  wp (fs_rename (config_file root n CFG_GENERAL k) (config_file root n CFG_GENERAL k')) Q X s.
Proof. intros. apply wp_fs_rename; auto using config_file_no_slash. Qed.

Lemma wp_net_copy root n k k' Q (X : exn → st → Prop) s :
  X filesystem_error s →
  (∀ t, files s !! config_file root n CFG_GENERAL k = Some (FFile t) →
        files s !! config_file root n CFG_GENERAL k' = None →
        Q tt (set_files (<[config_file root n CFG_GENERAL k' := FFile t]> (files s)) s)) →
  wp (fs_copy (config_file root n CFG_GENERAL k) (config_file root n CFG_GENERAL k')) Q X s.
Proof.
  intros HX HQ. apply wp_fs_copy; auto using config_file_no_slash.
  intros t Ht. rewrite node_at_config in Ht. auto.
Qed.

Lemma network_ensure_wp n v flags s :
  n ≠ "cellframe-node" → v = "on" ∨ v = "off" →
  wp (network_ensure {| net_name := n; net_action := "ensure"; default_val := v |} flags)
     (λ b s', ensure_step (req_file s n v) (opp_file s n v) (tmpl_file s n)
                (v =s? "off") (flag flags F_DRYRUN) (files s) b (files s') ∧
              root_of s' = root_of s)
     (λ _ s', files s' = files s) s.
Proof.
  intros Hn Hv. pose proof (req_opp_ne s n v Hn) as Hne.
  unfold network_ensure, req_file, opp_file, tmpl_file in *. cbn [net_name default_val].
  destruct Hv as [-> | ->]; simpl in *; conf_steps; file_facts;
    try (split; [apply ensure_already; by auto|done]);
    try (split; [apply ensure_dry; by auto|done]);
    first [ apply wp_net_move; [congruence|by file_facts|]; intros t Ht; conf_steps; file_facts;
            split; [apply ensure_move; by auto|done]
          | apply wp_net_copy; [by file_facts|]; intros t Ht Hreq; conf_steps; file_facts;
            split; [apply ensure_copy; by auto|done] ].
Qed.

Lemma network_default_wp n v flags s :
  n ≠ "cellframe-node" → v = "on" ∨ v = "off" →
  wp (network_default {| net_name := n; net_action := "default"; default_val := v |} flags)
     (λ _ s', default_step (req_file s n v) (opp_file s n v) (tmpl_file s n)
                (flag flags F_DRYRUN) (files s) (files s'))
     (λ _ s', files s' = files s) s.
Proof.
  intros Hn Hv. unfold network_default, req_file, opp_file, tmpl_file in *.
  cbn [net_name default_val].
  destruct Hv as [-> | ->]; simpl in *; conf_steps; file_facts;
    try (apply default_skip; by auto); try (apply default_dry; by auto);
    (apply wp_net_copy; [by file_facts|]; intros t Ht Hreq; file_facts;
     apply default_copy; by auto).
Qed.

End Network.

(** ** The claims on networks *)
Section NetworkClaims.
Context {H : Host}.

Definition ensure_cmd (n v : string) : CNetworkCommand :=
  {| net_name := n; net_action := "ensure"; default_val := v |}.

(** [network <n> ensure on|off] is this machine; when it throws, no file has
    changed. *)
Lemma network_ensure_coded n v flags s :
  n ≠ "cellframe-node" → v = "on" ∨ v = "off" →
  match execute_network (ensure_cmd n v) flags s with
  | Value b s' => ensure_step (req_file s n v) (opp_file s n v) (tmpl_file s n)
                    (v =s? "off") (flag flags F_DRYRUN) (files s) b (files s')
  | Thrown _ s' => files s' = files s
  | Ub | Beyond => True
  end.
Proof.
  intros Hn Hv. pose proof (network_ensure_wp n v flags s Hn Hv) as Hw. unfold wp in Hw.
  change (execute_network (ensure_cmd n v) flags s) with
    (network_ensure {| net_name := n; net_action := "ensure"; default_val := v |} flags s).
  destruct (network_ensure _ _ _); [apply Hw|done..].
Qed.

(** What the state machine reaches. *)
Lemma ensure_step_reaches req opp tmpl strict f b f' :
  req ≠ opp → ensure_step req opp tmpl strict false f b f' →
  is_Some (f' !! req) ∧
  (strict = true ∨ f !! req = None → f' !! opp = None) ∧
  (∀ p, p ≠ req → p ≠ opp → f' !! p = f !! p).
Proof.
  intros Hne Hs. destruct Hs as [Hr Ho|Hd _|t _ Ho Hr|t _ Ho Hr Ht]; [| done | |].
  - split; [done|]. split; [|done]. intros [Hst|Hn]; [auto|]. rewrite Hn in Hr. by destruct Hr.
  - split; [rewrite lookup_insert_eq; eauto|]. split.
    + intros _. by rewrite lookup_insert_ne, lookup_delete_eq.
    + intros p Hp Hp'. by rewrite lookup_insert_ne, lookup_delete_ne.
  - split; [rewrite lookup_insert_eq; eauto|]. split.
    + intros _. by rewrite lookup_insert_ne.
    + intros p Hp Hp'. by rewrite lookup_insert_ne.
Qed.

Lemma ensure_step_again req opp tmpl strict f b f' :
  req ≠ opp → ensure_step req opp tmpl strict false f b f' →
  ∀ b' f'', ensure_step req opp tmpl strict false f' b' f'' → b' = false ∧ f'' = f'.
Proof.
  intros Hne Hs b' f'' Hs'. destruct (ensure_step_reaches _ _ _ _ _ _ _ Hne Hs) as (Hr & Ho & _).
  destruct Hs' as [| |t _ Ht Hst|t _ _ Hn _]; [done|done| |rewrite Hn in Hr; by destruct Hr].
  destruct Hst as [Hst|Hn]; [|rewrite Hn in Hr; by destruct Hr].
  rewrite Ho in Ht by auto. done.
Qed.

(** C29 (network_ensure_reaches): after [network <n> ensure on|off] returned, the
    file of the requested state exists; the file of the other state does not, if
    the request was to disable or the requested file did not exist before; no
    other file has changed. *)
Theorem network_ensure_reaches n v flags s b s' :
  n ≠ "cellframe-node" → v = "on" ∨ v = "off" → flag flags F_DRYRUN = false →
  execute_network (ensure_cmd n v) flags s = Value b s' →
  is_Some (files s' !! req_file s n v) ∧
  (v = "off" ∨ files s !! req_file s n v = None → files s' !! opp_file s n v = None) ∧
  (∀ p, p ≠ req_file s n v → p ≠ opp_file s n v → files s' !! p = files s !! p).
Proof.
  intros Hn Hv Hd He. pose proof (network_ensure_wp n v flags s Hn Hv) as Hw.
  destruct (wp_Value _ _ _ _ _ _ Hw He) as [Hs _]. rewrite Hd in Hs.
  destruct (ensure_step_reaches _ _ _ _ _ _ _ (req_opp_ne s n v Hn) Hs) as (? & Ho & ?).
  split; [done|]. split; [|done]. intros [-> |?]; apply Ho; auto.
Qed.

(** A second [network <n> ensure on|off] right
    after the first one changes no file and reports that there was nothing to
    do. *)
Theorem network_ensure_idempotent n v flags s b s' b' s'' :
  n ≠ "cellframe-node" → v = "on" ∨ v = "off" → flag flags F_DRYRUN = false →
  execute_network (ensure_cmd n v) flags s = Value b s' →
  execute_network (ensure_cmd n v) flags s' = Value b' s'' →
  b' = false ∧ files s'' = files s'.
Proof.
  intros Hn Hv Hd He He'.
  destruct (wp_Value _ _ _ _ _ _ (network_ensure_wp n v flags s Hn Hv) He) as [Hs Hroot].
  destruct (wp_Value _ _ _ _ _ _ (network_ensure_wp n v flags s' Hn Hv) He') as [Hs' _].
  rewrite Hd in Hs, Hs'.
  unfold req_file, opp_file, tmpl_file in Hs'. rewrite Hroot in Hs'.
  exact (ensure_step_again _ _ _ _ _ _ _ (req_opp_ne s n v Hn) Hs _ _ Hs').
Qed.

End NetworkClaims.

Lemma network_ensure_reaches_witness :
  ∃ b s', execute_network (H:=demo_host) (ensure_cmd "Net" "off") 0 demo_state = Value b s' ∧
    is_Some (files s' !! req_file demo_state "Net" "off") ∧
    files s' !! opp_file demo_state "Net" "off" = None.
Proof.
  destruct (returns_inv (execute_network (H:=demo_host) (ensure_cmd "Net" "off") 0 demo_state))
    as (b & s' & He); [vm_compute; reflexivity|].
  exists b, s'. split; [exact He|].
  destruct (network_ensure_reaches (H:=demo_host) "Net" "off" 0 demo_state b s') as (Hr & Ho & _).
  - discriminate.
  - right; reflexivity.
  - reflexivity.
  - exact He.
  - split; [exact Hr|]. apply Ho. left; reflexivity.
Defined.

Lemma network_ensure_idempotent_witness :
  ∃ b s' b' s'',
    execute_network (H:=demo_host) (ensure_cmd "Net" "off") 0 demo_state = Value b s' ∧
    execute_network (H:=demo_host) (ensure_cmd "Net" "off") 0 s' = Value b' s'' ∧
    b' = false ∧ files s'' = files s'.
Proof.
  destruct (returns_bind (execute_network (H:=demo_host) (ensure_cmd "Net" "off") 0)
              (λ _, execute_network (H:=demo_host) (ensure_cmd "Net" "off") 0) demo_state)
    as (b & s' & b' & s'' & He & He'); [vm_compute; reflexivity|].
  exists b, s', b', s''. split; [exact He|]. split; [exact He'|].
  refine (network_ensure_idempotent (H:=demo_host) "Net" "off" 0 demo_state b s' b' s'' _ _ _ He He').
  - discriminate.
  - right; reflexivity.
  - reflexivity.
Defined.

(** ** net_list *)
Lemma str_drop_length n s : String.length (str_drop n s) = (String.length s - n)%nat.
Proof. revert s; induction n as [|n IH]; intros [|c s]; simpl; auto. Qed.

Lemma str_drop_all s : str_drop (String.length s) s = "".
Proof. by induction s. Qed.

Lemma str_prefix_length m s : String.prefix m s = true → (String.length m ≤ String.length s)%nat.
Proof. intros (t & ->)%str_prefix_split. rewrite string_length_app. lia. Qed.

Lemma strfind_length m s n :
  strfind m s = Some n → (n + String.length m ≤ String.length s)%nat.
Proof.
  revert n; induction s as [|c s IH]; intros n; cbn [strfind];
    (destruct (String.prefix _ _) eqn:Hp; [intros [= <-]; by apply str_prefix_length in Hp|]); [done|].
  intros (k & Hk & ->)%fmap_Some. apply IH in Hk. simpl. lia.
Qed.

Lemma strfind_from_length pos m s n :
  m ≠ "" → strfind_from pos m s = Some n → (n + String.length m ≤ String.length s)%nat.
Proof.
  intros Hm. unfold strfind_from. intros (k & Hk & ->)%fmap_Some. apply strfind_length in Hk.
  rewrite str_drop_length in Hk. destruct m; [done|]. simpl in *. lia.
Qed.

(** C38 (removeSubstring_terminates): the loop that removes every occurrence of a
    non-empty text ends within as many turns as the string has bytes, plus the
    failing search; the string never grows. *)
Theorem removeSubstring_terminates fuel pos str tuRemove :
  tuRemove ≠ "" → (String.length str < fuel)%nat →
  ∃ r, removeSubstring fuel pos str tuRemove = Some r ∧ (String.length r ≤ String.length str)%nat.
Proof.
  intros Hm. revert pos str; induction fuel as [|fuel IH]; intros pos str Hf; [lia|].
  cbn [removeSubstring]. destruct (strfind_from pos tuRemove str) as [q|] eqn:Hq; [|by exists str].
  apply strfind_from_length in Hq; [|done].
  assert (Hl : (String.length (erase q (String.length tuRemove) str) < String.length str)%nat).
  { unfold erase. rewrite string_length_app, substring_length, str_drop_length.
    destruct tuRemove; [done|]. simpl in *. lia. }
  destruct (IH q (erase q (String.length tuRemove) str)) as (r & Hr & Hle); [lia|].
  exists r. split; [done|]. lia.
Qed.

Lemma removeSubstring_terminates_witness :
  ∃ r, removeSubstring 8 0 "Net.cfg" ".cfg" = Some r ∧ (String.length r ≤ 7)%nat.
Proof. apply (removeSubstring_terminates 8 0 "Net.cfg" ".cfg"); [discriminate|simpl; lia]. Defined.

Lemma without_suffix n m :
  lacks "." n = true → String.prefix "." m = true → without m (n +:+ m) = n.
Proof.
  intros Hn Hm. apply str_prefix_split in Hm as (m' & ->). change ("." +:+ m') with (String "." m').
  unfold without. cbn [removeSubstring]. unfold strfind_from at 1. cbn [str_drop].
  rewrite strfind_app_lacks by done. cbn [strfind].
  assert (Hp : ∀ s, String.prefix s s = true) by (intros s; rewrite <- (string_app_nil_r s) at 2; apply str_prefix_app).
  rewrite Hp. cbn [fmap option_fmap option_map]. rewrite Nat.add_0_r, Nat.add_0_l.
  replace (erase (String.length n) (String.length (String "." m')) (n +:+ String "." m')) with n.
  2: { unfold erase. rewrite substring_app, <- string_length_app.
       by rewrite str_drop_all, string_app_nil_r. }
  rewrite string_length_app. cbn [String.length]. rewrite Nat.add_succ_r. cbn [removeSubstring].
  unfold strfind_from. by rewrite str_drop_all.
Qed.

Lemma contains_app_lacks n c m t :
  lacks c n = true → contains (String c m) (n +:+ t) = contains (String c m) t.
Proof. intros Hn. unfold contains. rewrite strfind_app_lacks by done. by destruct (strfind _ t). Qed.

(** [net_list] reports the network of a file [<n>.cfg] as
    on and of a file [<n>.cfg.dis] as off, under its name, to those who asked for
    that state or for all. *)
Theorem net_list_states n st_ :
  lacks "." n = true →
  network_info st_ (n +:+ ".cfg") =
    (if st_ is OFF then None else Some {| networkName := n; state := "on" |}) ∧
  network_info st_ (n +:+ ".cfg.dis") =
    (if st_ is ON then None else Some {| networkName := n; state := "off" |}).
Proof.
  intros Hn. unfold network_info. rewrite !contains_app_lacks by done.
  change (contains ".dis" ".cfg") with false. change (contains ".cfg" ".cfg") with true.
  change (contains ".dis" ".cfg.dis") with true. change (contains ".cfg" ".cfg.dis") with true.
  change (".cfg" +:+ ".dis") with ".cfg.dis".
  rewrite (without_suffix n ".cfg"), (without_suffix n ".cfg.dis") by done. by destruct st_.
Qed.

Lemma net_list_states_witness :
  network_info ALL "Backbone.cfg" = Some {| networkName := "Backbone"; state := "on" |}.
Proof. exact (proj1 (net_list_states "Backbone" ALL eq_refl)). Defined.

(** A network whose name holds [.dis] is listed as off although it is enabled. *)
Example net_list_dis_in_name :
  network_info ALL "my.disco.cfg" = Some {| networkName := "my.disco.cfg"; state := "off" |}.
Proof. reflexivity. Qed.
