(* ===== verification/ConfSet.v ===== *)
(** * What the config and fromtemplate commands do to the files

    [config_step] is the abstract effect of a [config] command: nothing, or one
    parameter set in the file of the configuration.  From it follow that [ensure]
    sets the parameter and nothing else, and that [default] keeps a value the user
    chose. *)
From S2P Require Export ConfNet.

(** ** Rules for the operations of configuration files *)
Definition stays {A} (m : M A) : Prop := ∀ s, (∃ a, m s = Value a s) ∨ m s = Beyond.

Lemma stays_ret {A} (a : A) : stays (mret a).
Proof. intros s. left. by exists a. Qed.

Lemma stays_bind {A B} (m : M A) (k : A → M B) : stays m → (∀ a, stays (k a)) → stays (m ≫= k).
Proof.
  intros Hm Hk s. unfold mbind, M_bind. destruct (Hm s) as [[a ->]| ->]; [|by right]. apply Hk.
Qed.

(** Code whose result does not depend on the state either. *)
Definition settled {A} (m : M A) : Prop :=
  ∃ r : option A, ∀ s, m s = match r with Some a => Value a s | None => Beyond end.

Lemma settled_ret {A} (a : A) : settled (mret a).
Proof. by exists (Some a). Qed.

Lemma settled_bind {A B} (m : M A) (k : A → M B) :
  settled m → (∀ a, settled (k a)) → settled (m ≫= k).
Proof.
  intros [[a|] Hm] Hk; unfold mbind, M_bind.
  - destruct (Hk a) as [r Hr]. exists r. intros s. by rewrite Hm.
  - exists None. intros s. by rewrite Hm.
Qed.

Lemma settled_stays {A} (m : M A) : settled m → stays m.
Proof. intros [[a|] Hm] s; rewrite Hm; [left; by exists a|by right]. Qed.

Lemma settled_regex_replace s re fmt : settled (regex_replace s re fmt).
Proof.
  unfold regex_replace. destruct (regex_literal re) as [[|c m]|]; try (by exists None).
  apply settled_ret.
Qed.

Lemma settled_replace_each input args l : settled (replace_each input args l).
Proof.
  revert input; induction l as [|[k ph] l IH]; intros input; [apply settled_ret|].
  cbn [replace_each]. apply settled_bind; [|intros; apply IH].
  unfold replaceEachPh. apply settled_bind.
  - apply settled_bind; intros; apply settled_regex_replace.
  - intros re. destruct (resolve _ _); [apply settled_regex_replace|apply settled_ret].
Qed.

Lemma stays_substitute t : stays (substitute_variables t).
Proof.
  intros s.
  apply (settled_stays _ (settled_replace_each t ∅ (map_items (placeholders_of (variable_storage s))))).
Qed.

(** What is substituted depends on the variables only. *)
Lemma substitute_same_vars t s s' r :
  variable_storage s' = variable_storage s →
  substitute_variables t s = Value r s → substitute_variables t s' = Value r s'.
Proof.
  intros Hv.
  destruct (settled_replace_each t ∅ (map_items (placeholders_of (variable_storage s)))) as [a Hr].
  assert (Hs : ∀ u, variable_storage u = variable_storage s →
    substitute_variables t u = match a with Some r => Value r u | None => Beyond end).
  { intros u Hu. rewrite <- (Hr u), <- Hu. done. }
  rewrite !Hs by done. destruct a; [|done]. by intros [= <-].
Qed.

(** Substitution changes no state. *)
Lemma wp_substitute t (Q : string → st → Prop) X s :
  (∀ r, substitute_variables t s = Value r s → Q r s) → wp (substitute_variables t) Q X s.
Proof.
  intros HQ. unfold wp.
  destruct (stays_substitute t s) as [[r Hr]|Hr]; rewrite Hr; auto.
Qed.

Lemma set_result cfg g p v : ∃ r, only_prints (set_ cfg g p v) r.
Proof.
  pose proof (set_err cfg g p v) as He.
  destruct (scan g p false 0 (kinds (lines cfg))) as [r|e| |] eqn:Hr; eauto.
  - eexists. by apply set_only_prints.
  - exists Unmodelled. unfold set_. eapply only_prints_bind; [apply only_prints_verbose|].
    intros s. destruct (exists_scan cfg g p s) as [c Hc]. rewrite Hr in Hc. exists c.
    unfold mbind, M_bind. by rewrite Hc.
Qed.

Lemma wp_set cfg g p v (Q : string * CellframeConfigurationFile → st → Prop) (X : exn → st → Prop) s :
  (∀ l cfg' c, set_ cfg g p v s = Value (l, cfg') (set_console c s) →
               Q (l, cfg') (set_console c s)) →
  (∀ e c, X e (set_console c s)) → wp (set_ cfg g p v) Q X s.
Proof.
  intros HQ HX. destruct (set_result cfg g p v) as [r Hr]. unfold wp.
  destruct (Hr s) as [c Hc]. rewrite Hc. destruct r as [[l cfg']|e| |]; simpl in *; auto.
Qed.

Lemma wp_exists cfg g p (Q : found_at → st → Prop) (X : exn → st → Prop) s :
  (∀ r c, scan g p false 0 (kinds (lines cfg)) = Ok r → Q r (set_console c s)) →
  (∀ e c, X e (set_console c s)) → wp (exists_ cfg g p) Q X s.
Proof.
  intros HQ HX. eapply wp_only_prints; [apply exists_scan|]. intros c.
  destruct (scan _ _ _ _ _) eqn:Hr; auto.
Qed.

Definition lines_at (f : gmap string fnode) (p : string) : list string :=
  match node_at f p with Some (FFile t) => getlines t | _ => [] end.

Lemma wp_open_cfg p flags (Q : CellframeConfigurationFile → st → Prop) (X : exn → st → Prop) s :
  (∀ e, X e s) →
  (∀ c, present (files s) p = true → Q (Cfg p (lines_at (files s) p) flags) (set_console c s)) →
  wp (open_cfg p flags) Q X s.
Proof.
  intros HX HQ. unfold open_cfg. apply wp_bind, wp_fs_exists.
  destruct (present (files s) p) eqn:Hp; simpl; [|apply wp_throw, HX].
  apply wp_bind. change (read_lines p s) with (Value (lines_at (files s) p) s).
  apply wp_bind, wp_verbose. intros c. apply wp_ret. auto.
Qed.

Section Save.
Context {H : Host}.

(** Saving writes the lines, or drops them when the file may not be written. *)
Lemma wp_save cfg (Q : bool → st → Prop) (X : exn → st → Prop) s :
  ends_in_slash (path cfg) = false →
  (∀ c, flag (cfg_flags cfg) F_DRYRUN = true ∨ may_write (path cfg) = false
        ∨ files s !! path cfg = Some FDir → Q true (set_console c s)) →
  (∀ c, flag (cfg_flags cfg) F_DRYRUN = false → may_write (path cfg) = true →
        files s !! path cfg ≠ Some FDir →
        Q true (set_files (<[path cfg := FFile (putlines (lines cfg))]> (files s)) (set_console c s))) →
  wp (save cfg) Q X s.
Proof.
  intros Hp Hno Hyes. unfold save. apply wp_bind, wp_verbose. intros c.
  destruct (flag (cfg_flags cfg) F_DRYRUN) eqn:Hd.
  - apply wp_bind, wp_say. intros c'. apply wp_ret. change (set_console c' (set_console c s)) with (set_console c' s). auto.
  - apply wp_bind. unfold wp at 1, write_file. rewrite Hp, andb_true_r.
    unfold node_at. rewrite Hp. simpl.
    destruct (files s !! path cfg) as [[|t]|] eqn:Hf; [apply wp_ret; auto| |];
      (destruct (may_write (path cfg)) eqn:Hm; simpl; [apply wp_ret; auto|apply wp_ret; auto]).
Qed.

End Save.

(** ** The config command *)
Definition target_file (s : st) (n : string) : string :=
  let on := config_file (root_of s) n CFG_GENERAL CFG_ON in
  let off := config_file (root_of s) n CFG_GENERAL CFG_OFF in
  if n =s? "cellframe-node" then on
  else if present (files s) on then on else if present (files s) off then off else on.

Lemma target_file_no_slash s n : ends_in_slash (target_file s n) = false.
Proof.
  unfold target_file. repeat case_match; apply config_file_no_slash.
Qed.

(** A parameter [default] may set: absent, empty or a placeholder. *)
Definition settable (r : result (option string)) : bool :=
  match r with
  | Ok None => true
  | Ok (Some v) => is_placeholder v
  | _ => false
  end.

(** Why a command that returned changed no file. *)
Definition idle {H : Host} (cmd : CConfigCommand) (flags : Z) (s : st) : Prop :=
  cfg_action cmd = "get" ∨ flag flags F_DRYRUN = true
  ∨ may_write (target_file s (cfg_name cmd)) = false
  ∨ files s !! target_file s (cfg_name cmd) = Some FDir
  ∨ (cfg_action cmd = "default" ∧ ∃ t,
       files s !! target_file s (cfg_name cmd) = Some (FFile t) ∧
       settable (text_value (cfg_group cmd) (cfg_param cmd) t) = false).

Inductive config_step {H : Host} (cmd : CConfigCommand) (flags : Z) (s : st) :
    gmap string fnode → Prop :=
  | config_same : idle cmd flags s → config_step cmd flags s (files s)
  | config_set val t cfg cfg' l s1 s2 :
      substitute_variables (cfg_value cmd) s = Value val s →
      files s !! target_file s (cfg_name cmd) = Some (FFile t) →
      lines cfg = getlines t →
      set_ cfg (cfg_group cmd) (cfg_param cmd) val s1 = Value (l, cfg') s2 →
      flag flags F_DRYRUN = false →
      may_write (target_file s (cfg_name cmd)) = true →
      cfg_action cmd ≠ "get" →
      (cfg_action cmd = "default" →
       settable (text_value (cfg_group cmd) (cfg_param cmd) t) = true) →
      config_step cmd flags s
        (<[target_file s (cfg_name cmd) := FFile (putlines (lines cfg'))]> (files s)).

Section ConfigProofs.
Context {H : Host}.

Lemma wp_config_target n (Q : string → st → Prop) X s :
  (∀ c, Q (target_file s n) (set_console c (touch CONFIGS s))) → wp (config_target n) Q X s.
Proof.
  intros HQ. unfold config_target. conf_steps; unfold target_file in HQ; autorewrite with conf in *.
  - apply negb_true_iff in E. rewrite E in HQ.
    destruct (present (files s) (config_file (root_of s) n CFG_GENERAL CFG_ON));
      destruct (present (files s) (config_file (root_of s) n CFG_GENERAL CFG_OFF)); simpl in *; try done;
      conf_steps; apply HQ.
  - apply negb_true_iff in E. rewrite E in HQ.
    destruct (present (files s) (config_file (root_of s) n CFG_GENERAL CFG_ON));
      destruct (present (files s) (config_file (root_of s) n CFG_GENERAL CFG_OFF)); simpl in *; try done;
      rewrite <- (set_console_id (touch CONFIGS s)); apply HQ.
  - apply negb_false_iff in E. rewrite E in HQ.
    rewrite <- (set_console_id (touch CONFIGS s)). apply HQ.
Qed.

(** The variables a command of files leaves: at most the root was inserted. *)
Definition same_vars (s s' : st) : Prop :=
  variable_storage s' = variable_storage (touch CONFIGS s).

(** What the action of a [config] command returns. *)
Definition acted (cmd : CConfigCommand) (val : string) (cfg : CellframeConfigurationFile)
    (r : bool * CellframeConfigurationFile) : Prop :=
  (r = (false, cfg) ∧
   (cfg_action cmd = "get" ∨ cfg_action cmd = "default" ∧
      settable (read (cfg_group cmd) (cfg_param cmd) false (kinds (lines cfg))) = false)) ∨
  ∃ l cfg' s1 s2, r = (true, cfg') ∧
    set_ cfg (cfg_group cmd) (cfg_param cmd) val s1 = Value (l, cfg') s2 ∧
    cfg_action cmd ≠ "get" ∧
    (cfg_action cmd = "default" →
     settable (read (cfg_group cmd) (cfg_param cmd) false (kinds (lines cfg))) = true).

Lemma config_action_wp cmd val cfg s :
  wp (if cfg_action cmd =s? "default" then config_default cmd val cfg
      else if cfg_action cmd =s? "ensure" then config_ensure cmd val cfg
      else if cfg_action cmd =s? "get" then config_get cmd cfg
      else throw bad_function_call)
     (λ r s', (∃ c, s' = set_console c s) ∧ acted cmd val cfg r)
     (λ _ s', ∃ c, s' = set_console c s) s.
Proof.
  assert (Hid : ∃ c, s = set_console c s) by (exists (console s); by rewrite set_console_id).
  destruct (cfg_action cmd =s? "default") eqn:Ed; [|destruct (cfg_action cmd =s? "ensure") eqn:Ee;
    [|destruct (cfg_action cmd =s? "get") eqn:Eg; [|apply wp_throw; eauto]]].
  - unfold config_default. apply wp_bind, wp_exists; [|eauto]. intros r c Hr. cbv beta zeta.
    destruct (param_exists r && _) eqn:Hs; conf_steps.
    + split; [eauto|]. left. split; [done|]. right. apply String.eqb_eq in Ed. split; [done|].
      rewrite <- (scan_read _ _ _ 0%nat), Hr. simpl. apply andb_prop in Hs as [Hp Hs].
      rewrite (scan_found _ _ _ _ _ _ Hr) in Hp. destruct (value r); [|done].
      by apply negb_true_iff in Hs.
    + apply wp_set; [|eauto]. intros l cfg' c' Hset. simpl. conf_steps. split; [eauto|]. right.
      exists l, cfg', (set_console c0 s), (set_console c' s).
      split; [done|]. split; [done|]. split; [apply String.eqb_eq in Ed; congruence|]. intros _.
      rewrite <- (scan_read _ _ _ 0%nat), Hr. simpl.
      rewrite (scan_found _ _ _ _ _ _ Hr) in Hs. destruct (value r); simpl in *; [|done].
      by destruct (is_placeholder _).
  - apply String.eqb_neq in Ed. unfold config_ensure. conf_steps.
    apply wp_set; [|eauto]. intros l cfg' c' Hset. simpl. conf_steps. split; [eauto|]. right.
    exists l, cfg', (set_console c s), (set_console c' s).
    split; [done|]. split; [done|]. split; [apply String.eqb_eq in Ee; congruence|done].
  - unfold config_get. apply wp_bind, wp_exists; [|eauto]. intros r c' Hr. conf_steps.
    split; [eauto|]. left. split; [done|]. left. by apply String.eqb_eq.
Qed.

Lemma execute_config_wp cmd flags s :
  wp (execute_config cmd flags)
     (λ _ s', config_step cmd flags s (files s') ∧ same_vars s s')
     (λ _ s', files s' = files s ∧ same_vars s s') s.
Proof.
  unfold execute_config. apply wp_bind, wp_substitute. intros val Hval.
  apply wp_bind, wp_config_target. intros c1. apply wp_bind, wp_open_cfg; [|intros c2 Hp].
  { intros e. simpl. by autorewrite with conf. }
  simpl in Hp. autorewrite with conf in *. simpl.
  set (cfg := Cfg _ _ _). apply wp_bind.
  eapply wp_mono; [apply config_action_wp| |].
  2: { intros e s' [c ->]. simpl. by autorewrite with conf. }
  intros r s' [[c ->] Hr].
  pose proof (target_file_no_slash s (cfg_name cmd)) as Hslash.
  unfold present, node_at in Hp. rewrite Hslash in Hp.
  assert (Hl : ∀ t, files s !! target_file s (cfg_name cmd) = Some (FFile t) → lines cfg = getlines t).
  { intros t Hf. unfold cfg, lines_at, node_at. by rewrite Hslash, Hf. }
  destruct Hr as [[-> Hwhy]|(l & cfg' & s1 & s2 & -> & Hset & Hget & Hdef)].
  { conf_steps; [done|]. split; [|done]. simpl. autorewrite with conf. apply config_same; unfold idle.
    destruct Hwhy as [Hg|[Hd Hs]]; [by left|].
    destruct (files s !! target_file s (cfg_name cmd)) as [[|t]|] eqn:Hf; [by auto 6| |done].
    do 4 right. split; [done|]. exists t. unfold text_value. by rewrite <- (Hl t). }
  pose proof (set_inv _ _ _ _ _ _ _ _ Hset) as (fnd & _ & _ & Hcfg').
  assert (Hpath : path cfg' = target_file s (cfg_name cmd)) by (by rewrite Hcfg').
  assert (Hflags : cfg_flags cfg' = flags) by (by rewrite Hcfg').
  conf_steps; [|done]. cbn [snd]. apply wp_save; rewrite ?Hpath, ?Hflags; [done| |].
  - simpl. autorewrite with conf. intros c' Hwhy. conf_steps. split; [|done]. apply config_same; unfold idle.
    destruct Hwhy as [?|[?|?]]; auto 6.
  - simpl. autorewrite with conf. intros c' Hdry Hmay Hdir. conf_steps. split; [|done]. simpl.
    destruct (files s !! target_file s (cfg_name cmd)) as [[|t]|] eqn:Hf; [done| |done].
    apply (config_set cmd flags s val t cfg cfg' l s1 s2); auto.
    unfold text_value. by rewrite <- (Hl t).
Qed.

End ConfigProofs.

(** ** The claim on ensure *)
Section Ensure.
Context {H : Host}.

(** C13 (config_ensure_sets): outside a dry run, when
    [config <name> <group> <param> ensure <value>] returns, its file (the enabled
    one if there are two) exists and may be written, group and parameter have
    writable names and the value, its variables substituted, has no newline, then
    the file reads for the parameter the part of that value that is read back (up
    to an equal sign or a comment, without trailing blanks), every other parameter
    of the file reads as before, and no other file has changed. *)
Theorem config_ensure_sets cmd flags s b s' val t :
  cfg_action cmd = "ensure" →
  clean_group (cfg_group cmd) = true → clean_param (cfg_param cmd) = true →
  substitute_variables (cfg_value cmd) s = Value val s → lacks "010" val = true →
  flag flags F_DRYRUN = false → may_write (target_file s (cfg_name cmd)) = true →
  files s !! target_file s (cfg_name cmd) = Some (FFile t) →
  execute_config cmd flags s = Value b s' →
  ∃ t', files s' = <[target_file s (cfg_name cmd) := FFile t']> (files s) ∧
    ∀ g p, text_value g p t' =
      if bool_decide ((g, p) = (cfg_group cmd, cfg_param cmd)) then Ok (Some (read_back val))
      else text_value g p t.
Proof.
  intros Ha Hg Hp Hval Hnl Hd Hm Ht He.
  destruct (wp_Value _ _ _ _ _ _ (execute_config_wp cmd flags s) He) as [Hstep _].
  destruct Hstep as [Hwhy|val' u cfg cfg' l s1 s2 Hval' Hu Hl Hs _ _ _ _].
  - destruct Hwhy as [?|[?|[?|[?|[? _]]]]]; congruence.
  - rewrite Hval in Hval'. injection Hval' as <-. rewrite Ht in Hu. injection Hu as <-.
    eexists. split; [done|]. intros g p. by eapply set_saved_text.
Qed.

End Ensure.

Definition demo_config (action value_ : string) : CConfigCommand :=
  {| cfg_name := "Net"; cfg_group := "general"; cfg_param := "node-role"; cfg_value := value_;
     cfg_action := action |}.

Lemma config_ensure_sets_witness :
  ∃ b s' t', execute_config (H:=demo_host) (demo_config "ensure" "full") 0 demo_state = Value b s' ∧
    files s' = <["/opt/etc/network/Net.cfg" := FFile t']> (files demo_state) ∧
    text_value "general" "node-role" t' = Ok (Some "full").
Proof.
  destruct (returns_inv (execute_config (H:=demo_host) (demo_config "ensure" "full") 0 demo_state))
    as (b & s' & He); [vm_compute; reflexivity|].
  destruct (config_ensure_sets (H:=demo_host) (demo_config "ensure" "full") 0 demo_state b s' "full"
              ("[general]" +:+ NL +:+ "node-role=light" +:+ NL)) as (t' & Hf & Ht);
    try (vm_compute; reflexivity); [exact He|].
  exists b, s', t'. split; [exact He|]. split; [exact Hf|]. exact (Ht "general" "node-role").
Defined.

(** A file that may not be written is left as it is, and the command still
    reports success. *)
Example config_silent_failure :
  let H := {| os := LINUX; gethostname := None; system := λ _ _, 0%Z;
              shell_execute := λ _ _, ShellStarted; may_write := λ _, false;
              dir_order := λ l, l; registry_opens := λ _, false;
              registry_string := λ _ _, None; processes := [] |} in
  match execute_config (H:=H) (demo_config "ensure" "full") 0 demo_state with
  | Value b s' => b && bool_decide (files s' !! "/opt/etc/network/Net.cfg"
                                    = Some (FFile ("[general]" +:+ NL +:+ "node-role=light" +:+ NL)))
  | _ => false
  end = true.
Proof. vm_compute. reflexivity. Qed.
