(* ===== verification/ConfIdem.v ===== *)
(** * Configuring twice

    Installers run the setup scripts again at every upgrade.  A [config] command
    whose first run returned changes no file when it is run again: the line it
    wrote is the line the second run finds and writes. *)
From S2P Require Export ConfSet.

(** ** Files written and read again *)
Lemma putlines_app ls ks : putlines (ls ++ ks) = putlines ls +:+ putlines ks.
Proof.
  induction ls as [|l ls IH]; [done|].
  change (putlines ((l :: ls) ++ ks)) with (l +:+ NL +:+ putlines (ls ++ ks)).
  rewrite IH. change (putlines (l :: ls)) with (l +:+ NL +:+ putlines ls).
  by rewrite <- !string_app_assoc.
Qed.

Lemma putlines_push c ls : ls ≠ [] → putlines (push c ls) = String c (putlines ls).
Proof. by destruct ls. Qed.

Lemma putlines_getlines s : putlines (getlines (s +:+ NL)) = s +:+ NL.
Proof.
  induction s as [|c s IH]; [done|]. rewrite string_app_cons. cbn [getlines].
  destruct (c =? "010")%char eqn:Hc.
  - apply Ascii.eqb_eq in Hc as ->. rewrite <- IH at 2. done.
  - by rewrite putlines_push, IH by apply getlines_ne.
Qed.

Definition reread (ls : list string) : list string := getlines (putlines ls).

Lemma putlines_reread ls : putlines (reread ls) = putlines ls.
Proof.
  unfold reread. rewrite getlines_putlines. induction ls as [|l ls IH]; [done|]. csimpl.
  rewrite putlines_app, IH, putlines_getlines. by rewrite <- string_app_assoc.
Qed.

Lemma reread_cons l ls : lacks "010" l = true → reread (l :: ls) = l :: reread ls.
Proof.
  intros Hl. unfold reread. change (putlines (l :: ls)) with (l +:+ NL +:+ putlines ls).
  by rewrite getlines_app_NL, getlines_line.
Qed.

(** ** The second lookup finds the line the first [set_] wrote *)
Section Twice.
Context (g p v : string).
Hypothesis Hg : clean_group g = true.
Hypothesis Hp : clean_param p = true.
Hypothesis Hv : lacks "010" v = true.

Definition found_here (found : bool) (i : nat) (ls : list string) : Prop :=
  ∃ j, ls !! j = Some (p +:+ "=" +:+ v) ∧
       scan g p found i (kinds ls) = Ok (Found true (Some (read_back v)) (i + j) true).

Lemma found_here_new i ls : found_here true i ((p +:+ "=" +:+ v) :: ls).
Proof.
  exists 0%nat. split; [done|]. csimpl. rewrite kind_param by done. simpl.
  by rewrite String.eqb_refl, Nat.add_0_r.
Qed.

Lemma found_here_cons b b' i l ls :
  (∀ ks, scan g p b i (kind_of l :: ks) = scan g p b' (S i) ks) →
  found_here b' (S i) ls → found_here b i (l :: ls).
Proof.
  intros Hl (j & Hj & Hs). exists (S j). split; [done|].
  change (kinds (l :: ls)) with (kind_of l :: kinds ls).
  by rewrite Hl, Hs, Nat.add_succ_r.
Qed.

Lemma lacks_pair : lacks "010" (p +:+ "=" +:+ v) = true.
Proof.
  unfold clean_param in Hp. split_bools.
  assert (Hn : lacks "010" p = true) by (by apply nospaces_NL, (clean_spec p)).
  unfold lacks in *. rewrite !str_all_app. by rewrite Hn, Hv.
Qed.

Lemma lacks_decl : lacks "010" ("[" +:+ g +:+ "]") = true.
Proof.
  unfold clean_group in Hg. split_bools.
  assert (Hn : lacks "010" g = true) by (by apply nospaces_NL, (clean_spec g)).
  unfold lacks in *. rewrite !str_all_app. by rewrite Hn.
Qed.

Lemma set_lines_found ls found i r :
  Forall (λ l, lacks "010" l = true) ls → scan g p found i (kinds ls) = Ok r →
  found_here found i (reread (set_lines r (line_no r - i) g p v ls)).
Proof.
  intros Hls. revert found i; induction Hls as [|l ls Hl Hls IH]; intros found i Hr; csimpl in *.
  { injection Hr as <-. simpl. rewrite Nat.sub_diag. unfold set_lines, insert_at. simpl.
    destruct found; simpl.
    - rewrite reread_cons by apply lacks_pair. apply found_here_new.
    - rewrite reread_cons by apply lacks_decl. rewrite reread_cons by apply lacks_pair.
      eapply found_here_cons; [|apply found_here_new]. intros ks.
      rewrite kind_group by done. simpl. by rewrite String.eqb_refl. }
  assert (IH' : ∀ b, (∀ ks, scan g p found i (kind_of l :: ks) = scan g p b (S i) ks) →
    scan g p b (S i) (kinds ls) = Ok r →
    found_here found i (reread (set_lines r (line_no r - i) g p v (l :: ls)))).
  { intros b Hb Hs. pose proof (scan_line_no _ _ _ _ _ _ Hs).
    replace (line_no r - i)%nat with (S (line_no r - S i))%nat by lia.
    rewrite set_lines_cons, reread_cons by done. eapply found_here_cons; eauto. }
  destruct (kind_of l) as [|g'|p' w| |] eqn:Hk; simpl in *; eauto; try done.
  - destruct found; [|eauto]. injection Hr as <-. simpl. rewrite Nat.sub_diag.
    unfold set_lines, insert_at. simpl. rewrite reread_cons by apply lacks_pair. apply found_here_new.
  - destruct (found && (p' =s? p)) eqn:Hf; [|eauto].
    apply andb_prop in Hf as [-> _]. injection Hr as <-. simpl. rewrite Nat.sub_diag.
    unfold set_lines, insert_at. simpl. rewrite reread_cons by apply lacks_pair. apply found_here_new.
  - destruct found; [done|eauto].
Qed.

Lemma set_twice cfg s l cfg' s' t cfg2 s2 l2 cfg2' s2' :
  lines cfg = getlines t → set_ cfg g p v s = Value (l, cfg') s' →
  lines cfg2 = reread (lines cfg') → set_ cfg2 g p v s2 = Value (l2, cfg2') s2' →
  putlines (lines cfg2') = putlines (lines cfg').
Proof.
  intros Ht (r & Hr & _ & ->)%set_inv Hl2 (r2 & Hr2 & _ & ->)%set_inv. simpl in *.
  destruct (set_lines_found (lines cfg) false 0 r) as (j & Hj & Hs); [|done|].
  { rewrite Ht. apply getlines_lack_NL. }
  rewrite Nat.sub_0_r in *. rewrite Hl2, Hs in Hr2. injection Hr2 as <-. simpl.
  unfold set_lines at 1. simpl. by rewrite Hl2, list_insert_id, putlines_reread.
Qed.

End Twice.

(** ** When a config command returns *)
Definition is_ok {A} (r : result A) : bool := match r with Ok _ => true | _ => false end.

Definition target_lines (s : st) (cmd : CConfigCommand) : list string :=
  lines_at (files s) (target_file s (cfg_name cmd)).

Section Returns.
Context {H : Host}.

Lemma config_target_run n s :
  ∃ c, config_target n s = Value (target_file s n) (set_console c (touch CONFIGS s)).
Proof.
  assert (Hpath : ∀ t k u, config_path n t k u = Value (config_file (root_of u) n t k) (touch CONFIGS u))
    by done.
  assert (Hex : ∀ f u, fs_exists f u = Value (present (files u) f) u) by done.
  unfold config_target, mbind, M_bind. rewrite !Hpath, !Hex.
  autorewrite with conf. unfold target_file.
  destruct (n =s? "cellframe-node"); simpl.
  - exists (console (touch CONFIGS s)). by rewrite set_console_id.
  - destruct (present (files s) (config_file (root_of s) n CFG_GENERAL CFG_ON));
      destruct (present (files s) (config_file (root_of s) n CFG_GENERAL CFG_OFF)); simpl;
      eauto; exists (console (touch CONFIGS s)); by rewrite set_console_id.
Qed.

Lemma open_cfg_run f flags s :
  present (files s) f = true →
  ∃ c, open_cfg f flags s = Value (Cfg f (lines_at (files s) f) flags) (set_console c s).
Proof.
  intros Hf. unfold open_cfg, mbind, M_bind.
  change (fs_exists f s) with (Value (present (files s) f) s). rewrite Hf. simpl.
  change (read_lines f s) with (Value (lines_at (files s) f) s). cbv beta iota.
  unfold verbose, when. destruct (flag flags F_VERBOSE); simpl; eauto.
  exists (console s). by rewrite set_console_id.
Qed.

Lemma save_returns cfg s : returns (save cfg s) = true.
Proof.
  unfold save, mbind, M_bind, verbose, when, say, write_file, put_file.
  destruct (flag (cfg_flags cfg) F_VERBOSE), (flag (cfg_flags cfg) F_DRYRUN); simpl; try done;
    repeat case_match; try done; simplify_eq.
Qed.

Lemma returns_prints {A B} (m : M A) r (k : A → M B) s :
  only_prints m r → (∀ a u, r = Ok a → returns (k a u) = true) →
  returns ((m ≫= k) s) = is_ok r.
Proof.
  intros Hm Hk. destruct (Hm s) as [c Hc]. unfold mbind, M_bind. rewrite Hc.
  destruct r; simpl; auto.
Qed.

Lemma set_prints cfg g p v :
  ∃ r, only_prints (set_ cfg g p v) r ∧ is_ok r = is_ok (scan g p false 0 (kinds (lines cfg))).
Proof.
  pose proof (set_err cfg g p v) as He. destruct (set_result cfg g p v) as [r' Hr'].
  destruct (scan g p false 0 (kinds (lines cfg))) as [r|e| |] eqn:Hr; eauto.
  - eexists. split; [by apply set_only_prints|done].
  - exists r'. split; [done|]. destruct r' as [[l cfg']| | |]; try done.
    destruct (Hr' (St ∅ ∅ [] [])) as [c Hc]. apply set_inv in Hc as (? & Hs & _). congruence.
Qed.

Lemma returns_say {B} text (k : unit → M B) s :
  returns ((say text ≫= k) s) = returns (k tt (set_console (console s ++ [text]) s)).
Proof. done. Qed.

Lemma config_action_returns cmd val cfg s :
  cfg_action cmd ∈ allowed_actions →
  returns ((if cfg_action cmd =s? "default" then config_default cmd val cfg
            else if cfg_action cmd =s? "ensure" then config_ensure cmd val cfg
            else if cfg_action cmd =s? "get" then config_get cmd cfg
            else throw bad_function_call) s) =
  is_ok (scan (cfg_group cmd) (cfg_param cmd) false 0 (kinds (lines cfg))).
Proof.
  intros Ha. destruct (set_prints cfg (cfg_group cmd) (cfg_param cmd) val) as (r & Hr & Hok).
  unfold allowed_actions in Ha. rewrite !elem_of_cons, elem_of_nil in Ha.
  destruct Ha as [-> |[-> |[-> |[]]]]; simpl.
  - unfold config_default. apply returns_prints; [apply exists_scan|]. intros fnd u Hf.
    case_match; [done|]. rewrite returns_say.
    rewrite Hf in Hok. transitivity (is_ok r); [|done]. apply returns_prints; [done|]. by intros [l c].
  - unfold config_ensure. rewrite returns_say, <- Hok. apply returns_prints; [done|]. by intros [l c].
  - unfold config_get. apply returns_prints; [apply exists_scan|done].
Qed.

(** A [config] command returns exactly when its value can be substituted, the file
    of the configuration exists, and the lookup in it returns. *)
Lemma execute_config_returns cmd flags s :
  cfg_action cmd ∈ allowed_actions →
  returns (execute_config cmd flags s) =
    returns (substitute_variables (cfg_value cmd) s)
    && present (files s) (target_file s (cfg_name cmd))
    && is_ok (scan (cfg_group cmd) (cfg_param cmd) false 0 (kinds (target_lines s cmd))).
Proof.
  intros Ha. unfold execute_config, mbind, M_bind at 1.
  destruct (stays_substitute (cfg_value cmd) s) as [[val ->]| ->]; [|done]. cbn [returns andb].
  unfold M_bind at 1. destruct (config_target_run (cfg_name cmd) s) as [c1 ->].
  set (s1 := set_console c1 (touch CONFIGS s)).
  assert (Hf : files s1 = files s) by (unfold s1; simpl; apply touch_files). rewrite <- Hf.
  unfold target_lines. rewrite <- Hf. unfold M_bind at 1.
  destruct (present (files s1) (target_file s (cfg_name cmd))) eqn:Hp; cbn [andb].
  - destruct (open_cfg_run _ flags s1 Hp) as [c2 ->]. set (cfg := Cfg _ _ _).
    change (lines_at (files s1) _) with (lines cfg).
    rewrite <- (config_action_returns cmd val cfg (set_console c2 s1) Ha). unfold M_bind at 1.
    match goal with |- returns (match ?o with _ => _ end) = _ =>
      destruct o as [[[] cfg'] s2| | |]; try done end.
    unfold when, M_bind. simpl. pose proof (save_returns cfg' s2) as Hs.
    by destruct (save cfg' s2).
  - unfold open_cfg, mbind, M_bind.
    change (fs_exists ?f s1) with (Value (present (files s1) f) s1). by rewrite Hp.
Qed.

End Returns.

(** ** The claim *)
Section Idempotent.
Context {H : Host}.

Lemma present_insert f k n q :
  is_Some (f !! k) → ends_in_slash q = false → present (<[k := n]> f) q = present f q.
Proof.
  intros [m Hk] Hq. unfold present, node_at. rewrite Hq.
  destruct (decide (k = q)) as [<-|Hne]; [|by rewrite lookup_insert_ne].
  by rewrite lookup_insert_eq, Hk.
Qed.

Lemma target_file_set s s' n k t :
  variable_storage s' = variable_storage s → is_Some (files s !! k) →
  files s' = <[k := FFile t]> (files s) → target_file s' n = target_file s n.
Proof.
  intros Hv Hk Hf. unfold target_file, root_of. rewrite Hv, Hf.
  by rewrite !present_insert by (done || apply config_file_no_slash).
Qed.

Lemma target_file_same s s' n :
  variable_storage s' = variable_storage s → files s' = files s → target_file s' n = target_file s n.
Proof. intros Hv Hf. unfold target_file, root_of. by rewrite Hv, Hf. Qed.

Lemma idle_again cmd flags s s' f :
  variable_storage s' = variable_storage s → files s' = files s → idle cmd flags s →
  config_step cmd flags s' f → f = files s'.
Proof.
  intros Hv Hf Hwhy Hstep. pose proof (target_file_same s s' (cfg_name cmd) Hv Hf) as Ht.
  destruct Hstep as [_|val t cfg cfg' l s1 s2 _ Hu _ _ Hd Hm Hget Hdef]; [done|]. exfalso.
  rewrite Ht in *. rewrite Hf in Hu.
  destruct Hwhy as [?|[?|[?|[?|(Hdf & u & Hu' & Hs)]]]]; try congruence.
  rewrite Hu in Hu'. injection Hu' as <-. rewrite Hdef in Hs; done.
Qed.

(** After [set_] wrote the file, the lookup finds its line, and a further step writes
    the same text. *)
Lemma set_again cmd flags s s' val t cfg cfg' l s1 s2 :
  clean_group (cfg_group cmd) = true → clean_param (cfg_param cmd) = true → lacks "010" val = true →
  variable_storage s' = variable_storage s → substitute_variables (cfg_value cmd) s' = Value val s' →
  files s !! target_file s (cfg_name cmd) = Some (FFile t) → lines cfg = getlines t →
  set_ cfg (cfg_group cmd) (cfg_param cmd) val s1 = Value (l, cfg') s2 →
  files s' = <[target_file s (cfg_name cmd) := FFile (putlines (lines cfg'))]> (files s) →
  is_ok (scan (cfg_group cmd) (cfg_param cmd) false 0 (kinds (target_lines s' cmd))) = true ∧
  (∀ f, config_step cmd flags s' f → f = files s').
Proof.
  intros Hg Hp Hnl Hvars Hval Ht Hl Hs Hf.
  pose proof (target_file_set s s' (cfg_name cmd) _ _ Hvars (mk_is_Some _ _ Ht) Hf) as Htf. split.
  - unfold target_lines, lines_at, node_at. rewrite Htf, Hf, target_file_no_slash, lookup_insert_eq.
    destruct (set_inv _ _ _ _ _ _ _ _ Hs) as (r & Hr & _ & ->). simpl.
    destruct (set_lines_found (cfg_group cmd) (cfg_param cmd) val Hg Hp Hnl (lines cfg) false 0 r)
      as (j & _ & Hj); [rewrite Hl; apply getlines_lack_NL|done|].
    rewrite Nat.sub_0_r in Hj. unfold reread in Hj. by rewrite Hj.
  - intros f [_|val2 t2 cfg2 cfg2' l2 s3 s4 Hval2 Ht2 Hl2 Hs2 _ _ _ _]; [done|].
    rewrite Hval in Hval2. injection Hval2 as <-. rewrite Htf, Hf in *.
    rewrite lookup_insert_eq in Ht2. injection Ht2 as <-.
    rewrite (set_twice _ _ _ Hg Hp Hnl _ _ _ _ _ _ _ _ _ _ _ Hl Hs Hl2 Hs2).
    apply insert_insert_eq.
Qed.

(** A [config] command that returned returns again when it
    is run a second time, and the second run changes no file: neither the value
    nor the text of the configuration drifts when a setup script is repeated.
    (The variable of the root is set, as the tool sets it at start-up.) *)
Theorem config_idempotent cmd flags s b s' val :
  cfg_action cmd ∈ allowed_actions →
  clean_group (cfg_group cmd) = true → clean_param (cfg_param cmd) = true →
  is_Some (variable_storage s !! CONFIGS) →
  substitute_variables (cfg_value cmd) s = Value val s → lacks "010" val = true →
  execute_config cmd flags s = Value b s' →
  ∃ b' s'', execute_config cmd flags s' = Value b' s'' ∧ files s'' = files s'.
Proof.
  intros Ha Hg Hp [root Hroot] Hval Hnl He.
  destruct (wp_Value _ _ _ _ _ _ (execute_config_wp cmd flags s) He) as [Hstep Hvars].
  unfold same_vars, touch in Hvars. rewrite Hroot in Hvars.
  pose proof (substitute_same_vars _ _ _ _ Hvars Hval) as Hval'.
  assert (Hret : returns (execute_config cmd flags s) = true) by (by rewrite He).
  rewrite execute_config_returns in Hret by done. apply andb_prop in Hret as [[_ Hpr]%andb_prop Hok].
  assert (Hret' : present (files s') (target_file s' (cfg_name cmd)) = true →
    is_ok (scan (cfg_group cmd) (cfg_param cmd) false 0 (kinds (target_lines s' cmd))) = true →
    ∃ b' s'', execute_config cmd flags s' = Value b' s'').
  { intros H1 H2. apply returns_inv. rewrite execute_config_returns by done.
    by rewrite Hval', H1, H2. }
  remember (files s') as f' eqn:Hf'.
  destruct Hstep as [Hwhy|val1 t cfg cfg' l s1 s2 Hval1 Ht Hl Hs _ _ _ _].
  - pose proof (target_file_same s s' (cfg_name cmd) Hvars (eq_sym Hf')) as Htf.
    destruct Hret' as (b' & s'' & He').
    + by rewrite Htf.
    + unfold target_lines. by rewrite Htf, <- Hf'.
    + exists b', s''. split; [done|]. rewrite Hf'. eapply idle_again; eauto.
      by apply (wp_Value _ _ _ _ _ _ (execute_config_wp cmd flags s') He').
  - rewrite Hval in Hval1. injection Hval1 as <-.
    pose proof (target_file_set s s' (cfg_name cmd) _ _ Hvars (mk_is_Some _ _ Ht) (eq_sym Hf')) as Htf.
    edestruct (set_again cmd flags s s') as [Hsc Hst]; eauto.
    destruct Hret' as (b' & s'' & He'); [|done|].
    { rewrite Htf, present_insert; [done|by eexists|apply target_file_no_slash]. }
    exists b', s''. split; [done|]. rewrite Hf'. apply Hst.
    by apply (wp_Value _ _ _ _ _ _ (execute_config_wp cmd flags s') He').
Qed.

End Idempotent.

Definition demo_new_param : CConfigCommand :=
  {| cfg_name := "Net"; cfg_group := "esbocs"; cfg_param := "debug"; cfg_value := "${CONFIGS_PATH}";
     cfg_action := "ensure" |}.

Lemma config_idempotent_witness :
  ∃ b s' b' s'', execute_config (H:=demo_host) demo_new_param 0 demo_state = Value b s' ∧
    files s' ≠ files demo_state ∧
    execute_config (H:=demo_host) demo_new_param 0 s' = Value b' s'' ∧ files s'' = files s'.
Proof.
  destruct (returns_inv (execute_config (H:=demo_host) demo_new_param 0 demo_state))
    as (b & s' & He); [vm_compute; reflexivity|].
  assert (Ha : cfg_action demo_new_param ∈ allowed_actions) by (right; left).
  assert (Hr : is_Some (variable_storage demo_state !! CONFIGS)) by (exists "/opt"; reflexivity).
  assert (Hv : substitute_variables (cfg_value demo_new_param) demo_state = Value "/opt" demo_state)
    by (vm_compute; reflexivity).
  destruct (config_idempotent (H:=demo_host) demo_new_param 0 demo_state b s' "/opt"
              Ha eq_refl eq_refl Hr Hv eq_refl He) as (b' & s'' & He' & Hf').
  exists b, s', b', s''. split; [exact He|]. split; [|split; [exact He'|exact Hf']].
  assert (Hne : match execute_config (H:=demo_host) demo_new_param 0 demo_state with
                | Value _ u => bool_decide (files u = files demo_state)
                | _ => true
                end = false) by (vm_compute; reflexivity).
  rewrite He in Hne. exact (proj1 (bool_decide_eq_false _) Hne).
Defined.
