(* ===== verification/ConfScript.v ===== *)
(** * The script interpreter: conftool/main.cpp

    Parsing a setup script into commands, running the commands with their stack
    of open conditions, and the command line of cellframe-node-config.  Commands
    are built when the script is read and executed afterwards. *)
From S2P Require Import CLib.
From S2P Require Export ConfSet.

(** ** Where the tool runs *)
Definition HOST_OS {H : Host} : string :=
  match os with
  | LINUX | ANDROID => "Linux"
  | WINDOWS => "Windows"
  | APPLE => "Macos"
  end.

(** The registry helpers, from the error and the data [RegQueryValueExW] gives:
    the error is returned and the output written as the source does. *)
Definition ERROR_SUCCESS : Z := 0.

Definition GetDWORDRegKey (query : Z * Z) (nDefaultValue : Z) : Z * Z :=
  let '(nError, nResult) := query in
  (nError, if nError =z? ERROR_SUCCESS then nResult else nDefaultValue).

Definition GetBoolRegKey (query : Z * Z) (bValue bDefaultValue : bool) : Z * bool :=
  let nDefValue := if bDefaultValue then 1%Z else 0%Z in
  let '(nError, nResult) := GetDWORDRegKey query nDefValue in
  (nError, if nError =z? ERROR_SUCCESS then negb (nResult =z? 0) else bValue).

Section Conftool.
Context {H : Host}.

Definition getHostName : string := default "unknown" gethostname.

(** [GetStringRegKey]: a key that did not open is an uninitialised handle. *)
Definition GetStringRegKey (key valueName defaultValue : string) : M string :=
  if registry_opens key then mret (default defaultValue (registry_string key valueName)) else undef.

Definition getNodeConfigPath (basepath : string) : M string :=
  match os with
  | ANDROID => mret basepath
  | LINUX => mret "/opt/cellframe-node"
  | APPLE => mret "/Library/Application Support/CellframeNode"
  | WINDOWS =>
      path ← GetStringRegKey "SOFTWARE\Microsoft\Windows\CurrentVersion\Explorer\Shell Folders"
               "Common Documents" "";
      mret (path // "cellframe-node")
  end.

Definition getNodeBinaryPath : M string :=
  match os with
  | LINUX | ANDROID => mret "/opt/cellframe-node/bin/"
  | APPLE => mret "/Applications/CellframeNode.app/Contents/MacOS/"
  | WINDOWS => GetStringRegKey "SOFTWARE\cellframe-node\" "Path" ""
  end.

(** ** Command line *)
Definition cmdOptionExists (argv : list string) (option_ : string) : bool :=
  existsb (String.eqb option_) argv.

(** [std::find (begin, end, x)]: the rest of the range from the match on. *)
Fixpoint find_arg (argv : list string) (x : string) : list string :=
  match argv with
  | [] => []
  | a :: argv' => if a =s? x then argv else find_arg argv' x
  end.

Definition getCmdOption (argv : list string) (option_long option_short : string) : string :=
  let option_ := if cmdOptionExists argv option_long then option_long else option_short in
  match find_arg argv option_ with
  | _ :: arg :: _ => arg
  | _ => ""
  end.

Definition help_text : list string :=
  ["cellframe-node-config -h | --help"; TAB +:+ " prints this help message";
   "cellframe-node-config -s | --vars"; TAB +:+ " prints installation config variables.";
   "cellframe-node-config -v | --verbose"; TAB +:+ " enable verbose output";
   "cellframe-node-config -d | --dry-run"; TAB +:+ " do not actual do a file-system commands";
   "cellframe-node-config -i | --init /path/to/cellframe-node.setup";
   TAB +:+ " do initial configuration based on provided setup script";
   "cellframe-node-config -e | --exec <command> [and <command> [and <command>]...]";
   TAB +:+ " execute provided commands. "; "";
   "Allowed commands:";
   TAB +:+ "network <netname> ensure on|off";
   TAB +:+ TAB +:+ " enable | disable <netname> network";
   TAB +:+ "net_list all|on|off";
   TAB +:+ TAB +:+ " on - active networks. off - not active networks. all or nothing - all network";
   TAB +:+ "config  <configname>  <section>  <param> ensure  <value>";
   TAB +:+ TAB +:+ " set a parameter <param> in section <section> in config <configname> to <value>";
   TAB +:+ TAB +:+ " Possible configs: " +:+ quoted "cellframe-node" +:+ ",  " +:+ quoted "<netname>";
   TAB +:+ "service  enable";
   TAB +:+ TAB +:+ " set cellframe-node to autostart on boot";
   TAB +:+ "service  disable";
   TAB +:+ TAB +:+ " remove cellframe-node from autostart on boot";
   TAB +:+ "service  start";
   TAB +:+ TAB +:+ " start cellframe-node (if registred as service!)";
   TAB +:+ "service  stop";
   TAB +:+ TAB +:+ " stop cellframe-node (if registred as service!)";
   TAB +:+ "service  status";
   TAB +:+ TAB +:+ " get service & process statuses"].

Definition print_help : M unit := say (putlines help_text).

(** ** Parsing *)
Definition parse_line_to_cmd (line : string) (line_no : nat) (flags : Z) : M command :=
  cmd ← build line;
  match cmd with
  | None => throw (invalid_argument ("setup file line " +:+ pretty line_no +:+ " << {" +:+ line
                                     +:+ "} >> error: unknown command"))
  | Some c => verbose flags ("[V] Command: " +:+ represent c +:+ NL);; mret c
  end.

Fixpoint parse_lines (ls : list string) (line_num : nat) (flags : Z) : M (list command) :=
  match ls with
  | [] => mret []
  | l :: ls' =>
      let line := strip l in
      if is_empty line then parse_lines ls' (S line_num) flags
      else
        c ← parse_line_to_cmd line line_num flags;
        cs ← parse_lines ls' (S line_num) flags;
        mret (c :: cs)
  end.

Definition parse_setup_file (init_file_name : string) (flags : Z) : M (list command) :=
  ls ← read_lines init_file_name;
  verbose flags ("[V] Parsing " +:+ init_file_name +:+ " as setup-script" +:+ NL);;
  parse_lines ls 0 flags.

(** ** Running *)
Definition show_cond_stack (condition_stack : list command) : string :=
  "[VE] Condition stack: [" +:+ foldr (λ a acc, "{" +:+ represent a +:+ "} " +:+ acc) "" condition_stack
  +:+ "] " +:+ NL.

(** [push_back] and [pop_back]; popping an empty vector is undefined. *)
Definition next_stack (condition_stack : list command) (cmd : command) : M (list command) :=
  if is_condition_open cmd then mret (condition_stack ++ [cmd])
  else match condition_stack with
       | [] => undef
       | _ => mret (removelast condition_stack)
       end.

Fixpoint run_loop (commands condition_stack : list command) (flags : Z) : M unit :=
  match commands with
  | [] => mret tt
  | cmd :: commands' =>
      if is_condition_open cmd || is_condition_close cmd then
        condition_stack' ← next_stack condition_stack cmd;
        verbose flags (show_cond_stack condition_stack');;
        run_loop commands' condition_stack' flags
      else
        (match last condition_stack with
         | Some cond => passed ← execute cond flags; when passed (execute cmd flags;; mret tt)
         | None => execute cmd flags;; mret tt
         end);;
        run_loop commands' condition_stack flags
  end.

Definition run_commands (commands : list command) (flags : Z) : M bool :=
  run_loop commands [] flags;; mret true.

(** ** Initialisation *)
Definition populate_variables (basepath : string) : M unit :=
  storage_set "HOST_OS" HOST_OS;;
  storage_set "HOSTNAME" getHostName;;
  config_path_ ← getNodeConfigPath basepath;
  storage_set "CONFIGS_PATH" config_path_;;
  binary_path ← getNodeBinaryPath;
  storage_set "NODE_BINARY_PATH" binary_path.

Definition init_configs (init_file_name : string) (flags : Z) : M Z :=
  if is_empty init_file_name then
    say ("No setup file provided for init procedure, see --help" +:+ NL);; mret (-1)%Z
  else
    there ← fs_exists init_file_name;
    if negb there then
      say ("Setup file " +:+ init_file_name +:+ " not found" +:+ NL);; mret (-1)%Z
    else
      root ← storage "CONFIGS_PATH";
      say ("Cellframe-node configs install path: " +:+ root +:+ NL);;
      commands ← parse_setup_file init_file_name flags;
      run_commands commands flags;;
      mret 0%Z.

(** ** main *)

(** The command lines after [-e], separated by the word [and]; every word is
    followed by a space. *)
Fixpoint exec_lines (curr_cmd : string) (words : list string) : list string :=
  match words with
  | [] => [curr_cmd]
  | w :: words' =>
      if w =s? "and" then curr_cmd :: exec_lines "" words'
      else exec_lines (curr_cmd +:+ w +:+ " ") words'
  end.

Fixpoint parse_exec (ls : list string) (i : nat) (flags : Z) : M (list command) :=
  match ls with
  | [] => mret []
  | l :: ls' =>
      c ← parse_line_to_cmd l i flags;
      cs ← parse_exec ls' (S i) flags;
      mret (c :: cs)
  end.

Definition show_vars (items : list (string * string)) : string :=
  foldr (λ v acc, v.1 +:+ "=" +:+ v.2 +:+ NL +:+ acc) "" items.

Definition option2 (argv : list string) (a b : string) : bool :=
  cmdOptionExists argv a || cmdOptionExists argv b.

Definition main (argv : list string) : M Z :=
  populate_variables "";;
  if option2 argv "-h" "--help" then print_help;; mret 0%Z
  else
    let flags := if option2 argv "--verbose" "-v" then Z.lor 0 F_VERBOSE else 0%Z in
    if option2 argv "--vars" "-s" then
      items ← storage_items;
      say (show_vars items);; mret 0%Z
    else
      let flags := if option2 argv "--dryrun" "-d" then Z.lor flags F_DRYRUN else flags in
      let node_intall_path := getCmdOption argv "--path" "-p" in
      when (negb (is_empty node_intall_path)) (storage_set "CONFIGS_PATH" node_intall_path);;
      if option2 argv "-i" "--init" then
        init_configs (getCmdOption argv "--init" "-i") flags
      else if option2 argv "-e" "--exec" then
        let option_ := if cmdOptionExists argv "--exec" then "--exec" else "-e" in
        let commands_lines := exec_lines "" (tail (find_arg argv option_)) in
        script_cmds ← parse_exec commands_lines 0 flags;
        run_commands script_cmds flags;;
        mret 0%Z
      else print_help;; mret 0%Z.

End Conftool.
