(* ===== verification/ConfInv.v ===== *)
(** * What every script keeps

    Properties of whole scripts, by one lemma per command and an induction over
    the run: a dry run changes no file; no script enables and disables a network
    at once; and a script keeps every setting the user chose that it does not
    force. *)
From S2P Require Import CLib.
From S2P Require Export ConfScript.

(** ** Commands that change no file

    [calm]: the files are the same, and a variable that appeared is empty. *)
Definition grown (m m' : gmap string string) : Prop :=
  ∀ k v, m' !! k = Some v → m !! k = Some v ∨ v = "".

Definition calm (s s' : st) : Prop :=
  files s' = files s ∧ grown (variable_storage s) (variable_storage s').

#[export] Instance calm_preorder : PreOrder calm.
Proof.
  split.
  - intros s. split; [done|]. by left.
  - intros s1 s2 s3 [Hf Hg] [Hf' Hg']. split; [congruence|].
    intros k v [Hv| ->]%Hg'; [by apply Hg|by right].
Qed.

#[export] Instance calm_silent : Silent calm.
Proof. intros s c. split; [done|]. by left. Qed.

Lemma calm_touch k s : calm s (touch k s).
Proof.
  split; [apply touch_files|]. intros k' v. unfold touch.
  destruct (variable_storage s !! k) eqn:Hk; [by left|]. simpl.
  intros [[_ <-]|[_ Hv]]%lookup_insert_Some; [by right|by left].
Qed.

Lemma calm_storage k : pres calm (storage k).
Proof. intros s. rewrite storage_touch. apply calm_touch. Qed.

Lemma calm_stays {A} (m : M A) : stays m → pres calm m.
Proof. intros Hm s. destruct (Hm s) as [[a ->]| ->]; [|done]. reflexivity. Qed.

Lemma calm_substitute t : pres calm (substitute_variables t).
Proof. apply calm_stays, stays_substitute. Qed.

Lemma calm_config_path n t k : pres calm (config_path n t k).
Proof. intros s. apply calm_touch. Qed.

Lemma calm_get_config_path k : pres calm (get_config_path k).
Proof. intros s. apply calm_touch. Qed.

Lemma calm_spawned {A} (a : st → A) cmd : pres calm (λ s, Value (a s) (add_spawned cmd s)).
Proof. intros s. split; [done|]. by left. Qed.

#[export] Hint Resolve calm_storage calm_substitute calm_config_path calm_get_config_path : node.

Ltac pres_steps :=
  repeat (cbv beta zeta;
    match goal with
    | |- pres _ (_ ≫= _) => apply pres_bind; [exact _| |intros ?]
    | |- pres _ (_ <$> _) => apply pres_bind; [exact _| |intros ?]
    | |- pres _ (mret _) => apply pres_ret; exact _
    | |- pres _ (throw _) => apply pres_throw; exact _
    | |- pres _ undef => apply pres_undef
    | |- pres _ (say _) => apply pres_say; exact _
    | |- pres _ (verbose _ _) => apply pres_verbose; exact _
    | |- pres _ (when _ _) => apply pres_when; [exact _|]
    | |- pres _ (at_ _ _) => apply pres_at; exact _
    | |- pres _ (fs_exists _) => apply pres_fs_exists; exact _
    | |- pres _ (read_lines _) => apply pres_read_lines; exact _
    | |- pres _ (let '(_, _) := ?x in _) => destruct x
    | |- pres _ (match ?x with _ => _ end) =>
        lazymatch x with registry _ => fail | _ => destruct x end
    end); auto with node.

Section Calm.
Context {H : Host}.

Lemma calm_run_system cmd : pres calm (run_system cmd).
Proof. apply calm_spawned. Qed.
Hint Resolve calm_run_system : node.

Lemma calm_system_ok cmd : pres calm (system_ok cmd).
Proof. unfold system_ok. pres_steps. Qed.
Hint Resolve calm_system_ok : node.

Lemma calm_admin_ok app cmd : pres calm (Win.admin_ok app cmd).
Proof.
  unfold Win.admin_ok, Win.runShellAdmin, Win.GetExitCodeProcess. pres_steps. apply calm_spawned.
Qed.
Hint Resolve calm_admin_ok : node.

Lemma calm_macos script : pres calm (Macos.callSecScript script).
Proof. apply (calm_spawned (λ _, 0%Z)). Qed.
Hint Resolve calm_macos : node.

Lemma calm_service cmd flags : pres calm (execute_service cmd flags).
Proof.
  unfold execute_service, report, service_enable, service_disable, service_status, service_start,
    service_stop, service_restart, choose.
  unfold Linux.restart, Linux.start, Linux.stop, Linux.serviceStatus, Linux.enable, Linux.disable.
  unfold Macos.restart, Macos.start, Macos.stop, Macos.serviceStatus, Macos.enable, Macos.disable.
  unfold Win.restart, Win.start, Win.stop, Win.serviceStatus, Win.enable, Win.disable.
  pres_steps.
Qed.

Lemma calm_if cmd flags : pres calm (execute_if cmd flags).
Proof. unfold execute_if. pres_steps. Qed.

Lemma calm_net_list cmd flags : pres calm (execute_net_list cmd flags).
Proof.
  unfold execute_net_list. pres_steps; intros s; unfold is_directory, list_files; simpl; reflexivity.
Qed.

Lemma calm_network_check cmd : pres calm (network_check cmd).
Proof. unfold network_check. pres_steps. Qed.

(** Building commands is calm. *)
Lemma calm_registry name create t : registry name = Some create → pres calm (create t).
Proof.
  unfold registry. intros Hr. repeat case_match; simplify_eq; pres_steps;
    unfold new_network, new_config, new_var, new_if, new_fromtemplate, new_net_list, new_service;
    pres_steps.
Qed.

Lemma calm_build line : pres calm (build line).
Proof.
  unfold build. pres_steps. destruct (registry _) as [create|] eqn:Hr; pres_steps.
  by eapply calm_registry.
Qed.

End Calm.

(** ** Runs *)
Lemma pres_mono {A} (R R' : st → st → Prop) (m : M A) :
  (∀ s s', R s s' → R' s s') → pres R m → pres R' m.
Proof. intros HR Hm s. specialize (Hm s). destruct (m s); auto. Qed.

Lemma pres_wp {A} R (m : M A) : (∀ s, wp m (λ _ s', R s s') (λ _ s', R s s') s) → pres R m.
Proof. intros Hm s. apply (Hm s). Qed.

Lemma last_In {A} (l : list A) x : last l = Some x → x ∈ l.
Proof. intros Hl. apply last_Some in Hl as (l' & ->). apply elem_of_app. right. by left. Qed.

Lemma removelast_incl {A} (P : A → Prop) l : Forall P l → Forall P (removelast l).
Proof.
  induction 1 as [|x l Hx Hl IH]; [constructor|]. destruct l; [constructor|].
  by constructor.
Qed.

Lemma pres_ret_bind {A B} (R : st → st → Prop) (a : A) (k : A → M B) :
  pres R (k a) → pres R (mret a ≫= k).
Proof. done. Qed.

Lemma pres_run_loop {H : Host} (R : st → st → Prop) `{HR : !PreOrder R} `{HS : !Silent R}
    flags cmds stack :
  Forall (λ c, pres R (execute c flags)) cmds → Forall (λ c, pres R (execute c flags)) stack →
  pres R (run_loop cmds stack flags).
Proof.
  intros Hc. revert stack; induction Hc as [|c cmds Hc _ IH]; intros stack Hst; [by apply pres_ret|].
  cbn [run_loop]. destruct (is_condition_open c || is_condition_close c) eqn:Hb.
  - unfold next_stack. destruct (is_condition_open c).
    + apply pres_ret_bind. pres_steps. apply IH. apply Forall_app. by split; [|constructor].
    + destruct stack as [|d stack]; [done|].
      apply pres_ret_bind. pres_steps. apply IH. by apply removelast_incl.
  - apply pres_bind; [done| |intros _; by apply IH].
    destruct (last stack) as [d|] eqn:Hl; pres_steps; try done.
    apply last_In in Hl. rewrite Forall_forall in Hst. by apply Hst.
Qed.

Lemma pres_run_commands {H : Host} (R : st → st → Prop) `{HR : !PreOrder R} `{HS : !Silent R}
    flags cmds :
  Forall (λ c, pres R (execute c flags)) cmds → pres R (run_commands cmds flags).
Proof. intros Hc. unfold run_commands. pres_steps. by apply pres_run_loop. Qed.

(** ** A dry run *)
Definition same_files (s s' : st) : Prop := files s' = files s.

#[export] Instance same_files_preorder : PreOrder same_files.
Proof. split; [done|]. intros s1 s2 s3 H1 H2. unfold same_files in *. congruence. Qed.

#[export] Instance same_files_silent : Silent same_files.
Proof. done. Qed.

Lemma calm_same_files {A} (m : M A) : pres calm m → pres same_files m.
Proof. apply pres_mono. by intros s s' [Hf _]. Qed.

Section DryRun.
Context {H : Host}.

Lemma dry_network cmd flags :
  flag flags F_DRYRUN = true → pres same_files (execute_network cmd flags).
Proof.
  intros Hd. unfold execute_network. repeat case_match.
  - apply pres_wp. intros s. unfold network_default. rewrite Hd. simpl. unfold same_files.
    conf_steps; simpl; autorewrite with conf; try done.
    all: destruct (default_val cmd =s? "on"); conf_steps; simpl; autorewrite with conf; done.
  - apply pres_wp. intros s. unfold network_ensure. rewrite Hd. simpl. unfold same_files.
    conf_steps; simpl; autorewrite with conf; try done.
    all: destruct (default_val cmd =s? "on"); conf_steps; simpl; autorewrite with conf; done.
  - apply calm_same_files, calm_network_check.
  - pres_steps.
Qed.

Lemma dry_config cmd flags :
  flag flags F_DRYRUN = true → pres same_files (execute_config cmd flags).
Proof.
  intros Hd. apply pres_wp. intros s. eapply wp_mono; [apply execute_config_wp| |].
  - intros _ s' [Hc _]. unfold same_files. destruct Hc; [done|congruence].
  - by intros _ s' [Hf _].
Qed.

Lemma stays_replace_lines ls : stays (replace_lines ls).
Proof.
  induction ls as [|l ls IH]; [apply stays_ret|]. cbn [replace_lines].
  apply stays_bind; [destruct (is_empty _); [apply stays_ret|apply stays_substitute]|].
  intros l'. apply stays_bind; [done|]. intros; apply stays_ret.
Qed.

(** [populate] writes only the file it is given. *)
Lemma populate_wp p flags s :
  ends_in_slash p = false →
  wp (populate p flags)
     (λ _ s', variable_storage s' = variable_storage s ∧
        (files s' = files s ∨
         flag flags F_DRYRUN = false ∧ present (files s) p = true ∧
         ∃ t, files s' = <[p := FFile t]> (files s)))
     (λ _ s', variable_storage s' = variable_storage s ∧ files s' = files s) s.
Proof.
  intros Hp. unfold populate. apply wp_bind, wp_open_cfg; [done|]. intros c Hpr.
  unfold replace_placeholders. cbn [lines path cfg_flags]. conf_steps.
  eapply wp_mono with (Q := λ _ s', ∃ c, s' = set_console c s) (X := λ _ _, False);
    [|intros ls s' [c1 ->]|done].
  { unfold wp. match goal with |- context [replace_lines ?l ?s0] =>
      destruct (stays_replace_lines l s0) as [[a ->]| ->]; eauto end. }
  conf_steps. apply wp_save; simpl; [done| |].
  - intros c' _. conf_steps. simpl. by split; [|left].
  - intros c' Hd Hm _. conf_steps. simpl. split; [done|]. right. eauto.
Qed.

Lemma dry_fromtemplate cmd flags :
  flag flags F_DRYRUN = true → pres same_files (execute_fromtemplate cmd flags).
Proof.
  intros Hd. apply pres_wp. intros s. unfold execute_fromtemplate, same_files. rewrite Hd. simpl.
  conf_steps; simpl; autorewrite with conf; try done.
  all: eapply wp_mono; [apply populate_wp, config_file_no_slash| |];
    [intros _ s' [_ [Hf|[Hd' _]]]; [|congruence]|intros _ s' [_ Hf]];
    simpl in Hf; autorewrite with conf in Hf; done.
Qed.

Lemma var_same_files cmd flags : pres same_files (execute_var cmd flags).
Proof.
  unfold execute_var. pres_steps; [apply calm_same_files, calm_substitute| |]; by intros s.
Qed.

Lemma dry_execute c flags : flag flags F_DRYRUN = true → pres same_files (execute c flags).
Proof.
  intros Hd. unfold execute. destruct (class c);
    auto using dry_network, dry_config, dry_fromtemplate, var_same_files, calm_same_files,
      calm_if, calm_net_list, calm_service.
  pres_steps.
Qed.

(** With the dry-run flag a script, whatever its commands, changes no file. *)
Lemma dry_run_commands cmds flags :
  flag flags F_DRYRUN = true → pres same_files (run_commands cmds flags).
Proof.
  intros Hd. apply (pres_run_commands same_files). apply Forall_true. intros c. by apply dry_execute.
Qed.

End DryRun.

(** ** Commands as the constructors make them

    The conditions the constructors check, on which the executions rely. *)
Definition wf_class (c : command_class) : Prop :=
  match c with
  | Network n =>
      net_action n = "check" ∨
      (net_action n = "default" ∨ net_action n = "ensure") ∧
      (default_val n = "on" ∨ default_val n = "off")
  | Config n =>
      (cfg_action n = "default" ∨ cfg_action n = "ensure" ∨ cfg_action n = "get") ∧
      nospaces (cfg_group n) = true ∧ nospaces (cfg_param n) = true ∧
      nospaces (cfg_value n) = true
  | Variable_ n => var_name n ≠ "" ∧ nospaces (var_val n) = true
  | ConditionOpen n => arg1 n ≠ "" ∧ (cond_op n = COND_IS_SET ∨ arg2 n ≠ "")
  | _ => True
  end.

Definition wf_command (c : command) : Prop :=
  wf_class (class c) ∧ Forall (λ t, nospaces t = true ∧ t ≠ "") (cmd_tokens c).

Lemma wp_registry {A} (m : M A) (f : A → command_class) (P : command_class → Prop) s :
  wp m (λ a _, P (f a)) (λ _ _, True) s → wp (f <$> m) (λ c _, P c) (λ _ _, True) s.
Proof. intros Hm. apply wp_bind. eapply wp_mono; [exact Hm| |done]. done. Qed.

Lemma existsb_states t : existsb (String.eqb t) allowed_states = true → t = "on" ∨ t = "off".
Proof.
  simpl. rewrite !orb_true_iff, !String.eqb_eq. intros [?|[?|?]]; auto. done.
Qed.

Lemma wf_new_network t s : wp (new_network t) (λ c _, wf_class (Network c)) (λ _ _, True) s.
Proof.
  unfold new_network. conf_steps; try done; simpl.
  all: repeat match goal with
         | E : (_ =s? _) = true |- _ => apply String.eqb_eq in E
         | E : negb _ = false |- _ => apply negb_false_iff in E
         end; subst; auto.
  all: right; split; [by auto|]; destruct (t !! 3%nat); [by apply existsb_states|done].
Qed.

Definition tokens_ok (t : list string) : Prop := Forall (λ t, nospaces t = true ∧ t ≠ "") t.

Lemma tokens_nospaces t i x : tokens_ok t → t !! i = Some x → nospaces x = true.
Proof. intros Ht Hi. by apply (Forall_lookup_1 _ _ _ _ Ht Hi). Qed.

Lemma wf_new_config t s :
  tokens_ok t → wp (new_config t) (λ c _, wf_class (Config c)) (λ _ _, True) s.
Proof.
  intros Ht. unfold new_config. conf_steps; try done; simpl.
  apply negb_false_iff in E1. simpl in E1. rewrite !orb_true_iff, !String.eqb_eq in E1.
  split; [destruct E1 as [?|[?|[?|?]]]; auto; done|].
  repeat split; eauto using tokens_nospaces.
  destruct (t !! 5%nat) eqn:H5; [|done]. eauto using tokens_nospaces.
Qed.

Lemma string_join_nospaces t : tokens_ok t → nospaces (string_join t "") = true.
Proof.
  induction 1 as [|x t [Hx _] _ IH]; [done|]. unfold nospaces, string_join in *. simpl.
  by rewrite str_all_app, Hx.
Qed.

(** The bytes of the tokens are bytes of the text. *)
Lemma pieces_all f re k s :
  str_all f s = true → Forall (λ t, str_all f t = true) (pieces re k s).
Proof.
  revert k; induction s as [|c s IH]; intros k Hs.
  - destruct k; repeat constructor.
  - cbn [str_all] in Hs. apply andb_prop in Hs as [Hc Hs]. cbn [pieces]. destruct k as [|k]; [|auto].
    destruct (re (String c s)); [|constructor; auto].
    specialize (IH 0%nat Hs). destruct (pieces re 0 s); inversion IH; subst;
      repeat constructor; auto; cbn [push str_all]; rewrite Hc; auto.
Qed.

Lemma tokenize_all f re s t : str_all f s = true → t ∈ tokenize s re → str_all f t = true.
Proof.
  unfold tokenize. rewrite list_elem_of_filter. intros Hs [_ Ht].
  pose proof (pieces_all f re 0 s Hs) as Hp. rewrite Forall_forall in Hp. auto.
Qed.

Lemma tail_ok t : tokens_ok t → tokens_ok (tail t).
Proof. destruct 1; [constructor|done]. Qed.

Lemma wf_new_var t s :
  tokens_ok t → wp (new_var t) (λ c _, wf_class (Variable_ c)) (λ _ _, True) s.
Proof.
  intros Ht%tail_ok%string_join_nospaces. unfold new_var.
  destruct (tokenize _ re_eq) as [|t0 [|t1 [|t2 ts]]] eqn:Htok; try done.
  apply wp_ret. simpl. split.
  - by eapply tokenize_head.
  - eapply tokenize_all; [exact Ht|]. rewrite Htok. right. left.
Qed.

Lemma wf_new_if t s : wp (new_if t) (λ c _, wf_class (ConditionOpen c)) (λ _ _, True) s.
Proof.
  unfold new_if. set (j := string_join (tail t) "").
  destruct (tokenize j re_eq_neq) as [|t0 [|t1 [|t2 ts]]] eqn:Htok;
    destruct (contains "!=" j), (contains "==" j); try done; apply wp_ret; simpl;
    (split; [by eapply tokenize_head|]); auto;
    right; apply (tokenize_ne re_eq_neq j); rewrite Htok; right; left.
Qed.

Lemma wf_registry name create t s :
  tokens_ok t → registry name = Some create →
  wp (create t) (λ c _, wf_class c) (λ _ _, True) s.
Proof.
  intros Ht. unfold registry. intros Hr. repeat case_match; simplify_eq;
    try (apply wp_registry);
    auto using wf_new_network, wf_new_config, wf_new_var, wf_new_if.
  all: first [done | unfold wp; by repeat case_match].
Qed.

Lemma tokenize_blanks_ok line : tokens_ok (tokenize line re_blanks).
Proof.
  apply Forall_forall. intros t Ht. split; [by eapply tokenize_blanks_nospace|by eapply tokenize_ne].
Qed.

Lemma wf_build line s :
  wp (build line) (λ o _, match o with Some c => wf_command c | None => True end) (λ _ _, True) s.
Proof.
  unfold build. wp_steps. destruct (registry a) as [create|] eqn:Hr; [|by wp_steps].
  apply wp_bind. eapply wp_mono; [apply (wf_registry a); [apply tokenize_blanks_ok|done]| |done].
  intros cl s1 Hcl. wp_steps. split; [done|]. apply tokenize_blanks_ok.
Qed.

(** C27 (build_well_typed): every command the tool builds from a line satisfies
    what its execution relies on: a network action is one of the three known ones
    with a state on or off where it needs one, a config action is one of the three
    known ones, names and values hold no blank, a condition has its operands; its
    tokens are not empty and hold no blank. *)
Theorem build_well_typed line s c s' :
  build line s = Value (Some c) s' → wf_command c.
Proof.
  intros Hb. exact (wp_Value _ _ _ _ _ _ (wf_build line s) Hb).
Qed.

(** ** No network is both enabled and disabled *)
Definition never_both (f : gmap string fnode) : Prop :=
  ∀ x, is_Some (f !! (x +:+ ".cfg")) → f !! (x +:+ ".cfg.dis") = None.

Definition keeps_apart (s s' : st) : Prop := never_both (files s) → never_both (files s').

#[export] Instance keeps_apart_preorder : PreOrder keeps_apart.
Proof. split; [by intros s ?|]. intros s1 s2 s3 H1 H2 ?. auto. Qed.

#[export] Instance keeps_apart_silent : Silent keeps_apart.
Proof. by intros s c ?. Qed.

Lemma keeps_apart_same_files {A} (m : M A) : pres same_files m → pres keeps_apart m.
Proof. apply pres_mono. intros s s' Hf. unfold same_files, keeps_apart in *. by rewrite Hf. Qed.

Lemma string_app_inj_r (s x y : string) : x +:+ s = y +:+ s → x = y.
Proof.
  revert x y; induction s as [|c s IH]; intros x y; [by rewrite !string_app_nil_r|].
  change (String c s) with (String c "" +:+ s). rewrite !string_app_assoc.
  intros Heq%IH. by apply string_app_byte_inj in Heq.
Qed.

Fixpoint str_last (s : string) : option ascii :=
  match s with
  | "" => None
  | String c s' => match str_last s' with Some d => Some d | None => Some c end
  end.

Lemma str_last_app (s t : string) : is_Some (str_last t) → str_last (s +:+ t) = str_last t.
Proof.
  intros Ht. induction s as [|c s IH]; [done|]. rewrite string_app_cons. simpl. rewrite IH.
  by destruct Ht as [d ->].
Qed.

Lemma cfg_dis_ne (x y : string) : x +:+ ".cfg" ≠ y +:+ ".cfg.dis".
Proof.
  intros Heq. apply (f_equal str_last) in Heq.
  rewrite !str_last_app in Heq by (by eexists). done.
Qed.

Lemma never_both_insert f p n : is_Some (f !! p) → never_both f → never_both (<[p := n]> f).
Proof.
  intros Hp Hf x Hx.
  assert (Hk : ∀ k, is_Some (<[p := n]> f !! k) → is_Some (f !! k)).
  { intros k. destruct (decide (p = k)) as [->|Hne]; [done|]. by rewrite lookup_insert_ne. }
  destruct (decide (p = x +:+ ".cfg.dis")) as [->|Hne].
  - rewrite (Hf x (Hk _ Hx)) in Hp. by destruct Hp.
  - rewrite lookup_insert_ne by done. apply Hf, Hk, Hx.
Qed.

(** A file that comes to exist while the other one of its network does not. *)
Lemma never_both_new f b (on : bool) n :
  never_both f →
  f !! (b +:+ (if on then ".cfg.dis" else ".cfg")) = None →
  never_both (<[b +:+ (if on then ".cfg" else ".cfg.dis") := n]> f).
Proof.
  intros Hf Hopp x Hx. destruct on.
  - rewrite lookup_insert_ne by apply cfg_dis_ne.
    destruct (decide (b +:+ ".cfg" = x +:+ ".cfg")) as [Heq%string_app_inj_r|Hne]; [by subst|].
    rewrite lookup_insert_ne in Hx by done. auto.
  - rewrite lookup_insert_ne in Hx by (intros Heq; symmetry in Heq; by apply cfg_dis_ne in Heq).
    destruct (decide (b +:+ ".cfg.dis" = x +:+ ".cfg.dis")) as [Heq%string_app_inj_r|Hne].
    + subst. rewrite Hopp in Hx. by destruct Hx.
    + rewrite lookup_insert_ne by done. auto.
Qed.

Lemma never_both_delete f k : never_both f → never_both (base.delete k f).
Proof.
  intros Hf x [y Hx]. apply lookup_delete_Some in Hx as [_ Hx].
  destruct (decide (k = x +:+ ".cfg.dis")) as [->|Hne]; [apply lookup_delete_eq|].
  rewrite lookup_delete_ne by done. apply Hf. eauto.
Qed.

Lemma net_files s n v :
  n ≠ "cellframe-node" → v = "on" ∨ v = "off" →
  req_file s n v = net_base (root_of s) n +:+ (if v =s? "on" then ".cfg" else ".cfg.dis") ∧
  opp_file s n v = net_base (root_of s) n +:+ (if v =s? "on" then ".cfg.dis" else ".cfg").
Proof.
  intros Hn Hv. unfold req_file, opp_file.
  destruct (v =s? "on"); rewrite config_file_on, config_file_off by done; done.
Qed.

Section NeverBoth.
Context {H : Host}.

Lemma apart_network cmd flags :
  wf_class (Network cmd) → net_name cmd ≠ "cellframe-node" →
  pres keeps_apart (execute_network cmd flags).
Proof.
  intros Hw Hn. destruct cmd as [n a v]. simpl in *. apply pres_wp. intros s.
  unfold execute_network. cbn [net_action]. destruct Hw as [-> |[[-> | ->] Hv]]; simpl.
  - apply (keeps_apart_same_files _ (calm_same_files _ (calm_network_check _))).
  - destruct (net_files s n v Hn Hv) as [Hreq Hopp].
    eapply wp_mono; [by apply network_default_wp| |by intros e s' Hf Hb; simpl in Hf; rewrite Hf].
    rewrite Hreq, Hopp. intros _ s' Hstep Hb. destruct Hstep; [done|done|].
    by apply (never_both_new _ _ (v =s? "on")).
  - destruct (net_files s n v Hn Hv) as [Hreq Hopp].
    eapply wp_mono; [by apply network_ensure_wp| |by intros e s' Hf Hb; simpl in Hf; rewrite Hf].
    rewrite Hreq, Hopp. intros b s' [Hstep _] Hb. destruct Hstep; [done|done| |].
    + apply (never_both_new _ _ (v =s? "on")); [by apply never_both_delete|apply lookup_delete_eq].
    + by apply (never_both_new _ _ (v =s? "on")).
Qed.

Lemma apart_config cmd flags : pres keeps_apart (execute_config cmd flags).
Proof.
  apply pres_wp. intros s. eapply wp_mono; [apply execute_config_wp| |].
  - intros _ s' [Hc _] Hb. destruct Hc; [done|]. apply never_both_insert; [|done]. eauto.
  - intros _ s' [Hf _] Hb. by rewrite Hf.
Qed.

(** The commands that move networks about only through [network]. *)
Definition moves_networks (c : command) : Prop :=
  wf_command c ∧
  match class c with
  | Network n => net_name n ≠ "cellframe-node"
  | FromTemplate _ => False
  | _ => True
  end.

Lemma apart_execute c flags : moves_networks c → pres keeps_apart (execute c flags).
Proof.
  intros [[Hw _] Hc]. unfold execute.
  destruct (class c) as [n|n|n|n| |n|n|n]; try done;
    auto using apart_network, apart_config, keeps_apart_same_files, calm_same_files,
      var_same_files, calm_if, calm_net_list, calm_service.
  pres_steps.
Qed.

(** C9 (script_never_both): a script of well-formed commands, [fromtemplate]
    apart, started where no network has both an enabling and a disabling file,
    leaves none with both, whatever flags it has and however it ends. *)
Theorem script_never_both cmds flags s :
  Forall moves_networks cmds → never_both (files s) →
  match run_commands cmds flags s with
  | Value _ s' | Thrown _ s' => never_both (files s')
  | Ub | Beyond => True
  end.
Proof.
  intros Hc Hb.
  assert (Hp : pres keeps_apart (run_commands cmds flags)).
  { apply (pres_run_commands keeps_apart). eapply Forall_impl; [exact Hc|].
    intros c Hm. by apply apart_execute. }
  specialize (Hp s). unfold keeps_apart in Hp. by destruct (run_commands cmds flags s); auto.
Qed.

End NeverBoth.

(** ** Scripts keep what the user chose *)

(** The file at [path] holds the value [v], not a placeholder, for a parameter. *)
Definition user_setting (f : gmap string fnode) (path g p v : string) : Prop :=
  ∃ t, f !! path = Some (FFile t) ∧ text_value g p t = Ok (Some v) ∧ is_placeholder v = false.

Definition vars_ok (vars : gmap string string) : Prop :=
  map_Forall (λ _ v, lacks "010" v = true) vars.

(** What the user chose for the parameter [p] of the group [g] in the file [path]
    stays. *)
Definition keeps_settings (path g p : string) (s s' : st) : Prop :=
  vars_ok (variable_storage s) →
  vars_ok (variable_storage s') ∧
  ∀ v, user_setting (files s) path g p v → user_setting (files s') path g p v.

#[export] Instance keeps_settings_preorder path g p : PreOrder (keeps_settings path g p).
Proof.
  split; [by intros s|]. intros s1 s2 s3 H1 H2 Hv. destruct (H1 Hv) as [Hv2 Hs].
  destruct (H2 Hv2) as [Hv3 Hs']. auto 10.
Qed.

#[export] Instance keeps_settings_silent path g p : Silent (keeps_settings path g p).
Proof. by intros s c Hv. Qed.

Lemma vars_ok_grown m m' : grown m m' → vars_ok m → vars_ok m'.
Proof. intros Hg Hm k v [Hv| ->]%Hg; [by apply (Hm k)|done]. Qed.

Lemma keeps_calm {A} path g p (m : M A) : pres calm m → pres (keeps_settings path g p) m.
Proof.
  apply pres_mono. intros s s' [Hf Hg] Hv. rewrite Hf. split; [by eapply vars_ok_grown|done].
Qed.

(** Files that are only added. *)
Definition adds (s s' : st) : Prop :=
  files s' = files s ∨
  ∃ p t, files s !! p = None ∧ files s' = <[p := FFile t]> (files s).

Lemma adds_settings s s' path g p v :
  adds s s' → user_setting (files s) path g p v → user_setting (files s') path g p v.
Proof.
  intros [-> |(q & u & Hq & ->)] (t & Ht & Hv); [by exists t|]. exists t. split; [|done].
  rewrite lookup_insert_ne; [done|]. intros ->. congruence.
Qed.

Lemma keeps_adds path g p s s' :
  adds s s' → grown (variable_storage s) (variable_storage s') → keeps_settings path g p s s'.
Proof.
  intros Ha Hg Hv. split; [by eapply vars_ok_grown|]. intros v. by apply adds_settings.
Qed.

Lemma grown_same s s' : same_vars s s' → grown (variable_storage s) (variable_storage s').
Proof. intros Hv. unfold same_vars in Hv. rewrite Hv. apply calm_touch. Qed.

(** What is substituted into a value holds the bytes of the value and of the
    variables. *)
Lemma regex_replace_all f s re fmt σ r σ' :
  str_all f fmt = true → str_all f s = true → regex_replace s re fmt σ = Value r σ' →
  str_all f r = true.
Proof.
  intros Hf Hs. unfold regex_replace. destruct (regex_literal re) as [[|c m]|]; try done.
  intros [= <- _]. by apply replace_all_all.
Qed.

Lemma replace_each_all f l input σ r σ' :
  Forall (λ x, str_all f (resolver_ x.2) = true) l → str_all f input = true →
  replace_each input ∅ l σ = Value r σ' → str_all f r = true.
Proof.
  intros Hl. revert input σ; induction Hl as [|[k ph] l Hph _ IH]; intros input σ Hi.
  { by intros [= <- _]. }
  cbn [replace_each]. unfold mbind, M_bind. unfold replaceEachPh, mbind, M_bind.
  destruct (escape (pattern_ ph) σ) as [re σ1| | |]; try done.
  rewrite lookup_empty. unfold resolve. simpl.
  destruct (regex_replace input re (resolver_ ph) σ1) as [i2 σ2| | |] eqn:Hr; try done.
  apply IH. eapply regex_replace_all; [exact Hph|exact Hi|exact Hr].
Qed.

Lemma substitute_bytes f t s r :
  map_Forall (λ _ v, str_all f v = true) (variable_storage s) → str_all f t = true →
  substitute_variables t s = Value r s → str_all f r = true.
Proof.
  intros Hv Ht. apply replace_each_all; [|done]. eapply Forall_impl; [apply items_from_vars|].
  intros x (n & v & Hn & ->). by apply (Hv n).
Qed.

(** The file of the configuration [n], in whatever directory. *)
Definition file_of (n path : string) : Prop :=
  ∃ root k, path = config_file root n CFG_GENERAL k.

(** The command forces a value on the parameter. *)
Definition ensures (c : CConfigCommand) (path g p : string) : Prop :=
  cfg_action c = "ensure" ∧ file_of (cfg_name c) path ∧ cfg_group c = g ∧ cfg_param c = p.

Lemma target_file_of s n : file_of n (target_file s n).
Proof. unfold target_file, file_of. repeat case_match; eauto. Qed.

Section Settings.
Context {H : Host} (path g p : string).

Lemma settings_network cmd flags :
  wf_class (Network cmd) → net_action cmd ≠ "ensure" →
  pres (keeps_settings path g p) (execute_network cmd flags).
Proof.
  intros Hw Ha. destruct cmd as [n a v]. simpl in *. unfold execute_network. cbn [net_action].
  destruct Hw as [-> |[[-> | ->] Hv]]; simpl; [apply keeps_calm, calm_network_check| |done].
  apply pres_wp. intros s.
  assert (Hk : ∀ c, keeps_settings path g p s (set_console c (touch CONFIGS s))).
  { intros c. apply keeps_adds; [left; simpl; by autorewrite with conf|apply calm_touch]. }
  unfold network_default. cbn [net_name default_val].
  destruct Hv as [-> | ->]; simpl; conf_steps; try apply Hk;
    (apply wp_net_copy; [apply Hk|]; intros t Ht Hreq; conf_steps; file_facts;
     apply keeps_adds; [right; simpl; autorewrite with conf; eauto|apply calm_touch]).
Qed.

Lemma settings_config cmd flags :
  wf_class (Config cmd) → ¬ ensures cmd path g p →
  clean_group (cfg_group cmd) = true → clean_param (cfg_param cmd) = true →
  pres (keeps_settings path g p) (execute_config cmd flags).
Proof.
  intros (Ha & _ & _ & Hval) He Hg Hp. apply pres_wp. intros s.
  eapply wp_mono; [apply execute_config_wp| |].
  2: { intros e s' [Hf Hv]. apply keeps_adds; [by left|by apply grown_same]. }
  intros _ s' [Hstep Hv] Hok. split; [eapply vars_ok_grown; [by apply grown_same|done]|].
  intros v Hset. destruct Hstep as [|val t cfg cfg' l s1 s2 Hsub Hf Hl Hs Hd Hm Hget Hdef];
    [done|].
  assert (Hnl : lacks "010" val = true).
  { eapply substitute_bytes; [exact Hok| |exact Hsub]. by apply nospaces_NL. }
  destruct Hset as (u & Hu & Hv' & Hph).
  destruct (decide (path = target_file s (cfg_name cmd))) as [Heq|Hne].
  2: { exists u. by rewrite lookup_insert_ne. }
  rewrite Heq, Hf in Hu. injection Hu as <-. eexists. rewrite Heq. split; [apply lookup_insert_eq|].
  split; [|done]. rewrite (set_saved_text _ _ _ _ _ _ _ _ _ g p Hg Hp Hnl Hl Hs).
  case_bool_decide as Hgp; [|done]. injection Hgp as Hg' Hp'. exfalso.
  destruct Ha as [Ha|[Ha|Ha]]; [|apply He; rewrite Heq; by repeat split; auto using target_file_of|done].
  specialize (Hdef Ha). rewrite <- Hg', <- Hp', Hv' in Hdef. simpl in Hdef. congruence.
Qed.

Lemma settings_var cmd flags : wf_class (Variable_ cmd) → pres (keeps_settings path g p) (execute_var cmd flags).
Proof.
  intros [_ Hval]. apply pres_wp. intros s. unfold execute_var.
  apply wp_bind, wp_substitute. intros r Hr.
  conf_steps. intros Hok. simpl. split; [|done].
  apply map_Forall_insert_2; [|done].
  eapply substitute_bytes; [exact Hok| |exact Hr]. by apply nospaces_NL.
Qed.

Lemma populate_adds f flags s0 s :
  ends_in_slash f = false → grown (variable_storage s0) (variable_storage s) →
  files s0 !! f = None →
  (files s = files s0 ∨ ∃ t, files s = <[f := FFile t]> (files s0)) →
  wp (populate f flags) (λ _ s', keeps_settings path g p s0 s') (λ _ s', keeps_settings path g p s0 s') s.
Proof.
  intros Hp Hg Hn Hf. eapply wp_mono; [by apply populate_wp| |].
  - intros _ s' [Hv Hs]. apply keeps_adds; [|by rewrite Hv].
    destruct Hs as [Hs|(_ & _ & t & Hs)]; rewrite ?Hs; unfold adds; rewrite Hs.
    + destruct Hf as [->|[t ->]]; eauto.
    + right. exists f, t. split; [done|]. destruct Hf as [->|[u ->]]; [done|]. by rewrite insert_insert_eq.
  - intros _ s' [Hv Hs]. apply keeps_adds; [|by rewrite Hv]. unfold adds. rewrite Hs.
    destruct Hf as [->|[t ->]]; eauto.
Qed.

Lemma settings_fromtemplate cmd flags :
  tmpl_action cmd = "default" → pres (keeps_settings path g p) (execute_fromtemplate cmd flags).
Proof.
  intros Ha. apply pres_wp. intros s. unfold execute_fromtemplate. rewrite Ha. simpl.
  conf_steps; file_facts.
  - apply keeps_adds; [left; simpl; by autorewrite with conf|apply calm_touch].
  - apply wp_fs_copy_file; [apply config_file_no_slash| |].
    + apply keeps_adds; [left; simpl; by autorewrite with conf|apply calm_touch].
    + intros t _. conf_steps. apply populate_adds; simpl; autorewrite with conf;
        [apply config_file_no_slash|apply calm_touch|done|eauto].
  - apply populate_adds; simpl; autorewrite with conf;
        [apply config_file_no_slash|apply calm_touch|done|eauto].
Qed.
End Settings.

(** Commands that neither force the state of a network nor overwrite a
    configuration with its template, on names [set_] writes back. *)
Definition careful (c : command) : bool :=
  match class c with
  | Network n => negb (net_action n =s? "ensure")
  | Config n => clean_group (cfg_group n) && clean_param (cfg_param n)
  | FromTemplate n => tmpl_action n =s? "default"
  | _ => true
  end.

Definition forces (path g p : string) (c : command) : Prop :=
  match class c with
  | Config n => ensures n path g p
  | _ => False
  end.

Section SettingsRun.
Context {H : Host}.

Lemma settings_execute path g p c flags :
  wf_command c → careful c = true → ¬ forces path g p c →
  pres (keeps_settings path g p) (execute c flags).
Proof.
  intros [Hw _] Hc Hn. unfold execute, careful, forces in *.
  destruct (class c) as [n|n|n|n| |n|n|n];
    auto using settings_var, keeps_calm, calm_if, calm_net_list, calm_service.
  - apply settings_network; [done|]. intros Ha. by rewrite Ha in Hc.
  - apply andb_prop in Hc as [? ?]. by apply settings_config.
  - pres_steps.
  - by apply settings_fromtemplate, String.eqb_eq.
Qed.

(** C2 (script_keeps_user_settings): a setup script keeps every setting its user
    made, in any file, that it does not force itself: a parameter with a value
    that is not a placeholder still has that value after the run, in whatever way
    the run ends, unless some [config ... ensure] names that parameter of that
    configuration.  The script may hold any commands but [network ... ensure] and
    [fromtemplate] with another action than [default].  This is what the head of
    main.cpp promises of the tool. *)
Theorem script_keeps_user_settings cmds flags s path g p v :
  Forall wf_command cmds → forallb careful cmds = true →
  Forall (λ c, ¬ forces path g p c) cmds → vars_ok (variable_storage s) →
  user_setting (files s) path g p v →
  match run_commands cmds flags s with
  | Value _ s' | Thrown _ s' => user_setting (files s') path g p v
  | Ub | Beyond => True
  end.
Proof.
  intros Hw Hc Hn Hv Hu.
  assert (Hp : pres (keeps_settings path g p) (run_commands cmds flags)).
  { apply pres_run_commands; [apply _..|]. apply forallb_Forall in Hc.
    rewrite Forall_forall in *. intros c Hin. apply settings_execute; auto. }
  specialize (Hp s). destruct (run_commands cmds flags s) as [b s'|e s'| |]; try done;
    destruct (Hp Hv) as [_ Hs]; auto.
Qed.

End SettingsRun.

(** ** Witnesses *)
Definition demo_cmd (c : command_class) : command := {| cmd_tokens := []; class := c |}.

Lemma demo_never_both : never_both (files demo_state).
Proof.
  intros x _. simpl.
  assert (Hne : ∀ k : string, str_last k ≠ Some "s"%char → k ≠ x +:+ ".cfg.dis").
  { intros k Hk ->. apply Hk. by rewrite str_last_app by (by eexists). }
  rewrite !lookup_insert_ne by (by apply Hne). rewrite lookup_singleton_ne by (by apply Hne). done.
Qed.

Definition demo_moves : list command :=
  [demo_cmd (Network (ensure_cmd "Net" "off"));
   demo_cmd (Config (demo_config "default" "full"));
   demo_cmd (Network {| net_name := "Net"; net_action := "default"; default_val := "on" |})].

Lemma script_never_both_witness :
  never_both (files demo_state) ∧
  ∃ b s', run_commands (H:=demo_host) demo_moves 0 demo_state = Value b s' ∧ never_both (files s').
Proof.
  split; [exact demo_never_both|].
  destruct (returns_inv (run_commands (H:=demo_host) demo_moves 0 demo_state)) as (b & s' & Hr);
    [vm_compute; reflexivity|].
  exists b, s'. split; [exact Hr|].
  assert (Hc : Forall moves_networks demo_moves).
  { apply Forall_cons; split; [|apply Forall_cons; split; [|apply Forall_cons; split; [|constructor]]];
      (split; [split; [|constructor]|]).
    - right. split; right; reflexivity.
    - discriminate.
    - split; [left; reflexivity|]. repeat split.
    - exact I.
    - right. split; left; reflexivity.
    - discriminate. }
  pose proof (script_never_both (H:=demo_host) demo_moves 0 demo_state Hc demo_never_both) as Ht.
  rewrite Hr in Ht. exact Ht.
Defined.

Lemma build_well_typed_witness :
  ∃ c s', build "network Net default on" demo_state = Value (Some c) s' ∧ wf_command c.
Proof.
  destruct (build "network Net default on" demo_state) as [[c|] s'|e s'| |] eqn:Hb;
    try (vm_compute in Hb; discriminate Hb).
  exists c, s'. split; [reflexivity|].
  exact (build_well_typed "network Net default on" demo_state c s' Hb).
Defined.
