(* ===== verification/ConfRun.v ===== *)
(** * Scripts as a whole

    The flat interpreter against a structured semantics of conditions, the
    parsing of setup files, and what the command line of cellframe-node-config
    guarantees. *)
From S2P Require Import CLib.
From S2P Require Export ConfInv.

(** ** Structured scripts

    A script whose conditions are properly nested.  In [sem] a command runs under
    the condition of the block it stands in, which is evaluated again for each
    command; the conditions of the blocks around are not consulted. *)
Inductive blocks :=
  | BEnd
  | BCmd (c : command) (rest : blocks)
  | BIf (cond : command) (body : blocks) (close : command) (rest : blocks).

Fixpoint flatten (b : blocks) : list command :=
  match b with
  | BEnd => []
  | BCmd c rest => c :: flatten rest
  | BIf cond body close rest => cond :: flatten body ++ close :: flatten rest
  end.

Fixpoint wf_blocks (b : blocks) : bool :=
  match b with
  | BEnd => true
  | BCmd c rest => negb (is_condition_open c) && negb (is_condition_close c) && wf_blocks rest
  | BIf cond body close rest =>
      is_condition_open cond && wf_blocks body && is_condition_close close && wf_blocks rest
  end.

Section Sem.
Context {H : Host}.

Definition guarded (guard : option command) (c : command) (flags : Z) : M unit :=
  match guard with
  | Some cond => passed ← execute cond flags; when passed (execute c flags;; mret tt)
  | None => execute c flags;; mret tt
  end.

Fixpoint sem (guard : option command) (b : blocks) (flags : Z) : M unit :=
  match b with
  | BEnd => mret tt
  | BCmd c rest => guarded guard c flags;; sem guard rest flags
  | BIf cond body _ rest => sem (Some cond) body flags;; sem guard rest flags
  end.

Lemma bind_assoc_M {A B C} (m : M A) (k : A → M B) (h : B → M C) s :
  ((m ≫= k) ≫= h) s = (m ≫= (λ a, k a ≫= h)) s.
Proof. unfold mbind, M_bind. by destruct (m s). Qed.

Lemma bind_ext_M {A B} (m : M A) (k k' : A → M B) s :
  (∀ a s, k a s = k' a s) → (m ≫= k) s = (m ≫= k') s.
Proof. intros Hk. unfold mbind, M_bind. by destruct (m s). Qed.

Lemma close_not_open c : is_condition_close c = true → is_condition_open c = false.
Proof. unfold is_condition_close, is_condition_open. by destruct (class c). Qed.

Lemma removelast_snoc {A} (l : list A) x : removelast (l ++ [x]) = l.
Proof. apply List.removelast_last. Qed.

Lemma run_loop_sem b rest stack flags s :
  wf_blocks b = true → flag flags F_VERBOSE = false →
  run_loop (flatten b ++ rest) stack flags s =
    (sem (last stack) b flags;; run_loop rest stack flags) s.
Proof.
  intros Hw Hv. revert rest stack s Hw; induction b as [|c b IH|cond body IHb close b IH];
    intros rest stack s Hw; simpl in Hw; [done| |].
  - apply andb_prop in Hw as [[Ho Hc]%andb_prop Hw].
    apply negb_true_iff in Ho, Hc.
    cbn [flatten app run_loop sem]. rewrite Ho, Hc. simpl. rewrite bind_assoc_M.
    apply (bind_ext_M (guarded (last stack) c flags)). intros _ s1. by apply IH.
  - apply andb_prop in Hw as [[[Ho Hb]%andb_prop Hc]%andb_prop Hw].
    cbn [flatten app run_loop sem]. unfold next_stack at 1, verbose at 1. rewrite Ho, Hv.
    cbn [orb when]. rewrite bind_assoc_M.
    change (run_loop ((flatten body ++ close :: flatten b) ++ rest) (stack ++ [cond]) flags s =
            (sem (Some cond) body flags ≫= (λ _, sem (last stack) b flags;; run_loop rest stack flags)) s).
    rewrite <- app_assoc, IHb by done. rewrite last_snoc. apply bind_ext_M. intros _ s1.
    cbn [app run_loop]. unfold next_stack, verbose. rewrite (close_not_open close Hc), Hc, Hv.
    cbn [orb when]. destruct (stack ++ [cond]) as [|d l] eqn:Hs; [by destruct stack|].
    rewrite <- Hs, removelast_snoc. by apply IH.
Qed.

(** C14 (run_commands_structured): on a script whose conditions are properly
    nested the interpreter, which only keeps a stack of open conditions, computes
    the structured semantics: each command runs exactly when the condition of its
    own block holds at that moment, and an [endif] returns to the block around. *)
Theorem run_commands_structured b flags s :
  wf_blocks b = true → flag flags F_VERBOSE = false →
  run_commands (flatten b) flags s = (sem None b flags;; mret true) s.
Proof.
  intros Hw Hv. unfold run_commands. rewrite <- (app_nil_r (flatten b)).
  unfold mbind at 1, M_bind. rewrite run_loop_sem by done. simpl.
  unfold mbind, M_bind. by destruct (sem None b flags s) as [[] s'| | |].
Qed.

End Sem.

(** ** Parsing has no undefined behaviour

    [no_ub m]: no state makes the code undefined. *)
Definition no_ub {A} (m : M A) : Prop := ∀ s, m s ≠ Ub.

Lemma no_ub_bind {A B} (m : M A) (k : A → M B) : no_ub m → (∀ a, no_ub (k a)) → no_ub (m ≫= k).
Proof.
  intros Hm Hk s. unfold mbind, M_bind. specialize (Hm s). destruct (m s); try done. apply Hk.
Qed.

Lemma no_ub_at {A B} (v : list A) i (k : A → M B) :
  (i < length v)%nat → (∀ a, no_ub (k a)) → no_ub (at_ v i ≫= k).
Proof.
  intros Hi Hk. destruct (lookup_lt_is_Some_2 v i Hi) as [a Ha]. unfold at_. rewrite Ha. apply Hk.
Qed.

Ltac ub_steps :=
  repeat (cbv beta zeta;
    match goal with
    | |- no_ub (at_ _ _ ≫= _) => apply no_ub_at; [lia|intros ?]
    | |- no_ub (_ ≫= _) => apply no_ub_bind; [|intros ?]
    | |- no_ub (_ <$> _) => apply no_ub_bind; [|intros ?]
    | |- no_ub (if bool_decide ?P then _ else _) => destruct (bool_decide P) eqn:?;
          repeat match goal with
                 | E : bool_decide _ = true |- _ => apply bool_decide_eq_true in E
                 | E : bool_decide _ = false |- _ => apply bool_decide_eq_false in E
                 end
    | |- no_ub (match ?x with _ => _ end) => destruct x eqn:?
    | |- no_ub _ => by intros ?
    end).

Lemma no_ub_verbose flags t : no_ub (verbose flags t).
Proof. intros s. unfold verbose, when. by destruct (flag _ _). Qed.
#[export] Hint Resolve no_ub_verbose : node.

(** No constructor reads beyond its tokens. *)
Lemma no_ub_registry name create t : registry name = Some create → no_ub (create t).
Proof.
  unfold registry. intros Hr. repeat case_match; simplify_eq; ub_steps;
    unfold new_network, new_config, new_var, new_if, new_fromtemplate, new_net_list, new_service;
    ub_steps.
Qed.

Lemma no_ub_parse_line line n flags :
  tokenize line re_blanks ≠ [] → no_ub (parse_line_to_cmd line n flags).
Proof.
  intros Ht. unfold parse_line_to_cmd, build.
  assert (Hl : (0 < length (tokenize line re_blanks))%nat) by (destruct (tokenize _ _); [done|simpl; lia]).
  apply no_ub_bind.
  - apply no_ub_at; [done|]. intros a. destruct (registry a) eqn:Hr; [|by intros ?].
    apply no_ub_bind; [by eapply no_ub_registry|by intros ? ?].
  - intros [c|]; [|by intros ?]. apply no_ub_bind; [apply no_ub_verbose|by intros ? ?].
Qed.

Lemma strip_first l c r : strip l = String c r → is_space c = false.
Proof.
  unfold strip, trim. pose proof (ltrim_head (rtrim l)) as Hh.
  destruct (ltrim (rtrim l)) as [|d t]; [done|]. rewrite before_cons.
  destruct (d =? "#")%char; [done|]. by intros [= -> _].
Qed.

Lemma strip_tokens l : is_empty (strip l) = false → tokenize (strip l) re_blanks ≠ [].
Proof.
  destruct (strip l) as [|c r] eqn:Hs; [done|]. intros _. apply strip_first in Hs.
  unfold tokenize. cbn [pieces re_blanks]. rewrite Hs.
  destruct (pieces re_blanks 0 r) as [|p ps]; cbn [push]; by rewrite filter_cons_True.
Qed.

Lemma no_ub_parse_lines ls n flags : no_ub (parse_lines ls n flags).
Proof.
  revert n; induction ls as [|l ls IH]; intros n; [by intros ?|]. cbn [parse_lines].
  destruct (is_empty (strip l)) eqn:He; [apply IH|].
  apply no_ub_bind; [by apply no_ub_parse_line, strip_tokens|]. intros c.
  apply no_ub_bind; [apply IH|by intros ? ?].
Qed.

Lemma no_ub_parse_setup_file name flags : no_ub (parse_setup_file name flags).
Proof.
  apply no_ub_bind; [by intros ?|]. intros ls.
  apply no_ub_bind; [apply no_ub_verbose|intros _; apply no_ub_parse_lines].
Qed.

(** Reading a setup script has no undefined
    behaviour, whatever the file holds: no constructor indexes beyond its tokens,
    and a line that is left after trimming and removing comments has a token. *)
Theorem parse_setup_file_defined name flags s : parse_setup_file name flags s ≠ Ub.
Proof. apply no_ub_parse_setup_file. Qed.

(** ** Unknown commands *)
Definition unknown_line (l : string) : Prop :=
  ∃ t ts, tokenize (strip l) re_blanks = t :: ts ∧ registry t = None.

Lemma parse_lines_unknown ls n flags s :
  Exists unknown_line ls → returns (parse_lines ls n flags s) = false.
Proof.
  intros Hu. revert n s; induction Hu as [l ls (t & ts & Ht & Hr)|l ls _ IH]; intros n s;
    cbn [parse_lines].
  - destruct (is_empty (strip l)) eqn:He.
    { apply String.eqb_eq in He. rewrite He in Ht. by vm_compute in Ht. }
    unfold parse_line_to_cmd, build. rewrite Ht. unfold at_. simpl.
    unfold mbind, M_bind. simpl. by rewrite Hr.
  - destruct (is_empty (strip l)); [apply IH|]. unfold mbind, M_bind.
    destruct (parse_line_to_cmd _ _ _ _) as [c s1| | |]; try done.
    specialize (IH (S n) s1). by destruct (parse_lines ls (S n) flags s1).
Qed.

(** Everything that is parsed is well-formed. *)
Lemma wf_parse_lines ls n flags s :
  wp (parse_lines ls n flags) (λ cs _, Forall wf_command cs) (λ _ _, True) s.
Proof.
  revert n s; induction ls as [|l ls IH]; intros n s; cbn [parse_lines]; [by apply wp_ret|].
  destruct (is_empty (strip l)); [apply IH|]. apply wp_bind. unfold parse_line_to_cmd.
  apply wp_bind. eapply wp_mono; [apply wf_build| |done]. intros [c|] s1 Hc; [|by apply wp_throw].
  wp_steps; (eapply wp_mono; [apply IH| |done]); intros cs s2 Hcs;
    apply wp_ret; by constructor.
Qed.

Lemma wf_parse_setup_file name flags s :
  wp (parse_setup_file name flags) (λ cs _, Forall wf_command cs) (λ _ _, True) s.
Proof.
  unfold parse_setup_file. apply wp_bind. unfold wp, read_lines. apply wp_bind. wp_steps.
  apply wf_parse_lines.
Qed.

Lemma calm_parse_line line n flags : pres calm (parse_line_to_cmd line n flags).
Proof. unfold parse_line_to_cmd. pres_steps. apply calm_build. Qed.

Lemma calm_parse_lines ls n flags : pres calm (parse_lines ls n flags).
Proof.
  revert n; induction ls as [|l ls IH]; intros n; [by apply pres_ret; exact _|].
  cbn [parse_lines]. pres_steps; auto using calm_parse_line.
Qed.

Section Main.
Context {H : Host}.

(** C32 (init_rejects_unknown): a setup script with an unknown command on any line
    is rejected as a whole: [init_configs] does not return success, and no file
    has changed, not even by the commands on the lines before. *)
Theorem init_rejects_unknown name flags s :
  is_empty name = false → present (files s) name = true →
  Exists unknown_line (lines_at (files s) name) →
  match init_configs name flags s with
  | Thrown _ s' => files s' = files s
  | Value _ _ | Ub => False
  | Beyond => True
  end.
Proof.
  intros Hn Hp Hu. unfold init_configs. rewrite Hn.
  unfold mbind, M_bind, fs_exists. rewrite Hp. simpl. unfold parse_setup_file.
  set (s1 := set_console _ _).
  assert (Hf : files s1 = files s) by apply touch_files.
  unfold mbind, M_bind. change (read_lines name s1) with (Value (lines_at (files s1) name) s1).
  rewrite Hf. cbv beta iota. pose proof (only_prints_verbose flags
    ("[V] Parsing " +:+ name +:+ " as setup-script" +:+ NL) s1) as [c ->]. simpl.
  pose proof (parse_lines_unknown _ 0 flags (set_console c s1) Hu) as Hr.
  pose proof (calm_parse_lines (lines_at (files s) name) 0 flags (set_console c s1)) as Hc.
  pose proof (no_ub_parse_lines (lines_at (files s) name) 0 flags (set_console c s1)) as Hub.
  destruct (parse_lines _ _ _ _) as [cs s2|e s2| |]; try done.
  destruct Hc as [Hc _]. by rewrite Hc.
Qed.

Lemma same_files_storage_set k v : pres same_files (storage_set k v).
Proof. by intros s. Qed.

Lemma same_files_registry key v d : pres same_files (GetStringRegKey key v d).
Proof. unfold GetStringRegKey. pres_steps. Qed.
Hint Resolve same_files_storage_set same_files_registry : node.

Lemma same_files_populate base : pres same_files (populate_variables base).
Proof. unfold populate_variables, getNodeConfigPath, getNodeBinaryPath. pres_steps. Qed.

Lemma same_files_parse_exec ls i flags : pres same_files (parse_exec ls i flags).
Proof.
  revert i; induction ls as [|l ls IH]; intros i; [by apply pres_ret; exact _|].
  cbn [parse_exec]. pres_steps. apply calm_same_files, calm_parse_line.
Qed.

Lemma dry_init name flags :
  flag flags F_DRYRUN = true → pres same_files (init_configs name flags).
Proof.
  intros Hd. unfold init_configs, parse_setup_file.
  pres_steps; auto using dry_run_commands, calm_same_files, calm_parse_lines, calm_storage.
Qed.

(** ** What is spawned

    Only a [service] command spawns anything. *)
Definition no_spawn (s s' : st) : Prop := spawned s' = spawned s.

#[local] Instance no_spawn_preorder : PreOrder no_spawn.
Proof. split; [done|]. intros s1 s2 s3 H1 H2. unfold no_spawn in *. congruence. Qed.

#[local] Instance no_spawn_silent : Silent no_spawn.
Proof. done. Qed.

Lemma no_spawn_stays {A} (m : M A) : stays m → pres no_spawn m.
Proof. intros Hm s. destruct (Hm s) as [[a ->]| ->]; done. Qed.

Lemma no_spawn_storage k : pres no_spawn (storage k).
Proof. intros s. rewrite storage_touch. apply touch_spawned. Qed.

Lemma no_spawn_config_path n t k : pres no_spawn (config_path n t k).
Proof. intros s. apply touch_spawned. Qed.

Lemma no_spawn_get_config_path k : pres no_spawn (get_config_path k).
Proof. intros s. apply touch_spawned. Qed.

Lemma no_spawn_substitute t : pres no_spawn (substitute_variables t).
Proof. apply no_spawn_stays, stays_substitute. Qed.

Lemma no_spawn_replace_lines ls : pres no_spawn (replace_lines ls).
Proof. apply no_spawn_stays, stays_replace_lines. Qed.

Lemma no_spawn_storage_set k v : pres no_spawn (storage_set k v).
Proof. by intros s. Qed.

Lemma no_spawn_storage_items : pres no_spawn storage_items.
Proof. by intros s. Qed.

Lemma no_spawn_registry_key key v d : pres no_spawn (GetStringRegKey key v d).
Proof. unfold GetStringRegKey. pres_steps. Qed.

Lemma no_spawn_write_file p t : pres no_spawn (write_file p t).
Proof. intros s. unfold write_file, put_file. repeat case_match; simplify_eq; done. Qed.

Lemma no_spawn_copy_file b p q : pres no_spawn (fs_copy_file b p q).
Proof. intros s. unfold fs_copy_file, put_file. repeat case_match; simplify_eq; done. Qed.

Lemma no_spawn_copy p q : pres no_spawn (fs_copy p q).
Proof.
  intros s. pose proof (no_spawn_copy_file false p q s) as Hc. unfold fs_copy.
  by destruct (node_at (files s) p) as [[]|], (node_at (files s) q) as [[]|].
Qed.

Lemma no_spawn_rename p q : pres no_spawn (fs_rename p q).
Proof. intros s. unfold fs_rename. repeat case_match; simplify_eq; done. Qed.

Lemma no_spawn_exists cfg g p : pres no_spawn (exists_ cfg g p).
Proof. eapply (pres_only_prints no_spawn), exists_scan. Qed.

Lemma no_spawn_is_directory p : pres no_spawn (is_directory p).
Proof. by intros s. Qed.

Lemma no_spawn_list_files p : pres no_spawn (list_files p).
Proof. by intros s. Qed.

Hint Resolve no_spawn_storage no_spawn_config_path no_spawn_get_config_path no_spawn_substitute
  no_spawn_replace_lines no_spawn_storage_set no_spawn_storage_items no_spawn_registry_key no_spawn_write_file
  no_spawn_copy_file no_spawn_copy no_spawn_rename no_spawn_exists no_spawn_is_directory no_spawn_list_files : node.

Definition spawning (c : command) : bool := match class c with Service _ => true | _ => false end.

Lemma execute_no_spawn c flags : spawning c = false → pres no_spawn (execute c flags).
Proof.
  unfold spawning, execute. intros Hc. destruct (class c); [..|done].
  - unfold execute_network, network_default, network_ensure, network_check. pres_steps.
  - unfold execute_config, config_target, open_cfg, config_default, config_ensure, config_get, set_, save. pres_steps.
  - unfold execute_var. pres_steps.
  - unfold execute_if. pres_steps.
  - pres_steps.
  - unfold execute_fromtemplate, populate, open_cfg, replace_placeholders, save. pres_steps.
  - unfold execute_net_list. pres_steps.
Qed.

Lemma run_no_spawn cmds flags : Forall (λ c, spawning c = false) cmds → pres no_spawn (run_commands cmds flags).
Proof.
  intros Hc. apply (pres_run_commands no_spawn). eapply Forall_impl; [exact Hc|]. intros c. apply execute_no_spawn.
Qed.

Lemma parse_line_no_spawn line n flags : pres no_spawn (parse_line_to_cmd line n flags).
Proof.
  unfold parse_line_to_cmd, build. pres_steps. destruct (registry _) as [create|] eqn:Hr; pres_steps.
  unfold registry in Hr. repeat case_match; simplify_eq; pres_steps;
    unfold new_network, new_config, new_var, new_if, new_fromtemplate, new_net_list, new_service; pres_steps.
Qed.

Lemma parse_lines_no_spawn ls n flags : pres no_spawn (parse_lines ls n flags).
Proof.
  revert n; induction ls as [|l ls IH]; intros n; [by apply (pres_ret no_spawn)|].
  cbn [parse_lines]. pres_steps; auto using parse_line_no_spawn.
Qed.

Lemma parse_exec_no_spawn ls n flags : pres no_spawn (parse_exec ls n flags).
Proof.
  revert n; induction ls as [|l ls IH]; intros n; [by apply (pres_ret no_spawn)|].
  cbn [parse_exec]. pres_steps; auto using parse_line_no_spawn.
Qed.

(** The line is not a [service] command. *)
Definition not_service (line : string) : Prop := head (tokenize line re_blanks) ≠ Some "service".

Lemma wp_any {A} (m : M A) Q X s : (∀ a s', Q a s') → (∀ e s', X e s') → wp m Q X s.
Proof. intros HQ HX. unfold wp. destruct (m s); auto. Qed.

Lemma parse_line_not_service line n flags s :
  not_service line → wp (parse_line_to_cmd line n flags) (λ c _, spawning c = false) (λ _ _, True) s.
Proof.
  unfold not_service, parse_line_to_cmd, build. intros Hn. apply wp_bind, wp_bind. unfold at_.
  destruct (tokenize line re_blanks) as [|t ts]; [done|]. simpl in *. apply wp_ret.
  destruct (registry t) as [create|] eqn:Hr; [|apply wp_ret; by apply wp_throw].
  assert (Hcl : ∀ s, wp (create (t :: ts)) (λ c _, match c with Service _ => False | _ => True end) (λ _ _, True) s).
  { intros s1. unfold registry in Hr. destruct (t =s? "service") eqn:Ht; [apply String.eqb_eq in Ht; congruence|].
    repeat (destruct (t =s? _); [simplify_eq; try (apply wp_bind, wp_any; [|done]; by intros; apply wp_ret); by apply wp_ret|]).
    done. }
  apply wp_bind. eapply wp_mono; [apply Hcl| |done]. intros cl s1 Hc1. apply wp_ret.
  apply wp_bind, wp_any; [|done]. intros _ s2. apply wp_ret. unfold spawning. simpl. by destruct cl.
Qed.

Lemma parse_lines_not_service ls n flags s :
  Forall not_service (strip <$> ls) →
  wp (parse_lines ls n flags) (λ cs _, Forall (λ c, spawning c = false) cs) (λ _ _, True) s.
Proof.
  revert n s; induction ls as [|l ls IH]; intros n s Hl; cbn [parse_lines]; [by apply wp_ret|].
  apply Forall_cons in Hl as [Hn Hl]. destruct (is_empty (strip l)); [by apply IH|].
  apply wp_bind. eapply wp_mono; [by apply parse_line_not_service| |done]. intros c s1 Hc.
  apply wp_bind. eapply wp_mono; [by apply IH| |done]. intros cs s2 Hcs. apply wp_ret. by constructor.
Qed.

Lemma parse_exec_not_service ls n flags s :
  Forall not_service ls →
  wp (parse_exec ls n flags) (λ cs _, Forall (λ c, spawning c = false) cs) (λ _ _, True) s.
Proof.
  intros Hl. revert n s; induction Hl as [|l ls Hn _ IH]; intros n s; cbn [parse_exec]; [by apply wp_ret|].
  apply wp_bind. eapply wp_mono; [by apply parse_line_not_service| |done]. intros c s1 Hc.
  apply wp_bind. eapply wp_mono; [by apply IH| |done]. intros cs s2 Hcs. apply wp_ret. by constructor.
Qed.

(** A list of commands without [service] that is read and run. *)
Lemma parsed_no_spawn {A} (parse : M (list command)) (k : M A) flags s0 s :
  pres no_spawn parse → wp parse (λ cs _, Forall (λ c, spawning c = false) cs) (λ _ _, True) s →
  pres no_spawn k → no_spawn s0 s →
  wp (cs ← parse; run_commands cs flags;; k) (λ _ s', no_spawn s0 s') (λ _ s', no_spawn s0 s') s.
Proof.
  intros Hp Hq Hk Hs. apply wp_bind. specialize (Hp s). unfold wp in *.
  destruct (parse s) as [cs s1|e s1| |]; try done; [|by transitivity s].
  pose proof (pres_bind no_spawn (run_commands cs flags) (λ _, k) (run_no_spawn cs flags Hq) (λ _, Hk) s1) as Hr.
  simpl in Hr |- *. destruct ((run_commands cs flags;; k) s1); try done; by do 2 etransitivity.
Qed.

(** The command lines the tool is given: those of the setup script, or those
    after [-e]. *)
Definition given_lines (argv : list string) (fs : gmap string fnode) : list string :=
  if option2 argv "-i" "--init" then strip <$> lines_at fs (getCmdOption argv "--init" "-i")
  else if option2 argv "-e" "--exec"
  then exec_lines "" (tail (find_arg argv (if cmdOptionExists argv "--exec" then "--exec" else "-e")))
  else [].

Lemma no_spawn_populate base : pres no_spawn (populate_variables base).
Proof. unfold populate_variables, getNodeConfigPath, getNodeBinaryPath. pres_steps. Qed.

Lemma no_spawn_init name flags s :
  Forall not_service (strip <$> lines_at (files s) name) →
  wp (init_configs name flags) (λ _ s', no_spawn s s') (λ _ s', no_spawn s s') s.
Proof.
  intros Hl. unfold init_configs, parse_setup_file. destruct (is_empty name); [by wp_steps|].
  apply wp_bind. unfold fs_exists. cbv beta. unfold wp at 1. destruct (present _ _); simpl negb; cbv iota; [|by wp_steps].
  apply wp_bind. unfold wp at 1. rewrite storage_touch. cbv beta iota.
  apply wp_bind, wp_say. intros c. apply (parsed_no_spawn _ (mret 0%Z)).
  - pres_steps. apply parse_lines_no_spawn.
  - apply wp_bind. unfold wp at 1, read_lines. wp_steps. apply parse_lines_not_service. simpl. by rewrite touch_files.
  - by apply (pres_ret no_spawn).
  - unfold no_spawn. simpl. by rewrite touch_spawned.
Qed.

Lemma main_no_spawn argv s :
  Forall not_service (given_lines argv (files s)) →
  wp (main argv) (λ _ s', no_spawn s s') (λ _ s', no_spawn s s') s.
Proof.
  intros Hl. unfold main. apply wp_bind.
  pose proof (no_spawn_populate "" s) as Hp. pose proof (same_files_populate "" s) as Hf. unfold wp at 1.
  destruct (populate_variables "" s) as [u s1|e s1| |]; try done.
  change (files s1 = files s) in Hf. rewrite <- Hf in Hl. unfold given_lines in Hl. unfold print_help.
  assert (Hdone : ∀ (m : M Z) s2, pres no_spawn m → no_spawn s s2 → wp m (λ _, no_spawn s) (λ _, no_spawn s) s2).
  { intros m s2 Hm H2. specialize (Hm s2). unfold wp. destruct (m s2); try done; by etransitivity. }
  destruct (option2 argv "-h" "--help"); [apply Hdone; [pres_steps|done]|].
  destruct (option2 argv "--vars" "-s"); [apply Hdone; [pres_steps|done]|].
  set (flags := if option2 argv "--dryrun" "-d" then _ else _). apply wp_bind.
  assert (Hpath : ∃ s2, when (negb (is_empty (getCmdOption argv "--path" "-p")))
            (storage_set "CONFIGS_PATH" (getCmdOption argv "--path" "-p")) s1 = Value tt s2 ∧
            files s2 = files s1 ∧ spawned s2 = spawned s1).
  { destruct (negb _); simpl; eauto. }
  destruct Hpath as (s2 & Hw & Hf2 & Hsp). unfold wp at 1. rewrite Hw. rewrite <- Hf2 in Hl.
  assert (H2 : no_spawn s s2) by (unfold no_spawn in *; congruence).
  destruct (option2 argv "-i" "--init").
  { eapply wp_mono; [by apply no_spawn_init|intros; by etransitivity..]. }
  destruct (option2 argv "-e" "--exec"); [|apply Hdone; [pres_steps|done]].
  apply (parsed_no_spawn _ (mret 0%Z)); [apply parse_exec_no_spawn|by apply parse_exec_not_service| |done].
  by apply (pres_ret no_spawn).
Qed.

Lemma main_dry_same_files argv :
  option2 argv "--dryrun" "-d" = true → pres same_files (main argv).
Proof.
  intros Hd. unfold main. rewrite Hd.
  set (flags := Z.lor _ F_DRYRUN).
  assert (Hf : flag flags F_DRYRUN = true) by (unfold flags; by destruct (option2 argv "--verbose" "-v")).
  pres_steps; auto using same_files_populate, dry_init, same_files_parse_exec, dry_run_commands.
  - unfold print_help. pres_steps.
  - intros s. simpl. reflexivity.
  - unfold print_help. pres_steps.
Qed.

(** C20 (main_dry_run_keeps_files): cellframe-node-config with [-d] or [--dryrun],
    whatever other options, setup script or commands it is given and however it
    ends, changes no file itself; and if none of the commands it is given is a
    [service] command, it spawns no other program either, so that nothing at all
    is changed.  (A [service] command runs [systemctl] and the like also in a dry
    run: [dry_run_service].) *)
Theorem main_dry_run_keeps_files argv s :
  option2 argv "--dryrun" "-d" = true →
  match main argv s with
  | Value _ s' | Thrown _ s' =>
      files s' = files s ∧
      (Forall not_service (given_lines argv (files s)) → spawned s' = spawned s)
  | Ub | Beyond => True
  end.
Proof.
  intros Hd. pose proof (main_dry_same_files argv Hd s) as Hf. pose proof (main_no_spawn argv s) as Hs.
  unfold wp in Hs. destruct (main argv s); done.
Qed.

End Main.

(** ** Witnesses and examples *)
Definition demo_argv : list string :=
  ["cellframe-node-config"; "-d"; "-p"; "/opt"; "-e"; "network"; "Net"; "ensure"; "off"].

Lemma main_dry_run_keeps_files_witness :
  ∃ z s', main (H:=demo_host) demo_argv demo_state = Value z s' ∧ files s' = files demo_state ∧
          spawned s' = spawned demo_state.
Proof.
  destruct (returns_inv (main (H:=demo_host) demo_argv demo_state)) as (z & s' & Hm);
    [vm_compute; reflexivity|].
  exists z, s'. split; [exact Hm|].
  pose proof (main_dry_run_keeps_files (H:=demo_host) demo_argv demo_state eq_refl) as Ht.
  rewrite Hm in Ht. destruct Ht as [Hf Hs]. split; [exact Hf|]. apply Hs.
  constructor; [|constructor]. apply (bool_decide_eq_true_1 _). vm_compute. reflexivity.
Defined.

(** A dry run runs the commands of a [service] command all the same. *)
Example dry_run_service :
  match main (H:=demo_host) ["cellframe-node-config"; "-d"; "-e"; "service"; "disable"] demo_state with
  | Value _ s' => spawned s' = spawned demo_state ++ ["systemctl disable cellframe-node.service > /dev/null"]
  | _ => False
  end.
Proof. vm_compute. reflexivity. Qed.

Definition demo_if (op : E_COND_OPS) (a b : string) : command :=
  demo_cmd (ConditionOpen {| cond_op := op; arg1 := a; arg2 := b |}).
Definition demo_endif : command := demo_cmd ConditionClose.
Definition demo_var (n v : string) : command := demo_cmd (Variable_ {| var_name := n; var_val := v |}).

Definition demo_blocks : blocks :=
  BIf (demo_if COND_EQUAL "a" "b") (BCmd (demo_var "X" "1") BEnd) demo_endif
    (BCmd (demo_var "Y" "2") BEnd).

Lemma run_commands_structured_witness :
  run_commands (H:=demo_host) (flatten demo_blocks) 0 demo_state =
    (sem (H:=demo_host) None demo_blocks 0;; mret true) demo_state.
Proof. exact (run_commands_structured (H:=demo_host) demo_blocks 0 demo_state eq_refl eq_refl). Defined.

Definition bad_script : st :=
  set_files (<["s.setup" := FFile ("network Net ensure off" +:+ NL +:+ "frobnicate" +:+ NL)]>
              (files demo_state)) demo_state.

Lemma init_rejects_unknown_witness :
  match init_configs (H:=demo_host) "s.setup" 0 bad_script with
  | Thrown _ s' => files s' = files bad_script
  | Value _ _ | Ub => False
  | Beyond => True
  end.
Proof.
  apply (init_rejects_unknown (H:=demo_host) "s.setup" 0 bad_script).
  - reflexivity.
  - vm_compute; reflexivity.
  - right. left. exists "frobnicate", []. split; vm_compute; reflexivity.
Defined.

(** What the final variables of a run hold. *)
Definition final_var (o : outcome bool) (n : string) : option string :=
  match o with Value _ s => variable_storage s !! n | _ => None end.

(** The condition of an outer block does not bind the commands of an inner one. *)
Example nested_condition_ignored :
  final_var (run_commands (H:=demo_host)
               [demo_if COND_EQUAL "a" "b"; demo_if COND_EQUAL "a" "a"; demo_var "X" "1";
                demo_endif; demo_endif] 0 demo_state) "X" = Some "1".
Proof. vm_compute. reflexivity. Qed.

(** [if ${VAR}] runs its block when the value is empty, not when it is set. *)
Example is_set_inverted :
  final_var (run_commands (H:=demo_host)
               [demo_if COND_IS_SET "${CONFIGS_PATH}" ""; demo_var "X" "1"; demo_endif] 0 demo_state)
            "X" = None.
Proof. vm_compute. reflexivity. Qed.

(** An [endif] without [if], or [-e] without a command, is undefined. *)
Example stray_endif : run_commands (H:=demo_host) [demo_endif] 0 demo_state = Ub.
Proof. reflexivity. Qed.

Example empty_exec : main (H:=demo_host) ["cellframe-node-config"; "-e"] demo_state = Ub.
Proof. reflexivity. Qed.

(** The file the option [--dry-run] of the help text was to protect is moved. *)
Definition enabled_after (argv : list string) : bool :=
  match main (H:=demo_host) argv demo_state with
  | Value _ s => present (files s) "/opt/etc/network/Net.cfg"
  | _ => false
  end.

Example dry_run_misspelt :
  enabled_after ["cellframe-node-config"; "--dry-run"; "-p"; "/opt"; "-e"; "network"; "Net";
                 "ensure"; "off"] = false ∧
  enabled_after ["cellframe-node-config"; "--dryrun"; "-p"; "/opt"; "-e"; "network"; "Net";
                 "ensure"; "off"] = true.
Proof. split; vm_compute; reflexivity. Qed.

(** [fromtemplate] enables a network that its user disabled, and leaves it with
    both files. *)
Definition disabled_state : st :=
  set_files (<["/opt/etc/network/Net.cfg.dis" := FFile ""]>
              (base.delete "/opt/etc/network/Net.cfg" (files demo_state))) demo_state.

Example fromtemplate_makes_both :
  match execute_fromtemplate (H:=demo_host) {| tmpl_name := "Net"; tmpl_action := "default" |} 0
          disabled_state with
  | Value _ s => present (files s) "/opt/etc/network/Net.cfg"
                 && present (files s) "/opt/etc/network/Net.cfg.dis"
  | _ => false
  end = true.
Proof. vm_compute. reflexivity. Qed.
