(* ===== verification/ConfSim.v ===== *)
(** * What the output does not influence

    [≈] relates states that differ in what was printed, and [sim R] relates code
    that, started in such states, ends the same way: with values related by [R],
    with exceptions (whatever their texts), or undefined.  It is proved for every
    command with any two sets of flags that agree on the dry run, so that the
    verbose option only prints. *)
From S2P Require Import CLib.
From S2P Require Export ConfRun.

(** ** States up to the console *)
Definition st_eq (s s' : st) : Prop :=
  variable_storage s = variable_storage s' ∧ files s = files s' ∧ spawned s = spawned s'.

Infix "≈" := st_eq (at level 70) : node_scope.

#[export] Instance st_eq_equivalence : Equivalence st_eq.
Proof.
  split.
  - by intros s.
  - intros s s' (? & ? & ?). by repeat split.
  - intros s1 s2 s3 (? & ? & ?) (? & ? & ?). repeat split; congruence.
Qed.

Definition out_rel {A B} (R : A → B → Prop) (o : outcome A) (o' : outcome B) : Prop :=
  match o, o' with
  | Value a s, Value b s' => R a b ∧ s ≈ s'
  | Thrown _ s, Thrown _ s' => s ≈ s'
  | Ub, Ub | Beyond, Beyond => True
  | _, _ => False
  end.

Definition sim {A B} (R : A → B → Prop) (m : M A) (m' : M B) : Prop :=
  ∀ s s', s ≈ s' → out_rel R (m s) (m' s').

Section Rules.
Context {A B : Type}.
Implicit Types (R : A → B → Prop).

Lemma sim_ret R a b : R a b → sim R (mret a) (mret b).
Proof. by intros HR s s' Hs. Qed.

Lemma sim_throw R e e' : sim R (throw e) (throw e').
Proof. by intros s s' Hs. Qed.

Lemma sim_undef R : sim R undef undef.
Proof. by intros s s' Hs. Qed.

Lemma sim_bind {A' B'} R (R' : A' → B' → Prop) m m' k k' :
  sim R m m' → (∀ a b, R a b → sim R' (k a) (k' b)) → sim R' (m ≫= k) (m' ≫= k').
Proof.
  intros Hm Hk s s' Hs. specialize (Hm s s' Hs). unfold mbind, M_bind.
  destruct (m s), (m' s'); simpl in Hm; try done. destruct Hm as [HR Ht]. by apply Hk.
Qed.

(** Code that only depends on the state up to the console. *)
Lemma sim_settled (m : M A) : settled m → sim eq m m.
Proof. intros [[a|] Hm] s s' Hs; by rewrite !Hm. Qed.
End Rules.

Abbreviation same m m' := (sim eq m m').

Lemma sim_console {A} (a : A) c c' :
  same (λ s, Value a (set_console (c s) s)) (λ s, Value a (set_console (c' s) s)).
Proof. intros s s' (? & ? & ?). by repeat split. Qed.

Lemma sim_say t t' : same (say t) (say t').
Proof. apply (sim_console tt (λ s, console s ++ [t]) (λ s, console s ++ [t'])). Qed.

Lemma sim_verbose flags flags' t t' : same (verbose flags t) (verbose flags' t').
Proof.
  intros s s' (? & ? & ?). unfold verbose, when.
  destruct (flag flags F_VERBOSE), (flag flags' F_VERBOSE); by repeat split.
Qed.

Lemma sim_when b m m' : same m m' → same (when b m) (when b m').
Proof. intros Hm. destruct b; [done|by apply sim_ret]. Qed.

Lemma sim_at {A} (v : list A) i : same (at_ v i) (at_ v i).
Proof. unfold at_. destruct (v !! i); [by apply sim_ret|apply sim_undef]. Qed.

Lemma sim_storage k : same (storage k) (storage k).
Proof.
  intros s s' Hs. rewrite !storage_touch. unfold touch. destruct Hs as (Hv & Hf & Hsp).
  rewrite Hv. simpl. split; [done|]. destruct (variable_storage s' !! k); by repeat split.
Qed.

Lemma sim_storage_set k v : same (storage_set k v) (storage_set k v).
Proof. intros s s' (Hv & Hf & Hsp). simpl. split; [done|]. repeat split; simpl; congruence. Qed.

Lemma sim_storage_items : same storage_items storage_items.
Proof. intros s s' (Hv & Hf & Hsp). simpl. by rewrite Hv. Qed.

Lemma sim_fs_exists p : same (fs_exists p) (fs_exists p).
Proof. intros s s' (Hv & Hf & Hsp). simpl. by rewrite Hf. Qed.

Lemma sim_read_lines p : same (read_lines p) (read_lines p).
Proof. intros s s' (Hv & Hf & Hsp). simpl. by rewrite Hf. Qed.

Lemma sim_substitute t : same (substitute_variables t) (substitute_variables t).
Proof.
  intros s s' (Hv & Hf & Hsp). unfold substitute_variables, replacePlaceholders. rewrite Hv.
  by apply (sim_settled _ (settled_replace_each t ∅ (map_items (placeholders_of (variable_storage s'))))).
Qed.

#[export] Hint Resolve sim_say sim_verbose sim_at sim_storage sim_storage_set sim_storage_items
  sim_fs_exists sim_read_lines sim_substitute : node.

Ltac sim_steps :=
  repeat (cbv beta zeta;
    match goal with
    | |- sim _ (_ ≫= _) (_ ≫= _) =>
        eapply sim_bind; [solve [eauto with node]|intros ? ? ?; simplify_eq]
    | |- sim _ (_ ≫= _) (_ ≫= _) => apply (sim_bind eq); [|intros ? ? ->]
    | |- sim _ (_ <$> _) (_ <$> _) => apply (sim_bind eq); [|intros ? ? ->]
    | |- sim _ (mret _) (mret _) => apply sim_ret; try done
    | |- sim _ (throw _) (throw _) => apply sim_throw
    | |- sim _ undef undef => apply sim_undef
    | |- sim _ (when _ _) (when _ _) => apply sim_when
    | |- sim _ (let '(_, _) := ?x in _) (let '(_, _) := ?x in _) => destruct x
    | |- sim _ (if ?b then _ else _) (if ?b then _ else _) => destruct b
    | |- sim _ (match ?x with _ => _ end) (match ?x with _ => _ end) =>
        lazymatch x with registry _ => fail | _ => destruct x end
    end); eauto with node.

Lemma sim_config_path n t k : same (config_path n t k) (config_path n t k).
Proof. unfold config_path. sim_steps. Qed.

Lemma sim_get_config_path k : same (get_config_path k) (get_config_path k).
Proof. unfold get_config_path. sim_steps. Qed.
#[export] Hint Resolve sim_config_path sim_get_config_path : node.

Lemma sim_only_prints {A} (m m' : M A) r : only_prints m r → only_prints m' r → same m m'.
Proof.
  intros Hm Hm' s s' (Hv & Hf & Hsp). destruct (Hm s) as [c ->], (Hm' s') as [c' ->].
  by destruct r; simpl; repeat split.
Qed.

Section Commands.
Context {H : Host}.

Lemma sim_run_system cmd : same (run_system cmd) (run_system cmd).
Proof. intros s s' (Hv & Hf & Hsp). simpl. rewrite Hsp. by repeat split; simpl; [..|rewrite Hsp]. Qed.

(** Code that reads the files and may write them. *)
Ltac sim_files :=
  intros s s' (Hv & Hf & Hsp); rewrite Hf; repeat case_match; simpl; repeat split; simpl; congruence.

Lemma sim_fs_copy_file b from to : same (fs_copy_file b from to) (fs_copy_file b from to).
Proof. unfold fs_copy_file, put_file. sim_files. Qed.

Lemma sim_fs_copy from to : same (fs_copy from to) (fs_copy from to).
Proof. unfold fs_copy, fs_copy_file, put_file. sim_files. Qed.

Lemma sim_fs_rename from to : same (fs_rename from to) (fs_rename from to).
Proof. unfold fs_rename. sim_files. Qed.

Lemma sim_write_file p t : same (write_file p t) (write_file p t).
Proof. unfold write_file, put_file. sim_files. Qed.
Hint Resolve sim_run_system sim_fs_copy_file sim_fs_copy sim_fs_rename sim_write_file : node.

(** Two sets of flags that agree on the dry run. *)
Context (flags flags' : Z).
Hypothesis Hdry : flag flags F_DRYRUN = flag flags' F_DRYRUN.

Definition cfg_rel (cfg cfg' : CellframeConfigurationFile) : Prop :=
  path cfg = path cfg' ∧ lines cfg = lines cfg' ∧ cfg_flags cfg = flags ∧ cfg_flags cfg' = flags'.

Lemma sim_open_cfg p : sim cfg_rel (open_cfg p flags) (open_cfg p flags').
Proof. unfold open_cfg. sim_steps. Qed.

Lemma sim_exists cfg cfg' g p : cfg_rel cfg cfg' → same (exists_ cfg g p) (exists_ cfg' g p).
Proof.
  intros (_ & Hl & _). eapply sim_only_prints; [apply exists_scan|]. rewrite Hl. apply exists_scan.
Qed.

Lemma sim_set cfg cfg' g p v :
  cfg_rel cfg cfg' →
  sim (λ x y, x.1 = y.1 ∧ cfg_rel x.2 y.2) (set_ cfg g p v) (set_ cfg' g p v).
Proof.
  intros Hc. pose proof Hc as (Hp & Hl & Hf & Hf'). unfold set_. rewrite Hl.
  eapply sim_bind; [apply sim_verbose|]. intros _ _ _.
  eapply sim_bind; [by apply sim_exists|]. intros r ? <-. cbv zeta.
  destruct (if param_exists r then _ else _) as [ls n].
  eapply sim_bind; [apply sim_at|]. intros l ? <-. by apply sim_ret.
Qed.

Lemma sim_save cfg cfg' : cfg_rel cfg cfg' → same (save cfg) (save cfg').
Proof. intros (Hp & Hl & Hf & Hf'). unfold save. rewrite Hf, Hf', Hdry, Hl, Hp. sim_steps. Qed.

Lemma sim_replace_lines ls : same (replace_lines ls) (replace_lines ls).
Proof. induction ls as [|l ls IH]; cbn [replace_lines]; sim_steps. Qed.

Lemma sim_network cmd : same (execute_network cmd flags) (execute_network cmd flags').
Proof.
  unfold execute_network, network_default, network_ensure, network_check. rewrite Hdry. sim_steps.
Qed.

Lemma sim_config_target n : same (config_target n) (config_target n).
Proof. unfold config_target. sim_steps. Qed.

Lemma sim_config cmd : same (execute_config cmd flags) (execute_config cmd flags').
Proof.
  unfold execute_config. eapply sim_bind; [apply sim_substitute|]. intros val ? <-.
  eapply sim_bind; [apply sim_config_target|]. intros p ? <-.
  eapply sim_bind; [apply sim_open_cfg|]. intros cfg cfg' Hc.
  set (R := λ x y : bool * CellframeConfigurationFile, x.1 = y.1 ∧ cfg_rel x.2 y.2).
  assert (Hset : sim R ('(_, c) ← set_ cfg (cfg_group cmd) (cfg_param cmd) val; mret (true, c))
                       ('(_, c) ← set_ cfg' (cfg_group cmd) (cfg_param cmd) val; mret (true, c))).
  { eapply sim_bind; [by apply sim_set|]. intros [l c] [l' c'] [_ Hc']. by apply sim_ret. }
  pose proof (sim_exists cfg cfg' (cfg_group cmd) (cfg_param cmd) Hc) as Hex.
  apply (sim_bind R).
  - unfold config_default, config_ensure, config_get.
    repeat match goal with |- sim _ (if ?b then _ else _) _ => destruct b end; [..|apply sim_throw].
    + eapply sim_bind; [exact Hex|]. intros r ? <-. cbv zeta.
      destruct (_ && _); (eapply sim_bind; [apply sim_say|]; intros _ _ _); [by apply sim_ret|done].
    + eapply sim_bind; [apply sim_say|]. intros _ _ _. done.
    + eapply sim_bind; [exact Hex|]. intros r ? <-.
      eapply sim_bind; [apply sim_say|]. intros _ _ _. by apply sim_ret.
  - intros [b c] [b' c'] [Hb Hc']. simpl in Hb. subst b'. simpl.
    apply (sim_bind eq); [|intros _ _ _; by apply sim_ret]. apply sim_when.
    eapply sim_bind; [by apply sim_save|]. intros _ _ _. by apply sim_ret.
Qed.

Lemma sim_var cmd : same (execute_var cmd flags) (execute_var cmd flags').
Proof. unfold execute_var. sim_steps. Qed.

Lemma sim_if cmd : same (execute_if cmd flags) (execute_if cmd flags').
Proof. unfold execute_if. sim_steps. Qed.

Lemma sim_fromtemplate cmd : same (execute_fromtemplate cmd flags) (execute_fromtemplate cmd flags').
Proof.
  unfold execute_fromtemplate. rewrite Hdry. sim_steps.
  unfold populate. eapply sim_bind; [apply sim_open_cfg|]. intros cfg cfg' Hc.
  apply (sim_bind cfg_rel).
  - pose proof Hc as (Hp & Hl & Hf & Hf'). unfold replace_placeholders. rewrite Hl.
    eapply sim_bind; [apply sim_verbose|]. intros _ _ _.
    eapply sim_bind; [apply sim_replace_lines|]. intros ls ? <-. by apply sim_ret.
  - intros c c' Hc'. eapply sim_bind; [by apply sim_save|]. intros _ _ _. by apply sim_ret.
Qed.

Lemma sim_net_list cmd : same (execute_net_list cmd flags) (execute_net_list cmd flags').
Proof.
  assert (Hd : ∀ p, same (is_directory p) (is_directory p)).
  { intros p s s' (Hv & Hf & Hsp). unfold is_directory. simpl. by rewrite Hf. }
  assert (Hl : ∀ p, same (list_files p) (list_files p)).
  { intros p s s' (Hv & Hf & Hsp). unfold list_files. simpl. by rewrite Hf. }
  unfold execute_net_list. sim_steps.
Qed.

Lemma sim_service cmd : same (execute_service cmd flags) (execute_service cmd flags').
Proof.
  assert (Hmac : ∀ c, same (Macos.callSecScript c) (Macos.callSecScript c)).
  { intros c s s' (Hv & Hf & Hsp). simpl. by repeat split; simpl; [..|rewrite Hsp]. }
  assert (Hshell : ∀ f p, same (Win.ShellExecuteEx f p) (Win.ShellExecuteEx f p)).
  { intros f p s s' (Hv & Hf & Hsp). unfold Win.ShellExecuteEx. simpl. rewrite Hsp.
    by repeat split; simpl; [..|rewrite Hsp]. }
  unfold execute_service, report, service_enable, service_disable, service_status, service_start,
    service_stop, service_restart, choose.
  unfold Linux.restart, Linux.start, Linux.stop, Linux.serviceStatus, Linux.enable, Linux.disable.
  unfold Macos.restart, Macos.start, Macos.stop, Macos.serviceStatus, Macos.enable, Macos.disable.
  unfold Win.restart, Win.start, Win.stop, Win.serviceStatus, Win.enable, Win.disable.
  unfold Win.admin_ok, Win.runShellAdmin, Win.GetExitCodeProcess, system_ok.
  sim_steps.
Qed.

Lemma sim_execute c : same (execute c flags) (execute c flags').
Proof.
  unfold execute. destruct (class c);
    auto using sim_network, sim_config, sim_var, sim_if, sim_fromtemplate, sim_net_list, sim_service.
  by apply sim_ret.
Qed.

Lemma sim_run_commands cmds : same (run_commands cmds flags) (run_commands cmds flags').
Proof.
  unfold run_commands. apply (sim_bind eq); [|intros _ _ _; by apply sim_ret].
  generalize (@nil command). induction cmds as [|c cmds IH]; intros stack; [by apply sim_ret|].
  cbn [run_loop]. unfold next_stack. pose proof sim_execute as He. sim_steps.
Qed.

End Commands.

(** ** Reading a script *)
Lemma sim_registry t create ts : registry t = Some create → same (create ts) (create ts).
Proof.
  unfold registry. intros Hr.
  repeat match type of Hr with (if ?b then _ else _) = _ => destruct b end; simplify_eq;
    unfold new_network, new_config, new_var, new_if, new_fromtemplate, new_net_list, new_service;
    sim_steps.
Qed.

(** A command is built from the words of its line. *)
Lemma sim_build l l' : tokenize l re_blanks = tokenize l' re_blanks → same (build l) (build l').
Proof.
  intros Ht. unfold build. rewrite Ht. eapply sim_bind; [apply sim_at|]. intros t ? <-.
  destruct (registry t) as [create|] eqn:Hr; [|by apply sim_ret].
  eapply sim_bind; [by eapply sim_registry|]. intros c ? <-. by apply sim_ret.
Qed.

Lemma sim_parse_line l l' n n' flags flags' :
  tokenize l re_blanks = tokenize l' re_blanks →
  same (parse_line_to_cmd l n flags) (parse_line_to_cmd l' n' flags').
Proof.
  intros Ht. unfold parse_line_to_cmd. eapply sim_bind; [by apply sim_build|].
  intros [c|] ? <-; sim_steps.
Qed.

Lemma sim_parse_lines ls n flags flags' : same (parse_lines ls n flags) (parse_lines ls n flags').
Proof.
  revert n; induction ls as [|l ls IH]; intros n; cbn [parse_lines]; [by apply sim_ret|].
  destruct (is_empty _); [done|]. apply (sim_bind eq); [by apply sim_parse_line|]. intros c ? <-.
  apply (sim_bind eq); [done|]. intros cs ? <-. by apply sim_ret.
Qed.

Lemma sim_parse_setup_file f flags flags' : same (parse_setup_file f flags) (parse_setup_file f flags').
Proof. unfold parse_setup_file. pose proof sim_parse_lines. sim_steps. Qed.

Lemma sim_parse_exec ls n flags flags' : same (parse_exec ls n flags) (parse_exec ls n flags').
Proof.
  revert n; induction ls as [|l ls IH]; intros n; cbn [parse_exec]; [by apply sim_ret|].
  apply (sim_bind eq); [by apply sim_parse_line|]. intros c ? <-.
  apply (sim_bind eq); [done|]. intros cs ? <-. by apply sim_ret.
Qed.

(** ** The verbose option

    [-v] after the name of the program. *)
Section Verbose.
Context {H : Host}.

Lemma sim_init_configs f flags flags' :
  flag flags F_DRYRUN = flag flags' F_DRYRUN →
  same (init_configs f flags) (init_configs f flags').
Proof.
  intros Hdry. unfold init_configs.
  pose proof (sim_run_commands flags flags' Hdry). pose proof (sim_parse_setup_file f flags flags').
  sim_steps.
Qed.

Lemma option_verbose prog args o :
  o ≠ "-v" → cmdOptionExists (prog :: "-v" :: args) o = cmdOptionExists (prog :: args) o.
Proof. intros Ho%String.eqb_neq. simpl. by rewrite Ho. Qed.

Lemma find_arg_verbose prog args o :
  o ≠ "-v" → o ≠ prog → find_arg (prog :: "-v" :: args) o = find_arg (prog :: args) o.
Proof.
  intros Ho Hp. cbn [find_arg]. by rewrite (proj2 (String.eqb_neq prog o)), (proj2 (String.eqb_neq "-v" o)).
Qed.

Lemma getCmdOption_verbose prog args l o :
  "-v" ∉ [l; o] → prog ∉ [l; o] →
  getCmdOption (prog :: "-v" :: args) l o = getCmdOption (prog :: args) l o.
Proof.
  rewrite !not_elem_of_cons. intros (? & ? & _) (? & ? & _). unfold getCmdOption.
  rewrite option_verbose by done.
  by destruct (cmdOptionExists _ l); rewrite find_arg_verbose.
Qed.

Lemma same_refl_populate base : same (populate_variables base) (populate_variables base).
Proof.
  unfold populate_variables, getNodeConfigPath, getNodeBinaryPath, GetStringRegKey. sim_steps.
Qed.

Definition valued_options : list string := ["--path"; "-p"; "--init"; "-i"; "--exec"; "-e"].

(** C21 (main_verbose_only_prints): the option [-v] only prints: cellframe-node-config
    called with it and without it gives the same exit status, or throws in both cases
    (or is undefined in both), and leaves the same files, the same variables and the
    same shell commands run, for every command line after it (set-up scripts,
    commands, dry runs), from states that differ at most in what was printed. *)
Theorem main_verbose_only_prints (prog : string) (args : list string) :
  prog ∉ valued_options →
  sim eq (main (prog :: "-v" :: args)) (main (prog :: args)).
Proof.
  unfold valued_options. rewrite !not_elem_of_cons. intros (Hp1 & Hp2 & Hi1 & Hi2 & He1 & He2 & _).
  unfold main, option2. rewrite !(option_verbose prog args) by done.
  rewrite !(getCmdOption_verbose prog args) by (rewrite !not_elem_of_cons; repeat split; done || apply not_elem_of_nil).
  set (f := if cmdOptionExists _ "--verbose" || cmdOptionExists (prog :: "-v" :: args) "-v" then _ else _).
  set (f' := if cmdOptionExists _ "--verbose" || cmdOptionExists (prog :: args) "-v" then _ else _).
  cbv zeta. set (dry := cmdOptionExists _ "--dryrun" || _).
  assert (Hd : flag (if dry then Z.lor f F_DRYRUN else f) F_DRYRUN
             = flag (if dry then Z.lor f' F_DRYRUN else f') F_DRYRUN).
  { subst f f'. by destruct dry, (_ || _), (_ || _). }
  generalize (if dry then Z.lor f F_DRYRUN else f), (if dry then Z.lor f' F_DRYRUN else f'), Hd.
  clear f f' dry Hd. intros f f' Hd.
  apply (sim_bind eq); [apply same_refl_populate|]. intros _ _ _.
  destruct (_ || _); [unfold print_help; sim_steps|]. destruct (_ || _); [sim_steps|].
  apply (sim_bind eq); [sim_steps|]. intros _ _ _.
  destruct (_ || _); [by apply sim_init_configs|].
  destruct (_ || _); [|unfold print_help; sim_steps].
  rewrite find_arg_verbose; [|by destruct (cmdOptionExists _ _)..].
  apply (sim_bind eq); [apply sim_parse_exec|]. intros cmds ? <-.
  apply (sim_bind eq); [by apply sim_run_commands|]. intros _ _ _. by apply sim_ret.
Qed.

End Verbose.

(** ** A script and the same commands on the command line *)

(** The words of the lines of a text that hold a command. *)
Definition script_words (text : string) : list (list string) :=
  filter (λ g, g ≠ []) ((λ l, tokenize (strip l) re_blanks) <$> getlines text).

(** The words of the commands, with the word [and] between two commands. *)
Fixpoint and_words (groups : list (list string)) : list string :=
  match groups with
  | [] => []
  | [g] => g
  | g :: groups' => g ++ "and" :: and_words groups'
  end.

Definition nospace : string → bool := str_all (λ c, negb (is_space c)).

Lemma pieces_blanks_word w rest :
  nospace w = true → pieces re_blanks 0 (w +:+ " " +:+ rest) = w :: pieces re_blanks (re_blanks rest) rest.
Proof.
  unfold nospace. induction w as [|c w IH]; [done|]. intros [Hc Hw]%andb_prop.
  apply negb_true_iff in Hc. rewrite string_app_cons. cbn [pieces re_blanks]. by rewrite Hc, IH.
Qed.

(** Words written with a space after each are read back. *)
Lemma tokenize_join g :
  Forall (λ w, nospace w = true ∧ w ≠ "") g → tokenize (string_join g " ") re_blanks = g.
Proof.
  induction 1 as [|w g [Hw Hne] Hg IH]; [done|].
  change (string_join (w :: g) " ") with (w +:+ " " +:+ string_join g " ").
  unfold tokenize in *. rewrite pieces_blanks_word, filter_cons_True by done. f_equal.
  etransitivity; [|exact IH]. destruct Hg as [|w' g [Hw' Hne'] _]; [done|].
  change (string_join (w' :: g) " ") with (w' +:+ " " +:+ string_join g " ").
  destruct w' as [|c w']; [done|]. unfold nospace in Hw'. simpl in Hw'.
  apply andb_prop in Hw' as [Hc _]. apply negb_true_iff in Hc.
  rewrite string_app_cons. cbn [re_blanks]. by rewrite Hc.
Qed.

Lemma exec_lines_group cur g rest :
  Forall (λ w, w ≠ "and") g → exec_lines cur (g ++ rest) = exec_lines (cur +:+ string_join g " ") rest.
Proof.
  intros Hg. revert cur; induction Hg as [|w g Hw _ IH]; intros cur.
  - simpl. by rewrite string_app_nil_r.
  - cbn [app exec_lines]. rewrite (proj2 (String.eqb_neq _ _) Hw), IH. f_equal.
    unfold string_join. simpl. by rewrite !string_app_assoc.
Qed.

Lemma exec_lines_groups groups :
  groups ≠ [] → Forall (Forall (λ w, w ≠ "and")) groups →
  exec_lines "" (and_words groups) = (λ g, string_join g " ") <$> groups.
Proof.
  intros Hne Hg. induction Hg as [|g groups Hg Hgs IH]; [done|].
  destruct groups as [|g' groups].
  - simpl. rewrite <- (app_nil_r g) at 1. by rewrite exec_lines_group.
  - change (and_words (g :: g' :: groups)) with (g ++ "and" :: and_words (g' :: groups)).
    rewrite exec_lines_group by done. cbn [exec_lines String.eqb]. csimpl. f_equal. by apply IH.
Qed.

Lemma script_words_ok text :
  Forall (λ g, g ≠ [] ∧ Forall (λ w, nospace w = true ∧ w ≠ "") g) (script_words text).
Proof.
  apply Forall_forall. intros g. unfold script_words. rewrite list_elem_of_filter, list_elem_of_fmap.
  intros [Hne (l & -> & _)]. split; [done|apply tokenize_blanks_ok].
Qed.

(** The two parsers build the same commands. *)
Lemma sim_parse_script ls n n' flags :
  same (parse_lines ls n flags)
       (parse_exec ((λ g, string_join g " ") <$>
          filter (λ g, g ≠ []) ((λ l, tokenize (strip l) re_blanks) <$> ls)) n' flags).
Proof.
  revert n n'; induction ls as [|l ls IH]; intros n n'; [by apply sim_ret|].
  cbn [parse_lines]. csimpl. destruct (is_empty (strip l)) eqn:He.
  - apply String.eqb_eq in He. rewrite He. apply IH.
  - apply strip_tokens in He. rewrite filter_cons_True by done. csimpl. cbn [parse_exec].
    apply (sim_bind eq); [apply sim_parse_line; symmetry; apply tokenize_join, tokenize_blanks_ok|].
    intros c ? <-. apply (sim_bind eq); [apply IH|]. intros cs ? <-. by apply sim_ret.
Qed.

(** *** Options before the last words of a command line *)
Lemma option_app a b o : cmdOptionExists (a ++ b) o = cmdOptionExists a o || cmdOptionExists b o.
Proof. apply existsb_app. Qed.

Lemma option_absent a o : o ∉ a → cmdOptionExists a o = false.
Proof.
  intros Ho. unfold cmdOptionExists. induction a as [|x a IH]; [done|]. simpl.
  apply not_elem_of_cons in Ho as [Hx Ho]. by rewrite (proj2 (String.eqb_neq _ _) Hx), IH.
Qed.

Lemma find_arg_app a b o :
  find_arg (a ++ b) o = if cmdOptionExists a o then find_arg a o ++ b else find_arg b o.
Proof.
  induction a as [|x a IH]; [done|]. cbn [app find_arg cmdOptionExists existsb].
  rewrite String.eqb_sym. destruct (o =s? x); [done|]. apply IH.
Qed.

Lemma find_arg_present a o :
  cmdOptionExists a o = true → ∃ r, find_arg a o = o :: r ∧ (r = [] → last a = Some o).
Proof.
  induction a as [|x a IH]; [done|]. cbn [find_arg cmdOptionExists existsb]. rewrite String.eqb_sym.
  destruct (x =s? o) eqn:Hx; simpl.
  - intros _. apply String.eqb_eq in Hx as ->. exists a. split; [done|]. by intros ->.
  - intros Ho. destruct (IH Ho) as (r & -> & Hr). exists r. split; [done|]. intros Hn.
    rewrite last_cons, (Hr Hn). done.
Qed.

Lemma getCmdOption_app a b l o :
  l ∉ b → o ∉ b → last a ≠ Some l → last a ≠ Some o → getCmdOption (a ++ b) l o = getCmdOption a l o.
Proof.
  intros Hl Ho Hal Hao. unfold getCmdOption. rewrite option_app, (option_absent b l), orb_false_r by done.
  set (x := if cmdOptionExists a l then l else o).
  assert (Hx : (x ∉ b) ∧ last a ≠ Some x) by (subst x; by destruct (cmdOptionExists a l)).
  destruct Hx as [Hxb Hxa]. rewrite find_arg_app. destruct (cmdOptionExists a x) eqn:He.
  - destruct (find_arg_present _ _ He) as ([|y r] & -> & Hr); [by destruct Hxa; apply Hr|done].
  - clear - Hxb He. assert (Hn : ∀ c, cmdOptionExists c x = false → find_arg c x = []).
    { induction c as [|y c IH]; [done|]. cbn [find_arg cmdOptionExists existsb].
      rewrite String.eqb_sym. destruct (y =s? x); simpl; [done|apply IH]. }
    by rewrite !Hn by (done || by apply option_absent).
Qed.

(** *** The same options, then [-i] or [-e] *)
Definition options : list string :=
  ["-h"; "--help"; "-v"; "--verbose"; "-s"; "--vars"; "-d"; "--dryrun"; "-p"; "--path";
   "-i"; "--init"; "-e"; "--exec"].

Lemma elem_of_and_words w groups : w ∈ and_words groups → w = "and" ∨ w ∈ concat groups.
Proof.
  induction groups as [|g groups IH]; [by intros ?%not_elem_of_nil|].
  destruct groups as [|g' groups]; [by right; simpl; rewrite app_nil_r|].
  change (and_words (g :: g' :: groups)) with (g ++ "and" :: and_words (g' :: groups)).
  cbn [concat] in *. rewrite !elem_of_app, elem_of_cons in *. intuition auto.
Qed.

(** The words of [b] are no options, its first word [x] apart. *)
Definition last_option (x : string) (b : list string) : Prop :=
  ∀ o, o ∈ options → o ≠ x → o ∉ b.

Lemma last_option_init f : f ∉ "" :: options → last_option "-i" ["-i"; f].
Proof.
  intros Hf o Ho Hne Hb. rewrite elem_of_cons, list_elem_of_singleton in Hb.
  destruct Hb as [->| ->]; [done|]. apply Hf. by right.
Qed.

Lemma last_option_exec groups :
  Forall (λ w, w ∉ "and" :: options) (concat groups) → last_option "-e" ("-e" :: and_words groups).
Proof.
  intros Hg o Ho Hne Hb. rewrite elem_of_cons in Hb. destruct Hb as [->|Hb]; [done|].
  apply elem_of_and_words in Hb as [->|Hb].
  - by apply (bool_decide_eq_true_2 _) in Ho.
  - rewrite Forall_forall in Hg. destruct (Hg o Hb). by right.
Qed.

Lemma option_before pre x b o :
  last_option x b → o ∈ options → o ≠ x → cmdOptionExists (pre ++ b) o = cmdOptionExists pre o.
Proof. intros Hb Ho Hx. by rewrite option_app, (option_absent b), orb_false_r by by apply Hb. Qed.

Lemma option_last pre x b : cmdOptionExists (pre ++ x :: b) x = true.
Proof. rewrite option_app. simpl. by rewrite String.eqb_refl, orb_true_r. Qed.

Lemma find_arg_last pre x b : x ∉ pre → find_arg (pre ++ x :: b) x = x :: b.
Proof.
  intros Hx. rewrite find_arg_app, option_absent by done. simpl. by rewrite String.eqb_refl.
Qed.

Lemma getCmdOption_init pre f :
  f ∉ "" :: options → "-i" ∉ pre → "--init" ∉ pre → getCmdOption (pre ++ ["-i"; f]) "--init" "-i" = f.
Proof.
  intros Hf Hi Hi'. unfold getCmdOption.
  rewrite (option_before pre "-i"), option_absent, find_arg_last
    by (done || (by apply last_option_init) || by apply (bool_decide_unpack _)). done.
Qed.

Lemma words_not_and groups :
  Forall (λ w, w ∉ "and" :: options) (concat groups) → Forall (Forall (λ w, w ≠ "and")) groups.
Proof.
  rewrite Forall_concat. intros Hg. eapply Forall_impl; [exact Hg|]. intros g Hw.
  eapply Forall_impl; [exact Hw|]. intros w Hn ->. apply Hn. left.
Qed.

Ltac one_option := first [done | by apply (bool_decide_unpack _)].

Section Exec.
Context {H : Host}.

Lemma same_bind_at {A B} (m : M A) (k k' : A → M B) s :
  (∀ a s1, m s = Value a s1 → out_rel eq (k a s1) (k' a s1)) →
  out_rel eq ((m ≫= k) s) ((m ≫= k') s).
Proof. intros Hk. unfold mbind, M_bind. destruct (m s); simpl; by try apply Hk. Qed.

Lemma populate_sets base s u s' :
  populate_variables base s = Value u s' →
  is_Some (variable_storage s' !! "CONFIGS_PATH") ∧ files s' = files s.
Proof.
  unfold populate_variables, getNodeConfigPath, getNodeBinaryPath, GetStringRegKey, mbind, M_bind,
    mret, M_ret, storage_set.
  intros Hs. destruct os; simplify_eq/=; repeat (case_match; simplify_eq/=);
    (split; [|done]); rewrite !lookup_insert_is_Some'; auto.
Qed.

Lemma out_rel_step {A B C} (R : B → C → Prop) (m : M A) k a s s1 o :
  m s = Value a s1 → out_rel R (k a s1) o → out_rel R ((m ≫= k) s) o.
Proof. intros Hm. unfold mbind, M_bind. by rewrite Hm. Qed.

(** A script file that exists is parsed and run, as its commands with [-e] are. *)
Lemma init_configs_runs f text flags s s' :
  f ≠ "" → node_at (files s) f = Some (FFile text) →
  is_Some (variable_storage s !! "CONFIGS_PATH") → s ≈ s' →
  out_rel eq (init_configs f flags s)
    ((cmds ← parse_exec ((λ g, string_join g " ") <$> script_words text) 0 flags;
      run_commands cmds flags;; mret 0%Z) s').
Proof.
  intros Hf%String.eqb_neq Hn [root Hr] Hs. unfold init_configs, is_empty. rewrite Hf.
  eapply out_rel_step; [done|]. unfold present. rewrite Hn. cbn [negb].
  eapply out_rel_step; [unfold storage; rewrite Hr; done|]. eapply out_rel_step; [done|].
  set (s1 := set_console _ _). assert (Hs1 : s1 ≈ s') by (destruct Hs as (? & ? & ?); by repeat split).
  assert (Hn1 : node_at (files s1) f = Some (FFile text)) by done. clearbody s1. clear -Hs1 Hn1.
  unfold parse_setup_file. rewrite bind_assoc_M.
  eapply out_rel_step; [done|]. rewrite Hn1, bind_assoc_M.
  destruct (only_prints_verbose flags ("[V] Parsing " +:+ f +:+ " as setup-script" +:+ NL) s1) as [c Hc].
  eapply out_rel_step; [exact Hc|].
  apply (sim_bind eq eq); [apply sim_parse_script| |].
  - intros cmds ? <-. apply (sim_bind eq); [by apply sim_run_commands|]. intros _ _ _. by apply sim_ret.
  - destruct Hs1 as (? & ? & ?). by repeat split.
Qed.

(** C18 (exec_equals_script): a set-up script and its commands given on the command
    line do the same: [-i] with a file and [-e] with the words of the lines of that
    file, the word [and] between two lines, give the same exit status, or throw in
    both cases (or are undefined in both), and leave the same files, variables and
    shell commands run, with any options (dry run, path, verbose) before them.  Blank lines, comments and spacing
    of the script do not matter. *)
Theorem exec_equals_script (pre : list string) (f text : string) (s : st) :
  node_at (files s) f = Some (FFile text) → f ∉ "" :: options →
  script_words text ≠ [] →
  Forall (λ w, w ∉ "and" :: options) (concat (script_words text)) →
  Forall (λ o, o ∉ pre) ["-i"; "--init"; "-e"; "--exec"] →
  last pre ≠ Some "-p" → last pre ≠ Some "--path" →
  out_rel eq (main (pre ++ ["-i"; f]) s)
    (main (pre ++ "-e" :: and_words (script_words text)) s).
Proof.
  intros Hn Hf Hne Hw Hpre Hp Hp'. rewrite !Forall_cons in Hpre. destruct Hpre as (Hi & Hi' & He & He' & _).
  pose proof (last_option_init f Hf) as Hbi. pose proof (last_option_exec _ Hw) as Hbe.
  unfold main, option2.
  repeat match goal with
    | |- context [cmdOptionExists (pre ++ ?b) ?o] =>
        first [rewrite (option_before pre "-i" b o Hbi) by one_option
              |rewrite (option_before pre "-e" b o Hbe) by one_option]
    end.
  rewrite !option_last, (option_absent pre "-i"), (option_absent pre "--init"),
    (option_absent pre "-e"), (option_absent pre "--exec") by done.
  rewrite !(getCmdOption_app pre _ "--path" "-p") by (done || (apply Hbi || apply Hbe; one_option)).
  cbn [orb]. rewrite (find_arg_last pre "-e") by done. cbn [tail].
  rewrite exec_lines_groups, getCmdOption_init by (done || by apply words_not_and).
  cbv zeta. generalize (getCmdOption pre "--path" "-p"). intros root.
  match goal with |- context [init_configs f ?fl] => generalize fl end.
  intros flags. apply same_bind_at. intros u s1 [Hroot Hfiles]%populate_sets.
  do 2 (destruct (_ || _); [by repeat split|]).
  apply same_bind_at. intros u' s2 Hs2.
  assert (Hkeep : is_Some (variable_storage s2 !! "CONFIGS_PATH") ∧ files s2 = files s1).
  { unfold when, storage_set, mret, M_ret in Hs2. destruct (is_empty root); simplify_eq/=; [done|].
    by rewrite lookup_insert_eq. }
  destruct Hkeep as [Hr2 Hf2]. apply init_configs_runs; [|by rewrite Hf2, Hfiles|done|done].
  intros ->. apply Hf. left.
Qed.

End Exec.

(** ** Witnesses *)
Definition network_words : list string :=
  ["-p"; "/opt"; "-e"; "network"; "Net"; "ensure"; "off"].

Lemma main_verbose_only_prints_witness :
  returns (main (H:=demo_host) ("cellframe-node-config" :: network_words) demo_state) = true ∧
  out_rel eq (main (H:=demo_host) ("cellframe-node-config" :: "-v" :: network_words) demo_state)
    (main (H:=demo_host) ("cellframe-node-config" :: network_words) demo_state).
Proof.
  split; [vm_compute; reflexivity|].
  apply (main_verbose_only_prints (H:=demo_host) "cellframe-node-config" network_words);
    [|reflexivity]. apply (bool_decide_unpack _). vm_compute. exact I.
Defined.

Definition two_commands : string :=
  putlines ["# a comment"; ""; "network   Net ensure off  # disable"; "network Net ensure on"].

Definition scripted_state : st :=
  set_files (<["s.setup" := FFile two_commands]> (files demo_state)) demo_state.

Lemma exec_equals_script_witness :
  script_words two_commands = [["network"; "Net"; "ensure"; "off"]; ["network"; "Net"; "ensure"; "on"]] ∧
  out_rel eq
    (main (H:=demo_host) (["cellframe-node-config"; "-p"; "/opt"] ++ ["-i"; "s.setup"]) scripted_state)
    (main (H:=demo_host) (["cellframe-node-config"; "-p"; "/opt"] ++
       "-e" :: and_words (script_words two_commands)) scripted_state).
Proof.
  split; [vm_compute; reflexivity|].
  apply (exec_equals_script (H:=demo_host) _ "s.setup" two_commands scripted_state);
    [vm_compute; reflexivity|apply (bool_decide_unpack _); vm_compute; exact I..].
Defined.
