(* ===== verification/ConfSafe.v ===== *)
(** * Scripts without undefined behaviour

    The undefined behaviour of the tool comes from four places: a line that holds
    equal signs and blanks only, an [endif] without an [if], a state of a network
    that is neither on nor off, and the Windows service control.  On a tree
    without such lines ([tame_tree]) a balanced script of well-formed commands has
    none, and it leaves such a tree: [safe] is an invariant with a postcondition on
    the result, proved for each operation and composed by [safe_then]. *)
From S2P Require Import CLib.
From S2P Require Export ConfTemplate ConfIdem ConfRun.

(** ** Lines *)
Definition solid (c : ascii) : bool := negb (is_space c || (c =? "=")%char || (c =? "#")%char).

Definition has_solid (s : string) : bool := negb (str_all (λ c, negb (solid c)) s).

(** What is left of the line without blanks and comment is nothing, or holds a
    byte that is no equal sign. *)
Definition tame (l : string) : bool := is_empty (strip l) || has_solid (strip l).

Lemma has_solid_cons c s : has_solid (String c s) = solid c || has_solid s.
Proof. unfold has_solid. simpl. by destruct (solid c). Qed.

Lemma has_solid_app s t : has_solid (s +:+ t) = has_solid s || has_solid t.
Proof. unfold has_solid. rewrite str_all_app. by destruct (str_all _ s). Qed.

Lemma solid_space c : is_space c = true → solid c = false.
Proof. unfold solid. by intros ->. Qed.

Lemma has_solid_rtrim s : has_solid (rtrim s) = has_solid s.
Proof.
  induction s as [|c s IH]; [done|]. cbn [rtrim]. rewrite has_solid_cons, <- IH.
  destruct (is_empty (rtrim s) && is_space c) eqn:He; [|by rewrite has_solid_cons].
  apply andb_prop in He as [He Hc]. apply String.eqb_eq in He. rewrite He, solid_space by done. done.
Qed.

Lemma has_solid_ltrim s : has_solid (ltrim s) = has_solid s.
Proof.
  induction s as [|c s IH]; [done|]. cbn [ltrim]. destruct (is_space c) eqn:Hc; [|done].
  by rewrite has_solid_cons, solid_space.
Qed.

Lemma lacks_rtrim x s : lacks x s = true → lacks x (rtrim s) = true.
Proof.
  induction s as [|c s IH]; [done|]. rewrite lacks_cons. intros [Hc Hs]%andb_prop.
  cbn [rtrim]. destruct (_ && _); [done|]. by rewrite lacks_cons, Hc, IH.
Qed.

Lemma lacks_ltrim x s : lacks x s = true → lacks x (ltrim s) = true.
Proof.
  induction s as [|c s IH]; [done|]. rewrite lacks_cons. intros [Hc Hs]%andb_prop.
  cbn [ltrim]. destruct (is_space c); [by apply IH|]. by rewrite lacks_cons, Hc, Hs.
Qed.

Lemma has_solid_strip s : lacks "#" s = true → has_solid (strip s) = has_solid s.
Proof.
  intros Hs. unfold strip, trim. rewrite before_lacks by (by apply lacks_ltrim, lacks_rtrim).
  by rewrite has_solid_ltrim, has_solid_rtrim.
Qed.

(** A line that starts with a solid byte is tame. *)
Lemma tame_first c l : solid c = true → tame (String c l) = true.
Proof.
  unfold tame, solid. intros [[Hs He]%orb_false_elim Hh]%negb_true_iff%orb_false_elim.
  assert (Hstrip : ∃ r, strip (String c l) = String c r).
  { unfold strip, trim. cbn [rtrim]. rewrite Hs, andb_false_r. cbn [ltrim]. rewrite Hs, before_cons, Hh.
    eauto. }
  destruct Hstrip as [r ->]. rewrite has_solid_cons. unfold solid. by rewrite Hs, He, Hh.
Qed.

Lemma tokenize_all_eq s : tokenize s re_eq = [] → str_all (λ c, (c =? "=")%char) s = true.
Proof.
  unfold tokenize. induction s as [|c s IH]; [done|]. cbn [pieces]. rewrite re_eq_cons.
  destruct (c =? "=")%char eqn:Hc.
  - rewrite filter_cons_False by (intros H; by apply H). intros Hs. simpl. by rewrite Hc, IH.
  - destruct (pieces re_eq 0 s) as [|q qs]; simpl; by rewrite filter_cons_True.
Qed.

Lemma tame_kind l : tame l = true → kind_of l ≠ KWild.
Proof.
  unfold tame, kind_of. intros Ht. destruct (is_empty (strip l)); [done|]. simpl in Ht.
  destruct (tokenize (strip l) re_eq) as [|t0 [|t1 ts]] eqn:Htok; [|by repeat case_match|done].
  apply tokenize_all_eq in Htok. exfalso. unfold has_solid in Ht. apply negb_true_iff in Ht.
  apply not_true_iff_false in Ht. apply Ht. eapply str_all_impl; [|exact Htok].
  intros c Hc. unfold solid. cbv beta in Hc. rewrite Hc, orb_true_r. done.
Qed.

Lemma strip_lacks_hash l : lacks "#" (strip l) = true.
Proof.
  unfold strip. generalize (trim l). intros t. induction t as [|c t IH]; [done|].
  rewrite before_cons. destruct (c =? "#")%char eqn:Hc; [done|]. by rewrite lacks_cons, Hc.
Qed.

Lemma strip_bytes x l : lacks x l = true → lacks x (strip l) = true.
Proof.
  intros Hl. unfold strip, trim.
  assert (Hb : ∀ t, lacks x t = true → lacks x (before "#" t) = true).
  { induction t as [|c t IH]; [done|]. rewrite lacks_cons, before_cons. intros [Hc Ht]%andb_prop.
    destruct (c =? "#")%char; [done|]. by rewrite lacks_cons, Hc, IH. }
  apply Hb, lacks_ltrim, lacks_rtrim, Hl.
Qed.

(** ** Trees and variables *)
Definition tame_text (t : string) : bool := forallb tame (getlines t).

Definition tame_node (n : fnode) : bool :=
  match n with
  | FFile t => tame_text t
  | FDir => true
  end.

Definition tame_tree (f : gmap string fnode) : Prop := map_Forall (λ _ n, tame_node n = true) f.

(** A value that cannot empty a line it is put into, nor end it. *)
Definition good_value (v : string) : bool :=
  has_solid v && lacks "#" v && lacks "$" v && lacks "010" v.

Definition good_vars (vars : gmap string string) : Prop :=
  is_Some (vars !! CONFIGS) ∧
  map_Forall (λ n v, plain_name n = true ∧ good_value v = true) vars.

Definition orderly (s : st) : Prop := tame_tree (files s) ∧ good_vars (variable_storage s).

(** ** The rule of invariance *)
Definition safe {A} (m : M A) (Q : A → Prop) : Prop :=
  ∀ s, orderly s → m s ≠ Ub ∧ ∀ a s', m s = Value a s' → orderly s' ∧ Q a.

Abbreviation harmless m := (safe m (λ _, True)).

Lemma safe_then {A B} (m : M A) (k : A → M B) P Q :
  safe m P → (∀ a, P a → safe (k a) Q) → safe (m ≫= k) Q.
Proof.
  intros Hm Hk s Hs. destruct (Hm s Hs) as [Hu Hv]. unfold mbind, M_bind.
  destruct (m s) as [a s1| | |]; try done. destruct (Hv a s1 eq_refl) as [Hs1 Ha]. by apply Hk.
Qed.

Lemma safe_mono {A} (m : M A) (P Q : A → Prop) : safe m P → (∀ a, P a → Q a) → safe m Q.
Proof.
  intros Hm HPQ s Hs. destruct (Hm s Hs) as [Hu Hv]. split; [done|]. intros a s' Heq.
  destruct (Hv a s' Heq). auto.
Qed.

Lemma safe_value {A} (a : A) (Q : A → Prop) : Q a → safe (mret a) Q.
Proof. intros Ha s Hs. split; [done|]. by intros ? ? [= <- <-]. Qed.

Lemma safe_throw {A} e (Q : A → Prop) : safe (throw e) Q.
Proof. by intros s Hs. Qed.

(** Code that leaves files and variables alone. *)
Lemma safe_same {A} (m : M A) (Q : A → Prop) :
  (∀ s, m s ≠ Ub) →
  (∀ s a s', m s = Value a s' → files s' = files s ∧ variable_storage s' = variable_storage s ∧ Q a) →
  safe m Q.
Proof.
  intros Hu Hm s Hs. split; [done|]. intros a s' (Hf & Hv & Ha)%Hm.
  split; [|done]. unfold orderly. by rewrite Hf, Hv.
Qed.

Lemma safe_only_prints {A} (m : M A) r (Q : A → Prop) :
  only_prints m r → r ≠ Wild → (∀ a, r = Ok a → Q a) → safe m Q.
Proof.
  intros Hm Hw HQ. apply safe_same.
  - intros s. destruct (Hm s) as [c ->]. by destruct r.
  - intros s a s'. destruct (Hm s) as [c ->]. destruct r; simpl; try done.
    intros [= -> <-]. auto.
Qed.

Lemma safe_say t : harmless (say t).
Proof. eapply safe_only_prints; [apply only_prints_say|done..]. Qed.

Lemma safe_verbose flags t : harmless (verbose flags t).
Proof. eapply safe_only_prints; [apply only_prints_verbose|done..]. Qed.

Lemma safe_when b m : (b = true → harmless m) → harmless (when b m).
Proof. destruct b; intros Hm; [by apply Hm|by apply safe_value]. Qed.

Lemma safe_fs_exists p : harmless (fs_exists p).
Proof. apply safe_same; [done|]. by intros s a s' [= _ <-]. Qed.

Lemma safe_run_system {H : Host} cmd : harmless (run_system cmd).
Proof. apply safe_same; [done|]. by intros s a s' [= _ <-]. Qed.

Lemma orderly_touch s : orderly s → touch CONFIGS s = s.
Proof. intros [_ [[v Hv] _]]. unfold touch. by rewrite Hv. Qed.

Lemma safe_storage : harmless (storage CONFIGS).
Proof.
  intros s Hs. rewrite storage_touch. split; [done|]. intros a s' [= _ <-]. by rewrite orderly_touch.
Qed.

Lemma safe_config_path n t k : harmless (config_path n t k).
Proof. unfold config_path. eapply safe_then; [apply safe_storage|]. intros. by apply safe_value. Qed.

Lemma safe_get_config_path k : harmless (get_config_path k).
Proof. unfold get_config_path. eapply safe_then; [apply safe_storage|]. intros. by apply safe_value. Qed.

Create HintDb safe.
#[export] Hint Resolve safe_say safe_verbose safe_fs_exists safe_run_system safe_storage safe_config_path
  safe_get_config_path safe_throw : safe.

Ltac safe_steps :=
  repeat (cbv beta zeta;
    match goal with
    | |- safe (_ ≫= _) _ => eapply safe_then; [solve [eauto with safe]|intros ? ?]
    | |- safe (_ ≫= _) _ => apply (safe_then _ _ (λ _, True)); [|intros ? _]
    | |- safe (mret _) _ => apply safe_value; try done
    | |- safe (throw _) _ => apply safe_throw
    | |- safe (when _ _) _ => apply safe_when; intros ?
    | |- safe (let '(_, _) := ?x in _) _ => destruct x
    | |- safe (if ?b then _ else _) _ => destruct b eqn:?
    end); eauto with safe.

(** ** Substitution *)
Lemma good_value_spec v :
  good_value v = true →
  has_solid v = true ∧ lacks "#" v = true ∧ lacks "$" v = true ∧ lacks "010" v = true.
Proof. unfold good_value. intros Hv. by split_bools. Qed.

Lemma replace_all_has_solid x m v pre s :
  has_solid v = true → lacks "$" v = true →
  strfind (String x m) s ≠ None →
  has_solid (replace_all (String x m) v 0 pre s) = true.
Proof.
  intros Hv Hd. revert pre; induction s as [|c s IH]; intros pre; cbn [strfind replace_all].
  { by destruct m. }
  destruct (String.prefix (String x m) (String c s)).
  - intros _. by rewrite expand_lacks, has_solid_app, Hv.
  - intros Hs. rewrite has_solid_cons, IH, orb_true_r; [done|]. by destruct (strfind _ s).
Qed.

(** A line that is not blank keeps a solid byte. *)
Definition firm (t : string) : bool := has_solid t && lacks "#" t && lacks "010" t.

Lemma safe_substitute t : lacks "010" t = true → safe (substitute_variables t) (λ r, lacks "010" r = true).
Proof.
  intros Ht s Hs. destruct (stays_substitute t s) as [[r Hr]|Hr]; rewrite Hr; [|done].
  split; [done|]. intros a s' [= <- <-]. split; [done|].
  eapply substitute_bytes; [|exact Ht|exact Hr].
  destruct Hs as [_ [_ Hv]]. intros n v Hn. by apply good_value_spec, (Hv n).
Qed.

Lemma safe_substitute_any t : harmless (substitute_variables t).
Proof.
  intros s Hs. destruct (stays_substitute t s) as [[r ->]| ->]; [|done].
  split; [done|]. by intros a s' [= _ <-].
Qed.

Lemma safe_substitute_firm t : firm t = true → safe (substitute_variables t) (λ r, firm r = true).
Proof.
  intros Ht s Hs. destruct Hs as [Hf [Hc Hv]].
  destruct (substitute_inv (λ r, firm r = true) t s) as (r & Hr & Hp); [| |done|].
  - intros n v Hn. exact (proj1 (Hv n v Hn)).
  - intros n v u Hn Hu. destruct (Hv n v Hn) as [_ Hg%good_value_spec].
    destruct Hg as (Hv1 & Hv2 & Hv3 & Hv4). unfold firm in Hu |- *. split_bools.
    assert (Hb : ∀ x, lacks x v = true → lacks x u = true →
                      lacks x (replace_all (mark n) v 0 "" u) = true)
      by (intros x Hxv Hxu; by apply replace_all_all).
    rewrite !Hb by done. rewrite !andb_true_r.
    destruct (strfind (mark n) u) as [i|] eqn:Hi.
    + apply replace_all_has_solid; [done..|].
      intros Hno. assert (Hnone : strfind (mark n) u = None) by exact Hno. congruence.
    + by rewrite replace_all_absent.
  - rewrite Hr. split; [done|]. intros a s' [= <- <-]. by split; [split|].
Qed.

Lemma firm_tame t : firm t = true → tame t = true.
Proof.
  unfold firm, tame. intros Ht. split_bools.
  rewrite has_solid_strip by done. by apply orb_true_intro; right.
Qed.

(** ** Files *)

(** A line as it is written: all lines it becomes are tame. *)
Definition tame_out (l : string) : Prop := tame_text (l +:+ NL) = true.

Lemma tame_out_line l : lacks "010" l = true → tame l = true → tame_out l.
Proof. intros Hl Ht. unfold tame_out, tame_text. rewrite getlines_line by done. simpl. by rewrite Ht. Qed.

Lemma tame_putlines ls : Forall tame_out ls → tame_text (putlines ls) = true.
Proof.
  intros Hls. unfold tame_text. rewrite getlines_putlines. induction Hls as [|l ls Hl _ IH]; [done|].
  csimpl. rewrite forallb_app. by rewrite (Hl : forallb tame _ = true), IH.
Qed.

Lemma tame_lines t : tame_text t = true → Forall tame_out (getlines t).
Proof.
  intros Ht%forallb_Forall. pose proof (getlines_lack_NL t) as Hn.
  rewrite Forall_forall in *. intros l Hl. apply tame_out_line; auto.
Qed.

Lemma tame_tree_lookup f p t : tame_tree f → node_at f p = Some (FFile t) → tame_text t = true.
Proof.
  intros Hf. unfold node_at. destruct (ends_in_slash p).
  - by destruct (f !! chop_slash p) as [[]|].
  - intros Hp. exact (Hf p _ Hp).
Qed.

Lemma orderly_put s p t : orderly s → tame_text t = true →
  orderly (set_files (<[p := FFile t]> (files s)) s).
Proof. intros [Hf Hv] Ht. split; [|done]. by apply map_Forall_insert_2. Qed.

Section Commands.
Context {H : Host}.

Lemma safe_fs_copy_file b from to : harmless (fs_copy_file b from to).
Proof.
  intros s Hs. unfold fs_copy_file.
  destruct (node_at (files s) from) as [[|t]|] eqn:Hf; [done| |by destruct (node_at (files s) to)].
  pose proof (tame_tree_lookup _ _ _ (proj1 Hs) Hf) as Ht.
  destruct (node_at (files s) to) as [[|u]|]; [done| |];
    (destruct (_ && _); [|done]; split; [done|]; intros a s' [= _ <-]; split; [|done];
     by apply orderly_put).
Qed.

Lemma safe_fs_copy from to : harmless (fs_copy from to).
Proof.
  intros s Hs. unfold fs_copy. pose proof (safe_fs_copy_file false from to s Hs) as Hc.
  by destruct (node_at (files s) from) as [[|t]|], (node_at (files s) to) as [[|u]|].
Qed.

Lemma safe_fs_rename from to : harmless (fs_rename from to).
Proof.
  intros s Hs. unfold fs_rename.
  destruct (node_at (files s) from) as [[|t]|] eqn:Hf; [done| |done].
  pose proof (tame_tree_lookup _ _ _ (proj1 Hs) Hf) as Ht.
  assert (Ho : orderly (set_files (<[to := FFile t]> (base.delete from (files s))) s)).
  { destruct Hs as [Htree Hv]. split; [|done]. apply map_Forall_insert_2; [done|].
    by apply map_Forall_delete. }
  destruct (node_at (files s) to) as [[|u]|]; [done| |];
    (destruct (from =s? to); [split; [done|]; by intros a s' [= _ <-]|];
     destruct (_ && _); [|done]; split; [done|]; by intros a s' [= _ <-]).
Qed.
Hint Resolve safe_fs_copy_file safe_fs_copy safe_fs_rename : safe.

Definition tame_cfg (cfg : CellframeConfigurationFile) : Prop :=
  Forall (λ l, lacks "010" l = true ∧ tame l = true) (lines cfg).

Lemma safe_read_lines p :
  safe (read_lines p) (Forall (λ l, lacks "010" l = true ∧ tame l = true)).
Proof.
  intros s Hs. unfold read_lines. split; [done|]. intros a s' [= <- <-]. split; [done|].
  destruct (node_at (files s) p) as [[|t]|] eqn:Hp; [constructor| |constructor].
  apply (tame_tree_lookup _ _ _ (proj1 Hs)), forallb_Forall in Hp.
  pose proof (getlines_lack_NL t) as Hn. rewrite Forall_forall in *. auto.
Qed.

Lemma safe_open_cfg p flags : safe (open_cfg p flags) tame_cfg.
Proof.
  unfold open_cfg. eapply safe_then; [apply safe_fs_exists|]. intros there _.
  destruct there; [|apply safe_throw]. eapply safe_then; [apply safe_read_lines|]. intros ls Hls.
  safe_steps.
Qed.

Lemma scan_not_wild g p found i ks : Forall (λ k, k ≠ KWild) ks → scan g p found i ks ≠ Wild.
Proof.
  intros Hk. revert found i; induction Hk as [|k ks Hk _ IH]; intros found i; simpl; [done|].
  destruct k as [|g'|p' v| |]; auto; destruct found; simpl; auto; try done.
  by destruct (p' =s? p).
Qed.

Lemma scan_modelled g p found i ks : scan g p found i ks ≠ Unmodelled.
Proof.
  revert found i; induction ks as [|k ks IH]; intros found i; simpl; [done|].
  destruct k as [|g'|p' v| |]; auto; destruct found; simpl; auto; try done.
  by destruct (p' =s? p).
Qed.

Lemma tame_scan cfg g p : tame_cfg cfg → scan g p false 0 (kinds (lines cfg)) ≠ Wild.
Proof.
  intros Hc. apply scan_not_wild, Forall_fmap. eapply Forall_impl; [exact Hc|].
  intros l [_ Hl]. by apply tame_kind.
Qed.

Lemma safe_exists cfg g p : tame_cfg cfg → harmless (exists_ cfg g p).
Proof. intros Hc. eapply safe_only_prints; [apply exists_scan|by apply tame_scan|done]. Qed.

Lemma set_lines_Forall (P : string → Prop) r n g p v ls :
  P ("[" +:+ g +:+ "]") → P (p +:+ "=" +:+ v) → P NL → Forall P ls → Forall P (set_lines r n g p v ls).
Proof.
  intros Hg Hp Hn Hls.
  assert (Hi : ∀ k x l, P x → Forall P l → Forall P (insert_at k x l)).
  { intros k x l Hx Hl. unfold insert_at. apply Forall_app. split; [by apply Forall_take|].
    constructor; [done|]. by apply Forall_drop. }
  unfold set_lines. destruct (param_exists r); [by apply Forall_insert|].
  destruct (group_exists r); auto.
Qed.

Lemma clean_solid s : clean s = true → ∃ c t, s = String c t ∧ solid c = true.
Proof.
  intros (Hn & He & Hh & Hne)%clean_spec. destruct s as [|c t]; [done|]. exists c, t. split; [done|].
  unfold nospaces in Hn. cbn [str_all] in Hn. rewrite lacks_cons in He, Hh. split_bools.
  unfold solid. repeat match goal with Hx : negb _ = true |- _ => apply negb_true_iff in Hx; rewrite Hx
    | Hx : _ = false |- _ => rewrite Hx end. done.
Qed.

Lemma safe_set cfg g p v :
  tame_cfg cfg → clean_group g = true → clean_param p = true → lacks "010" v = true →
  safe (set_ cfg g p v) (λ x, Forall tame_out (lines x.2)).
Proof.
  intros Hc Hg Hp Hv. pose proof (tame_scan cfg g p Hc) as Hw. pose proof (set_err cfg g p v) as He.
  destruct (scan g p false 0 (kinds (lines cfg))) as [r|e| |] eqn:Hr; try done.
  - eapply safe_only_prints; [by apply set_only_prints|done|]. intros a [= <-]. simpl.
    apply set_lines_Forall.
    + apply tame_out_line; [by apply lacks_decl|]. by apply tame_first.
    + apply tame_out_line; [by apply lacks_pair|]. unfold clean_param in Hp.
      apply andb_prop in Hp as [Hp _]. apply clean_solid in Hp as (c & t & -> & Hs).
      rewrite string_app_cons. by apply tame_first.
    + done.
    + eapply Forall_impl; [exact Hc|]. intros l [? ?]. by apply tame_out_line.
  - by eapply safe_only_prints.
  - by apply scan_modelled in Hr.
Qed.

Lemma safe_save cfg : Forall tame_out (lines cfg) → harmless (save cfg).
Proof.
  intros Hl. unfold save. safe_steps. intros s Hs. unfold write_file, put_file.
  pose proof (orderly_put s (path cfg) _ Hs (tame_putlines _ Hl)) as Ho.
  destruct (node_at (files s) (path cfg)) as [[|t]|];
    [split; [done|]; by intros ? ? [= _ <-]| |];
    (destruct (_ && _); split; try done; by intros ? ? [= _ <-]).
Qed.

Lemma safe_replace_lines ls :
  Forall (λ l, lacks "010" l = true ∧ tame l = true) ls →
  safe (replace_lines ls) (Forall tame_out).
Proof.
  induction 1 as [|l ls [Hn Ht] _ IH]; [by apply safe_value|]. cbn [replace_lines].
  eapply (safe_then _ _ tame_out).
  - destruct (is_empty (strip l)) eqn:He; [by apply safe_value, tame_out_line|].
    eapply safe_mono; [apply safe_substitute_firm|].
    + unfold tame in Ht. rewrite He in Ht. simpl in Ht. unfold firm.
      rewrite Ht, strip_lacks_hash, strip_bytes by done. done.
    + intros r Hr. pose proof Hr as Hf. unfold firm in Hf. split_bools.
      by apply tame_out_line; [|apply firm_tame].
  - intros l' Hl'. eapply safe_then; [exact IH|]. intros ls' Hls'. apply safe_value. by constructor.
Qed.

Lemma safe_populate p flags : harmless (populate p flags).
Proof.
  unfold populate. eapply safe_then; [apply safe_open_cfg|]. intros cfg Hc.
  eapply (safe_then _ _ (λ cfg', Forall tame_out (lines cfg'))).
  - unfold replace_placeholders. eapply safe_then; [apply safe_verbose|]. intros _ _.
    eapply safe_then; [by apply safe_replace_lines|]. intros ls Hls. by apply safe_value.
  - intros cfg' Hc'. eapply safe_then; [by apply safe_save|]. intros. by apply safe_value.
Qed.
Hint Resolve safe_populate : safe.

Lemma safe_fromtemplate cmd flags : harmless (execute_fromtemplate cmd flags).
Proof. unfold execute_fromtemplate. safe_steps. Qed.

Lemma safe_network cmd flags : wf_class (Network cmd) → harmless (execute_network cmd flags).
Proof.
  destruct cmd as [n a v]. simpl. intros Hw. unfold execute_network. cbn [net_action].
  destruct Hw as [-> |[[-> | ->] Hv]]; simpl.
  - unfold network_check. safe_steps.
  - unfold network_default. cbn [net_name default_val].
    destruct Hv as [-> | ->]; simpl; safe_steps.
  - unfold network_ensure. cbn [net_name default_val].
    destruct Hv as [-> | ->]; simpl; safe_steps.
Qed.

Lemma safe_config cmd flags :
  wf_class (Config cmd) → clean_group (cfg_group cmd) = true → clean_param (cfg_param cmd) = true →
  harmless (execute_config cmd flags).
Proof.
  intros (Ha & _ & _ & Hval%nospaces_NL) Hg Hp. unfold execute_config.
  eapply safe_then; [by apply safe_substitute|]. intros val Hnl.
  apply (safe_then _ _ (λ _, True)); [unfold config_target; safe_steps|]. intros path _.
  eapply safe_then; [apply safe_open_cfg|]. intros cfg Hc.
  assert (Hset : safe ('(_, cfg') ← set_ cfg (cfg_group cmd) (cfg_param cmd) val; mret (true, cfg'))
                      (λ x, x.1 = true → Forall tame_out (lines x.2))).
  { eapply safe_then; [by apply safe_set|]. intros [l cfg'] Hc'. by apply safe_value. }
  pose proof (safe_exists cfg (cfg_group cmd) (cfg_param cmd) Hc) as Hex.
  apply (safe_then _ _ (λ x, x.1 = true → Forall tame_out (lines x.2))).
  - destruct Ha as [-> |[-> | ->]]; simpl.
    + unfold config_default. eapply safe_then; [exact Hex|]. intros r _.
      destruct (_ && _); (eapply safe_then; [apply safe_say|]; intros _ _); [by apply safe_value|done].
    + unfold config_ensure. eapply safe_then; [apply safe_say|]. intros _ _. done.
    + unfold config_get. eapply safe_then; [exact Hex|]. intros r _.
      eapply safe_then; [apply safe_say|]. intros _ _. by apply safe_value.
  - intros [b cfg'] Hc'. apply (safe_then _ _ (λ _, True)); [|intros _ _; by apply safe_value].
    apply safe_when. simpl. intros ->. eapply safe_then; [by apply safe_save, Hc'|].
    intros _ _. by apply safe_value.
Qed.

Lemma safe_if cmd flags : harmless (execute_if cmd flags).
Proof.
  unfold execute_if. eapply safe_then; [apply safe_verbose|]. intros _ _.
  eapply safe_then; [apply safe_substitute_any|]. intros a1 _.
  eapply safe_then; [apply safe_substitute_any|]. intros a2 _. safe_steps.
Qed.

Lemma safe_var cmd flags :
  plain_name (var_name cmd) = true → good_value (var_val cmd) = true →
  harmless (execute_var cmd flags).
Proof.
  intros Hn Hv. pose proof (good_value_spec _ Hv) as (_ & _ & Hd & _).
  apply (safe_then _ _ (λ r, r = var_val cmd)).
  - intros s Hs. rewrite substitute_no_dollar; [|intros n v Hnv; by apply (proj2 (proj2 Hs) n v)|done].
    split; [done|]. by intros a s' [= <- <-].
  - intros r ->. apply (safe_then _ _ (λ _, True)).
    + intros s [Hf [Hc Hvs]]. split; [done|]. intros a s' [= _ <-]. split; [|done]. split; [done|].
      split; [apply lookup_insert_is_Some'; by right|]. by apply map_Forall_insert_2.
    + intros _ _. apply (safe_then _ _ (λ _, True)).
      * apply safe_same; [done|]. by intros s a s' [= _ <-].
      * intros items _. safe_steps.
Qed.

Lemma safe_net_list cmd flags : harmless (execute_net_list cmd flags).
Proof.
  unfold execute_net_list. safe_steps; try (apply safe_same; [done|]; by intros ? ? ? [= _ <-]).
Qed.

Lemma safe_service cmd flags : os ≠ WINDOWS → harmless (execute_service cmd flags).
Proof.
  intros Hos.
  assert (Hsys : ∀ c, harmless (system_ok c)) by (intros c; unfold system_ok; safe_steps).
  assert (Hmac : ∀ c, harmless (Macos.callSecScript c)).
  { intros c. apply safe_same; [done|]. by intros s a s' [= _ <-]. }
  assert (Hchoose : ∀ A (linux macos win : M A),
    harmless linux → harmless macos → harmless (choose linux macos win)).
  { intros A linux macos win Hl Hm. unfold choose. by destruct os. }
  unfold execute_service, report, service_enable, service_disable, service_status, service_start,
    service_stop, service_restart.
  safe_steps; apply Hchoose;
    unfold Linux.restart, Linux.start, Linux.stop, Linux.serviceStatus, Linux.enable, Linux.disable,
      Macos.restart, Macos.start, Macos.stop, Macos.serviceStatus, Macos.enable, Macos.disable;
    safe_steps.
Qed.

(** ** Scripts *)

(** Commands whose names and values are written back as they are read. *)
Definition tidy (c : command) : bool :=
  match class c with
  | Config n => clean_group (cfg_group n) && clean_param (cfg_param n)
  | Variable_ n => plain_name (var_name n) && good_value (var_val n)
  | _ => true
  end.

Lemma safe_execute c flags :
  os ≠ WINDOWS → wf_command c → tidy c = true → harmless (execute c flags).
Proof.
  intros Hos [Hw _] Ht. unfold execute, tidy in *.
  destruct (class c) as [n|n|n|n| |n|n|n];
    auto using safe_network, safe_if, safe_fromtemplate, safe_net_list, safe_service.
  - apply andb_prop in Ht as [? ?]. by apply safe_config.
  - apply andb_prop in Ht as [? ?]. by apply safe_var.
  - by apply safe_value.
Qed.

(** Every [endif] closes an [if]; [depth] are open. *)
Fixpoint balanced (depth : nat) (cmds : list command) : bool :=
  match cmds with
  | [] => true
  | c :: cmds' =>
      if is_condition_open c then balanced (S depth) cmds'
      else if is_condition_close c then
        match depth with
        | O => false
        | S d => balanced d cmds'
        end
      else balanced depth cmds'
  end.

Lemma length_removelast {A} (l : list A) : length (removelast l) = pred (length l).
Proof.
  induction l as [|x l IH]; [done|]. destruct l; [done|].
  change (removelast (x :: a :: l)) with (x :: removelast (a :: l)). cbn [length]. by rewrite IH.
Qed.

Lemma safe_run_loop cmds stack flags :
  Forall (λ c, harmless (execute c flags)) cmds → Forall (λ c, harmless (execute c flags)) stack →
  balanced (length stack) cmds = true → harmless (run_loop cmds stack flags).
Proof.
  intros Hc. revert stack; induction Hc as [|c cmds Hc _ IH]; intros stack Hst Hb; [by apply safe_value|].
  cbn [run_loop balanced] in *. unfold next_stack. destruct (is_condition_open c) eqn:Ho; cbn [orb].
  { eapply (safe_then _ _ (λ st', st' = stack ++ [c])); [by apply safe_value|]. intros st' ->.
    eapply safe_then; [apply safe_verbose|]. intros _ _. apply IH.
    - apply Forall_app. by split; [|constructor].
    - by rewrite length_app, Nat.add_comm. }
  destruct (is_condition_close c).
  - destruct stack as [|d stack]; [done|].
    eapply (safe_then _ _ (λ st', st' = removelast (d :: stack))); [by apply safe_value|]. intros st' ->.
    eapply safe_then; [apply safe_verbose|]. intros _ _. apply IH.
    + by apply removelast_incl.
    + by rewrite length_removelast.
  - apply (safe_then _ _ (λ _, True)); [|intros _ _; by apply IH].
    assert (Hrun : harmless (execute c flags;; mret tt)).
    { eapply safe_then; [exact Hc|]. intros _ _. by apply safe_value. }
    destruct (last stack) as [d|] eqn:Hl; [|done].
    apply last_In in Hl. rewrite Forall_forall in Hst.
    eapply safe_then; [by apply Hst|]. intros passed _. by apply safe_when.
Qed.

Lemma safe_run_commands cmds flags :
  os ≠ WINDOWS → Forall wf_command cmds → forallb tidy cmds = true → balanced 0 cmds = true →
  harmless (run_commands cmds flags).
Proof.
  intros Hos Hw Ht%forallb_Forall Hb. unfold run_commands.
  eapply safe_then; [|intros _ _; by apply safe_value]. apply safe_run_loop; [|done|done].
  rewrite Forall_forall in *. intros c Hin. apply safe_execute; auto.
Qed.

(** ** Parsing *)
Definition stays_orderly (s s' : st) : Prop := orderly s → orderly s'.

#[export] Instance stays_orderly_preorder : PreOrder stays_orderly.
Proof. split; unfold stays_orderly; [by intros s|auto]. Qed.

#[export] Instance stays_orderly_silent : Silent stays_orderly.
Proof. by intros s c Hs. Qed.

Lemma orderly_config_path n t k : pres stays_orderly (config_path n t k).
Proof. intros s. change (stays_orderly s (touch CONFIGS s)). intros Hs. by rewrite orderly_touch. Qed.
Hint Resolve orderly_config_path : node.

Lemma orderly_registry name create t : registry name = Some create → pres stays_orderly (create t).
Proof.
  unfold registry. intros Hr. repeat case_match; simplify_eq; pres_steps;
    unfold new_network, new_config, new_var, new_if, new_fromtemplate, new_net_list, new_service;
    pres_steps.
Qed.

Lemma orderly_parse_lines ls n flags : pres stays_orderly (parse_lines ls n flags).
Proof.
  revert n; induction ls as [|l ls IH]; intros n; [by apply pres_ret; exact _|].
  cbn [parse_lines]. unfold parse_line_to_cmd, build. pres_steps; auto.
  destruct (registry _) as [create|] eqn:Hr; pres_steps. by eapply orderly_registry.
Qed.

Lemma safe_parse_setup_file name flags :
  safe (parse_setup_file name flags) (Forall wf_command).
Proof.
  intros s Hs. pose proof (no_ub_parse_setup_file name flags s) as Hu.
  pose proof (wf_parse_setup_file name flags s) as Hw.
  assert (Hp : pres stays_orderly (parse_setup_file name flags)).
  { unfold parse_setup_file. pres_steps. apply orderly_parse_lines. }
  specialize (Hp s). unfold wp in Hw. destruct (parse_setup_file name flags s); try done.
  split; [done|]. intros a' s' [= <- <-]. auto.
Qed.

(** C11 (init_configs_defined): setting the node up with a script has no undefined
    behaviour on Linux, macOS and Android, from opening the script to its last
    command, and leaves a tree that can be set up again: the files hold no line of
    equal signs and blanks only, the variables have usable values, every [endif] of
    the script closes an [if], and names and values can be written to a line.  The
    conditions are on the script as it is parsed; commands may be of any kind. *)
Theorem init_configs_defined name flags s :
  os ≠ WINDOWS → orderly s →
  (∀ c cmds s1, parse_setup_file name flags (set_console c s) = Value cmds s1 →
     forallb tidy cmds = true ∧ balanced 0 cmds = true) →
  init_configs name flags s ≠ Ub ∧
  ∀ z s', init_configs name flags s = Value z s' → orderly s'.
Proof.
  intros Hos Hs Hscript. unfold init_configs.
  destruct (is_empty name); [split; [done|]; by intros z s' [= _ <-]|].
  set (rest := λ commands, (run_commands commands flags;; mret 0%Z) : M Z).
  assert (Hrest : ∀ c, (parse_setup_file name flags ≫= rest) (set_console c s) ≠ Ub ∧
    ∀ z s', (parse_setup_file name flags ≫= rest) (set_console c s) = Value z s' → orderly s').
  { intros c. destruct (safe_parse_setup_file name flags (set_console c s) Hs) as [Hu Hv].
    specialize (Hscript c). unfold mbind, M_bind.
    destruct (parse_setup_file name flags (set_console c s)) as [cmds s1| | |]; try done.
    destruct (Hv cmds s1 eq_refl) as [Hs1 Hw]. destruct (Hscript cmds s1 eq_refl) as [Ht Hb].
    assert (Hr : harmless (rest cmds)).
    { eapply safe_then; [by apply safe_run_commands|]. intros _ _. by apply safe_value. }
    destruct (Hr s1 Hs1) as [Hu1 Hv1]. split; [done|]. intros z s' Hz. by apply (Hv1 z). }
  unfold rest, mbind, M_bind, fs_exists in *.
  destruct (present (files s) name); cbn [negb].
  - rewrite storage_touch, orderly_touch by done. apply Hrest.
  - split; [done|]. by intros z s' [= _ <-].
Qed.

End Commands.
