(* ===== verification/ConfFill.v ===== *)
(** * Filling a template in: FromTemplateCommand.cpp

    [fromtemplate] copies the template of a configuration and replaces the
    placeholders in the copy.  [fill_line] is what happens to one line: blank lines
    and comments stay, any other line is trimmed, loses its comment and has its
    variables substituted. *)
From S2P Require Import CLib.
From S2P Require Export ConfSafe.

(** The substitution as a function of the variables; [None] where a name is
    beyond what is modelled of regular expressions. *)
Definition substituted (vars : gmap string string) (t : string) : option string :=
  match substitute_variables t (St vars ∅ [] []) with
  | Value r _ => Some r
  | _ => None
  end.

Definition fill_line (vars : gmap string string) (l : string) : option string :=
  if is_empty (strip l) then Some l else substituted vars (strip l).

Lemma substitute_substituted t s :
  substitute_variables t s =
    match substituted (variable_storage s) t with Some r => Value r s | None => Beyond end.
Proof.
  unfold substituted, substitute_variables, replacePlaceholders. cbn [variable_storage].
  destruct (settled_replace_each t ∅ (map_items (placeholders_of (variable_storage s)))) as [[a|] Hr];
    by rewrite !Hr.
Qed.

Lemma replace_lines_fill ls s :
  replace_lines ls s =
    match mapM (fill_line (variable_storage s)) ls with Some ls' => Value ls' s | None => Beyond end.
Proof.
  induction ls as [|l ls IH]; [done|]. cbn [replace_lines]. unfold mbind at 1, M_bind at 1.
  assert (Hl : ((if is_empty (strip l) then mret l else substitute_variables (strip l)) : M string) s =
    match fill_line (variable_storage s) l with Some r => Value r s | None => Beyond end).
  { unfold fill_line. destruct (is_empty (strip l)); [done|]. apply substitute_substituted. }
  rewrite Hl. cbn [mapM]. destruct (fill_line (variable_storage s) l) as [r|]; [|done].
  unfold mbind at 1, M_bind. rewrite IH. cbn. by destruct (mapM _ ls).
Qed.

(** ** Paths: a template is not its own copy *)
Lemma path_append_word r c w n :
  ends_in_slash (String c w) = false → is_absolute n = false →
  (r +:+ String c w) // n = r +:+ (String c w +:+ "/" +:+ n).
Proof.
  intros Hw Hn. unfold path_append. rewrite Hn, ends_in_slash_app, Hw.
  replace (is_empty (r +:+ String c w)) with false by (by destruct r). cbn [orb].
  by rewrite <- string_app_assoc.
Qed.

Lemma path_append_dir r w n :
  is_absolute n = false → (r +:+ (w +:+ "/")) // n = r +:+ ((w +:+ "/") +:+ n).
Proof.
  intros Hn. unfold path_append. rewrite Hn.
  replace (ends_in_slash (r +:+ (w +:+ "/"))) with true.
  - rewrite orb_true_r. by rewrite <- string_app_assoc.
  - rewrite string_app_assoc. symmetry. apply ends_in_slash_app.
Qed.

Lemma path_append_root root n :
  is_absolute n = false →
  root // n = (if is_empty root || ends_in_slash root then root else root +:+ "/") +:+ n.
Proof.
  intros Hn. unfold path_append. rewrite Hn. destruct (_ || _); [done|].
  by rewrite <- string_app_assoc.
Qed.

Lemma template_not_copy root n :
  is_absolute n = false →
  config_file root n CFG_GENERAL CFG_TEMPLATE ≠ config_file root n CFG_GENERAL CFG_ON.
Proof.
  intros Hn. assert (Ha : is_absolute (n +:+ ".cfg") = false).
  { unfold is_absolute in *. destruct n as [|c n]; [done|]. rewrite string_app_cons.
    cbn [String.prefix] in *. destruct (ascii_dec "/" c); [|done]. by destruct n. }
  unfold config_file. rewrite !(path_append_root root) by done.
  set (r := if is_empty root || ends_in_slash root then root else root +:+ "/").
  assert (H1 : (r +:+ "share") // "configs" = r +:+ "share/configs")
    by exact (path_append_word r "s" "hare" "configs" eq_refl eq_refl).
  assert (H2 : (r +:+ "share/configs") // "cellframe-node.cfg" = r +:+ "share/configs/cellframe-node.cfg")
    by exact (path_append_word r "s" "hare/configs" "cellframe-node.cfg" eq_refl eq_refl).
  assert (H3 : (r +:+ "etc") // "cellframe-node.cfg" = r +:+ "etc/cellframe-node.cfg")
    by exact (path_append_word r "e" "tc" "cellframe-node.cfg" eq_refl eq_refl).
  assert (H4 : (r +:+ "share/configs") // "network/" = r +:+ "share/configs/network/")
    by exact (path_append_word r "s" "hare/configs" "network/" eq_refl eq_refl).
  assert (H5 : (r +:+ "etc") // "network/" = r +:+ "etc/network/")
    by exact (path_append_word r "e" "tc" "network/" eq_refl eq_refl).
  pose proof (path_append_dir r "share/configs/network" _ Ha : (r +:+ "share/configs/network/") // _ = _) as H6.
  pose proof (path_append_dir r "etc/network" _ Ha : (r +:+ "etc/network/") // _ = _) as H7.
  rewrite H1, H2, H3, H4, H5, H6, H7.
  destruct (n =s? "cellframe-node"); intros Heq; apply (f_equal String.length) in Heq;
    rewrite !string_length_app in Heq; simpl in Heq; lia.
Qed.

Section Fill.
Context {H : Host}.

Lemma populate_run p flags s t ls :
  ends_in_slash p = false → flag flags F_DRYRUN = false → may_write p = true →
  files s !! p = Some (FFile t) → mapM (fill_line (variable_storage s)) (getlines t) = Some ls →
  ∃ c, populate p flags s =
    Value true (set_console c (set_files (<[p := FFile (putlines ls)]> (files s)) s)).
Proof.
  intros Hp Hd Hm Ht Hls. unfold populate, mbind, M_bind.
  destruct (open_cfg_run p flags s) as [c1 ->].
  { unfold present, node_at. by rewrite Hp, Ht. }
  unfold replace_placeholders, mbind, M_bind. cbn [cfg_flags lines path].
  destruct (only_prints_verbose flags ("[VC] replacing placeholders in" +:+ show_path p +:+ NL)
              (set_console c1 s)) as [c2 ->]. simpl.
  rewrite replace_lines_fill. unfold lines_at, node_at. rewrite Hp, Ht.
  change (variable_storage (set_console _ _)) with (variable_storage s).
  rewrite Hls. unfold save, mbind, M_bind. simpl.
  match goal with |- context [verbose flags ?x ?u] =>
    destruct (only_prints_verbose flags x u) as [c3 ->] end. simpl.
  rewrite Hd. unfold write_file, put_file, node_at. simpl. rewrite Hp, Ht, Hm. simpl. eauto.
Qed.

(** C17 (fromtemplate_fills): outside a dry run, with the installation directory
    set, a target that may be written and is no directory, and a template whose
    lines can be substituted, [fromtemplate <name> ensure], and [default] where the
    configuration does not exist yet, return, and leave in the file of the
    configuration the lines of the template as [fill_line] makes them: a line that
    is blank or only a comment stays as it is, any other line is trimmed, loses its
    trailing comment and has its variables replaced.  No other file and no variable
    changes.  ([fromtemplate default] on an existing configuration changes nothing.) *)
Theorem fromtemplate_fills cmd flags s t ls :
  let from := config_file (root_of s) (tmpl_name cmd) CFG_GENERAL CFG_TEMPLATE in
  let to := config_file (root_of s) (tmpl_name cmd) CFG_GENERAL CFG_ON in
  is_Some (variable_storage s !! CONFIGS) → is_absolute (tmpl_name cmd) = false →
  flag flags F_DRYRUN = false → may_write to = true →
  files s !! from = Some (FFile t) →
  mapM (fill_line (variable_storage s)) (getlines t) = Some ls →
  (tmpl_action cmd = "ensure" ∧ files s !! to ≠ Some FDir →
   ∃ c, execute_fromtemplate cmd flags s =
     Value true (set_console c (set_files (<[to := FFile (putlines ls)]> (files s)) s))) ∧
  (tmpl_action cmd = "default" →
   ∃ c, execute_fromtemplate cmd flags s =
     Value true (set_console c
       (if present (files s) to then s
        else set_files (<[to := FFile (putlines ls)]> (files s)) s))).
Proof.
  intros from to Hroot Habs Hd Hm Ht Hls.
  assert (Htouch : touch CONFIGS s = s) by (destruct Hroot as [v Hv]; unfold touch; by rewrite Hv).
  assert (Hpath : ∀ k, config_path (tmpl_name cmd) CFG_GENERAL k s =
                       Value (config_file (root_of s) (tmpl_name cmd) CFG_GENERAL k) s).
  { intros k. change (config_path (tmpl_name cmd) CFG_GENERAL k s) with
      (Value (config_file (root_of s) (tmpl_name cmd) CFG_GENERAL k) (touch CONFIGS s)). by rewrite Htouch. }
  assert (Hex : ∀ f u, fs_exists f u = Value (present (files u) f) u) by done.
  assert (Hto : ends_in_slash to = false) by apply config_file_no_slash.
  assert (Hft : (from =s? to) = false) by (apply String.eqb_neq; by apply template_not_copy).
  assert (Hfrom : node_at (files s) from = Some (FFile t)).
  { unfold node_at, from. by rewrite config_file_no_slash. }
  assert (Hpop : ∀ c, ∃ c', populate to flags (set_console c (set_files (<[to := FFile t]> (files s)) s)) =
    Value true (set_console c' (set_files (<[to := FFile (putlines ls)]> (files s)) s))).
  { intros c. destruct (populate_run to flags (set_console c (set_files (<[to := FFile t]> (files s)) s)) t ls)
      as [c' Hc]; [done|done|done|apply lookup_insert_eq|done|]. exists c'. rewrite Hc. simpl.
    by rewrite insert_insert_eq. }
  unfold execute_fromtemplate, mbind, M_bind. rewrite !Hpath, Hex. fold from to.
  assert (Hcopy : ∀ b c, (files s !! to = None ∨ b = true ∧ files s !! to ≠ Some FDir) →
    fs_copy_file b from to (set_console c s) =
      Value tt (set_console c (set_files (<[to := FFile t]> (files s)) s))).
  { intros b c Hwhy. unfold fs_copy_file. cbn [files set_console]. rewrite Hfrom.
    unfold node_at. rewrite Hto, Hft, Hm.
    destruct (files s !! to) as [[|u]|]; destruct Hwhy as [?|[-> ?]]; done. }
  split.
  - intros [-> Hdir]. simpl. rewrite Hd. simpl. rewrite Hcopy; [|by right]. apply Hpop.
  - intros ->. simpl. destruct (present (files s) to) eqn:Hp; simpl; [eauto|].
    rewrite Hd. simpl. rewrite Hcopy; [apply Hpop|]. left. unfold present, node_at in Hp.
    rewrite Hto in Hp. by destruct (files s !! to).
Qed.

(** ** [network ensure] as documented

    The setup script's documentation: if the network has a configuration it is
    switched to the requested state, if it has none one is made as [fromtemplate]
    does, from the template and populated.  [req] is the file of the requested
    state, [opp] the one of the other state; disabling ([off]) also has to switch a
    network that has both.  [None]: the documentation asks for nothing. *)
Definition documented_ensure (req opp tmpl : string) (off dry : bool) (vars : gmap string string)
    (f : gmap string fnode) : option (bool * gmap string fnode) :=
  match f !! req, f !! opp with
  | Some _, None => Some (false, f)
  | Some _, Some x =>
      if off
      then if dry then Some (true, f)
           else match x with FFile t => Some (true, <[req := FFile t]> (base.delete opp f)) | FDir => None end
      else Some (false, f)
  | None, Some x =>
      if dry then Some (true, f)
      else match x with FFile t => Some (true, <[req := FFile t]> (base.delete opp f)) | FDir => None end
  | None, None =>
      if dry then Some (true, f)
      else match f !! tmpl with
           | Some (FFile t) =>
               match mapM (fill_line vars) (getlines t) with
               | Some ls => Some (true, <[req := FFile (putlines ls)]> f)
               | None => None
               end
           | _ => None
           end
  end.

(** Populating the template would change nothing in it. *)
Definition nothing_to_fill (vars : gmap string string) (f : gmap string fnode) (tmpl : string) : Prop :=
  ∀ t, f !! tmpl = Some (FFile t) →
    mapM (fill_line vars) (getlines t) = Some (getlines t) ∧ putlines (getlines t) = t.

Lemma ensure_step_documented req opp tmpl off dry vars f b f' :
  is_Some (f !! req) ∨ is_Some (f !! opp) ∨ nothing_to_fill vars f tmpl →
  ensure_step req opp tmpl off dry f b f' → documented_ensure req opp tmpl off dry vars f = Some (b, f').
Proof.
  intros Hfill Hs. unfold documented_ensure.
  destruct Hs as [[x Hr] Ho|Hd Hwhy|t Hd Ho Hwhy|t Hd Ho Hr Ht].
  - rewrite Hr. destruct (f !! opp) as [y|]; [|done]. destruct off; [|done]. by specialize (Ho eq_refl).
  - rewrite Hd. destruct Hwhy as [->|[-> [y ->]]]; [by destruct (f !! opp)|by destruct (f !! req)].
  - rewrite Hd, Ho. destruct Hwhy as [->| ->]; [by destruct (f !! req)|done].
  - rewrite Hd, Ho, Hr, Ht. destruct Hfill as [[x Hx]|[[x Hx]|Hfill]]; [congruence..|].
    destruct (Hfill t Ht) as [-> ->]. done.
Qed.

(** C19 (network_ensure_refines): [network <n> ensure on|off] on a network other than
    the node itself does what is documented: a network already in the requested state
    stays and false is returned; a dry run changes nothing; a network in the other
    state (or, when it is to be disabled, in both) has its file moved, content and
    all; one that has no configuration gets the populated template in the requested
    state; and no other file changes.  When it throws, no file has changed.  The
    condition: the network has a configuration, or its template is one that populating
    leaves as it is; for other templates the code leaves a raw copy, against the
    documentation ([network_ensure_unfilled]). *)
Theorem network_ensure_refines n v flags s :
  n ≠ "cellframe-node" → v = "on" ∨ v = "off" →
  is_Some (files s !! req_file s n v) ∨ is_Some (files s !! opp_file s n v) ∨
    nothing_to_fill (variable_storage s) (files s) (tmpl_file s n) →
  match execute_network (ensure_cmd n v) flags s with
  | Value b s' => documented_ensure (req_file s n v) (opp_file s n v) (tmpl_file s n)
                    (v =s? "off") (flag flags F_DRYRUN) (variable_storage s) (files s) = Some (b, files s')
  | Thrown _ s' => files s' = files s
  | Ub | Beyond => True
  end.
Proof.
  intros Hn Hv Hfill. pose proof (network_ensure_coded n v flags s Hn Hv) as Hc.
  destruct (execute_network _ _ _); try done. by apply ensure_step_documented.
Qed.

End Fill.

(** A network with a template that has nothing to fill in, and none else. *)
Definition plain_template : st :=
  St {["CONFIGS_PATH" := "/opt"]}
     {["/opt/share/configs/network/Net.cfg" := FFile ("[general]" +:+ NL +:+ "node-role=full" +:+ NL)]} [] [].

Lemma network_ensure_refines_witness :
  (∃ s', execute_network (H:=demo_host) (ensure_cmd "Net" "off") 0 demo_state = Value true s' ∧
     documented_ensure (req_file demo_state "Net" "off") (opp_file demo_state "Net" "off") (tmpl_file demo_state "Net")
       true false (variable_storage demo_state) (files demo_state) = Some (true, files s')) ∧
  (∃ s', execute_network (H:=demo_host) (ensure_cmd "Net" "on") 0 plain_template = Value true s' ∧
     documented_ensure (req_file plain_template "Net" "on") (opp_file plain_template "Net" "on")
       (tmpl_file plain_template "Net") false false (variable_storage plain_template) (files plain_template)
     = Some (true, files s')).
Proof.
  split.
  - assert (Hr : outcome_of (execute_network (H:=demo_host) (ensure_cmd "Net" "off") 0 demo_state) = Ok true)
      by (vm_compute; reflexivity).
    pose proof (network_ensure_refines (H:=demo_host) "Net" "off" 0 demo_state ltac:(discriminate)
                  (or_intror eq_refl)) as Hd.
    destruct (execute_network _ _ demo_state) as [b s'| | |]; try discriminate Hr. injection Hr as ->.
    exists s'. split; [reflexivity|]. apply Hd. right. left.
    exists (FFile ("[general]" +:+ NL +:+ "node-role=light" +:+ NL)). vm_compute. reflexivity.
  - assert (Hr : outcome_of (execute_network (H:=demo_host) (ensure_cmd "Net" "on") 0 plain_template) = Ok true)
      by (vm_compute; reflexivity).
    pose proof (network_ensure_refines (H:=demo_host) "Net" "on" 0 plain_template ltac:(discriminate)
                  (or_introl eq_refl)) as Hd.
    destruct (execute_network _ _ plain_template) as [b s'| | |]; try discriminate Hr. injection Hr as ->.
    exists s'. split; [reflexivity|]. apply Hd. right. right. intros t Ht.
    assert (Ht' : files plain_template !! tmpl_file plain_template "Net" =
              Some (FFile ("[general]" +:+ NL +:+ "node-role=full" +:+ NL))) by (vm_compute; reflexivity).
    rewrite Ht' in Ht. injection Ht as <-. split; vm_compute; reflexivity.
Defined.

Definition fill_demo : st :=
  St (<["ROLE" := "full"]> {["CONFIGS_PATH" := "/opt"]})
     {["/opt/share/configs/network/Net.cfg" :=
         FFile ("[general]" +:+ NL +:+ "# ${ROLE} of the node" +:+ NL
                +:+ "  node-role=${ROLE}  # filled in" +:+ NL)]}
     [] [].

Definition fill_demo_cmd : CFromTemplateCommand := {| tmpl_name := "Net"; tmpl_action := "default" |}.

Lemma fromtemplate_fills_witness :
  ∃ c, execute_fromtemplate (H:=demo_host) fill_demo_cmd 0 fill_demo =
    Value true (set_console c (set_files
      (<["/opt/etc/network/Net.cfg" :=
           FFile ("[general]" +:+ NL +:+ "# ${ROLE} of the node" +:+ NL +:+ "node-role=full  " +:+ NL)]>
         (files fill_demo)) fill_demo)).
Proof.
  assert (Hr : is_Some (variable_storage fill_demo !! CONFIGS)) by (exists "/opt"; reflexivity).
  assert (Hls : mapM (fill_line (variable_storage fill_demo))
                  ["[general]"; "# ${ROLE} of the node"; "  node-role=${ROLE}  # filled in"]
                = Some ["[general]"; "# ${ROLE} of the node"; "node-role=full  "])
    by (vm_compute; reflexivity).
  assert (Ht : files fill_demo !! "/opt/share/configs/network/Net.cfg" =
    Some (FFile ("[general]" +:+ NL +:+ "# ${ROLE} of the node" +:+ NL
                 +:+ "  node-role=${ROLE}  # filled in" +:+ NL))) by (vm_compute; reflexivity).
  exact (proj2 (fromtemplate_fills (H:=demo_host) fill_demo_cmd 0 fill_demo _ _ Hr eq_refl eq_refl eq_refl
                  Ht Hls) eq_refl).
Defined.

(** A network that has no configuration gets the template as it is, its placeholder
    included. *)
Example network_ensure_unfilled :
  match execute_network (H:=demo_host) (ensure_cmd "Net" "on") 0 fill_demo with
  | Value _ s' => files s' !! "/opt/etc/network/Net.cfg" = files fill_demo !! "/opt/share/configs/network/Net.cfg"
  | _ => False
  end.
Proof. vm_compute. reflexivity. Qed.
