(* ===== verification/ConfInstall.v ===== *)
(** * The installation script that ships with the node

    [dist/share/default.setup] and the templates of [dist/share/configs], run by
    the configuration tool: what an installer leaves on disk, that a second
    installation changes nothing, and what becomes of the settings of a user. *)
From S2P Require Export ConfSafe.

(** ** The files

    The script from its line [# Setup Script] on, without the one comment that
    quotes command names; the templates in full. *)
Definition default_setup : string := "# Setup Script

var DB_DRIVER = mdbx

fromtemplate cellframe-node default

network     Backbone    default     on
network     KelVPN      default     on 
network     riemann     default     off
network     raiden      default     off
network     mileena     default     off
network     subzero     default      off    #subzero is devnet, force-to disable it 

# config commands works with cellframe-node / network/.cfg|.cfg dis files, not templated one

config  cellframe-node  general                 auto_online         default     true
config  cellframe-node  general                 debug_mode          default     false
config  cellframe-node  server                  enabled             default     false
config  cellframe-node  server                  listen_address      default     [0.0.0.0:8079]
config  cellframe-node  notify_server           listen_address      ensure     [127.0.0.1:8080]
config  cellframe-node  bootstrap_balancer      http_server         ensure      true
config  cellframe-node  cli-server              version             default     1

config cellframe-node  global_db        driver           default     ${DB_DRIVER}
config cellframe-node  plugins          enabled          default     false

# only linux use socket for cli
if ${HOST_OS} == Linux
    config cellframe-node  cli-server    listen-path          ensure    [../var/run/node_cli]
    config cellframe-node  cli-server    listen-address       default   [127.0.0.1:12345]
endif

# windows and macos use tcp/ip for conserver
if ${HOST_OS} != Linux 
    config cellframe-node  cli-server    listen-address       default   [127.0.0.1:12345]
endif

config cellframe-node  plugins       enabled          ensure     true
config cellframe-node  plugins       py_path          ensure     ../var/lib/plugins
config cellframe-node  plugins       py_load          ensure     true

config  Backbone     general     node-role   default     full
config  KelVPN       general     node-role   default     full
config  raiden       general     node-role   default     full
config  riemann      general     node-role   default     full
config  mileena      general     node-role   default     full
config  subzero      general     node-role   default     full

config Backbone general seed_nodes_hosts ensure [0.root.scorpion.cellframe.net:8079,1.root.scorpion.cellframe.net:8079,2.root.scorpion.cellframe.net:8079,3.root.scorpion.cellframe.net:8079,4.root.scorpion.cellframe.net:8079]

config KelVPN general seed_nodes_hosts ensure [0.root.kelvpn.com:8079,1.root.kelvpn.com:8079,2.root.kelvpn.com:8079]

config Backbone esbocs consensus_debug ensure true
config Backbone global_db mempool_ttl ensure 14400

config KelVPN esbocs consensus_debug ensure true
config raiden esbocs consensus_debug ensure true
config riemann esbocs consensus_debug ensure true
config mileena esbocs consensus_debug ensure true
config subzero esbocs consensus_debug ensure true
".

Definition tpl_node : string := "# General section
[general]
# General debug mode
debug_mode=
# Debug stream packets
debug_dump_stream_headers=false
# Debug I/O reactor, false by default
#debug_reactor=false
# Debug HTTP protocol, false by default
#debug_http=false
# debug-config=false

# seed mode. WARNING. Used true only when you start the new network
#seed_mode=false

# Auto bring up links and sync everything over them
auto_online=

# Server part
[server]
#   By default you don't need to open you to the world
enabled=
news_url_enabled=false
bugreport_url_enabled=false
listen_address=
# listen-port-tcp=
# External IPv4 address
#ext_address=8.9.10.11
# External IPv6 address
#ext_address6=aaaa:bbbb:deee:96ff:feee:3fff
#
# If not set - used listen_port_tcp for node table auto fill
#ext_port_tcp=8089
#exec_cmd=[]

[server_options]
# proxy_enable=false
# proxy_enable2=false

[notify_server]
# Listening path have priority above listening address examples to use
# listen_path=[listen/path1,listen/path2,...]
# listen_address=[listen_address1:port1,port2,listen_address2:port3,...]
listen_address=

[stream]
# For now its IAES but thats depricated
#preferred_encryption=SALSA2012 
# Debug stream protocol
# debug_channels=false
# debug_dump_stream_headers=false
#debug=true

# Build in DNS client (need for bootstraping)
[dns_client]
# debug_more=false
# max_tries=5
# timeout=10
# timeout_read_after_connect=5
# ssl_cert_path=
#request_timeout=10

# Bootstrap balancer server
[bootstrap_balancer]
dns_server=false
http_server=true

# Ledger defaults
[ledger]
# cache_enabled=false
# More debug output
# debug_more=true

# DAG defaults
[dag]
# More debug output
# debug_more=true
#threshold_enabled=true

# Links check defaults
[link_manager]
#timer_update_states=5000
#max_attempts_num=2
# reconnect_delay=
#debug_more=true

[srv]
allow_unsigned_orders=false
allow_unverified_orders=false
unverified_orders_lifetime=21600

[srv_dns]
enabled=false
pricelist=[]

# Mempool
[mempool]
# gdb_group=
# Automatically false, for enabling need role master or higher
auto_proc=false

[chain]
# debug_more=true
# sync_timeout=
# sync_ack_window_size=
# debug_legacy=false
# pack_size=
# sync_idle_time=

# Chain network settings
[chain_net]
# debug_more=true

[blocks]
# debug_more=true

[sign]
# debug_more=true

[stake]
# debug_more=true

[crypto]
# debug_more=true

[gossip]
# debug_more=true


[stream_ch_chain]
# Uncomment to have more debug information in stream channel Chain
# False by default
#debug_more=true

# Number of hashes packed into the one update packet
# Increase it to reduce update latency
# Decrease if bad networking
# update_pack_size=100

# VPN stream channel processing module
[srv_vpn]
#   Turn to true if you want to share VPN service from you node 
enabled=false
debug_more=false
# Grace period for service , 60 second by default
#grace_period=60 
#   List of loca security access groups. Built in: expats,admins,services,nobody,everybody
network_address=10.11.12.0
network_mask=255.255.255.0
# The network on which the service operates
#net=KelVPN
# Wallet address for transferring payment for the service.
#wallet_addr=
# The name of the certificate for signing receipts. Must match the master node certificate.
#receipt_sign_cert=
# allow_free_srv=false

[srv_xchange]
# debug_more=false


# Console interface server
[cli-server]
enabled=true
# debug_more=false
# debug-cli=false
#unix-only
#listen-path=[../var/run/node_cli]
#listen-address=[127.0.0.1:12345]
version=1

# Application Resources
[resources]
#   0 means auto detect
threads_cnt=0 
pid_path=../var/run/cellframe-node.pid
log_file=../var/log/cellframe-node.log
wallets_path=../var/lib/wallet
ca_folders=[../var/lib/ca,../share/ca]
# geoip_db_path=
# datum_folder=

[global_db]
#debug_more=true
path=../var/lib/global_db
driver=
#debug_more=true
# mdbx_upper_limit_of_db_size=1024
#pgsql conninfo array
# pg_conninfo=[dbname=postgres]

[srv_dex]
debug_more=true

# Plugins 
[plugins]
enabled=true
# Load Python-based plugins
#py_load=true   
# Path to Pyhon-based plugins
#py_path=../var/lib/plugins
".

Definition tpl_Backbone : string := "# Backbone net config

# General section
[general]
id=0x0404202200000000
name=Backbone
gdb_groups_prefix=scorpion
native_ticker=CELL
bridged_network_ids=[0x1807202300000000]

# Possible values: light, full, archive, master, root
node-role=

seed_nodes_hosts=[0.root.scorpion.cellframe.net:8079,1.root.scorpion.cellframe.net:8079,2.root.scorpion.cellframe.net:8079,3.root.scorpion.cellframe.net:8079,4.root.scorpion.cellframe.net:8079]
#roots + dag goes here

#permanent_nodes_addrs=[0404::2022::0000::0005,0404::2022::0000::0006]

#[auth]
#type=ca
#acl_accept_ca_list=[]
#acl_accept_ca_gdb=
#acl_accept_ca_chains=all

[dag-poa]
#events-sign-cert=scorpion.root.0

[esbocs]
#blocks-sign-cert=mycert
#collecting_level=10.0
#fee_addr=myaddr

# [policy]
# activate=1
# deactivate=[0,1]
".

Definition tpl_KelVPN : string := "# KelVPN mainnet

# General section
[general]
id=0x1807202300000000
name=KelVPN
native_ticker=KEL
gdb_groups_prefix=kelvpn
bridged_network_ids=[0x0404202200000000]

# Possible values: light, full, archive, master, root
node-role=
seed_nodes_hosts=[0.root.kelvpn.com:8079,1.root.kelvpn.com:8079,2.root.kelvpn.com:8079]

#[auth]
#type=ca
#acl_accept_ca_list=[]
#acl_accept_ca_gdb=
#acl_accept_ca_chains=all

#[dag-poa]
#events-sign-cert=kelvpn.root.pvt.0

#[esbocs]
#blocks-sign-cert=mycert
#collecting_level=10.0
#fee_addr=myaddr

# [policy]
# activate=1
# deactivate=[0,1]

[global_db]
mempool_ttl=86400
".

Definition tpl_riemann : string := "# Riemann testnet

# General section
[general]
id=0x000000000000dddd
name=riemann
native_ticker=tKEL
gdb_groups_prefix=riemann
bridged_network_ids=[0x000000000000bbbb]


# Possible values: light, full, archive, master, root
node-role=

# Number of active uplinks node will try to supply 
#links_required=3
# Will be used first. If count of permanent links less than required than missing links will be filled with net balancer
#permanent_nodes_addrs=[]
# If permanent addresses pointed without hosts then information about host will be retrieved from GDB
#permanent_nodes_hosts=[]

# This hosts will be used as bootstrap balancers for first net access
seed_nodes_hosts=[0.root.riemann.cellframe.net:8079, 1.root.riemann.cellframe.net:8079, 2.root.riemann.cellframe.net:8079]

#[auth]
#type=ca
#acl_accept_ca_list=[]
#acl_accept_ca_gdb=
#acl_accept_ca_chains=all

#[esbocs]
#blocks-sign-cert=mycert
#collecting_level=10.0
#fee_addr=myaddr

# [policy]
# activate=1
# deactivate=[0,1]

[global_db]
mempool_ttl=86400
".

Definition tpl_raiden : string := "# Raiden testnet

# General section
[general]
id=0x000000000000bbbb
name=raiden
native_ticker=tCELL
gdb_groups_prefix=raiden
bridged_network_ids=[0x000000000000dddd]


# Possible values: light, full, archive, master, root
node-role=

# Number of active uplinks node will try to supply 
#links_required=3
# Will be used first. If count of permanent links less than required than missing links will be filled with net balancer
#permanent_nodes_addrs=[]
# If permanent addresses pointed without hosts then information about host will be retrieved from GDB
#permanent_nodes_hosts=[]
# This hosts will be used as bootstrap balancers for first net access
seed_nodes_hosts=[0.root.raiden.cellframe.net:8079, 1.root.raiden.cellframe.net:8079, 2.root.raiden.cellframe.net:8079]

#[auth]
#type=ca
#acl_accept_ca_list=[]
#acl_accept_ca_gdb=
#acl_accept_ca_chains=all

#[dag-poa]
#events-sign-cert=raiden.root.pvt.0

#[esbocs]
#blocks-sign-cert=mycert
#collecting_level=10.0
#fee_addr=myaddr

# [policy]
# activate=1
# deactivate=[0,1]

[global_db]
mempool_ttl=86400
".

Definition tpl_mileena : string := "# mileena net config

# General section
[general]
id=0x000000000000cccc
name=mileena
gdb_groups_prefix=mileena
native_ticker=tMIL

# Possible values: light, full, archive, master, root
node-role=

seed_nodes_hosts=[0.root.mileena.cellframe.net:8079,1.root.mileena.cellframe.net:8079,2.root.mileena.cellframe.net:8079]
#roots + dag goes here

#permanent_nodes_addrs=[3895::549F::84CF::445A,B1A2::F835::723C::9E4A,DC08::DE0C::B50F::0B4D]

#[auth]
#type=ca
#acl_accept_ca_list=[]
#acl_accept_ca_gdb=
#acl_accept_ca_chains=all

[dag-poa]
#events-sign-cert=mileena.0.root

[esbocs]
#blocks-sign-cert=mycert
#collecting_level=10.0
#fee_addr=myaddr

# [policy]
# activate=1
# deactivate=[0,1]

[global_db]
mempool_ttl=86400
".

Definition tpl_subzero : string := "# Subzero testnet

# General section
[general]
id=0x000000000000acca
name=subzero
native_ticker=tCELL
gdb_groups_prefix=subzero

# Possible values: light, full, archive, master, root
node-role=

# Number of active uplinks node will try to supply 
#links_required=3
# Will be used first. If count of permanent links less than required than missing links will be filled with net balancer
#permanent_nodes_addrs=[]
# If permanent addresses pointed without hosts then information about host will be retrieved from GDB
#permanent_nodes_hosts=[]
# This hosts will be used as bootstrap balancers for first net access
seed_nodes_hosts=[0.root.subzero.cellframe.net:8190, 1.root.subzero.cellframe.net:8190, 2.root.subzero.cellframe.net:8190]

#[auth]
#type=ca
#acl_accept_ca_list=[]
#acl_accept_ca_gdb=
#acl_accept_ca_chains=all

#[dag-poa]
#events-sign-cert=mycert

#[esbocs]
#blocks-sign-cert=mycert
#collecting_level=10.0
#fee_addr=myaddr

# [policy]
# activate=1
# deactivate=[0,1]

[global_db]
mempool_ttl=86400
".

(** The tree an installer unpacks on Linux, without any configuration yet. *)
Definition node_root : string := "/opt/cellframe-node".

Definition networks : list (string * string) :=
  [("Backbone", tpl_Backbone); ("KelVPN", tpl_KelVPN); ("riemann", tpl_riemann);
   ("raiden", tpl_raiden); ("mileena", tpl_mileena); ("subzero", tpl_subzero)].

Definition setup_path : string := node_root +:+ "/share/default.setup".
Definition node_cfg : string := node_root +:+ "/etc/cellframe-node.cfg".
Definition net_cfg (n : string) : string := node_root +:+ "/etc/network/" +:+ n +:+ ".cfg".

Definition shipped : gmap string fnode :=
  list_to_map
    ([(setup_path, FFile default_setup);
      (node_root +:+ "/etc", FDir); (node_root +:+ "/etc/network", FDir);
      (node_root +:+ "/share/configs/cellframe-node.cfg", FFile tpl_node)] ++
     ((λ n, (node_root +:+ "/share/configs/network/" +:+ n.1 +:+ ".cfg", FFile n.2)) <$> networks)).

(** Any Linux host on which the installer may write. *)
Definition linux_box (h : Host) : Host := {|
  os := LINUX;
  gethostname := @gethostname h;
  system := @system h;
  shell_execute := @shell_execute h;
  may_write := λ _, true;
  dir_order := @dir_order h;
  registry_opens := @registry_opens h;
  registry_string := @registry_string h;
  processes := @processes h
|}.

(** [cellframe-node-config -i default.setup] on a tree, in a new process. *)
Definition install (h : Host) (f : gmap string fnode) : outcome Z :=
  main (H:=linux_box h) ["cellframe-node-config"; "-i"; setup_path] (St ∅ f [] []).

Definition files_after {A} (o : outcome A) : gmap string fnode :=
  match o with Value _ s | Thrown _ s => files s | Ub | Beyond => ∅ end.

(** Some of the settings the script makes. *)
Definition intended : list (string * string * string * string) :=
  [(node_cfg, "general", "auto_online", "true");
   (node_cfg, "general", "debug_mode", "false");
   (node_cfg, "server", "enabled", "false");
   (node_cfg, "server", "listen_address", "[0.0.0.0:8079]");
   (node_cfg, "notify_server", "listen_address", "[127.0.0.1:8080]");
   (node_cfg, "bootstrap_balancer", "http_server", "true");
   (node_cfg, "cli-server", "version", "1");
   (node_cfg, "cli-server", "listen-path", "[../var/run/node_cli]");
   (node_cfg, "cli-server", "listen-address", "[127.0.0.1:12345]");
   (node_cfg, "global_db", "driver", "mdbx");
   (node_cfg, "plugins", "enabled", "true");
   (node_cfg, "plugins", "py_path", "../var/lib/plugins");
   (node_cfg, "plugins", "py_load", "true");
   (net_cfg "Backbone", "general", "node-role", "full");
   (net_cfg "Backbone", "global_db", "mempool_ttl", "14400");
   (net_cfg "Backbone", "esbocs", "consensus_debug", "true");
   (net_cfg "KelVPN", "general", "node-role", "full");
   (net_cfg "riemann" +:+ ".dis", "general", "node-role", "full");
   (net_cfg "raiden" +:+ ".dis", "esbocs", "consensus_debug", "true")].

Definition holds (f : gmap string fnode) (x : string * string * string * string) : bool :=
  let '(path, g, p, v) := x in
  match f !! path with
  | Some (FFile t) => match text_value g p t with Ok (Some w) => w =s? v | _ => false end
  | _ => false
  end.

Definition enabled (f : gmap string fnode) (n : string) : bool :=
  present f (net_cfg n) && negb (present f (net_cfg n +:+ ".dis")).

Definition disabled (f : gmap string fnode) (n : string) : bool :=
  negb (present f (net_cfg n)) && present f (net_cfg n +:+ ".dis").

Definition installs (o again : outcome Z) : bool :=
  let f := files_after o in
  match o, again with
  | Value 0%Z _, Value 0%Z s' =>
      forallb (enabled f) ["Backbone"; "KelVPN"]
      && forallb (disabled f) ["riemann"; "raiden"; "mileena"; "subzero"]
      && forallb (holds f) intended && bool_decide (files s' = f)
  | _, _ => false
  end.

Lemma installs_run h : installs (install h shipped) (install h (files_after (install h shipped))) = true.
Proof. vm_compute. reflexivity. Qed.

(** On every Linux host whose tree may be written,
    running the shipped [default.setup] on the shipped templates succeeds; it
    leaves Backbone and KelVPN enabled and the four test networks disabled, never
    both, and the settings listed in [intended], a part of those the script makes, are
    read from the files.
    Installing again, in a new process, succeeds and changes no file. *)
Theorem shipped_setup_installs h :
  ∃ s s', install h shipped = Value 0%Z s ∧ install h (files s) = Value 0%Z s' ∧
    files s' = files s ∧
    Forall (λ n, enabled (files s) n = true) ["Backbone"; "KelVPN"] ∧
    Forall (λ n, disabled (files s) n = true) ["riemann"; "raiden"; "mileena"; "subzero"] ∧
    Forall (λ x, holds (files s) x = true) intended.
Proof.
  pose proof (installs_run h) as Hi. unfold installs in Hi.
  destruct (install h shipped) as [[| |] s| | |]; try discriminate Hi. cbn [files_after] in Hi.
  destruct (install h (files s)) as [[| |] s'| | |] eqn:Hagain; try discriminate Hi.
  apply andb_prop in Hi as [[[He Hd]%andb_prop Hs]%andb_prop Hf].
  apply bool_decide_eq_true in Hf. apply forallb_Forall in He, Hd, Hs.
  exists s, s'. by split_and!.
Qed.

(** ** A user's tree

    After the installation the user opened the server, made the node a master of
    Backbone, and enabled riemann. *)
Definition edit (f : gmap string fnode) (path g p v : string) : gmap string fnode :=
  match f !! path with
  | Some (FFile t) =>
      match set_ (Cfg path (getlines t) 0) g p v (St ∅ ∅ [] []) with
      | Value (_, cfg) _ => <[path := FFile (putlines (lines cfg))]> f
      | _ => f
      end
  | _ => f
  end.

Definition users_tree : gmap string fnode :=
  let f := files_after (install demo_host shipped) in
  let f := edit f node_cfg "server" "enabled" "true" in
  let f := edit f (net_cfg "Backbone") "general" "node-role" "master" in
  <[net_cfg "riemann" := FFile tpl_riemann]> (base.delete (net_cfg "riemann" +:+ ".dis") f).

Definition users_state : st :=
  St {["CONFIGS_PATH" := node_root]} users_tree [] [].

(** No command of the script forces the parameter, in whatever file. *)
Definition never_forces (g p : string) (c : command) : bool :=
  match class c with
  | Config n => negb ((cfg_action n =s? "ensure") && (cfg_group n =s? g) && (cfg_param n =s? p))
  | _ => true
  end.

Lemma never_forces_spec path g p c : never_forces g p c = true → ¬ forces path g p c.
Proof.
  unfold never_forces, forces. destruct (class c); try tauto.
  intros Hn (Ha & _ & Hg & Hp). by rewrite Ha, Hg, Hp, !String.eqb_refl in Hn.
Qed.

Lemma user_setting_holds f path g p v :
  holds f (path, g, p, v) = true → is_placeholder v = false → user_setting f path g p v.
Proof.
  unfold holds, user_setting. destruct (f !! path) as [[|t]|]; try done.
  destruct (text_value g p t) as [[w|]| | |] eqn:Ht; try done.
  intros ->%String.eqb_eq Hv. eauto.
Qed.

Lemma script_keeps_user_settings_witness :
  ∃ cmds s0 s', parse_setup_file setup_path 0 users_state = Value cmds s0 ∧
    run_commands (H:=linux_box demo_host) cmds 0 s0 = Value true s' ∧
    user_setting (files s') node_cfg "server" "enabled" "true".
Proof.
  assert (Hall : match parse_setup_file setup_path 0 users_state with
                 | Value cmds s0 =>
                     forallb careful cmds && forallb (never_forces "server" "enabled") cmds
                     && returns (run_commands (H:=linux_box demo_host) cmds 0 s0)
                     && bool_decide (variable_storage s0 = variable_storage users_state)
                     && bool_decide (files s0 = files users_state)
                 | _ => false
                 end = true) by (vm_compute; reflexivity).
  pose proof (wf_parse_setup_file setup_path 0 users_state) as Hw. unfold wp in Hw.
  destruct (parse_setup_file setup_path 0 users_state) as [cmds s0| | |]; try discriminate Hall.
  apply andb_prop in Hall as [[[[Hc Hn]%andb_prop Hr]%andb_prop Hv]%andb_prop Hf].
  apply bool_decide_eq_true in Hv, Hf.
  apply returns_inv in Hr as (b & s' & Hr).
  assert (Hnf : Forall (λ c, ¬ forces node_cfg "server" "enabled" c) cmds).
  { apply forallb_Forall in Hn. eapply Forall_impl; [exact Hn|]. apply never_forces_spec. }
  assert (Hvars : vars_ok (variable_storage s0)).
  { rewrite Hv. apply map_Forall_singleton. reflexivity. }
  assert (Hset : user_setting (files s0) node_cfg "server" "enabled" "true").
  { rewrite Hf. apply user_setting_holds; vm_compute; reflexivity. }
  pose proof (script_keeps_user_settings (H:=linux_box demo_host) cmds 0 s0 node_cfg "server" "enabled"
                "true" Hw Hc Hnf Hvars Hset) as Hk.
  rewrite Hr in Hk. exists cmds, s0, s'. split; [reflexivity|]. split; [|exact Hk].
  rewrite Hr. f_equal. unfold run_commands, mbind, M_bind in Hr.
  destruct (run_loop cmds [] 0 s0); try discriminate Hr. injection Hr as <- _. reflexivity.
Defined.

(** ** The shipped script has no undefined behaviour *)
Definition fresh_vars : gmap string string :=
  list_to_map [("HOST_OS", "Linux"); ("HOSTNAME", "box"); ("CONFIGS_PATH", node_root);
               ("NODE_BINARY_PATH", "/opt/cellframe-node/bin/")].

Definition fresh_state : st := St fresh_vars shipped [] [].

Lemma init_configs_defined_witness :
  init_configs (H:=linux_box demo_host) setup_path 0 fresh_state ≠ Ub ∧
  ∀ z s', init_configs (H:=linux_box demo_host) setup_path 0 fresh_state = Value z s' → orderly s'.
Proof.
  assert (Ho : orderly fresh_state).
  { split.
    - apply (bool_decide_unpack (map_Forall (λ _ n, tame_node n = true) shipped)).
      vm_compute. exact I.
    - split; [exists node_root; vm_compute; reflexivity|].
      apply (bool_decide_unpack
               (map_Forall (λ n v, plain_name n = true ∧ good_value v = true) fresh_vars)).
      vm_compute. exact I. }
  refine (init_configs_defined (H:=linux_box demo_host) setup_path 0 fresh_state _ Ho _);
    [discriminate|].
  intros c cmds s1 Hp.
  assert (Hc : match parse_setup_file setup_path 0 (set_console c fresh_state) with
               | Value cs _ => forallb tidy cs && balanced 0 cs
               | _ => false
               end = true) by (vm_compute; reflexivity).
  rewrite Hp in Hc. apply andb_prop in Hc. exact Hc.
Defined.
