(* ===== verification/ConfRepeat.v ===== *)
(** * What a command leaves, and what it does when it finds it

    Installers run the setup script at every upgrade.  A command that returned has
    left a trace in the files ([made]); the commands after it, which change the files
    in one of three ways ([effect]), keep the trace; and a command whose trace is
    there changes nothing ([quietly]).  [ConfAgain] puts this together for scripts. *)
From S2P Require Import CLib.
From S2P Require Export ConfIdem ConfFill.

Set Default Proof Using "Type".

(** ** The line of a parameter

    [holds_line g p v found ls]: the line a lookup of [p] in [g] stops at is the one
    [set_] writes for the value [v]. *)
Section Line.
Context (g p v : string).

Fixpoint holds_line (found : bool) (ls : list string) : Prop :=
  match ls with
  | [] => False
  | l :: ls' =>
      match kind_of l with
      | KSkip => holds_line found ls'
      | KWild => False
      | KGroup g' => if found then False else holds_line (g' =s? g) ls'
      | KPair p' _ => if found && (p' =s? p) then l = p +:+ "=" +:+ v else holds_line found ls'
      | KText => if found then False else holds_line found ls'
      end
  end.

Lemma found_holds_line found i ls : found_here g p v found i ls → holds_line found ls.
Proof.
  intros (j & Hj & Hs). revert found i j Hj Hs; induction ls as [|l ls IH]; intros found i j Hj Hs; [done|].
  assert (Hnext : ∀ b, scan g p b (S i) (kinds ls) = Ok (Found true (Some (read_back v)) (i + j) true) →
            holds_line b ls).
  { intros b Hb. pose proof (scan_line_no _ _ _ _ _ _ Hb) as Hle. simpl in Hle.
    destruct j as [|j]; [lia|]. apply (IH b (S i) j); [done|]. by rewrite Nat.add_succ_r in Hb. }
  csimpl in *. destruct (kind_of l) as [|g'|p' w| |]; simpl in *; auto; try done.
  - destruct found; [done|auto].
  - destruct (found && (p' =s? p)); [|auto]. destruct j; [by injection Hj|]. injection Hs. lia.
  - destruct found; [done|auto].
Qed.

Lemma holds_line_found found i ls :
  clean_param p = true → holds_line found ls → found_here g p v found i ls.
Proof.
  intros Hp. revert found i; induction ls as [|l ls IH]; intros found i Hl; [done|]. csimpl in *.
  assert (Hnext : ∀ b, (∀ ks, scan g p found i (kind_of l :: ks) = scan g p b (S i) ks) →
            holds_line b ls → found_here g p v found i (l :: ls)).
  { intros b Hb Hls. eapply found_here_cons; [exact Hb|by apply IH]. }
  destruct (kind_of l) as [|g'|p' w| |] eqn:Hk; try done.
  - by apply (Hnext found).
  - destruct found; [done|]. by apply (Hnext (g' =s? g)).
  - destruct (found && (p' =s? p)) eqn:Hf.
    + apply andb_prop in Hf as [-> _]. subst l. by apply found_here_new.
    + apply (Hnext found); [|done]. intros ks. simpl. by rewrite Hf.
  - destruct found; [done|]. by apply (Hnext false).
Qed.
End Line.

(** Setting another parameter keeps the line. *)
Section Other.
Context (g p v g' p' v' : string).
(** Whether the groups were found: the same when they are one group, never both
    when they are two. *)
Definition in_step (b b' : bool) : Prop := if decide (g = g') then b = b' else b && b' = false.

Lemma in_step_start : in_step false false.
Proof. unfold in_step. by destruct (decide _). Qed.

Lemma in_step_group x : in_step (x =s? g) (x =s? g').
Proof.
  unfold in_step. destruct (decide (g = g')) as [->|Hgg]; [done|].
  destruct (String.eqb_spec x g) as [->|]; [|done]. by destruct (String.eqb_spec g g').
Qed.

Hypothesis Hg' : clean_group g' = true.
Hypothesis Hp' : clean_param p' = true.
Hypothesis Hv' : lacks "010" v' = true.
Hypothesis Hne : (g', p') ≠ (g, p).

Lemma holds_line_reread b ls :
  Forall (λ l, lacks "010" l = true) ls → holds_line g p v b ls → holds_line g p v b (reread ls).
Proof. intros Hl. unfold reread. by rewrite getlines_putlines_id. Qed.

Lemma reread_NL ls : reread (NL :: ls) = "" :: "" :: reread ls.
Proof. done. Qed.

Lemma holds_line_new b b' ls :
  in_step b b' → b' = true → holds_line g p v b ls → holds_line g p v b ((p' +:+ "=" +:+ v') :: ls).
Proof using Hp' Hne.
  intros Hb -> Hls. cbn [holds_line]. rewrite kind_param by done.
  destruct (b && (p' =s? p)) eqn:Hs; [|done]. apply andb_prop in Hs as [-> ->%String.eqb_eq].
  unfold in_step in Hb. destruct (decide (g = g')) as [->|]; done.
Qed.

(** A line the lookup of the other parameter passes. *)
Lemma holds_line_pass b b' l ls ls' :
  in_step b b' → holds_line g p v b (l :: ls) →
  (∀ c c', in_step c c' →
     c' = match kind_of l with KGroup x => x =s? g' | _ => b' end →
     holds_line g p v c ls → holds_line g p v c ls') →
  holds_line g p v b (l :: ls').
Proof.
  intros Hb Hl Hnext. cbn [holds_line] in *. destruct (kind_of l) as [|x|x w| |] eqn:E; eauto.
  - destruct b; [done|]. eapply Hnext; [apply in_step_group|done|done].
  - destruct (b && (x =s? p)); eauto.
  - destruct b; [done|eauto].
Qed.

Lemma holds_line_other ls b b' i r :
  Forall (λ l, lacks "010" l = true) ls → in_step b b' →
  scan g' p' b' i (kinds ls) = Ok r → holds_line g p v b ls →
  holds_line g p v b (reread (set_lines r (line_no r - i) g' p' v' ls)).
Proof using Hg' Hp' Hv' Hne.
  intros Hls. revert b b' i; induction Hls as [|l ls Hl Hls IH]; intros b b' i Hb Hr Hh; [done|].
  assert (Hins : b' = true → r = Found false None i true →
    holds_line g p v b (reread (set_lines r (line_no r - i) g' p' v' (l :: ls)))).
  { intros Hb' ->. unfold set_lines, insert_at. simpl. rewrite Nat.sub_diag. simpl.
    rewrite reread_cons by (by apply lacks_pair). rewrite reread_NL.
    eapply holds_line_new; [exact Hb|done|]. simpl. apply holds_line_reread; [by constructor|done]. }
  assert (Hpass : ∀ c', c' = match kind_of l with KGroup x => x =s? g' | _ => b' end →
    scan g' p' c' (S i) (kinds ls) = Ok r →
    holds_line g p v b (reread (set_lines r (line_no r - i) g' p' v' (l :: ls)))).
  { intros c' Hc' Hs. pose proof (scan_line_no _ _ _ _ _ _ Hs).
    replace (line_no r - i)%nat with (S (line_no r - S i))%nat by lia.
    rewrite set_lines_cons, reread_cons by done.
    eapply holds_line_pass; [exact Hb|exact Hh|]. intros c c2 Hcc Hc2 Hls'. subst c2 c'. by eapply IH. }
  csimpl in Hr. destruct (kind_of l) as [|x|x w| |] eqn:Hk; simpl in Hr; try done.
  - by eapply Hpass.
  - destruct b'; [apply Hins; [done|congruence]|]. by eapply Hpass.
  - destruct (b' && (x =s? p')) eqn:Hf.
    2: { by eapply Hpass. }
    apply andb_prop in Hf as [-> ->%String.eqb_eq]. injection Hr as <-.
    unfold set_lines. simpl. rewrite Nat.sub_diag. simpl.
    rewrite reread_cons by (by apply lacks_pair). eapply holds_line_new; [exact Hb|done|].
    apply holds_line_reread; [done|]. cbn [holds_line] in Hh. rewrite Hk in Hh.
    destruct (b && (p' =s? p)) eqn:Hs; [|done]. apply andb_prop in Hs as [-> ->%String.eqb_eq].
    unfold in_step in Hb. destruct (decide (g = g')) as [->|]; done.
  - destruct b'; [done|]. by eapply Hpass.
Qed.
End Other.

(** ** The text of a file

    As [save] leaves it: it ends with a line feed, and the parameter has its line. *)
Definition line_written (g p v t : string) : Prop :=
  holds_line g p v false (getlines t) ∧ putlines (getlines t) = t.

Section Written.
Context (g p v : string).
Hypothesis Hg : clean_group g = true.
Hypothesis Hp : clean_param p = true.
Hypothesis Hv : lacks "010" v = true.

Lemma written_new cfg s l cfg' s' t :
  lines cfg = getlines t → set_ cfg g p v s = Value (l, cfg') s' →
  line_written g p v (putlines (lines cfg')).
Proof using Hg Hp Hv.
  intros Hl (r & Hr & _ & ->)%set_inv. split; [|apply putlines_reread].
  eapply found_holds_line. change (getlines (putlines ?x)) with (reread x). simpl.
  rewrite <- (Nat.sub_0_r (line_no r)). apply set_lines_found; try done.
  rewrite Hl. apply getlines_lack_NL.
Qed.

Lemma written_other g' p' v' cfg s l cfg' s' t :
  (g', p') ≠ (g, p) → line_written g' p' v' t →
  lines cfg = getlines t → set_ cfg g p v s = Value (l, cfg') s' →
  line_written g' p' v' (putlines (lines cfg')).
Proof using Hg Hp Hv.
  intros Hne [Hh _] Hl (r & Hr & _ & ->)%set_inv. split; [|apply putlines_reread].
  change (getlines (putlines ?x)) with (reread x). simpl. rewrite <- (Nat.sub_0_r (line_no r)).
  eapply holds_line_other; [done|done|done|congruence| |apply in_step_start|done|by rewrite Hl].
  rewrite Hl. apply getlines_lack_NL.
Qed.

Lemma written_same cfg s l cfg' s' t :
  line_written g p v t → lines cfg = getlines t → set_ cfg g p v s = Value (l, cfg') s' →
  putlines (lines cfg') = t.
Proof using Hp.
  intros [Hh Ht] Hl (r & Hr & _ & ->)%set_inv. apply (holds_line_found g p v _ 0) in Hh; [|done].
  destruct Hh as (j & Hj & Hs). rewrite Hl, Hs in Hr. injection Hr as <-. simpl.
  unfold set_lines. simpl. by rewrite Hl, list_insert_id.
Qed.
End Written.

(** ** Names and files *)
Definition plain (n : string) : bool := lacks "/" n.

Definition kept_in (k : ENetworkConfigState) : Prop := k = CFG_ON ∨ k = CFG_OFF.

(** The file of the configuration [n] under [root]. *)
Definition cfg_at (root n : string) (k : ENetworkConfigState) : string :=
  config_file root n CFG_GENERAL k.

Definition target_at (root : string) (f : gmap string fnode) (n : string) : string :=
  if n =s? "cellframe-node" then cfg_at root n CFG_ON
  else if present f (cfg_at root n CFG_ON) then cfg_at root n CFG_ON
  else if present f (cfg_at root n CFG_OFF) then cfg_at root n CFG_OFF
  else cfg_at root n CFG_ON.

Lemma target_file_at s n : target_file s n = target_at (root_of s) (files s) n.
Proof. done. Qed.

Lemma target_at_kept root f n : ∃ k, kept_in k ∧ target_at root f n = cfg_at root n k.
Proof. unfold target_at, kept_in. repeat case_match; eauto. Qed.

Lemma plain_relative n sfx : plain n = true → is_absolute sfx = false → is_absolute (n +:+ sfx) = false.
Proof.
  destruct n as [|c n]; [done|]. unfold plain, is_absolute. rewrite lacks_cons, string_app_cons.
  intros [Hc _]%andb_prop _. rewrite prefix_byte. by apply negb_true_iff in Hc.
Qed.

(** The directory part, and what names in it look like. *)
Definition below (root : string) : string :=
  (if is_empty root || ends_in_slash root then root else root +:+ "/") +:+ "etc".

Lemma below_node root : cfg_at root "cellframe-node" CFG_ON = below root +:+ "/cellframe-node.cfg".
Proof.
  unfold cfg_at, config_file. simpl. rewrite (path_append_root root) by done.
  rewrite (path_append_word _ "e" "tc") by done. unfold below. by rewrite <- string_app_assoc.
Qed.

Lemma below_net root n k :
  n ≠ "cellframe-node" → plain n = true → kept_in k →
  cfg_at root n k = (below root +:+ "/network/") +:+ (n +:+ match k with CFG_ON => ".cfg" | _ => ".cfg.dis" end).
Proof.
  intros Hn%String.eqb_neq Hpl Hk. unfold cfg_at, config_file. rewrite Hn.
  assert (Hd : root // "etc" // "network/" = below root +:+ ("/network" +:+ "/")).
  { rewrite (path_append_root root) by done. rewrite (path_append_word _ "e" "tc") by done.
    unfold below. by rewrite <- string_app_assoc. }
  destruct Hk as [-> | ->]; simpl; rewrite Hd; rewrite path_append_dir by (by apply plain_relative);
    apply (string_app_assoc (below root) "/network/").
Qed.

Lemma string_app_inj_l (s x y : string) : s +:+ x = s +:+ y → x = y.
Proof. induction s as [|c s IH]; [done|]. rewrite !string_app_cons. intros [= Heq]. auto. Qed.

Lemma cfg_at_node root k : kept_in k → cfg_at root "cellframe-node" k = cfg_at root "cellframe-node" CFG_ON.
Proof. by intros [-> | ->]. Qed.

Lemma node_not_net root n k :
  n ≠ "cellframe-node" → plain n = true → kept_in k →
  cfg_at root "cellframe-node" CFG_ON ≠ cfg_at root n k.
Proof.
  intros Hn Hpl Hk. rewrite below_node, below_net by done. rewrite <- string_app_assoc.
  by intros Heq%string_app_inj_l.
Qed.

Lemma cfg_at_inj root n k n' k' :
  plain n = true → plain n' = true → kept_in k → kept_in k' →
  cfg_at root n k = cfg_at root n' k' → n = n' ∧ (n = "cellframe-node" ∨ k = k').
Proof.
  intros Hn Hn' Hk Hk' Heq.
  destruct (decide (n = "cellframe-node")) as [->|Hc], (decide (n' = "cellframe-node")) as [->|Hc'].
  - by auto.
  - rewrite cfg_at_node in Heq by done. by apply node_not_net in Heq.
  - symmetry in Heq. rewrite cfg_at_node in Heq by done. by apply node_not_net in Heq.
  - rewrite !below_net in Heq by done. apply string_app_inj_l in Heq.
    destruct Hk as [-> | ->], Hk' as [-> | ->]; try (by apply string_app_inj_r in Heq; auto).
    + by apply cfg_dis_ne in Heq.
    + symmetry in Heq. by apply cfg_dis_ne in Heq.
Qed.

(** ** Scripts that can be repeated

    Networks and the node's own configuration are only set up where they are
    missing, the root stays, services are left alone, and names hold no slash. *)
Definition repeatable (c : command) : bool :=
  match class c with
  | Network n =>
      (net_action n =s? "check")
      || (net_action n =s? "default") && plain (net_name n) && negb (net_name n =s? "cellframe-node")
  | Config n => clean_group (cfg_group n) && clean_param (cfg_param n) && plain (cfg_name n)
  | Variable_ n => negb (var_name n =s? CONFIGS)
  | FromTemplate n => (tmpl_name n =s? "cellframe-node") && (tmpl_action n =s? "default")
  | Service _ => false
  | _ => true
  end.

(** [d] sets what [c] forced. *)
Definition overrides (c d : command) : bool :=
  match class c, class d with
  | Config n, Config m =>
      (cfg_action n =s? "ensure") && negb (cfg_action m =s? "get")
      && (cfg_name n =s? cfg_name m) && (cfg_group n =s? cfg_group m) && (cfg_param n =s? cfg_param m)
  | _, _ => false
  end.

(** A value that was forced is not set again. *)
Fixpoint forced_last (cmds : list command) : bool :=
  match cmds with
  | [] => true
  | c :: cmds' => forallb (λ d, negb (overrides c d)) cmds' && forced_last cmds'
  end.

(** The parameter of a [default] command does not hold a placeholder. *)
Definition filled (root : string) (f : gmap string fnode) (c : command) : bool :=
  match class c with
  | Config n =>
      match f !! target_at root f (cfg_name n) with
      | Some (FFile t) =>
          match text_value (cfg_group n) (cfg_param n) t with
          | Ok (Some v) => negb (is_placeholder v) || negb (cfg_action n =s? "default")
          | _ => true
          end
      | _ => true
      end
  | _ => true
  end.

(** ** What a command leaves *)
Definition made_config (vars : gmap string string) (n : CConfigCommand) (f : gmap string fnode)
    (path : string) : Prop :=
  f !! path = Some FDir ∨
  ∃ t, f !! path = Some (FFile t) ∧
       (∃ o, text_value (cfg_group n) (cfg_param n) t = Ok o ∧ (cfg_action n = "default" → is_Some o)) ∧
       (cfg_action n = "ensure" →
        ∃ val, substituted vars (cfg_value n) = Some val ∧ line_written (cfg_group n) (cfg_param n) val t).

Definition made (root : string) (vars : gmap string string) (c : command) (f : gmap string fnode) : Prop :=
  match class c with
  | Network n =>
      net_action n = "default" →
      is_Some (f !! cfg_at root (net_name n) CFG_ON) ∨ is_Some (f !! cfg_at root (net_name n) CFG_OFF)
  | Config n => made_config vars n f (target_at root f (cfg_name n))
  | FromTemplate n => is_Some (f !! cfg_at root (tmpl_name n) CFG_ON)
  | _ => True
  end.

(** How a command changes the files: not at all, by a new file (an enabling one only
    where there is no disabling one), or by setting one parameter. *)
Inductive effect (root : string) (c : command) (f : gmap string fnode) : gmap string fnode → Prop :=
  | effect_same : effect root c f f
  | effect_new p t :
      f !! p = None →
      (∀ n, n ≠ "cellframe-node" → plain n = true → p = cfg_at root n CFG_ON →
            f !! cfg_at root n CFG_OFF = None) →
      effect root c f (<[p := FFile t]> f)
  | effect_set n val t cfg cfg' l s1 s2 :
      class c = Config n → cfg_action n ≠ "get" → lacks "010" val = true →
      f !! target_at root f (cfg_name n) = Some (FFile t) → lines cfg = getlines t →
      set_ cfg (cfg_group n) (cfg_param n) val s1 = Value (l, cfg') s2 →
      effect root c f (<[target_at root f (cfg_name n) := FFile (putlines (lines cfg'))]> f).

Lemma effect_present root c f f' k : effect root c f f' → is_Some (f !! k) → is_Some (f' !! k).
Proof.
  intros [|p t _ _|n val t cfg cfg' l s1 s2 _ _ _ _ _ _] Hk; [done|..]; by apply lookup_insert_is_Some'; right.
Qed.

Lemma present_cfg_at f root n k : present f (cfg_at root n k) = true ↔ is_Some (f !! cfg_at root n k).
Proof. unfold cfg_at. rewrite present_config. destruct (f !! _); [|by split; [|intros []]]. by split. Qed.

Lemma effect_target root c f f' n :
  plain n = true → effect root c f f' → is_Some (f !! target_at root f n) →
  target_at root f' n = target_at root f n.
Proof.
  intros Hpl He Ht. unfold target_at in *. destruct (String.eqb_spec n "cellframe-node") as [|Hn]; [done|].
  destruct (present f (cfg_at root n CFG_ON)) eqn:Hon.
  { apply present_cfg_at in Hon. apply (effect_present _ _ _ _ _ He), present_cfg_at in Hon. by rewrite Hon. }
  destruct (present f (cfg_at root n CFG_OFF)) eqn:Hoff.
  2: { apply present_cfg_at in Ht. congruence. }
  pose proof (proj2 (present_cfg_at _ _ _ _) (effect_present _ _ _ _ _ He Ht)) as Hoff'. rewrite Hoff'.
  destruct (present f' (cfg_at root n CFG_ON)) eqn:Hon'; [|done]. exfalso.
  apply present_cfg_at in Hon'. assert (Hno : ¬ is_Some (f !! cfg_at root n CFG_ON)).
  { intros Hs%present_cfg_at. congruence. }
  destruct He as [|p t Hp Hnew|m val t cfg cfg' l s1 s2 _ _ _ Hf _ _]; [done|..];
    apply lookup_insert_is_Some' in Hon' as [Heq|Hon']; try done.
  - rewrite (Hnew n Hn Hpl Heq) in Ht. by destruct Ht.
  - rewrite <- Heq, Hf in Hno. by apply Hno.
Qed.

(** The commands that follow keep what a command made. *)
Lemma made_config_set vars n m val path cfg s l cfg' s' f t :
  clean_group (cfg_group m) = true → clean_param (cfg_param m) = true → lacks "010" val = true →
  (cfg_action n = "ensure" → (cfg_group n, cfg_param n) ≠ (cfg_group m, cfg_param m)) →
  f !! path = Some (FFile t) → lines cfg = getlines t →
  set_ cfg (cfg_group m) (cfg_param m) val s = Value (l, cfg') s' →
  made_config vars n f path →
  made_config vars n (<[path := FFile (putlines (lines cfg'))]> f) path.
Proof.
  intros Hg Hp Hv Hne Hf Hl Hs [Hd|(u & Hu & (o & Ho & Hdef) & Hw)]; [congruence|].
  rewrite Hf in Hu. injection Hu as <-. right. eexists. split; [apply lookup_insert_eq|]. split.
  - rewrite (set_saved_text _ _ _ _ _ _ _ _ _ _ _ Hg Hp Hv Hl Hs). case_bool_decide; eauto.
  - intros He. destruct (Hw He) as (w & Hsub & Hline). exists w. split; [done|].
    eapply written_other; eauto.
Qed.

Lemma made_config_other vars n path p x f :
  p ≠ path → made_config vars n f path → made_config vars n (<[p := x]> f) path.
Proof. intros Hp. unfold made_config. by rewrite lookup_insert_ne. Qed.

Lemma made_config_present vars n f path : made_config vars n f path → is_Some (f !! path).
Proof. intros [->|(t & -> & _)]; by eexists. Qed.

Lemma made_kept root vars c d f f' :
  repeatable c = true → repeatable d = true → overrides c d = false →
  effect root d f f' → made root vars c f → made root vars c f'.
Proof.
  unfold made. intros Hc Hd Ho He Hm. destruct (class c) as [n|n|n|n| |n|n|n] eqn:Hcl; try done.
  - intros Ha. destruct (Hm Ha); eauto using effect_present.
  - unfold repeatable in Hc. rewrite Hcl in Hc. apply andb_prop in Hc as [_ Hpl].
    pose proof (made_config_present _ _ _ _ Hm) as Hpr.
    rewrite (effect_target _ _ _ _ _ Hpl He Hpr).
    destruct He as [|p t Hp _|m val t cfg cfg' l s1 s2 Hm' Hget Hnl Hf Hl Hs]; [done|..].
    { apply made_config_other; [|done]. intros ->. rewrite Hp in Hpr. by destruct Hpr. }
    unfold repeatable in Hd. rewrite Hm' in Hd. apply andb_prop in Hd as [[Hg Hp]%andb_prop Hpl'].
    destruct (decide (target_at root f (cfg_name m) = target_at root f (cfg_name n))) as [Heq|Hne].
    2: { by apply made_config_other. }
    rewrite Heq in *. eapply made_config_set; eauto. intros Hens [= Hgg Hpp].
    destruct (target_at_kept root f (cfg_name m)) as (k & Hk & Hkm).
    destruct (target_at_kept root f (cfg_name n)) as (k' & Hk' & Hkn).
    rewrite Hkm, Hkn in Heq. apply cfg_at_inj in Heq as [Hnm _]; [|done..].
    unfold overrides in Ho. rewrite Hcl, Hm', Hens, Hgg, Hpp, Hnm in Ho. rewrite !String.eqb_refl in Ho.
    apply String.eqb_neq in Hget. by rewrite Hget in Ho.
  - by eapply effect_present.
Qed.

(** ** Variables

    With the root set, only [var] changes the variables. *)
Definition frozen (s s' : st) : Prop :=
  is_Some (variable_storage s !! CONFIGS) → variable_storage s' = variable_storage s.

#[export] Instance frozen_preorder : PreOrder frozen.
Proof.
  split; [by intros s|]. intros s1 s2 s3 H1 H2 Hs. unfold frozen in *. rewrite H2; [by apply H1|].
  by rewrite H1.
Qed.

#[export] Instance frozen_silent : Silent frozen.
Proof. by intros s c. Qed.

Lemma frozen_touch s : frozen s (touch CONFIGS s).
Proof. intros [root Hr]. unfold touch. by rewrite Hr. Qed.

Lemma frozen_config_path n t k : pres frozen (config_path n t k).
Proof. intros s. apply frozen_touch. Qed.

Lemma frozen_get_config_path k : pres frozen (get_config_path k).
Proof. intros s. apply frozen_touch. Qed.

Lemma frozen_stays {A} (m : M A) : stays m → pres frozen m.
Proof. intros Hm s. destruct (Hm s) as [[a ->]| ->]; [|done]. by intros. Qed.

Lemma frozen_substitute t : pres frozen (substitute_variables t).
Proof. apply frozen_stays, stays_substitute. Qed.

#[export] Hint Resolve frozen_config_path frozen_get_config_path frozen_substitute : node.

Section Frozen.
Context {H : Host}.

Lemma frozen_copy_file b from to : pres frozen (fs_copy_file b from to).
Proof. intros s. unfold fs_copy_file, put_file. repeat case_match; simplify_eq; done. Qed.

Lemma frozen_copy from to : pres frozen (fs_copy from to).
Proof.
  intros s. pose proof (frozen_copy_file false from to s). unfold fs_copy.
  repeat case_match; simplify_eq; done.
Qed.
Hint Resolve frozen_copy_file frozen_copy : node.

Lemma frozen_network n flags : net_action n ≠ "ensure" → pres frozen (execute_network n flags).
Proof.
  intros Ha%String.eqb_neq. unfold execute_network. rewrite Ha. unfold network_default, network_check.
  pres_steps.
Qed.

Lemma frozen_config n flags : pres frozen (execute_config n flags).
Proof.
  apply pres_wp. intros s. eapply wp_mono; [apply execute_config_wp| |].
  - intros _ s' [_ Hv] Hs. rewrite Hv. by apply frozen_touch.
  - intros _ s' [_ Hv] Hs. rewrite Hv. by apply frozen_touch.
Qed.

Lemma frozen_net_list n flags : pres frozen (execute_net_list n flags).
Proof. unfold execute_net_list. pres_steps; by intros s. Qed.

End Frozen.

(** ** What the commands that write files do *)
Section Leaves.
Context {H : Host} (flags : Z).
Hypothesis writable : ∀ p, may_write p = true.
Hypothesis real_run : flag flags F_DRYRUN = false.

Definition ready (s : st) : Prop :=
  is_Some (variable_storage s !! CONFIGS) ∧ vars_ok (variable_storage s).

(** A command that returned: the variables stay, the files change by an [effect], and
    what the command is there for is made. *)
Definition leaves (c : command) (s s' : st) : Prop :=
  variable_storage s' = variable_storage s ∧
  effect (root_of s) c (files s) (files s') ∧
  made (root_of s) (variable_storage s) c (files s').

Lemma network_new root n v f t :
  n ≠ "cellframe-node" → plain n = true → v = "on" ∨ v = "off" →
  f !! cfg_at root n (if v =s? "on" then CFG_ON else CFG_OFF) = None →
  f !! cfg_at root n (if v =s? "on" then CFG_OFF else CFG_ON) = None → ∀ c,
  effect root c f (<[cfg_at root n (if v =s? "on" then CFG_ON else CFG_OFF) := FFile t]> f).
Proof.
  intros Hn Hpl Hv Hreq Hopp c. apply effect_new; [done|]. intros m Hm Hpl' Heq.
  apply cfg_at_inj in Heq as [<- [?|Hk]]; [done| |done|done| |by left].
  - by destruct Hv as [-> | ->].
  - by destruct Hv as [-> | ->]; [left|right].
Qed.

Lemma network_leaves c n s b s' :
  class c = Network n → wf_class (Network n) → repeatable c = true → ready s →
  execute_network n flags s = Value b s' → leaves c s s'.
Proof using real_run.
  intros Hc Hw Hr [Hroot _] He. unfold repeatable in Hr. rewrite Hc in Hr. destruct n as [n a v]. simpl in *.
  assert (Hfr : a ≠ "ensure" → variable_storage s' = variable_storage s).
  { intros Ha. pose proof (frozen_network {| net_name := n; net_action := a; default_val := v |} flags Ha s) as Hf.
    rewrite He in Hf. by apply Hf. }
  unfold leaves, made. rewrite Hc. simpl. destruct Hw as [-> |[[-> | ->] Hv]]; simpl in Hr; [| |done].
  - pose proof (calm_network_check {| net_name := n; net_action := "check"; default_val := v |} s) as Hk.
    unfold execute_network in He. simpl in He. rewrite He in Hk. destruct Hk as [-> _].
    split_and!; [by apply Hfr|apply effect_same|done].
  - apply andb_prop in Hr as [Hpl Hn]. apply negb_true_iff, String.eqb_neq in Hn.
    unfold execute_network in He. simpl in He.
    pose proof (wp_Value _ _ _ _ _ _ (network_default_wp n v flags s Hn Hv) He) as Hstep. simpl in Hstep.
    split; [by apply Hfr|]. rewrite real_run in Hstep. unfold req_file, opp_file in Hstep.
    remember (files s') as f'. destruct Hstep as [Hs|Hd|t _ Hreq Hopp _]; [|done|].
    + split; [apply effect_same|]. intros _. by destruct Hv as [-> | ->]; simpl in Hs; destruct Hs; auto.
    + split; [by apply network_new|]. intros _.
      destruct Hv as [-> | ->]; [left|right]; unfold cfg_at; simpl; rewrite lookup_insert_eq; by eexists.
Qed.

Lemma scan_ok_text g p t :
  is_ok (scan g p false 0 (kinds (getlines t))) = true ↔ ∃ o, text_value g p t = Ok o.
Proof.
  unfold text_value. rewrite <- (scan_read _ _ _ 0%nat).
  destruct (scan _ _ _ _ _); simpl; split; eauto; try done; by intros [o [=]].
Qed.

(** The file of a [config] command that returned. *)
Lemma config_returned n s :
  cfg_action n ∈ allowed_actions → returns (execute_config n flags s) = true →
  files s !! target_file s (cfg_name n) = Some FDir ∨
  ∃ t o, files s !! target_file s (cfg_name n) = Some (FFile t) ∧
         text_value (cfg_group n) (cfg_param n) t = Ok o.
Proof.
  intros Ha Hr. rewrite execute_config_returns in Hr by done.
  apply andb_prop in Hr as [[_ Hp]%andb_prop Hok]. unfold target_lines, lines_at in Hok.
  unfold present, node_at in Hp, Hok. rewrite target_file_no_slash in Hp, Hok.
  destruct (files s !! _) as [[|t]|]; [by left| |done]. right.
  apply scan_ok_text in Hok as [o Ho]. by exists t, o.
Qed.

Lemma wf_config_action n : wf_class (Config n) → cfg_action n ∈ allowed_actions.
Proof.
  intros [[-> |[-> | ->]] _]; repeat constructor.
Qed.

Lemma config_value n s val :
  wf_class (Config n) → vars_ok (variable_storage s) →
  substitute_variables (cfg_value n) s = Value val s → lacks "010" val = true.
Proof.
  intros (_ & _ & _ & Hv) Hok Hs. eapply substitute_bytes; [exact Hok| |exact Hs]. by apply nospaces_NL.
Qed.

Lemma config_step_made n s f :
  wf_class (Config n) → clean_group (cfg_group n) = true → clean_param (cfg_param n) = true →
  vars_ok (variable_storage s) → returns (execute_config n flags s) = true →
  config_step n flags s f → made_config (variable_storage s) n f (target_file s (cfg_name n)).
Proof using writable real_run.
  intros Hw Hg Hp Hok Hret Hstep.
  destruct (config_returned n s (wf_config_action n Hw) Hret) as [Hd|(u & o & Hu & Ho)].
  { destruct Hstep; [by left|congruence]. }
  right. destruct Hstep as [Hidle|val t cfg cfg' l s1 s2 Hsub Hf Hl Hs _ _ Hget Hdef].
  - exists u. split; [done|].
    destruct Hidle as [Ha|[?|[Hm|[?|(Ha & t & Ht & Hset)]]]]; [|congruence| |congruence|].
    + split; [exists o; split; [done|]|]; rewrite Ha; done.
    + by rewrite writable in Hm.
    + rewrite Hu in Ht. injection Ht as <-. rewrite Ho in Hset. split; [|rewrite Ha; done].
      exists o. split; [done|]. by destruct o.
  - pose proof (config_value n s val Hw Hok Hsub) as Hnl.
    eexists. split; [apply lookup_insert_eq|]. split.
    + rewrite (set_saved_text _ _ _ _ _ _ _ _ _ _ _ Hg Hp Hnl Hl Hs), bool_decide_true by done. eauto.
    + intros _. exists val. split; [|by eapply written_new].
      pose proof (substitute_substituted (cfg_value n) s) as Hss. rewrite Hsub in Hss.
      by destruct (substituted _ _); simplify_eq.
Qed.

Lemma config_leaves c n s b s' :
  class c = Config n → wf_class (Config n) → repeatable c = true → ready s →
  execute_config n flags s = Value b s' → leaves c s s'.
Proof using writable real_run.
  intros Hc Hw Hr [Hroot Hok] He. unfold repeatable in Hr. rewrite Hc in Hr.
  apply andb_prop in Hr as [[Hg Hp]%andb_prop Hpl].
  destruct (wp_Value _ _ _ _ _ _ (execute_config_wp n flags s) He) as [Hstep _].
  assert (Hret : returns (execute_config n flags s) = true) by (by rewrite He).
  pose proof (config_step_made n s _ Hw Hg Hp Hok Hret Hstep) as Hm.
  assert (Heff : effect (root_of s) c (files s) (files s')).
  { destruct Hstep as [_|val t cfg cfg' l s1 s2 Hsub Hf Hl Hs _ _ Hget _]; [apply effect_same|].
    eapply effect_set; eauto using config_value. }
  split; [|split; [done|]].
  - pose proof (frozen_config n flags s) as Hfr. rewrite He in Hfr. by apply Hfr.
  - unfold made. rewrite Hc, (effect_target _ _ _ _ _ Hpl Heff); [done|].
    destruct (config_returned n s (wf_config_action n Hw) Hret) as [Hd|(u & o & Hu & _)];
      rewrite <- target_file_at; by eexists.
Qed.

Lemma fromtemplate_leaves c n s b s' :
  class c = FromTemplate n → repeatable c = true → ready s →
  execute_fromtemplate n flags s = Value b s' → leaves c s s'.
Proof using real_run.
  intros Hc Hr [Hroot _] He. unfold repeatable in Hr. rewrite Hc in Hr.
  apply andb_prop in Hr as [Hn%String.eqb_eq Ha%String.eqb_eq].
  assert (Hwp : wp (execute_fromtemplate n flags)
    (λ _ s', variable_storage s' = variable_storage (touch CONFIGS s) ∧
       (files s' = files s ∧ is_Some (files s !! cfg_at (root_of s) (tmpl_name n) CFG_ON) ∨
        files s !! cfg_at (root_of s) (tmpl_name n) CFG_ON = None ∧
        ∃ t, files s' = <[cfg_at (root_of s) (tmpl_name n) CFG_ON := FFile t]> (files s)))
    (λ _ _, True) s).
  { unfold execute_fromtemplate. rewrite Ha, real_run. simpl. conf_steps; file_facts; try done.
    - split; [done|]. left. by autorewrite with conf.
    - apply wp_fs_copy_file; [apply config_file_no_slash|done|]. intros t _. conf_steps; try done.
      eapply wp_mono; [apply populate_wp, config_file_no_slash| |done]. simpl. autorewrite with conf.
      intros _ s2 [Hv [Hf|(_ & _ & u & Hf)]]; (split; [done|]); right; (split; [done|]); rewrite Hf; eauto.
      rewrite insert_insert_eq. eauto. }
  destruct (wp_Value _ _ _ _ _ _ Hwp He) as [Hv Hf].
  split; [by rewrite Hv; apply frozen_touch|]. unfold made. rewrite Hc.
  destruct Hf as [[-> Hs]|[Hnone [t ->]]]; [by split; [apply effect_same|]|].
  split; [|rewrite lookup_insert_eq; by eexists]. apply effect_new; [done|].
  intros m Hm Hpl Heq. rewrite Hn in Heq. apply node_not_net in Heq; [done|done|done|by left].
Qed.
End Leaves.

(** ** Code that returns and changes nothing but the console

    From any state with the files [F] and the variables [V]. *)
Section Quietly.
Context {H : Host} (F : gmap string fnode) (V : gmap string string) (root : string) (flags : Z).
Hypothesis V_root : V !! CONFIGS = Some root.

Definition quietly {A} (m : M A) (Q : A → Prop) : Prop :=
  ∀ s, files s = F → variable_storage s = V →
  ∃ a s', m s = Value a s' ∧ Q a ∧ files s' = F ∧ variable_storage s' = V.

Lemma quietly_bind {A B} (m : M A) (k : A → M B) P Q :
  quietly m P → (∀ a, P a → quietly (k a) Q) → quietly (m ≫= k) Q.
Proof.
  intros Hm Hk s Hf Hv. destruct (Hm s Hf Hv) as (a & s1 & Hs & Ha & Hf1 & Hv1).
  destruct (Hk a Ha s1 Hf1 Hv1) as (b & s2 & Hs2 & ?). exists b, s2.
  unfold mbind, M_bind. by rewrite Hs, Hs2.
Qed.

Lemma quietly_ret {A} (a : A) (Q : A → Prop) : Q a → quietly (mret a) Q.
Proof. intros Ha s Hf Hv. by exists a, s. Qed.

Lemma quietly_prints {A} (m : M A) a : only_prints m (Ok a) → quietly m (eq a).
Proof. intros Hm s Hf Hv. destruct (Hm s) as [c Hc]. by exists a, (set_console c s). Qed.

Lemma quietly_exists p : quietly (fs_exists p) (eq (present F p)).
Proof. intros s Hf Hv. exists (present (files s) p), s. rewrite <- Hf. by split_and!. Qed.

Lemma quietly_root {A} (f : string → A) s :
  files s = F → variable_storage s = V →
  ∃ a s', Value (f (root_of s)) (touch CONFIGS s) = Value a s' ∧ f root = a ∧ files s' = F
          ∧ variable_storage s' = V.
Proof using V_root.
  intros Hf Hv. eexists _, _. split; [reflexivity|]. unfold root_of, touch.
  rewrite Hv, V_root. by rewrite Hf, Hv.
Qed.

Lemma quietly_config_path n t k : quietly (config_path n t k) (eq (config_file root n t k)).
Proof using V_root. intros s. apply (quietly_root (λ r, config_file r n t k)). Qed.

Lemma quietly_get_config_path k : quietly (get_config_path k) (λ _, True).
Proof using V_root.
  intros s Hf Hv. destruct (quietly_root (λ _, tt) s Hf Hv) as (_ & s' & [= _ <-] & _ & Hf' & Hv').
  eexists _, _. by split.
Qed.

Lemma quietly_substitute t v : substituted V t = Some v → quietly (substitute_variables t) (eq v).
Proof. intros Ht s Hf Hv. exists v, s. by rewrite substitute_substituted, Hv, Ht. Qed.

Ltac quiet_step :=
  lazymatch goal with
  | |- quietly (say _ ≫= _) _ => eapply quietly_bind; [apply quietly_prints, only_prints_say|intros ? _]
  | |- quietly (verbose _ _ ≫= _) _ => eapply quietly_bind; [apply quietly_prints, only_prints_verbose|intros ? _]
  | |- quietly (fs_exists _ ≫= _) _ => eapply quietly_bind; [apply quietly_exists|intros ? <-]
  | |- quietly (config_path _ _ _ ≫= _) _ => eapply quietly_bind; [apply quietly_config_path|intros ? <-]
  | |- quietly (get_config_path _ ≫= _) _ => eapply quietly_bind; [apply quietly_get_config_path|intros ? _]
  | |- quietly (mret _) _ => by apply quietly_ret
  end; cbv beta zeta.
Ltac quiet_steps := repeat quiet_step.

(** A network that is set up. *)
Lemma network_default_quiet n :
  default_val n = "on" ∨ default_val n = "off" →
  present F (cfg_at root (net_name n) CFG_ON) = true ∨ present F (cfg_at root (net_name n) CFG_OFF) = true →
  quietly (network_default n flags) (λ _, True).
Proof using V_root.
  intros Hv Hp. unfold network_default, cfg_at in *. quiet_steps.
  destruct (present F (config_file root (net_name n) CFG_GENERAL CFG_ON)) eqn:Hon,
    (present F (config_file root (net_name n) CFG_GENERAL CFG_OFF)) eqn:Hoff; simpl; quiet_steps;
    [..|by destruct Hp];
    destruct Hv as [-> | ->]; simpl; quiet_steps; rewrite ?Hon, ?Hoff; quiet_steps; rewrite ?Hon, ?Hoff;
    quiet_steps.
Qed.

Lemma network_check_quiet n : quietly (network_check n) (λ _, True).
Proof using V_root. unfold network_check. quiet_steps. Qed.

(** A configuration that was made from its template. *)
Lemma fromtemplate_quiet n :
  tmpl_action n = "default" → present F (cfg_at root (tmpl_name n) CFG_ON) = true →
  quietly (execute_fromtemplate n flags) (λ _, True).
Proof using V_root.
  intros Ha Hp. unfold execute_fromtemplate, cfg_at in *. quiet_steps. rewrite Ha, Hp. simpl. quiet_steps.
Qed.

Lemma net_list_quiet n : quietly (execute_net_list n flags) (λ _, True).
Proof using V_root.
  unfold execute_net_list. quiet_steps. destruct (negb _); quiet_steps.
  apply (quietly_bind _ _ (λ _, True)); [intros s Hf Hv; eexists _, s; by split_and!|]. intros d _.
  destruct (negb d); quiet_steps.
  apply (quietly_bind _ _ (λ _, True)); [intros s Hf Hv; eexists _, s; by split_and!|]. intros names _.
  destruct (omap _ names); quiet_steps.
Qed.

(** The value of a condition depends on the variables. *)
Definition test (vars : gmap string string) (n : CConditionOpenCommand) : option bool :=
  match substituted vars (arg1 n), substituted vars (arg2 n) with
  | Some a1val, Some a2val =>
      Some match cond_op n with
           | COND_EQUAL => a1val =s? a2val
           | COND_NOT_EQUAL => negb (a1val =s? a2val)
           | COND_IS_SET => is_empty a1val
           end
  | _, _ => None
  end.

Lemma if_quiet n b : test V n = Some b → quietly (execute_if n flags) (eq b).
Proof.
  unfold test, execute_if. destruct (substituted V (arg1 n)) as [a1|] eqn:H1; [|done].
  destruct (substituted V (arg2 n)) as [a2|] eqn:H2; [|done]. intros [= Hb]. quiet_steps.
  eapply quietly_bind; [by apply quietly_substitute|intros ? <-].
  eapply quietly_bind; [by apply quietly_substitute|intros ? <-].
  destruct (cond_op n); quiet_steps.
Qed.

(** A [config] command whose file is as it would make it. *)
Lemma config_quiet c n val :
  class c = Config n → wf_class (Config n) → clean_param (cfg_param n) = true →
  substituted V (cfg_value n) = Some val →
  made root V c F → filled root F c = true → quietly (execute_config n flags) (λ _, True).
Proof using V_root.
  intros Hc Hw Hp Hval Hm Hfill s Hf Hv. unfold made, filled in *. rewrite Hc in *.
  assert (Hroot : root_of s = root) by (unfold root_of; by rewrite Hv, V_root).
  assert (Ht : target_file s (cfg_name n) = target_at root F (cfg_name n))
    by (by rewrite target_file_at, Hroot, Hf).
  destruct (returns_inv (execute_config n flags s)) as (b & s' & He).
  { rewrite execute_config_returns by (by apply wf_config_action).
    rewrite substitute_substituted, Hv, Hval, Ht, Hf. unfold target_lines, lines_at, present, node_at.
    rewrite Ht, Hf. rewrite <- Ht, target_file_no_slash, Ht.
    destruct Hm as [->|(t & -> & (o & Ho & _) & _)]; [done|]. apply scan_ok_text. eauto. }
  exists b, s'. split; [done|]. split; [done|].
  pose proof (frozen_config n flags s) as Hfr. rewrite He in Hfr.
  split; [|rewrite Hfr; [done|by rewrite Hv, V_root; eexists]].
  destruct (wp_Value _ _ _ _ _ _ (execute_config_wp n flags s) He) as [Hstep _].
  destruct Hstep as [_|v t cfg cfg' l s1 s2 Hsub Hu Hl Hs _ _ Hget Hdef]; [done|].
  rewrite substitute_substituted, Hv, Hval in Hsub. injection Hsub as <-. rewrite Ht, Hf in *.
  destruct Hm as [Hd|(t' & Ht' & (o & Ho & Hsome) & Hens)]; [congruence|].
  rewrite Hu in Ht'. injection Ht' as <-. rewrite Hu, Ho in Hfill. destruct Hw as [Ha _].
  destruct Ha as [Ha|[Ha|Ha]]; [| |done].
  - destruct (Hsome Ha) as [w ->]. specialize (Hdef Ha). rewrite Ho in Hdef. simpl in Hdef.
    by rewrite Hdef, Ha in Hfill.
  - destruct (Hens Ha) as (w & Hw & Hline). rewrite Hval in Hw. injection Hw as <-.
    rewrite (written_same _ _ _ Hp _ _ _ _ _ _ Hline Hl Hs). by apply insert_id.
Qed.
End Quietly.

Lemma if_test {H : Host} n flags s b s' : execute_if n flags s = Value b s' → test (variable_storage s) n = Some b.
Proof.
  assert (Hsub : ∀ t r u, substitute_variables t u = Value r u → substituted (variable_storage u) t = Some r).
  { intros t r u. rewrite substitute_substituted. by destruct (substituted _ _); intros [= ->]. }
  apply (wp_Value _ (λ b _, test (variable_storage s) n = Some b) (λ _ _, True)).
  unfold execute_if. apply wp_bind, wp_verbose. intros c. apply wp_bind, wp_substitute. intros a1 H1%Hsub.
  apply wp_bind, wp_substitute. intros a2 H2%Hsub. simpl in *. unfold test. rewrite H1, H2.
  by destruct (cond_op n); conf_steps.
Qed.
