(* ===== verification/ConfAgain.v ===== *)
(** * Running a setup twice

    A setup script that was run once finds, when it is run again, everything as it
    would make it.  This file proves for whole set-ups, with defaults, forced values,
    variables and conditions, that a run that succeeds establishes what its commands
    ask for, that a second run parses the same commands, returns and changes no file;
    and that the shipped script is such a script on every tree. *)
From S2P Require Import CLib.
From S2P Require Export ConfRepeat ConfInstall.

Set Default Proof Using "Type".

(** ** Runs as a relation *)
Section Run.
Context {H : Host} (flags : Z).

Definition guard (stack : list command) : M bool :=
  match last stack with
  | Some cond => execute cond flags
  | None => mret true
  end.

Definition is_condition (c : command) : bool := is_condition_open c || is_condition_close c.

Inductive ran : list command → list command → st → st → Prop :=
  | ran_end stack s : ran [] stack s s
  | ran_condition c cmds stack stack' s s1 s' :
      is_condition c = true → next_stack stack c s = Value stack' s →
      verbose flags (show_cond_stack stack') s = Value tt s1 → ran cmds stack' s1 s' →
      ran (c :: cmds) stack s s'
  | ran_skip c cmds stack s s1 s' :
      is_condition c = false → guard stack s = Value false s1 → ran cmds stack s1 s' →
      ran (c :: cmds) stack s s'
  | ran_execute c cmds stack s s1 b s2 s' :
      is_condition c = false → guard stack s = Value true s1 → execute c flags s1 = Value b s2 →
      ran cmds stack s2 s' → ran (c :: cmds) stack s s'.

Lemma bind_Value {A B} (m : M A) (k : A → M B) s b s' :
  (m ≫= k) s = Value b s' → ∃ a s1, m s = Value a s1 ∧ k a s1 = Value b s'.
Proof. unfold mbind, M_bind. destruct (m s) as [a s1| | |]; try done. eauto. Qed.

Lemma next_stack_same stack c s stack' s1 : next_stack stack c s = Value stack' s1 → s1 = s.
Proof. unfold next_stack. repeat case_match; try done; by intros [= _ <-]. Qed.

(** The interpreter is the relation. *)
Lemma run_loop_guard c cmds stack :
  is_condition c = false →
  run_loop (c :: cmds) stack flags =
    ((match last stack with
      | Some cond => passed ← execute cond flags; when passed (execute c flags;; mret tt)
      | None => execute c flags;; mret tt
      end);; run_loop cmds stack flags).
Proof. intros Hc. cbn [run_loop]. unfold is_condition in Hc. by rewrite Hc. Qed.

Lemma guarded_Value c stack s a s' :
  (match last stack with
   | Some cond => passed ← execute cond flags; when passed (execute c flags;; mret tt)
   | None => execute c flags;; mret tt
   end) s = Value a s' ↔
  guard stack s = Value false s' ∨
  ∃ s1 b, guard stack s = Value true s1 ∧ execute c flags s1 = Value b s'.
Proof.
  destruct a. unfold guard.
  assert (Hx : ∀ o : outcome bool, (∃ b, o = Value b s') ↔
    match o with Value _ s1 => (mret tt : M unit) s1 | Thrown e s1 => Thrown e s1 | Ub => Ub | Beyond => Beyond end
    = Value tt s').
  { intros [b s1|e s1| |]; split; try (by intros [b' [=]]); try done.
    - by intros [b' [= _ <-]].
    - intros [= <-]. eauto. }
  destruct (last stack) as [d|]; unfold mbind, M_bind; [|change ((mret true : M bool) s) with (Value true s)].
  - destruct (execute d flags s) as [[] s1|e s1| |];
      try (split; [done|by intros [[=]|(? & ? & [=] & _)]]).
    + simpl. unfold M_bind. rewrite <- Hx. split; [intros [b Hb]; right; eauto|].
      intros [[=]|(? & b & [= <-] & Hb)]. eauto.
    + split; [intros [= <-]; by left|]. by intros [[= <-]|(? & ? & [=] & _)].
  - rewrite <- Hx. split; [intros [b Hb]; right; eauto|].
    intros [[=]|(? & b & [= <-] & Hb)]. eauto.
Qed.

Lemma run_loop_ran cmds stack s s' : run_loop cmds stack flags s = Value tt s' ↔ ran cmds stack s s'.
Proof.
  split.
  - revert stack s; induction cmds as [|c cmds IH]; intros stack s; [intros [= <-]; constructor|].
    destruct (is_condition c) eqn:Hc.
    + cbn [run_loop]. unfold is_condition in Hc. rewrite Hc.
      intros (stack' & s0 & Hn & Hk)%bind_Value. pose proof (next_stack_same _ _ _ _ _ Hn). subst s0.
      apply bind_Value in Hk as ([] & s1 & Hv & Hk). eapply ran_condition; eauto.
    + rewrite run_loop_guard by done. intros ([] & s1 & Hg & Hk)%bind_Value.
      apply guarded_Value in Hg as [Hg|(s0 & b & Hg & He)];
        [eapply ran_skip; eauto|eapply ran_execute; eauto].
  - induction 1 as [stack s|c cmds stack stack' s s1 s' Hc Hn Hv _ IH|c cmds stack s s1 s' Hc Hg _ IH
      |c cmds stack s s1 b s2 s' Hc Hg He _ IH]; [done|..].
    + cbn [run_loop]. unfold is_condition in Hc. rewrite Hc. unfold mbind, M_bind. by rewrite Hn, Hv.
    + rewrite run_loop_guard by done. unfold mbind at 1, M_bind at 1.
      rewrite (proj2 (guarded_Value c stack s tt s1)) by (by left). done.
    + rewrite run_loop_guard by done. unfold mbind at 1, M_bind at 1.
      rewrite (proj2 (guarded_Value c stack s tt s2)) by (right; eauto). done.
Qed.
End Run.

(** ** One command, run and run again *)
Section Again.
Context {H : Host} (flags : Z).
Hypothesis writable : ∀ p, may_write p = true.
Hypothesis real_run : flag flags F_DRYRUN = false.

Lemma var_run n s :
  wp (execute_var n flags)
     (λ _ s', files s' = files s ∧ ∃ v, substitute_variables (var_val n) s = Value v s ∧
        variable_storage s' = <[var_name n := v]> (variable_storage s)) (λ _ _, True) s.
Proof.
  unfold execute_var. apply wp_bind, wp_substitute. intros r Hr. conf_steps. eauto.
Qed.

Lemma ready_insert n v s :
  n ≠ CONFIGS → lacks "010" v = true → ready s →
  is_Some (<[n := v]> (variable_storage s) !! CONFIGS) ∧ vars_ok (<[n := v]> (variable_storage s)).
Proof.
  intros Hn Hv [Hr Hok]. split; [by rewrite lookup_insert_ne|]. by apply map_Forall_insert_2.
Qed.

Lemma ready_vars s s' : variable_storage s' = variable_storage s → ready s → ready s'.
Proof. unfold ready. by intros ->. Qed.

Lemma root_of_vars s s' : variable_storage s' = variable_storage s → root_of s' = root_of s.
Proof. unfold root_of. by intros ->. Qed.

(** What holds after a command that is no condition returned. *)
Definition steps_on (c : command) (s s' : st) : Prop :=
  ready s' ∧ root_of s' = root_of s ∧ effect (root_of s) c (files s) (files s') ∧
  made (root_of s) (variable_storage s) c (files s').

Lemma leaves_steps_on c s s' : ready s → leaves c s s' → steps_on c s s'.
Proof. intros Hr (Hv & He & Hm). by split_and!; eauto using ready_vars, root_of_vars. Qed.

Definition is_var (c : command) : bool := match class c with Variable_ _ => true | _ => false end.

Lemma execute_leaves c s b s' :
  wf_command c → repeatable c = true → is_condition c = false → is_var c = false → ready s →
  execute c flags s = Value b s' → leaves c s s'.
Proof using writable real_run.
  intros [Hw _] Hr Hc Hnv Hs. unfold execute, is_var, is_condition, is_condition_open, is_condition_close in *.
  destruct (class c) as [n|n|n|n| |n|n|n] eqn:Hcl; try done; intros He.
  - by eapply network_leaves.
  - by eapply config_leaves.
  - by eapply fromtemplate_leaves.
  - pose proof (frozen_net_list n flags s) as Hfr. pose proof (calm_net_list n flags s) as Hk.
    rewrite He in Hfr, Hk. destruct Hk as [Hf _]. unfold leaves, made.
    rewrite Hcl, Hf. split_and!; [by apply Hfr, Hs|apply effect_same|done].
  - unfold repeatable in Hr. by rewrite Hcl in Hr.
Qed.

Lemma execute_steps_on c s b s' :
  wf_command c → repeatable c = true → is_condition c = false → ready s →
  execute c flags s = Value b s' → steps_on c s s'.
Proof using writable real_run.
  intros Hw Hr Hc Hs He. destruct (is_var c) eqn:Hvar; [|by eapply leaves_steps_on, execute_leaves].
  unfold is_var, execute in *. destruct (class c) as [n|n|n|n| |n|n|n] eqn:Hcl; try done.
  destruct (wp_Value _ _ _ _ _ _ (var_run n s) He) as (Hf & v & Hv & Hvars).
  destruct Hw as [Hw _]. rewrite Hcl in Hw. destruct Hw as [_ Hval].
  unfold repeatable in Hr. rewrite Hcl in Hr. apply negb_true_iff, String.eqb_neq in Hr.
  assert (Hnl : lacks "010" v = true).
  { eapply substitute_bytes; [apply Hs| |exact Hv]. by apply nospaces_NL. }
  unfold steps_on, ready, root_of, made. rewrite Hf, Hvars, Hcl.
  split_and!; [by apply ready_insert..|by rewrite lookup_insert_ne|apply effect_same|done].
Qed.

Lemma var_again n s b s' u :
  execute_var n flags s = Value b s' → variable_storage u = variable_storage s →
  ∃ b' u', execute_var n flags u = Value b' u' ∧ files u' = files u ∧ variable_storage u' = variable_storage s'.
Proof.
  intros He Hv. destruct (wp_Value _ _ _ _ _ _ (var_run n s) He) as (_ & v & Hsub & Hvars).
  pose proof (substitute_same_vars _ _ _ _ Hv Hsub) as Hsub'.
  destruct (returns_inv (execute_var n flags u)) as (b' & u' & He').
  { unfold execute_var, mbind, M_bind. rewrite Hsub'. simpl. unfold M_bind, verbose, when.
    by destruct (flag flags F_VERBOSE). }
  exists b', u'. split; [done|].
  destruct (wp_Value _ _ _ _ _ _ (var_run n u) He') as (Hf & v' & Hv' & Hvars').
  rewrite Hsub' in Hv'. injection Hv' as <-. by rewrite Hvars', Hvars, Hv.
Qed.

Lemma ready_root s : ready s → variable_storage s !! CONFIGS = Some (root_of s).
Proof. intros [[r Hr] _]. unfold root_of. by rewrite Hr. Qed.

(** A command that returned returns again where what it makes is there, and changes no
    file. *)
Lemma execute_quiet c s b s' u :
  wf_class (class c) → repeatable c = true → is_condition c = false → is_var c = false → ready s →
  execute c flags s = Value b s' →
  made (root_of s) (variable_storage s) c (files u) → filled (root_of s) (files u) c = true →
  quietly (files u) (variable_storage s) (execute c flags) (λ _, True).
Proof.
  intros Hw Hr Hc Hnv Hs%ready_root He Hm Hfill. assert (Hr' := Hr). unfold repeatable in Hr'.
  unfold execute, is_var, is_condition, is_condition_open, is_condition_close in *.
  assert (Hm' := Hm). unfold made in Hm'. destruct (class c) as [n|n|n|n| |n|n|n] eqn:Hcl; try done.
  - unfold execute_network. destruct Hw as [Ha|[[Ha|Ha] Hd]]; rewrite Ha in *; [| |done]; simpl.
    + by eapply network_check_quiet.
    + eapply network_default_quiet; eauto. rewrite !present_cfg_at. by apply Hm'.
  - apply andb_prop in Hr' as [[_ Hp]%andb_prop _]. unfold execute_config in He.
    apply bind_Value in He as (val & s1 & Hval & _). rewrite substitute_substituted in Hval.
    destruct (substituted _ _) as [v|] eqn:Hv; [|done]. by eapply config_quiet.
  - apply andb_prop in Hr' as [_ Ha%String.eqb_eq]. eapply fromtemplate_quiet; eauto. by apply present_cfg_at.
  - by eapply net_list_quiet.
Qed.

Lemma execute_again c s b s' u :
  wf_command c → repeatable c = true → is_condition c = false → ready s →
  execute c flags s = Value b s' → variable_storage u = variable_storage s →
  made (root_of s) (variable_storage s) c (files u) → filled (root_of s) (files u) c = true →
  ∃ b' u', execute c flags u = Value b' u' ∧ files u' = files u ∧ variable_storage u' = variable_storage s'.
Proof using writable real_run.
  intros Hw Hr Hc Hs He Hv Hm Hfill. destruct (is_var c) eqn:Hvar.
  - unfold is_var, execute in *. destruct (class c); try done. by eapply var_again.
  - destruct (execute_leaves c s b s') as (Hv' & _); [done..|]. rewrite Hv'.
    destruct (execute_quiet c s b s' u (proj1 Hw) Hr Hc Hvar Hs He Hm Hfill u eq_refl Hv)
      as (b' & u' & He' & _ & Hf' & Hu'). by exists b', u'.
Qed.

(** ** The condition on top of the stack *)
Definition conditions (stack : list command) : Prop := Forall (λ c, is_condition_open c = true) stack.

Lemma guard_again stack s b s1 :
  conditions stack → ready s → guard flags stack s = Value b s1 →
  (files s1 = files s ∧ variable_storage s1 = variable_storage s) ∧
  ∀ u, variable_storage u = variable_storage s →
    ∃ u1, guard flags stack u = Value b u1 ∧ files u1 = files u ∧ variable_storage u1 = variable_storage s.
Proof.
  intros Hst Hs Hg.
  assert (Hq : ∀ F, quietly F (variable_storage s) (guard flags stack) (eq b)).
  { intros F. unfold guard in *. destruct (last stack) as [d|] eqn:Hl.
    2: { injection Hg as <- _. by apply quietly_ret. }
    apply last_In in Hl. unfold conditions in Hst. rewrite Forall_forall in Hst. specialize (Hst d Hl).
    unfold is_condition_open, execute in *. destruct (class d); try done.
    apply if_quiet. by eapply if_test. }
  split.
  - destruct (Hq (files s) s eq_refl eq_refl) as (b' & s1' & Hg' & _ & ?). rewrite Hg in Hg'.
    by injection Hg' as _ <-.
  - intros u Hv. destruct (Hq (files u) u eq_refl Hv) as (b' & u1 & Hg' & <- & ?). by exists u1.
Qed.

Lemma next_stack_conditions stack c s stack' s1 :
  conditions stack → next_stack stack c s = Value stack' s1 → conditions stack'.
Proof.
  intros Hst. unfold next_stack. destruct (is_condition_open c) eqn:Hc.
  - intros [= <- _]. apply Forall_app. split; [done|]. by constructor.
  - apply removelast_incl in Hst. destruct stack as [|d stack]; [done|]. by intros [= <- _].
Qed.

Lemma next_stack_any stack c s stack' u : next_stack stack c s = Value stack' s → next_stack stack c u = Value stack' u.
Proof. unfold next_stack. repeat case_match; try done; by intros [= <-]. Qed.

Lemma verbose_same text s s1 : verbose flags text s = Value tt s1 → ∃ t, s1 = set_console t s.
Proof. destruct (only_prints_verbose flags text s) as [c ->]. intros [= <-]. eauto. Qed.

(** What every effect of the commands keeps, a run keeps. *)
Lemma ran_keeps (P : gmap string fnode → Prop) cmds stack s s' :
  ran flags cmds stack s s' → Forall wf_command cmds → forallb repeatable cmds = true →
  conditions stack → ready s →
  (∀ d f f', d ∈ cmds → effect (root_of s) d f f' → P f → P f') → P (files s) → P (files s').
Proof using writable real_run.
  induction 1 as [stack s|c cmds stack stack' s s1 s' Hc Hn Hv _ IH|c cmds stack s s1 s' Hc Hg _ IH
    |c cmds stack s s1 b s2 s' Hc Hg He _ IH]; intros Hw Hr Hst Hs HP Hp; [done|..];
    apply Forall_cons in Hw as [Hwc Hw]; apply andb_prop in Hr as [Hrc Hr];
    assert (HP' : ∀ d f f', d ∈ cmds → effect (root_of s) d f f' → P f → P f')
      by (intros; eapply HP; eauto; by right).
  - apply verbose_same in Hv as [t ->].
    apply (IH Hw Hr (next_stack_conditions _ _ _ _ _ Hst Hn) Hs HP' Hp).
  - destruct (guard_again _ _ _ _ Hst Hs Hg) as [[Hf Hv] _].
    apply IH; eauto using ready_vars; [by rewrite (root_of_vars _ _ Hv)|by rewrite Hf].
  - destruct (guard_again _ _ _ _ Hst Hs Hg) as [[Hf Hv] _].
    destruct (execute_steps_on c s1 b s2) as (Hs2 & Hroot & Heff & _); eauto using ready_vars.
    rewrite (root_of_vars _ _ Hv) in *. apply IH; auto; [by rewrite Hroot|].
    eapply HP; [by left|exact Heff|by rewrite Hf].
Qed.

(** The rest of a run keeps what was made. *)
Lemma ran_made cmds stack s s' vars c :
  ran flags cmds stack s s' → Forall wf_command cmds → forallb repeatable cmds = true →
  conditions stack → ready s → repeatable c = true →
  forallb (λ d, negb (overrides c d)) cmds = true →
  made (root_of s) vars c (files s) → made (root_of s) vars c (files s').
Proof using writable real_run.
  intros Hran Hw Hr Hst Hs Hc Ho. apply (ran_keeps _ _ _ _ _ Hran Hw Hr Hst Hs).
  apply forallb_Forall in Hr, Ho. rewrite Forall_forall in Hr, Ho. intros d f f' Hd.
  apply made_kept; auto. by apply negb_true_iff, Ho.
Qed.

Lemma ran_again cmds stack s s' :
  ran flags cmds stack s s' → Forall wf_command cmds → forallb repeatable cmds = true →
  forced_last cmds = true → conditions stack → ready s →
  forallb (filled (root_of s) (files s')) cmds = true →
  ∀ u, variable_storage u = variable_storage s → files u = files s' →
    ∃ u', ran flags cmds stack u u' ∧ files u' = files s'.
Proof using writable real_run.
  induction 1 as [stack s|c cmds stack stack' s s1 s' Hc Hn Hv _ IH|c cmds stack s s1 s' Hc Hg _ IH
    |c cmds stack s s1 b s2 s' Hc Hg He Hran IH]; intros Hw Hr Hl Hst Hs Hfill u Hu Hf;
    [exists u; split; [constructor|done]|..];
    apply Forall_cons in Hw as [Hwc Hw]; apply andb_prop in Hr as [Hrc Hr], Hl as [Hoc Hl], Hfill as [Hfc Hfill].
  - apply verbose_same in Hv as [t ->].
    destruct (only_prints_verbose flags (show_cond_stack stack') u) as [t' Ht'].
    destruct (IH Hw Hr Hl (next_stack_conditions _ _ _ _ _ Hst Hn) Hs Hfill (set_console t' u) Hu Hf)
      as (u' & Hran & Hf'). exists u'. split; [|done].
    eapply ran_condition; [done|by eapply next_stack_any|exact Ht'|exact Hran].
  - destruct (guard_again _ _ _ _ Hst Hs Hg) as [[_ Hv] Hag]. destruct (Hag u Hu) as (u1 & Hg' & Hf1 & Hv1).
    destruct (IH Hw Hr Hl Hst (ready_vars _ _ Hv Hs)) with u1 as (u' & Hran & Hf');
      [by rewrite (root_of_vars _ _ Hv)|congruence..|].
    exists u'. split; [by eapply ran_skip|done].
  - destruct (guard_again _ _ _ _ Hst Hs Hg) as [[_ Hv] Hag]. destruct (Hag u Hu) as (u1 & Hg' & Hf1 & Hv1).
    pose proof (ready_vars _ _ Hv Hs) as Hs1. rewrite <- (root_of_vars _ _ Hv) in Hfc, Hfill.
    destruct (execute_steps_on c s1 b s2) as (Hs2 & Hroot & _ & Hmade); [done..|].
    assert (Hm : made (root_of s1) (variable_storage s1) c (files s')).
    { rewrite <- Hroot in *. by eapply ran_made. }
    rewrite <- Hf, <- Hf1 in Hm, Hfc.
    destruct (execute_again c s1 b s2 u1) as (b' & u2 & He' & Hf2 & Hv2); [done..|congruence|done|done|].
    destruct (IH Hw Hr Hl Hst Hs2) with u2 as (u' & Hran' & Hf'); [by rewrite Hroot|congruence..|].
    exists u'. split; [by eapply ran_execute|done].
Qed.

(** ** What a run establishes

    The commands a script executes, each with the variables it sees: a command runs
    when the condition on top of the stack holds, and [var] commands change the
    variables. *)
Definition passes (vars : gmap string string) (stack : list command) : bool :=
  match last stack with
  | Some c => match class c with ConditionOpen n => default false (test vars n) | _ => true end
  | None => true
  end.

Definition vars_after (vars : gmap string string) (c : command) : gmap string string :=
  match class c with
  | Variable_ n => match substituted vars (var_val n) with Some v => <[var_name n := v]> vars | None => vars end
  | _ => vars
  end.

Fixpoint executed (vars : gmap string string) (cmds stack : list command) :
    list (gmap string string * command) :=
  match cmds with
  | [] => []
  | c :: cmds' =>
      if is_condition_open c then executed vars cmds' (stack ++ [c])
      else if is_condition_close c then executed vars cmds' (removelast stack)
      else if passes vars stack then (vars, c) :: executed (vars_after vars c) cmds' stack
      else executed vars cmds' stack
  end.

(** What an executed command asks for: the network has a configuration, the node's
    own one is there, a parameter with a default has a value, a forced parameter has
    the value that was forced. *)
Definition established (root : string) (vars : gmap string string) (c : command) (f : gmap string fnode) : Prop :=
  match class c with
  | Network n =>
      net_action n = "default" →
      present f (cfg_at root (net_name n) CFG_ON) = true ∨ present f (cfg_at root (net_name n) CFG_OFF) = true
  | Config n =>
      ∃ t, f !! target_at root f (cfg_name n) = Some (FFile t) ∧
        (cfg_action n = "default" → ∃ v, text_value (cfg_group n) (cfg_param n) t = Ok (Some v)) ∧
        (cfg_action n = "ensure" →
         ∃ val, substituted vars (cfg_value n) = Some val ∧
                text_value (cfg_group n) (cfg_param n) t = Ok (Some (read_back val)))
  | FromTemplate n => present f (cfg_at root (tmpl_name n) CFG_ON) = true
  | _ => True
  end.

(** The configuration a command works on is not a directory. *)
Definition on_file (root : string) (f : gmap string fnode) (c : command) : bool :=
  match class c with
  | Config n => match f !! target_at root f (cfg_name n) with Some FDir => false | _ => true end
  | _ => true
  end.

Lemma line_written_value g p v t :
  clean_param p = true → line_written g p v t → text_value g p t = Ok (Some (read_back v)).
Proof.
  intros Hp [Hl _]. apply (holds_line_found g p v false 0) in Hl as (j & _ & Hs); [|done].
  unfold text_value. by rewrite <- (scan_read _ _ _ 0%nat), Hs.
Qed.

Lemma made_established root vars c f :
  repeatable c = true → on_file root f c = true → made root vars c f → established root vars c f.
Proof.
  unfold repeatable, on_file, made, established. destruct (class c) as [n|n|n|n| |n|n|n]; try done.
  - rewrite !present_cfg_at. done.
  - intros [[_ Hp]%andb_prop _]%andb_prop Hd [Hf|(t & Ht & (o & Ho & Hdef) & Hens)]; [by rewrite Hf in Hd|].
    exists t. split; [done|]. split.
    + intros Ha. destruct (Hdef Ha) as [v ->]. eauto.
    + intros Ha. destruct (Hens Ha) as (val & Hsub & Hw). eauto using line_written_value.
  - by rewrite present_cfg_at.
Qed.

Lemma guard_passes stack s b s1 :
  conditions stack → guard flags stack s = Value b s1 → passes (variable_storage s) stack = b.
Proof.
  unfold guard, passes. intros Hst. destruct (last stack) as [d|] eqn:Hl; [|by intros [= <- _]].
  apply last_In in Hl. unfold conditions in Hst. rewrite Forall_forall in Hst. specialize (Hst d Hl).
  unfold is_condition_open, execute in *. destruct (class d); try done. intros Hg%if_test. by rewrite Hg.
Qed.

Lemma execute_vars_after c s b s' :
  wf_command c → repeatable c = true → is_condition c = false → ready s →
  execute c flags s = Value b s' → variable_storage s' = vars_after (variable_storage s) c.
Proof using writable real_run.
  intros Hw Hr Hc Hs He. destruct (is_var c) eqn:Hvar.
  - unfold is_var, execute, vars_after in *. destruct (class c) as [n|n|n|n| |n|n|n]; try done.
    destruct (wp_Value _ _ _ _ _ _ (var_run n s) He) as (_ & v & Hv & ->).
    rewrite substitute_substituted in Hv. destruct (substituted _ _); [|done]. by injection Hv as ->.
  - destruct (execute_leaves c s b s') as (-> & _); [done..|]. unfold vars_after, is_var in *. by destruct (class c).
Qed.

Lemma ran_established cmds stack s s' :
  ran flags cmds stack s s' → Forall wf_command cmds → forallb repeatable cmds = true →
  forced_last cmds = true → conditions stack → ready s →
  Forall (λ x, x.2 ∈ cmds ∧ made (root_of s) x.1 x.2 (files s')) (executed (variable_storage s) cmds stack).
Proof using writable real_run.
  assert (Hmono : ∀ root f c (cs : list command) (xs : list (gmap string string * command)),
    Forall (λ x, x.2 ∈ cs ∧ made root x.1 x.2 f) xs → Forall (λ x, x.2 ∈ c :: cs ∧ made root x.1 x.2 f) xs).
  { intros root f c cs xs Hx. eapply Forall_impl; [exact Hx|]. intros x [Hin Hm]. split; [by right|done]. }
  induction 1 as [stack s|c cmds stack stack' s s1 s' Hc Hn Hv _ IH|c cmds stack s s1 s' Hc Hg _ IH
    |c cmds stack s s1 b s2 s' Hc Hg He Hran IH]; intros Hw Hr Hl Hst Hs; [constructor|..];
    apply Forall_cons in Hw as [Hwc Hw]; apply andb_prop in Hr as [Hrc Hr], Hl as [Hoc Hl].
  - apply verbose_same in Hv as [t ->].
    specialize (IH Hw Hr Hl (next_stack_conditions _ _ _ _ _ Hst Hn) Hs). apply Hmono. cbn [executed].
    unfold next_stack in Hn. destruct (is_condition_open c) eqn:Ho; [by injection Hn as <-|].
    unfold is_condition in Hc. rewrite Ho in Hc. simpl in Hc. rewrite Hc.
    destruct stack as [|d stack]; [done|]. by injection Hn as <-.
  - destruct (guard_again _ _ _ _ Hst Hs Hg) as [[_ Hv] _]. unfold is_condition in Hc.
    apply orb_false_elim in Hc as [Ho Hcl]. cbn [executed].
    rewrite Ho, Hcl, (guard_passes _ _ _ _ Hst Hg). apply Hmono. rewrite <- Hv, <- (root_of_vars _ _ Hv).
    by apply IH; eauto using ready_vars.
  - destruct (guard_again _ _ _ _ Hst Hs Hg) as [[_ Hv] _]. pose proof (ready_vars _ _ Hv Hs) as Hs1.
    destruct (execute_steps_on c s1 b s2) as (Hs2 & Hroot & _ & Hmade); [done..|].
    pose proof (execute_vars_after c s1 b s2 Hwc Hrc Hc Hs1 He) as Hva.
    assert (Hm : made (root_of s1) (variable_storage s1) c (files s')).
    { rewrite <- Hroot in *. by eapply ran_made. }
    unfold is_condition in Hc. apply orb_false_elim in Hc as [Ho Hcl]. cbn [executed].
    rewrite Ho, Hcl, (guard_passes _ _ _ _ Hst Hg), <- Hv, <- (root_of_vars _ _ Hv).
    constructor; [split; [by left|done]|]. apply Hmono. rewrite <- Hva, <- Hroot. by apply IH.
Qed.

(** A setup script that was run can be run again: started
    with the same variables on the tree the first run left, as at the next upgrade,
    it returns and leaves every file as it is.  The script may set defaults, force
    values, set up networks and the node's configuration where they are missing, set
    variables, test conditions and list networks.  The tree may be written, the
    root is set, no value forced is set again behind it, and the first run did not
    leave a placeholder where the script has a default. *)
Lemma script_repeatable cmds s b s' u :
  Forall wf_command cmds → forallb repeatable cmds = true → forced_last cmds = true → ready s →
  run_commands cmds flags s = Value b s' → forallb (filled (root_of s) (files s')) cmds = true →
  variable_storage u = variable_storage s → files u = files s' →
  ∃ u', run_commands cmds flags u = Value b u' ∧ files u' = files s'.
Proof using writable real_run.
  intros Hw Hr Hl Hs Hrun Hfill Hu Hf. unfold run_commands in Hrun.
  apply bind_Value in Hrun as ([] & s1 & Hran & [= <- <-]). apply run_loop_ran in Hran.
  destruct (ran_again cmds [] s s1 Hran Hw Hr Hl) with u as (u' & Hran' & Hf'); [by constructor|done..|].
  apply run_loop_ran in Hran'. exists u'. split; [|done]. unfold run_commands, mbind, M_bind. by rewrite Hran'.
Qed.
End Again.

(** ** Parsing again

    [steady m]: what [m] returned on the files [F0], without changing them, it returns
    on [F], where every template of [F0] is present and the script is the same. *)
Section Steady.
Context {H : Host} (F0 F : gmap string fnode) (V : gmap string string) (root : string).
Hypothesis V_root : V !! CONFIGS = Some root.
Hypothesis templates : ∀ n,
  present F0 (cfg_at root n CFG_TEMPLATE) = true → present F (cfg_at root n CFG_TEMPLATE) = true.

Definition steady {A} (m : M A) : Prop :=
  ∀ s a s1, files s = F0 → variable_storage s = V → m s = Value a s1 →
    (files s1 = F0 ∧ variable_storage s1 = V) ∧ quietly F V m (eq a).

Lemma steady_bind {A B} (m : M A) (k : A → M B) : steady m → (∀ a, steady (k a)) → steady (m ≫= k).
Proof.
  intros Hm Hk s b s' Hf Hv (a & s1 & Ha & Hb)%bind_Value.
  destruct (Hm s a s1 Hf Hv Ha) as [[Hf1 Hv1] Hq]. destruct (Hk a s1 b s' Hf1 Hv1 Hb) as [? Hq'].
  split; [done|]. eapply quietly_bind; [exact Hq|]. by intros ? <-.
Qed.

Lemma steady_quiet {A} (m : M A) a : quietly F0 V m (eq a) → quietly F V m (eq a) → steady m.
Proof.
  intros H0 H1 s a' s1 Hf Hv Hs. destruct (H0 s Hf Hv) as (b & s2 & Hs2 & <- & ?).
  rewrite Hs in Hs2. by injection Hs2 as <- <-.
Qed.

Lemma steady_ret {A} (a : A) : steady (mret a).
Proof. by apply (steady_quiet _ a); apply quietly_ret. Qed.

Lemma steady_throw {A} e : steady (throw (A:=A) e).
Proof. done. Qed.

Lemma steady_prints {A} (m : M A) a : only_prints m (Ok a) → steady m.
Proof. intros Hm. by apply (steady_quiet _ a); apply quietly_prints. Qed.

Lemma steady_at {A} (v : list A) i : steady (at_ v i).
Proof. unfold at_. destruct (v !! i); [apply steady_ret|done]. Qed.

Lemma steady_config_path n t k : steady (config_path n t k).
Proof using V_root. eapply steady_quiet; by apply quietly_config_path. Qed.

Lemma steady_read_lines p : node_at F p = node_at F0 p → steady (read_lines p).
Proof.
  intros Hp s a s1 Hf Hv [= <- <-]. split; [done|]. intros u Hfu Hvu. eexists _, u.
  split; [reflexivity|]. by rewrite Hf, Hfu, Hp.
Qed.

(** A constructor that asks for a template. *)
Lemma steady_template {A} n (b : bool) e (k : M A) :
  steady k →
  steady (p ← config_path n CFG_GENERAL CFG_TEMPLATE; there ← fs_exists p;
          if b && negb there then throw e else k).
Proof using V_root templates.
  intros Hk s a s1 Hf Hv (p & s2 & Hp & Hb)%bind_Value.
  destruct (steady_config_path _ _ _ s p s2 Hf Hv Hp) as [[Hf2 Hv2] Hq].
  destruct (quietly_config_path F0 V root V_root n CFG_GENERAL CFG_TEMPLATE s Hf Hv)
    as (p' & s2' & Hp' & <- & _). rewrite Hp in Hp'. injection Hp' as -> ->.
  apply bind_Value in Hb as (there & s3 & [= <- <-] & Hb). rewrite Hf2 in Hb.
  destruct (b && negb _) eqn:Ht; [done|]. destruct (Hk s2' a s1 Hf2 Hv2 Hb) as [? Hq'].
  split; [done|]. eapply quietly_bind; [exact Hq|]. intros ? <-.
  eapply quietly_bind; [apply quietly_exists|]. intros ? <-.
  assert (Ht' : b && negb (present F (config_file root n CFG_GENERAL CFG_TEMPLATE)) = false).
  { destruct b; [|done]. apply negb_false_iff in Ht. apply negb_false_iff. by apply templates. }
  by rewrite Ht'.
Qed.

Ltac steady_step :=
  cbv beta zeta;
  first
    [ apply steady_ret | apply steady_throw | apply steady_at
    | apply (steady_prints _ tt); auto with node; fail
    | apply (steady_template _ true); try (intros ?)
    | apply steady_template; try (intros ?)
    | apply steady_bind; [|intros ?]
    | lazymatch goal with |- steady (match ?x with _ => _ end) => destruct x end ].

Lemma steady_registry name create t : registry name = Some create → steady (create t).
Proof using V_root templates.
  unfold registry. intros Hr. repeat case_match; simplify_eq;
    unfold new_network, new_config, new_var, new_if, new_fromtemplate, new_net_list, new_service;
    repeat steady_step.
Qed.

Lemma steady_parse_line line i flags : steady (parse_line_to_cmd line i flags).
Proof using V_root templates.
  unfold parse_line_to_cmd, build. apply steady_bind; [|intros [c|]; repeat steady_step].
  cbv zeta. apply steady_bind; [apply steady_at|]. intros name.
  destruct (registry name) as [create|] eqn:Hr; [|apply steady_ret].
  apply steady_bind; [by eapply steady_registry|]. intros c. apply steady_ret.
Qed.

Lemma steady_parse_lines ls i flags : steady (parse_lines ls i flags).
Proof using V_root templates.
  revert i; induction ls as [|l ls IH]; intros i; cbn [parse_lines]; [apply steady_ret|].
  destruct (is_empty _); [done|]. apply steady_bind; [apply steady_parse_line|]. intros c.
  apply steady_bind; [done|]. intros cs. apply steady_ret.
Qed.

Lemma steady_parse_setup_file p flags : node_at F p = node_at F0 p → steady (parse_setup_file p flags).
Proof using V_root templates.
  intros Hp. unfold parse_setup_file. apply steady_bind; [by apply steady_read_lines|]. intros ls.
  apply steady_bind; [apply (steady_prints _ tt); auto with node|]. intros _. apply steady_parse_lines.
Qed.
End Steady.

(** ** Setting up again *)
Section Init.
Context {H : Host} (flags : Z).
Hypothesis writable : ∀ p, may_write p = true.
Hypothesis real_run : flag flags F_DRYRUN = false.

Lemma run_keeps_present cmds s b s' k :
  Forall wf_command cmds → forallb repeatable cmds = true → ready s →
  run_commands cmds flags s = Value b s' → is_Some (files s !! k) → is_Some (files s' !! k).
Proof using writable real_run.
  intros Hw Hr Hs Hrun. unfold run_commands in Hrun.
  apply bind_Value in Hrun as ([] & s1 & Hran%run_loop_ran & [= _ <-]).
  apply (ran_keeps flags writable real_run (λ f, is_Some (f !! k)) _ _ _ _ Hran Hw Hr (Forall_nil_2 _) Hs).
  intros d f f' _. apply effect_present.
Qed.

(** Files that are no configurations stay. *)
Lemma cfg_at_last root n k :
  kept_in k → str_last (cfg_at root n k) = Some "g"%char ∨ str_last (cfg_at root n k) = Some "s"%char.
Proof.
  intros Hk. destruct (decide (n = "cellframe-node")) as [->|Hn].
  - left. rewrite cfg_at_node, below_node by done. by rewrite str_last_app by (by eexists).
  - unfold cfg_at. destruct Hk as [-> | ->]; [left; rewrite config_file_on by done|
      right; rewrite config_file_off by done]; by rewrite str_last_app by (by eexists).
Qed.

Lemma run_keeps_file cmds s b s' k x :
  Forall wf_command cmds → forallb repeatable cmds = true → ready s →
  run_commands cmds flags s = Value b s' →
  str_last k ≠ Some "g"%char → str_last k ≠ Some "s"%char →
  files s !! k = Some x → files s' !! k = Some x.
Proof using writable real_run.
  intros Hw Hr Hs Hrun Hg Hc. unfold run_commands in Hrun.
  apply bind_Value in Hrun as ([] & s1 & Hran%run_loop_ran & [= _ <-]).
  apply (ran_keeps flags writable real_run (λ f, f !! k = Some x) _ _ _ _ Hran Hw Hr (Forall_nil_2 _) Hs).
  intros d f f' _ [|p t Hp _|n val t cfg cfg' l s2 s3 _ _ _ _ _ _] Hk; [done|..]; rewrite lookup_insert_ne; try done.
  - intros ->. congruence.
  - intros <-. destruct (target_at_kept (root_of s) f (cfg_name n)) as (kk & Hkk & Heq). rewrite Heq in *.
    destruct (cfg_at_last (root_of s) (cfg_name n) kk Hkk); congruence.
Qed.

Lemma init_configs_split file s :
  init_configs file flags s =
    if is_empty file then (say ("No setup file provided for init procedure, see --help" +:+ NL);; mret (-1)%Z) s
    else if negb (present (files s) file)
    then (say ("Setup file " +:+ file +:+ " not found" +:+ NL);; mret (-1)%Z) s
    else (commands ← parse_setup_file file flags; run_commands commands flags;; mret 0%Z)
           (set_console (console (touch CONFIGS s) ++ ["Cellframe-node configs install path: " +:+ root_of s +:+ NL])
              (touch CONFIGS s)).
Proof.
  unfold init_configs. destruct (is_empty file); [done|]. unfold mbind at 1, M_bind at 1.
  change (fs_exists file s) with (Value (present (files s) file) s). by destruct (present (files s) file).
Qed.

(** [parses file cmds s]: the script holds [cmds], in the files of [s] and in any that
    hold at least those names. *)
Definition parses (file : string) (cmds : list command) (s : st) : Prop :=
  ∀ F, (∀ k, is_Some (files s !! k) → is_Some (F !! k)) → node_at F file = node_at (files s) file →
    quietly F (variable_storage s) (parse_setup_file file flags) (eq cmds).

Lemma init_runs file cmds s s' :
  ready s → parses file cmds s → init_configs file flags s = Value 0%Z s' →
  is_empty file = false ∧ present (files s) file = true ∧
  ∃ s2 b, files s2 = files s ∧ variable_storage s2 = variable_storage s ∧
          run_commands cmds flags s2 = Value b s'.
Proof.
  intros Hs Hparse Hinit. rewrite init_configs_split in Hinit. destruct (is_empty file); [done|].
  destruct (present (files s) file); [|done]. cbn [negb] in Hinit. split; [done|]. split; [done|].
  replace (touch CONFIGS s) with s in Hinit by (unfold touch; by rewrite ready_root).
  apply bind_Value in Hinit as (cmds' & s2 & Hp & Hrun). set (v := set_console _ s) in Hp.
  destruct (Hparse (files s) (λ _ x, x) eq_refl v eq_refl eq_refl) as (? & s2' & Hp' & <- & Hf & Hv).
  rewrite Hp' in Hp. injection Hp as <- <-. apply bind_Value in Hrun as (b & s3 & Hrun & [= <-]). eauto 6.
Qed.

Lemma init_again file cmds s s' u :
  ready s → parses file cmds s → Forall wf_command cmds → forallb repeatable cmds = true →
  forced_last cmds = true → init_configs file flags s = Value 0%Z s' →
  node_at (files s') file = node_at (files s) file →
  forallb (filled (root_of s) (files s')) cmds = true →
  variable_storage u = variable_storage s → files u = files s' →
  ∃ u', init_configs file flags u = Value 0%Z u' ∧ files u' = files s'.
Proof using writable real_run.
  intros Hs Hparse Hw Hr Hl Hinit Hfile Hfill Hu Hf.
  destruct (init_runs file cmds s s' Hs Hparse Hinit) as (He & Hp & s2 & b & Hf2 & Hv2 & Hrun).
  assert (Hs2 : ready s2) by (by eapply ready_vars).
  assert (Hpres : ∀ k, is_Some (files s !! k) → is_Some (files s' !! k)).
  { intros k. rewrite <- Hf2. by apply (run_keeps_present cmds s2 b s' k Hw Hr). }
  rewrite init_configs_split, He, Hf. unfold present in *. rewrite Hfile, Hp. cbn [negb].
  replace (touch CONFIGS u) with u by (unfold touch; by rewrite Hu, ready_root). set (w := set_console _ u).
  destruct (Hparse (files s') Hpres Hfile w Hf Hu) as (? & w2 & Hw2 & <- & Hfw & Hvw).
  destruct (script_repeatable flags writable real_run cmds s2 b s' w2) as (u' & Hrun' & Hf');
    [done..|by rewrite (root_of_vars _ _ Hv2)|congruence|done|].
  exists u'. split; [|done]. unfold mbind, M_bind. by rewrite Hw2, Hrun'.
Qed.

Lemma parses_from F0 file cmds s s1 vars :
  ready s → variable_storage s = vars → parse_setup_file file flags (St vars F0 [] []) = Value cmds s1 →
  (∀ k, is_Some (F0 !! k) → is_Some (files s !! k)) → node_at (files s) file = node_at F0 file →
  parses file cmds s.
Proof.
  intros Hs Hv Hp Hk Hn F HF Hnode.
  eapply (steady_parse_setup_file F0 F _ _ (ready_root s Hs)) with (s := St vars F0 [] []);
    [|by rewrite Hnode|done|done|done].
  intros n. rewrite !present_cfg_at. auto.
Qed.

(** C15 (init_establishes): a set-up that succeeds establishes what its script asks
    for.  For every command that is executed (the conditions and the variables as they
    are when it is its turn), at the end of the run: a network set up by [default] has
    an enabled or a disabled configuration, the node's configuration is there, a
    parameter with a default has a value, and a parameter that was forced by [ensure]
    reads as the value forced (its variables substituted, up to an equal sign or a
    comment).  Nothing a later command does undoes it.  Conditions: no dry run, a tree
    that may be written, the installation directory set and no newline in a variable;
    a script of the commands of [repeatable] (no [network ensure], no [service], names
    without slashes, [fromtemplate] only as [cellframe-node default]) in which no
    parameter that was forced is set again later; and no configuration that is a
    directory. *)
Theorem init_establishes file cmds s s1 s' :
  ready s → parse_setup_file file flags s = Value cmds s1 →
  forallb repeatable cmds = true → forced_last cmds = true →
  init_configs file flags s = Value 0%Z s' →
  forallb (on_file (root_of s) (files s')) cmds = true →
  Forall (λ x, established (root_of s) x.1 x.2 (files s')) (executed (variable_storage s) cmds []).
Proof using writable real_run.
  intros Hs Hparse Hr Hl Hinit Hof.
  assert (Hp : parses file cmds s).
  { intros F HF Hn. eapply (steady_parse_setup_file (files s) F _ _ (ready_root s Hs)); [|done..].
    intros n. rewrite !present_cfg_at. auto. }
  pose proof (wp_Value _ _ _ _ _ _ (wf_parse_setup_file file flags s) Hparse) as Hw.
  destruct (init_runs file cmds s s' Hs Hp Hinit) as (_ & _ & s2 & b & Hf2 & Hv2 & Hrun).
  unfold run_commands in Hrun. apply bind_Value in Hrun as ([] & s3 & Hran%run_loop_ran & [= _ <-]).
  pose proof (ran_established flags writable real_run _ _ _ _ Hran Hw Hr Hl (Forall_nil_2 _)
                (ready_vars _ _ Hv2 Hs)) as Hm.
  rewrite Hv2, (root_of_vars _ _ Hv2) in Hm. eapply Forall_impl; [exact Hm|]. intros x [Hin Hx].
  apply forallb_Forall in Hr, Hof. rewrite Forall_forall in Hr, Hof. by apply made_established; auto.
Qed.

(** C10 (init_repeatable): a set-up that succeeded can be repeated, as installers do at
    every upgrade: [init_configs], started in a new process with the same variables on
    the tree the first run left, succeeds again and leaves every file, byte for byte,
    as it is.  Conditions: no dry run, a tree that may be written, the installation
    directory set and no newline in a variable; the script may set defaults and force
    values, set up networks by [network default] and the node's own configuration by
    [fromtemplate cellframe-node default], check networks, set variables other than the
    installation directory, test conditions and list networks, with names without
    slashes ([network ensure], other uses of [fromtemplate] and [service] are not
    covered); no value that was forced is set again behind it; the first run did not
    change the file of the script and left no placeholder where the script has a
    default. *)
Theorem init_repeatable file cmds s s1 s' u :
  ready s → parse_setup_file file flags s = Value cmds s1 →
  forallb repeatable cmds = true → forced_last cmds = true →
  init_configs file flags s = Value 0%Z s' →
  node_at (files s') file = node_at (files s) file →
  forallb (filled (root_of s) (files s')) cmds = true →
  variable_storage u = variable_storage s → files u = files s' →
  ∃ u', init_configs file flags u = Value 0%Z u' ∧ files u' = files s'.
Proof using writable real_run.
  intros Hs Hparse Hr Hl. eapply init_again; try done.
  - intros F HF Hn. eapply (steady_parse_setup_file (files s) F _ _ (ready_root s Hs)); [|done..].
    intros n. rewrite !present_cfg_at. auto.
  - exact (wp_Value _ _ _ _ _ _ (wf_parse_setup_file file flags s) Hparse).
Qed.
End Init.

(** ** The shipped script, on every tree *)
Definition install_vars (h : Host) : gmap string string :=
  match populate_variables (H:=linux_box h) "" (St ∅ ∅ [] []) with
  | Value _ s => variable_storage s
  | _ => ∅
  end.

Lemma install_init h f :
  install h f = init_configs (H:=linux_box h) setup_path 0 (St (install_vars h) f [] []).
Proof. reflexivity. Qed.

Definition shipped_parsed (h : Host) : outcome (list command) :=
  parse_setup_file setup_path 0 (St (install_vars h) shipped [] []).

Definition commands_of (o : outcome (list command)) : list command :=
  match o with Value cmds _ => cmds | _ => [] end.

Definition shipped_commands (h : Host) : list command := commands_of (shipped_parsed h).

Definition sound_script (cmds : list command) : bool := forallb repeatable cmds && forced_last cmds.

Definition parsed_sound (o : outcome (list command)) : bool :=
  match o with Value cmds _ => sound_script cmds | _ => false end.

Lemma parsed_sound_commands o :
  parsed_sound o = true → ∃ s1, o = Value (commands_of o) s1 ∧ sound_script (commands_of o) = true.
Proof. destruct o as [cmds s1| | |]; [by exists s1|discriminate..]. Qed.

Lemma shipped_sound h : parsed_sound (shipped_parsed h) = true.
Proof. vm_compute. reflexivity. Qed.

#[local] Opaque shipped_parsed commands_of sound_script.

Lemma shipped_parse h :
  ∃ s1, shipped_parsed h = Value (shipped_commands h) s1 ∧ sound_script (shipped_commands h) = true.
Proof. exact (parsed_sound_commands _ (shipped_sound h)). Qed.

#[local] Transparent shipped_parsed commands_of sound_script.

Lemma install_ready h f : lacks "010" (getHostName (H:=linux_box h)) = true → ready (St (install_vars h) f [] []).
Proof.
  intros Hn. split; [by exists node_root|]. unfold install_vars. cbn.
  repeat (apply map_Forall_insert_2; [done|]). apply map_Forall_empty.
Qed.

Lemma setup_node f : node_at f setup_path = f !! setup_path.
Proof. reflexivity. Qed.

Lemma setup_shipped : is_Some (shipped !! setup_path).
Proof. by eexists. Qed.

Lemma setup_last : str_last setup_path = Some "p"%char.
Proof. reflexivity. Qed.

#[local] Opaque setup_path shipped shipped_commands install_vars default_setup.

Lemma shipped_parses h f :
  ready (St (install_vars h) f [] []) → (∀ k, is_Some (shipped !! k) → is_Some (f !! k)) →
  f !! setup_path = shipped !! setup_path →
  parses 0 setup_path (shipped_commands h) (St (install_vars h) f [] []).
Proof.
  intros Hs Hk Hscript. destruct (shipped_parse h) as (s1 & Hp & _). unfold shipped_parsed in Hp.
  apply (parses_from 0 shipped _ _ _ s1 (install_vars h) Hs eq_refl Hp Hk).
  rewrite !setup_node. exact Hscript.
Qed.

(** C16 (shipped_setup_repeatable): the shipped [default.setup] can be run at every
    upgrade, on any Linux host that may write and whatever the user made of the tree:
    when an installation on a tree that holds the shipped files succeeded, and left no
    placeholder where the script has a default, installing again succeeds and changes
    no file. *)
Theorem shipped_setup_repeatable h f s' :
  lacks "010" (getHostName (H:=linux_box h)) = true →
  (∀ k, is_Some (shipped !! k) → is_Some (f !! k)) → f !! setup_path = shipped !! setup_path →
  install h f = Value 0%Z s' → forallb (filled node_root (files s')) (shipped_commands h) = true →
  ∃ s'', install h (files s') = Value 0%Z s'' ∧ files s'' = files s'.
Proof.
  intros Hn Hk Hscript Hinst Hfill. rewrite install_init in *.
  pose proof (install_ready h f Hn) as Hs. pose proof (shipped_parses h f Hs Hk Hscript) as Hparse.
  destruct (shipped_parse h) as (s1 & Hp & Hok). apply andb_prop in Hok as [Hr Hl]. unfold shipped_parsed in Hp.
  pose proof (wp_Value _ _ _ _ _ _ (wf_parse_setup_file setup_path 0 _) Hp) as Hw.
  destruct (Hk setup_path) as [x Hx]; [apply setup_shipped|].
  assert (Hfile : files s' !! setup_path = Some x).
  { destruct (init_runs (H:=linux_box h) 0 _ _ _ s' Hs Hparse Hinst) as (_ & _ & s2 & b & Hf2 & Hv2 & Hrun).
    apply (run_keeps_file (H:=linux_box h) 0 (λ _, eq_refl) eq_refl _ s2 b s' _ x Hw Hr);
      [by eapply ready_vars|exact Hrun|by rewrite setup_last..|by rewrite Hf2]. }
  apply (init_again (H:=linux_box h) 0 (λ _, eq_refl) eq_refl _ _ _ s' _ Hs Hparse Hw Hr Hl Hinst);
    [by rewrite !setup_node, Hfile|exact Hfill|reflexivity|reflexivity].
Qed.
#[local] Transparent setup_path shipped shipped_commands install_vars default_setup.

(** ** Witnesses: a first installation, and an upgrade of a user's tree *)
Definition repeats_at (o : outcome Z) (cmds : list command) : bool :=
  match o with
  | Value 0%Z s' =>
      bool_decide (node_at (files s') setup_path = node_at shipped setup_path)
      && negb (bool_decide (files s' = shipped)) && forallb (filled node_root (files s')) cmds
  | _ => false
  end.

Lemma repeats_at_inv o cmds :
  repeats_at o cmds = true →
  ∃ s', o = Value 0%Z s' ∧ node_at (files s') setup_path = node_at shipped setup_path ∧
        files s' ≠ shipped ∧ forallb (filled node_root (files s')) cmds = true.
Proof.
  unfold repeats_at. destruct o as [[| |] s'| | |]; try discriminate.
  intros [[Hn Hf]%andb_prop Hc]%andb_prop. apply bool_decide_eq_true in Hn.
  apply negb_true_iff, bool_decide_eq_false in Hf. eauto 6.
Qed.

Definition establishes_at (o : outcome Z) (cmds : list command) : bool :=
  match o with Value 0%Z s' => forallb (on_file node_root (files s')) cmds | _ => false end.

Lemma establishes_at_inv o cmds :
  establishes_at o cmds = true →
  ∃ s', o = Value 0%Z s' ∧ forallb (on_file node_root (files s')) cmds = true.
Proof. unfold establishes_at. destruct o as [[| |] s'| | |]; try discriminate. eauto. Qed.

Definition fresh_commands : list command := commands_of (parse_setup_file setup_path 0 fresh_state).

Lemma fresh_run :
  parsed_sound (parse_setup_file setup_path 0 fresh_state)
  && repeats_at (init_configs (H:=linux_box demo_host) setup_path 0 fresh_state) fresh_commands = true.
Proof. vm_compute. reflexivity. Qed.

Lemma fresh_established :
  parsed_sound (parse_setup_file setup_path 0 fresh_state)
  && establishes_at (init_configs (H:=linux_box demo_host) setup_path 0 fresh_state) fresh_commands
  && (30 <? length (executed fresh_vars fresh_commands []))%nat = true.
Proof. vm_compute. reflexivity. Qed.

Lemma fresh_ready : ready fresh_state.
Proof.
  split; [exists node_root; vm_compute; reflexivity|].
  apply (bool_decide_unpack (map_Forall (λ _ v, lacks "010" v = true) fresh_vars)). vm_compute. exact I.
Qed.

#[local] Opaque setup_path shipped fresh_state fresh_commands parse_setup_file init_configs node_root.

Lemma init_establishes_witness :
  ∃ s', init_configs (H:=linux_box demo_host) setup_path 0 fresh_state = Value 0%Z s' ∧
    (30 < length (executed fresh_vars fresh_commands []))%nat ∧
    Forall (λ x, established (root_of fresh_state) x.1 x.2 (files s'))
      (executed (variable_storage fresh_state) fresh_commands []).
Proof.
  destruct (andb_prop _ _ fresh_established) as [Hpi Hlen]. destruct (andb_prop _ _ Hpi) as [Hp Hi].
  destruct (parsed_sound_commands _ Hp) as (s1 & Hparse & Hok). destruct (andb_prop _ _ Hok) as [Hr Hl].
  destruct (establishes_at_inv _ _ Hi) as (s' & Hrun & Hof).
  exists s'. split; [exact Hrun|]. split; [apply Nat.ltb_lt, Hlen|].
  exact (init_establishes (H:=linux_box demo_host) 0 (λ _, eq_refl) eq_refl setup_path fresh_commands
           fresh_state s1 s' fresh_ready Hparse Hr Hl Hrun Hof).
Defined.

Lemma init_repeatable_witness :
  ∃ s' u', init_configs (H:=linux_box demo_host) setup_path 0 fresh_state = Value 0%Z s' ∧
    files s' ≠ shipped ∧
    init_configs (H:=linux_box demo_host) setup_path 0 (set_files (files s') fresh_state) = Value 0%Z u' ∧
    files u' = files s'.
Proof.
  destruct (andb_prop _ _ fresh_run) as [Hp Hi].
  destruct (parsed_sound_commands _ Hp) as (s1 & Hparse & Hok). destruct (andb_prop _ _ Hok) as [Hr Hl].
  destruct (repeats_at_inv _ _ Hi) as (s' & Hrun & Hn & Hne & Hfill).
  destruct (init_repeatable (H:=linux_box demo_host) 0 (λ _, eq_refl) eq_refl setup_path fresh_commands
              fresh_state s1 s' (set_files (files s') fresh_state) fresh_ready Hparse Hr Hl Hrun Hn Hfill
              eq_refl eq_refl) as (u' & Hu & Hf).
  exists s', u'. split; [exact Hrun|]. split; [exact Hne|]. split; [exact Hu|exact Hf].
Defined.

Lemma users_run : repeats_at (install demo_host users_tree) (shipped_commands demo_host) = true.
Proof. vm_compute. reflexivity. Qed.

Lemma users_files k : is_Some (shipped !! k) → is_Some (users_tree !! k).
Proof.
  intros [x Hx]. revert k x Hx.
  apply (bool_decide_unpack (map_Forall (λ k _, is_Some (users_tree !! k)) shipped)). vm_compute. exact I.
Qed.

Lemma users_script : users_tree !! setup_path = shipped !! setup_path.
Proof. vm_compute. reflexivity. Qed.

Lemma shipped_setup_repeatable_witness :
  ∃ s' s'', install demo_host users_tree = Value 0%Z s' ∧
    install demo_host (files s') = Value 0%Z s'' ∧ files s'' = files s'.
Proof.
  destruct (repeats_at_inv _ _ users_run) as (s' & Hrun & _ & _ & Hfill).
  destruct (shipped_setup_repeatable demo_host users_tree s' eq_refl users_files users_script Hrun Hfill)
    as (s'' & Hs & Hf).
  exists s', s''. split; [exact Hrun|]. split; [exact Hs|exact Hf].
Defined.
