(* ===== verification/Jni.v ===== *)
(** * The Android service: sources/android/node_jni.cpp

    The native side of [NodeService]: the listeners that are told of the node's
    notifications, the node's [main] run inside the service, the configuration
    tool, and the command-line client.  The Java virtual machine and the client
    ([dap_cli_exec]) are parameters. *)
From S2P Require Import CLib.
From S2P Require Export ConfRun.

(** ** The virtual machine

    A weak global reference and a method are numbers.  [get_env] and [attach] are
    the results of [GetEnv] and [AttachCurrentThread]; [onNotify_of] is
    [GetMethodID] of ["onNotify"] in the class of a listener ([None]: NULL);
    [exception_after] tells whether an exception is pending after the calls made
    (a listener may throw), [collected] whether the object of a weak reference is
    gone by then.  Calling a method while an exception is pending, or on an object
    that was collected, is undefined. *)
Definition JNI_OK : Z := 0.
Definition JNI_EDETACHED : Z := -2.
Definition JNI_EVERSION : Z := -3.

Inductive jcall :=
  | NewWeakGlobalRef (listener ref : nat)
  | DeleteWeakGlobalRef (ref : nat)
  | CallVoidMethod (ref method : nat) (message : string)
  | ExceptionDescribe
  | AttachCurrentThread
  | DetachCurrentThread
  | set_global_sys_dir (dir : string)
  | dap_notify_data_set_user_callback
  | android_log (text : string).

Class Jvm := {
  get_env : Z;
  attach : Z;
  onNotify_of : nat → option nat;
  exception_after : list jcall → bool;
  collected : list jcall → nat → bool
}.

(** The bytes of a Java string; none for a null reference. *)
Definition jstring2string (jStr : cstr) : string := default "" jStr.

(** ** State: the globals of node_jni.cpp *)
Record NotifyListenerStore := { store_Wlistener : nat; store_method : option nat }.

Record jst := JSt {
  jvm_known : bool;
  listeners_vector : list NotifyListenerStore;
  next_ref : nat;
  calls : list jcall
}.

Definition J (A : Type) := jst → option (A * jst).

#[export] Instance J_ret : MRet J := λ A a s, Some (a, s).
#[export] Instance J_bind : MBind J := λ A B k m s,
  match m s with Some (a, s') => k a s' | None => None end.
#[export] Instance J_fmap : FMap J := λ A B f m, m ≫= (λ a, mret (f a)).

Definition jcalls (c : jcall) : J unit := λ s,
  Some (tt, JSt (jvm_known s) (listeners_vector s) (next_ref s) (calls s ++ [c])).

(** Undefined behaviour: a NULL environment or method is used, or a method is
    called when the virtual machine does not allow it. *)
Definition jundef {A} : J A := λ _, None.

Section Listeners.
Context {V : Jvm}.

Definition setNotifyListenerNativeCallback (listener : nat) : J unit := λ s,
  let ref := next_ref s in
  Some (tt, JSt true
              (listeners_vector s ++ [{| store_Wlistener := ref; store_method := onNotify_of listener |}])
              (S ref)
              (calls s ++ [NewWeakGlobalRef listener ref;
                           android_log (" Subscribe to Listener  OK " +:+ NL)])).

Definition clearNotifyListenerNativeCallbacks : J unit := λ s,
  Some (tt, JSt (jvm_known s) [] (next_ref s)
              (calls s ++ ((λ i, DeleteWeakGlobalRef (store_Wlistener i)) <$> listeners_vector s))).

(** The method of a listener that can be called now: it is not NULL, no exception
    is pending and the listener was not collected. *)
Definition callable (i : NotifyListenerStore) (s : jst) : option nat :=
  if exception_after (calls s) || collected (calls s) (store_Wlistener i) then None else store_method i.

(** [env->CallVoidMethod(i->store_Wlistener, i->store_method, message_)]; the
    source makes none of the three tests. *)
Definition call_listener (i : NotifyListenerStore) (message : string) : J unit := λ s,
  match callable i s with
  | Some m => jcalls (CallVoidMethod (store_Wlistener i) m message) s
  | None => jundef s
  end.

Fixpoint call_listeners (ls : list NotifyListenerStore) (message : string) : J unit :=
  match ls with
  | [] => mret tt
  | i :: ls' => call_listener i message;; call_listeners ls' message
  end.

Definition callOnNotify (message : string) : J unit := λ s,
  call_listeners (listeners_vector s) message s.

(** Whether [g_env] is set: it is NULL unless [GetEnv] found the environment or
    the thread could be attached.  [None]: no virtual machine was stored. *)
Definition notify_env (data : string) : J (option bool) :=
  jcalls (android_log data);;
  jcalls (android_log (" start Callback  to JNL [" +:+ data +:+ "]  " +:+ NL));;
  known ← (λ s, Some (jvm_known s, s));
  if negb known then jcalls (android_log ("  No VM  " +:+ NL));; mret None
  else
    Some <$>
      (if get_env =z? JNI_EDETACHED then
         jcalls AttachCurrentThread;;
         if negb (attach =z? 0)
         then jcalls (android_log " Failed to attach");; mret false
         else mret true
       else if get_env =z? JNI_OK then jcalls (android_log " JNI_OK");; mret true
       else if get_env =z? JNI_EVERSION
       then jcalls (android_log " version not supported");; mret false
       else mret false).

Definition notify_end : J unit :=
  pending ← (λ s, Some (exception_after (calls s), s));
  (if (pending : bool) then jcalls ExceptionDescribe else mret tt);;
  if get_env =z? JNI_EDETACHED then jcalls DetachCurrentThread else mret tt.

(** [g_env] is used even when it is NULL. *)
Definition notifycallback (data : string) : J bool :=
  env ← notify_env data;
  match env with
  | None => mret false
  | Some false => jundef
  | Some true => callOnNotify data;; notify_end;; mret true
  end.

(** [nodeMainNative]: [node_main] is the node's [main], without arguments, under
    the system directory. *)
Definition nodeMainNative (node_main : string → Z) (system_dir : cstr) : J Z :=
  let dir := jstring2string system_dir in
  jcalls (set_global_sys_dir dir);;
  jcalls dap_notify_data_set_user_callback;;
  let res := node_main dir in
  clearNotifyListenerNativeCallbacks;;
  mret res.

End Listeners.

(** ** The configuration tool *)
Section Configure.
Context {H : Host}.

(** [catch (std::exception e)]: the copy is sliced, its text is that of
    [std::exception]. *)
Definition catching (m : M Z) : M Z := λ s,
  match m s with
  | Thrown _ s' => (say "Error in configuration init: std::exception";; mret (-1)%Z) s'
  | o => o
  end.

Definition initConfigs (base_path setup_file_path : cstr) : M Z :=
  catching (populate_variables (jstring2string base_path);;
            init_configs (jstring2string setup_file_path) 0).

(** The boolean of [run_commands] is returned as a [jint]. *)
Definition configure (base_path config_command : cstr) : M Z :=
  catching
    (populate_variables (jstring2string base_path);;
     cmd ← parse_line_to_cmd (jstring2string config_command) 0 0;
     done_ ← run_commands [cmd] 0;
     mret (if (done_ : bool) then 1%Z else 0%Z)).

End Configure.

(** ** The command-line client

    [dap_cli_exec argc argv] with a vector that ends in NULL; a NULL answer is
    dereferenced by [strlen]. *)
Section Cli.
Context (dap_cli_exec : nat → list cstr → cstr).

Definition exec_cli (args : list cstr) : option string := dap_cli_exec (length args) args.

Definition clicommandArgs (stringArray : list string) : option string :=
  exec_cli ((Some <$> stringArray) ++ [None]).

(** [while (iss >> token)]: the words of the text. *)
Fixpoint read_words (word s : string) : list string :=
  match s with
  | "" => if is_empty word then [] else [word]
  | String c s' =>
      if is_space c
      then if is_empty word then read_words "" s' else word :: read_words "" s'
      else read_words (word +:+ String c "") s'
  end.

Definition clicommandString (cmd : cstr) : option string :=
  exec_cli ((Some <$> read_words "" (jstring2string cmd)) ++ [None]).

(** *** The words of a command *)
Lemma pieces_blanks_skip s :
  filter (λ t, t ≠ "") (pieces re_blanks (re_blanks s) s) = tokenize s re_blanks.
Proof.
  unfold tokenize. destruct s as [|c s]; [done|]. cbn [re_blanks pieces].
  destruct (is_space c) eqn:Hc; [|done]. by rewrite filter_cons_False by auto.
Qed.

Definition on_head (w : string) (ps : list string) : list string :=
  match ps with
  | [] => [w]
  | p :: ps' => (w +:+ p) :: ps'
  end.

Lemma read_words_pieces w s :
  read_words w s = filter (λ t, t ≠ "") (on_head w (pieces re_blanks 0 s)).
Proof.
  revert w; induction s as [|c s IH]; intros w; cbn [read_words pieces re_blanks].
  - cbn [on_head]. rewrite string_app_nil_r. destruct w; [done|]. by rewrite filter_cons_True.
  - destruct (is_space c) eqn:Hc; cbn [on_head].
    + rewrite string_app_nil_r.
      assert (Ht : read_words "" s = filter (λ t, t ≠ "") (pieces re_blanks (re_blanks s) s)).
      { rewrite IH, pieces_blanks_skip. unfold tokenize. by destruct (pieces re_blanks 0 s). }
      destruct w; simpl; [rewrite filter_cons_False by auto; done|].
      by rewrite filter_cons_True, Ht.
    + rewrite IH. destruct (pieces re_blanks 0 s); cbn [push on_head]; rewrite ?string_app_nil_r;
        [done|]. by rewrite <- string_app_assoc.
Qed.

(** A command given to the client as one text reaches
    it as the same arguments the configuration tool would split it into, ended by
    a NULL that the argument count includes. *)
Theorem clicommandString_args cmd :
  clicommandString (Some cmd) =
    dap_cli_exec (S (length (tokenize cmd re_blanks)))
                 ((Some <$> tokenize cmd re_blanks) ++ [None]).
Proof.
  unfold clicommandString, exec_cli, jstring2string. simpl.
  replace (read_words "" cmd) with (tokenize cmd re_blanks).
  - rewrite length_app, length_fmap. simpl. by rewrite Nat.add_1_r.
  - rewrite read_words_pieces. unfold tokenize. by destruct (pieces re_blanks 0 cmd).
Qed.

End Cli.

(** ** The life of the listeners *)
Inductive jstep {V : Jvm} : jst → jst → Prop :=
  | step_set l s s' : setNotifyListenerNativeCallback l s = Some (tt, s') → jstep s s'
  | step_clear s s' : clearNotifyListenerNativeCallbacks s = Some (tt, s') → jstep s s'
  | step_notify data b s s' : notifycallback data s = Some (b, s') → jstep s s'
  | step_main f dir z s s' : nodeMainNative f dir s = Some (z, s') → jstep s s'.

Definition jinit : jst := JSt false [] 0 [].

(** The references that are alive after some calls; [None] when a dead one was
    used or deleted. *)
Definition live_call (live : gset nat) (c : jcall) : option (gset nat) :=
  match c with
  | NewWeakGlobalRef _ r => Some ({[r]} ∪ live)
  | DeleteWeakGlobalRef r => if decide (r ∈ live) then Some (live ∖ {[r]}) else None
  | CallVoidMethod r _ _ => if decide (r ∈ live) then Some live else None
  | _ => Some live
  end.

Fixpoint live_refs (live : gset nat) (l : list jcall) : option (gset nat) :=
  match l with
  | [] => Some live
  | c :: l' => live' ← live_call live c; live_refs live' l'
  end.

Definition refs (ls : list NotifyListenerStore) : list nat := store_Wlistener <$> ls.

Definition jinv (s : jst) : Prop :=
  live_refs ∅ (calls s) = Some (list_to_set (refs (listeners_vector s))) ∧
  NoDup (refs (listeners_vector s)) ∧ Forall (λ r, r < next_ref s)%nat (refs (listeners_vector s)).

Lemma live_refs_app live l l' :
  live_refs live (l ++ l') = live_refs live l ≫= (λ live', live_refs live' l').
Proof.
  revert live; induction l as [|c l IH]; intros live; [done|]. simpl.
  by destruct (live_call live c); simpl.
Qed.

(** Calls that need no reference, or one of a listener. *)
Definition harmless (X : gset nat) (c : jcall) : Prop := live_call X c = Some X.

Lemma live_refs_harmless X l : Forall (harmless X) l → live_refs X l = Some X.
Proof. induction 1 as [|c l Hc _ IH]; [done|]. simpl. by rewrite Hc. Qed.

(** [m] leaves the listeners alone and makes calls that satisfy [P]. *)
Section Behaves.
Context (P : list NotifyListenerStore → jcall → Prop).

Definition behaves {A} (m : J A) : Prop :=
  ∀ s a s', m s = Some (a, s') →
    listeners_vector s' = listeners_vector s ∧ next_ref s' = next_ref s ∧
    ∃ l, calls s' = calls s ++ l ∧ Forall (P (listeners_vector s)) l.

Lemma behaves_ret {A} (a : A) : behaves (mret a).
Proof. intros s b s' [= <- <-]. split_and!; [done..|]. exists []. by rewrite app_nil_r. Qed.

Lemma behaves_read {A} (f : jst → A) : behaves (λ s, Some (f s, s)).
Proof. intros s b s' [= <- <-]. split_and!; [done..|]. exists []. by rewrite app_nil_r. Qed.

Lemma behaves_undef {A} : behaves (jundef (A:=A)).
Proof. by intros s a s'. Qed.

Lemma behaves_bind {A B} (m : J A) (k : A → J B) : behaves m → (∀ a, behaves (k a)) → behaves (m ≫= k).
Proof.
  intros Hm Hk s b s'. unfold mbind, J_bind. destruct (m s) as [[a s1]|] eqn:Hs; [|done].
  intros Hks. destruct (Hm _ _ _ Hs) as (Hl & Hn & l & Hc & Hf).
  destruct (Hk a _ _ _ Hks) as (Hl' & Hn' & l' & Hc' & Hf').
  split_and!; [congruence..|]. exists (l ++ l'). rewrite Hc', Hc, app_assoc. split; [done|].
  rewrite Hl in Hf'. by apply Forall_app.
Qed.

Lemma behaves_calls c : (∀ ls, P ls c) → behaves (jcalls c).
Proof. intros Hc s a s' [= <- <-]. split_and!; [done..|]. exists [c]. by repeat constructor. Qed.

End Behaves.

Lemma behaves_mono {A} (P Q : list NotifyListenerStore → jcall → Prop) (m : J A) :
  (∀ ls c, P ls c → Q ls c) → behaves P m → behaves Q m.
Proof.
  intros HPQ Hm s a s' Hs. destruct (Hm _ _ _ Hs) as (Hl & Hn & l & Hc & Hf).
  split_and!; [done..|]. exists l. split; [done|]. eapply Forall_impl; eauto.
Qed.

(** Calls that use no reference, and calls that use those of the listeners. *)
Abbreviation quiet m := (behaves (λ _ c, ∀ X, harmless X c) m).
Abbreviation gentle m := (behaves (λ ls, harmless (list_to_set (refs ls))) m).

Ltac behaves_steps :=
  repeat (cbv beta zeta;
    match goal with
    | |- behaves _ (_ ≫= _) => apply behaves_bind; [|intros ?]
    | |- behaves _ (mret _) => apply behaves_ret
    | |- behaves _ jundef => apply behaves_undef
    | |- behaves _ (jcalls _) => by apply behaves_calls
    | |- behaves _ (λ s, Some (_, s)) => apply behaves_read
    | |- behaves _ (_ <$> _) => apply behaves_bind; [|intros ?]
    | |- behaves _ (if ?b then _ else _) => destruct b
    | |- behaves _ (match ?x with _ => _ end) => destruct x
    end).

Lemma callable_method {V : Jvm} i s m : callable i s = Some m → store_method i = Some m.
Proof. unfold callable. by destruct (_ || _). Qed.

Lemma call_listeners_calls {V : Jvm} ls data a s s' :
  call_listeners ls data s = Some (a, s') →
  listeners_vector s' = listeners_vector s ∧ next_ref s' = next_ref s ∧
  ∃ l, calls s' = calls s ++ l ∧
       Forall2 (λ c i, ∃ m, store_method i = Some m ∧ c = CallVoidMethod (store_Wlistener i) m data) l ls.
Proof.
  revert s; induction ls as [|i ls IH]; intros s; cbn [call_listeners].
  - intros [= _ <-]. split_and!; [done..|]. exists []. by rewrite app_nil_r.
  - unfold mbind, J_bind, call_listener. destruct (callable i s) as [m|] eqn:Hm; [|done].
    apply callable_method in Hm. simpl. intros Hr.
    destruct (IH _ Hr) as (Hl & Hn & l & Hc & Hf). split_and!; [done..|].
    exists (CallVoidMethod (store_Wlistener i) m data :: l). simpl in *.
    rewrite Hc, <- app_assoc. split; [done|]. constructor; eauto.
Qed.

Lemma gentle_callOnNotify {V : Jvm} data : gentle (callOnNotify data).
Proof.
  intros s a s' Hs. destruct (call_listeners_calls _ _ _ _ _ Hs) as (Hl & Hn & l & Hc & Hf).
  split_and!; [done..|]. exists l. split; [done|]. clear -Hf.
  assert (Hin : ∀ X : gset nat, (∀ r, r ∈ refs (listeners_vector s) → r ∈ X) →
                Forall (harmless X) l).
  { induction Hf as [|c i l ls (m & _ & ->) _ IH]; intros X HX; [constructor|]. constructor.
    - unfold harmless. simpl. rewrite decide_True; [done|]. apply HX. left.
    - apply IH. intros r Hr. apply HX. by right. }
  apply Hin. intros r Hr. by apply elem_of_list_to_set.
Qed.

Section JniClaims.
Context {V : Jvm}.

Lemma quiet_notify_env data : quiet (notify_env data).
Proof. unfold notify_env. behaves_steps. Qed.

Lemma quiet_notify_end : quiet notify_end.
Proof. unfold notify_end. behaves_steps. Qed.

Lemma gentle_notifycallback data : gentle (notifycallback data).
Proof.
  assert (Hq : ∀ A (m : J A), quiet m → gentle m).
  { intros A m. apply behaves_mono. auto. }
  pose proof (Hq _ _ (quiet_notify_env data)). pose proof (Hq _ _ quiet_notify_end).
  unfold notifycallback. behaves_steps; auto using gentle_callOnNotify.
Qed.

Lemma gentle_jinv {A} (m : J A) s a s' : gentle m → m s = Some (a, s') → jinv s → jinv s'.
Proof.
  intros Hm Hs (Hlive & Hd & Hlt). destruct (Hm _ _ _ Hs) as (Hl & Hn & l & Hc & Hf).
  unfold jinv. rewrite Hl, Hn, Hc, live_refs_app, Hlive. simpl.
  split; [|done]. by apply live_refs_harmless.
Qed.

Lemma jinv_set l s s' : setNotifyListenerNativeCallback l s = Some (tt, s') → jinv s → jinv s'.
Proof.
  intros [= <-] (Hlive & Hd & Hlt). unfold jinv, refs in *. simpl.
  rewrite live_refs_app, Hlive, fmap_app. simpl. split_and!.
  - f_equal. rewrite list_to_set_app_L. set_solver.
  - apply NoDup_app. split; [done|]. split; [|apply NoDup_singleton].
    intros r Hr ->%list_elem_of_singleton. rewrite Forall_forall in Hlt. specialize (Hlt _ Hr). lia.
  - apply Forall_app. split; [|by repeat constructor].
    eapply Forall_impl; [exact Hlt|]. simpl. lia.
Qed.

Lemma live_refs_delete ls :
  NoDup (refs ls) →
  live_refs (list_to_set (refs ls)) ((λ i, DeleteWeakGlobalRef (store_Wlistener i)) <$> ls) = Some ∅.
Proof.
  induction ls as [|i ls IH]; [done|]. unfold refs in *. csimpl. intros [Hi Hd]%NoDup_cons.
  rewrite decide_True by set_solver. simpl.
  replace (({[store_Wlistener i]} ∪ list_to_set (store_Wlistener <$> ls)) ∖ {[store_Wlistener i]})
    with (list_to_set (C:=gset nat) (store_Wlistener <$> ls)); [by apply IH|]. set_solver.
Qed.

Lemma jinv_clear s s' : clearNotifyListenerNativeCallbacks s = Some (tt, s') → jinv s → jinv s'.
Proof.
  intros [= <-] (Hlive & Hd & Hlt). unfold jinv. simpl.
  rewrite live_refs_app, Hlive. simpl. rewrite live_refs_delete by done.
  split_and!; [done|constructor|constructor].
Qed.

Lemma jinv_main f dir z s s' : nodeMainNative f dir s = Some (z, s') → jinv s → jinv s'.
Proof.
  unfold nodeMainNative, mbind, J_bind. simpl. intros [= _ <-] Hs.
  eapply (jinv_clear (JSt (jvm_known s) (listeners_vector s) (next_ref s)
            ((calls s ++ [set_global_sys_dir (jstring2string dir)])
             ++ [dap_notify_data_set_user_callback]))); [reflexivity|].
  destruct Hs as (Hlive & Hd & Hlt). split; [|done]. simpl.
  by rewrite !live_refs_app, Hlive.
Qed.

(** In every state the service can reach by
    registering listeners, notifying them, clearing them and running the node, no
    weak reference was ever used or deleted after it had been deleted, and the
    references alive are exactly those of the registered listeners. *)
Theorem listener_references_live s :
  rtc jstep jinit s → live_refs ∅ (calls s) = Some (list_to_set (refs (listeners_vector s))).
Proof.
  assert (Hinit : jinv jinit) by (split_and!; [done|constructor|constructor]).
  intros Hs. assert (Hinv : jinv s); [|apply Hinv]. revert Hinit.
  induction Hs as [|s1 s2 s3 Hstep _ IH]; [done|]. intros Hi. apply IH.
  destruct Hstep; eauto using jinv_set, jinv_clear, gentle_jinv, gentle_notifycallback, jinv_main.
Qed.

(** The listeners told by some calls. *)
Definition told (c : jcall) : option (nat * string) :=
  match c with CallVoidMethod r _ msg => Some (r, msg) | _ => None end.

(** The calls that bind a thread to the virtual machine and release it. *)
Definition binds (c : jcall) : option jcall :=
  match c with AttachCurrentThread | DetachCurrentThread => Some c | _ => None end.

(** From [s] on no listener of [ls] throws and none is collected. *)
Definition undisturbed (ls : list NotifyListenerStore) (s : jst) : Prop :=
  ∀ l, exception_after (calls s ++ l) = false ∧
       Forall (λ i, collected (calls s ++ l) (store_Wlistener i) = false) ls.

Lemma undisturbed_later ls s s' l :
  undisturbed ls s → calls s' = calls s ++ l → undisturbed ls s'.
Proof. intros Hu Hc l'. rewrite Hc, <- app_assoc. apply Hu. Qed.

Lemma undisturbed_tail i ls s : undisturbed (i :: ls) s → undisturbed ls s.
Proof. intros Hu l. destruct (Hu l) as [He Hc]. by apply Forall_cons in Hc as [_ Hc]. Qed.

Lemma undisturbed_callable i ls s : undisturbed (i :: ls) s → callable i s = store_method i.
Proof.
  intros Hu. destruct (Hu []) as [He Hc]. rewrite app_nil_r in *. apply Forall_cons in Hc as [Hi _].
  unfold callable. by rewrite He, Hi.
Qed.

Lemma call_listeners_run ls data s :
  Forall (λ i, is_Some (store_method i)) ls → undisturbed ls s →
  ∃ l, call_listeners ls data s =
         Some (tt, JSt (jvm_known s) (listeners_vector s) (next_ref s) (calls s ++ l)) ∧
       omap told l = (λ i, (store_Wlistener i, data)) <$> ls ∧ omap binds l = [].
Proof.
  intros Hls. revert s; induction Hls as [|i ls [m Hm] _ IH]; intros s Hu.
  - exists []. rewrite app_nil_r. by destruct s.
  - cbn [call_listeners]. unfold mbind, J_bind, call_listener.
    rewrite (undisturbed_callable i ls), Hm by done. simpl.
    destruct (IH (JSt (jvm_known s) (listeners_vector s) (next_ref s)
                    (calls s ++ [CallVoidMethod (store_Wlistener i) m data]))) as (l & Hr & Ho & Hb).
    { eapply undisturbed_later; [by eapply undisturbed_tail|done]. }
    exists (CallVoidMethod (store_Wlistener i) m data :: l). split; [|by csimpl; rewrite Ho].
    rewrite Hr. simpl. by rewrite <- app_assoc.
Qed.

(** C37 (notify_tells_every_listener): once a virtual machine was stored, if the
    calling thread is attached to it or can be attached, every registered listener
    has its [onNotify], no listener throws during the notification and none was
    collected, a notification succeeds and tells every registered listener the
    message, once each and in the order of registration; a thread that was not
    attached is attached and detached again. *)
Theorem notify_tells_every_listener data s :
  jvm_known s = true → get_env = JNI_OK ∨ get_env = JNI_EDETACHED ∧ attach = 0%Z →
  Forall (λ i, is_Some (store_method i)) (listeners_vector s) → undisturbed (listeners_vector s) s →
  ∃ s', notifycallback data s = Some (true, s') ∧
        omap told (calls s') =
          omap told (calls s) ++ ((λ i, (store_Wlistener i, data)) <$> listeners_vector s) ∧
        omap binds (calls s') =
          omap binds (calls s) ++
          (if get_env =z? JNI_EDETACHED then [AttachCurrentThread; DetachCurrentThread] else []).
Proof.
  intros Hk He Hls Hu. unfold notifycallback, notify_env, notify_end, fmap, J_fmap, mbind, J_bind. simpl.
  rewrite Hk. destruct He as [->|[-> ->]]; simpl; unfold callOnNotify; simpl;
    match goal with |- context [call_listeners _ _ ?s0] =>
      destruct (call_listeners_run (listeners_vector s) data s0) as (l & Hr & Ho & Hb);
      [done|eapply undisturbed_later; [exact Hu|]; simpl; by rewrite <- ?app_assoc|]
    end;
    rewrite Hr; simpl; rewrite <- !app_assoc, (proj1 (Hu _)); simpl; eexists; (split; [reflexivity|]); simpl;
    rewrite !omap_app; csimpl; rewrite ?omap_app, Ho, Hb; csimpl; by rewrite ?app_nil_r, <- ?app_assoc.
Qed.

(** A listener that throws while another one is still to be told: the next call
    is made with the exception pending. *)
Theorem notify_after_throw i j ls data s m :
  callable i s = Some m →
  exception_after (calls s ++ [CallVoidMethod (store_Wlistener i) m data]) = true →
  call_listeners (i :: j :: ls) data s = None.
Proof.
  intros Hi He. cbn [call_listeners]. unfold mbind, J_bind, call_listener. rewrite Hi. simpl.
  unfold callable. simpl. by rewrite He.
Qed.

(** On Android, a call of [initConfigs] that returns returns 0 or -1, and no
    C++ exception leaves the native code. *)
Theorem android_config_total {H : Host} base name s :
  match initConfigs base name s with
  | Value z _ => z = 0%Z ∨ z = (-1)%Z
  | Thrown _ _ => False
  | Ub | Beyond => True
  end.
Proof.
  unfold initConfigs, catching.
  assert (Hw : wp (populate_variables (jstring2string base);; init_configs (jstring2string name) 0)
                  (λ z _, z = 0%Z ∨ z = (-1)%Z) (λ _ _, True) s).
  { apply wp_bind. unfold wp at 1. destruct (populate_variables _ s) as [u s1|e s1| |]; try done.
    unfold init_configs. destruct (is_empty _); [wp_steps; auto|].
    wp_steps; [by auto|]. unfold wp at 1. simpl. wp_steps.
    unfold wp at 1. destruct (parse_setup_file _ _ _) as [cs s2|e s2| |]; try done.
    wp_steps. unfold wp at 1. destruct (run_commands _ _ _) as [b s3|e s3| |]; try done.
    wp_steps. auto. }
  unfold wp in Hw. destruct ((populate_variables _;; init_configs _ 0) s); try done.
  simpl. auto.
Qed.

End JniClaims.

(** ** Witnesses *)
Definition demo_jvm : Jvm := {|
  get_env := JNI_OK;
  attach := 0;
  onNotify_of := λ _, Some 1%nat;
  exception_after := λ _, false;
  collected := λ _ _, false
|}.

(** A thread of the node, which has to be attached. *)
Definition native_jvm : Jvm := {|
  get_env := JNI_EDETACHED;
  attach := 0;
  onNotify_of := λ _, Some 1%nat;
  exception_after := λ _, false;
  collected := λ _ _, false
|}.

Definition two_listeners : jst :=
  JSt true [{| store_Wlistener := 0; store_method := Some 1%nat |};
            {| store_Wlistener := 1; store_method := Some 1%nat |}] 2
      [NewWeakGlobalRef 7 0; android_log (" Subscribe to Listener  OK " +:+ NL);
       NewWeakGlobalRef 8 1; android_log (" Subscribe to Listener  OK " +:+ NL)].

Lemma two_listeners_reached : rtc (jstep (V:=demo_jvm)) jinit two_listeners.
Proof.
  eapply rtc_l; [eapply (step_set (V:=demo_jvm) 7); reflexivity|].
  eapply rtc_l; [eapply (step_set (V:=demo_jvm) 8); reflexivity|].
  apply rtc_refl.
Qed.

Lemma listener_references_live_witness :
  live_refs ∅ (calls two_listeners) = Some (list_to_set (refs (listeners_vector two_listeners))).
Proof. exact (listener_references_live (V:=demo_jvm) two_listeners two_listeners_reached). Defined.

Lemma notify_tells_every_listener_witness :
  ∃ s', notifycallback (V:=native_jvm) "new block" two_listeners = Some (true, s') ∧
        omap told (calls s') =
          omap told (calls two_listeners)
          ++ ((λ i, (store_Wlistener i, "new block")) <$> listeners_vector two_listeners) ∧
        omap binds (calls s') = omap binds (calls two_listeners) ++ [AttachCurrentThread; DetachCurrentThread].
Proof.
  apply (notify_tells_every_listener (V:=native_jvm) "new block" two_listeners).
  - reflexivity.
  - by right.
  - repeat constructor; eexists; reflexivity.
  - intros l. by repeat constructor.
Defined.

(** A listener without [onNotify] is stored all the same; the next notification
    calls a NULL method. *)
Definition no_method_jvm : Jvm := {|
  get_env := JNI_OK;
  attach := 0;
  onNotify_of := λ _, None;
  exception_after := λ _, false;
  collected := λ _ _, false
|}.

Example notify_null_method :
  (setNotifyListenerNativeCallback (V:=no_method_jvm) 7;; notifycallback (V:=no_method_jvm) "a") jinit = None.
Proof. vm_compute. reflexivity. Qed.
