(* ===== verification/JniThreads.v ===== *)
(** * The Android service: threads

    Java threads register and clear listeners while threads of the node notify
    them, and [nodeMainNative] clears them when the node ends.  [Jni] runs each
    native method in one piece; here a method advances by its accesses to
    [listeners_vector] and any thread may be the next to move.  An iteration over
    the vector goes on only while the vector has not changed since it began (its
    iterators are invalid afterwards), and a method is called only when [callable]
    says it can be.
    The theorems relate the two views and say which interleavings are safe. *)
From S2P Require Import CLib.
From S2P Require Export Jni.

(** ** Threads

    What a thread does next.  [APush]: append the new listener; [AClearAt] and
    [ANotifyAt]: the next element of an iteration, with the version of the vector
    it began with; [ARun]: the node's [main] is running. *)
Inductive act :=
  | ASet (listener : nat)
  | APush (o : NotifyListenerStore)
  | AClear
  | AClearAt (k version : nat)
  | ANotify (data : string)
  | ANotifyAt (data : string) (k version : nat)
  | AMain (system_dir : cstr)
  | ARun
  | ADone.

(** The native methods, as they are called. *)
Definition entry (a : act) : bool :=
  match a with ASet _ | AClear | ANotify _ | AMain _ => true | _ => false end.

(** A thread inside its use of the vector; one that changes it. *)
Definition active (a : act) : bool :=
  match a with APush _ | AClearAt _ _ | ANotifyAt _ _ _ => true | _ => false end.

Definition writing (a : act) : bool :=
  match a with APush _ | AClearAt _ _ => true | _ => false end.

Definition with_vector (ls : list NotifyListenerStore) (s : jst) : jst :=
  JSt (jvm_known s) ls (next_ref s) (calls s).

Definition log_call (c : jcall) (s : jst) : jst :=
  JSt (jvm_known s) (listeners_vector s) (next_ref s) (calls s ++ [c]).

Section Threads.
Context {V : Jvm}.

(** One move of a thread; [None] is undefined behaviour.  The number is the
    version of the vector. *)
Definition move (s : jst) (version : nat) (a : act) : option (jst * nat * act) :=
  match a with
  | ASet l =>
      let ref := next_ref s in
      Some (JSt true (listeners_vector s) (S ref) (calls s ++ [NewWeakGlobalRef l ref]), version,
            APush {| store_Wlistener := ref; store_method := onNotify_of l |})
  | APush o =>
      Some (log_call (android_log (" Subscribe to Listener  OK " +:+ NL))
              (with_vector (listeners_vector s ++ [o]) s), S version, ADone)
  | AClear =>
      Some (s, version, if decide (listeners_vector s = []) then ADone else AClearAt 0 version)
  | AClearAt k v =>
      if (v =? version)%nat then
        match listeners_vector s !! k with
        | Some o =>
            Some (log_call (DeleteWeakGlobalRef (store_Wlistener o))
                    (with_vector (<[k := {| store_Wlistener := store_Wlistener o; store_method := None |}]>
                                   (listeners_vector s)) s), version, AClearAt (S k) v)
        | None => Some (with_vector [] s, S version, ADone)
        end
      else None
  | ANotify data =>
      '(env, s') ← notify_env data s;
      match env with
      | None => Some (s', version, ADone)
      | Some false => None
      | Some true => Some (s', version, ANotifyAt data 0 version)
      end
  | ANotifyAt data k v =>
      if (v =? version)%nat then
        match listeners_vector s !! k with
        | Some o =>
            m ← callable o s;
            Some (log_call (CallVoidMethod (store_Wlistener o) m data) s, version, ANotifyAt data (S k) v)
        | None => '(_, s') ← notify_end s; Some (s', version, ADone)
        end
      else None
  | AMain dir =>
      Some (log_call dap_notify_data_set_user_callback
              (log_call (set_global_sys_dir (jstring2string dir)) s), version, ARun)
  | ARun => Some (s, version, AClear)
  | ADone => Some (s, version, ADone)
  end.

(** *** Interleavings *)
Inductive conf :=
  | Running (s : jst) (version : nat) (threads : list act)
  | Crashed.

Inductive cstep : conf → conf → Prop :=
  | step_call a s v ts : entry a = true → cstep (Running s v ts) (Running s v (ts ++ [a]))
  | step_move i a a' s s' v v' ts :
      ts !! i = Some a → move s v a = Some (s', v', a') →
      cstep (Running s v ts) (Running s' v' (<[i := a']> ts))
  | step_crash i a s v ts :
      ts !! i = Some a → move s v a = None → cstep (Running s v ts) Crashed.

(** No thread uses the vector while another one changes it. *)
Definition exclusive (ts : list act) : Prop :=
  ∀ i j a b, ts !! i = Some a → ts !! j = Some b →
    writing a = true → active b = true → i = j.

Definition calm_conf (c : conf) : Prop :=
  match c with Running _ _ ts => exclusive ts | Crashed => True end.

(** Steps of an environment that keeps changes of the vector apart. *)
Definition estep (c c' : conf) : Prop := cstep c c' ∧ calm_conf c'.

(** ** The invariant

    The references alive are those of the listeners, of the one about to be
    appended too, and of the ones not yet cleared only. *)
Definition held (a : act) (ls : list NotifyListenerStore) : list NotifyListenerStore :=
  match a with
  | APush o => ls ++ [o]
  | AClearAt k _ => drop k ls
  | _ => ls
  end.

Definition good (s : jst) (ls : list NotifyListenerStore) : Prop :=
  live_refs ∅ (calls s) = Some (list_to_set (refs ls)) ∧ Forall (λ o, is_Some (store_method o)) ls.

Definition thread_ok (s : jst) (version : nat) (a : act) : Prop :=
  match a with
  | AClearAt _ v | ANotifyAt _ _ v => v = version
  | APush o => NoDup (refs (listeners_vector s ++ [o])) ∧ (store_Wlistener o < next_ref s)%nat
  | _ => True
  end.

Definition no_writer (ts : list act) : Prop := ∀ i a, ts !! i = Some a → writing a = false.

Record sound (s : jst) (version : nat) (ts : list act) : Prop := {
  sound_distinct : NoDup (refs (listeners_vector s));
  sound_below : Forall (λ r, r < next_ref s)%nat (refs (listeners_vector s));
  sound_threads : ∀ i a, ts !! i = Some a → thread_ok s version a;
  sound_writer : ∀ i a, ts !! i = Some a → writing a = true → good s (held a (listeners_vector s));
  sound_idle : no_writer ts → good s (listeners_vector s)
}.

Lemma no_writer_insert i a a' ts :
  ts !! i = Some a → writing a = false → no_writer (<[i := a']> ts) → no_writer ts.
Proof.
  intros Hi Ha Hn j b Hj. destruct (decide (i = j)) as [->|Hne]; [naive_solver|].
  apply (Hn j). by rewrite list_lookup_insert_ne.
Qed.

(** An active thread excludes every other writer. *)
Lemma active_alone i a ts :
  exclusive ts → ts !! i = Some a → active a = true → writing a = false → no_writer ts.
Proof.
  intros He Hi Ha Hw j b Hj. destruct (writing b) eqn:Hb; [|done].
  assert (j = i) by (by apply (He j i b a)). naive_solver.
Qed.

Lemma writer_alone i a ts j b :
  exclusive (<[i := a]> ts) → writing a = true → i ≠ j → is_Some (ts !! i) → ts !! j = Some b →
  active b = false.
Proof.
  intros He Ha Hij [c Hi] Hj. destruct (active b) eqn:Hb; [|done]. exfalso. apply Hij.
  eapply (He i j a b); [|by rewrite list_lookup_insert_ne|done|done].
  apply list_lookup_insert_eq. by eapply lookup_lt_Some.
Qed.

Lemma inactive_ok s v a : active a = false → thread_ok s v a.
Proof. by destruct a. Qed.

Lemma inactive_not_writing a : active a = false → writing a = false.
Proof. by destruct a. Qed.

Lemma good_extend s s' ls l :
  good s ls → calls s' = calls s ++ l → Forall (harmless (list_to_set (refs ls))) l → good s' ls.
Proof.
  intros [Hl Hm] Hc Hh. split; [|done]. rewrite Hc, live_refs_app, Hl. by apply live_refs_harmless.
Qed.

(** A move that neither begins nor ends a change of the vector. *)
Lemma sound_quiet i a a' s s' v ts l :
  sound s v ts → ts !! i = Some a → writing a = false → writing a' = false →
  listeners_vector s' = listeners_vector s → next_ref s' = next_ref s → calls s' = calls s ++ l →
  thread_ok s' v a' →
  (∀ X, (no_writer ts → X = listeners_vector s) → Forall (harmless (list_to_set (refs X))) l) →
  sound s' v (<[i := a']> ts).
Proof.
  intros Hs Hi Ha Ha' Hv Hn Hc Hok Hl. destruct Hs as [Hd Hb Ht Hw Hidle].
  constructor; rewrite ?Hv, ?Hn; try done.
  - intros j b [(-> & <- & _)|[Hij Hj]]%list_lookup_insert_Some; [done|].
    specialize (Ht j b Hj). destruct b; simpl in *; rewrite ?Hv, ?Hn; done.
  - intros j b [(-> & <- & _)|[Hij Hj]]%list_lookup_insert_Some Hwb; [congruence|].
    eapply good_extend; [by eapply Hw|done|]. apply Hl. intros Hno. specialize (Hno j b Hj). congruence.
  - intros Hno%(no_writer_insert i a); [|done..].
    eapply good_extend; [by apply Hidle|done|]. by apply Hl.
Qed.

(** A move that begins a change: the thread is the only active one. *)
Lemma sound_enter i a s' v ts :
  exclusive (<[i := a]> ts) → is_Some (ts !! i) → writing a = true →
  NoDup (refs (listeners_vector s')) → Forall (λ r, r < next_ref s')%nat (refs (listeners_vector s')) →
  thread_ok s' v a → good s' (held a (listeners_vector s')) →
  sound s' v (<[i := a]> ts).
Proof.
  intros He Hi Ha Hd Hb Hok Hg.
  assert (Hother : ∀ j b, <[i := a]> ts !! j = Some b → b = a ∨ active b = false).
  { intros j b [(-> & <- & _)|[Hij Hj]]%list_lookup_insert_Some; [by left|right].
    by eapply writer_alone. }
  constructor; try done.
  - intros j b [->|Hb']%Hother; [done|by apply inactive_ok].
  - intros j b [->|Hb'%inactive_not_writing]%Hother; congruence.
  - intros Hno. destruct Hi as [c Hi]. specialize (Hno i a).
    rewrite list_lookup_insert_eq in Hno by (by eapply lookup_lt_Some). by rewrite Hno in Ha.
Qed.

(** A move that ends a change. *)
Lemma sound_leave i a s' v' ts :
  exclusive ts → ts !! i = Some a → writing a = true →
  NoDup (refs (listeners_vector s')) → Forall (λ r, r < next_ref s')%nat (refs (listeners_vector s')) →
  good s' (listeners_vector s') → sound s' v' (<[i := ADone]> ts).
Proof.
  intros He Hi Ha Hd Hb Hg.
  assert (Hother : ∀ j b, <[i := ADone]> ts !! j = Some b → active b = false).
  { intros j b [(-> & <- & _)|[Hij Hj]]%list_lookup_insert_Some; [done|].
    destruct (active b) eqn:Hab; [|done]. exfalso. apply Hij. by apply (He i j a b). }
  constructor; try done.
  - intros j b Hj. eapply inactive_ok, Hother, Hj.
  - intros j b Hj%Hother%inactive_not_writing. congruence.
Qed.

Lemma refs_insert_null k ls o :
  ls !! k = Some o →
  refs (<[k := {| store_Wlistener := store_Wlistener o; store_method := None |}]> ls) = refs ls.
Proof.
  intros Hk. unfold refs. rewrite list_fmap_insert. simpl. apply list_insert_id.
  by rewrite list_lookup_fmap, Hk.
Qed.

(** The environment of the virtual machine is at hand or the thread can be
    attached, every listener has its method, none throws and none is collected. *)
Definition jvm_serves : Prop :=
  (get_env = JNI_OK ∨ get_env = JNI_EDETACHED ∧ attach = 0%Z) ∧ (∀ l, is_Some (onNotify_of l)) ∧
  (∀ l, exception_after l = false) ∧ (∀ l r, collected l r = false).

Lemma notify_env_serves data s :
  jvm_serves → ∃ env s', notify_env data s = Some (env, s') ∧ env ≠ Some false.
Proof.
  intros [Henv _]. unfold notify_env, fmap, J_fmap, mbind, J_bind. simpl.
  destruct (jvm_known s); simpl; [|by eauto].
  destruct Henv as [->|[-> ->]]; simpl; eauto.
Qed.

(** Who begins a change finds no writer. *)
Lemma enter_idle i a a' ts :
  exclusive (<[i := a']> ts) → ts !! i = Some a → writing a = false → writing a' = true → no_writer ts.
Proof.
  intros He Hi Ha Ha' j b Hj. destruct (decide (i = j)) as [->|Hij]; [naive_solver|].
  eapply inactive_not_writing, writer_alone; eauto.
Qed.

Lemma sound_set i l s v ts :
  (∀ l, is_Some (onNotify_of l)) → sound s v ts → ts !! i = Some (ASet l) →
  let o := {| store_Wlistener := next_ref s; store_method := onNotify_of l |} in
  exclusive (<[i := APush o]> ts) →
  sound (JSt true (listeners_vector s) (S (next_ref s)) (calls s ++ [NewWeakGlobalRef l (next_ref s)])) v
    (<[i := APush o]> ts).
Proof.
  intros Hmeth Hs Hi o He. destruct Hs as [Hd Hb Ht Hw Hidle].
  destruct Hidle as [Hl Hm]; [by eapply enter_idle|].
  assert (Hnew : NoDup (refs (listeners_vector s ++ [o]))).
  { unfold refs in *. rewrite fmap_app. apply NoDup_app. split; [done|].
    split; [|apply NoDup_singleton]. intros r Hr ->%list_elem_of_singleton.
    rewrite Forall_forall in Hb. specialize (Hb _ Hr). simpl in Hb. lia. }
  apply sound_enter; simpl; eauto.
  - eapply Forall_impl; [exact Hb|]. simpl. lia.
  - split; simpl.
    + rewrite live_refs_app, Hl. unfold refs. rewrite fmap_app. simpl. f_equal.
      rewrite list_to_set_app_L. simpl. set_solver.
    + apply Forall_app. split; [done|]. constructor; [apply Hmeth|done].
Qed.

Lemma sound_push i o s v ts :
  sound s v ts → exclusive ts → ts !! i = Some (APush o) →
  sound (log_call (android_log (" Subscribe to Listener  OK " +:+ NL))
           (with_vector (listeners_vector s ++ [o]) s)) (S v) (<[i := ADone]> ts).
Proof.
  intros Hs He Hi. destruct Hs as [Hd Hb Ht Hw Hidle].
  destruct (Ht _ _ Hi) as [Hnew Hlt]. specialize (Hw _ _ Hi eq_refl). simpl in Hw.
  eapply sound_leave; eauto; simpl.
  - unfold refs in *. rewrite fmap_app. apply Forall_app. split; [done|]. by repeat constructor.
  - eapply good_extend; [exact Hw|done|]. by repeat constructor.
Qed.

(** Starting to clear, and the turns of its loop. *)
Lemma sound_clear i s v ts :
  sound s v ts → ts !! i = Some AClear → exclusive (<[i := AClearAt 0 v]> ts) →
  sound s v (<[i := AClearAt 0 v]> ts).
Proof.
  intros Hs Hi He. destruct Hs as [Hd Hb Ht Hw Hidle]. apply sound_enter; simpl; eauto.
  apply Hidle. by eapply enter_idle.
Qed.

Lemma sound_clear_one i k o s v ts :
  sound s v ts → ts !! i = Some (AClearAt k v) → exclusive (<[i := AClearAt (S k) v]> ts) →
  listeners_vector s !! k = Some o →
  sound (log_call (DeleteWeakGlobalRef (store_Wlistener o))
           (with_vector (<[k := {| store_Wlistener := store_Wlistener o; store_method := None |}]>
              (listeners_vector s)) s)) v (<[i := AClearAt (S k) v]> ts).
Proof.
  intros Hs Hi He Hk. destruct Hs as [Hd Hb Ht Hw Hidle].
  destruct (Hw _ _ Hi eq_refl) as [Hl Hm]. simpl in Hl, Hm.
  rewrite (drop_S _ o) in Hl, Hm by done. apply Forall_cons in Hm as [_ Hm].
  apply sound_enter; simpl; eauto; rewrite ?refs_insert_null by done; try done.
  rewrite drop_insert_lt by lia. split; [|done]. simpl.
  rewrite live_refs_app, Hl. unfold refs. csimpl. rewrite decide_True by set_solver.
  assert (Hnot : store_Wlistener o ∉ refs (drop (S k) (listeners_vector s))).
  { clear -Hd Hk. rewrite <- (take_drop_middle _ _ _ Hk) in Hd. unfold refs in *.
    rewrite fmap_app in Hd. apply NoDup_app in Hd as (_ & _ & Hd). csimpl in Hd.
    by apply NoDup_cons in Hd as [? _]. }
  revert Hnot. unfold refs. csimpl. intros Hnot. f_equal. clear -Hnot. set_solver.
Qed.

Lemma sound_clear_end i k s v ts :
  sound s v ts → exclusive ts → ts !! i = Some (AClearAt k v) → listeners_vector s !! k = None →
  sound (with_vector [] s) (S v) (<[i := ADone]> ts).
Proof.
  intros Hs He Hi Hk. destruct Hs as [Hd Hb Ht Hw Hidle].
  specialize (Hw _ _ Hi eq_refl). simpl in Hw. rewrite drop_ge in Hw by by apply lookup_ge_None.
  eapply sound_leave; eauto; simpl; constructor.
Qed.

Lemma sound_move i a a' s s' v v' ts :
  jvm_serves → sound s v ts → exclusive ts → exclusive (<[i := a']> ts) →
  ts !! i = Some a → move s v a = Some (s', v', a') → sound s' v' (<[i := a']> ts).
Proof.
  intros (_ & Hmeth & _) Hs He He' Hi Hm. pose proof (sound_threads _ _ _ Hs i a Hi) as Hok.
  destruct a as [l|o| |k w|data|data k w|dir| |]; simpl in Hm.
  - simplify_eq. by apply sound_set.
  - simplify_eq. by apply sound_push.
  - destruct (decide _) in Hm; simplify_eq; [|by apply sound_clear].
    by eapply (sound_quiet i AClear ADone s' s' v' ts []); rewrite ?app_nil_r.
  - rewrite Hok, Nat.eqb_refl in Hm. simpl in Hok. subst w.
    destruct (listeners_vector s !! k) as [o|] eqn:Hk; simplify_eq;
      [by apply sound_clear_one|by eapply sound_clear_end].
  - destruct (notify_env data s) as [[env s1]|] eqn:Hn; [|done].
    destruct (quiet_notify_env _ _ _ _ Hn) as (Hv & Hr & l & Hc & Hf).
    assert (Hq : ∀ X, Forall (harmless X) l).
    { intros X. eapply Forall_impl; [exact Hf|]. auto. }
    destruct env as [[]|]; simplify_eq/=; eapply sound_quiet; eauto; done.
  - rewrite Hok, Nat.eqb_refl in Hm. simpl in Hok. subst w.
    assert (Hno : no_writer ts) by (by eapply active_alone).
    destruct (listeners_vector s !! k) as [o|] eqn:Hk.
    + destruct (callable o s) as [m|]; simplify_eq/=.
      eapply (sound_quiet i _ _ s _ v' ts [_]); eauto; try done.
      intros X HX. constructor; [|constructor]. unfold harmless. simpl.
      rewrite decide_True; [done|]. rewrite HX by done. apply elem_of_list_to_set, list_elem_of_fmap.
      exists o. split; [done|]. by eapply list_elem_of_lookup_2.
    + destruct (notify_end s) as [[u s1]|] eqn:Hn; [|done].
      destruct (quiet_notify_end _ _ _ Hn) as (Hv & Hr & l & Hc & Hf). simplify_eq/=.
      eapply sound_quiet; eauto; try done. intros X _. eapply Forall_impl; [exact Hf|]. auto.
  - simplify_eq. eapply (sound_quiet i _ _ s _ v' ts [_; _]); eauto; try done.
    + simpl. by rewrite <- app_assoc.
    + intros X _. by repeat constructor.
  - simplify_eq. eapply (sound_quiet i _ _ s' s' v' ts []); rewrite ?app_nil_r; done.
  - simplify_eq. eapply (sound_quiet i _ _ s' s' v' ts []); rewrite ?app_nil_r; done.
Qed.

Lemma notify_end_returns s : ∃ s', notify_end s = Some (tt, s').
Proof.
  unfold notify_end, mbind, J_bind. simpl.
  destruct (exception_after _), (get_env =z? JNI_EDETACHED); simpl; eauto.
Qed.

Lemma sound_no_crash i a s v ts :
  jvm_serves → sound s v ts → exclusive ts → ts !! i = Some a → move s v a ≠ None.
Proof.
  intros Hj Hs He Hi. pose proof (sound_threads _ _ _ Hs i a Hi) as Hok.
  destruct a as [l|o| |k w|data|data k w|dir| |]; simpl; try done.
  - rewrite Hok, Nat.eqb_refl. by destruct (_ !! k).
  - destruct (notify_env_serves data s Hj) as ([[]|] & s' & -> & Henv); done.
  - rewrite Hok, Nat.eqb_refl. destruct (_ !! k) as [o|] eqn:Hk.
    + destruct (sound_idle _ _ _ Hs) as [_ Hm]; [by eapply active_alone|].
      destruct (Forall_lookup_1 _ _ _ _ Hm Hk) as [m Hom]. destruct Hj as (_ & _ & Hx & Hcol).
      unfold callable. by rewrite Hx, Hcol, Hom.
    + by destruct (notify_end_returns s) as [s' ->].
Qed.

Lemma sound_call a s v ts : entry a = true → sound s v ts → sound s v (ts ++ [a]).
Proof.
  intros Ha [Hd Hb Ht Hw Hidle].
  assert (Hsnoc : ∀ j b, (ts ++ [a]) !! j = Some b → ts !! j = Some b ∨ b = a).
  { intros j b [Hj|[_ Hj]]%lookup_app_Some; [by left|right]. by apply list_lookup_singleton_Some in Hj as [_ ?]. }
  constructor; try done.
  - intros j b [Hj| ->]%Hsnoc; [by eapply Ht|by destruct a].
  - intros j b [Hj| ->]%Hsnoc Hwr; [by eapply Hw|by destruct a].
  - intros Hno. apply Hidle. intros j b Hj. apply (Hno j). by apply lookup_app_l_Some.
Qed.

Definition start : conf := Running jinit 0 [].

Definition safe_conf (c : conf) : Prop :=
  match c with Running s v ts => sound s v ts ∧ exclusive ts | Crashed => False end.

Lemma safe_start : safe_conf start.
Proof. by repeat split; try constructor. Qed.

Lemma safe_estep c c' : jvm_serves → safe_conf c → estep c c' → safe_conf c'.
Proof.
  intros Hj Hc [Hstep Hcalm]. destruct Hstep as [a s v ts Ha|i a a' s s' v v' ts Hi Hm|i a s v ts Hi Hm];
    destruct Hc as [Hs He]; simpl in *.
  - split; [by apply sound_call|done].
  - split; [by eapply sound_move|done].
  - by eapply sound_no_crash.
Qed.

(** C26 (listener_threads_safe): provided the virtual machine serves its threads
    ([jvm_serves]: a notifying thread is attached or can be attached, every
    listener has an [onNotify] method, no listener throws and none is collected),
    however the threads of the service interleave, as long as none uses the list
    of listeners while another one changes it (notifications may overlap each
    other), nothing undefined happens: every iteration stays on the vector it began
    with, no method that a clearing thread has set to NULL is called, and no weak
    reference is used or deleted after it was deleted; when no change is in
    progress the references alive are exactly those of the registered listeners.
    Neither condition is ensured by the code ([notify_null_method],
    [notify_after_throw], [notify_during_shutdown], [register_during_notify]). *)
Theorem listener_threads_safe c :
  jvm_serves → rtc estep start c →
  ∃ s v ts, c = Running s v ts ∧ is_Some (live_refs ∅ (calls s)) ∧
    (no_writer ts → live_refs ∅ (calls s) = Some (list_to_set (refs (listeners_vector s)))).
Proof.
  intros Hj Hr. assert (Hc : safe_conf c).
  { pose proof safe_start as H0. revert H0. induction Hr as [|c1 c2 c3 Hstep _ IH]; [done|]. intros H1.
    apply IH. by eapply safe_estep. }
  destruct c as [s v ts|]; [|done]. destruct Hc as [Hs He]. exists s, v, ts. split; [done|].
  split; [|intros Hno; apply (sound_idle _ _ _ Hs Hno)].
  destruct (decide (Forall (λ a, writing a = false) ts)) as [Hno|Hw].
  - destruct (sound_idle _ _ _ Hs) as [-> _]; [|by eauto]. intros i a Hi. by eapply Forall_lookup_1 in Hno.
  - apply not_Forall_Exists in Hw; [|apply _]. apply Exists_exists in Hw as (a & Ha & Hwr).
    apply list_elem_of_lookup_1 in Ha as [i Hi]. apply not_false_is_true in Hwr.
    destruct (sound_writer _ _ _ Hs i a Hi Hwr) as [-> _]. eauto.
Qed.

(** ** One method at a time *)
Definition alone (x y : jst * nat * act) : Prop :=
  let '(s, v, a) := x in move s v a = Some y.

Lemma alone_set l s s' v :
  setNotifyListenerNativeCallback l s = Some (tt, s') → rtc alone (s, v, ASet l) (s', S v, ADone).
Proof.
  intros [= <-]. eapply rtc_l; [reflexivity|]. eapply rtc_once. unfold alone. simpl.
  unfold log_call, with_vector. simpl. by rewrite <- app_assoc.
Qed.

(** The loop of [clear]: the methods of the listeners before [k] are NULL. *)
Lemma alone_clear_loop todo : ∀ s v k,
  drop k (listeners_vector s) = todo →
  rtc alone (s, v, AClearAt k v)
    (JSt (jvm_known s) [] (next_ref s)
       (calls s ++ ((λ o, DeleteWeakGlobalRef (store_Wlistener o)) <$> todo)), S v, ADone).
Proof.
  induction todo as [|o todo IH]; intros s v k Hk.
  - eapply rtc_once. unfold alone. simpl. rewrite Nat.eqb_refl.
    assert (listeners_vector s !! k = None) as ->.
    { apply lookup_ge_None. assert (Hl : length (drop k (listeners_vector s)) = 0%nat) by by rewrite Hk.
      rewrite length_drop in Hl. lia. }
    by rewrite app_nil_r.
  - assert (Ho : listeners_vector s !! k = Some o).
    { rewrite <- (Nat.add_0_r k), <- lookup_drop, Hk. done. }
    eapply rtc_l; [unfold alone; simpl; rewrite Nat.eqb_refl, Ho; reflexivity|].
    etransitivity; [apply IH|].
    + simpl. rewrite drop_insert_lt by lia. rewrite (drop_S _ _ _ Ho) in Hk. by injection Hk.
    + simpl. rewrite <- app_assoc. apply rtc_refl.
Qed.

Lemma alone_clear s s' v :
  clearNotifyListenerNativeCallbacks s = Some (tt, s') → ∃ v', rtc alone (s, v, AClear) (s', v', ADone).
Proof.
  intros [= <-]. destruct (decide (listeners_vector s = [])) as [He|Hne].
  - exists v. eapply rtc_once. unfold alone. simpl. rewrite decide_True, He by done. simpl.
    rewrite app_nil_r. by destruct s; simpl in *; subst.
  - exists (S v). eapply rtc_l; [unfold alone; simpl; by rewrite decide_False|].
    by apply (alone_clear_loop (listeners_vector s) s v 0).
Qed.

Lemma alone_notify_loop data todo : ∀ s v k s1 s2,
  drop k (listeners_vector s) = todo →
  call_listeners todo data s = Some (tt, s1) → notify_end s1 = Some (tt, s2) →
  rtc alone (s, v, ANotifyAt data k v) (s2, v, ADone).
Proof.
  induction todo as [|o todo IH]; intros s v k s1 s2 Hk Hc Hend.
  - injection Hc as <-. eapply rtc_once. unfold alone. simpl. rewrite Nat.eqb_refl.
    assert (listeners_vector s !! k = None) as ->.
    { apply lookup_ge_None. assert (Hl : length (drop k (listeners_vector s)) = 0%nat) by by rewrite Hk.
      rewrite length_drop in Hl. lia. }
    by rewrite Hend.
  - assert (Ho : listeners_vector s !! k = Some o).
    { rewrite <- (Nat.add_0_r k), <- lookup_drop, Hk. done. }
    cbn [call_listeners] in Hc. unfold mbind, J_bind, call_listener in Hc.
    destruct (callable o s) as [m|] eqn:Hm; [|done].
    eapply rtc_l; [unfold alone; simpl; rewrite Nat.eqb_refl, Ho; simpl; rewrite Hm; reflexivity|].
    eapply IH; [|exact Hc|exact Hend]. simpl. rewrite (drop_S _ _ _ Ho) in Hk. by injection Hk.
Qed.

Lemma alone_notify data b s s' v :
  notifycallback data s = Some (b, s') → rtc alone (s, v, ANotify data) (s', v, ADone).
Proof.
  unfold notifycallback, mbind, J_bind. destruct (notify_env data s) as [[env s1]|] eqn:He; [|done].
  intros Hn. assert (Hfirst : ∀ y, match env with
      | None => Some (s1, v, ADone) | Some false => None | Some true => Some (s1, v, ANotifyAt data 0 v) end
      = Some y → alone (s, v, ANotify data) y).
  { intros y Hy. unfold alone. simpl. by rewrite He. }
  destruct env as [[]|]; [|done|].
  - eapply rtc_l; [by apply Hfirst|]. unfold callOnNotify in Hn.
    destruct (call_listeners _ data s1) as [[[] s2]|] eqn:Hc; [|done].
    destruct (notify_end s2) as [[[] s3]|] eqn:Hend; [|done]. injection Hn as _ <-.
    by eapply (alone_notify_loop data (listeners_vector s1)).
  - injection Hn as _ <-. apply rtc_once. by apply Hfirst.
Qed.

Lemma alone_main f dir z s s' v :
  nodeMainNative f dir s = Some (z, s') → ∃ v', rtc alone (s, v, AMain dir) (s', v', ADone).
Proof.
  unfold nodeMainNative, mbind, J_bind. intros Hm.
  destruct (alone_clear (log_call dap_notify_data_set_user_callback
              (log_call (set_global_sys_dir (jstring2string dir)) s)) s' v) as [v' Hr].
  { simpl in Hm. injection Hm as _ <-. reflexivity. }
  exists v'. eapply rtc_l; [reflexivity|]. eapply rtc_l; [reflexivity|]. exact Hr.
Qed.

Lemma alone_jstep s s' v : jstep s s' → ∃ a v', entry a = true ∧ rtc alone (s, v, a) (s', v', ADone).
Proof.
  intros [l s1 s2 Hm|s1 s2 Hm|data b s1 s2 Hm|f dir z s1 s2 Hm].
  - exists (ASet l), (S v). eauto using alone_set.
  - destruct (alone_clear _ _ v Hm) as [v' Hr]. by exists AClear, v'.
  - exists (ANotify data), v. eauto using alone_notify.
  - destruct (alone_main _ _ _ _ _ v Hm) as [v' Hr]. by exists (AMain dir), v'.
Qed.

Definition all_done (ts : list act) : Prop := Forall (eq ADone) ts.

Lemma exclusive_one ts a : all_done ts → exclusive (ts ++ [a]).
Proof.
  intros Hd. assert (Hlast : ∀ j b, (ts ++ [a]) !! j = Some b → active b = true → j = length ts).
  { intros j b [Hj|[Hge Hj]]%lookup_app_Some Hb.
    - by rewrite <- (Forall_lookup_1 _ _ _ _ Hd Hj) in Hb.
    - apply list_lookup_singleton_Some in Hj as [Hj _]. lia. }
  intros i j b c Hi Hj Hb Hc. rewrite (Hlast j c), (Hlast i b); [done..| |done|done].
  by destruct b.
Qed.

Lemma estep_alone ts x y : all_done ts → rtc alone x y →
  rtc estep (Running x.1.1 x.1.2 (ts ++ [x.2])) (Running y.1.1 y.1.2 (ts ++ [y.2])).
Proof.
  intros Hd. induction 1 as [x|[[s v] a] [[s1 v1] a1] y Hm _ IH]; [apply rtc_refl|].
  eapply rtc_l; [|exact IH]. split; [|by apply exclusive_one]. simpl.
  pose proof (step_move (length ts) a a1 s s1 v v1 (ts ++ [a])) as Hstep.
  rewrite insert_app_r_alt, Nat.sub_diag in Hstep by lia. apply Hstep; [|done].
  by rewrite lookup_app_r, Nat.sub_diag by lia.
Qed.

(** Every history of native methods run one after
    the other is an interleaving of threads in which no two of them overlap: the
    states in which methods run in one piece are reached by threads too. *)
Theorem atomic_methods_interleave s :
  rtc jstep jinit s → ∃ v ts, rtc estep start (Running s v ts) ∧ all_done ts.
Proof.
  intros Hr. assert (H0 : ∃ v ts, rtc estep start (Running jinit v ts) ∧ all_done ts).
  { exists 0%nat, []. split; [apply rtc_refl|constructor]. }
  revert H0. induction Hr as [|s1 s2 s3 Hstep _ IH]; [done|]. intros (v & ts & Hts & Hd). apply IH.
  destruct (alone_jstep s1 s2 v Hstep) as (a & v' & Ha & Hrun).
  exists v', (ts ++ [ADone]). split; [|by apply Forall_app; repeat constructor].
  etransitivity; [exact Hts|]. eapply rtc_l; [split; [by apply step_call|by apply exclusive_one]|].
  exact (estep_alone ts _ _ Hd Hrun).
Qed.

(** ** Schedules

    A schedule names the next native method to be called or the next thread to
    move; [guard] says which configurations may be entered. *)
Inductive choice := Call (a : act) | Go (i : nat).

Definition choose (c : conf) (x : choice) : option conf :=
  match c, x with
  | Running s v ts, Call a => if entry a then Some (Running s v (ts ++ [a])) else None
  | Running s v ts, Go i =>
      a ← ts !! i;
      Some (match move s v a with
            | Some (s', v', a') => Running s' v' (<[i := a']> ts)
            | None => Crashed
            end)
  | Crashed, _ => None
  end.

Fixpoint play (guard : conf → bool) (c : conf) (l : list choice) : option conf :=
  match l with
  | [] => Some c
  | x :: l' => c' ← choose c x; if guard c' then play guard c' l' else None
  end.

Definition exclusive_b (ts : list act) : bool :=
  forallb (λ x, forallb (λ y, negb (writing x.2 && active y.2) || (x.1 =? y.1)%nat)
    (imap pair ts)) (imap pair ts).

Definition calm_b (c : conf) : bool :=
  match c with Running _ _ ts => exclusive_b ts | Crashed => true end.

Lemma exclusive_b_spec ts : exclusive_b ts = true → exclusive ts.
Proof.
  unfold exclusive_b. intros Hf%forallb_Forall i j a b Hi Hj Ha Hb.
  assert (Hin : ∀ k c, ts !! k = Some c → imap pair ts !! k = Some (k, c)).
  { intros k c Hk. by rewrite list_lookup_imap, Hk. }
  pose proof (Forall_lookup_1 _ _ _ _ Hf (Hin i a Hi)) as Hx. cbn beta in Hx.
  apply forallb_Forall in Hx. pose proof (Forall_lookup_1 _ _ _ _ Hx (Hin j b Hj)) as Hy.
  simpl in Hy. rewrite Ha, Hb in Hy. by apply Nat.eqb_eq.
Qed.

Lemma choose_step c x c' : choose c x = Some c' → cstep c c'.
Proof.
  destruct c as [s v ts|]; [|done]. destruct x as [a|i]; simpl.
  - destruct (entry a) eqn:Ha; [|done]. intros [= <-]. by constructor.
  - destruct (ts !! i) as [a|] eqn:Hi; [|done]. simpl.
    destruct (move s v a) as [[[s' v'] a']|] eqn:Hm; intros [= <-]; by econstructor.
Qed.

Lemma play_steps guard (R : conf → conf → Prop) l : ∀ c c',
  (∀ c1 c2, cstep c1 c2 → guard c2 = true → R c1 c2) → play guard c l = Some c' → rtc R c c'.
Proof.
  induction l as [|x l IH]; intros c c' HR; simpl.
  - intros [= <-]. apply rtc_refl.
  - destruct (choose c x) as [c1|] eqn:Hc; [|done]. simpl.
    destruct (guard c1) eqn:Hg; [|done]. intros Hp. eapply rtc_l; [|by eapply IH].
    apply HR; [by eapply choose_step|done].
Qed.

Lemma play_calm l c c' : play calm_b c l = Some c' → rtc estep c c'.
Proof.
  apply play_steps. intros c1 [s v ts|] Hstep Hg; (split; [done|]); [|done]. by apply exclusive_b_spec.
Qed.

Lemma play_any l c c' : play (λ _, true) c l = Some c' → rtc cstep c c'.
Proof. apply play_steps. auto. Qed.

End Threads.

(** ** Witnesses and examples *)

(** Two notifications that overlap, then the listeners are cleared. *)
Definition overlapping : list choice :=
  [Call (ASet 7); Go 0; Go 0; Call (ASet 8); Go 1; Go 1; Call (ANotify "a"); Call (ANotify "b");
   Go 2; Go 3; Go 2; Go 3; Go 3; Go 2; Go 3; Go 2; Call AClear; Go 4; Go 4; Go 4].

Definition after_overlap : conf := default Crashed (play (V:=demo_jvm) calm_b start overlapping).

Lemma demo_serves : jvm_serves (V:=demo_jvm).
Proof. split_and!; [by left|intros l; by exists 1%nat|done|done]. Qed.

Lemma listener_threads_safe_witness :
  ∃ s v ts, after_overlap = Running s v ts ∧ is_Some (live_refs ∅ (calls s)) ∧
    (no_writer ts → live_refs ∅ (calls s) = Some (list_to_set (refs (listeners_vector s)))).
Proof.
  apply (listener_threads_safe (V:=demo_jvm) after_overlap).
  - exact demo_serves.
  - apply (play_calm (V:=demo_jvm) overlapping). vm_compute. reflexivity.
Defined.

Lemma atomic_methods_interleave_witness :
  ∃ v ts, rtc (estep (V:=demo_jvm)) start (Running two_listeners v ts) ∧ all_done ts.
Proof. exact (atomic_methods_interleave (V:=demo_jvm) two_listeners two_listeners_reached). Defined.

(** Nothing keeps the threads apart: when the node ends, [nodeMainNative] clears
    the listeners while a notification may still be on its way, whose call is then
    undefined. *)
Definition shutdown_race : list choice :=
  [Call (ASet 7); Go 0; Go 0; Call (AMain None); Go 1; Call (ANotify "a"); Go 2;
   Go 1; Go 1; Go 1; Go 2].

Example notify_during_shutdown : rtc (cstep (V:=demo_jvm)) start Crashed.
Proof. apply (play_any (V:=demo_jvm) shutdown_race). vm_compute. reflexivity. Qed.

(** A listener registered during a notification moves the vector the notification
    iterates over. *)
Definition register_race : list choice :=
  [Call (ASet 7); Go 0; Go 0; Call (ANotify "a"); Go 1; Call (ASet 8); Go 2; Go 2; Go 1].

Example register_during_notify : rtc (cstep (V:=demo_jvm)) start Crashed.
Proof. apply (play_any (V:=demo_jvm) register_race). vm_compute. reflexivity. Qed.
